(* ===== verification/_CoqProject ===== *)
-Q . S2P
Prelude.v
Hdl.v
PyStr.v
Paths.v
Units.v
Make.v
FlashImage.v
Platform.v
PlatformsIce.v
PlatformsSeries7.v
PlatformsSpartan6.v
PlatformAtlys.v
PlatformOpsis.v
Boards.v
Resources.v
Hooks.v
Vendor.v
Cas.v
Soc.v
TargetsOpsis.v
TargetsAtlys.v
TargetsIce.v
TargetsSpartan6.v
TargetsSeries7.v
Info.v
NetConfig.v
CpuInterface.v
Crg.v
Clocks.v
ClockTree.v
ClockTrees.v
SpiFlash.v
EncoderBuffer.v
EncoderDma.v
EncoderPipeline.v
EncoderLiveness.v
EncoderTop.v
Streamer.v
Pattern.v
OpsisI2c.v
I2c.v
FreqMeasurement.v
Pwm.v
Spram.v
Ice40Led.v
Oled.v
Rtp.v
Rgmii.v
EndianSwap.v
Peripherals.v
LogFilter.v
HostTools.v
LoadPattern.v
XilinxTrace.v
XilinxCopy.v
PrebuiltList.v
PrebuiltSite.v
BoardTests.v
Capture.v
AxiomTest.v
VideoTests.v
BistTests.v
