(* ===== verification/Prelude.v ===== *)
(** * A verification of the HDMI2USB LiteX firmware's Python code

    The repository builds the FPGA design and the firmware image of the
    HDMI2USB video capture boards (and of two dozen other boards) with Migen
    and LiteX. Its Python code is of four kinds, and so is this development:

    - _gateware_ (src/gateware): modules that Migen turns into hardware. Each is
      modelled as a synchronous circuit, [next : input -> state -> state], one
      field for each register and one step for a clock cycle, with the FSMs as
      inductive types and the combinational signals as functions;
    - _boards_ (src/platforms): tables of pins and constants, in part computed
      when the module is loaded. The tables are copied entry by entry;
    - _targets_ (src/targets): SoC classes that number CSR banks, extend memory
      maps and call LiteX in their constructors. A constructor is a function
      from its arguments to the list of steps it takes, or an exception;
    - _tools_ (make.py, load.py, mkimage.py, flash.py, the host's tools in test,
      the build service's scripts in .travis): Python functions on strings,
      paths and files; exceptions are values of [result].

    LiteX, Migen's library modules, the vendor primitives and the file system
    are third-party. What the code relies on is a class or a hypothesis that
    states documented behaviour, with an instance that shows it can hold; where
    only the result matters it is an argument.

    ** Files, parts of the program, theorems

    Shared: this file (exceptions, words of a fixed width, their arithmetic and
    its hints), [Hdl] (executions of a circuit, reachability, the invariant
    rule, events, interfaces of LiteX building blocks), [PyStr] (Python's string
    methods, number formatting, dictionary lookups), [Paths] (paths by their
    names, the order of strings), [Units] (Python's floats as IEEE doubles, with
    the MHz type of targets/utils.py: whole frequencies are exact).

    Gateware.
    - [SpiFlash]: gateware/spi_flash.py, [SpiFlash], [SpiFlashDualQuad] and
      [SpiFlashSingle] with the sequencer of [timeline]. A bus read puts out
      command and address bit by bit and returns the flash's data, for every
      width and clock divider.
    - [EncoderDma], [EncoderBuffer]: gateware/encoder/core.py. The reader visits
      every word of a frame once, in the raster order of 8x8 blocks; the double
      buffer refines a queue of blocks and does not deadlock.
    - [EncoderPipeline]: the two with the FIFO between their clock domains, as
      targets/opsis/hdmi2usb.py connects them. An execution is any sequence of
      edges of the two clocks; the JPEG encoder is given the frame in memory
      block by block, and all of it once the path has drained.
      [EncoderLiveness]: if the modules around it are fair, it does drain.
    - [EncoderTop]: [Encoder] of the same file around the JPEG core: pixel
      pipeline, register bus, and the output FIFO, which loses no byte although
      its ready signal is ignored.
    - [Streamer]: [USBStreamer] of gateware/streamer/core.py, behind the encoder:
      what the USB chip takes, over any edges of the two clocks, is the stream in
      order.
    - [OpsisI2c], [I2c]: gateware/opsis_i2c.py and gateware/i2c.py. The slave
      sends and receives whole bytes, answers only to its address, is silent
      until then, and stores no byte before the firmware has taken the last one
      it was told of; the multiplexer isolates its clients.
    - [FreqMeasurement], [Pwm], [Spram], [Ice40Led], [Oled], [Rtp], [Rgmii]: the
      modules of these names (Spram, Ice40Led: [SPRAM] and [LED] of
      gateware/ice40.py; Oled: [SPIMaster] of gateware/oled.py; Rtp: gateware/streamer/rtp.py; Rgmii: the framing of
      gateware/s6rgmii.py).
    - [Cas]: gateware/cas.py, which takes all LEDs and buttons a board has; a
      button pad high for the debounce time raises its event once.
    - [Info]: gateware/info. The identifier's registers hold the FPGA's serial
      number after its shift; names written to a register are read back.
    - [Peripherals]: gateware/firmware.py, shared_uart.py, memtest.py. The ROM's
      words are the firmware file, or the file is refused.
    - [EndianSwap]: the byte swapper between PCI Express and the NeTV2's bus. A
      slave that answers in one cycle is shown every access twice.

    Boards.
    - [Platform] (data), [PlatformsIce], [PlatformsSeries7],
      [PlatformsSpartan6]: the tables of all boards but two.
    - [PlatformOpsis]: the Opsis, its expansion connector and the LowSpeedIO and
      Axiom boards. The loop that groups the connector's nets loses none.
    - [PlatformAtlys]: the Atlys, whose table depends on a jumper and on
      mutable module state.
    - [Boards]: the boards with a flash together; which images fit it.
    - [Hooks]: [create_programmer] and [do_finalize] of every board: the
      programmers that cannot be made because a module is not imported or the
      default is refused, and the period constraints. [Vendor]: the options the
      boards give the vendor tools, the texts about the HDMI ports, the UPduino's
      oscillator.
    - [Resources]: what LiteX promises about requests ([Litex], [LitexLaws]);
      every implementation does what a list does.

    Targets.
    - [Soc]: CSR numbering, memory maps, the steps of a constructor.
    - [TargetsOpsis], [TargetsAtlys]: the SoC classes of the two video boards.
      All requests succeed on different pins; the regions are disjoint except
      in one configuration; the boot address agrees with the flash image for
      one ROM size only; which expansion boards and which jumper settings can
      be built.
    - [TargetsIce]: the SoCs of the six iCE40 boards, which run from the flash.
      Their requests succeed on different pins; reset address, boot address and
      regions are where [mkimage.py] puts BIOS and firmware.
    - [TargetsSpartan6], [TargetsSeries7]: the SoCs of the other boards, nine
      and sixteen classes. Those whose requests succeed take different pins;
      the theorems name the others and how each fails, and where the boot
      address differs from the image's.
    - [Crg]: the clocks of the video boards.
    - [Clocks]: the clocks of the boards of [TargetsSpartan6] and
      [TargetsSeries7], as exact rationals: the PLL reaches the SoC's frequency
      or the module's assertion fails; the delay controller's reset ends.
    - [ClockTree], [ClockTrees]: a module's clock and reset circuit as a netlist
      of clock primitives. What the FPGA's primitives make of a clock and how
      migen's [AsyncResetSynchronizer] lets go of a reset are classes with their
      documented laws; for all instances [ClockTree] gives the frequency and
      phase of every net and the resets and the power-on counter as a step
      function, and [ClockTrees] the 24 [_CRG] classes. Apart from the ones the
      theorems name, every domain of a SoC that can be built has a clock of
      the frequency declared or meant; the memory's clocks have their phases; a
      domain is in reset exactly while its condition holds and until its
      synchroniser lets go; the system domain until the PLL has locked and
      the counter has run out.
    - [NetConfig]: [configure_iprange] of the networked targets.
    - [CpuInterface]: targets/common/cpu_interface.py, the C header and the CSV
      file of the register map, which print the same table.

    Tools.
    - [Make]: make.py and load.py: defaults, file names, the actions of [main].
    - [FlashImage]: mkimage.py and flash.py: the image's layout byte by byte,
      and that flashing a part programs what the image has there.
    - [LoadPattern]: the rest of test/load_pattern.py. With an offset defined
      the frames arrive in order; the script as it is stops on every input.
    - [BoardTests]: test/test_sdram.py and test_ddr3.py. On a faulty memory the
      pattern test counts exactly the words overwritten; the search reports
      exactly the settings that work. [BistTests]: test_sdram_bist.py,
      test_memtest.py, test_leds.py. The tests end and report what the checker
      counted, with the recorded errors by address; the lights go out.
    - [VideoTests]: test_hdmi_out.py, test_alignment.py, test_delays.py,
      hdmi2ethernet/test_dump.py: the colour bars fill exactly the picture that
      the output is given, the scan reports every delay, the picture saved has
      the frame's lines. [Capture]: hdmi2ethernet/test_capture.py, test_sdram.py:
      a capture is cut at the end marks wherever the reads fall.
    - [AxiomTest]: test_axiom.py with the Axiom board's GPIO registers: a name
      drives exactly the FPGA pin the boards' tables give for it.
    - [HostTools]: test/common.py, check_csrs.py, load_pattern.py, test_dump.py.
      The names and the commit that [Info] packs into registers are shown
      again (the commit without leading zeros); the comparison with a flash file
      reports every byte once; a register map that passes the check has
      disjoint registers.
    - [Pattern]: firmware/pattern.py, whose words are not all those of pattern.h.
    - [XilinxTrace], [XilinxCopy]: .travis/package-xilinx-filter-strace.py,
      package-xilinx-cluefs-filter.py and copy-files.py. The files found do not
      depend on the interleaving of the processes; filter and copy together
      raise nothing and copy exactly what was found.
    - [LogFilter]: .travis/run-make-gateware-filter.py. A line with text
      on it shows something, an error is printed with the lines before it, the
      buffer holds the latest lines of the log file; two inputs on which the
      filter itself raises.
    - [PrebuiltList], [PrebuiltSite]: .travis/generate-prebuilt-list.py. The
      revision called unstable is the latest one by version; the index of every
      directory lists what is visible in it; one commit publishes the changes, if
      there are any.

    ** Conventions

    A [w]-bit signal is a [Z] in [0, 2^w); [wrap w] writes its overflow out,
    [slice], [cat] and [top] are Migen's slices and [Cat]. Registers are updated
    from the values before the edge; a later assignment in a block wins. Names
    are those of the source. [Ok]/[Raise] is a Python call's outcome, [option]
    stands for [None] or for a lookup that may fail; [the e I] is an expression
    that the kernel has checked not to raise.

    Fuel is used where a recursion is not structural. [PyStr.digits_base] gets
    one more than the base-2 logarithm of its argument, which bounds the digits
    in any base ([NetConfig.log2_fuel]). [Resources.collect] gets one more than
    the number of resources the board has; every iteration takes one, and
    [Cas.collect_all_takes_run] shows that the loop ends by LiteX's exception
    and not for lack of fuel. [ClockTree.clock_of] follows a net back through at
    most as many cells as there are, and [ClockTree.clock_unique] shows that
    this finds every clock there is; [ClockTree.reset_at] gets one more than the
    number of resets, which bounds the chain of domains that follow each other's
    ([ClockTrees.domain_condition]). [HostTools.cmp_loop] gets the length of the
    file ([HostTools.cmpflash_report]), [HostTools.batches] that of the data, and
    [XilinxCopy.makedirs] the length of the path, which has no more components
    ([XilinxCopy.make_under]). [PyStr.split_on] gets the length of the string,
    [Capture.split_loop] and [Capture.yield_pictures] that of the file
    ([Capture.capture_cut_at_marks]), [VideoTests.lines_of] that of the picture
    ([VideoTests.dump_rows]). [BistTests.wait] gets more polls than the module
    takes.
    Circuits run for a number of cycles given by the theorem.

    ** Not modelled

    C firmware and its build, VHDL and Verilog cores and vendored code; the
    programs' printing where no claim is about it; device names handed to the
    vendor tools; [get_platform], [get_soc] and [get_prog], which import modules
    by name; scripts that only set up LiteScope's analyser, print a reading or
    start a debugger. The simulation targets instantiate Verilator models, and
    two of them cannot be built; firmware/version_data.py does not parse. *)
From Stdlib Require Export ZArith Lia Bool.
From stdpp Require Export base list numbers strings gmap.

#[global] Open Scope Z_scope.

(** * Python's exceptions

    Code that can raise returns a [result]; [x ← e; k] stops at the first
    exception. *)

Inductive exn :=
| AssertionError | ValueError | KeyError | TypeError | AttributeError
| IndexError | SystemError | SystemExit | ConstraintError | UnicodeError | StructError
| ZeroDivisionError | OverflowError | NotImplementedError | NameError
| FileExistsError | NotADirectoryError | FileNotFoundError | IsADirectoryError | CalledProcessError.

Inductive result (A : Type) := Ok (a : A) | Raise (e : exn).
Arguments Ok {A} a.
Arguments Raise {A} e.

#[export] Instance exn_eq_dec : EqDecision exn.
Proof. solve_decision. Defined.

#[export] Instance result_ret : MRet result := @Ok.

#[export] Instance result_bind : MBind result := fun A B f r =>
  match r with Ok a => f a | Raise e => Raise e end.

Definition py_assert (b : bool) : result () := if b then Ok () else Raise AssertionError.

Definition is_ok {A} (r : result A) : bool := match r with Ok _ => true | Raise _ => false end.

Lemma bind_ok {A B} (r : result A) (f : A -> result B) b :
  (r ≫= f) = Ok b -> exists a, r = Ok a /\ f a = Ok b.
Proof. destruct r as [a|e]; simpl; [by eauto | done]. Qed.

Lemma py_assert_ok b u : py_assert b = Ok u -> b = true.
Proof. by destruct b. Qed.

(** * Signals of a fixed width

    A [w]-bit signal is a [Z] in [0, 2^w); an assignment truncates. *)

Definition wrap (w z : Z) : Z := z mod 2 ^ w.

Definition in_width (w z : Z) : Prop := 0 <= z < 2 ^ w.

(** [slice z lo len] is the Python slice [z[lo:lo+len]] of a signal. *)
Definition slice (z lo len : Z) : Z := wrap len (Z.shiftr z lo).

(** [cat w lo hi] is [Cat(lo, hi)] for a [w]-bit [lo]: the first operand is
    the least significant one. *)
Definition cat (w lo hi : Z) : Z := Z.shiftl hi w + wrap w lo.

(** [set_top W w z x] is the value of a [W]-bit [z] after [z[-w:].eq(x)]. *)
Definition set_top (W w z x : Z) : Z := cat (W - w) z (wrap w x).

(** [top W w z] reads [z[-w:]] of a [W]-bit [z]. *)
Definition top (W w z : Z) : Z := slice z (W - w) w.

Definition b2z (b : bool) : Z := if b then 1 else 0.

(** [shift_in W w sr d] is [Cat(d, sr[:-w])] for a [W]-bit [sr]: a new
    [w]-bit digit enters at the bottom, the top digit is lost. *)
Definition shift_in (W w sr d : Z) : Z := cat w d (slice sr 0 (W - w)).

Definition shift_ins (W w sr : Z) (ds : list Z) : Z := fold_left (shift_in W w) ds sr.

(** The value of a list of [w]-bit digits, most significant first, and the
    [n] digits of a value. *)
Definition digits (w : Z) (ds : list Z) : Z := fold_left (fun a d => a * 2 ^ w + d) ds 0.

Definition digit (w : Z) (n : nat) (z : Z) (k : nat) : Z :=
  slice z (w * (Z.of_nat n - 1 - Z.of_nat k)) w.

Definition to_digits (w : Z) (n : nat) (z : Z) : list Z := digit w n z <$> seq 0 n.

Create HintDb width discriminated.

(** Goals such as [0 < 2 ^ w] with a symbolic width. *)
Ltac pow2 :=
  repeat match goal with
  | |- context [2 ^ ?w] =>
      lazymatch goal with
      | _ : 0 < 2 ^ w |- _ => fail
      | _ => assert (0 < 2 ^ w) by (apply Z.pow_pos_nonneg; lia)
      end
  | _ : context [2 ^ ?w] |- _ =>
      lazymatch goal with
      | _ : 0 < 2 ^ w |- _ => fail
      | _ => assert (0 < 2 ^ w) by (apply Z.pow_pos_nonneg; lia)
      end
  end.

(** Case analysis on every boolean comparison or [if] of the goal. *)
Ltac split_ifs :=
  repeat match goal with
  | |- context [if ?b then _ else _] =>
      lazymatch type of b with
      | bool => destruct b eqn:?
      | _ => destruct b
      end
  end.

Ltac bool_to_prop :=
  repeat match goal with
  | H : (_ && _)%bool = true |- _ => apply andb_prop in H; destruct H
  | H : (_ || _)%bool = false |- _ => apply orb_false_elim in H; destruct H
  | H : negb _ = true |- _ => apply negb_true_iff in H
  | H : negb _ = false |- _ => apply negb_false_iff in H
  end.

Lemma pow2_pos (w : Z) : 0 <= w -> 0 < 2 ^ w.
Proof. intros. apply Z.pow_pos_nonneg; lia. Qed.

Lemma wrap_range (w z : Z) : 0 <= w -> in_width w (wrap w z).
Proof. intros. apply Z.mod_pos_bound, pow2_pos; done. Qed.

Lemma wrap_id (w z : Z) : in_width w z -> wrap w z = z.
Proof. apply Z.mod_small. Qed.

Lemma wrap_wrap (w z : Z) : 0 <= w -> wrap w (wrap w z) = wrap w z.
Proof. intros. apply wrap_id, wrap_range; done. Qed.

Lemma b2z_range (b : bool) : in_width 1 (b2z b).
Proof. destruct b; unfold in_width, b2z; lia. Qed.

Lemma b2z_inj (a b : bool) : b2z a = b2z b -> a = b.
Proof. destruct a, b; done. Qed.

Lemma pow2_add (a b : Z) : 0 <= a -> 0 <= b -> 2 ^ (a + b) = 2 ^ a * 2 ^ b.
Proof. intros. apply Z.pow_add_r; done. Qed.

(** Splitting a modulus: the low [a] bits are those of the low digit. *)
Lemma wrap_add_mul (a b x y : Z) :
  0 <= a -> 0 <= b -> in_width a y -> wrap (a + b) (x * 2 ^ a + y) = wrap b x * 2 ^ a + y.
Proof.
  intros Ha Hb Hy. unfold wrap. rewrite pow2_add by done. pow2.
  symmetry. apply Z.mod_unique with (q := x / 2 ^ b).
  - left. pose proof (Z.mod_pos_bound x (2 ^ b)). unfold in_width in Hy. nia.
  - rewrite (Z.div_mod x (2 ^ b)) at 1 by lia. ring.
Qed.

Lemma slice_div (z lo len : Z) : 0 <= lo -> slice z lo len = (z / 2 ^ lo) mod 2 ^ len.
Proof. intros. unfold slice, wrap. by rewrite Z.shiftr_div_pow2. Qed.

Lemma slice_range (z lo len : Z) : 0 <= len -> in_width len (slice z lo len).
Proof. apply wrap_range. Qed.

Lemma slice_0 (z len : Z) : slice z 0 len = wrap len z.
Proof. unfold slice. by rewrite Z.shiftr_0_r. Qed.

Lemma cat_eq (w lo hi : Z) : 0 <= w -> in_width w lo -> cat w lo hi = hi * 2 ^ w + lo.
Proof. intros. unfold cat. by rewrite Z.shiftl_mul_pow2, wrap_id. Qed.

Lemma cat_range (w v lo hi : Z) :
  0 <= w -> 0 <= v -> in_width v hi -> in_width (w + v) (cat w lo hi).
Proof.
  intros Hw Hv Hhi. unfold cat. rewrite Z.shiftl_mul_pow2 by done.
  pose proof (wrap_range w lo Hw). unfold in_width in *. rewrite pow2_add by done.
  pow2. nia.
Qed.

Lemma slice_cat_lo (w lo hi : Z) : 0 <= w -> in_width w lo -> slice (cat w lo hi) 0 w = lo.
Proof.
  intros. rewrite slice_0, cat_eq by done. unfold wrap.
  rewrite Z.add_comm, Z.mod_add by (pow2; lia). by apply Z.mod_small.
Qed.

(** Reading above the low digit. *)
Lemma slice_above (w k len x y : Z) :
  0 <= w -> 0 <= k -> in_width w y ->
  slice (x * 2 ^ w + y) (w + k) len = slice x k len.
Proof.
  intros Hw Hk Hy. rewrite !slice_div by lia. f_equal.
  rewrite pow2_add, <- Z.div_div by (pow2; lia). f_equal.
  rewrite Z.add_comm, Z.div_add by (pow2; lia). rewrite Z.div_small; [lia | done].
Qed.

(** A slice that lies below the truncation is unaffected by it. *)
Lemma slice_wrap (W z lo len : Z) :
  0 <= lo -> 0 <= len -> lo + len <= W -> slice (wrap W z) lo len = slice z lo len.
Proof.
  intros. unfold slice, wrap. rewrite <- !Z.land_ones by lia.
  apply Z.bits_inj'; intros n Hn.
  rewrite !Z.land_spec, !Z.shiftr_spec, !Z.land_spec by lia.
  destruct (Z.lt_ge_cases n len).
  - rewrite (Z.ones_spec_low W), andb_true_r by lia. done.
  - rewrite (Z.ones_spec_high len), !andb_false_r by lia. done.
Qed.

Lemma top_range (W w z : Z) : 0 <= w -> in_width w (top W w z).
Proof. apply slice_range. Qed.

#[export] Hint Resolve wrap_range b2z_range slice_range top_range : width.

Lemma set_top_eq (W w z x : Z) :
  0 <= w <= W -> set_top W w z x = wrap w x * 2 ^ (W - w) + wrap (W - w) z.
Proof. intros. unfold set_top, cat. by rewrite Z.shiftl_mul_pow2 by lia. Qed.

Lemma set_top_range (W w z x : Z) : 0 <= w <= W -> in_width W (set_top W w z x).
Proof.
  intros. replace W with ((W - w) + w) at 1 by lia. unfold set_top.
  apply cat_range; [lia | lia | apply wrap_range; lia].
Qed.

(** * Shift registers *)

Lemma shift_in_eq (W w sr d : Z) :
  0 <= w <= W -> in_width w d -> shift_in W w sr d = wrap W (sr * 2 ^ w + d).
Proof.
  intros Hw Hd. unfold shift_in. rewrite cat_eq, slice_0 by (done || lia).
  replace W with (w + (W - w)) at 2 by lia. by rewrite wrap_add_mul by (done || lia).
Qed.

Lemma shift_in_range (W w sr d : Z) :
  0 <= w <= W -> in_width w d -> in_width W (shift_in W w sr d).
Proof. intros. rewrite shift_in_eq by done. apply wrap_range; lia. Qed.

Lemma digits_snoc (w : Z) (a : list Z) (d : Z) :
  digits w (a ++ [d]) = digits w a * 2 ^ w + d.
Proof. unfold digits. by rewrite fold_left_app. Qed.

Lemma digits_app (w : Z) (a b : list Z) :
  0 <= w -> digits w (a ++ b) = digits w a * 2 ^ (w * Z.of_nat (length b)) + digits w b.
Proof.
  intros Hw. induction b as [|d b IH] using rev_ind.
  { rewrite app_nil_r. simpl. rewrite Z.mul_0_r. unfold digits at 3. simpl. lia. }
  rewrite app_assoc, !digits_snoc, IH, length_app, Nat2Z.inj_add. simpl.
  rewrite Z.mul_add_distr_l, pow2_add by lia. rewrite Z.mul_1_r. ring.
Qed.

Lemma digits_range (w : Z) (ds : list Z) :
  0 <= w -> Forall (in_width w) ds -> in_width (w * Z.of_nat (length ds)) (digits w ds).
Proof.
  intros Hw. induction ds as [|d ds IH] using rev_ind; intros Hds.
  { unfold in_width, digits. simpl. rewrite Z.mul_0_r. lia. }
  apply Forall_app in Hds as [Hds [Hd _]%Forall_cons].
  rewrite digits_snoc, length_app, Nat2Z.inj_add. simpl.
  specialize (IH Hds). rewrite Z.mul_add_distr_l, Z.mul_1_r.
  unfold in_width in *. rewrite pow2_add by lia. pow2. nia.
Qed.

(** The digits of a number made of digits are those digits. *)
Lemma to_digits_digits (w : Z) (ds : list Z) :
  0 <= w -> Forall (in_width w) ds -> to_digits w (length ds) (digits w ds) = ds.
Proof.
  intros Hw Hds. apply list_eq. intros k. unfold to_digits. rewrite list_lookup_fmap.
  destruct (decide (k < length ds)%nat) as [Hk|Hk].
  - rewrite lookup_seq_lt by done. cbn [fmap option_fmap option_map Nat.add].
    destruct (lookup_lt_is_Some_2 ds k Hk) as [d Hd]. rewrite Hd. f_equal.
    pose proof (take_drop_middle ds k d Hd) as Es. rewrite <- Es in Hds |- * at 2.
    apply Forall_app in Hds as [_ [Hdw Hb]%Forall_cons].
    rewrite cons_middle, app_assoc, digits_app, digits_snoc by done. unfold digit.
    rewrite length_drop.
    replace (Z.of_nat (length ds) - 1 - Z.of_nat k) with (Z.of_nat (length ds - S k)) by lia.
    rewrite <- (Z.add_0_r (w * _)) at 2.
    pose proof (digits_range w (drop (S k) ds) Hw Hb) as Hr. rewrite length_drop in Hr.
    rewrite slice_above by (done || nia).
    rewrite slice_0. unfold wrap. rewrite Z.add_comm, Z.mod_add by (pow2; lia). by apply Z.mod_small.
  - rewrite lookup_ge_None_2 by (rewrite length_seq; lia). symmetry. apply lookup_ge_None_2. lia.
Qed.

Lemma shift_ins_snoc (W w sr : Z) (ds : list Z) (d : Z) :
  shift_ins W w sr (ds ++ [d]) = shift_in W w (shift_ins W w sr ds) d.
Proof. unfold shift_ins. by rewrite fold_left_app. Qed.

(** Shifting a list of digits in: the register is the old content moved up,
    followed by the digits, cut to the register's width. *)
Lemma shift_ins_eq (W w sr : Z) (ds : list Z) :
  0 <= w <= W -> in_width W sr -> Forall (in_width w) ds ->
  shift_ins W w sr ds = wrap W (sr * 2 ^ (w * Z.of_nat (length ds)) + digits w ds).
Proof.
  intros Hw Hsr. induction ds as [|d ds IH] using rev_ind; intros Hds.
  { simpl. rewrite Z.mul_0_r. unfold digits. simpl.
    rewrite Z.add_0_r, Z.mul_1_r. symmetry. by apply wrap_id. }
  apply Forall_app in Hds as [Hds [Hd _]%Forall_cons].
  rewrite shift_ins_snoc, IH, digits_snoc, length_app, Nat2Z.inj_add by done. simpl.
  rewrite shift_in_eq by done.
  rewrite Z.mul_add_distr_l, Z.mul_1_r, pow2_add by lia. unfold wrap.
  rewrite <- (Z.add_mod_idemp_l (_ * 2 ^ w)), Z.mul_mod_idemp_l by (pow2; lia).
  rewrite Z.add_mod_idemp_l by (pow2; lia). f_equal. ring.
Qed.

(** Once as many digits have entered as the register holds, it holds exactly
    those digits. *)
Lemma shift_ins_full (W w sr : Z) (ds : list Z) :
  0 <= w <= W -> in_width W sr -> Forall (in_width w) ds ->
  w * Z.of_nat (length ds) = W -> shift_ins W w sr ds = digits w ds.
Proof.
  intros Hw Hsr Hds HW. rewrite shift_ins_eq, HW by done. unfold wrap.
  rewrite Z.add_comm, Z.mod_add by (pow2; lia). apply Z.mod_small.
  rewrite <- HW. apply (digits_range w ds); [lia | done].
Qed.

(** The digit at the top of the register after [k] shifts is digit [k] of the
    value that was loaded. *)
Lemma shift_ins_top (W w sr : Z) (ds : list Z) :
  0 <= w -> in_width W sr -> Forall (in_width w) ds ->
  w * Z.of_nat (length ds) + w <= W ->
  top W w (shift_ins W w sr ds) = slice sr (W - w - w * Z.of_nat (length ds)) w.
Proof.
  intros Hw Hsr Hds HW. rewrite shift_ins_eq by (done || lia). unfold top.
  rewrite slice_wrap by lia.
  replace (W - w) with (w * Z.of_nat (length ds) + (W - w - w * Z.of_nat (length ds))) at 1 by lia.
  apply slice_above; [lia | lia | by apply digits_range].
Qed.

Lemma cat_testbit (w lo hi j : Z) :
  0 <= w -> 0 <= j ->
  Z.testbit (cat w lo hi) j = if j <? w then Z.testbit lo j else Z.testbit hi (j - w).
Proof.
  intros Hw Hj. unfold cat. rewrite Z.shiftl_mul_pow2 by done. pose proof (wrap_range w lo Hw) as Hr.
  destruct (j <? w) eqn:E; [apply Z.ltb_lt in E | apply Z.ltb_ge in E].
  - rewrite <- (Z.mod_pow2_bits_low _ w) by lia. rewrite Z.add_comm, Z.mod_add by (pow2; lia).
    unfold wrap. rewrite Z.mod_mod by (pow2; lia). apply Z.mod_pow2_bits_low. lia.
  - replace j with ((j - w) + w) at 1 by lia.
    rewrite <- Z.div_pow2_bits by lia. f_equal. rewrite Z.div_add_l by (pow2; lia).
    rewrite Z.div_small; [lia | done].
Qed.

Lemma wrap_testbit (w z j : Z) : 0 <= j < w -> Z.testbit (wrap w z) j = Z.testbit z j.
Proof. intros. unfold wrap. apply Z.mod_pow2_bits_low. lia. Qed.
