(* ===== verification/Hdl.v ===== *)
(** * Synchronous circuits

    A gateware module is a function [next : input -> state -> state]: the
    registers after one clock edge, from the registers and inputs before it.
    This file holds what every module shares: executions, reachability and
    the invariant rule, the events of an execution, and the interfaces of the
    third-party building blocks the gateware instantiates. *)
From S2P Require Import Prelude.

Section Circuit.
Context {I St : Type} (next : I -> St -> St).

(** The state after [t] clock edges; [inp n] is the input in cycle [n]. *)
Fixpoint state_at (s : St) (inp : nat -> I) (t : nat) : St :=
  match t with
  | O => s
  | S t => next (inp t) (state_at s inp t)
  end.

(** The same along a finite list of inputs. *)
Definition run (s : St) (l : list I) : St := fold_left (fun s i => next i s) l s.

Inductive reachable (s0 : St) : St -> Prop :=
| reachable_reset : reachable s0 s0
| reachable_edge i s : reachable s0 s -> reachable s0 (next i s).

(** The events an execution shows in cycles [0 .. t-1], oldest first. *)
Definition events {E} (ev : I -> St -> option E) (s : St) (inp : nat -> I) (t : nat) : list E :=
  omap (fun n => ev (inp n) (state_at s inp n)) (seq 0 t).

Lemma state_at_S s inp t : state_at s inp (S t) = next (inp t) (state_at s inp t).
Proof. done. Qed.

Lemma state_at_add s inp t k :
  state_at s inp (t + k) = state_at (state_at s inp t) (fun n => inp (t + n)%nat) k.
Proof. induction k as [|k IH]; [by rewrite Nat.add_0_r|]. rewrite Nat.add_succ_r. simpl. by rewrite IH. Qed.

Lemma run_app s l1 l2 : run s (l1 ++ l2) = run (run s l1) l2.
Proof. apply fold_left_app. Qed.

Lemma run_snoc s l i : run s (l ++ [i]) = next i (run s l).
Proof. by rewrite run_app. Qed.

Lemma reachable_state_at s inp t : reachable s (state_at s inp t).
Proof. induction t; simpl; by constructor. Qed.

Lemma reachable_run s l : reachable s (run s l).
Proof. induction l as [|i l IH] using rev_ind; [constructor|]. rewrite run_snoc. by constructor. Qed.

Lemma reachable_invariant (P : St -> Prop) s0 :
  P s0 -> (forall i s, P s -> P (next i s)) -> forall s, reachable s0 s -> P s.
Proof. intros H0 HS s Hs. induction Hs; auto. Qed.

Lemma state_at_invariant (P : St -> Prop) s inp t :
  P s -> (forall i s, P s -> P (next i s)) -> P (state_at s inp t).
Proof. intros H0 HS. eapply reachable_invariant; eauto using reachable_state_at. Qed.

(** The invariant rule when it also speaks of the events so far. *)
Lemma events_S {E} (ev : I -> St -> option E) s inp t :
  events ev s inp (S t) =
  events ev s inp t ++ option_list (ev (inp t) (state_at s inp t)).
Proof.
  unfold events. rewrite seq_S, omap_app. simpl.
  by destruct (ev (inp t) (state_at s inp t)).
Qed.
End Circuit.

(** [c1] and [c2] cannot be told apart by their outputs: the states are
    related, and a related pair shows equal outputs and steps to a related
    pair. *)
Definition simulates {I S1 S2 O} (n1 : I -> S1 -> S1) (o1 : I -> S1 -> O)
    (n2 : I -> S2 -> S2) (o2 : I -> S2 -> O) (R : S1 -> S2 -> Prop) : Prop :=
  forall i s1 s2, R s1 s2 -> o1 i s1 = o2 i s2 /\ R (n1 i s1) (n2 i s2).

Lemma simulates_trace {I S1 S2 O} (n1 : I -> S1 -> S1) (o1 : I -> S1 -> O) (n2 : I -> S2 -> S2) (o2 : I -> S2 -> O) R s1 s2 inp t :
  simulates n1 o1 n2 o2 R -> R s1 s2 ->
  R (state_at n1 s1 inp t) (state_at n2 s2 inp t) /\
  o1 (inp t) (state_at n1 s1 inp t) = o2 (inp t) (state_at n2 s2 inp t).
Proof.
  intros Hsim HR. assert (R (state_at n1 s1 inp t) (state_at n2 s2 inp t)) as Ht.
  { induction t as [|t IH]; [done|]. simpl. by apply Hsim. }
  split; [done | by apply Hsim].
Qed.

(** * Interfaces of the building blocks of [migen.genlib]

    The gateware only instantiates these blocks. A class states what it
    relies on; the client theorems hold for every instance. *)

(** [timeline(trigger, events)]: an event of offset [t] fires [t] cycles after
    the cycle of the trigger; a trigger during a run is ignored. [tl_pos] is
    the distance to the trigger cycle, 0 when idle. *)
Class Timeline := {
  tl_state : Type;
  tl_init : tl_state;
  tl_step : nat -> bool -> tl_state -> tl_state;
  tl_fires : tl_state -> bool -> nat -> bool;
  tl_pos : tl_state -> nat;
  tl_pos_init : tl_pos tl_init = 0%nat;
  tl_fires_pos s trig t :
    tl_fires s trig t =
    if (t =? 0)%nat then trig && (tl_pos s =? 0)%nat else (tl_pos s =? t)%nat;
  tl_pos_step last trig s :
    (0 < last)%nat ->
    tl_pos (tl_step last trig s) =
    if (tl_pos s =? last)%nat then 0%nat
    else if (tl_pos s =? 0)%nat then (if trig then 1%nat else 0%nat)
    else S (tl_pos s)
}.

(** A counter that holds the position is an instance. *)
Definition counter_step (last : nat) (trig : bool) (c : nat) : nat :=
  if (c =? last)%nat then 0%nat
  else if (c =? 0)%nat then (if trig then 1%nat else 0%nat) else S c.

Definition counter_fires (c : nat) (trig : bool) (t : nat) : bool :=
  if (t =? 0)%nat then trig && (c =? 0)%nat else (c =? t)%nat.

#[export] Instance counter_timeline : Timeline := {|
  tl_state := nat;
  tl_init := 0%nat;
  tl_step := counter_step;
  tl_fires := counter_fires;
  tl_pos c := c;
  tl_pos_init := eq_refl;
  tl_fires_pos _ _ _ := eq_refl;
  tl_pos_step _ _ _ _ := eq_refl
|}.

(** [bits_for] and [log2_int]: the width of a constant, and the logarithm of a
    power of two. *)
Class BitMath := {
  bits_for : Z -> Z;
  bits_for_spec n : 0 < n -> 0 < bits_for n /\ 2 ^ (bits_for n - 1) <= n < 2 ^ bits_for n;
  log2_int : Z -> Z;
  log2_int_spec k : 0 <= k -> log2_int (2 ^ k) = k
}.

Lemma log2_bits_for n : 0 < n -> 0 < Z.log2 n + 1 /\ 2 ^ (Z.log2 n + 1 - 1) <= n < 2 ^ (Z.log2 n + 1).
Proof.
  intros Hn. pose proof (Z.log2_spec n Hn) as [Hlo Hhi]. pose proof (Z.log2_nonneg n).
  rewrite Z.add_simpl_r. lia.
Qed.

#[export] Instance log2_bit_math : BitMath := {|
  bits_for n := Z.log2 n + 1;
  bits_for_spec := log2_bits_for;
  log2_int := Z.log2;
  log2_int_spec := Z.log2_pow2
|}.
