(* ===== verification/PyStr.v ===== *)
(** * Python strings and paths

    The string methods, number formatting and POSIX path functions the Python
    tools use, on strings of 8-bit characters (the tools' data is ASCII). *)
From S2P Require Import Prelude.
From Stdlib Require Export Ascii.

Declare Scope py_scope.
Delimit Scope py_scope with py.

Fixpoint smap (f : ascii -> ascii) (s : string) : string :=
  match s with
  | EmptyString => EmptyString
  | String c s => String (f c) (smap f s)
  end.

Definition lower_ascii (c : ascii) : ascii :=
  let n := nat_of_ascii c in
  if (65 <=? n)%nat && (n <=? 90)%nat then ascii_of_nat (n + 32) else c.

Definition upper_ascii (c : ascii) : ascii :=
  let n := nat_of_ascii c in
  if (97 <=? n)%nat && (n <=? 122)%nat then ascii_of_nat (n - 32) else c.

(** [s.lower()], [s.upper()]. *)
Definition lower (s : string) : string := smap lower_ascii s.
Definition upper (s : string) : string := smap upper_ascii s.

(** [s.startswith(p)], [s.endswith(p)]. *)
Definition startswith (s p : string) : bool := String.prefix p s.

Fixpoint endswith (s p : string) : bool :=
  String.eqb s p || match s with EmptyString => false | String _ s' => endswith s' p end.

(** [p in s]. *)
Fixpoint contains (s p : string) : bool :=
  String.prefix p s || match s with EmptyString => false | String _ s' => contains s' p end.

Definition has_char (c : ascii) (s : string) : bool := contains s (String c EmptyString).

(** A string is true unless it is empty, an optional one unless it is [None]
    or empty. *)
Definition truthy (s : string) : bool := negb (String.eqb s "").
Definition otruthy (o : option string) : bool := match o with Some s => truthy s | None => false end.

(** [ord(c)] of each character, and the NUL character. *)
Definition ord (c : ascii) : Z := Z.of_nat (nat_of_ascii c).
Definition ords (s : string) : list Z := ord <$> String.list_ascii_of_string s.
Definition nul : ascii := ascii_of_nat 0.

Fixpoint sdrop (n : nat) (s : string) : string :=
  match n, s with
  | O, _ => s
  | S n, String _ s => sdrop n s
  | S _, EmptyString => EmptyString
  end.

(** Everything before the last [n] characters: [s[:-n]] for [0 < n]. *)
Definition cut_end (n : nat) (s : string) : string :=
  String.substring 0 (String.length s - n) s.

(** [sep.join(l)]. *)
Definition join_with (sep : string) (l : list string) : string := String.concat sep l.

(** [s.split(c)]: the parts between the occurrences of [c]. *)
Fixpoint split_at (c : ascii) (s : string) : list string :=
  match s with
  | EmptyString => [EmptyString]
  | String x s' =>
      if Ascii.eqb x c then EmptyString :: split_at c s'
      else match split_at c s' with
           | w :: ws => String x w :: ws
           | [] => [String x EmptyString]
           end
  end.

(** [s.split()]: the words between runs of white space. *)
Definition blank (c : ascii) : bool :=
  let n := nat_of_ascii c in (n =? 32)%nat || ((9 <=? n)%nat && (n <=? 13)%nat).

Definition fields (s : string) : list string :=
  base.filter (fun w => truthy w = true) (split_at " " (smap (fun c => if blank c then " "%char else c) s)).

(** [sorted(d.items())] for a dictionary with string keys: distinct keys decide
    the order, the values are never compared. *)
Definition str_leb (a b : string) : bool :=
  match String.compare a b with Gt => false | _ => true end.

Fixpoint sort_insert {V} (kv : string * V) (l : list (string * V)) : list (string * V) :=
  match l with
  | [] => [kv]
  | kw :: l' => if str_leb kv.1 kw.1 then kv :: l else kw :: sort_insert kv l'
  end.

Definition sorted_items {V} (d : list (string * V)) : list (string * V) := foldr sort_insert [] d.

(** [d[k]] for a dictionary literal (its keys are distinct); [None]: KeyError. *)
Fixpoint getitem {V} (d : list (string * V)) (k : string) : option V :=
  match d with
  | [] => None
  | (k', v) :: d => if String.eqb k k' then Some v else getitem d k
  end.

(** Lookup against membership. *)
Lemma key_in {V} (l : list (string * V)) k v : In (k, v) l -> k ∈ fst <$> l.
Proof. intros H%list_elem_of_In. exact (list_elem_of_fmap_2 fst l (k, v) H). Qed.

Lemma getitem_in {V} (l : list (string * V)) k v : getitem l k = Some v -> In (k, v) l.
Proof.
  induction l as [|[k' v'] l IH]; [done|]. cbn [getitem]. destruct (String.eqb_spec k k') as [->|].
  - intros [= ->]. by left.
  - intros H. right. auto.
Qed.

Lemma getitem_none {V} (l : list (string * V)) k : getitem l k = None -> k ∉ fst <$> l.
Proof.
  induction l as [|[k' v'] l IH]; intros H; [apply not_elem_of_nil|].
  cbn [getitem] in H. destruct (String.eqb_spec k k'); [done|].
  rewrite fmap_cons. apply not_elem_of_cons. auto.
Qed.

Lemma getitem_unique {V} (l : list (string * V)) k v : NoDup (fst <$> l) -> In (k, v) l -> getitem l k = Some v.
Proof.
  induction l as [|[k' v'] l IH]; intros Hn H; [done|]. cbn [getitem]. rewrite fmap_cons in Hn. inversion Hn; subst.
  destruct H as [[= -> ->]|H]; [by rewrite String.eqb_refl|].
  destruct (String.eqb_spec k k') as [->|]; [|auto].
  by apply key_in in H.
Qed.

(** The value of an expression that does not raise. *)
Definition ok {A} (o : option A) : Prop := match o with Some _ => True | None => False end.

Definition the {A} (o : option A) : ok o -> A :=
  match o with Some a => fun _ => a | None => fun H => match H with end end.

(** ** [int(s)]

    Surrounding white space, a sign, digits with single underscores between
    them. *)

Definition digit_value (c : ascii) : option Z :=
  let n := nat_of_ascii c in
  if (48 <=? n)%nat && (n <=? 57)%nat then Some (Z.of_nat n - 48)%Z else None.

(** Digits, single underscores allowed between them. *)
Fixpoint int_digits (acc : Z) (after_digit : bool) (s : string) : option Z :=
  match s with
  | EmptyString => if after_digit then Some acc else None
  | String c s =>
      match digit_value c with
      | Some d => int_digits (10 * acc + d) true s
      | None => if Ascii.eqb c "_" && after_digit then int_digits acc false s else None
      end
  end.

Fixpoint lstrip (s : string) : string :=
  match s with
  | String c s' => if blank c then lstrip s' else s
  | EmptyString => EmptyString
  end.

Fixpoint rstrip (s : string) : string :=
  match s with
  | String c s' =>
      let r := rstrip s' in
      if blank c && String.eqb r "" then EmptyString else String c r
  | EmptyString => EmptyString
  end.

(** [s.strip()]. *)
Definition strip (s : string) : string := lstrip (rstrip s).

Definition newline : string := String (ascii_of_nat 10) EmptyString.

(** [s.split(sep)] for a separator that is not empty; the fuel is the length
    of the string. *)
Fixpoint split_fuel (fuel : nat) (sep s : string) : list string :=
  match fuel, String.index 0 sep s with
  | S fuel, Some i =>
      String.substring 0 i s :: split_fuel fuel sep (sdrop (i + String.length sep) s)
  | _, _ => [s]
  end.

Definition split_on (sep s : string) : list string := split_fuel (S (String.length s)) sep s.
Definition replace (s old new : string) : string := join_with new (split_on old s).

Definition py_int (s : string) : result Z :=
  let o :=
    match lstrip (rstrip s) with
    | String "-" s' => Z.opp <$> int_digits 0 false s'
    | String "+" s' => int_digits 0 false s'
    | s' => int_digits 0 false s'
    end in
  match o with Some z => Ok z | None => Raise ValueError end.

(** ** Numbers *)

Definition digit_char (n : Z) : ascii :=
  if n <? 10 then ascii_of_nat (48 + Z.to_nat n) else ascii_of_nat (87 + Z.to_nat n).

(** The digits of [z] in base [b], at least one, most significant first;
    [fuel] bounds their number. *)
Fixpoint digits_base (fuel : nat) (b z : Z) (acc : string) : string :=
  match fuel with
  | O => acc
  | S fuel =>
      let acc := String (digit_char (z mod b)) acc in
      if z <? b then acc else digits_base fuel b (z / b) acc
  end.

Definition to_base (b z : Z) : string := digits_base (S (Z.to_nat (Z.log2 z))) b z "".

(** [str(z)], [hex(z)]. *)
Definition str_Z (z : Z) : string := if z <? 0 then String.append "-" (to_base 10 (- z)) else to_base 10 z.
Definition hex (z : Z) : string :=
  if z <? 0 then String.append "-0x" (to_base 16 (- z)) else String.append "0x" (to_base 16 z).

Fixpoint zeros (n : nat) : string := match n with O => EmptyString | S n => String "0" (zeros n) end.

(** [{:08x}] of a non-negative number. *)
Definition hex8 (z : Z) : string :=
  let d := to_base 16 z in String.append (zeros (8 - String.length d)) d.

(** ** POSIX paths *)

(** [os.path.join(a, b)]. *)
Definition path_join (a b : string) : string :=
  if startswith b "/" then b
  else if String.eqb a "" || endswith a "/" then String.append a b
  else String.append a (String.append "/" b).

(** Split at the last slash, which stays with the head. *)
Fixpoint split_last_slash (s : string) : string * string :=
  match s with
  | EmptyString => (EmptyString, EmptyString)
  | String c s' =>
      if has_char "/" s' then let (h, t) := split_last_slash s' in (String c h, t)
      else if Ascii.eqb c "/" then (String c EmptyString, s')
      else (EmptyString, String c s')
  end.

Fixpoint rstrip_slash (s : string) : string :=
  match s with
  | EmptyString => EmptyString
  | String c s' =>
      match rstrip_slash s' with
      | EmptyString => if Ascii.eqb c "/" then EmptyString else String c EmptyString
      | r => String c r
      end
  end.

(** [os.path.dirname(p)]: the head without its trailing slashes, unless it is
    all slashes. *)
Definition dirname (p : string) : string :=
  let h := fst (split_last_slash p) in
  let r := rstrip_slash h in
  if String.eqb r "" then h else r.

Notation "a +++ b" := (String.append a b) (at level 60, right associativity) : py_scope.
#[global] Open Scope py_scope.

Lemma append_cons x (a b : string) : String x a +++ b = String x (a +++ b).
Proof. reflexivity. Qed.

Lemma append_assoc (a b c : string) : (a +++ b) +++ c = a +++ (b +++ c).
Proof. induction a as [|x a IH]; [done|]. by rewrite !append_cons, IH. Qed.

Lemma append_nil_r (a : string) : a +++ "" = a.
Proof. induction a as [|x a IH]; [done|]. by rewrite append_cons, IH. Qed.

Lemma lower_append a b : lower (a +++ b) = lower a +++ lower b.
Proof.
  unfold lower. induction a as [|x a IH]; [done|]. rewrite append_cons. cbn [smap].
  by rewrite append_cons, IH.
Qed.

Lemma lower_ascii_idem c : lower_ascii (lower_ascii c) = lower_ascii c.
Proof. destruct c as [[] [] [] [] [] [] [] []]; reflexivity. Qed.

Lemma lower_idem s : lower (lower s) = lower s.
Proof. unfold lower. induction s as [|x s IH]; [done|]. cbn. by rewrite lower_ascii_idem, IH. Qed.

Lemma has_char_cons c x s : has_char c (String x s) = Ascii.eqb c x || has_char c s.
Proof.
  unfold has_char. cbn [contains String.prefix]. destruct (ascii_dec c x) as [->|Hn].
  - rewrite Ascii.eqb_refl. by destruct s.
  - by rewrite (proj2 (Ascii.eqb_neq c x) Hn).
Qed.

Lemma has_char_append c a b : has_char c (a +++ b) = has_char c a || has_char c b.
Proof. induction a as [|x a IH]; [done|]. by rewrite append_cons, !has_char_cons, IH, orb_assoc. Qed.

Lemma prefix_refl s : String.prefix s s = true.
Proof. induction s as [|c s IH]; [done|]. cbn. destruct (ascii_dec c c); [done | congruence]. Qed.

Lemma endswith_refl s : endswith s s = true.
Proof. destruct s; cbn; by rewrite ?String.eqb_refl, ?Ascii.eqb_refl. Qed.

Lemma endswith_append a b : endswith (a +++ b) b = true.
Proof.
  induction a as [|c a IH]; [apply endswith_refl|]. rewrite append_cons. cbn [endswith].
  rewrite IH. apply orb_true_r.
Qed.

Lemma append_inj_l a b c : a +++ b = a +++ c -> b = c.
Proof. induction a as [|x a IH]; [done|]. rewrite !append_cons. by intros [= ?%IH]. Qed.

Lemma split_at_nonempty c s : split_at c s <> [].
Proof. destruct s; simpl; repeat case_match; done. Qed.

Lemma join_split c s : join_with (String c EmptyString) (split_at c s) = s.
Proof.
  unfold join_with. induction s as [|x s IH]; [done|]. simpl.
  destruct (Ascii.eqb_spec x c) as [->|Hx];
    destruct (split_at c s) as [|w ws] eqn:E; try by destruct (split_at_nonempty c s).
  - simpl in *. by rewrite IH.
  - destruct ws; simpl in *; by rewrite <- IH.
Qed.

(** The order of strings. *)
Lemma str_leb_total x y : str_leb x y = true \/ str_leb y x = true.
Proof. exact (String.leb_total x y). Qed.

Lemma str_leb_trans x y z : str_leb x y = true -> str_leb y z = true -> str_leb x z = true.
Proof.
  intros H1 H2. apply Is_true_true. change (String.le x z).
  transitivity y; by apply Is_true_true.
Qed.

Lemma str_leb_antisym x y : str_leb x y = true -> str_leb y x = true -> x = y.
Proof. exact (String.leb_antisym x y). Qed.

Lemma sort_insert_perm {V} (kv : string * V) l : sort_insert kv l ≡ₚ kv :: l.
Proof.
  induction l as [|kw l IH]; [done|]. simpl. destruct (str_leb _ _); [done|].
  rewrite IH. constructor.
Qed.

Lemma sorted_items_perm {V} (d : list (string * V)) : sorted_items d ≡ₚ d.
Proof. induction d as [|kv d IH]; [done|]. simpl. by rewrite sort_insert_perm, IH. Qed.

Lemma the_eq {A} (o : option A) H : o = Some (the o H).
Proof. destruct o; [done | destruct H]. Qed.

Lemma ord_range c : in_width 8 (ord c).
Proof. unfold ord, in_width. pose proof (nat_ascii_bounded c). lia. Qed.

Lemma ords_range s : Forall (in_width 8) (ords s).
Proof. unfold ords. apply Forall_fmap, Forall_true. intros c. apply ord_range. Qed.

Lemma ord_inj c d : ord c = ord d -> c = d.
Proof.
  unfold ord. intros H%Nat2Z.inj. rewrite <- (ascii_nat_embedding c), <- (ascii_nat_embedding d). by f_equal.
Qed.

Lemma length_ords s : length (ords s) = String.length s.
Proof. unfold ords. rewrite length_fmap. induction s; cbn; congruence. Qed.

Lemma list_ascii_append a b :
  String.list_ascii_of_string (a +++ b) = (String.list_ascii_of_string a ++ String.list_ascii_of_string b)%list.
Proof. induction a as [|c a IH]; [done|]. rewrite append_cons. cbn. by rewrite IH. Qed.

Lemma ords_append a b : ords (a +++ b) = (ords a ++ ords b)%list.
Proof. unfold ords. by rewrite list_ascii_append, fmap_app. Qed.
