(* ===== verification/Paths.v ===== *)
(** * Paths and sorted names

    POSIX paths as lists of names, and the order in which the tools sort and
    visit them. *)
From S2P Require Import Prelude PyStr.
From stdpp Require Import strings.
From Stdlib Require Import Sorted.
#[local] Open Scope string_scope.
#[local] Open Scope py_scope.
#[local] Set Warnings "-clear-no-such-hyp".

(** ** Paths as components *)

Definition path_of (cs : list string) : string := foldr (fun c s => "/" +++ c +++ s) "" cs.

(** A name in a directory. *)
Definition component (c : string) : Prop := c <> "" /\ has_char "/" c = false.

(** A path one can put something below. *)
Definition rooted (d : string) : Prop := d <> "" /\ rstrip_slash d = d.

Lemma string_append_length a b : String.length (a +++ b) = (String.length a + String.length b)%nat.
Proof. induction a as [|c a IH]; [done|]. rewrite append_cons. cbn [String.length]. by rewrite IH. Qed.

Lemma append_inj_r (a b c : string) : a +++ c = b +++ c -> a = b.
Proof.
  revert b. induction a as [|x a IH]; intros [|y b] E; [done|exfalso..|].
  - rewrite append_cons in E. apply (f_equal String.length) in E. rewrite string_append_length in E. cbn in E.
    rewrite string_append_length in E. lia.
  - rewrite append_cons in E. apply (f_equal String.length) in E. cbn in E. rewrite string_append_length in E.
    change ("" +++ c) with c in E. lia.
  - rewrite !append_cons in E. injection E as -> E. f_equal. by apply IH.
Qed.

Lemma path_of_app a b : path_of (a ++ b)%list = path_of a +++ path_of b.
Proof.
  induction a as [|c a IH]; [done|]. cbn [app path_of foldr]. fold (path_of (a ++ b)%list) (path_of a).
  by rewrite IH, !append_assoc.
Qed.

Lemma split_last_slash_last x c : has_char "/" c = false -> split_last_slash (x +++ "/" +++ c) = (x +++ "/", c).
Proof.
  intros Hc. induction x as [|y x IH].
  - change ("" +++ "/" +++ c) with (String "/" c). cbn [split_last_slash]. by rewrite Hc.
  - rewrite append_cons. cbn [split_last_slash].
    assert (has_char "/" (x +++ "/" +++ c) = true) as ->.
    { clear. induction x as [|y x IH]; [change ("" +++ "/" +++ c) with (String "/" c); by rewrite has_char_cons|].
      rewrite append_cons, has_char_cons, IH. by rewrite orb_true_r. }
    by rewrite IH.
Qed.

Lemma rstrip_slash_slash y : rstrip_slash (y +++ "/") = rstrip_slash y.
Proof. induction y as [|c y IH]; [done|]. rewrite append_cons. cbn [rstrip_slash]. by rewrite IH. Qed.

Lemma rstrip_slash_append a b : rooted b -> rooted (a +++ b).
Proof.
  intros [Hb Hr]. induction a as [|c a IH]; [done|]. rewrite append_cons. split; [done|].
  destruct IH as [Hn IH]. cbn [rstrip_slash]. rewrite IH. by destruct (a +++ b).
Qed.

Lemma component_rooted c : component c -> rooted c.
Proof.
  intros [Hn Hs]. split; [done|]. clear Hn. induction c as [|x c IH]; [done|].
  rewrite has_char_cons in Hs. apply orb_false_iff in Hs as [Hx Hs]. cbn [rstrip_slash]. rewrite (IH Hs).
  destruct c; [|done]. by rewrite Ascii.eqb_sym, Hx.
Qed.

Lemma path_rooted d cs : rooted d -> Forall component cs -> rooted (d +++ path_of cs).
Proof.
  intros Hd Hcs. destruct cs as [|c cs' _] using rev_ind; [by rewrite append_nil_r|].
  apply Forall_app in Hcs as [_ [Hc _]%Forall_cons]. rewrite path_of_app. cbn [path_of foldr].
  rewrite append_nil_r, <- !append_assoc. apply rstrip_slash_append, component_rooted, Hc.
Qed.

Lemma dirname_last d cs c :
  rooted d -> Forall component (cs ++ [c])%list -> dirname (d +++ path_of (cs ++ [c])%list) = d +++ path_of cs.
Proof.
  intros Hd Hcs. pose proof Hcs as [Hcs' [[_ Hc] _]%Forall_cons]%Forall_app.
  rewrite path_of_app. cbn [path_of foldr]. rewrite append_nil_r. fold (path_of cs).
  rewrite <- append_assoc. unfold dirname. rewrite (split_last_slash_last (d +++ path_of cs) c Hc). cbn [fst].
  rewrite rstrip_slash_slash. destruct (path_rooted d cs Hd Hcs') as [Hn Hr]. rewrite Hr.
  by destruct (String.eqb_spec (d +++ path_of cs) "").
Qed.

Lemma endswith_slash d : endswith d "/" = true -> exists y, d = y +++ "/".
Proof.
  induction d as [|z e IH]; [done|]. cbn [endswith]. intros [E|E]%orb_true_iff.
  - apply String.eqb_eq in E. exists "". by rewrite E.
  - destruct (IH E) as [y ->]. by exists (String z y).
Qed.

Lemma rstrip_slash_length y : (String.length (rstrip_slash y) <= String.length y)%nat.
Proof.
  induction y as [|c y IH]; [done|]. cbn [rstrip_slash String.length].
  destruct (rstrip_slash y); [destruct (Ascii.eqb c "/"); cbn; lia|]. cbn [String.length] in *. lia.
Qed.

Lemma rooted_no_slash d : rooted d -> endswith d "/" = false.
Proof.
  intros [_ Hr]. destruct (endswith d "/") eqn:E; [|done]. exfalso. apply endswith_slash in E as [y ->].
  rewrite rstrip_slash_slash in Hr. pose proof (rstrip_slash_length y) as Hl.
  apply (f_equal String.length) in Hr. rewrite string_append_length in Hr. cbn in Hr. lia.
Qed.

Lemma component_no_slash c s : component c -> startswith (c +++ s) "/" = false.
Proof.
  intros [Hn Hs]. destruct c as [|x c]; [done|]. rewrite has_char_cons in Hs. apply orb_false_iff in Hs as [Hx _].
  rewrite append_cons. unfold startswith. cbn [String.prefix]. destruct (ascii_dec "/" x) as [<-|]; [|done].
  by rewrite Ascii.eqb_refl in Hx.
Qed.

(** Joining a name to a path. *)
Lemma join_component d c s : rooted d -> component c -> path_join d (c +++ s) = d +++ "/" +++ c +++ s.
Proof.
  intros Hd Hc. unfold path_join. rewrite (component_no_slash c s Hc), (rooted_no_slash d Hd).
  destruct (String.eqb_spec d "") as [->|_]; [by destruct Hd|]. done.
Qed.

(** Splitting at a character gives the parts back. *)
Lemma split_at_none c s : has_char c s = false -> split_at c s = [s].
Proof.
  induction s as [|x s IH]; [done|]. rewrite has_char_cons. intros [Hx Hs]%orb_false_iff. cbn [split_at].
  rewrite Ascii.eqb_sym in Hx. by rewrite Hx, (IH Hs).
Qed.

Lemma split_at_app c a b : has_char c a = false -> split_at c (a +++ String c b) = a :: split_at c b.
Proof.
  induction a as [|x a IH]; intros H.
  - change ("" +++ String c b) with (String c b). cbn [split_at]. by rewrite Ascii.eqb_refl.
  - rewrite has_char_cons in H. apply orb_false_iff in H as [Hx Hs]. rewrite append_cons. cbn [split_at].
    rewrite Ascii.eqb_sym in Hx. by rewrite Hx, (IH Hs).
Qed.

Lemma split_path_of a cs : has_char "/" a = false -> Forall component cs -> split_at "/" (a +++ path_of cs) = a :: cs.
Proof.
  intros Ha Hcs. revert a Ha. induction Hcs as [|c cs [_ Hc] _ IH]; intros a Ha.
  - rewrite append_nil_r. by apply split_at_none.
  - cbn [path_of foldr]. fold (path_of cs). change ("/" +++ c +++ path_of cs) with (String "/" (c +++ path_of cs)).
    by rewrite split_at_app, IH.
Qed.

Lemma path_of_inj d p q : Forall component p -> Forall component q -> d +++ path_of p = d +++ path_of q -> p = q.
Proof.
  intros Hp Hq E%append_inj_l. apply (f_equal (split_at "/")) in E.
  pose proof (split_path_of "" p eq_refl Hp) as E1. pose proof (split_path_of "" q eq_refl Hq) as E2.
  change ("" +++ path_of p) with (path_of p) in E1. change ("" +++ path_of q) with (path_of q) in E2. congruence.
Qed.

(** ** The order of strings *)

Lemma ascii_compare_refl c : Ascii.compare c c = Eq.
Proof. unfold Ascii.compare. apply N.compare_refl. Qed.

Lemma str_leb_cons x y a b :
  str_leb (String x a) (String y b) =
  match Ascii.compare x y with Lt => true | Eq => str_leb a b | Gt => false end.
Proof. unfold str_leb. cbn [String.compare]. by destruct (Ascii.compare x y). Qed.

(** What is longer comes later. *)
Lemma str_leb_longer a r : str_leb (a +++ r) a = true -> r = "".
Proof. induction a as [|x a IH]; [by destruct r|]. rewrite append_cons, str_leb_cons, ascii_compare_refl. exact IH. Qed.

Definition str_le (a b : string) : Prop := str_leb a b = true.

Lemma sort_insert_sorted {V} (kv : string * V) l :
  StronglySorted str_le (fst <$> l) -> StronglySorted str_le (fst <$> sort_insert kv l).
Proof.
  induction l as [|kw l IH]; intros H; [by repeat constructor|]. cbn [sort_insert].
  rewrite fmap_cons in H. apply StronglySorted_inv in H as [Hl Hw]. destruct (str_leb kv.1 kw.1) eqn:E.
  - rewrite !fmap_cons. constructor; [by constructor|]. constructor; [done|].
    eapply Forall_impl; [exact Hw|]. intros x Hx. by eapply str_leb_trans.
  - rewrite fmap_cons. constructor; [by apply IH|]. rewrite sort_insert_perm. rewrite fmap_cons.
    constructor; [|done]. destruct (str_leb_total kv.1 kw.1); [congruence|done].
Qed.

(** [sorted]. *)
Definition sort_strings (l : list string) : list string := fst <$> sorted_items ((fun s => (s, ())) <$> l).

Lemma sort_strings_sorted l : StronglySorted str_le (sort_strings l).
Proof.
  unfold sort_strings, sorted_items. induction l as [|x l IH]; [constructor|].
  rewrite fmap_cons. cbn [foldr]. by apply sort_insert_sorted.
Qed.

Lemma sort_strings_perm l : sort_strings l ≡ₚ l.
Proof. unfold sort_strings. rewrite sorted_items_perm, <- list_fmap_compose. apply reflexive_eq, list_fmap_id. Qed.
