(* ===== verification/Units.v ===== *)
(** * Frequencies in floating point ([targets/utils.py])

    The MHz type, [period_ns] and [assert_pll_clock] compute with Python's
    floats, which are IEEE doubles: [Stdlib]'s [SpecFloat], 53 bits and rounding
    to nearest even. *)
From Stdlib Require Import SpecFloat.
From S2P Require Import Prelude PyStr.
#[local] Open Scope Z_scope.
#[local] Open Scope string_scope.

(** ** Python's floats *)

Definition float : Type := spec_float.

(** [float(z)] of an integer, [x * y], [x / y]; a literal [m * 10^k] is the
    nearest double. *)
Definition of_int (z : Z) : float := binary_normalize 53 1024 z 0 false.
Definition fmul : float -> float -> float := SFmul 53 1024.

Definition fdiv (x y : float) : result float :=
  match y with
  | S754_zero _ => Raise ZeroDivisionError
  | _ => Ok (SFdiv 53 1024 x y)
  end.

(** [int(x)]: towards zero; infinities and nan have no integer. *)
Definition to_int (x : float) : result Z :=
  match x with
  | S754_zero _ => Ok 0
  | S754_infinity _ => Raise OverflowError
  | S754_nan => Raise ValueError
  | S754_finite s m e =>
      let a := if (0 <=? e)%Z then Z.shiftl (Z.pos m) e else Z.shiftr (Z.pos m) (- e) in
      Ok (if s then - a else a)%Z
  end.

(** [1e6], [1e9]. *)
Definition e6 : float := of_int 1000000.
Definition e9 : float := of_int 1000000000.

(** ** [period_ns] *)

Definition period_ns (freq : float) : result float := fdiv e9 freq.

(** ** [MHzType]

    A subclass of [int]: its value is the frequency in Hz. *)

(** [MHzType(x)] for a float; an integer argument is converted. *)
Definition MHzType (x : float) : result Z := to_int (fmul x e6).

(** [MHz = MHzType(1)]. *)
Definition MHz : result Z := MHzType (of_int 1).

(** [__mul__] and [__rmul__]: [MHz.__class__(float(self) * o / 1e6)]. *)
Definition mhz_mul (self : Z) (o : float) : result Z :=
  x ← fdiv (fmul (of_int self) o) e6; MHzType x.

(** [str]: [%i MHz] of [int(self / 1e6)]. *)
Definition mhz_str (self : Z) : result string :=
  x ← fdiv (of_int self) e6; i ← to_int x; Ok (str_Z i +++ " MHz").

Definition to_ns (self : Z) : result float := fdiv e9 (of_int self).

(** ** [assert_pll_clock] *)

Definition assert_pll_clock (requested_freq input feedback divide : float) : result unit :=
  x ← fdiv (fmul input feedback) divide;
  y ← fdiv x e6;
  output_freq ← to_int y;
  z ← fdiv requested_freq e6;
  wanted ← to_int z;
  py_assert (output_freq =? wanted)%Z.

(** ** [gateware/cas.py]: [int(clk_freq*(10e-3))] *)

Definition ten_ms (clk_freq : float) : result Z :=
  x ← fdiv (of_int 10) (of_int 1000); to_int (fmul clk_freq x).

(** ** Theorems *)

Definition is_ok (x : result Z) (z : Z) : bool := match x with Ok y => (y =? z)%Z | Raise _ => false end.

Lemma is_ok_spec x z : is_ok x z = true -> x = Ok z.
Proof. destruct x; [|done]. by intros ->%Z.eqb_eq. Qed.

(** A check over [0 .. n-1] by computation. *)
Definition below (n : nat) (f : Z -> bool) : bool := forallb f (Z.of_nat <$> seq 0 n).

Lemma below_spec n f z : below n f = true -> 0 <= z < Z.of_nat n -> f z = true.
Proof.
  intros H Hz. unfold below in H. rewrite forallb_forall in H. apply H, list_elem_of_In, list_elem_of_fmap.
  exists (Z.to_nat z). split; [lia|]. apply elem_of_seq. lia.
Qed.

Definition is_text (x : result string) (s : string) : bool := match x with Ok t => String.eqb t s | Raise _ => false end.

Definition whole_ok (n : Z) : bool :=
  is_ok (mhz_mul 1000000 (of_int n)) (n * 1000000) && is_text (mhz_str (n * 1000000)) (str_Z n +++ " MHz") &&
  is_ok (ten_ms (of_int (n * 1000000))) (n * 10000).

(** Frequencies in whole MHz are exact, in spite of the floating
    point: for every [n] up to 2000, [n * MHz] is [n] million, prints as "n MHz",
    and the buttons' timer waits exactly [n * 10000] cycles, 10 ms. The unit
    itself is a million, not the thousand million of the class's doctest. *)
Theorem whole_mhz_exact (n : Z) (Hn : 0 <= n <= 2000) :
  MHz = Ok 1000000 /\ mhz_mul 1000000 (of_int n) = Ok (n * 1000000) /\
  mhz_str (n * 1000000) = Ok (str_Z n +++ " MHz") /\ ten_ms (of_int (n * 1000000)) = Ok (n * 10000).
Proof.
  assert (H : whole_ok n = true) by (apply (below_spec 2001); [vm_compute; reflexivity | lia]).
  unfold whole_ok in H. rewrite !andb_true_iff in H. destruct H as [[H1 H2] H3].
  split_and!; [vm_compute; reflexivity | by apply is_ok_spec | | by apply is_ok_spec].
  unfold is_text in H2. destruct (mhz_str _); [|done]. by apply String.eqb_eq in H2 as ->.
Qed.

Lemma whole_mhz_exact_witness : mhz_mul 1000000 (of_int 75) = Ok 75000000.
Proof. exact (proj1 (proj2 (whole_mhz_exact 75 ltac:(lia)))). Defined.

(** The check of a PLL only looks at whole MHz: 100 * 8 / 9 = 88.9 is taken for
    88, and 0 as a divider is an error. *)
Example assert_pll_clock_truncates :
  assert_pll_clock (of_int 88000000) (of_int 100000000) (of_int 8) (of_int 9) = Ok () /\
  assert_pll_clock (of_int 89000000) (of_int 100000000) (of_int 8) (of_int 9) = Raise AssertionError /\
  assert_pll_clock (of_int 89000000) (of_int 100000000) (of_int 8) (of_int 0) = Raise ZeroDivisionError /\
  period_ns (of_int 0) = Raise ZeroDivisionError /\ to_ns 100000000 = Ok (of_int 10).
Proof. vm_compute. auto. Qed.
