(* ===== verification/Make.v ===== *)
(** * The build driver ([make.py], [load.py])

    Command line and environment defaults, the names of the build products,
    and what [main] does as a list of actions. argparse, LiteX's [Builder] and
    the SoC classes are third-party or dynamic: the parsed command line, the
    attributes of the SoC and the builder's own arguments are inputs. *)
From S2P Require Import Prelude PyStr Paths.

(** The environment, and what the command line sets. *)
Abbreviation environ := (gmap string string).

Record CommandLine := {
  c_platform : option string; c_target : option string;
  c_cpu_type : option string; c_cpu_variant : option string; c_iprange : option string;
  c_target_option : list (string * string);
  c_no_compile_firmware : bool; c_override_firmware : option string
}.

Record Args := {
  platform : option string; target : option string;
  cpu_type : option string; cpu_variant : option string; iprange : string;
  target_option : list (string * string);
  no_compile_firmware : bool; override_firmware : option string
}.

(** The value of an option: the command line's, else the default. *)
Definition or_else {A} (a b : option A) : option A := match a with Some _ => a | None => b end.

Definition get_args (env : environ) (dplatform dtarget : string) (c : CommandLine) : Args := {|
  platform := or_else (c_platform c) (Some (default dplatform (env !! "PLATFORM"%string)));
  target := or_else (c_target c) (Some (default dtarget (env !! "TARGET"%string)));
  cpu_type := or_else (c_cpu_type c) (Some (default "lm32"%string (env !! "CPU"%string)));
  cpu_variant := or_else (c_cpu_variant c)
                   (if otruthy (env !! "CPU_VARIANT"%string) then env !! "CPU_VARIANT"%string else None);
  iprange := default "192.168.100"%string (c_iprange c);
  target_option := c_target_option c;
  no_compile_firmware := c_no_compile_firmware c;
  override_firmware := c_override_firmware c |}.

Definition assert_some {A} (o : option A) : result A :=
  match o with Some a => Ok a | None => Raise AssertionError end.

Definition full_platform (p : string) (opts : list (string * string)) : string :=
  fold_left (fun fp nv => if String.eqb (fst nv) "tofe_board" then fp +++ "." +++ snd nv else fp) opts p.

Definition full_cpu (cpu : string) (variant : option string) : string :=
  match variant with
  | Some v => if truthy v then cpu +++ "." +++ v else cpu
  | None => cpu
  end.

Definition get_builddir (a : Args) : result string :=
  p ← assert_some (platform a);
  t ← assert_some (target a);
  c ← assert_some (cpu_type a);
  Ok ("build/" +++ lower (full_platform p (target_option a)) +++ "_" +++ lower t +++ "_" +++
      lower (full_cpu c (cpu_variant a)) +++ "/").

Definition get_testdir (a : Args) : result string :=
  b ← get_builddir a; Ok (b +++ "/test").

Definition join3 (a b c : string) : string := path_join (path_join a b) c.
Definition join4 (a b c d : string) : string := path_join (join3 a b c) d.

Definition get_image (builddir filetype : string) : result string :=
  py_assert (String.eqb filetype "flash");; Ok (path_join builddir "image.bin").

(** [None]: the function falls off its end. *)
Definition get_gateware (builddir filetype : string) : option string :=
  let basedir := join3 builddir "gateware" "top" in
  if String.eqb filetype "load" then Some (basedir +++ ".bit")
  else if String.eqb filetype "flash" then Some (basedir +++ ".bin")
  else None.

Definition get_bios (builddir filetype : string) : result string :=
  let basedir := join4 builddir "software" "bios" "bios" in
  if String.eqb filetype "load" || String.eqb filetype "flash" then Ok (basedir +++ ".bin")
  else if String.eqb filetype "debug" then Ok (basedir +++ ".elf")
  else Raise AssertionError.

Definition get_firmware (builddir filetype : string) : result string :=
  let basedir := join4 builddir "software" "firmware" "firmware" in
  if String.eqb filetype "load" then Ok (basedir +++ ".bin")
  else if String.eqb filetype "flash" then Ok (basedir +++ ".fbi")
  else if String.eqb filetype "debug" then Ok (basedir +++ ".elf")
  else Raise AssertionError.

(** What the tools look at in a SoC: its memory regions with their lengths,
    in order, and which attributes it has. *)
Record SoC := {
  mem_regions : list (string * Z);
  has_cpu_type : bool; has_pcie_phy : bool; has_do_exit : bool
}.

Fixpoint find_region (n : string) (l : list (string * Z)) : option Z :=
  match l with
  | [] => None
  | (name, len) :: l => if String.eqb name n then Some len else find_region n l
  end.

Definition get_bios_maxsize (soc : SoC) : Z := default 0x8000 (find_region "rom" (mem_regions soc)).

(** ** [main] *)

Record BuildArgs := { output_dir : option string; csr_csv : option string; csr_json : option string }.

Inductive action :=
| AddSoftwarePackage (name dir : string)
| BuilderBuild (b : BuildArgs)
| PlatformBuild (build_dir : string)
| WriteFile (path : string)
| DoExit (filename : string).

(** [if not buildargs.get(key, None): buildargs[key] = v]. *)
Definition set_missing (o : option string) (v : string) : option string := if otruthy o then o else Some v.

Definition software_packages (a : Args) (soc : SoC) (cwd : string) : list action :=
  if negb (no_compile_firmware a) || otruthy (override_firmware a) then
    [AddSoftwarePackage "uip" (cwd +++ "/firmware/uip");
     if bool_decide (is_Some (find_region "main_ram" (mem_regions soc)))
     then AddSoftwarePackage "firmware" (cwd +++ "/firmware")
     else AddSoftwarePackage "stub" (cwd +++ "/firmware/stub")]
  else [].

Definition main (a : Args) (b : BuildArgs) (soc : SoC) (cwd : string) : result (list action) :=
  builddir ← get_builddir a;
  testdir ← get_testdir a;
  let outdir := set_missing (output_dir b) builddir in
  let build :=
    if has_cpu_type soc then
      software_packages a soc cwd ++
      [BuilderBuild {| output_dir := outdir;
                       csr_csv := set_missing (csr_csv b) (path_join testdir "csr.csv");
                       csr_json := set_missing (csr_json b) (path_join testdir "csr.json") |}]
    else [PlatformBuild (path_join builddir "gateware")] in
  let pcie :=
    if has_pcie_phy soc then
      let kerneldir := path_join (join3 builddir "software" "pcie") "kernel" in
      [WriteFile (path_join kerneldir "csr.h"); WriteFile (path_join kerneldir "soc.h")]
    else [] in
  let exit := if has_do_exit soc then [DoExit (testdir +++ "/analyzer.csv")] else [] in
  Ok (build ++ pcie ++ exit).

(** ** [load.py] *)

Inductive programmer := iMPACT | VivadoProgrammer.

Definition env_get (env : environ) (k : string) : result string :=
  match env !! k with Some v => Ok v | None => Raise KeyError end.

(** The arguments after the script's name, the environment and the files that
    exist to the programmer and the file it loads. *)
Definition load (argv : list string) (env : environ) (exists_ : string -> bool) : result (programmer * string) :=
  prog ← match argv with p :: _ => Ok p | [] => Raise ValueError end;
  fname ← match argv with
          | [_; f] => Ok f
          | _ =>
              p ← env_get env "PLATFORM";
              t ← env_get env "TARGET";
              c ← env_get env "CPU";
              Ok ("build/" +++ p +++ "_" +++ t +++ "_" +++ c +++ "/gateware/top.bit")
          end;
  pr ← (if String.eqb prog "ise" then Ok iMPACT
        else if String.eqb prog "vivado" then Ok VivadoProgrammer
        else Raise SystemError);
  if negb (exists_ fname) then Raise SystemError
  else if negb (endswith fname ".bit") then Raise SystemError
  else Ok (pr, fname).

(** ** Properties *)

Lemma get_builddir_ok a p t c :
  platform a = Some p -> target a = Some t -> cpu_type a = Some c ->
  get_builddir a = Ok ("build/" +++ lower (full_platform p (target_option a)) +++ "_" +++ lower t +++ "_" +++
      lower (full_cpu c (cpu_variant a)) +++ "/").
Proof. intros Hp Ht Hc. unfold get_builddir. by rewrite Hp, Ht, Hc. Qed.

Lemma lower_underscore c : lower_ascii c = "_"%char <-> c = "_"%char.
Proof.
  split; [|by intros ->].
  destruct c as [[] [] [] [] [] [] [] []]; vm_compute; intros E; (done || discriminate E).
Qed.

Lemma has_char_lower s : has_char "_" (lower s) = has_char "_" s.
Proof.
  unfold lower. induction s as [|x s IH]; [done|]. cbn [smap]. rewrite !has_char_cons, IH. f_equal.
  destruct (Ascii.eqb "_" x) eqn:E; [apply Ascii.eqb_eq in E; by subst|].
  apply Ascii.eqb_neq in E. apply Ascii.eqb_neq. intros H. symmetry in H. apply (proj1 (lower_underscore x)) in H. congruence.
Qed.

(** A name without the separator can be read back from the end. *)
Lemma split_at_last a b a' b' :
  has_char "_" b = false -> has_char "_" b' = false ->
  a +++ "_" +++ b = a' +++ "_" +++ b' -> a = a' /\ b = b'.
Proof.
  intros Hb Hb'. revert a'. induction a as [|x a IH]; intros [|x' a'].
  - intros [= E]. done.
  - rewrite append_cons. intros [= <- E]. change ("" +++ b) with b in E. subst b.
    rewrite !has_char_append in Hb. cbn in Hb. by rewrite orb_true_r in Hb.
  - rewrite append_cons. intros [= -> E]. change ("" +++ b') with b' in E. subst b'.
    rewrite !has_char_append in Hb'. cbn in Hb'. by rewrite orb_true_r in Hb'.
  - rewrite !append_cons. intros [= -> E]. destruct (IH a' E). by subst.
Qed.

Lemma Ok_inj {A} (a b : A) : Ok a = Ok b -> a = b.
Proof. by intros [= ->]. Qed.

(** The build directory identifies the configuration: when targets
    and CPUs are named without underscores, two argument sets with the same
    build directory agree, up to case, on the platform (with its TOFE board),
    the target and the CPU (with its variant). *)
Theorem builddir_injective a1 a2 p1 t1 c1 p2 t2 c2 d :
  platform a1 = Some p1 -> target a1 = Some t1 -> cpu_type a1 = Some c1 ->
  platform a2 = Some p2 -> target a2 = Some t2 -> cpu_type a2 = Some c2 ->
  has_char "_" t1 = false -> has_char "_" t2 = false ->
  has_char "_" (full_cpu c1 (cpu_variant a1)) = false ->
  has_char "_" (full_cpu c2 (cpu_variant a2)) = false ->
  get_builddir a1 = Ok d -> get_builddir a2 = Ok d ->
  lower (full_platform p1 (target_option a1)) = lower (full_platform p2 (target_option a2)) /\
  lower t1 = lower t2 /\
  lower (full_cpu c1 (cpu_variant a1)) = lower (full_cpu c2 (cpu_variant a2)).
Proof.
  intros P1 T1 C1 P2 T2 C2 U1 U2 V1 V2 D1 D2.
  rewrite (get_builddir_ok _ _ _ _ P1 T1 C1) in D1. rewrite (get_builddir_ok _ _ _ _ P2 T2 C2) in D2.
  rewrite <- D2 in D1. apply Ok_inj, append_inj_l in D1.
  set (F1 := lower (full_platform _ _)) in D1 |- *. set (F2 := lower (full_platform p2 _)) in D1 |- *.
  set (K1 := lower (full_cpu _ _)) in D1 |- *. set (K2 := lower (full_cpu c2 _)) in D1 |- *.
  assert (F1 +++ "_" +++ lower t1 +++ "_" +++ K1 = F2 +++ "_" +++ lower t2 +++ "_" +++ K2) as E.
  { apply (append_inj_r _ _ "/"). by rewrite !append_assoc. }
  rewrite <- !(append_assoc "_" (lower _)), <- !(append_assoc _ ("_" +++ lower _)) in E.
  apply split_at_last in E as [E Ec]; [|unfold K1, K2; by rewrite has_char_lower..].
  apply split_at_last in E as [Ep Et]; [|by rewrite has_char_lower..].
  done.
Qed.

Definition plain : CommandLine := {|
  c_platform := None; c_target := None; c_cpu_type := None; c_cpu_variant := None; c_iprange := None;
  c_target_option := []; c_no_compile_firmware := false; c_override_firmware := None |}.

Lemma plain_args env dp dt p t c :
  env !! "PLATFORM"%string = Some p -> env !! "TARGET"%string = Some t -> env !! "CPU"%string = Some c ->
  otruthy (env !! "CPU_VARIANT"%string) = false ->
  let a := get_args env dp dt plain in
  platform a = Some p /\ target a = Some t /\ cpu_type a = Some c /\
  target_option a = [] /\ cpu_variant a = None.
Proof. intros Hp Ht Hc Hv. cbn. by rewrite Hp, Ht, Hc, Hv. Qed.

Lemma endswith_char_append a x b c :
  endswith (a +++ String x b) (String c "") = endswith (String x b) (String c "").
Proof.
  induction a as [|y a IH]; [done|]. rewrite append_cons. cbn [endswith]. rewrite IH.
  destruct (String.eqb _ _) eqn:E; [|done]. apply String.eqb_eq in E. injection E as -> E.
  destruct a; done.
Qed.

(** A path below a directory that ends in a slash. *)
Lemma gateware_path d : get_gateware (d +++ "/") "load" = Some (d +++ "/gateware/top.bit").
Proof.
  unfold get_gateware, join3, path_join.
  change (startswith "gateware" "/") with false. change (startswith "top" "/") with false. cbv iota.
  rewrite (endswith_append d "/"), orb_true_r. cbv iota.
  rewrite !append_assoc. change ("/" +++ "gateware") with "/gateware".
  rewrite (endswith_char_append d "/" "gateware"). change (endswith "/gateware" "/") with false.
  assert (String.eqb (d +++ "/gateware") "" = false) as -> by (by destruct d).
  cbn [orb String.eqb]. rewrite !append_assoc. done.
Qed.

(** [load.py] and [make.py] agree on the bitstream: with the
    platform, target and CPU taken from the environment, named in lower case
    and without a CPU variant, the file [load.py] loads by default is the
    gateware file of [make.py]'s build directory. *)
Theorem load_uses_make_gateware env p t c prog pr exists_ f :
  env !! "PLATFORM"%string = Some p -> env !! "TARGET"%string = Some t -> env !! "CPU"%string = Some c ->
  otruthy (env !! "CPU_VARIANT"%string) = false ->
  lower p = p -> lower t = t -> lower c = c ->
  load [prog] env exists_ = Ok (pr, f) ->
  exists b, get_builddir (get_args env "opsis" "hdmi2usb" plain) = Ok b /\ get_gateware b "load" = Some f.
Proof.
  intros Hp Ht Hc Hv Lp Lt Lc Hl.
  destruct (plain_args env "opsis" "hdmi2usb" p t c Hp Ht Hc Hv) as (A1 & A2 & A3 & A4 & A5).
  rewrite (get_builddir_ok _ p t c A1 A2 A3), A4, A5. eexists. split; [reflexivity|].
  unfold load, env_get in Hl. rewrite Hp, Ht, Hc in Hl.
  apply bind_ok in Hl as (pg & _ & Hl). apply bind_ok in Hl as (fn & Hfn & Hl).
  apply bind_ok in Hl as (pr' & _ & Hl).
  destruct (negb (exists_ fn)); [done|]. destruct (negb (endswith fn _)); [done|].
  apply Ok_inj in Hl. injection Hl as _ <-. apply Ok_inj in Hfn. subst fn.
  unfold full_platform, full_cpu. cbn [fold_left]. rewrite Lp, Lt, Lc.
  rewrite <- (append_assoc _ c "/"), <- (append_assoc _ (_ +++ c)), <- (append_assoc _ (t +++ _)).
  rewrite <- (append_assoc _ (_ +++ t +++ _)), <- (append_assoc _ (p +++ _)).
  rewrite gateware_path. by rewrite !append_assoc.
Qed.

Definition ci_env : environ :=
  <["PLATFORM" := "arty"]> (<["TARGET" := "net"]> (<["CPU" := "vexriscv"]> ∅))%string.

Lemma load_uses_make_gateware_witness :
  get_gateware "build/arty_net_vexriscv/" "load" = Some "build/arty_net_vexriscv/gateware/top.bit"%string.
Proof.
  destruct (load_uses_make_gateware ci_env "arty" "net" "vexriscv" "vivado" VivadoProgrammer (fun _ => true)
              "build/arty_net_vexriscv/gateware/top.bit"
              eq_refl eq_refl eq_refl eq_refl eq_refl eq_refl eq_refl eq_refl) as (b & Hb & Hg).
  assert (Ok b = Ok "build/arty_net_vexriscv/"%string) as Eb by (refine (eq_trans (eq_sym Hb) _); vm_compute; reflexivity).
  injection Eb as ->. exact Hg.
Defined.

Lemma builddir_injective_witness :
  lower "Arty" = lower (full_platform "arty" []).
Proof.
  refine (proj1 (builddir_injective
    (get_args (<["PLATFORM" := "Arty"]> ci_env)%string "opsis" "hdmi2usb" plain)
    (get_args ci_env "opsis" "hdmi2usb" plain) "Arty" "net" "vexriscv" "arty" "net" "vexriscv"
    "build/arty_net_vexriscv/" eq_refl eq_refl eq_refl eq_refl eq_refl eq_refl eq_refl eq_refl eq_refl eq_refl _ _));
    vm_compute; reflexivity.
Defined.

(** With a CPU variant the two scripts look in different directories. *)
Lemma load_ignores_variant :
  exists f b, load ["vivado"%string] (<["CPU_VARIANT" := "linux"]> ci_env)%string (fun _ => true) = Ok (VivadoProgrammer, f) /\
  get_builddir (get_args (<["CPU_VARIANT" := "linux"]> ci_env)%string "opsis" "hdmi2usb" plain) = Ok b /\
  get_gateware b "load" <> Some f.
Proof. eexists _, _. split; [vm_compute; reflexivity|]. split; [vm_compute; reflexivity|]. vm_compute. discriminate. Qed.
