(* ===== verification/FlashImage.v ===== *)
(** * Flash images ([mkimage.py]) and flashing ([flash.py])

    [mkimage.py] lays gateware, BIOS and firmware out in one image file,
    [flash.py] programs an image or one part. The file system, the programmer
    and the platform's sizes are inputs; the image file is a byte list with a
    position, written the way Python's binary files are. *)
From S2P Require Import Prelude PyStr Make.

(** A binary file open for writing. *)
Record File := { content : list Z; pos : nat }.

Definition opened : File := {| content := []; pos := 0 |}.
Definition seek (p : nat) (f : File) : File := {| content := content f; pos := p |}.

(** Writing beyond the end fills the gap with zeros; an empty write changes
    nothing. *)
Definition fwrite (data : list Z) (f : File) : File :=
  match data with
  | [] => f
  | _ =>
      let c := content f ++ replicate (pos f - length (content f)) 0 in
      {| content := take (pos f) c ++ data ++ drop (pos f + length data) c;
         pos := pos f + length data |}
  end.

(** The sizes [mkimage.py] and [flash.py] take from platform and SoC. *)
Record Layout := { gateware_size : Z; bios_size : Z; spiflash_total_size : Z }.

Definition bios_pos (l : Layout) : Z := gateware_size l.
Definition firmware_pos (l : Layout) : Z := gateware_size l + bios_size l.

(** ** [mkimage.py] *)

(** [--override-x]: a missing or empty option keeps the default, ["none"] in
    any case means no file. *)
Definition choose (dflt : string) (override : option string) : option string :=
  match override with
  | Some o => if truthy o then if String.eqb (lower o) "none" then None else Some o else Some dflt
  | None => Some dflt
  end.

Definition fs := (string -> option (list Z)).
Definition file_exists (files : fs) (f : string) : bool := match files f with Some _ => true | None => false end.

(** The checks on a chosen file, and its contents; [suffix] is empty for the
    BIOS, which may have any. *)
Definition checked (files : fs) (suffix : string) (f : option string) : result () :=
  match f with
  | Some n => if truthy n then py_assert (file_exists files n);; py_assert (endswith n suffix) else Ok ()
  | None => Ok ()
  end.

Definition contents (files : fs) (f : option string) : list Z :=
  match f with Some n => if truthy n then default [] (files n) else [] | None => [] end.

(** The file after an operation that may fail part way. *)
Definition attempt : Type := File * result ().

Definition and_then (a : attempt) (k : File -> attempt) : attempt :=
  match a with (f, Ok _) => k f | (f, Raise e) => (f, Raise e) end.

Definition require (b : bool) (f : File) : attempt := (f, py_assert b).

(** [--force-image-size]: pad with 0xff up to the size. *)
Definition force_size (l : Layout) (force : option string) : result (option Z) :=
  match force with
  | Some s =>
      if negb (truthy s) then Ok None
      else if String.eqb (lower s) "true" || String.eqb (lower s) "1" then Ok (Some (spiflash_total_size l))
      else n ← py_int s; Ok (Some n)
  | None => Ok None
  end.

Definition pad (l : Layout) (force : option string) (f : File) : attempt :=
  match force_size l force with
  | Ok (Some n) => (fwrite (replicate (Z.to_nat (n - Z.of_nat (pos f))) 0xff) f, Ok ())
  | Ok None => (f, Ok ())
  | Raise e => (f, Raise e)
  end.

(** The body of the [with open(output_file, "wb")] block. *)
Definition write_image (l : Layout) (g b fw : list Z) (force : option string) : attempt :=
  and_then (require (Z.of_nat (length g) <? gateware_size l) opened) (fun f =>
  let f := fwrite g (seek 0 f) in
  and_then (require (Z.of_nat (length b) <? bios_size l) f) (fun f =>
  let f := fwrite b (seek (Z.to_nat (bios_pos l)) f) in
  let f := fwrite fw (seek (Z.to_nat (firmware_pos l)) f) in
  pad l force f)).

Record MkArgs := {
  mk_args : Args; output_file : string;
  override_gateware : option string; override_bios : option string;
  force_image_size : option string
}.

Definition output_path (builddir out : string) : string :=
  if contains out "/" then out else path_join builddir out.

(** [main]: the name of the image, and the file as it is left on disk; [Raise]
    before the file is opened leaves the disk alone. *)
Definition mkimage (a : MkArgs) (l : Layout) (files : fs) (dirs : string -> bool) : result (string * attempt) :=
  builddir ← get_builddir (mk_args a);
  let out := output_path builddir (output_file a) in
  py_assert (dirs (dirname out));;
  let gateware := choose (default ""%string (get_gateware builddir "flash")) (override_gateware a) in
  checked files ".bin" gateware;;
  dbios ← get_bios builddir "flash";
  let bios := choose dbios (override_bios a) in
  checked files "" bios;;
  dfirmware ← get_firmware builddir "flash";
  let firmware := choose dfirmware (override_firmware (mk_args a)) in
  checked files ".fbi" firmware;;
  Ok (out, write_image l (contents files gateware) (contents files bios) (contents files firmware)
             (force_image_size a)).

(** ** [flash.py] *)

Inductive mode := MImage | MGateware | MBios | MFirmware | MOther.

Record FlashArgs := {
  fl_args : Args; fl_mode : mode; other_file : option string; address : option Z
}.

(** The file to flash ([None] is Python's [None]) and its address range. *)
Definition flash_target (a : FlashArgs) (l : Layout) (builddir : string) : result (option string * option Z * Z) :=
  match fl_mode a with
  | MImage => f ← get_image builddir "flash"; Ok (Some f, Some 0, spiflash_total_size l)
  | MGateware => Ok (get_gateware builddir "flash", Some 0, gateware_size l)
  | MBios =>
      f ← get_bios builddir "flash";
      Ok (Some f, Some (gateware_size l), gateware_size l + bios_size l)
  | MFirmware =>
      f ← (if otruthy (override_firmware (fl_args a))
           then Ok (default ""%string (override_firmware (fl_args a)))
           else get_firmware builddir "flash");
      Ok (Some f, Some (gateware_size l + bios_size l), spiflash_total_size l)
  | MOther => Ok (other_file a, address a, spiflash_total_size l)
  end.

(** What [prog.flash] is called with: an address and the file's bytes. *)
Definition flash (a : FlashArgs) (l : Layout) (files : fs) (realpath : string -> string) : result (Z * list Z) :=
  builddir ← get_builddir (fl_args a);
  t ← flash_target a l builddir;
  let '(filename, start, address_end) := t in
  filepath ← match filename with Some n => Ok (realpath n) | None => Raise TypeError end;
  address_start ← match start with Some s => Ok s | None => Raise TypeError end;
  py_assert (0 <=? address_start);;
  py_assert (file_exists files filepath);;
  let data := default [] (files filepath) in
  py_assert (address_start + Z.of_nat (length data) <? address_end);;
  Ok (address_start, data).

(** ** Writing files *)

Lemma fwrite_length data f :
  length (content (fwrite data f)) =
  match data with [] => length (content f) | _ => Nat.max (length (content f)) (pos f + length data) end.
Proof.
  destruct data as [|x data]; [done|]. cbn [fwrite content].
  rewrite !length_app, length_take, length_drop, length_app, length_replicate. cbn [length]. lia.
Qed.

Lemma fwrite_pos data f : pos (fwrite data f) = (pos f + length data)%nat.
Proof. destruct data; cbn; lia. Qed.

(** What a write leaves at each index. *)
Lemma fwrite_lookup data f k :
  content (fwrite data f) !! k =
  if (pos f <=? k)%nat && (k <? pos f + length data)%nat then data !! (k - pos f)%nat
  else if (k <? length (content f))%nat then content f !! k
  else if (k <? pos f)%nat && negb (length data =? 0)%nat then Some 0 else None.
Proof.
  destruct data as [|x data].
  { cbn [fwrite length]. rewrite Nat.add_0_r.
    destruct (pos f <=? k)%nat eqn:E1, (k <? pos f)%nat eqn:E2; cbn [andb negb Nat.eqb];
      rewrite ?Nat.leb_le, ?Nat.ltb_lt, ?Nat.leb_gt, ?Nat.ltb_ge in *; try lia;
      destruct (k <? length (content f))%nat eqn:E3; try done; apply Nat.ltb_ge in E3;
      by apply lookup_ge_None_2. }
  cbn [fwrite content]. set (c := content f ++ replicate (pos f - length (content f)) 0).
  assert (length c = Nat.max (length (content f)) (pos f)) as Hc.
  { unfold c. rewrite length_app, length_replicate. lia. }
  assert (negb (length (x :: data) =? 0)%nat = true) as -> by done. rewrite andb_true_r.
  assert (length (take (pos f) c) = pos f) as Ht by (rewrite length_take; lia).
  assert (forall j, c !! j = if (j <? length (content f))%nat then content f !! j
                             else if (j <? pos f)%nat then Some 0 else None) as Hcj.
  { intros j. unfold c. destruct (j <? length (content f))%nat eqn:E; [apply Nat.ltb_lt in E | apply Nat.ltb_ge in E].
    - by rewrite lookup_app_l.
    - rewrite lookup_app_r by done. destruct (j <? pos f)%nat eqn:E2; [apply Nat.ltb_lt in E2 | apply Nat.ltb_ge in E2].
      + rewrite lookup_replicate_2; [done | lia].
      + apply lookup_ge_None_2. rewrite length_replicate. lia. }
  rewrite <- Hcj.
  destruct (pos f <=? k)%nat eqn:E1; [apply Nat.leb_le in E1 | apply Nat.leb_gt in E1]; cbn [andb].
  - rewrite lookup_app_r by lia. rewrite Ht.
    destruct (k <? pos f + length (x :: data))%nat eqn:E2; [apply Nat.ltb_lt in E2 | apply Nat.ltb_ge in E2].
    + rewrite lookup_app_l by lia. done.
    + rewrite lookup_app_r, lookup_drop by lia. f_equal. lia.
  - rewrite lookup_app_l by lia. rewrite lookup_take_lt by lia. done.
Qed.

(** ** The image *)

Definition in_part (p : nat) (d : list Z) (k : nat) : Prop := (p <= k < p + length d)%nat.

(** [img] holds [d] at [p]. *)
Definition holds (img : list Z) (p : nat) (d : list Z) : Prop :=
  forall k, (k < length d)%nat -> img !! (p + k)%nat = d !! k.

Lemma holds_slice img p d : holds img p d -> take (length d) (drop p img) = d.
Proof.
  intros H. apply list_eq. intros k. destruct (decide (k < length d)%nat) as [Hk|Hk].
  - rewrite lookup_take_lt, lookup_drop by done. by apply H.
  - rewrite lookup_take_ge by lia. symmetry. apply lookup_ge_None_2. lia.
Qed.

Ltac nat_cases :=
  repeat match goal with
  | |- context [(?a <=? ?b)%nat] => destruct (a <=? b)%nat eqn:?
  | |- context [(?a <? ?b)%nat] => destruct (a <? b)%nat eqn:?
  end;
  rewrite ?Nat.leb_le, ?Nat.ltb_lt, ?Nat.leb_gt, ?Nat.ltb_ge in *.

Lemma fwrite_holds data f : holds (content (fwrite data f)) (pos f) data.
Proof.
  intros k Hk. rewrite fwrite_lookup, (proj2 (Nat.leb_le _ _)), (proj2 (Nat.ltb_lt _ _)) by lia.
  cbn [andb]. f_equal. lia.
Qed.

Lemma fwrite_bounded data p f :
  (length (content f) <= p)%nat -> (length (content (fwrite data (seek p f))) <= p + length data)%nat.
Proof. intros Hf. rewrite fwrite_length. destruct data; cbn [length seek content pos] in *; lia. Qed.

(** A part survives a write that starts behind it. *)
Lemma fwrite_keeps p d data f :
  holds (content f) p d -> (p + length d <= pos f)%nat -> holds (content (fwrite data f)) p d.
Proof.
  intros H Hp k Hk. rewrite fwrite_lookup.
  assert (p + k < length (content f))%nat as Hl.
  { apply lookup_lt_is_Some_1. rewrite H by done. by apply lookup_lt_is_Some_2. }
  nat_cases; cbn [andb]; try lia. by apply H.
Qed.

(** Bytes that no write produced. *)
Lemma fwrite_other data f k v :
  content (fwrite data f) !! k = Some v -> ~ in_part (pos f) data k -> content f !! k = Some v \/ v = 0.
Proof.
  rewrite fwrite_lookup. intros H Hn. unfold in_part in Hn.
  revert H. nat_cases; cbn [andb]; try lia; auto; try discriminate; destruct (negb (length data =? 0)%nat); cbn [andb]; intros [= <-]; auto.
Qed.

(** The three parts before padding. *)
Definition parts (l : Layout) (g b fw : list Z) : File :=
  fwrite fw (seek (Z.to_nat (firmware_pos l)) (fwrite b (seek (Z.to_nat (bios_pos l)) (fwrite g (seek 0 opened))))).

Lemma write_image_inv l g b fw force f :
  write_image l g b fw force = (f, Ok ()) ->
  Z.of_nat (length g) < gateware_size l /\ Z.of_nat (length b) < bios_size l /\
  exists n, force_size l force = Ok n /\
    f = match n with
        | Some n => fwrite (replicate (Z.to_nat (n - Z.of_nat (pos (parts l g b fw)))) 0xff) (parts l g b fw)
        | None => parts l g b fw
        end.
Proof.
  unfold write_image, require, and_then, pad.
  destruct (_ <? gateware_size l) eqn:E1; [|done]. destruct (_ <? bios_size l) eqn:E2; [|done]. cbn [py_assert].
  apply Z.ltb_lt in E1, E2. fold (parts l g b fw). intros H. split; [done|]. split; [done|].
  destruct (force_size l force) as [[n|]|e]; [| |done]; injection H as <-; eauto.
Qed.

Section Parts.
Context (l : Layout) (g b fw : list Z).
Hypothesis Hg : Z.of_nat (length g) < gateware_size l.
Hypothesis Hb : Z.of_nat (length b) < bios_size l.

Lemma part_order :
  (0 + length g < Z.to_nat (bios_pos l))%nat /\
  (Z.to_nat (bios_pos l) + length b < Z.to_nat (firmware_pos l))%nat.
Proof using Hg Hb. unfold bios_pos, firmware_pos. lia. Qed.

Lemma parts_hold :
  holds (content (parts l g b fw)) 0 g /\
  holds (content (parts l g b fw)) (Z.to_nat (bios_pos l)) b /\
  holds (content (parts l g b fw)) (Z.to_nat (firmware_pos l)) fw.
Proof using Hg Hb.
  destruct part_order as [O1 O2]. unfold parts. split; [|split].
  - apply fwrite_keeps; [|cbn [pos seek]; lia]. apply fwrite_keeps; [|cbn [pos seek]; lia]. apply fwrite_holds.
  - apply fwrite_keeps; [|cbn [pos seek]; lia]. apply fwrite_holds.
  - apply fwrite_holds.
Qed.

Lemma parts_length : (length (content (parts l g b fw)) <= Z.to_nat (firmware_pos l) + length fw)%nat.
Proof using Hg Hb.
  destruct part_order as [O1 O2]. apply fwrite_bounded.
  pose proof (fwrite_bounded g 0 opened (le_n 0)).
  pose proof (fwrite_bounded b (Z.to_nat (bios_pos l)) (fwrite g (seek 0 opened))). lia.
Qed.

Lemma parts_other k v :
  content (parts l g b fw) !! k = Some v ->
  ~ in_part 0 g k -> ~ in_part (Z.to_nat (bios_pos l)) b k -> ~ in_part (Z.to_nat (firmware_pos l)) fw k -> v = 0.
Proof using.
  intros H N1 N2 N3. unfold parts in H.
  apply fwrite_other in H as [H| ->]; [|done|done]. apply fwrite_other in H as [H| ->]; [|done|done].
  by apply fwrite_other in H as [H| ->]; [|done|done].
Qed.
End Parts.

(** Claim C15: When [mkimage.py] succeeds, the image holds the gateware at 0,
    the BIOS at the gateware size and the firmware behind the BIOS area, each
    byte for byte; every other byte is 0, or 0xff behind the firmware; and
    with [--force-image-size] of at least the end of the firmware the image
    has exactly that size. *)
Theorem mkimage_layout l g b fw force f :
  write_image l g b fw force = (f, Ok ()) ->
  let img := content f in
  let fw_pos := Z.to_nat (firmware_pos l) in
  take (length g) img = g /\
  take (length b) (drop (Z.to_nat (bios_pos l)) img) = b /\
  take (length fw) (drop fw_pos img) = fw /\
  (forall k v, img !! k = Some v -> ~ in_part 0 g k -> ~ in_part (Z.to_nat (bios_pos l)) b k ->
     ~ in_part fw_pos fw k -> v = 0 \/ (v = 0xff /\ (fw_pos + length fw <= k)%nat)) /\
  (forall n, force_size l force = Ok (Some n) -> (Z.of_nat (fw_pos + length fw) < n)%Z -> Z.of_nat (length img) = n).
Proof.
  intros H. apply write_image_inv in H as (Hg & Hb & n & Hn & ->). cbv zeta.
  destruct (parts_hold l g b fw Hg Hb) as (H1 & H2 & H3). destruct (part_order l g b Hg Hb) as [O1 O2].
  assert (pos (parts l g b fw) = (Z.to_nat (firmware_pos l) + length fw)%nat) as Hp by (unfold parts; by rewrite fwrite_pos).
  destruct n as [n|].
  - set (p := replicate _ 255). repeat split.
    + apply (holds_slice _ 0). apply fwrite_keeps; [done | lia].
    + apply holds_slice. apply fwrite_keeps; [done | lia].
    + apply holds_slice. apply fwrite_keeps; [done | lia].
    + intros k v Hk N1 N2 N3. destruct (decide (in_part (pos (parts l g b fw)) p k)) as [Hi|Hi].
      * right. destruct Hi as [Hi1 Hi2]. split; [|lia].
        rewrite <- (Nat.sub_add (pos (parts l g b fw)) k) in Hk by done. rewrite Nat.add_comm in Hk.
        rewrite fwrite_holds in Hk by lia. by apply lookup_replicate_1 in Hk as [-> _].
      * left. apply fwrite_other in Hk as [Hk | ->]; [|done|done]. by apply (parts_other l g b fw k v).
    + intros m Hm Hlt. rewrite Hn in Hm. injection Hm as ->. rewrite fwrite_length.
      pose proof (parts_length l g b fw Hg Hb). assert (length p = Z.to_nat (m - Z.of_nat (pos (parts l g b fw)))) as Hlp
        by apply length_replicate. rewrite Hp in *. destruct p; cbn [length] in *; lia.
  - repeat split.
    + by apply (holds_slice _ 0).
    + by apply holds_slice.
    + by apply holds_slice.
    + intros k v Hk N1 N2 N3. left. by apply (parts_other l g b fw k v).
    + intros m Hm. congruence.
Qed.

(** ** Flashing *)

(** The area of the flash a mode may write. *)
Definition area (l : Layout) (m : mode) (start : Z) : Z * Z :=
  match m with
  | MImage => (0, spiflash_total_size l)
  | MGateware => (0, gateware_size l)
  | MBios => (gateware_size l, gateware_size l + bios_size l)
  | MFirmware => (gateware_size l + bios_size l, spiflash_total_size l)
  | MOther => (start, spiflash_total_size l)
  end.

Lemma truthy_append a c b : truthy (a +++ String c b) = true.
Proof. by destruct a. Qed.

Lemma flash_inv a l files rp addr data :
  flash a l files rp = Ok (addr, data) ->
  exists b n aend, get_builddir (fl_args a) = Ok b /\ flash_target a l b = Ok (Some n, Some addr, aend) /\
    files (rp n) = Some data /\ 0 <= addr /\ addr + Z.of_nat (length data) < aend.
Proof.
  unfold flash. intros H. apply bind_ok in H as (b & Hb & H). apply bind_ok in H as ([[fn st] aend] & Ht & H).
  apply bind_ok in H as (fp & Hfp & H). apply bind_ok in H as (ad & Had & H).
  apply bind_ok in H as ([] & H0%py_assert_ok%Z.leb_le & H). apply bind_ok in H as ([] & Hex%py_assert_ok & H).
  apply bind_ok in H as ([] & Hlt%py_assert_ok%Z.ltb_lt & H).
  destruct fn as [n|]; [|done]. destruct st as [s|]; [|done]. injection Hfp as <-. injection Had as <-.
  injection H as <- <-. unfold file_exists in Hex. destruct (files (rp n)) as [d|] eqn:Ef; [|done].
  cbn [default] in *. exists b, n, aend. done.
Qed.

Lemma flash_target_area a l b n addr aend :
  flash_target a l b = Ok (n, Some addr, aend) -> area l (fl_mode a) addr = (addr, aend).
Proof.
  unfold flash_target, area. destruct (fl_mode a); intros H.
  1, 3, 4: apply bind_ok in H as (f & _ & H). all: by injection H as _ E <-; subst.
Qed.

(** Whatever [flash.py] programs fits, with room to spare, into the
    area of its mode: a gateware, BIOS or firmware file never reaches into a
    neighbouring part, nothing is written outside the flash (when its parts
    fit), and only the other mode lets the user choose the address. *)
Theorem flash_stays_in_area a l files rp addr data :
  flash a l files rp = Ok (addr, data) ->
  let '(lo, hi) := area l (fl_mode a) (default 0 (address a)) in
  lo = addr /\ 0 <= addr /\ addr + Z.of_nat (length data) < hi /\
  (0 <= bios_size l -> gateware_size l + bios_size l <= spiflash_total_size l ->
   addr + Z.of_nat (length data) < spiflash_total_size l).
Proof.
  intros H. apply flash_inv in H as (b & n & aend & _ & Ht & _ & H0 & Hlt).
  assert (area l (fl_mode a) (default 0 (address a)) = (addr, aend)) as ->.
  { rewrite <- (flash_target_area _ _ _ _ _ _ Ht). unfold flash_target in Ht. destruct (fl_mode a); try done.
    by injection Ht as _ -> _. }
  split; [done|]. split; [done|]. split; [done|]. intros Hbs Htot.
  apply flash_target_area in Ht. unfold area in Ht. destruct (fl_mode a); injection Ht; lia.
Qed.

Lemma mkimage_inv a l files dirs out att :
  mkimage a l files dirs = Ok (out, att) ->
  exists b gw bios fw, get_builddir (mk_args a) = Ok b /\
    get_gateware b "flash" = Some gw /\ get_bios b "flash" = Ok bios /\ get_firmware b "flash" = Ok fw /\
    att = write_image l (contents files (choose gw (override_gateware a)))
            (contents files (choose bios (override_bios a)))
            (contents files (choose fw (override_firmware (mk_args a)))) (force_image_size a).
Proof.
  unfold mkimage. intros H. apply bind_ok in H as (b & Hb & H). apply bind_ok in H as ([] & _ & H).
  apply bind_ok in H as ([] & _ & H). apply bind_ok in H as (bios & Hbios & H).
  apply bind_ok in H as ([] & _ & H). apply bind_ok in H as (fw & Hfw & H).
  apply bind_ok in H as ([] & _ & H). injection H as _ <-.
  exists b, (default ""%string (get_gateware b "flash")), bios, fw. split; [done|]. split; [done|]. done.
Qed.

Lemma default_names b n :
  get_gateware b "flash" = Some n \/ get_bios b "flash" = Ok n \/ get_firmware b "flash" = Ok n -> truthy n = true.
Proof.
  unfold get_gateware, get_bios, get_firmware. cbn [String.eqb Ascii.eqb Bool.eqb orb].
  intros [H|[H|H]]; injection H as <-; apply truthy_append.
Qed.

Lemma contents_default files n : truthy n = true -> contents files (Some n) = default [] (files n).
Proof. intros H. unfold contents. by rewrite H. Qed.

(** Claim C16: Flashing the image and flashing its parts agree: for an image
    made from the default gateware and BIOS and the same firmware option, the
    bytes [flash.py] programs in gateware, BIOS or firmware mode are the bytes
    the image has at that address. *)
Theorem flash_part_matches_image a m l files rp dirs out f addr data :
  mkimage a l files dirs = Ok (out, (f, Ok ())) ->
  override_gateware a = None -> override_bios a = None ->
  (forall o, override_firmware (mk_args a) = Some o -> lower o <> "none"%string) ->
  (m = MGateware \/ m = MBios \/ m = MFirmware) ->
  (forall n, files (rp n) = files n) ->
  flash {| fl_args := mk_args a; fl_mode := m; other_file := None; address := None |} l files rp = Ok (addr, data) ->
  take (length data) (drop (Z.to_nat addr) (content f)) = data.
Proof.
  intros Hmk Hog Hob Hof Hm Hrp Hfl.
  apply mkimage_inv in Hmk as (b & gw & bios & fw & Hb & Hgw & Hbios & Hfw & Hw).
  apply flash_inv in Hfl as (b' & n & aend & Hb' & Ht & Hd & _). cbn [fl_args] in Hb'. rewrite Hb in Hb'.
  injection Hb' as <-. rewrite Hrp in Hd. symmetry in Hw. rewrite Hog, Hob in Hw. cbn [choose] in Hw.
  rewrite !contents_default in Hw by (apply (default_names b); auto).
  apply mkimage_layout in Hw as (Lg & Lb & Lf & _).
  unfold flash_target in Ht. cbn [fl_mode fl_args] in Ht. destruct Hm as [-> | [-> | ->]].
  - rewrite Hgw in Ht. injection Ht as <- <- _. rewrite Hd in Lg. exact Lg.
  - rewrite Hbios in Ht. injection Ht as <- <- _. rewrite Hd in Lb. exact Lb.
  - assert (contents files (choose fw (override_firmware (mk_args a))) = data /\ addr = firmware_pos l) as [Ec ->].
    { destruct (override_firmware (mk_args a)) as [o|] eqn:Eo; cbn [otruthy default choose] in *.
      - destruct (truthy o) eqn:Et.
        + injection Ht as <- <- _. rewrite (proj2 (String.eqb_neq _ _) (Hof o eq_refl)), contents_default, Hd; done.
        + rewrite Hfw in Ht. injection Ht as <- <- _. rewrite contents_default, Hd by (apply (default_names b); auto). done.
      - rewrite Hfw in Ht. injection Ht as <- <- _. rewrite contents_default, Hd by (apply (default_names b); auto). done. }
    rewrite Ec in Lf. exact Lf.
Qed.

(** An image padded to the whole flash cannot be flashed:
    [--force-image-size=true] makes the image exactly as large as the flash,
    and [flash.py] then refuses it, because it wants the end of the file
    strictly below the end of the flash. *)
Theorem forced_image_is_rejected l g b fw f s a builddir files rp :
  write_image l g b fw (Some s) = (f, Ok ()) -> lower s = "true"%string ->
  firmware_pos l + Z.of_nat (length fw) < spiflash_total_size l ->
  fl_mode a = MImage -> get_builddir (fl_args a) = Ok builddir ->
  files (rp (path_join builddir "image.bin")) = Some (content f) ->
  flash a l files rp = Raise AssertionError.
Proof.
  intros Hw Hs Hfit Hm Hb Hf.
  assert (force_size l (Some s) = Ok (Some (spiflash_total_size l))) as Hforce.
  { unfold force_size. rewrite Hs. destruct (truthy s) eqn:E; [done|].
    unfold truthy in E. apply negb_false_iff, String.eqb_eq in E. by subst. }
  pose proof (write_image_inv _ _ _ _ _ _ Hw) as (Hg & Hbs & _).
  apply mkimage_layout in Hw as (_ & _ & _ & _ & Hlen).
  assert (Z.of_nat (length (content f)) = spiflash_total_size l) as El.
  { apply Hlen; [done|]. unfold firmware_pos in *. lia. }
  unfold flash. rewrite Hb. cbn [mbind result_bind]. unfold flash_target. rewrite Hm.
  cbn [get_image String.eqb Ascii.eqb Bool.eqb py_assert mbind result_bind].
  unfold file_exists. rewrite Hf. change (default [] (Some (content f))) with (content f). rewrite El.
  rewrite Z.add_0_l, Z.ltb_irrefl. done.
Qed.

(** ** Witnesses *)

Definition small : Layout := {| gateware_size := 8; bios_size := 4; spiflash_total_size := 20 |}.

Definition small_image : File := fst (write_image small [1; 2; 3] [4; 5] [6; 7; 8] (Some "True"%string)).

Lemma mkimage_layout_witness :
  write_image small [1; 2; 3] [4; 5] [6; 7; 8] (Some "True"%string) = (small_image, Ok ()) /\
  take 2 (drop 8 (content small_image)) = [4; 5] /\ Z.of_nat (length (content small_image)) = 20.
Proof.
  split; [vm_compute; reflexivity|].
  destruct (mkimage_layout small [1; 2; 3] [4; 5] [6; 7; 8] (Some "True"%string) small_image ltac:(vm_compute; reflexivity))
    as (_ & W1 & _ & _ & W2).
  split; [exact W1 | apply W2; vm_compute; reflexivity].
Defined.

Definition arty : Args := get_args ci_env "opsis" "hdmi2usb" plain.

Definition built : string := "build/arty_net_vexriscv/".

Definition build_files : fs := fun n =>
  if String.eqb n "build/arty_net_vexriscv/gateware/top.bin" then Some [1; 2; 3]
  else if String.eqb n "build/arty_net_vexriscv/software/bios/bios.bin" then Some [4; 5]
  else if String.eqb n "build/arty_net_vexriscv/software/firmware/firmware.fbi" then Some [6; 7; 8]
  else if String.eqb n "build/arty_net_vexriscv/image.bin" then Some (content small_image)
  else None.

Definition flash_bios : FlashArgs := {| fl_args := arty; fl_mode := MBios; other_file := None; address := None |}.

Definition mk_default : MkArgs := {|
  mk_args := arty; output_file := "image.bin"; override_gateware := None; override_bios := None;
  force_image_size := Some "True"%string |}.

Lemma flash_stays_in_area_witness :
  flash flash_bios small build_files id = Ok (8, [4; 5]) /\ 8 + 2 < 12.
Proof.
  split; [vm_compute; reflexivity|].
  destruct (flash_stays_in_area flash_bios small build_files id 8 [4; 5] ltac:(vm_compute; reflexivity)) as (_ & _ & W & _).
  exact W.
Defined.

Lemma flash_part_matches_image_witness :
  take 2 (drop 8 (content small_image)) = [4; 5].
Proof.
  refine (flash_part_matches_image mk_default MBios small build_files id (fun _ => true)
            "build/arty_net_vexriscv/image.bin" small_image 8 [4; 5] _ _ _ _ _ _ _).
  - vm_compute; reflexivity.
  - reflexivity.
  - reflexivity.
  - discriminate.
  - right; left; reflexivity.
  - reflexivity.
  - vm_compute; reflexivity.
Defined.

Lemma forced_image_is_rejected_witness :
  flash {| fl_args := arty; fl_mode := MImage; other_file := None; address := None |} small build_files id =
  Raise AssertionError.
Proof.
  refine (forced_image_is_rejected small [1; 2; 3] [4; 5] [6; 7; 8] small_image "True" _ built build_files id _ _ _ _ _ _);
    vm_compute; reflexivity.
Defined.
