(* ===== verification/Platform.v ===== *)
(** * Boards

    A platform module is a table of named I/O resources with their FPGA pins,
    connectors, and constants about clock and flash. The constructors of a
    resource's constraints are LiteX's; the board files only build values of
    them. How LiteX splits a pin string and hands resources out is third-party:
    a class of [Resources] states it. *)
From Stdlib Require QArith_base.
From S2P Require Import Prelude PyStr.

Inductive constraint :=
| Pins (identifiers : list string)
| IOStandard (s : string)
| Misc (s : string)
| Drive (s : string)
| Inverted
| Subsignal (n : string) (cs : list constraint).

(** The second component of a resource: its number, or, in the one row where
    the number is missing, a constraint. *)
Inductive number :=
| Nr (z : Z)
| NotNr (c : constraint).

(** Name, number, constraints. *)
Definition resource : Type := string * number * list constraint.

Definition res_name (r : resource) : string := fst (fst r).
Definition res_number (r : resource) : number := snd (fst r).
Definition res_constraints (r : resource) : list constraint := snd r.

Inductive connector :=
| ConnPins (pins : string)
| ConnMap (pins : list (string * string)).

(** A time of [n/d] nanoseconds; decimal fractions are taken exactly. *)
Definition ns (n : Z) (d : positive) : QArith_base.Q := QArith_base.Qmake n d.

(** The class attributes of a [Platform]; [None]: not defined. *)
Record Platform := {
  name : option string;
  default_clk_name : string;
  default_clk_period : QArith_base.Q;    (** ns *)
  gateware_size : option Z;
  spiflash_model : option string;
  spiflash_read_dummy_bits : option Z;
  spiflash_clock_div : option Z;
  spiflash_total_size : option Z;
  spiflash_page_size : option Z;
  spiflash_sector_size : option Z;
  io : list resource
}.

(** ** Pins and connectors *)

(** The identifiers a constraint names. *)
Fixpoint identifiers (c : constraint) : list string :=
  match c with
  | Pins ids => ids
  | Subsignal _ cs => flat_map identifiers cs
  | _ => []
  end.

Definition resource_identifiers (r : resource) : list string :=
  match res_number r with
  | NotNr c => identifiers c ++ flat_map identifiers (res_constraints r)
  | Nr _ => flat_map identifiers (res_constraints r)
  end.
