(* ===== verification/PlatformsIce.v ===== *)
(** * Boards with Lattice iCE40 FPGAs

    The resource tables, connectors and constants of [platforms/*.py], entry
    by entry. *)
From S2P Require Import Prelude PyStr Platform.

#[local] Open Scope string_scope.

(** ** [platforms/ice40_hx8k_b_evn.py] *)

Definition ice40_hx8k_b_evn_io : list resource := [
  ("user_led", Nr 0, [Pins ["B5"]; IOStandard "LVCMOS33"]);
  ("user_led", Nr 1, [Pins ["B4"]; IOStandard "LVCMOS33"]);
  ("user_led", Nr 2, [Pins ["A2"]; IOStandard "LVCMOS33"]);
  ("user_led", Nr 3, [Pins ["A1"]; IOStandard "LVCMOS33"]);
  ("user_led", Nr 4, [Pins ["C5"]; IOStandard "LVCMOS33"]);
  ("user_led", Nr 5, [Pins ["C4"]; IOStandard "LVCMOS33"]);
  ("user_led", Nr 6, [Pins ["B3"]; IOStandard "LVCMOS33"]);
  ("user_led", Nr 7, [Pins ["C3"]; IOStandard "LVCMOS33"]);
  ("serial", Nr 0, [
    Subsignal "rx" [Pins ["B10"]];
    Subsignal "tx" [Pins ["B12"]; Misc "PULLUP"];
    Subsignal "rts" [Pins ["B13"]; Misc "PULLUP"];
    Subsignal "cts" [Pins ["A15"]; Misc "PULLUP"];
    Subsignal "dtr" [Pins ["A16"]; Misc "PULLUP"];
    Subsignal "dsr" [Pins ["B14"]; Misc "PULLUP"];
    Subsignal "dcd" [Pins ["B15"]; Misc "PULLUP"];
    IOStandard "LVCMOS33"]);
  ("spiflash", Nr 0, [
    Subsignal "cs_n" [Pins ["R12"]; IOStandard "LVCMOS33"];
    Subsignal "clk" [Pins ["R11"]; IOStandard "LVCMOS33"];
    Subsignal "mosi" [Pins ["P12"]; IOStandard "LVCMOS33"];
    Subsignal "miso" [Pins ["P11"]; IOStandard "LVCMOS33"]]);
  ("clk12", Nr 0, [Pins ["J3"]; IOStandard "LVCMOS33"])
].

Definition ice40_hx8k_b_evn : Platform := {|
  name := None; default_clk_name := "clk12"; default_clk_period := ns 83333 1000;
  gateware_size := Some 0x28000; spiflash_model := Some "n25q32";
  spiflash_read_dummy_bits := Some 8; spiflash_clock_div := Some 2;
  spiflash_total_size := Some (((32 / 8) * 1024) * 1024);
  spiflash_page_size := Some 256; spiflash_sector_size := Some 0x10000;
  io := ice40_hx8k_b_evn_io |}.

(** ** [platforms/ice40_up5k_b_evn.py] *)

Definition ice40_up5k_b_evn_io : list resource := [
  ("rgb_led", Nr 0, [
    Subsignal "r" [Pins ["41"]];
    Subsignal "g" [Pins ["40"]];
    Subsignal "b" [Pins ["39"]];
    IOStandard "LVCMOS33"]);
  ("user_sw", Nr 0, [Pins ["23"]; IOStandard "LVCMOS33"]);
  ("user_sw", Nr 1, [Pins ["25"]; IOStandard "LVCMOS33"]);
  ("user_sw", Nr 2, [Pins ["34"]; IOStandard "LVCMOS33"]);
  ("user_sw", Nr 3, [Pins ["43"]; IOStandard "LVCMOS33"]);
  ("clk12", Nr 0, [Pins ["35"]; IOStandard "LVCMOS33"])
].

Definition ice40_up5k_b_evn_spiflash : list resource := [
  ("spiflash", Nr 0, [
    Subsignal "cs_n" [Pins ["16"]; IOStandard "LVCMOS33"];
    Subsignal "clk" [Pins ["15"]; IOStandard "LVCMOS33"];
    Subsignal "mosi" [Pins ["14"]; IOStandard "LVCMOS33"];
    Subsignal "miso" [Pins ["17"]; IOStandard "LVCMOS33"]])
].

Definition ice40_up5k_b_evn_serial : list resource := [
  ("serial", Nr 0, [
    Subsignal "tx" [Pins ["J2:3"]];
    Subsignal "rx" [Pins ["J2:5"]];
    IOStandard "LVCMOS33"])
].

Definition ice40_up5k_b_evn_connectors : list (string * connector) := [
  ("PMOD", ConnPins "16 17 14 15 27 26 32 31");
  ("J52", ConnPins "39 17 40 14 15 41 16");
  ("J2", ConnPins "23 25 26 36 27 42 32 38 31 28 37 35 34 43");
  ("J3", ConnPins "12 4 21 3  13 48 20 45 19 47 18 44 11 46 10  2  9  6")
].

Definition ice40_up5k_b_evn : Platform := {|
  name := None; default_clk_name := "clk12"; default_clk_period := ns 83333 1000;
  gateware_size := Some 0x20000; spiflash_model := Some "n25q32";
  spiflash_read_dummy_bits := Some 8; spiflash_clock_div := Some 2;
  spiflash_total_size := Some (((32 / 8) * 1024) * 1024);
  spiflash_page_size := Some 256; spiflash_sector_size := Some 0x10000;
  io := ice40_up5k_b_evn_io |}.

(** ** [platforms/icebreaker.py] *)

Definition icebreaker_io : list resource := [
  ("user_led_n", Nr 0, [Pins ["11"]; IOStandard "LVCMOS33"]);
  ("user_led_n", Nr 1, [Pins ["37"]; IOStandard "LVCMOS33"]);
  ("user_ledr_n", Nr 0, [Pins ["11"]; IOStandard "LVCMOS33"]);
  ("user_ledg_n", Nr 0, [Pins ["37"]; IOStandard "LVCMOS33"]);
  ("user_btn_n", Nr 0, [Pins ["10"]; IOStandard "LVCMOS33"]);
  ("serial", Nr 0, [
    Subsignal "rx" [Pins ["6"]];
    Subsignal "tx" [Pins ["9"]; Misc "PULLUP"];
    IOStandard "LVCMOS33"]);
  ("spiflash", Nr 0, [
    Subsignal "cs_n" [Pins ["16"]; IOStandard "LVCMOS33"];
    Subsignal "clk" [Pins ["15"]; IOStandard "LVCMOS33"];
    Subsignal "miso" [Pins ["17"]; IOStandard "LVCMOS33"];
    Subsignal "mosi" [Pins ["14"]; IOStandard "LVCMOS33"];
    Subsignal "wp" [Pins ["12"]; IOStandard "LVCMOS33"];
    Subsignal "hold" [Pins ["13"]; IOStandard "LVCMOS33"]]);
  ("spiflash4x", Nr 0, [
    Subsignal "cs_n" [Pins ["16"]; IOStandard "LVCMOS33"];
    Subsignal "clk" [Pins ["15"]; IOStandard "LVCMOS33"];
    Subsignal "dq" [Pins ["14 17 12 13"]; IOStandard "LVCMOS33"]]);
  ("clk12", Nr 0, [Pins ["35"]; IOStandard "LVCMOS33"])
].

Definition icebreaker_break_off_pmod : list resource := [
  ("user_btn", Nr 0, [Pins ["PMOD2:6"]; IOStandard "LVCMOS33"]);
  ("user_btn", Nr 1, [Pins ["PMOD2:3"]; IOStandard "LVCMOS33"]);
  ("user_btn", Nr 2, [Pins ["PMOD2:7"]; IOStandard "LVCMOS33"]);
  ("user_led", Nr 0, [Pins ["PMOD2:4"]; IOStandard "LVCMOS33"]);
  ("user_led", Nr 1, [Pins ["PMOD2:0"]; IOStandard "LVCMOS33"]);
  ("user_led", Nr 2, [Pins ["PMOD2:1"]; IOStandard "LVCMOS33"]);
  ("user_led", Nr 3, [Pins ["PMOD2:5"]; IOStandard "LVCMOS33"]);
  ("user_led", Nr 4, [Pins ["PMOD2:2"]; IOStandard "LVCMOS33"]);
  ("user_ledr", Nr 0, [Pins ["PMOD2:4"]; IOStandard "LVCMOS33"]);
  ("user_ledg", Nr 0, [Pins ["PMOD2:0"]; IOStandard "LVCMOS33"]);
  ("user_ledg", Nr 1, [Pins ["PMOD2:1"]; IOStandard "LVCMOS33"]);
  ("user_ledg", Nr 2, [Pins ["PMOD2:5"]; IOStandard "LVCMOS33"]);
  ("user_ledg", Nr 3, [Pins ["PMOD2:2"]; IOStandard "LVCMOS33"])
].

Definition icebreaker_rgb_led : list resource := [
  ("rgbled", Nr 0, [
    Subsignal "rgb0" [Pins ["RGBLED:0"]];
    Subsignal "rgb1" [Pins ["RGBLED:1"]];
    Subsignal "rgb2" [Pins ["RGBLED:2"]];
    IOStandard "LVCMOS33"])
].

Definition icebreaker_connectors : list (string * connector) := [
  ("PMOD1A", ConnPins "4 2 47 45 3 48 46 44");
  ("PMOD1B", ConnPins "43 38 34 31 42 36 32 28");
  ("PMOD2", ConnPins "27 25 21 19 26 23 20 18");
  ("RGBLED", ConnPins "39 40 41")
].

Definition icebreaker : Platform := {|
  name := None; default_clk_name := "clk12"; default_clk_period := ns 83333 1000;
  gateware_size := Some 0x20000; spiflash_model := Some "n25q128";
  spiflash_read_dummy_bits := Some 8; spiflash_clock_div := Some 2;
  spiflash_total_size := Some (((128 / 8) * 1024) * 1024);
  spiflash_page_size := Some 256; spiflash_sector_size := Some 0x10000;
  io := icebreaker_io |}.

(** ** [platforms/icefun.py] *)

Definition icefun_io : list resource := [
  ("user_led", Nr 0, [Pins ["C10"]; IOStandard "LVCMOS33"]);
  ("user_led", Nr 1, [Pins ["A10"]; IOStandard "LVCMOS33"]);
  ("user_led", Nr 2, [Pins ["D7"]; IOStandard "LVCMOS33"]);
  ("user_led", Nr 3, [Pins ["D6"]; IOStandard "LVCMOS33"]);
  ("user_led", Nr 4, [Pins ["A7"]; IOStandard "LVCMOS33"]);
  ("user_led", Nr 5, [Pins ["C7"]; IOStandard "LVCMOS33"]);
  ("user_led", Nr 6, [Pins ["A4"]; IOStandard "LVCMOS33"]);
  ("user_led", Nr 7, [Pins ["C4"]; IOStandard "LVCMOS33"]);
  ("user_led", Nr 8, [Pins ["C5"]; IOStandard "LVCMOS33"]);
  ("user_led", Nr 9, [Pins ["A6"]; IOStandard "LVCMOS33"]);
  ("user_led", Nr 10, [Pins ["D10"]; IOStandard "LVCMOS33"]);
  ("user_led", Nr 11, [Pins ["A12"]; IOStandard "LVCMOS33"]);
  ("rgb_leds", Nr 0, [IOStandard "LVCMOS33"]);
  ("user_btn", Nr 0, [Pins ["A5"]; IOStandard "LVCMOS33"]);
  ("user_btn", Nr 1, [Pins ["A11"]; IOStandard "LVCMOS33"]);
  ("user_btn", Nr 2, [Pins ["C6"]; IOStandard "LVCMOS33"]);
  ("user_btn", Nr 3, [Pins ["C11"]; IOStandard "LVCMOS33"]);
  ("serial", Nr 0, [
    Subsignal "rx" [Pins ["P2"]];
    Subsignal "tx" [Pins ["P3"]; Misc "PULLUP"];
    IOStandard "LVCMOS33"]);
  ("serial", Nr 1, [
    Subsignal "rx" [Pins ["P4"]];
    Subsignal "tx" [Pins ["P5"]; Misc "PULLUP"];
    IOStandard "LVCMOS33"]);
  ("spiflash", Nr 0, [
    Subsignal "cs_n" [Pins ["P13"]; IOStandard "LVCMOS33"];
    Subsignal "clk" [Pins ["P12"]; IOStandard "LVCMOS33"];
    Subsignal "mosi" [Pins ["M11"]; IOStandard "LVCMOS33"];
    Subsignal "miso" [Pins ["P11"]; IOStandard "LVCMOS33"]]);
  ("clk12", Nr 0, [Pins ["P7"]; IOStandard "LVCMOS33"])
].

Definition icefun : Platform := {|
  name := None; default_clk_name := "clk12"; default_clk_period := ns 83333 1000;
  gateware_size := Some 0x28000; spiflash_model := Some "at25sf081";
  spiflash_read_dummy_bits := Some 8; spiflash_clock_div := Some 2;
  spiflash_total_size := Some (((8 / 8) * 1024) * 1024);
  spiflash_page_size := Some 256; spiflash_sector_size := Some (64 * 1024);
  io := icefun_io |}.

(** ** [platforms/tinyfpga_bx.py] *)

Definition tinyfpga_bx_io : list resource := [
  ("user_led", Nr 0, [Pins ["B3"]; IOStandard "LVCMOS33"]);
  ("usb", Nr 0, [
    Subsignal "d_p" [Pins ["B4"]];
    Subsignal "d_n" [Pins ["A4"]];
    Subsignal "pullup" [Pins ["A3"]];
    IOStandard "LVCMOS33"]);
  ("spiflash", Nr 0, [
    Subsignal "cs_n" [Pins ["F7"]; IOStandard "LVCMOS33"];
    Subsignal "clk" [Pins ["G7"]; IOStandard "LVCMOS33"];
    Subsignal "mosi" [Pins ["G6"]; IOStandard "LVCMOS33"];
    Subsignal "miso" [Pins ["H7"]; IOStandard "LVCMOS33"];
    Subsignal "wp" [Pins ["H4"]; IOStandard "LVCMOS33"];
    Subsignal "hold" [Pins ["J8"]; IOStandard "LVCMOS33"]]);
  ("spiflash4x", Nr 0, [
    Subsignal "cs_n" [Pins ["F7"]; IOStandard "LVCMOS33"];
    Subsignal "clk" [Pins ["G7"]; IOStandard "LVCMOS33"];
    Subsignal "dq" [Pins ["G6 H7 H4 J8"]; IOStandard "LVCMOS33"]]);
  ("clk16", Nr 0, [Pins ["B2"]; IOStandard "LVCMOS33"])
].

Definition tinyfpga_bx_connectors : list (string * connector) := [
  ("GPIO", ConnPins "A2 A1 B1 C2 C1 D2 D1 E2 E1 G2 H1 J1 H2 H9 D9 D8 C9 A9 B8 A8 B7 A7 B6 A6");
  ("EXTRA", ConnPins "G1 J3 J4 G9 J9 E8 J2")
].

Definition tinyfpga_bx : Platform := {|
  name := Some "tinyfpga_bx"; default_clk_name := "clk16"; default_clk_period := ns 625 10;
  gateware_size := Some (0x50000 - 0x28000); spiflash_model := Some "m25p16";
  spiflash_read_dummy_bits := Some 8; spiflash_clock_div := Some 2;
  spiflash_total_size := Some (((8 / 8) * 1024) * 1024);
  spiflash_page_size := Some 256; spiflash_sector_size := Some 0x10000;
  io := tinyfpga_bx_io |}.

(** ** [platforms/upduino_v1.py] *)

Definition upduino_v1_io : list resource := [
  ("rgb_led", Nr 0, [
    Subsignal "r" [Pins ["41"]];
    Subsignal "g" [Pins ["40"]];
    Subsignal "b" [Pins ["39"]];
    IOStandard "LVCMOS33"])
].

Definition upduino_v1_spiflash : list resource := [
  ("spiflash", Nr 0, [
    Subsignal "cs_n" [Pins ["16"]; IOStandard "LVCMOS33"];
    Subsignal "clk" [Pins ["15"]; IOStandard "LVCMOS33"];
    Subsignal "mosi" [Pins ["14"]; IOStandard "LVCMOS33"];
    Subsignal "miso" [Pins ["17"]; IOStandard "LVCMOS33"]])
].

Definition upduino_v1_serial : list resource := [
  ("serial", Nr 0, [
    Subsignal "tx" [Pins ["23"]];
    Subsignal "rx" [Pins ["25"]];
    IOStandard "LVCMOS33"])
].

Definition upduino_v1_connectors : list (string * connector) := [
  ("JP5", ConnPins "23 25 26 27 32 35 31 37 34 43 36 42 38 28");
  ("JP6", ConnPins "12 21 13 19 18 11  9  6 44  4  3 48 45 47 46  2")
].

Definition upduino_v1 : Platform := {|
  name := None; default_clk_name := "sb_hfosc"; default_clk_period := ns 83333 1000;
  gateware_size := Some 0x20000; spiflash_model := Some "n25q32";
  spiflash_read_dummy_bits := Some 8; spiflash_clock_div := Some 2;
  spiflash_total_size := Some (((32 / 8) * 1024) * 1024);
  spiflash_page_size := Some 256; spiflash_sector_size := Some 0x10000;
  io := upduino_v1_io |}.
