(* ===== verification/PlatformsSeries7.v ===== *)
(** * Boards with Xilinx 7-series FPGAs

    The resource tables, connectors and constants of [platforms/*.py], entry
    by entry. *)
From S2P Require Import Prelude PyStr Platform.

#[local] Open Scope string_scope.

(** ** [platforms/arty.py] *)

Definition arty_io : list resource := [
  ("user_led", Nr 0, [Pins ["H5"]; IOStandard "LVCMOS33"]);
  ("user_led", Nr 1, [Pins ["J5"]; IOStandard "LVCMOS33"]);
  ("user_led", Nr 2, [Pins ["T9"]; IOStandard "LVCMOS33"]);
  ("user_led", Nr 3, [Pins ["T10"]; IOStandard "LVCMOS33"]);
  ("rgb_leds", Nr 0, [
    Subsignal "r" [Pins ["G6 G3 J3 K1"]];
    Subsignal "g" [Pins ["F6 J4 J2 H6"]];
    Subsignal "b" [Pins ["E1 G4 H4 K2"]];
    IOStandard "LVCMOS33"]);
  ("user_sw", Nr 0, [Pins ["A8"]; IOStandard "LVCMOS33"]);
  ("user_sw", Nr 1, [Pins ["C11"]; IOStandard "LVCMOS33"]);
  ("user_sw", Nr 2, [Pins ["C10"]; IOStandard "LVCMOS33"]);
  ("user_sw", Nr 3, [Pins ["A10"]; IOStandard "LVCMOS33"]);
  ("user_btn", Nr 0, [Pins ["D9"]; IOStandard "LVCMOS33"]);
  ("user_btn", Nr 1, [Pins ["C9"]; IOStandard "LVCMOS33"]);
  ("user_btn", Nr 2, [Pins ["B9"]; IOStandard "LVCMOS33"]);
  ("user_btn", Nr 3, [Pins ["B8"]; IOStandard "LVCMOS33"]);
  ("clk100", Nr 0, [Pins ["E3"]; IOStandard "LVCMOS33"]);
  ("cpu_reset", Nr 0, [Pins ["C2"]; IOStandard "LVCMOS33"]);
  ("serial", Nr 0, [
    Subsignal "tx" [Pins ["D10"]];
    Subsignal "rx" [Pins ["A9"]];
    IOStandard "LVCMOS33"]);
  ("spiflash_4x", Nr 0, [
    Subsignal "cs_n" [Pins ["L13"]];
    Subsignal "dq" [Pins ["K17"; "K18"; "L14"; "M14"]];
    IOStandard "LVCMOS33"]);
  ("spiflash_1x", Nr 0, [
    Subsignal "cs_n" [Pins ["L13"]];
    Subsignal "mosi" [Pins ["K17"]];
    Subsignal "miso" [Pins ["K18"]];
    Subsignal "wp" [Pins ["L14"]];
    Subsignal "hold" [Pins ["M14"]];
    IOStandard "LVCMOS33"]);
  ("eth_ref_clk", Nr 0, [Pins ["G18"]; IOStandard "LVCMOS33"]);
  ("ddram", Nr 0, [
    Subsignal "a" [Pins ["R2 M6 N4 T1 N6 R7 V6 U7"; "R8 V7 R6 U6 T6 T8"]; IOStandard "SSTL15"];
    Subsignal "ba" [Pins ["R1 P4 P2"]; IOStandard "SSTL15"];
    Subsignal "ras_n" [Pins ["P3"]; IOStandard "SSTL15"];
    Subsignal "cas_n" [Pins ["M4"]; IOStandard "SSTL15"];
    Subsignal "we_n" [Pins ["P5"]; IOStandard "SSTL15"];
    Subsignal "cs_n" [Pins ["U8"]; IOStandard "SSTL15"];
    Subsignal "dm" [Pins ["L1 U1"]; IOStandard "SSTL15"];
    Subsignal "dq" [Pins ["K5 L3 K3 L6 M3 M1 L4 M2"; "V4 T5 U4 V5 V1 T3 U3 R3"]; IOStandard "SSTL15"; Misc "IN_TERM=UNTUNED_SPLIT_40"];
    Subsignal "dqs_p" [Pins ["N2 U2"]; IOStandard "DIFF_SSTL15"];
    Subsignal "dqs_n" [Pins ["N1 V2"]; IOStandard "DIFF_SSTL15"];
    Subsignal "clk_p" [Pins ["U9"]; IOStandard "DIFF_SSTL15"];
    Subsignal "clk_n" [Pins ["V9"]; IOStandard "DIFF_SSTL15"];
    Subsignal "cke" [Pins ["N5"]; IOStandard "SSTL15"];
    Subsignal "odt" [Pins ["R5"]; IOStandard "SSTL15"];
    Subsignal "reset_n" [Pins ["K6"]; IOStandard "SSTL15"];
    Misc "SLEW=FAST"]);
  ("eth_clocks", Nr 0, [
    Subsignal "tx" [Pins ["H16"]];
    Subsignal "rx" [Pins ["F15"]];
    IOStandard "LVCMOS33"]);
  ("eth", Nr 0, [
    Subsignal "rst_n" [Pins ["C16"]];
    Subsignal "mdio" [Pins ["K13"]];
    Subsignal "mdc" [Pins ["F16"]];
    Subsignal "rx_dv" [Pins ["G16"]];
    Subsignal "rx_er" [Pins ["C17"]];
    Subsignal "rx_data" [Pins ["D18 E17 E18 G17"]];
    Subsignal "tx_en" [Pins ["H15"]];
    Subsignal "tx_data" [Pins ["H14 J14 J13 H17"]];
    Subsignal "col" [Pins ["D17"]];
    Subsignal "crs" [Pins ["G14"]];
    IOStandard "LVCMOS33"])
].

Definition arty : Platform := {|
  name := Some "arty"; default_clk_name := "clk100"; default_clk_period := ns 10 1;
  gateware_size := Some 0x220000; spiflash_model := Some "n25q128a13";
  spiflash_read_dummy_bits := Some 10; spiflash_clock_div := Some 2;
  spiflash_total_size := Some (((128 / 8) * 1024) * 1024);
  spiflash_page_size := Some 256; spiflash_sector_size := Some 0x10000;
  io := arty_io |}.

(** ** [platforms/basys3.py] *)

Definition basys3_io : list resource := [
  ("user_led", Nr 0, [Pins ["U16"]; IOStandard "LVCMOS33"]);
  ("user_led", Nr 1, [Pins ["E19"]; IOStandard "LVCMOS33"]);
  ("user_led", Nr 2, [Pins ["U19"]; IOStandard "LVCMOS33"]);
  ("user_led", Nr 3, [Pins ["V19"]; IOStandard "LVCMOS33"]);
  ("user_led", Nr 4, [Pins ["W18"]; IOStandard "LVCMOS33"]);
  ("user_led", Nr 5, [Pins ["U15"]; IOStandard "LVCMOS33"]);
  ("user_led", Nr 6, [Pins ["U14"]; IOStandard "LVCMOS33"]);
  ("user_led", Nr 7, [Pins ["V14"]; IOStandard "LVCMOS33"]);
  ("user_led", Nr 8, [Pins ["V13"]; IOStandard "LVCMOS33"]);
  ("user_led", Nr 9, [Pins ["V3"]; IOStandard "LVCMOS33"]);
  ("user_led", Nr 10, [Pins ["W3"]; IOStandard "LVCMOS33"]);
  ("user_led", Nr 11, [Pins ["U3"]; IOStandard "LVCMOS33"]);
  ("user_led", Nr 12, [Pins ["P3"]; IOStandard "LVCMOS33"]);
  ("user_led", Nr 13, [Pins ["N3"]; IOStandard "LVCMOS33"]);
  ("user_led", Nr 14, [Pins ["P1"]; IOStandard "LVCMOS33"]);
  ("user_led", Nr 15, [Pins ["L1"]; IOStandard "LVCMOS33"]);
  ("user_sw", Nr 0, [Pins ["V17"]; IOStandard "LVCMOS33"]);
  ("user_sw", Nr 1, [Pins ["V16"]; IOStandard "LVCMOS33"]);
  ("user_sw", Nr 2, [Pins ["W16"]; IOStandard "LVCMOS33"]);
  ("user_sw", Nr 3, [Pins ["W17"]; IOStandard "LVCMOS33"]);
  ("user_sw", Nr 4, [Pins ["W15"]; IOStandard "LVCMOS33"]);
  ("user_sw", Nr 5, [Pins ["V15"]; IOStandard "LVCMOS33"]);
  ("user_sw", Nr 6, [Pins ["W14"]; IOStandard "LVCMOS33"]);
  ("user_sw", Nr 7, [Pins ["W13"]; IOStandard "LVCMOS33"]);
  ("user_sw", Nr 8, [Pins ["V2"]; IOStandard "LVCMOS33"]);
  ("user_sw", Nr 9, [Pins ["T3"]; IOStandard "LVCMOS33"]);
  ("user_sw", Nr 10, [Pins ["T2"]; IOStandard "LVCMOS33"]);
  ("user_sw", Nr 11, [Pins ["R3"]; IOStandard "LVCMOS33"]);
  ("user_sw", Nr 12, [Pins ["W2"]; IOStandard "LVCMOS33"]);
  ("user_sw", Nr 13, [Pins ["U1"]; IOStandard "LVCMOS33"]);
  ("user_sw", Nr 14, [Pins ["T1"]; IOStandard "LVCMOS33"]);
  ("user_sw", Nr 15, [Pins ["R2"]; IOStandard "LVCMOS33"]);
  ("user_btn", Nr 0, [Pins ["W19"]; IOStandard "LVCMOS33"]);
  ("user_btn", Nr 1, [Pins ["T17"]; IOStandard "LVCMOS33"]);
  ("user_btn", Nr 2, [Pins ["T18"]; IOStandard "LVCMOS33"]);
  ("user_btn", Nr 3, [Pins ["U17"]; IOStandard "LVCMOS33"]);
  ("user_btn", Nr 4, [Pins ["U18"]; IOStandard "LVCMOS33"]);
  ("clk100", Nr 0, [Pins ["W5"]; IOStandard "LVCMOS33"]);
  ("serial", Nr 0, [
    Subsignal "tx" [Pins ["A18"]];
    Subsignal "rx" [Pins ["B18"]];
    IOStandard "LVCMOS33"]);
  ("spiflash_4x", Nr 0, [
    Subsignal "cs_n" [Pins ["K19"]];
    Subsignal "dq" [Pins ["D18"; "D19"; "G18"; "F18"]];
    IOStandard "LVCMOS33"]);
  ("spiflash_1x", Nr 0, [
    Subsignal "cs_n" [Pins ["K19"]];
    Subsignal "mosi" [Pins ["D18"]];
    Subsignal "miso" [Pins ["D19"]];
    Subsignal "wp" [Pins ["G18"]];
    Subsignal "hold" [Pins ["F18"]];
    IOStandard "LVCMOS33"])
].

Definition basys3 : Platform := {|
  name := Some "basys3"; default_clk_name := "clk100"; default_clk_period := ns 10 1;
  gateware_size := Some 0x220000; spiflash_model := Some "n25q128a13";
  spiflash_read_dummy_bits := Some 10; spiflash_clock_div := Some 4;
  spiflash_total_size := Some (((128 / 8) * 1024) * 1024);
  spiflash_page_size := Some 256; spiflash_sector_size := Some 0x10000;
  io := basys3_io |}.

(** ** [platforms/cmod_a7.py] *)

Definition cmod_a7_io : list resource := [
  ("user_led", Nr 0, [Pins ["A17"]; IOStandard "LVCMOS33"]);
  ("user_led", Nr 1, [Pins ["C16"]; IOStandard "LVCMOS33"]);
  ("rgb_leds", Nr 0, [
    Subsignal "r" [Pins ["C17"]];
    Subsignal "g" [Pins ["B16"]];
    Subsignal "b" [Pins ["B17"]];
    IOStandard "LVCMOS33"]);
  ("user_btn", Nr 0, [Pins ["A18"]; IOStandard "LVCMOS33"]);
  ("user_btn", Nr 1, [Pins ["B18"]; IOStandard "LVCMOS33"]);
  ("clk12", Nr 0, [Pins ["L17"]; IOStandard "LVCMOS33"]);
  ("serial", Nr 0, [
    Subsignal "tx" [Pins ["J18"]];
    Subsignal "rx" [Pins ["J17"]];
    IOStandard "LVCMOS33"]);
  ("spiflash_4x", Nr 0, [
    Subsignal "cs_n" [Pins ["K19"]];
    Subsignal "dq" [Pins ["D18"; "D19"; "G18"; "F18"]];
    IOStandard "LVCMOS33"]);
  ("spiflash_1x", Nr 0, [
    Subsignal "cs_n" [Pins ["K19"]];
    Subsignal "mosi" [Pins ["D18"]];
    Subsignal "miso" [Pins ["D19"]];
    Subsignal "wp" [Pins ["G18"]];
    Subsignal "hold" [Pins ["F18"]];
    IOStandard "LVCMOS33"]);
  ("sram", Nr 0, [
    Subsignal "a" [Pins ["M18 M19 K17 N17 P17 P18 R18 W19"; "U19 V19 W18 T17 T18 U17 U18 V16"; "W16 W17 V15"]; IOStandard "LVCMOS33"];
    Subsignal "dq" [Pins ["W15 W13 W14 U15 U16 V13 V14 U14"]; IOStandard "LVCMOS33"];
    Subsignal "oe_n" [Pins ["R19"]; IOStandard "LVCMOS33"];
    Subsignal "we_n" [Pins ["R19"]; IOStandard "LVCMOS33"];
    Subsignal "ce_n" [Pins ["N19"]; IOStandard "LVCMOS33"];
    Misc "SLEW=FAST"])
].

Definition cmod_a7 : Platform := {|
  name := Some "cmod_a7"; default_clk_name := "clk12"; default_clk_period := ns 1000000000 12000000;
  gateware_size := Some 0x220000; spiflash_model := Some "n25q32";
  spiflash_read_dummy_bits := Some 10; spiflash_clock_div := Some 4;
  spiflash_total_size := Some (((32 / 8) * 1024) * 1024);
  spiflash_page_size := Some 256; spiflash_sector_size := Some 0x10000;
  io := cmod_a7_io |}.

(** ** [platforms/mimas_a7.py] *)

Definition mimas_a7_io : list resource := [
  ("user_led", Nr 0, [Pins ["K17"]; IOStandard "LVCMOS33"]);
  ("user_led", Nr 1, [Pins ["J17"]; IOStandard "LVCMOS33"]);
  ("user_led", Nr 2, [Pins ["L14"]; IOStandard "LVCMOS33"]);
  ("user_led", Nr 3, [Pins ["L15"]; IOStandard "LVCMOS33"]);
  ("user_led", Nr 4, [Pins ["L16"]; IOStandard "LVCMOS33"]);
  ("user_led", Nr 5, [Pins ["K16"]; IOStandard "LVCMOS33"]);
  ("user_led", Nr 6, [Pins ["M15"]; IOStandard "LVCMOS33"]);
  ("user_led", Nr 7, [Pins ["M16"]; IOStandard "LVCMOS33"]);
  ("user_sw", Nr 0, [Pins ["B21"]; IOStandard "LVCMOS33"]);
  ("user_sw", Nr 1, [Pins ["A21"]; IOStandard "LVCMOS33"]);
  ("user_sw", Nr 2, [Pins ["E22"]; IOStandard "LVCMOS33"]);
  ("user_sw", Nr 3, [Pins ["D22"]; IOStandard "LVCMOS33"]);
  ("user_sw", Nr 4, [Pins ["E21"]; IOStandard "LVCMOS33"]);
  ("user_sw", Nr 5, [Pins ["D21"]; IOStandard "LVCMOS33"]);
  ("user_sw", Nr 6, [Pins ["G21"]; IOStandard "LVCMOS33"]);
  ("user_sw", Nr 7, [Pins ["G22"]; IOStandard "LVCMOS33"]);
  ("user_btn", Nr 0, [Pins ["P20"]; IOStandard "LVCMOS33"]);
  ("user_btn", Nr 1, [Pins ["P19"]; IOStandard "LVCMOS33"]);
  ("user_btn", Nr 2, [Pins ["P17"]; IOStandard "LVCMOS33"]);
  ("user_btn", Nr 3, [Pins ["N17"]; IOStandard "LVCMOS33"]);
  ("clk100", Nr 0, [Pins ["H4"]; IOStandard "LVCMOS33"]);
  ("cpu_reset", Nr 0, [Pins ["M2"]; IOStandard "LVCMOS33"]);
  ("spiflash_4x", Nr 0, [
    Subsignal "cs_n" [Pins ["T19"]];
    Subsignal "dq" [Pins ["P22"; "R22"; "P21"; "R21"]];
    IOStandard "LVCMOS33"]);
  ("spiflash_1x", Nr 0, [
    Subsignal "cs_n" [Pins ["T19"]];
    Subsignal "mosi" [Pins ["P22"]];
    Subsignal "miso" [Pins ["R22"]];
    Subsignal "wp" [Pins ["P21"]];
    Subsignal "hold" [Pins ["R21"]];
    IOStandard "LVCMOS33"]);
  ("serial", Nr 0, [
    Subsignal "tx" [Pins ["Y21"]];
    Subsignal "rx" [Pins ["Y22"]];
    IOStandard "LVCMOS33"]);
  ("ddram", Nr 0, [
    Subsignal "a" [Pins ["U6 T5 Y6 T6 V2 T4 Y2 R2"; "Y1 R4 W5 W1 AA6 U2"]; IOStandard "SSTL15"];
    Subsignal "ba" [Pins ["W6 U5 R6"]; IOStandard "SSTL15"];
    Subsignal "ras_n" [Pins ["V5"]; IOStandard "SSTL15"];
    Subsignal "cas_n" [Pins ["T1"]; IOStandard "SSTL15"];
    Subsignal "we_n" [Pins ["R3"]; IOStandard "SSTL15"];
    Subsignal "dm" [Pins ["Y7 AA1"]; IOStandard "SSTL15"];
    Subsignal "dq" [Pins ["Y8  AB6  W9   AA8  AB7  V7  AB8  W7"; "V4  AB2  AA5  AB3  AB5  W4  AB1  AA4"]; IOStandard "SSTL15"; Misc "IN_TERM=UNTUNED_SPLIT_40"];
    Subsignal "dqs_p" [Pins ["V9 Y3"]; IOStandard "DIFF_SSTL15"];
    Subsignal "dqs_n" [Pins ["V8 AA3"]; IOStandard "DIFF_SSTL15"];
    Subsignal "clk_p" [Pins ["U3"]; IOStandard "DIFF_SSTL15"];
    Subsignal "clk_n" [Pins ["V3"]; IOStandard "DIFF_SSTL15"];
    Subsignal "cke" [Pins ["U1"]; IOStandard "SSTL15"];
    Subsignal "odt" [Pins ["W2"]; IOStandard "SSTL15"];
    Subsignal "cs_n" [Pins ["T3"]; IOStandard "SSTL15"];
    Subsignal "reset_n" [Pins ["U7"]; IOStandard "SSTL15"];
    Misc "SLEW=FAST"]);
  ("eth_clocks", Nr 0, [
    Subsignal "tx" [Pins ["U20"]];
    Subsignal "rx" [Pins ["W19"]];
    IOStandard "LVCMOS33"]);
  ("eth", Nr 0, [
    Subsignal "rst_n" [Pins ["R14"]; IOStandard "LVCMOS33"];
    Subsignal "int_n" [Pins ["V19"]];
    Subsignal "mdio" [Pins ["P16"]];
    Subsignal "mdc" [Pins ["R19"]];
    Subsignal "rx_ctl" [Pins ["Y19"]];
    Subsignal "rx_data" [Pins ["AB18 W20 W17 V20"]];
    Subsignal "tx_ctl" [Pins ["T20"]];
    Subsignal "tx_data" [Pins ["V18 U18 V17 U17"]];
    IOStandard "LVCMOS33"]);
  ("hdmi_in", Nr 0, [
    Subsignal "clk_p" [Pins ["K4"]; IOStandard "TMDS_33"];
    Subsignal "clk_n" [Pins ["J4"]; IOStandard "TMDS_33"];
    Subsignal "data0_p" [Pins ["K1"]; IOStandard "TMDS_33"];
    Subsignal "data0_n" [Pins ["J1"]; IOStandard "TMDS_33"];
    Subsignal "data1_p" [Pins ["M1"]; IOStandard "TMDS_33"];
    Subsignal "data1_n" [Pins ["L1"]; IOStandard "TMDS_33"];
    Subsignal "data2_p" [Pins ["P2"]; IOStandard "TMDS_33"];
    Subsignal "data2_n" [Pins ["N2"]; IOStandard "TMDS_33"];
    Subsignal "scl" [Pins ["J2"]; IOStandard "LVCMOS33"];
    Subsignal "sda" [Pins ["H2"]; IOStandard "LVCMOS33"];
    Subsignal "hpd_en" [Pins ["G2"]; IOStandard "LVCMOS33"];
    Subsignal "cec" [Pins ["K2"]; IOStandard "LVCMOS33"]]);
  ("hdmi_out", Nr 0, [
    Subsignal "clk_p" [Pins ["L3"]; IOStandard "TMDS_33"];
    Subsignal "clk_n" [Pins ["K3"]; IOStandard "TMDS_33"];
    Subsignal "data0_p" [Pins ["B1"]; IOStandard "TMDS_33"];
    Subsignal "data0_n" [Pins ["A1"]; IOStandard "TMDS_33"];
    Subsignal "data1_p" [Pins ["E1"]; IOStandard "TMDS_33"];
    Subsignal "data1_n" [Pins ["D1"]; IOStandard "TMDS_33"];
    Subsignal "data2_p" [Pins ["G1"]; IOStandard "TMDS_33"];
    Subsignal "data2_n" [Pins ["F1"]; IOStandard "TMDS_33"];
    Subsignal "scl" [Pins ["D2"]; IOStandard "LVCMOS33"];
    Subsignal "sda" [Pins ["C2"]; IOStandard "LVCMOS33"];
    Subsignal "cec" [Pins ["E2"]; IOStandard "LVCMOS33"];
    Subsignal "hdp" [Pins ["B2"]; IOStandard "LVCMOS33"]])
].

Definition mimas_a7_connectors : list (string * connector) := [

].

Definition mimas_a7 : Platform := {|
  name := Some "mimas_a7"; default_clk_name := "clk100"; default_clk_period := ns 10 1;
  gateware_size := Some 0x1000000; spiflash_model := Some "n25q128";
  spiflash_read_dummy_bits := Some 10; spiflash_clock_div := Some 4;
  spiflash_total_size := Some (((128 / 8) * 1024) * 1024);
  spiflash_page_size := Some 256; spiflash_sector_size := Some 0x10000;
  io := mimas_a7_io |}.

(** ** [platforms/neso.py] *)

Definition neso_io : list resource := [
  ("clk100", Nr 0, [Pins ["F4"]; IOStandard "LVCMOS33"]);
  ("serial", Nr 0, [
    Subsignal "tx" [Pins ["B18"]];
    Subsignal "rx" [Pins ["A18"]];
    IOStandard "LVCMOS33"]);
  ("spiflash_4x", Nr 0, [
    Subsignal "cs_n" [Pins ["L13"]];
    Subsignal "dq" [Pins ["K17"; "K18"; "L14"; "M14"]];
    IOStandard "LVCMOS33"]);
  ("spiflash_1x", Nr 0, [
    Subsignal "cs_n" [Pins ["L13"]];
    Subsignal "mosi" [Pins ["K17"]];
    Subsignal "miso" [Pins ["K18"]];
    Subsignal "wp" [Pins ["L14"]];
    Subsignal "hold" [Pins ["M14"]];
    IOStandard "LVCMOS33"]);
  ("ddram", Nr 0, [
    Subsignal "a" [Pins ["M4 P4 M6 T1 L3 P5 M2 N1"; "L4 N5 R2 K5 N6 K3"]; IOStandard "SSTL15"];
    Subsignal "ba" [Pins ["P2 P3 R1"]; IOStandard "SSTL15"];
    Subsignal "ras_n" [Pins ["N4"]; IOStandard "SSTL15"];
    Subsignal "cas_n" [Pins ["L1"]; IOStandard "SSTL15"];
    Subsignal "we_n" [Pins ["N2"]; IOStandard "SSTL15"];
    Subsignal "cs_n" [Pins ["K6"]; IOStandard "SSTL15"];
    Subsignal "dm" [Pins ["T6 U1"]; IOStandard "SSTL15"];
    Subsignal "dq" [Pins ["R7 V6 R8 U7 V7 R6 U6 R5"; "T5 U3 V5 U4 V4 T4 V1 T3"]; IOStandard "SSTL15"; Misc "IN_TERM=UNTUNED_SPLIT_40"];
    Subsignal "dqs_p" [Pins ["U9 U2"]; IOStandard "DIFF_SSTL15"];
    Subsignal "dqs_n" [Pins ["V9 V2"]; IOStandard "DIFF_SSTL15"];
    Subsignal "clk_p" [Pins ["L6"]; IOStandard "DIFF_SSTL15"];
    Subsignal "clk_n" [Pins ["L5"]; IOStandard "DIFF_SSTL15"];
    Subsignal "cke" [Pins ["M1"]; IOStandard "SSTL15"];
    Subsignal "odt" [Pins ["M3"]; IOStandard "SSTL15"];
    Subsignal "reset_n" [Pins ["U8"]; IOStandard "SSTL15"];
    Misc "SLEW=FAST"])
].

Definition neso : Platform := {|
  name := Some "neso"; default_clk_name := "clk100"; default_clk_period := ns 10 1;
  gateware_size := Some 0x220000; spiflash_model := Some "n25q128a13";
  spiflash_read_dummy_bits := Some 10; spiflash_clock_div := Some 4;
  spiflash_total_size := Some (((128 / 8) * 1024) * 1024);
  spiflash_page_size := Some 256; spiflash_sector_size := Some 0x10000;
  io := neso_io |}.

(** ** [platforms/netv2.py] *)

Definition netv2_io_1 : list resource := [
  ("clk50", Nr 0, [Pins ["J19"]; IOStandard "LVCMOS33"]);
  ("user_led", Nr 0, [Pins ["M21"]; IOStandard "LVCMOS33"]);
  ("user_led", Nr 1, [Pins ["N20"]; IOStandard "LVCMOS33"]);
  ("user_led", Nr 2, [Pins ["L21"]; IOStandard "LVCMOS33"]);
  ("user_led", Nr 3, [Pins ["AA21"]; IOStandard "LVCMOS33"]);
  ("user_led", Nr 4, [Pins ["R19"]; IOStandard "LVCMOS33"]);
  ("user_led", Nr 5, [Pins ["M16"]; IOStandard "LVCMOS33"]);
  ("flash", Nr 0, [
    Subsignal "cs_n" [Pins ["T19"]];
    Subsignal "mosi" [Pins ["P22"]];
    Subsignal "miso" [Pins ["R22"]];
    Subsignal "vpp" [Pins ["P21"]];
    Subsignal "hold" [Pins ["R21"]];
    IOStandard "LVCMOS33"]);
  ("serial", Nr 0, [
    Subsignal "tx" [Pins ["E14"]];
    Subsignal "rx" [Pins ["E13"]];
    IOStandard "LVCMOS33"]);
  ("ddram", Nr 0, [
    Subsignal "a" [Pins ["U6 V4 W5 V5 AA1 Y2 AB1 AB3"; "AB2 Y3 W6 Y1 V2 AA3"]; IOStandard "SSTL15_R"];
    Subsignal "ba" [Pins ["U5 W4 V7"]; IOStandard "SSTL15_R"];
    Subsignal "ras_n" [Pins ["Y9"]; IOStandard "SSTL15_R"];
    Subsignal "cas_n" [Pins ["Y7"]; IOStandard "SSTL15_R"];
    Subsignal "we_n" [Pins ["V8"]; IOStandard "SSTL15_R"];
    Subsignal "dm" [Pins ["G1 H4 M5 L3"]; IOStandard "SSTL15_R"];
    Subsignal "dq" [Pins ["C2 F1 B1 F3 A1 D2 B2 E2"; "J5 H3 K1 H2 J1 G2 H5 G3"; "N2 M6 P1 N5 P2 N4 R1 P6"; "K3 M2 K4 M3 J6 L5 J4 K6"]; IOStandard "SSTL15_R"; Misc "IN_TERM=UNTUNED_SPLIT_40"];
    Subsignal "dqs_p" [Pins ["E1 K2 P5 M1"]; IOStandard "DIFF_SSTL15_R"];
    Subsignal "dqs_n" [Pins ["D1 J2 P4 L1"]; IOStandard "DIFF_SSTL15_R"];
    Subsignal "clk_p" [Pins ["R3"]; IOStandard "DIFF_SSTL15_R"];
    Subsignal "clk_n" [Pins ["R2"]; IOStandard "DIFF_SSTL15_R"];
    Subsignal "cke" [Pins ["Y8"]; IOStandard "SSTL15_R"];
    Subsignal "odt" [Pins ["W9"]; IOStandard "SSTL15_R"];
    Subsignal "reset_n" [Pins ["AB5"]; IOStandard "LVCMOS15"];
    Subsignal "cs_n" [Pins ["V9"]; IOStandard "SSTL15_R"];
    Misc "SLEW=FAST"]);
  ("pcie_x1", Nr 0, [
    Subsignal "rst_n" [Pins ["E18"]; IOStandard "LVCMOS33"];
    Subsignal "clk_p" [Pins ["F10"]];
    Subsignal "clk_n" [Pins ["E10"]];
    Subsignal "rx_p" [Pins ["D11"]];
    Subsignal "rx_n" [Pins ["C11"]];
    Subsignal "tx_p" [Pins ["D5"]];
    Subsignal "tx_n" [Pins ["C5"]]]);
  ("pcie_x2", Nr 0, [
    Subsignal "rst_n" [Pins ["E18"]; IOStandard "LVCMOS33"];
    Subsignal "clk_p" [Pins ["F10"]];
    Subsignal "clk_n" [Pins ["E10"]];
    Subsignal "rx_p" [Pins ["D11 B10"]];
    Subsignal "rx_n" [Pins ["C11 A10"]];
    Subsignal "tx_p" [Pins ["D5 B6"]];
    Subsignal "tx_n" [Pins ["C5 A6"]]]);
  ("pcie_x4", Nr 0, [
    Subsignal "rst_n" [Pins ["E18"]; IOStandard "LVCMOS33"];
    Subsignal "clk_p" [Pins ["F10"]];
    Subsignal "clk_n" [Pins ["E10"]];
    Subsignal "rx_p" [Pins ["D11 B10 D9 B8"]];
    Subsignal "rx_n" [Pins ["C11 A10 C9 A8"]];
    Subsignal "tx_p" [Pins ["D5 B6 D7 B4"]];
    Subsignal "tx_n" [Pins ["C5 A6 C7 A4"]]]);
  ("eth_clocks", Nr 0, [Subsignal "ref_clk" [Pins ["D17"]]; IOStandard "LVCMOS33"]);
  ("eth", Nr 0, [
    Subsignal "rst_n" [Pins ["F16"]];
    Subsignal "rx_data" [Pins ["A20 B18"]];
    Subsignal "crs_dv" [Pins ["C20"]];
    Subsignal "tx_en" [Pins ["A19"]];
    Subsignal "tx_data" [Pins ["C18 C19"]];
    Subsignal "mdc" [Pins ["F14"]];
    Subsignal "mdio" [Pins ["F13"]];
    Subsignal "rx_er" [Pins ["B20"]];
    Subsignal "int_n" [Pins ["D21"]];
    IOStandard "LVCMOS33"]);
  ("sdcard", Nr 0, [
    Subsignal "data" [Pins ["L15 L16 K14 M13"]; Misc "PULLUP True"];
    Subsignal "cmd" [Pins ["L13"]; Misc "PULLUP True"];
    Subsignal "clk" [Pins ["K18"]];
    IOStandard "LVCMOS33";
    Misc "SLEW=FAST"]);
  ("hdmi_in", Nr 0, [
    Subsignal "clk_p" [Pins ["L19"]; IOStandard "TMDS_33"; Inverted];
    Subsignal "clk_n" [Pins ["L20"]; IOStandard "TMDS_33"; Inverted];
    Subsignal "data0_p" [Pins ["K21"]; IOStandard "TMDS_33"; Inverted];
    Subsignal "data0_n" [Pins ["K22"]; IOStandard "TMDS_33"; Inverted];
    Subsignal "data1_p" [Pins ["J20"]; IOStandard "TMDS_33"; Inverted];
    Subsignal "data1_n" [Pins ["J21"]; IOStandard "TMDS_33"; Inverted];
    Subsignal "data2_p" [Pins ["J22"]; IOStandard "TMDS_33"; Inverted];
    Subsignal "data2_n" [Pins ["H22"]; IOStandard "TMDS_33"; Inverted];
    Subsignal "scl" [Pins ["T18"]; IOStandard "LVCMOS33"];
    Subsignal "sda" [Pins ["V18"]; IOStandard "LVCMOS33"]])
].

Definition netv2_io_2 : list resource := [
  ("hdmi_in", Nr 1, [
    Subsignal "clk_p" [Pins ["Y18"]; IOStandard "TMDS_33"; Inverted];
    Subsignal "clk_n" [Pins ["Y19"]; IOStandard "TMDS_33"; Inverted];
    Subsignal "data0_p" [Pins ["AA18"]; IOStandard "TMDS_33"];
    Subsignal "data0_n" [Pins ["AB18"]; IOStandard "TMDS_33"];
    Subsignal "data1_p" [Pins ["AA19"]; IOStandard "TMDS_33"; Inverted];
    Subsignal "data1_n" [Pins ["AB20"]; IOStandard "TMDS_33"; Inverted];
    Subsignal "data2_p" [Pins ["AB21"]; IOStandard "TMDS_33"; Inverted];
    Subsignal "data2_n" [Pins ["AB22"]; IOStandard "TMDS_33"; Inverted];
    Subsignal "scl" [Pins ["W17"]; IOStandard "LVCMOS33"; Inverted];
    Subsignal "sda" [Pins ["R17"]; IOStandard "LVCMOS33"]]);
  ("hdmi_out", Nr 0, [
    Subsignal "clk_p" [Pins ["W19"]; Inverted; IOStandard "TMDS_33"];
    Subsignal "clk_n" [Pins ["W20"]; Inverted; IOStandard "TMDS_33"];
    Subsignal "data0_p" [Pins ["W21"]; IOStandard "TMDS_33"];
    Subsignal "data0_n" [Pins ["W22"]; IOStandard "TMDS_33"];
    Subsignal "data1_p" [Pins ["U20"]; IOStandard "TMDS_33"];
    Subsignal "data1_n" [Pins ["V20"]; IOStandard "TMDS_33"];
    Subsignal "data2_p" [Pins ["T21"]; IOStandard "TMDS_33"];
    Subsignal "data2_n" [Pins ["U21"]; IOStandard "TMDS_33"]]);
  ("hdmi_out", Nr 1, [
    Subsignal "clk_p" [Pins ["G21"]; IOStandard "TMDS_33"; Inverted];
    Subsignal "clk_n" [Pins ["G22"]; IOStandard "TMDS_33"; Inverted];
    Subsignal "data0_p" [Pins ["E22"]; IOStandard "TMDS_33"; Inverted];
    Subsignal "data0_n" [Pins ["D22"]; IOStandard "TMDS_33"; Inverted];
    Subsignal "data1_p" [Pins ["C22"]; IOStandard "TMDS_33"; Inverted];
    Subsignal "data1_n" [Pins ["B22"]; IOStandard "TMDS_33"; Inverted];
    Subsignal "data2_p" [Pins ["B21"]; IOStandard "TMDS_33"; Inverted];
    Subsignal "data2_n" [Pins ["A21"]; IOStandard "TMDS_33"; Inverted];
    Subsignal "scl" [Pins ["P16"]; IOStandard "LVCMOS33"];
    Subsignal "sda" [Pins ["R16"]; IOStandard "LVCMOS33"]])
].

Definition netv2_io : list resource := (netv2_io_1 ++ netv2_io_2)%list.

Definition netv2 : Platform := {|
  name := Some "netv2"; default_clk_name := "clk50"; default_clk_period := ns 20 1;
  gateware_size := Some 0x400000; spiflash_model := Some "mx25l6433f";
  spiflash_read_dummy_bits := Some 10; spiflash_clock_div := Some 2;
  spiflash_total_size := Some (((64 / 8) * 1024) * 1024);
  spiflash_page_size := Some 256; spiflash_sector_size := Some 0x1000;
  io := netv2_io |}.

(** ** [platforms/nexys_video.py] *)

Definition nexys_video_io_1 : list resource := [
  ("user_led", Nr 0, [Pins ["T14"]; IOStandard "LVCMOS25"]);
  ("user_led", Nr 1, [Pins ["T15"]; IOStandard "LVCMOS25"]);
  ("user_led", Nr 2, [Pins ["T16"]; IOStandard "LVCMOS25"]);
  ("user_led", Nr 3, [Pins ["U16"]; IOStandard "LVCMOS25"]);
  ("user_led", Nr 4, [Pins ["V15"]; IOStandard "LVCMOS25"]);
  ("user_led", Nr 5, [Pins ["W16"]; IOStandard "LVCMOS25"]);
  ("user_led", Nr 6, [Pins ["W15"]; IOStandard "LVCMOS25"]);
  ("user_led", Nr 7, [Pins ["Y13"]; IOStandard "LVCMOS25"]);
  ("user_sw", Nr 0, [Pins ["E22"]; IOStandard "LVCMOS25"]);
  ("user_sw", Nr 1, [Pins ["F21"]; IOStandard "LVCMOS25"]);
  ("user_sw", Nr 2, [Pins ["G21"]; IOStandard "LVCMOS25"]);
  ("user_sw", Nr 3, [Pins ["G22"]; IOStandard "LVCMOS25"]);
  ("user_sw", Nr 4, [Pins ["H17"]; IOStandard "LVCMOS25"]);
  ("user_sw", Nr 5, [Pins ["J16"]; IOStandard "LVCMOS25"]);
  ("user_sw", Nr 6, [Pins ["K13"]; IOStandard "LVCMOS25"]);
  ("user_sw", Nr 7, [Pins ["M17"]; IOStandard "LVCMOS25"]);
  ("user_btn", Nr 0, [Pins ["B22"]; IOStandard "LVCMOS25"]);
  ("user_btn", Nr 1, [Pins ["D22"]; IOStandard "LVCMOS25"]);
  ("user_btn", Nr 2, [Pins ["C22"]; IOStandard "LVCMOS25"]);
  ("user_btn", Nr 3, [Pins ["D14"]; IOStandard "LVCMOS25"]);
  ("user_btn", Nr 4, [Pins ["F15"]; IOStandard "LVCMOS25"]);
  ("user_btn", Nr 5, [Pins ["G4"]; IOStandard "LVCMOS25"]);
  ("vadj", Nr 0, [Pins ["AA13 AB17"]; IOStandard "LVCMOS25"]);
  ("oled", Nr 0, [
    Subsignal "dc" [Pins ["W22"]];
    Subsignal "res" [Pins ["U21"]];
    Subsignal "sclk" [Pins ["W21"]];
    Subsignal "sdin" [Pins ["Y22"]];
    Subsignal "vbat" [Pins ["P20"]];
    Subsignal "vdd" [Pins ["V22"]];
    IOStandard "LVCMOS33"]);
  ("clk100", Nr 0, [Pins ["R4"]; IOStandard "LVCMOS33"]);
  ("cpu_reset", Nr 0, [Pins ["G4"]; IOStandard "LVCMOS15"]);
  ("spiflash_4x", Nr 0, [
    Subsignal "cs_n" [Pins ["T19"]];
    Subsignal "dq" [Pins ["P22"; "R22"; "P21"; "R21"]];
    IOStandard "LVCMOS33"]);
  ("spiflash_1x", Nr 0, [
    Subsignal "cs_n" [Pins ["T19"]];
    Subsignal "mosi" [Pins ["P22"]];
    Subsignal "miso" [Pins ["R22"]];
    Subsignal "wp" [Pins ["P21"]];
    Subsignal "hold" [Pins ["R21"]];
    IOStandard "LVCMOS33"]);
  ("serial", Nr 0, [
    Subsignal "tx" [Pins ["AA19"]];
    Subsignal "rx" [Pins ["V18"]];
    IOStandard "LVCMOS33"]);
  ("ddram", Nr 0, [
    Subsignal "a" [Pins ["M2 M5 M3 M1 L6 P1 N3 N2"; "M6 R1 L5 N5 N4 P2 P6"]; IOStandard "SSTL15"];
    Subsignal "ba" [Pins ["L3 K6 L4"]; IOStandard "SSTL15"];
    Subsignal "ras_n" [Pins ["J4"]; IOStandard "SSTL15"];
    Subsignal "cas_n" [Pins ["K3"]; IOStandard "SSTL15"];
    Subsignal "we_n" [Pins ["L1"]; IOStandard "SSTL15"];
    Subsignal "dm" [Pins ["G3 F1"]; IOStandard "SSTL15"];
    Subsignal "dq" [Pins ["G2 H4 H5 J1 K1 H3 H2 J5"; "E3 B2 F3 D2 C2 A1 E2 B1"]; IOStandard "SSTL15"; Misc "IN_TERM=UNTUNED_SPLIT_50"];
    Subsignal "dqs_p" [Pins ["K2 E1"]; IOStandard "DIFF_SSTL15"];
    Subsignal "dqs_n" [Pins ["J2 D1"]; IOStandard "DIFF_SSTL15"];
    Subsignal "clk_p" [Pins ["P5"]; IOStandard "DIFF_SSTL15"];
    Subsignal "clk_n" [Pins ["P4"]; IOStandard "DIFF_SSTL15"];
    Subsignal "cke" [Pins ["J6"]; IOStandard "SSTL15"];
    Subsignal "odt" [Pins ["K4"]; IOStandard "SSTL15"];
    Subsignal "reset_n" [Pins ["G1"]; IOStandard "SSTL15"];
    Misc "SLEW=FAST"]);
  ("eth_clocks", Nr 0, [
    Subsignal "tx" [Pins ["AA14"]];
    Subsignal "rx" [Pins ["V13"]];
    IOStandard "LVCMOS25"]);
  ("eth", Nr 0, [
    Subsignal "rst_n" [Pins ["U7"]; IOStandard "LVCMOS33"];
    Subsignal "int_n" [Pins ["Y14"]];
    Subsignal "mdio" [Pins ["Y16"]];
    Subsignal "mdc" [Pins ["AA16"]];
    Subsignal "rx_ctl" [Pins ["W10"]];
    Subsignal "rx_data" [Pins ["AB16 AA15 AB15 AB11"]];
    Subsignal "tx_ctl" [Pins ["V10"]];
    Subsignal "tx_data" [Pins ["Y12 W12 W11 Y11"]];
    IOStandard "LVCMOS25"]);
  ("hdmi_in", Nr 0, [
    Subsignal "clk_p" [Pins ["V4"]; IOStandard "TMDS_33"];
    Subsignal "clk_n" [Pins ["W4"]; IOStandard "TMDS_33"];
    Subsignal "data0_p" [Pins ["Y3"]; IOStandard "TMDS_33"];
    Subsignal "data0_n" [Pins ["AA3"]; IOStandard "TMDS_33"];
    Subsignal "data1_p" [Pins ["W2"]; IOStandard "TMDS_33"];
    Subsignal "data1_n" [Pins ["Y2"]; IOStandard "TMDS_33"];
    Subsignal "data2_p" [Pins ["U2"]; IOStandard "TMDS_33"];
    Subsignal "data2_n" [Pins ["V2"]; IOStandard "TMDS_33"];
    Subsignal "scl" [Pins ["Y4"]; IOStandard "LVCMOS33"];
    Subsignal "sda" [Pins ["AB5"]; IOStandard "LVCMOS33"];
    Subsignal "hpd_en" [Pins ["AB12"]; IOStandard "LVCMOS25"];
    Subsignal "cec" [Pins ["AA5"]; IOStandard "LVCMOS33"];
    Subsignal "txen" [Pins ["R3"]; IOStandard "LVCMOS33"]])
].

Definition nexys_video_io_2 : list resource := [
  ("hdmi_out", Nr 0, [
    Subsignal "clk_p" [Pins ["T1"]; IOStandard "TMDS_33"];
    Subsignal "clk_n" [Pins ["U1"]; IOStandard "TMDS_33"];
    Subsignal "data0_p" [Pins ["W1"]; IOStandard "TMDS_33"];
    Subsignal "data0_n" [Pins ["Y1"]; IOStandard "TMDS_33"];
    Subsignal "data1_p" [Pins ["AA1"]; IOStandard "TMDS_33"];
    Subsignal "data1_n" [Pins ["AB1"]; IOStandard "TMDS_33"];
    Subsignal "data2_p" [Pins ["AB3"]; IOStandard "TMDS_33"];
    Subsignal "data2_n" [Pins ["AB2"]; IOStandard "TMDS_33"];
    Subsignal "scl" [Pins ["U3"]; IOStandard "LVCMOS33"];
    Subsignal "sda" [Pins ["V3"]; IOStandard "LVCMOS33"];
    Subsignal "cec" [Pins ["AA4"]; IOStandard "LVCMOS33"];
    Subsignal "hdp" [Pins ["AB13"]; IOStandard "LVCMOS25"]])
].

Definition nexys_video_io : list resource := (nexys_video_io_1 ++ nexys_video_io_2)%list.

Definition nexys_video_connectors : list (string * connector) := [
  ("LPC", ConnMap [
    ("GBTCLK0_M2C_P", "F10");
    ("GBTCLK0_M2C_N", "E10");
    ("LA01_CC_P", "J20");
    ("LA01_CC_N", "J21");
    ("LA05_P", "M21");
    ("LA05_N", "L21");
    ("LA09_P", "H20");
    ("LA09_N", "G20");
    ("LA13_P", "K17");
    ("LA13_N", "J17");
    ("LA17_CC_P", "B17");
    ("LA17_CC_N", "B18");
    ("LA23_P", "B21");
    ("LA23_N", "A21");
    ("LA26_P", "F18");
    ("LA26_N", "E18");
    ("CLK0_M2C_P", "J19");
    ("CLK0_M2C_N", "A19");
    ("LA02_P", "M18");
    ("LA02_N", "L18");
    ("LA04_P", "N20");
    ("LA04_N", "M20");
    ("LA07_P", "M13");
    ("LA07_N", "L13");
    ("LA11_P", "L14");
    ("LA11_N", "L15");
    ("LA15_P", "L16");
    ("LA15_N", "K16");
    ("LA19_P", "A18");
    ("LA19_N", "A19");
    ("LA21_P", "E19");
    ("LA21_N", "D19");
    ("LA24_P", "B15");
    ("LA24_N", "B16");
    ("LA28_P", "C13");
    ("LA28_N", "B13");
    ("LA30_P", "A13");
    ("LA30_N", "A14");
    ("LA32_P", "A15");
    ("LA32_N", "A16");
    ("LA06_P", "N22");
    ("LA06_N", "M22");
    ("LA10_P", "K21");
    ("LA10_N", "K22");
    ("LA14_P", "J22");
    ("LA14_N", "H22");
    ("LA18_CC_P", "D17");
    ("LA18_CC_N", "C17");
    ("LA27_P", "B20");
    ("LA27_N", "A20");
    ("CLK1_M2C_P", "C18");
    ("CLK1_M2C_N", "C19");
    ("LA00_CC_P", "K18");
    ("LA00_CC_N", "K19");
    ("LA03_P", "N18");
    ("LA03_N", "N19");
    ("LA08_P", "M15");
    ("LA08_N", "M16");
    ("LA12_P", "L19");
    ("LA12_N", "L20");
    ("LA16_P", "G17");
    ("LA16_N", "G18");
    ("LA20_P", "F19");
    ("LA20_N", "F20");
    ("LA22_P", "E21");
    ("LA22_N", "D21");
    ("LA25_P", "F16");
    ("LA25_N", "E17");
    ("LA29_P", "C14");
    ("LA29_N", "C15");
    ("LA31_P", "E13");
    ("LA31_N", "E14");
    ("LA33_P", "F13");
    ("LA33_N", "F14")])
].

Definition nexys_video : Platform := {|
  name := Some "nexys_video"; default_clk_name := "clk100"; default_clk_period := ns 10 1;
  gateware_size := Some 0x1000000; spiflash_model := Some "n25q128";
  spiflash_read_dummy_bits := Some 10; spiflash_clock_div := Some 4;
  spiflash_total_size := Some (((256 / 8) * 1024) * 1024);
  spiflash_page_size := Some 256; spiflash_sector_size := Some 0x10000;
  io := nexys_video_io |}.

(** ** [platforms/picoevb.py] *)

Definition picoevb_io : list resource := [
  ("clk100", Nr 0, [Pins ["B6"]; IOStandard "LVCMOS33"]);
  ("user_led", Nr 0, [Pins ["V12"]; IOStandard "LVCMOS33"; Drive "8"; Misc "PULLUP"]);
  ("user_led", Nr 1, [Pins ["V11"]; IOStandard "LVCMOS33"; Drive "8"; Misc "PULLUP"]);
  ("user_led", Nr 2, [Pins ["V13"]; IOStandard "LVCMOS33"; Drive "8"; Misc "PULLUP"]);
  ("user_led", Nr 3, [Pins ["V14"]; IOStandard "LVCMOS33"; Drive "8"; Misc "PULLUP"]);
  ("serial", Nr 0, [
    Subsignal "tx" [Pins ["V16"]];
    Subsignal "rx" [Pins ["V17"]];
    IOStandard "LVCMOS33"]);
  ("pcie_x1", Nr 0, [
    Subsignal "rst_n" [Pins ["A10"]; IOStandard "LVCMOS33"; Misc "PULLDOWN"];
    Subsignal "clk_p" [Pins ["D6"]];
    Subsignal "clk_n" [Pins ["D5"]];
    Subsignal "rx_p" [Pins ["G4"]];
    Subsignal "rx_n" [Pins ["G3"]];
    Subsignal "tx_p" [Pins ["B2"]];
    Subsignal "tx_n" [Pins ["B1"]]])
].

Definition picoevb : Platform := {|
  name := Some "picoevb"; default_clk_name := "clk100"; default_clk_period := ns 10 1;
  gateware_size := Some 0x220000; spiflash_model := Some "n25q128";
  spiflash_read_dummy_bits := Some 10; spiflash_clock_div := Some 4;
  spiflash_total_size := Some (((256 / 8) * 1024) * 1024);
  spiflash_page_size := Some 256; spiflash_sector_size := Some 0x10000;
  io := picoevb_io |}.
