(* ===== verification/PlatformsSpartan6.v ===== *)
(** * Boards with Xilinx Spartan-6 FPGAs, except Opsis and Atlys

    The resource tables, connectors and constants of [platforms/*.py], entry
    by entry. *)
From S2P Require Import Prelude PyStr Platform.

#[local] Open Scope string_scope.

(** ** [platforms/galatea.py] *)

Definition galatea_io : list resource := [
  ("clk100", Nr 0, [Pins ["G9"]; IOStandard "LVCMOS33"]);
  ("clk2", Nr 0, [Pins ["Y13"]; IOStandard "LVCMOS33"]);
  ("clk3", Nr 0, [Pins ["AB13"]; IOStandard "LVCMOS33"]);
  ("cpu_reset", Nr 0, [Pins ["AB19"]; IOStandard "LVCMOS33"; Misc "PULLUP"]);
  ("serial", Nr 0, [
    Subsignal "rx" [Pins ["V17"]; IOStandard "LVCMOS33"];
    Subsignal "tx" [Pins ["W18"]; IOStandard "LVCMOS33"]]);
  ("spiflash1x", Nr 0, [
    Subsignal "clk" [Pins ["Y20"]];
    Subsignal "cs_n" [Pins ["AA3"]];
    IOStandard "LVCMOS33";
    Misc "SLEW=FAST"]);
  ("ddram_clock", Nr 0, [
    Subsignal "p" [Pins ["K4"]];
    Subsignal "n" [Pins ["K3"]];
    IOStandard "DIFF_SSTL15_II";
    Misc "IN_TERM=NONE"]);
  ("ddram", Nr 0, [
    Subsignal "cke" [Pins ["F2"]; IOStandard "SSTL15_II"];
    Subsignal "ras_n" [Pins ["M5"]; IOStandard "SSTL15_II"];
    Subsignal "cas_n" [Pins ["M4"]; IOStandard "SSTL15_II"];
    Subsignal "we_n" [Pins ["H2"]; IOStandard "SSTL15_II"];
    Subsignal "ba" [Pins ["J3 J1 H1"]; IOStandard "SSTL15_II"];
    Subsignal "a" [Pins ["K2 K1 K5 M6 H3 L4 M3 K6 G3 G1 J4 E1 F1 J6 H5"]; IOStandard "SSTL15_II"];
    Subsignal "dq" [Pins ["R3 R1 P2 P1 L3 L1 M2 M1"; "T2 T1 U3 U1 W3 W1 Y2 Y1"]; IOStandard "SSTL15_II"];
    Subsignal "dqs" [Pins ["N3 V2"]; IOStandard "DIFF_SSTL15_II"];
    Subsignal "dqs_n" [Pins ["N1 V1"]; IOStandard "DIFF_SSTL15_II"];
    Subsignal "dm" [Pins ["N4 P3"]; IOStandard "SSTL15_II"];
    Subsignal "odt" [Pins ["L6"]; IOStandard "SSTL15_II"];
    Subsignal "reset_n" [Pins ["E3"]; IOStandard "LVCMOS15"];
    Misc "SLEW=FAST";
    Misc "VCCAUX_IO=HIGH"]);
  ("ddram_clock", Nr 1, [
    Subsignal "p" [Pins ["K20"]];
    Subsignal "n" [Pins ["L19"]];
    IOStandard "DIFF_SSTL15_II";
    Misc "IN_TERM=NONE"]);
  ("ddram", Nr 1, [
    Subsignal "cke" [Pins ["F21"]; IOStandard "SSTL15_II"];
    Subsignal "ras_n" [Pins ["K21"]; IOStandard "SSTL15_II"];
    Subsignal "cas_n" [Pins ["K22"]; IOStandard "SSTL15_II"];
    Subsignal "we_n" [Pins ["K19"]; IOStandard "SSTL15_II"];
    Subsignal "ba" [Pins ["K17 L17 K18"]; IOStandard "SSTL15_II"];
    Subsignal "a" [Pins ["H21 H22 G22 J20 H20 M20 M19 G20 E20 E22 J19 H19 F22 G19 F20"]; IOStandard "SSTL15_II"];
    Subsignal "dq" [Pins ["R20 R22 P21 P22 L20 L22 M21 M22"; "T21 T22 U20 U22 W20 W22 Y21 Y22"]; IOStandard "SSTL15_II"];
    Subsignal "dqs" [Pins ["N20 V21"]; IOStandard "DIFF_SSTL15_II"];
    Subsignal "dqs_n" [Pins ["N22 V22"]; IOStandard "DIFF_SSTL15_II"];
    Subsignal "dm" [Pins ["N19 P20"]; IOStandard "SSTL15_II"];
    Subsignal "odt" [Pins ["J22"]; IOStandard "SSTL15_II"];
    Subsignal "reset_n" [Pins ["H18"]; IOStandard "LVCMOS15"];
    Misc "SLEW=FAST";
    Misc "VCCAUX_IO=HIGH"])
].

Definition galatea_connectors : list (string * connector) := [

].

Definition galatea : Platform := {|
  name := Some "galatea"; default_clk_name := "clk100"; default_clk_period := ns 10 1;
  gateware_size := Some 0x200000; spiflash_model := Some "n25q128";
  spiflash_read_dummy_bits := Some 10; spiflash_clock_div := Some 4;
  spiflash_total_size := Some (((128 / 8) * 1024) * 1024);
  spiflash_page_size := Some 256; spiflash_sector_size := Some 0x10000;
  io := galatea_io |}.

(** ** [platforms/mimasv2.py] *)

Definition mimasv2_io : list resource := [
  ("clk100", Nr 0, [Pins ["V10"]; IOStandard "LVCMOS33"]);
  ("clk12", Nr 0, [Pins ["D9"]; IOStandard "LVCMOS33"]);
  ("serial", Nr 0, [
    Subsignal "tx" [Pins ["B8"]; IOStandard "LVCMOS33"; Misc "SLEW=FAST"];
    Subsignal "rx" [Pins ["A8"]; IOStandard "LVCMOS33"; Misc "SLEW=FAST"]]);
  ("spiflash", Nr 0, [
    Subsignal "cs_n" [Pins ["V3"]];
    Subsignal "clk" [Pins ["R15"]];
    Subsignal "mosi" [Pins ["T13"]];
    Subsignal "miso" [Pins ["R13"]; Misc "PULLUP"];
    IOStandard "LVCMOS33";
    Misc "SLEW=FAST"]);
  ("ddram_clock", Nr 0, [
    Subsignal "p" [Pins ["G3"]];
    Subsignal "n" [Pins ["G1"]];
    IOStandard "MOBILE_DDR"]);
  ("ddram", Nr 0, [
    Subsignal "a" [Pins ["J7 J6 H5 L7 F3 H4 H3 H6 D2 D1 F4 D3 G6"]];
    Subsignal "ba" [Pins ["F2 F1"]];
    Subsignal "cke" [Pins ["H7"]];
    Subsignal "ras_n" [Pins ["L5"]];
    Subsignal "cas_n" [Pins ["K5"]];
    Subsignal "we_n" [Pins ["E3"]];
    Subsignal "dq" [Pins ["L2 L1 K2 K1 H2 H1 J3 J1 M3 M1 N2 N1 T2 T1 U2 U1"]];
    Subsignal "dqs" [Pins ["L4 P2"]];
    Subsignal "dm" [Pins ["K3 K4"]];
    IOStandard "MOBILE_DDR"]);
  ("user_sw", Nr 0, [Pins ["F17"]; IOStandard "LVCMOS33"; Misc "PULLUP"]);
  ("user_sw", Nr 1, [Pins ["F18"]; IOStandard "LVCMOS33"; Misc "PULLUP"]);
  ("user_sw", Nr 2, [Pins ["E16"]; IOStandard "LVCMOS33"; Misc "PULLUP"]);
  ("user_sw", Nr 3, [Pins ["E18"]; IOStandard "LVCMOS33"; Misc "PULLUP"]);
  ("user_sw", Nr 4, [Pins ["D18"]; IOStandard "LVCMOS33"; Misc "PULLUP"]);
  ("user_sw", Nr 5, [Pins ["D17"]; IOStandard "LVCMOS33"; Misc "PULLUP"]);
  ("user_sw", Nr 6, [Pins ["C18"]; IOStandard "LVCMOS33"; Misc "PULLUP"]);
  ("user_sw", Nr 7, [Pins ["C17"]; IOStandard "LVCMOS33"; Misc "PULLUP"]);
  ("user_btn", Nr 0, [Pins ["M18"]; IOStandard "LVCMOS33"; Misc "PULLUP"]);
  ("user_btn", Nr 1, [Pins ["L18"]; IOStandard "LVCMOS33"; Misc "PULLUP"]);
  ("user_btn", Nr 2, [Pins ["M16"]; IOStandard "LVCMOS33"; Misc "PULLUP"]);
  ("user_btn", Nr 3, [Pins ["L17"]; IOStandard "LVCMOS33"; Misc "PULLUP"]);
  ("user_btn", Nr 4, [Pins ["K17"]; IOStandard "LVCMOS33"; Misc "PULLUP"]);
  ("user_btn", Nr 5, [Pins ["K18"]; IOStandard "LVCMOS33"; Misc "PULLUP"]);
  ("user_led", Nr 0, [Pins ["P15"]; IOStandard "LVCMOS33"; Drive "8"]);
  ("user_led", Nr 1, [Pins ["P16"]; IOStandard "LVCMOS33"; Drive "8"]);
  ("user_led", Nr 2, [Pins ["N15"]; IOStandard "LVCMOS33"; Drive "8"]);
  ("user_led", Nr 3, [Pins ["N16"]; IOStandard "LVCMOS33"; Drive "8"]);
  ("user_led", Nr 4, [Pins ["U17"]; IOStandard "LVCMOS33"; Drive "8"]);
  ("user_led", Nr 5, [Pins ["U18"]; IOStandard "LVCMOS33"; Drive "8"]);
  ("user_led", Nr 6, [Pins ["T17"]; IOStandard "LVCMOS33"; Drive "8"]);
  ("user_led", Nr 7, [Pins ["T18"]; IOStandard "LVCMOS33"; Drive "8"]);
  ("mmc", Nr 0, [
    Subsignal "dat" [Pins ["K14 G18 J13 L13"]; IOStandard "LVCMOS33"; Misc "SLEW=FAST"];
    Subsignal "cmd" [Pins ["G16"]; IOStandard "LVCMOS33"; Misc "SLEW=FAST"];
    Subsignal "clk" [Pins ["L12"]; IOStandard "LVCMOS33"; Misc "SLEW=FAST"]]);
  ("sevenseg", Nr 0, [
    Subsignal "segment7" [Pins ["A3"]; IOStandard "LVCMOS33"];
    Subsignal "segment6" [Pins ["B4"]; IOStandard "LVCMOS33"];
    Subsignal "segment5" [Pins ["A4"]; IOStandard "LVCMOS33"];
    Subsignal "segment4" [Pins ["C4"]; IOStandard "LVCMOS33"];
    Subsignal "segment3" [Pins ["C5"]; IOStandard "LVCMOS33"];
    Subsignal "segment2" [Pins ["D6"]; IOStandard "LVCMOS33"];
    Subsignal "segment1" [Pins ["C6"]; IOStandard "LVCMOS33"];
    Subsignal "segment0" [Pins ["A5"]; IOStandard "LVCMOS33"];
    Subsignal "enable0" [Pins ["B2"]; IOStandard "LVCMOS33"];
    Subsignal "enable1" [Pins ["A2"]; IOStandard "LVCMOS33"];
    Subsignal "enable2" [Pins ["B3"]; IOStandard "LVCMOS33"]]);
  ("audio", Nr 0, [
    Subsignal "channel1" [Pins ["B16"]; IOStandard "LVCMOS33"; Misc "SLEW=FAST"];
    Subsignal "channel2" [Pins ["A16"]; IOStandard "LVCMOS33"; Misc "SLEW=FAST"]]);
  ("vga_out", Nr 0, [
    Subsignal "hsync_n" [Pins ["B12"]; IOStandard "LVCMOS33"; Misc "SLEW=FAST"];
    Subsignal "vsync_n" [Pins ["A12"]; IOStandard "LVCMOS33"; Misc "SLEW=FAST"];
    Subsignal "r" [Pins ["A9 B9 C9"]; IOStandard "LVCMOS33"; Misc "SLEW=FAST"];
    Subsignal "g" [Pins ["C10 A10 C11"]; IOStandard "LVCMOS33"; Misc "SLEW=FAST"];
    Subsignal "b" [Pins ["B11 A11"]; IOStandard "LVCMOS33"; Misc "SLEW=FAST"]])
].

Definition mimasv2_connectors : list (string * connector) := [
  ("P6", ConnPins "T3 R3 V5 U5 V4 T4 V7 U7");
  ("P7", ConnPins "V11 U11 V13 U13 T10 R10 T11 R11");
  ("P8", ConnPins "L16 L15 K16 K15 J18 J16 H18 H17")
].

Definition mimasv2 : Platform := {|
  name := Some "mimasv2"; default_clk_name := "clk100"; default_clk_period := ns 10 1;
  gateware_size := Some 0x80000; spiflash_model := Some "m25p16";
  spiflash_read_dummy_bits := Some 8; spiflash_clock_div := Some 4;
  spiflash_total_size := Some (((16 / 8) * 1024) * 1024);
  spiflash_page_size := Some 256; spiflash_sector_size := Some 0x10000;
  io := mimasv2_io |}.

(** ** [platforms/minispartan6.py] *)

Definition minispartan6_io : list resource := [
  ("user_led", Nr 0, [Pins ["P11"]; IOStandard "LVCMOS33"]);
  ("user_led", Nr 1, [Pins ["N9"]; IOStandard "LVCMOS33"]);
  ("user_led", Nr 2, [Pins ["M9"]; IOStandard "LVCMOS33"]);
  ("user_led", Nr 3, [Pins ["P9"]; IOStandard "LVCMOS33"]);
  ("user_led", Nr 4, [Pins ["T8"]; IOStandard "LVCMOS33"]);
  ("user_led", Nr 5, [Pins ["N8"]; IOStandard "LVCMOS33"]);
  ("user_led", Nr 6, [Pins ["P8"]; IOStandard "LVCMOS33"]);
  ("user_led", Nr 7, [Pins ["P7"]; IOStandard "LVCMOS33"]);
  ("user_sw", Nr 0, [Pins ["L1"]; IOStandard "LVCMOS33"; Misc "PULLUP"]);
  ("user_sw", Nr 1, [Pins ["L3"]; IOStandard "LVCMOS33"; Misc "PULLUP"]);
  ("user_sw", Nr 2, [Pins ["L4"]; IOStandard "LVCMOS33"; Misc "PULLUP"]);
  ("user_sw", Nr 3, [Pins ["L5"]; IOStandard "LVCMOS33"; Misc "PULLUP"]);
  ("clk32", Nr 0, [Pins ["J4"]; IOStandard "LVCMOS33"]);
  ("clk50", Nr 0, [Pins ["K3"]; IOStandard "LVCMOS33"]);
  ("spiflash", Nr 0, [
    Subsignal "cs_n" [Pins ["T3"]; IOStandard "LVCMOS33"];
    Subsignal "clk" [Pins ["R11"]; IOStandard "LVCMOS33"];
    Subsignal "mosi" [Pins ["T10"]; IOStandard "LVCMOS33"];
    Subsignal "miso" [Pins ["P10"]; IOStandard "LVCMOS33"]]);
  ("spiflash2x", Nr 0, [
    Subsignal "cs_n" [Pins ["T3"]; IOStandard "LVCMOS33"];
    Subsignal "clk" [Pins ["R11"]; IOStandard "LVCMOS33"];
    Subsignal "dq" [Pins ["T10"; "P10"]; IOStandard "LVCMOS33"]]);
  ("adc", Nr 0, [
    Subsignal "cs_n" [Pins ["F6"]; IOStandard "LVCMOS33"];
    Subsignal "clk" [Pins ["G6"]; IOStandard "LVCMOS33"];
    Subsignal "mosi" [Pins ["H4"]; IOStandard "LVCMOS33"];
    Subsignal "miso" [Pins ["H5"]; IOStandard "LVCMOS33"]]);
  ("audio", Nr 0, [
    Subsignal "a0" [Pins ["B8"]; IOStandard "LVCMOS33"];
    Subsignal "a1" [Pins ["A8"]; IOStandard "LVCMOS33"]]);
  ("sdram_clock", Nr 0, [Pins ["G16"]; IOStandard "LVCMOS33"; Misc "SLEW=FAST"]);
  ("sdram", Nr 0, [
    Subsignal "a" [Pins ["T15 R16 P15 P16 N16 M15 M16 L16 K15 K16 R15 J16 H15"]];
    Subsignal "dq" [Pins ["T13 T12 R12 T9 R9 T7 R7 T6 F16 E15 E16 D16 B16 B15 C16 C15"]];
    Subsignal "we_n" [Pins ["R5"]];
    Subsignal "ras_n" [Pins ["R2"]];
    Subsignal "cas_n" [Pins ["T4"]];
    Subsignal "cs_n" [Pins ["R1"]];
    Subsignal "cke" [Pins ["H16"]];
    Subsignal "ba" [Pins ["R14 T14"]];
    Subsignal "dm" [Pins ["T5 F15"]];
    IOStandard "LVCMOS33";
    Misc "SLEW=FAST"]);
  ("serial", Nr 0, [
    Subsignal "tx" [Pins ["N6"]; IOStandard "LVCMOS33"];
    Subsignal "rx" [Pins ["M7"]; IOStandard "LVCMOS33"]]);
  ("usb_fifo", Nr 0, [
    Subsignal "data" [Pins ["M7 N6 M6 P5 N5 P4 P2 P1"]];
    Subsignal "rxf_n" [Pins ["N3"]];
    Subsignal "txe_n" [Pins ["N1"]];
    Subsignal "rd_n" [Pins ["M1"]];
    Subsignal "wr_n" [Pins ["M2"]];
    Subsignal "siwua" [Pins ["M3"]];
    IOStandard "LVCMOS33";
    Drive "8";
    Misc "SLEW=FAST"]);
  ("sd", Nr 0, [
    Subsignal "sck" [Pins ["L12"]];
    Subsignal "d3" [Pins ["K12"]];
    Subsignal "d" [Pins ["M10"]];
    Subsignal "d1" [Pins ["L10"]];
    Subsignal "d2" [Pins ["J11"]];
    Subsignal "cmd" [Pins ["K11"]];
    IOStandard "LVCMOS33"]);
  ("hdmi_in", Nr 0, [
    Subsignal "clk_p" [Pins ["C9"]; IOStandard "TMDS_33"];
    Subsignal "clk_n" [Pins ["A9"]; IOStandard "TMDS_33"];
    Subsignal "data0_p" [Pins ["C7"]; IOStandard "TMDS_33"];
    Subsignal "data0_n" [Pins ["A7"]; IOStandard "TMDS_33"];
    Subsignal "data1_p" [Pins ["B6"]; IOStandard "TMDS_33"];
    Subsignal "data1_n" [Pins ["A6"]; IOStandard "TMDS_33"];
    Subsignal "data2_p" [Pins ["B5"]; IOStandard "TMDS_33"];
    Subsignal "data2_n" [Pins ["A5"]; IOStandard "TMDS_33"];
    Subsignal "scl" [Pins ["C1"]; IOStandard "LVCMOS33"];
    Subsignal "sda" [Pins ["B1"]; IOStandard "LVCMOS33"]]);
  ("hdmi_out", Nr 0, [
    Subsignal "clk_p" [Pins ["B14"]; IOStandard "TMDS_33"];
    Subsignal "clk_n" [Pins ["A14"]; IOStandard "TMDS_33"];
    Subsignal "data0_p" [Pins ["C13"]; IOStandard "TMDS_33"];
    Subsignal "data0_n" [Pins ["A13"]; IOStandard "TMDS_33"];
    Subsignal "data1_p" [Pins ["B12"]; IOStandard "TMDS_33"];
    Subsignal "data1_n" [Pins ["A12"]; IOStandard "TMDS_33"];
    Subsignal "data2_p" [Pins ["C11"]; IOStandard "TMDS_33"];
    Subsignal "data2_n" [Pins ["A11"]; IOStandard "TMDS_33"]]);
  ("debug", Nr 0, [
    Subsignal "channel1" [Pins ["J12"]];
    Subsignal "channel2" [Pins ["L14"]];
    Subsignal "channel3" [Pins ["M14"]];
    IOStandard "LVTTL"])
].

Definition minispartan6_connectors : list (string * connector) := [
  ("A", ConnPins "E7 C8 D8 E8 D9 A10 B10 C10 E10 F9 F10 D11");
  ("B", ConnPins "E11 D14 D12 E12 E13 F13 F12 F14 G12 H14 J14");
  ("C", ConnPins "J13 J12 K14 L14 L13 M14 M13 N14 M12 N12 P12 M11");
  ("D", ConnPins "D6 C6 E6 C5");
  ("E", ConnPins "D5 A4 G5 A3 B3 A2 B2 C3 C2 D3 D1 E3");
  ("F", ConnPins "E2 E1 E4 F4 F5 G3 F3 G1 H3 H1 H2 J1")
].

Definition minispartan6 : Platform := {|
  name := Some "minisp6"; default_clk_name := "clk32"; default_clk_period := ns 3125 100;
  gateware_size := Some 0x180000; spiflash_model := Some "25l6405";
  spiflash_read_dummy_bits := Some 4; spiflash_clock_div := Some 4;
  spiflash_total_size := Some (((64 / 8) * 1024) * 1024);
  spiflash_page_size := Some 256; spiflash_sector_size := Some 0x10000;
  io := minispartan6_io |}.

(** ** [platforms/pano_logic_g2.py] *)

Definition pano_logic_g2_io_1 : list resource := [
  ("user_led", Nr 0, [Pins ["E12"]; IOStandard "LVCMOS33"]);
  ("user_led", Nr 1, [Pins ["H13"]; IOStandard "LVCMOS33"]);
  ("user_led", Nr 2, [Pins ["F13"]; IOStandard "LVCMOS33"]);
  ("user_sw", Nr 0, [Pins ["H12"]; IOStandard "LVCMOS33"]);
  ("clk125", Nr 0, [Pins ["Y13"]; IOStandard "LVCMOS33"]);
  ("serial", Nr 0, [
    Subsignal "tx" [Pins ["C14"]; IOStandard "LVCMOS33"];
    Subsignal "rx" [Pins ["C17"]; IOStandard "LVCMOS33"]]);
  ("gmii_rst_n", Nr 0, [Pins ["R11"]; IOStandard "LVCMOS33"]);
  ("cpu_reset", Nr 0, [Pins ["AB14"]; IOStandard "LVCMOS33"]);
  ("ddram_clock_a", Nr 0, [
    Subsignal "p" [Pins ["H20"]];
    Subsignal "n" [Pins ["J19"]];
    IOStandard "DIFF_SSTL18_II";
    Misc "IN_TERM=NONE"]);
  ("ddram_clock_b", Nr 0, [
    Subsignal "p" [Pins ["H4"]];
    Subsignal "n" [Pins ["H3"]];
    IOStandard "DIFF_SSTL18_II";
    Misc "IN_TERM=NONE"]);
  ("ddram_a", Nr 0, [
    Subsignal "a" [Pins ["F21 F22 E22 G20 F20 K20 K19 E20 C20 C22 G19 F19 D22"]; IOStandard "SSTL18_II"];
    Subsignal "ba" [Pins ["J17 K17 H18"]; IOStandard "SSTL18_II"];
    Subsignal "ras_n" [Pins ["H21"]; IOStandard "SSTL18_II"];
    Subsignal "cas_n" [Pins ["H22"]; IOStandard "SSTL18_II"];
    Subsignal "we_n" [Pins ["H19"]; IOStandard "SSTL18_II"];
    Subsignal "dm" [Pins ["M20 L19"]; IOStandard "SSTL18_II"];
    Subsignal "dq" [Pins ["N20 N22 M21 M22 J20 J22 K21 K22 P21 P22 R20 R22 U20 U22 V21 V22"]; IOStandard "SSTL18_II"];
    Subsignal "dqs" [Pins ["T21 L20"]; IOStandard "DIFF_SSTL18_II"];
    Subsignal "dqs_n" [Pins ["T22 L22"]; IOStandard "DIFF_SSTL18_II"];
    Subsignal "cke" [Pins ["D21"]; IOStandard "SSTL18_II"];
    Subsignal "odt" [Pins ["G22"]; IOStandard "SSTL18_II"]])
].

Definition pano_logic_g2_io_2 : list resource := [
  ("ddram_b", Nr 0, [
    Subsignal "a" [Pins ["H2 H1 H5 K6 F3 K3 J4 H6 E3 E1 G4 C1 D1"]; IOStandard "SSTL18_II"];
    Subsignal "ba" [Pins ["G3 G1 F1"]; IOStandard "SSTL18_II"];
    Subsignal "ras_n" [Pins ["K5"]; IOStandard "SSTL18_II"];
    Subsignal "cas_n" [Pins ["K4"]; IOStandard "SSTL18_II"];
    Subsignal "we_n" [Pins ["F2"]; IOStandard "SSTL18_II"];
    Subsignal "dm" [Pins ["M3 L4"]; IOStandard "SSTL18_II"];
    Subsignal "dq" [Pins ["N3 N1 M2 M1 J3 J1 K2 K1 P2 P1 R3 R1 U3 U1 V2 V1"]; IOStandard "SSTL18_II"];
    Subsignal "dqs" [Pins ["T2 L3"]; IOStandard "DIFF_SSTL18_II"];
    Subsignal "dqs_n" [Pins ["T1 L1"]; IOStandard "DIFF_SSTL18_II"];
    Subsignal "cke" [Pins ["D2"]; IOStandard "SSTL18_II"];
    Subsignal "odt" [Pins ["J6"]; IOStandard "SSTL18_II"]])
].

Definition pano_logic_g2_io : list resource := (pano_logic_g2_io_1 ++ pano_logic_g2_io_2)%list.

Definition pano_logic_g2 : Platform := {|
  name := Some "pano logic g2"; default_clk_name := "clk125"; default_clk_period := ns 1000000000 125000000;
  gateware_size := None; spiflash_model := None;
  spiflash_read_dummy_bits := None; spiflash_clock_div := None;
  spiflash_total_size := None;
  spiflash_page_size := None; spiflash_sector_size := None;
  io := pano_logic_g2_io |}.

(** ** [platforms/pipistrello.py] *)

Definition pipistrello_io : list resource := [
  ("user_led", Nr 0, [Pins ["V16"]; IOStandard "LVTTL"; Drive "8"; Misc "SLEW=QUIETIO"]);
  ("user_led", Nr 1, [Pins ["U16"]; IOStandard "LVTTL"; Drive "8"; Misc "SLEW=QUIETIO"]);
  ("user_led", Nr 2, [Pins ["A16"]; IOStandard "LVTTL"; Drive "8"; Misc "SLEW=QUIETIO"]);
  ("user_led", Nr 3, [Pins ["A15"]; IOStandard "LVTTL"; Drive "8"; Misc "SLEW=QUIETIO"]);
  ("user_led", Nr 4, [Pins ["A12"]; IOStandard "LVTTL"; Drive "8"; Misc "SLEW=QUIETIO"]);
  ("user_btn", Nr 0, [Pins ["N14"]; IOStandard "LVTTL"; Misc "PULLDOWN"]);
  ("clk50", Nr 0, [Pins ["H17"]; IOStandard "LVTTL"]);
  ("serial", Nr 0, [
    Subsignal "tx" [Pins ["A10"]];
    Subsignal "rx" [Pins ["A11"]; Misc "PULLUP"];
    Subsignal "cts" [Pins ["C10"]; Misc "PULLUP"];
    Subsignal "rts" [Pins ["A9"]; Misc "PULLUP"];
    IOStandard "LVTTL"]);
  ("usb_fifo", Nr 0, [
    Subsignal "data" [Pins ["A11 A10 C10 A9 B9 A8 B8 A7"]];
    Subsignal "rxf_n" [Pins ["C7"]];
    Subsignal "txe_n" [Pins ["A6"]];
    Subsignal "rd_n" [Pins ["B6"]];
    Subsignal "wr_n" [Pins ["A5"]];
    Subsignal "siwua" [Pins ["C5"]];
    IOStandard "LVTTL"]);
  ("hdmi", Nr 0, [
    Subsignal "clk_p" [Pins ["U5"]; IOStandard "TMDS_33"];
    Subsignal "clk_n" [Pins ["V5"]; IOStandard "TMDS_33"];
    Subsignal "data0_p" [Pins ["T6"]; IOStandard "TMDS_33"];
    Subsignal "data0_n" [Pins ["V6"]; IOStandard "TMDS_33"];
    Subsignal "data1_p" [Pins ["U7"]; IOStandard "TMDS_33"];
    Subsignal "data1_n" [Pins ["V7"]; IOStandard "TMDS_33"];
    Subsignal "data2_p" [Pins ["U8"]; IOStandard "TMDS_33"];
    Subsignal "data2_n" [Pins ["V8"]; IOStandard "TMDS_33"];
    Subsignal "scl" [Pins ["V9"]; IOStandard "I2C"];
    Subsignal "sda" [Pins ["T9"]; IOStandard "I2C"];
    Subsignal "hpd_notif" [Pins ["R8"]; IOStandard "LVTTL"]]);
  ("spiflash", Nr 0, [
    Subsignal "cs_n" [Pins ["V3"]];
    Subsignal "clk" [Pins ["R15"]];
    Subsignal "mosi" [Pins ["T13"]];
    Subsignal "miso" [Pins ["R13"]; Misc "PULLUP"];
    Subsignal "wp" [Pins ["T14"]];
    Subsignal "hold" [Pins ["V14"]];
    IOStandard "LVTTL";
    Misc "SLEW=FAST"]);
  ("spiflash2x", Nr 0, [
    Subsignal "cs_n" [Pins ["V3"]];
    Subsignal "clk" [Pins ["R15"]];
    Subsignal "dq" [Pins ["T13 R13"]; Misc "PULLUP"];
    Subsignal "wp" [Pins ["T14"]];
    Subsignal "hold" [Pins ["V14"]];
    IOStandard "LVTTL";
    Misc "SLEW=FAST"]);
  ("spiflash4x", Nr 0, [
    Subsignal "cs_n" [Pins ["V3"]];
    Subsignal "clk" [Pins ["R15"]];
    Subsignal "dq" [Pins ["T13 R13 T14 V14"]; Misc "PULLUP"];
    IOStandard "LVTTL";
    Misc "SLEW=FAST"]);
  ("mmc", Nr 0, [
    Subsignal "clk" [Pins ["A3"]];
    Subsignal "cmd" [Pins ["B3"]; Misc "PULLUP"];
    Subsignal "dat" [Pins ["B4 A4 B2 A2"]; Misc "PULLUP"];
    IOStandard "SDIO"]);
  ("mmc_spi", Nr 0, [
    Subsignal "cs_n" [Pins ["A2"]; Misc "PULLUP"];
    Subsignal "clk" [Pins ["A3"]];
    Subsignal "mosi" [Pins ["B3"]];
    Subsignal "miso" [Pins ["B4"]; Misc "PULLUP"];
    IOStandard "SDIO"]);
  ("audio", Nr 0, [
    Subsignal "l" [Pins ["R7"]; Misc "SLEW=SLOW"];
    Subsignal "r" [Pins ["T7"]; Misc "SLEW=SLOW"];
    IOStandard "LVTTL"]);
  ("pmod", Nr 0, [Subsignal "d" [Pins ["D9 C8 D6 C4 B11 C9 D8 C6"]]; IOStandard "LVTTL"]);
  ("ddram_clock", Nr 0, [
    Subsignal "p" [Pins ["G3"]];
    Subsignal "n" [Pins ["G1"]];
    IOStandard "MOBILE_DDR"]);
  ("ddram", Nr 0, [
    Subsignal "a" [Pins ["J7 J6 H5 L7 F3 H4 H3 H6 D2 D1 F4 D3 G6"]];
    Subsignal "ba" [Pins ["F2 F1"]];
    Subsignal "cke" [Pins ["H7"]];
    Subsignal "ras_n" [Pins ["L5"]];
    Subsignal "cas_n" [Pins ["K5"]];
    Subsignal "we_n" [Pins ["E3"]];
    Subsignal "dq" [Pins ["L2 L1 K2 K1 H2 H1 J3 J1 M3 M1 N2 N1 T2 T1 U2 U1"]];
    Subsignal "dqs" [Pins ["L4 P2"]];
    Subsignal "dm" [Pins ["K3 K4"]];
    IOStandard "MOBILE_DDR"])
].

Definition pipistrello_connectors : list (string * connector) := [
  ("A", ConnPins "U18 T17 P17 P16 N16 N17 M16 L15 L17 K15 K17 J16 H15 H18 F18 D18");
  ("B", ConnPins "C18 E18 G18 H16 J18 K18 K16 L18 L16 M18 N18 N15 P15 P18 T18 U17");
  ("C", ConnPins "F17 F16 E16 G16 F15 G14 F14 H14 H13 J13 G13 H12 K14 K13 K12 L12")
].

Definition pipistrello : Platform := {|
  name := Some "pipistrello"; default_clk_name := "clk50"; default_clk_period := ns 20 1;
  gateware_size := Some 0x200000; spiflash_model := Some "n25q128";
  spiflash_read_dummy_bits := Some 10; spiflash_clock_div := Some 4;
  spiflash_total_size := Some (((128 / 8) * 1024) * 1024);
  spiflash_page_size := Some 256; spiflash_sector_size := Some 0x10000;
  io := pipistrello_io |}.

(** ** [platforms/saturn.py] *)

Definition saturn_io : list resource := [
  ("clk100", Nr 0, [Pins ["V10"]; IOStandard "LVTTL"]);
  ("serial", Nr 0, [
    Subsignal "tx" [Pins ["L18"]];
    Subsignal "rx" [Pins ["L17"]; Misc "PULLUP"];
    Subsignal "cts" [Pins ["M16"]; Misc "PULLUP"];
    Subsignal "rts" [Pins ["M18"]; Misc "PULLUP"];
    IOStandard "LVTTL"]);
  ("usb_fifo", Nr 0, [
    Subsignal "data" [Pins ["L17 L18 M16 M18 N17 N18 P17 P18"]];
    Subsignal "rxf_n" [Pins ["K18"]];
    Subsignal "txe_n" [Pins ["K17"]];
    Subsignal "rd_n" [Pins ["J18"]];
    Subsignal "wr_n" [Pins ["J16"]];
    Subsignal "siwua" [Pins ["H18"]];
    IOStandard "LVTTL"]);
  ("spiflash", Nr 0, [
    Subsignal "cs_n" [Pins ["V3"]];
    Subsignal "clk" [Pins ["R15"]];
    Subsignal "mosi" [Pins ["R13"]];
    Subsignal "miso" [Pins ["T13"]; Misc "PULLUP"];
    IOStandard "LVCMOS33";
    Misc "SLEW=FAST"]);
  ("ddram_clock", Nr 0, [
    Subsignal "p" [Pins ["G3"]];
    Subsignal "n" [Pins ["G1"]];
    IOStandard "MOBILE_DDR"]);
  ("ddram", Nr 0, [
    Subsignal "a" [Pins ["J7 J6 H5 L7 F3 H4 H3 H6 D2 D1 F4 D3 G6"]];
    Subsignal "ba" [Pins ["F2 F1"]];
    Subsignal "cke" [Pins ["H7"]];
    Subsignal "ras_n" [Pins ["L5"]];
    Subsignal "cas_n" [Pins ["K5"]];
    Subsignal "we_n" [Pins ["E3"]];
    Subsignal "dq" [Pins ["L2 L1 K2 K1 H2 H1 J3 J1 M3 M1 N2 N1 T2 T1 U2 U1"]];
    Subsignal "dqs" [Pins ["L4 P2"]];
    Subsignal "dm" [Pins ["K3 K4"]];
    IOStandard "MOBILE_DDR"])
].

Definition saturn_connectors : list (string * connector) := [
  ("P3", ConnPins "G13 H12 K14 J13 H16 H15 H14 H13 G14 F14 G18 G16 F16 F15 F18F17 E18 E16 D18 D17 C18 C17 A16 B16 A15 C15 C14 D14 A14 B14E13 F13 A13 C13 A12 B12 C11 D11 A11 B11 A10 C10 F9 G9 C9 D9A9 B9 C8 D8 A8 B8 A7 C7 A6 B6 C6 D6 A5 C5 A4 B4 A3 B3 A2 B2");
  ("P2", ConnPins "K12 K13 L14 M13 M14 N14 L12 L13 L15 L16 K15 K16 N15 N16 T17T18 P15 P16 U16 V16 U17 U18 T14 V14 U15 V15 T12 V12 U13 V13R11 T11 M11 N11 N10 P11 U11 V11 R10 T10 M10 N9 T9 V9 R8 T8N7 P8 M8 N8 U7 V7 U8 V8 R7 T7 N6 P7 N5 P6 T6 V6 R5 T5 U5V5 R3 T3 T4 V4")
].

Definition saturn : Platform := {|
  name := None; default_clk_name := "clk100"; default_clk_period := ns 10 1;
  gateware_size := None; spiflash_model := None;
  spiflash_read_dummy_bits := None; spiflash_clock_div := None;
  spiflash_total_size := None;
  spiflash_page_size := None; spiflash_sector_size := None;
  io := saturn_io |}.

(** ** [platforms/waxwing.py] *)

Definition waxwing_io_1 : list resource := [
  ("clk100", Nr 0, [Pins ["V10"]; IOStandard "LVTTL"]);
  ("serial", Nr 0, [
    Subsignal "tx" [Pins ["M11"]];
    Subsignal "rx" [Pins ["N11"]];
    IOStandard "LVTTL"]);
  ("usb_fifo", Nr 0, [
    Subsignal "data" [Pins ["N11 M11 T14 V14 N18 N17 V11 U11"]];
    Subsignal "rxf_n" [Pins ["V13"]];
    Subsignal "txe_n" [Pins ["U13"]];
    Subsignal "rd_n" [Pins ["V15"]];
    Subsignal "wr_n" [Pins ["U15"]];
    Subsignal "siwua" [Pins ["T17"]];
    IOStandard "LVTTL"]);
  ("spiflash", Nr 0, [
    Subsignal "cs_n" [Pins ["V3"]];
    Subsignal "clk" [Pins ["R15"]];
    Subsignal "mosi" [Pins ["R13"]];
    Subsignal "miso" [Pins ["T13"]; Misc "PULLUP"];
    IOStandard "LVCMOS33";
    Misc "SLEW=FAST"]);
  ("ddram_clock", Nr 0, [
    Subsignal "p" [Pins ["G3"]];
    Subsignal "n" [Pins ["G1"]];
    IOStandard "MOBILE_DDR"]);
  ("ddram", Nr 0, [
    Subsignal "a" [Pins ["J7 J6 H5 L7 F3 H4 H3 H6 D2 D1 F4 D3 G6"]];
    Subsignal "ba" [Pins ["F2 F1"]];
    Subsignal "cke" [Pins ["H7"]];
    Subsignal "ras_n" [Pins ["L5"]];
    Subsignal "cas_n" [Pins ["K5"]];
    Subsignal "we_n" [Pins ["E3"]];
    Subsignal "dq" [Pins ["L2 L1 K2 K1 H2 H1 J3 J1 M3 M1 N2 N1 T2 T1 U2 U1"]];
    Subsignal "dqs" [Pins ["L4 P2"]];
    Subsignal "dm" [Pins ["K3 K4"]];
    IOStandard "MOBILE_DDR"]);
  ("user_sw", Nr 0, [Pins ["L17"]; IOStandard "LVCMOS33"; Misc "PULLUP"]);
  ("user_sw", Nr 1, [Pins ["C18"]; IOStandard "LVCMOS33"; Misc "PULLUP"]);
  ("user_sw", Nr 2, [Pins ["C17"]; IOStandard "LVCMOS33"; Misc "PULLUP"]);
  ("user_sw", Nr 3, [Pins ["G14"]; IOStandard "LVCMOS33"; Misc "PULLUP"]);
  ("user_btn", Nr 0, [Pins ["F14"]; IOStandard "LVCMOS33"; Misc "PULLUP"]);
  ("user_btn", Nr 1, [Pins ["A14"]; IOStandard "LVCMOS33"; Misc "PULLUP"]);
  ("user_btn", Nr 2, [Pins ["T6"]; IOStandard "LVCMOS33"; Misc "PULLUP"]);
  ("user_btn", Nr 3, [Pins ["R5"]; IOStandard "LVCMOS33"; Misc "PULLUP"]);
  ("user_btn", Nr 4, [Pins ["B14"]; IOStandard "LVCMOS33"; Misc "PULLUP"]);
  ("user_btn", Nr 5, [Pins ["V6"]; IOStandard "LVCMOS33"; Misc "PULLUP"]);
  ("user_btn", Nr 6, [Pins ["T5"]; IOStandard "LVCMOS33"; Misc "PULLUP"]);
  ("vga_out", Nr 0, [
    Subsignal "hsync_n" [Pins ["U8"]; IOStandard "LVCMOS33"; Misc "SLEW=FAST"];
    Subsignal "vsync_n" [Pins ["V8"]; IOStandard "LVCMOS33"; Misc "SLEW=FAST"];
    Subsignal "r" [Pins ["M8 R11 T11"]; IOStandard "LVCMOS33"; Misc "SLEW=FAST"];
    Subsignal "g" [Pins ["N7 P8 N8"]; IOStandard "LVCMOS33"; Misc "SLEW=FAST"];
    Subsignal "b" [Pins ["P7 N6"]; IOStandard "LVCMOS33"; Misc "SLEW=FAST"]]);
  ("sevenseg", Nr 0, [
    Subsignal "segment7" [Pins ["L18"]; IOStandard "LVCMOS33"];
    Subsignal "segment6" [Pins ["F18"]; IOStandard "LVCMOS33"];
    Subsignal "segment5" [Pins ["G18"]; IOStandard "LVCMOS33"];
    Subsignal "segment4" [Pins ["K12"]; IOStandard "LVCMOS33"];
    Subsignal "segment3" [Pins ["K13"]; IOStandard "LVCMOS33"];
    Subsignal "segment2" [Pins ["L16"]; IOStandard "LVCMOS33"];
    Subsignal "segment1" [Pins ["L15"]; IOStandard "LVCMOS33"];
    Subsignal "segment0" [Pins ["G16"]; IOStandard "LVCMOS33"];
    Subsignal "enable0" [Pins ["F17"]; IOStandard "LVCMOS33"];
    Subsignal "enable1" [Pins ["L14"]; IOStandard "LVCMOS33"];
    Subsignal "enable2" [Pins ["M13"]; IOStandard "LVCMOS33"]]);
  ("mmc", Nr 0, [
    Subsignal "dat" [Pins ["N10 P11 R8 T8"]; IOStandard "LVCMOS33"; Misc "SLEW=FAST"];
    Subsignal "cmd" [Pins ["T9"]; IOStandard "LVCMOS33"; Misc "SLEW=FAST"];
    Subsignal "clk" [Pins ["V9"]; IOStandard "LVCMOS33"; Misc "SLEW=FAST"]]);
  ("eth_clocks", Nr 0, [
    Subsignal "tx" [Pins ["R10"]];
    Subsignal "rx" [Pins ["T10"]];
    IOStandard "LVCMOS33"]);
  ("eth", Nr 0, [
    Subsignal "rst_n" [Pins ["P18"]];
    Subsignal "mdio" [Pins ["V16"]];
    Subsignal "mdc" [Pins ["T18"]];
    Subsignal "rx_dv" [Pins ["N14"]];
    Subsignal "rx_er" [Pins ["P16"]];
    Subsignal "rx_data" [Pins ["U17 U18 M18 M16"]];
    Subsignal "tx_en" [Pins ["M14"]];
    Subsignal "tx_data" [Pins ["N16 N15 V12 T12"]];
    Subsignal "col" [Pins ["U16"]];
    Subsignal "crs" [Pins ["P17"]];
    IOStandard "LVCMOS33"]);
  ("hdmi_out", Nr 0, [
    Subsignal "clk_p" [Pins ["C10"]; IOStandard "TMDS_33"];
    Subsignal "clk_n" [Pins ["A10"]; IOStandard "TMDS_33"];
    Subsignal "data0_p" [Pins ["C7"]; IOStandard "TMDS_33"];
    Subsignal "data0_n" [Pins ["A7"]; IOStandard "TMDS_33"];
    Subsignal "data1_p" [Pins ["B8"]; IOStandard "TMDS_33"];
    Subsignal "data1_n" [Pins ["A8"]; IOStandard "TMDS_33"];
    Subsignal "data2_p" [Pins ["D8"]; IOStandard "TMDS_33"];
    Subsignal "data2_n" [Pins ["C8"]; IOStandard "TMDS_33"];
    Subsignal "scl" [Pins ["C6"]; IOStandard "I2C"];
    Subsignal "sda" [Pins ["D6"]; IOStandard "I2C"];
    Subsignal "hpd_notif" [Pins ["D14"]; IOStandard "LVCMOS33"]])
].

Definition waxwing_io_2 : list resource := [
  ("ac97", Nr 0, [
    Subsignal "sdo" [Pins ["B9"]; IOStandard "LVCMOS33"];
    Subsignal "bit_clk" [Pins ["C9"]; IOStandard "LVCMOS33"];
    Subsignal "sdi" [Pins ["A9"]; IOStandard "LVCMOS33"];
    Subsignal "sync" [Pins ["D9"]; IOStandard "LVCMOS33"];
    Subsignal "reset" [Pins ["C13"]; IOStandard "LVCMOS33"]])
].

Definition waxwing_io : list resource := (waxwing_io_1 ++ waxwing_io_2)%list.

Definition waxwing_connectors : list (string * connector) := [
  ("P3", ConnPins "F15 F16 E16 E18 B12 A12 B11 A11");
  ("P4", ConnPins "B6 A6 D11 C11 H15 H16 F13 E13");
  ("P5", ConnPins "B4 A4 C5 A5 B3 A3 B2 A2")
].

Definition waxwing : Platform := {|
  name := None; default_clk_name := "clk100"; default_clk_period := ns 10 1;
  gateware_size := None; spiflash_model := None;
  spiflash_read_dummy_bits := None; spiflash_clock_div := None;
  spiflash_total_size := None;
  spiflash_page_size := None; spiflash_sector_size := None;
  io := waxwing_io |}.
