(* ===== verification/PlatformAtlys.v ===== *)
(** * The Atlys board

    [platforms/atlys.py]. The I/O standard of bank 2 depends on a jumper: the
    module keeps a mutable object for it and resolves it when a [Platform] is
    made, which also extends the module's list of resources. Both are state,
    threaded through [init]. *)
From S2P Require Import Prelude PyStr Platform.

#[local] Open Scope string_scope.

(** ** [DynamicLVCMOS] *)

(** [None]: no level set yet. *)
Definition DynamicLVCMOS : Type := option string.

Definition lvcmos_set (value : string) : result DynamicLVCMOS :=
  match getitem [("VCC2V5", "LVCMOS25"); ("VCC3V3", "LVCMOS33")] value with
  | Some l => Ok (Some l)
  | None => Raise KeyError
  end.

Definition lvcmos_str (d : DynamicLVCMOS) : result string :=
  match d with
  | Some l => if truthy l then Ok l else Raise AssertionError
  | None => Raise AssertionError
  end.

(** [__add__] and [__radd__]. *)
Definition lvcmos_add (d : DynamicLVCMOS) (o : string) : result string := s ← lvcmos_str d; Ok (s +++ o).
Definition lvcmos_radd (o : string) (d : DynamicLVCMOS) : result string := s ← lvcmos_str d; Ok (o +++ s).

Definition LVCMOS_BANK0 : string := "LVCMOS33".
Definition LVCMOS_BANK1 : string := "LVCMOS33".
Definition LVCMOS_BANK3 : string := "LVCMOS18".

(** ** The resources, for a level of bank 2 *)

Definition atlys_io_1 (LVCMOS_BANK2 : string) : list resource := [
  ("clk100", Nr 0, [Pins ["L15"]; IOStandard LVCMOS_BANK1]);
  ("cpu_reset", Nr 0, [Pins ["T15"]; IOStandard LVCMOS_BANK2]);
  ("fx2", Nr 0, [
    Subsignal "ifclk" [Pins ["C10"]];
    Subsignal "data" [Pins ["A2 D6 C6 B3 A3 B4 A4 C5"]];
    Subsignal "addr" [Pins ["A14 B14"]; Misc "DRIVE=12"];
    Subsignal "flaga" [Pins ["B9"]; Misc "DRIVE=12"];
    Subsignal "flagb" [Pins ["A9"]; Misc "DRIVE=12"];
    Subsignal "flagc" [Pins ["C15"]; Misc "DRIVE=12"];
    Subsignal "rd_n" [Pins ["F13"]; Misc "DRIVE=12"];
    Subsignal "wr_n" [Pins ["E13"]];
    Subsignal "oe_n" [Pins ["A15"]; Misc "DRIVE=12"];
    Subsignal "cs_n" [Pins ["B2"]];
    Subsignal "pktend_n" [Pins ["C4"]; Misc "DRIVE=12"];
    IOStandard LVCMOS_BANK0]);
  ("spiflash4x", Nr 0, [
    Subsignal "cs_n" [Pins ["V3"]];
    Subsignal "clk" [Pins ["R15"]];
    Subsignal "dq" [Pins ["T13"; "R13"; "T14"; "V14"]];
    IOStandard LVCMOS_BANK2;
    Misc "SLEW=FAST"]);
  ("user_led", Nr 0, [Pins ["U18"]; IOStandard LVCMOS_BANK1]);
  ("user_led", Nr 1, [Pins ["M14"]; IOStandard LVCMOS_BANK1]);
  ("user_led", Nr 2, [Pins ["N14"]; IOStandard LVCMOS_BANK1]);
  ("user_led", Nr 3, [Pins ["L14"]; IOStandard LVCMOS_BANK1]);
  ("user_led", Nr 4, [Pins ["M13"]; IOStandard LVCMOS_BANK1]);
  ("user_led", Nr 5, [Pins ["D4"]; IOStandard LVCMOS_BANK0]);
  ("user_led", Nr 6, [Pins ["P16"]; IOStandard LVCMOS_BANK1]);
  ("user_led", Nr 7, [Pins ["N12"]; IOStandard LVCMOS_BANK2]);
  ("user_btn", Nr 0, [Pins ["N4"]; IOStandard LVCMOS_BANK3]);
  ("user_btn", Nr 1, [Pins ["P4"]; IOStandard LVCMOS_BANK3]);
  ("user_btn", Nr 2, [Pins ["P3"]; IOStandard LVCMOS_BANK3]);
  ("user_btn", Nr 3, [Pins ["F6"]; IOStandard LVCMOS_BANK3]);
  ("user_btn", Nr 4, [Pins ["F5"]; IOStandard LVCMOS_BANK3]);
  ("user_sw", Nr 0, [Pins ["A10"]; IOStandard LVCMOS_BANK0]);
  ("user_sw", Nr 1, [Pins ["D14"]; IOStandard LVCMOS_BANK0]);
  ("user_sw", Nr 2, [Pins ["C14"]; IOStandard LVCMOS_BANK0]);
  ("user_sw", Nr 3, [Pins ["P15"]; IOStandard LVCMOS_BANK1]);
  ("user_sw", Nr 4, [Pins ["P12"]; IOStandard LVCMOS_BANK2]);
  ("user_sw", Nr 5, [Pins ["R5"]; IOStandard LVCMOS_BANK2]);
  ("user_sw", Nr 6, [Pins ["T5"]; IOStandard LVCMOS_BANK2]);
  ("user_sw", Nr 7, [Pins ["E4"]; IOStandard LVCMOS_BANK3]);
  ("eth_clocks", Nr 0, [
    Subsignal "tx" [Pins ["K16"]];
    Subsignal "gtx" [Pins ["L12"]];
    Subsignal "rx" [Pins ["K15"]];
    IOStandard LVCMOS_BANK1])
].

Definition atlys_io_2 (LVCMOS_BANK2 : string) : list resource := [
  ("eth", Nr 0, [
    Subsignal "rst_n" [Pins ["G13"]];
    Subsignal "int_n" [Pins ["L16"]];
    Subsignal "mdio" [Pins ["N17"]];
    Subsignal "mdc" [Pins ["F16"]];
    Subsignal "rx_dv" [Pins ["F17"]];
    Subsignal "rx_er" [Pins ["F18"]];
    Subsignal "rx_data" [Pins ["G16 H14 E16 F15 F14 E18 D18 D17"]];
    Subsignal "tx_en" [Pins ["H15"]];
    Subsignal "tx_er" [Pins ["G18"]];
    Subsignal "tx_data" [Pins ["H16 H13 K14 K13 J13 G14 H12 K12"]];
    Subsignal "col" [Pins ["C17"]];
    Subsignal "crs" [Pins ["C18"]];
    IOStandard LVCMOS_BANK1]);
  ("ddram_clock", Nr 0, [
    Subsignal "p" [Pins ["G3"]];
    Subsignal "n" [Pins ["G1"]];
    IOStandard "DIFF_SSTL18_II";
    Misc "IN_TERM=NONE"]);
  ("ddram", Nr 0, [
    Subsignal "cke" [Pins ["H7"]; IOStandard "SSTL18_II"];
    Subsignal "ras_n" [Pins ["L5"]; IOStandard "SSTL18_II"];
    Subsignal "cas_n" [Pins ["K5"]; IOStandard "SSTL18_II"];
    Subsignal "we_n" [Pins ["E3"]; IOStandard "SSTL18_II"];
    Subsignal "ba" [Pins ["F2 F1 E1"]; IOStandard "SSTL18_II"];
    Subsignal "a" [Pins ["J7 J6 H5 L7 F3 H4 H3 H6 D2 D1 F4 D3 G6"]; IOStandard "SSTL18_II"];
    Subsignal "dq" [Pins ["L2 L1 K2 K1 H2 H1 J3 J1"; "M3 M1 N2 N1 T2 T1 U2 U1"]; IOStandard "SSTL18_II"];
    Subsignal "dqs" [Pins ["P2 L4"]; IOStandard "DIFF_SSTL18_II"];
    Subsignal "dqs_n" [Pins ["P1 L3"]; IOStandard "DIFF_SSTL18_II"];
    Subsignal "dm" [Pins ["K4 K3"]; IOStandard "SSTL18_II"];
    Subsignal "odt" [Pins ["K6"]; IOStandard "SSTL18_II"]])
].

Definition atlys_io_3 (LVCMOS_BANK2 : string) : list resource := [
  ("hdmi_out", Nr 0, [
    Subsignal "clk_p" [Pins ["B6"]; IOStandard "TMDS_33"];
    Subsignal "clk_n" [Pins ["A6"]; IOStandard "TMDS_33"];
    Subsignal "data0_p" [Pins ["D8"]; IOStandard "TMDS_33"];
    Subsignal "data0_n" [Pins ["C8"]; IOStandard "TMDS_33"];
    Subsignal "data1_p" [Pins ["C7"]; IOStandard "TMDS_33"];
    Subsignal "data1_n" [Pins ["A7"]; IOStandard "TMDS_33"];
    Subsignal "data2_p" [Pins ["B8"]; IOStandard "TMDS_33"];
    Subsignal "data2_n" [Pins ["A8"]; IOStandard "TMDS_33"];
    Subsignal "scl" [Pins ["D9"]; IOStandard "I2C"];
    Subsignal "sda" [Pins ["C9"]; IOStandard "I2C"]]);
  ("hdmi_in", Nr 0, [
    Subsignal "clk_p" [Pins ["D11"]];
    Subsignal "clk_n" [Pins ["C11"]];
    Subsignal "data0_p" [Pins ["G9"]];
    Subsignal "data0_n" [Pins ["F9"]];
    Subsignal "data1_p" [Pins ["B11"]];
    Subsignal "data1_n" [Pins ["A11"]];
    Subsignal "data2_p" [Pins ["B12"]];
    Subsignal "data2_n" [Pins ["A12"]];
    Subsignal "scl" [Pins ["C13"]; IOStandard LVCMOS_BANK0];
    Subsignal "sda" [Pins ["A13"]; IOStandard LVCMOS_BANK0]]);
  ("hdmi_in", Nr 1, [
    Subsignal "clk_p" [Pins ["H17"]];
    Subsignal "clk_n" [Pins ["H18"]];
    Subsignal "data0_p" [Pins ["K17"]];
    Subsignal "data0_n" [Pins ["K18"]];
    Subsignal "data1_p" [Pins ["L17"]];
    Subsignal "data1_n" [Pins ["L18"]];
    Subsignal "data2_p" [Pins ["J16"]];
    Subsignal "data2_n" [Pins ["J18"]];
    Subsignal "scl" [Pins ["M16"]; IOStandard LVCMOS_BANK1];
    Subsignal "sda" [Pins ["M18"]; IOStandard LVCMOS_BANK1]]);
  ("serial", Nr 0, [
    Subsignal "rx" [Pins ["A16"]; IOStandard "LVCMOS33"];
    Subsignal "tx" [Pins ["B16"]; IOStandard "LVCMOS33"]])
].

Definition atlys_io (LVCMOS_BANK2 : string) : list resource := (atlys_io_1 LVCMOS_BANK2 ++ atlys_io_2 LVCMOS_BANK2 ++ atlys_io_3 LVCMOS_BANK2)%list.

Definition _io_vccb2_3v3 : list resource := [
  ("hdmi_out", Nr 1, [
    Subsignal "clk_p" [Pins ["T9"]; IOStandard "TMDS_33"];
    Subsignal "clk_n" [Pins ["V9"]; IOStandard "TMDS_33"];
    Subsignal "data0_p" [Pins ["R3"]; IOStandard "TMDS_33"];
    Subsignal "data0_n" [Pins ["T3"]; IOStandard "TMDS_33"];
    Subsignal "data1_p" [Pins ["T4"]; IOStandard "TMDS_33"];
    Subsignal "data1_n" [Pins ["V4"]; IOStandard "TMDS_33"];
    Subsignal "data2_p" [Pins ["N5"]; IOStandard "TMDS_33"];
    Subsignal "data2_n" [Pins ["P6"]; IOStandard "TMDS_33"]])
].

Definition _io_vccb2_2v5 : list resource := [].

Definition atlys_connectors : list (string * connector) := [
  ("VHDCI", ConnMap [
    ("EXP-IO1_P", "U16");
    ("EXP-IO2_P", "U15");
    ("EXP-IO3_P", "U13");
    ("EXP-IO4_P", "M11");
    ("EXP-IO5_P", "R11");
    ("EXP-IO6_P", "T12");
    ("EXP-IO7_P", "N10");
    ("EXP-IO8_P", "M10");
    ("EXP-IO9_P", "U11");
    ("EXP-IO10_P", "R10");
    ("EXP-IO11_P", "U10");
    ("EXP-IO12_P", "R8");
    ("EXP-IO13_P", "M8");
    ("EXP-IO14_P", "U8");
    ("EXP-IO15_P", "U7");
    ("EXP-IO16_P", "N7");
    ("EXP-IO17_P", "T6");
    ("EXP-IO18_P", "R7");
    ("EXP-IO19_P", "N6");
    ("EXP-IO20_P", "U5");
    ("EXP-IO1_N", "V16");
    ("EXP-IO2_N", "V15");
    ("EXP-IO3_N", "V13");
    ("EXP-IO4_N", "N11");
    ("EXP-IO5_N", "T11");
    ("EXP-IO6_N", "V12");
    ("EXP-IO7_N", "P11");
    ("EXP-IO8_N", "N9");
    ("EXP-IO9_N", "V11");
    ("EXP-IO10_N", "T10");
    ("EXP-IO11_N", "V10");
    ("EXP-IO12_N", "T8");
    ("EXP-IO13_N", "N8");
    ("EXP-IO14_N", "V8");
    ("EXP-IO15_N", "V7");
    ("EXP-IO16_N", "P8");
    ("EXP-IO17_N", "V6");
    ("EXP-IO18_N", "T7");
    ("EXP-IO19_N", "P7");
    ("EXP-IO20_N", "V5")])
].

(** ** The platform *)

(** The class attributes; [init] supplies the resources. *)
Definition atlys_attributes : Platform := {|
  name := Some "atlys"; default_clk_name := "clk100"; default_clk_period := ns 10 1;
  gateware_size := Some 0x200000; spiflash_model := Some "n25q128";
  spiflash_read_dummy_bits := Some 10; spiflash_clock_div := Some 4;
  spiflash_total_size := Some (((128 / 8) * 1024) * 1024);
  spiflash_page_size := Some 256; spiflash_sector_size := Some 0x10000;
  io := [] |}.

Definition with_io (p : Platform) (l : list resource) : Platform := {|
  name := name p; default_clk_name := default_clk_name p; default_clk_period := default_clk_period p;
  gateware_size := gateware_size p; spiflash_model := spiflash_model p;
  spiflash_read_dummy_bits := spiflash_read_dummy_bits p; spiflash_clock_div := spiflash_clock_div p;
  spiflash_total_size := spiflash_total_size p;
  spiflash_page_size := spiflash_page_size p; spiflash_sector_size := spiflash_sector_size p;
  io := l |}.

(** The module's mutable state: what has been added to [_io], and
    [LVCMOS_BANK2]. *)
Record AtlysModule := { extended : list resource; LVCMOS_BANK2 : DynamicLVCMOS }.

Definition loaded : AtlysModule := {| extended := []; LVCMOS_BANK2 := None |}.

Definition init (vccb2_voltage : string) (st : AtlysModule) : result (Platform * AtlysModule) :=
  more ← (if String.eqb vccb2_voltage "VCC3V3" then Ok _io_vccb2_3v3
          else if String.eqb vccb2_voltage "VCC2V5" then Ok _io_vccb2_2v5
          else Raise SystemError);
  level ← lvcmos_set vccb2_voltage;
  standard ← lvcmos_str level;
  let st' := {| extended := extended st ++ more; LVCMOS_BANK2 := level |} in
  Ok (with_io atlys_attributes (atlys_io standard ++ extended st')%list, st').

(** The first platform made with the default jumper setting. *)
Definition atlys : Platform := with_io atlys_attributes (atlys_io "LVCMOS33" ++ _io_vccb2_3v3)%list.

Lemma init_default : exists st, init "VCC3V3" loaded = Ok (atlys, st).
Proof. eexists. vm_compute. reflexivity. Qed.

(** Another voltage is refused. *)
Lemma init_unknown v st :
  v <> "VCC3V3" -> v <> "VCC2V5" -> init v st = Raise SystemError.
Proof. intros H1 H2. unfold init. by destruct (String.eqb_spec v "VCC3V3"), (String.eqb_spec v "VCC2V5"). Qed.

(** A second platform lists the Micro-D connector twice: the module's list
    keeps what the first one added. *)
Example second_platform_duplicates :
  match init "VCC3V3" loaded with
  | Ok (_, st) =>
      match init "VCC3V3" st with
      | Ok (p, _) => length (List.filter (fun r => String.eqb (res_name r) "hdmi_out" &&
                               match res_number r with Nr z => (z =? 1)%Z | NotNr _ => false end) (io p))
      | Raise _ => 0%nat
      end
  | Raise _ => 0%nat
  end = 2%nat.
Proof. vm_compute. reflexivity. Qed.
