(* ===== verification/PlatformOpsis.v ===== *)
(** * The Opsis board and its TOFE expansion connector

    [platforms/opsis.py], [platforms/tofe_lowspeedio.py] and
    [platforms/tofe_axiom.py]: the connector's nets and their FPGA pins, the
    expansion boards' nets on it, and the Opsis resources, some of which are
    computed from those tables when the module is loaded. An expression that
    would raise there appears as [the e I]: it type checks only because [e]
    has a value. *)
From S2P Require Import Prelude PyStr Platform.

#[local] Open Scope string_scope.

(** ** The LowSpeedIO expansion board *)

Definition _tofe_low_speed_io : list (string * string) := [
  ("tx", "diff_io_xp");
  ("rx", "diff_io_xn");
  ("led1", "diff_io_a5p");
  ("led2", "diff_io_a5n");
  ("led3", "diff_io_b6n");
  ("led4", "diff_io_a6p");
  ("sw1", "diff_clk_b0p");
  ("sw2", "diff_clk_b1n");
  ("sw3", "diff_clk_a1p");
  ("sw4", "diff_clk_a1n");
  ("gpio0_n", "diff_io_a0n");
  ("gpio0_p", "diff_io_a0p");
  ("gpio1_n", "diff_io_b0n");
  ("gpio1_p", "diff_io_b0p");
  ("gpio2_n", "diff_clk_xn");
  ("gpio2_p", "diff_clk_xp");
  ("gpio3_n", "diff_io_a1n");
  ("gpio3_p", "diff_io_a1p");
  ("gpio4_n", "diff_io_a2n");
  ("gpio4_p", "diff_io_a2p");
  ("gpio5_n", "diff_io_a3n");
  ("gpio5_p", "diff_io_a3p");
  ("gpio6_n", "diff_clk_a0n");
  ("gpio6_p", "diff_clk_a0p");
  ("gpio7_n", "diff_io_a4n");
  ("gpio7_p", "diff_io_a4p");
  ("d0", "diff_io_yn");
  ("d1", "diff_io_b1p");
  ("d2", "diff_io_b1n");
  ("d3", "diff_io_b2p");
  ("d4", "diff_io_b2n");
  ("d5", "diff_io_yp");
  ("d6", "diff_io_b3n");
  ("d7", "diff_io_b3p");
  ("d8", "diff_clk_b0n");
  ("d9", "diff_clk_b0p");
  ("d10", "diff_io_zn");
  ("d11", "diff_io_zp");
  ("d12", "diff_io_b4p");
  ("d13", "diff_io_b4n");
  ("d14", "diff_io_b5n");
  ("d15", "diff_io_b6p")
].

Definition tofe_low_speed_io (lowspeedio_netname : string) : option string :=
  getitem _tofe_low_speed_io lowspeedio_netname.

Definition _tofe_low_speed_pmod_io : list (string * list (Z * string)) := [
  ("p1", [(1, "gpio0_p"); (2, "gpio1_p"); (3, "gpio2_p"); (4, "gpio3_n"); (7, "gpio0_n"); (8, "gpio1_n"); (9, "gpio2_n"); (10, "gpio3_p")]);
  ("p2", [(1, "gpio4_p"); (2, "gpio4_n"); (3, "gpio5_p"); (4, "gpio5_n"); (7, "gpio6_p"); (8, "gpio6_n"); (9, "gpio7_p"); (10, "gpio7_n")]);
  ("p3", [(1, "d9"); (2, "d11"); (3, "d13"); (4, "d15"); (7, "d8"); (8, "d10"); (9, "d12"); (10, "d14")]);
  ("p4", [(1, "d1"); (2, "d3"); (3, "d5"); (4, "d7"); (7, "d0"); (8, "d2"); (9, "d4"); (10, "d6")])
].

Definition getpin (d : list (Z * string)) (pin : Z) : option string :=
  snd <$> find (fun kv : Z * string => (fst kv =? pin)%Z) d.

Definition tofe_low_speed_pmod_io (pmod_name : string) (pin : Z) : option string :=
  pmod ← getitem _tofe_low_speed_pmod_io pmod_name;
  net ← getpin pmod pin;
  tofe_low_speed_io net.

(** ** The Axiom adapter *)

Definition _tofe_axiom_north : list (string * string) := [
  ("sda", "diff_clk_b1p");
  ("scl", "diff_clk_b1n");
  ("io0", "diff_clk_xp");
  ("io1", "diff_io_b6n");
  ("io2", "diff_io_b6p");
  ("io3", "diff_io_zn");
  ("io4", "diff_io_yn");
  ("io5", "diff_io_xn");
  ("io6", "diff_io_b0n");
  ("io7", "diff_io_b0p");
  ("lvds_0p", "diff_io_b1p");
  ("lvds_0n", "diff_io_b1n");
  ("lvds_1p", "diff_io_b2p");
  ("lvds_1n", "diff_io_b2n");
  ("lvds_2p", "diff_io_b3p");
  ("lvds_2n", "diff_io_b3n");
  ("lvds_3p", "diff_clk_b0p");
  ("lvds_3n", "diff_clk_b0n");
  ("lvds_4p", "diff_io_b4p");
  ("lvds_4n", "diff_io_b4n");
  ("lvds_5p", "diff_io_b5p");
  ("lvds_5n", "diff_io_b5n")
].

Definition _tofe_axiom_south : list (string * string) := [
  ("sda", "diff_clk_a1p");
  ("scl", "diff_clk_a1n");
  ("io0", "diff_clk_xn");
  ("io1", "diff_io_a6n");
  ("io2", "diff_io_a6p");
  ("io3", "diff_io_zp");
  ("io4", "diff_io_yp");
  ("io5", "diff_io_xp");
  ("io6", "diff_io_a0n");
  ("io7", "diff_io_a0p");
  ("lvds_0p", "diff_io_a1p");
  ("lvds_0n", "diff_io_a1n");
  ("lvds_1p", "diff_io_a2p");
  ("lvds_1n", "diff_io_a2n");
  ("lvds_2p", "diff_io_a3p");
  ("lvds_2n", "diff_io_a3n");
  ("lvds_3p", "diff_clk_a0p");
  ("lvds_3n", "diff_clk_a0n");
  ("lvds_4p", "diff_io_a4p");
  ("lvds_4n", "diff_io_a4n");
  ("lvds_5p", "diff_io_a5p");
  ("lvds_5n", "diff_io_a5n")
].

Definition _tofe_axiom : list (string * list (string * string)) :=
  [("north", _tofe_axiom_north); ("south", _tofe_axiom_south)].

(** The keys of [_axiom_3pmod] are LEDs, as pairs, and PMODs; a LED has one
    net of a connector, a PMOD one for each pin. *)
Inductive axiom_key := AxLed (side : string) (i : Z) | AxPmod (side : string).
Inductive axiom_value := AxNet (net : string * string) | AxPins (pins : list (string * (string * string))).

Definition _axiom_3pmod : list (axiom_key * axiom_value) := [
  (AxLed "nled" 0, AxNet ("north", "io0"));
  (AxLed "nled" 1, AxNet ("north", "io1"));
  (AxLed "nled" 2, AxNet ("north", "io2"));
  (AxLed "nled" 3, AxNet ("north", "io3"));
  (AxLed "nled" 4, AxNet ("north", "io4"));
  (AxLed "nled" 5, AxNet ("north", "io5"));
  (AxLed "nled" 6, AxNet ("north", "io6"));
  (AxLed "nled" 7, AxNet ("north", "io7"));
  (AxLed "sled" 0, AxNet ("south", "io0"));
  (AxLed "sled" 1, AxNet ("south", "io1"));
  (AxLed "sled" 2, AxNet ("south", "io2"));
  (AxLed "sled" 3, AxNet ("south", "io3"));
  (AxLed "sled" 4, AxNet ("south", "io4"));
  (AxLed "sled" 5, AxNet ("south", "io5"));
  (AxLed "sled" 6, AxNet ("south", "io6"));
  (AxLed "sled" 7, AxNet ("south", "io7"));
  (AxPmod "psouth", AxPins [
    ("01", ("south", "lvds_2n"));
    ("02", ("south", "lvds_3n"));
    ("03", ("south", "lvds_4n"));
    ("04", ("south", "lvds_5n"));
    ("07", ("south", "lvds_2p"));
    ("08", ("south", "lvds_3p"));
    ("09", ("south", "lvds_4p"));
    ("10", ("south", "lvds_5p"))]);
  (AxPmod "pmiddle", AxPins [
    ("01", ("north", "lvds_5p"));
    ("02", ("north", "lvds_4p"));
    ("03", ("south", "lvds_0p"));
    ("04", ("south", "lvds_1p"));
    ("07", ("north", "lvds_5n"));
    ("08", ("north", "lvds_4n"));
    ("09", ("south", "lvds_0n"));
    ("10", ("south", "lvds_1n"))]);
  (AxPmod "pnorth", AxPins [
    ("01", ("north", "lvds_0n"));
    ("02", ("north", "lvds_1n"));
    ("03", ("north", "lvds_2n"));
    ("04", ("north", "lvds_3n"));
    ("07", ("north", "lvds_0p"));
    ("08", ("north", "lvds_1p"));
    ("09", ("north", "lvds_2p"));
    ("10", ("north", "lvds_3p"))])
].

Definition _axiom_hdmi : list (string * string) := [
  ("io1", "eq0");
  ("io2", "ihp");
  ("io3", "ddet");
  ("io4", "eq1");
  ("io5", "ddc_en");
  ("io6", "oe");
  ("io7", "en");
  ("lvds_0p", "data2_p");
  ("lvds_0n", "data2_n");
  ("lvds_1p", "data1_p");
  ("lvds_1n", "data1_n");
  ("lvds_2p", "data0_p");
  ("lvds_2n", "data0_n");
  ("lvds_3p", "clk_p");
  ("lvds_3n", "clk_n");
  ("lvds_5p", "scl");
  ("lvds_5n", "sda")
].

(** ** The TOFE connector of the Opsis *)

(** The pin of each net, [None] for a net that is not connected. *)
Definition _tofe_io : list (string * option string) := [
  ("diff_clk_a0n", Some "F15");
  ("diff_clk_a0p", Some "F14");
  ("diff_clk_a1n", Some "G9");
  ("diff_clk_a1p", Some "F10");
  ("diff_io_a0n", Some "C18");
  ("diff_io_a0p", Some "D17");
  ("diff_io_a1n", Some "A18");
  ("diff_io_a1p", Some "B18");
  ("diff_io_a2n", Some "G15");
  ("diff_io_a2p", Some "H14");
  ("diff_io_a3n", Some "G13");
  ("diff_io_a3p", Some "H13");
  ("diff_io_a4n", Some "E6");
  ("diff_io_a4p", Some "E5");
  ("diff_io_a5n", Some "A4");
  ("diff_io_a5p", Some "C4");
  ("diff_io_a6n", Some "A2");
  ("diff_io_a6p", Some "B2");
  ("diff_clk_b0p", Some "F16");
  ("diff_clk_b0n", Some "E16");
  ("diff_clk_b1n", Some "G11");
  ("diff_clk_b1p", Some "H12");
  ("diff_io_b0n", Some "A20");
  ("diff_io_b0p", Some "B20");
  ("diff_io_b1n", Some "F17");
  ("diff_io_b1p", Some "G16");
  ("diff_io_b2n", Some "A17");
  ("diff_io_b2p", Some "C17");
  ("diff_io_b3n", Some "H11");
  ("diff_io_b3p", Some "H10");
  ("diff_io_b4n", Some "D5");
  ("diff_io_b4p", Some "D4");
  ("diff_io_b5n", Some "A5");
  ("diff_io_b5p", Some "C5");
  ("diff_io_b6n", Some "A3");
  ("diff_io_b6p", Some "B3");
  ("diff_clk_xn", Some "D19");
  ("diff_clk_xp", Some "D18");
  ("diff_io_xn", Some "A19");
  ("diff_io_xp", Some "C19");
  ("diff_io_yn", Some "F8");
  ("diff_io_yp", Some "F7");
  ("diff_io_zn", Some "F9");
  ("diff_io_zp", Some "G8");
  ("io0", None);
  ("smclk", Some "N6");
  ("smdat", Some "N7");
  ("pcie_reset", Some "D3")
].

(** [None] also when the net has no pin: the callers pass the result to
    [Pins], which needs a string. *)
Definition tofe_pin (tofe_netname : string) : option string :=
  mjoin (getitem _tofe_io tofe_netname).

(** [" ".join(p for n, p in sorted(_tofe_io.items()) if n.endswith(e) and i in n)]. *)
Definition io_pins (e i : string) : option string :=
  join_with " " <$>
  mapM snd (base.filter (fun np => endswith (fst np) e && contains (fst np) i = true) (sorted_items _tofe_io)).

(** ** The resources *)

Definition opsis_io_table_1 : list resource := [
  ("clk100", Nr 0, [Pins ["AB13"]; IOStandard "LVCMOS33"]);
  ("clk27", Nr 0, [Pins ["N19"]; IOStandard "LVCMOS33"]);
  ("cpu_reset", Nr 0, [Pins ["Y3"]; IOStandard "LVCMOS15"; Misc "PULLUP"]);
  ("spiflash4x", Nr 0, [
    Subsignal "cs_n" [Pins ["AA3"]];
    Subsignal "clk" [Pins ["Y20"]];
    Subsignal "dq" [Pins ["AB20"; "AA20"; "R13"; "T14"]];
    IOStandard "LVCMOS33";
    Misc "SLEW=FAST"]);
  ("hdled", Nr 0, [Pins ["J7"]; IOStandard "LVCMOS15"]);
  ("pwled", Nr 0, [Pins ["H8"]; IOStandard "LVCMOS15"]);
  ("pwrsw", Nr 0, [Pins ["F5"]; IOStandard "LVCMOS15"]);
  ("eth_clocks", Nr 0, [
    Subsignal "tx" [Pins ["AB12"]];
    Subsignal "rx" [Pins ["AA12"]];
    IOStandard "LVCMOS33"]);
  ("eth", Nr 0, [
    Subsignal "rst_n" [Pins ["U8"]];
    Subsignal "int_n" [Pins ["V9"]];
    Subsignal "mdio" [Pins ["T8"]];
    Subsignal "mdc" [Pins ["V7"]];
    Subsignal "rx_ctl" [Pins ["U9"]];
    Subsignal "rx_data" [Pins ["R9 R8 W6 Y6"]];
    Subsignal "tx_ctl" [Pins ["W8"]];
    Subsignal "tx_data" [Pins ["W9 Y8 AA6 AB6"]];
    IOStandard "LVCMOS33"]);
  ("opsis_i2c", Nr 0, [
    Subsignal "scl" [Pins ["G6"]; IOStandard "I2C"];
    Subsignal "sda" [Pins ["C1"]; IOStandard "I2C"]]);
  ("ddram_clock", Nr 0, [
    Subsignal "p" [Pins ["K4"]];
    Subsignal "n" [Pins ["K3"]];
    IOStandard "DIFF_SSTL15_II";
    Misc "IN_TERM=NONE"]);
  ("ddram", Nr 0, [
    Subsignal "cke" [Pins ["F2"]; IOStandard "SSTL15_II"];
    Subsignal "ras_n" [Pins ["M5"]; IOStandard "SSTL15_II"];
    Subsignal "cas_n" [Pins ["M4"]; IOStandard "SSTL15_II"];
    Subsignal "we_n" [Pins ["H2"]; IOStandard "SSTL15_II"];
    Subsignal "ba" [Pins ["J3 J1 H1"]; IOStandard "SSTL15_II"];
    Subsignal "a" [Pins ["K2 K1 K5 M6 H3 L4 M3 K6 G3 G1 J4 E1 F1 J6 H5"]; IOStandard "SSTL15_II"];
    Subsignal "dq" [Pins ["R3 R1 P2 P1 L3 L1 M2 M1"; "T2 T1 U3 U1 W3 W1 Y2 Y1"]; IOStandard "SSTL15_II"];
    Subsignal "dqs" [Pins ["N3 V2"]; IOStandard "DIFF_SSTL15_II"];
    Subsignal "dqs_n" [Pins ["N1 V1"]; IOStandard "DIFF_SSTL15_II"];
    Subsignal "dm" [Pins ["N4 P3"]; IOStandard "SSTL15_II"];
    Subsignal "odt" [Pins ["L6"]; IOStandard "SSTL15_II"];
    Subsignal "reset_n" [Pins ["E3"]; IOStandard "LVCMOS15"];
    Misc "SLEW=FAST";
    Misc "VCCAUX_IO=HIGH"]);
  ("hdmi_in", Nr 0, [
    Subsignal "clk_p" [Pins ["L20"]; IOStandard "TMDS_33"];
    Subsignal "clk_n" [Pins ["L22"]; IOStandard "TMDS_33"];
    Subsignal "data0_p" [Pins ["M21"]; IOStandard "TMDS_33"];
    Subsignal "data0_n" [Pins ["M22"]; IOStandard "TMDS_33"];
    Subsignal "data1_p" [Pins ["N20"]; IOStandard "TMDS_33"];
    Subsignal "data1_n" [Pins ["N22"]; IOStandard "TMDS_33"];
    Subsignal "data2_p" [Pins ["P21"]; IOStandard "TMDS_33"];
    Subsignal "data2_n" [Pins ["P22"]; IOStandard "TMDS_33"];
    Subsignal "scl" [Pins ["T21"]; IOStandard "LVCMOS33"];
    Subsignal "sda" [Pins ["R22"]; IOStandard "LVCMOS33"];
    Subsignal "hpd_en" [Pins ["R20"]; IOStandard "LVCMOS33"]]);
  ("hdmi_in", Nr 1, [
    Subsignal "clk_p" [Pins ["M20"]; IOStandard "TMDS_33"];
    Subsignal "clk_n" [Pins ["M19"]; IOStandard "TMDS_33"];
    Subsignal "data0_p" [Pins ["J20"]; IOStandard "TMDS_33"];
    Subsignal "data0_n" [Pins ["J22"]; IOStandard "TMDS_33"];
    Subsignal "data1_p" [Pins ["H21"]; IOStandard "TMDS_33"];
    Subsignal "data1_n" [Pins ["H22"]; IOStandard "TMDS_33"];
    Subsignal "data2_p" [Pins ["K20"]; IOStandard "TMDS_33"];
    Subsignal "data2_n" [Pins ["L19"]; IOStandard "TMDS_33"];
    Subsignal "scl" [Pins ["L17"]; IOStandard "LVCMOS33"];
    Subsignal "sda" [Pins ["T18"]; IOStandard "LVCMOS33"];
    Subsignal "hpd_en" [Pins ["V19"]; IOStandard "LVCMOS33"]]);
  ("debug_io0", Nr 0, [Pins ["AA2"]; IOStandard "LVCMOS15"])
].

Definition opsis_io_table_2 : list resource := [
  ("debug_io1", Nr 0, [Pins ["AA1"]; IOStandard "LVCMOS15"]);
  ("hdmi_out", Nr 0, [
    Subsignal "clk_p" [Pins ["Y11"]; IOStandard "TMDS_33"];
    Subsignal "clk_n" [Pins ["AB11"]; IOStandard "TMDS_33"];
    Subsignal "data0_p" [Pins ["W12"]; IOStandard "TMDS_33"];
    Subsignal "data0_n" [Pins ["Y12"]; IOStandard "TMDS_33"];
    Subsignal "data1_p" [Pins ["AA10"]; IOStandard "TMDS_33"];
    Subsignal "data1_n" [Pins ["AB10"]; IOStandard "TMDS_33"];
    Subsignal "data2_p" [Pins ["Y9"]; IOStandard "TMDS_33"];
    Subsignal "data2_n" [Pins ["AB9"]; IOStandard "TMDS_33"];
    Subsignal "scl" [Pins ["Y7"]; IOStandard "I2C"];
    Subsignal "sda" [Pins ["Y10"]; IOStandard "I2C"];
    Subsignal "hpd_notif" [Pins ["AB7"]; IOStandard "LVCMOS33"]]);
  ("hdmi_out", Nr 1, [
    Subsignal "clk_p" [Pins ["T12"]; IOStandard "TMDS_33"];
    Subsignal "clk_n" [Pins ["U12"]; IOStandard "TMDS_33"];
    Subsignal "data0_p" [Pins ["Y15"]; IOStandard "TMDS_33"];
    Subsignal "data0_n" [Pins ["AB15"]; IOStandard "TMDS_33"];
    Subsignal "data1_p" [Pins ["AA16"]; IOStandard "TMDS_33"];
    Subsignal "data1_n" [Pins ["AB16"]; IOStandard "TMDS_33"];
    Subsignal "data2_p" [Pins ["U14"]; IOStandard "TMDS_33"];
    Subsignal "data2_n" [Pins ["U13"]; IOStandard "TMDS_33"];
    Subsignal "scl" [Pins ["Y17"]; IOStandard "I2C"];
    Subsignal "sda" [Pins ["AB17"]; IOStandard "I2C"];
    Subsignal "hpd_notif" [Pins ["AB18"]; IOStandard "LVCMOS33"]]);
  ("fx2", Nr 0, [
    Subsignal "ifclk" [Pins ["P20"]; IOStandard "LVCMOS33"];
    Subsignal "data" [Pins ["C20 C22 L15 K16 D21 D22 G19 F20 H18 H19 F21 F22 E20 E22 J19 H20"]; IOStandard "LVCMOS33"];
    Subsignal "addr" [Pins ["B21 B22"]; IOStandard "LVCMOS33"; Misc "DRIVE=12"];
    Subsignal "flaga" [Pins ["N16"]; IOStandard "LVCMOS33"; Misc "DRIVE=12"];
    Subsignal "flagb" [Pins ["P16"]; IOStandard "LVCMOS33"; Misc "DRIVE=12"];
    Subsignal "flagc" [Pins ["R15"]; IOStandard "LVCMOS33"; Misc "DRIVE=12"];
    Subsignal "cs_n" [Pins ["J17"]; IOStandard "LVCMOS33"; Misc "DRIVE=12"];
    Subsignal "rd_n" [Pins ["P19"]; IOStandard "LVCMOS33"; Misc "DRIVE=12"];
    Subsignal "wr_n" [Pins ["R19"]; IOStandard "LVCMOS33"];
    Subsignal "oe_n" [Pins ["H16"]; IOStandard "LVCMOS33"; Misc "DRIVE=12"];
    Subsignal "pktend_n" [Pins ["J16"]; IOStandard "LVCMOS33"; Misc "DRIVE=12"]]);
  ("fx2_reset", Nr 0, [
    Pins ["G22"];
    IOStandard "LVCMOS33";
    Misc "PULLUP";
    Misc "DRIVE=24";
    Misc "SLEW=SLOW"]);
  ("fx2_serial", Nr 0, [
    Subsignal "tx" [Pins ["P18"]; IOStandard "LVCMOS33"];
    Subsignal "rx" [Pins ["T17"]; IOStandard "LVCMOS33"; Misc "PULLUP"]])
].

Definition opsis_io_table_3 : list resource := [
  ("tofe", Nr 0, [
    Subsignal "rst" [Pins [(the (tofe_pin "pcie_reset") I)]; IOStandard "I2C"; Misc "PULLUP"];
    Subsignal "scl" [Pins [(the (tofe_pin "smclk") I)]; IOStandard "I2C"];
    Subsignal "sda" [Pins [(the (tofe_pin "smdat") I)]; IOStandard "I2C"]]);
  ("tofe_io", NotNr (Subsignal "a_io_p" [Pins [(the (io_pins "p" "io_a") I)]]), [
    Subsignal "a_io_n" [Pins [(the (io_pins "n" "io_a") I)]];
    Subsignal "b_io_p" [Pins [(the (io_pins "p" "io_b") I)]];
    Subsignal "b_io_n" [Pins [(the (io_pins "n" "io_b") I)]]]);
  ("tofe_lsio_serial", Nr 0, [
    Subsignal "tx" [Pins [(the (tofe_pin (the (tofe_low_speed_io "rx") I)) I)]];
    Subsignal "rx" [Pins [(the (tofe_pin (the (tofe_low_speed_io "tx") I)) I)]; Misc "PULLUP"];
    IOStandard "LVCMOS33"]);
  ("tofe_lsio_user_led", Nr 0, [
    Pins [(the (tofe_pin (the (tofe_low_speed_io "led1") I)) I)];
    IOStandard "LVCMOS33";
    Misc "DRIVE=12"]);
  ("tofe_lsio_user_led", Nr 1, [
    Pins [(the (tofe_pin (the (tofe_low_speed_io "led2") I)) I)];
    IOStandard "LVCMOS33";
    Misc "DRIVE=12"]);
  ("tofe_lsio_user_led", Nr 2, [
    Pins [(the (tofe_pin (the (tofe_low_speed_io "led3") I)) I)];
    IOStandard "LVCMOS33";
    Misc "DRIVE=12"]);
  ("tofe_lsio_user_led", Nr 3, [
    Pins [(the (tofe_pin (the (tofe_low_speed_io "led4") I)) I)];
    IOStandard "LVCMOS33";
    Misc "DRIVE=12"]);
  ("tofe_lsio_user_sw", Nr 0, [
    Pins [(the (tofe_pin (the (tofe_low_speed_io "sw1") I)) I)];
    IOStandard "LVCMOS33";
    Misc "PULLUP"]);
  ("tofe_lsio_user_sw", Nr 1, [
    Pins [(the (tofe_pin (the (tofe_low_speed_io "sw2") I)) I)];
    IOStandard "LVCMOS33";
    Misc "PULLUP"]);
  ("tofe_lsio_user_sw", Nr 2, [
    Pins [(the (tofe_pin (the (tofe_low_speed_io "sw3") I)) I)];
    IOStandard "LVCMOS33";
    Misc "PULLUP"]);
  ("tofe_lsio_user_sw", Nr 3, [
    Pins [(the (tofe_pin (the (tofe_low_speed_io "sw4") I)) I)];
    IOStandard "LVCMOS33";
    Misc "PULLUP"]);
  ("tofe_lsio_pmod_serial", Nr 0, [
    Subsignal "tx" [Pins [(the (tofe_pin (the (tofe_low_speed_pmod_io "p3" 2) I)) I)]];
    Subsignal "rx" [Pins [(the (tofe_pin (the (tofe_low_speed_pmod_io "p3" 3) I)) I)]; Misc "PULLUP"];
    IOStandard "LVCMOS33"])
].

Definition opsis_io_table : list resource := (opsis_io_table_1 ++ opsis_io_table_2 ++ opsis_io_table_3)%list.

(** The loop over the nets that groups the differential ones into the halves
    of the "tofe" resource: the last group's type [pt] and [tofe_signals]. The
    result is [None] where the code raises: a name without three parts, or the
    assertion. *)
Definition last2 {A} (l : list A) : option (A * A) :=
  match rev l with b :: a :: _ => Some (a, b) | _ => None end.

(** [l[-2].append(x)], [l[-1].append(x)]. *)
Definition append_at {A} (k : nat) (x : A) (l : list (list A)) : list (list A) :=
  alter (fun s => s ++ [x])%list (length l - k)%nat l.

Definition first_char (s : string) : string := String.substring 0 1 s.

Definition tofe_step (st : option string * list (list string)) (n : string)
    : option (option string * list (list string)) :=
  let '(pt, tofe_signals) := st in
  if negb (startswith n "diff") then Some st
  else
    match split_at "_" n with
    | [_; t; p] =>
        '(pt, tofe_signals) ←
          (if decide (pt = Some t) then Some (pt, tofe_signals)
           else
             '(a, b) ← last2 tofe_signals;
             (* [p[0]] of an empty string raises *)
             if (length b =? length a)%nat && truthy p
             then Some (Some t, tofe_signals ++
                          [[t +++ "_" +++ first_char p +++ "_" +++ "n"];
                           [t +++ "_" +++ first_char p +++ "_" +++ "p"]])%list
             else None);
        if endswith p "n" then Some (pt, append_at 2 n tofe_signals)
        else if endswith p "p" then Some (pt, append_at 1 n tofe_signals)
        else Some (pt, tofe_signals)
    | _ => None
    end.

Fixpoint tofe_loop (ns : list string) (st : option string * list (list string))
    : option (option string * list (list string)) :=
  match ns with
  | [] => Some st
  | n :: ns => st' ← tofe_step st n; tofe_loop ns st'
  end.

Definition tofe_signals (ns : list string) : option (list (list string)) :=
  snd <$> tofe_loop ns (None, [[]; []]).

Definition tofe_subsignal (i : list string) : option constraint :=
  match i with
  | [] => None
  | h :: nets =>
      pins ← mapM tofe_pin nets;
      Some (Subsignal h [Pins [join_with " " pins]; IOStandard "LVCMOS33"])
  end.

Definition tofe_resource : option resource :=
  sigs ← tofe_signals (fst <$> _tofe_io);
  subs ← mapM tofe_subsignal (skipn 2 sigs);
  Some ("tofe", Nr 0, subs).

Definition opsis_io : list resource := (opsis_io_table ++ [the tofe_resource I])%list.

Definition opsis_connectors : list (string * connector) := [].

Definition opsis : Platform := {|
  name := Some "opsis"; default_clk_name := "clk100"; default_clk_period := ns 10 1;
  gateware_size := Some 0x200000; spiflash_model := Some "n25q128";
  spiflash_read_dummy_bits := Some 10; spiflash_clock_div := Some 4;
  spiflash_total_size := Some (((128 / 8) * 1024) * 1024);
  spiflash_page_size := Some 256; spiflash_sector_size := Some 0x10000;
  io := opsis_io |}.

(** ** What the loop computes *)

(** [ps] are the (negative, positive) halves after the initial two lists;
    every group but the current one is balanced. *)
Definition halves (ps : list (list string * list string)) : list (list string) :=
  flat_map (fun ab => [fst ab; snd ab]) ps.

(** The nets the loop files: differential, and the negative or positive one. *)
Definition filed (n : string) : bool :=
  startswith n "diff" &&
  match split_at "_" n with
  | [_; _; p] => endswith p "n" || endswith p "p"
  | _ => false
  end.

Definition negative (n : string) : bool :=
  match split_at "_" n with [_; _; p] => endswith p "n" | _ => false end.

(** Each half has the nets of its side only. *)
Definition sided (ab : list string * list string) : Prop :=
  Forall (fun n => negative n = true) (tail (fst ab)) /\
  Forall (fun n => negative n = false) (tail (snd ab)).

Definition nets_of (ps : list (list string * list string)) : list string :=
  flat_map (fun ab => tail (fst ab) ++ tail (snd ab))%list ps.

Definition tofe_inv (ns : list string) (st : option string * list (list string)) : Prop :=
  exists ps, snd st = halves (([], []) :: ps) /\
    (fst st = None <-> ps = []) /\
    Forall (fun ab => fst ab <> [] /\ snd ab <> [] /\ sided ab) ps /\
    Forall (fun ab => length (fst ab) = length (snd ab)) (removelast ps) /\
    nets_of ps ≡ₚ base.filter (fun n => filed n = true) ns.

Lemma halves_snoc ps a b : halves (ps ++ [(a, b)])%list = (halves ps ++ [a; b])%list.
Proof. unfold halves. by rewrite flat_map_app. Qed.

Lemma nets_of_snoc ps a b : nets_of (ps ++ [(a, b)])%list = (nets_of ps ++ tail a ++ tail b)%list.
Proof. unfold nets_of. rewrite flat_map_app. simpl. by rewrite app_nil_r. Qed.

Lemma last2_halves ps a b : last2 (halves (ps ++ [(a, b)])%list) = Some (a, b).
Proof. unfold last2. rewrite halves_snoc, rev_app_distr. done. Qed.

Lemma append_at_halves ps a b n :
  append_at 2 n (halves (ps ++ [(a, b)]))%list = halves (ps ++ [(a ++ [n], b)])%list /\
  append_at 1 n (halves (ps ++ [(a, b)]))%list = halves (ps ++ [(a, b ++ [n])])%list.
Proof.
  unfold append_at. rewrite !halves_snoc, !length_app. cbn [length].
  split; rewrite alter_app_r_alt by lia.
  - replace (_ + 2 - 2 - _)%nat with 0%nat by lia. done.
  - replace (_ + 2 - 1 - _)%nat with 1%nat by lia. done.
Qed.

Lemma filter_snoc (ns : list string) n :
  base.filter (fun n => filed n = true) (ns ++ [n])%list =
  (base.filter (fun n => filed n = true) ns ++ if filed n then [n] else [])%list.
Proof. rewrite filter_app, filter_cons. destruct (filed n); by rewrite ?decide_True, ?decide_False by done. Qed.

Lemma sided_n a b n : a <> [] -> sided (a, b) -> negative n = true -> sided ((a ++ [n])%list, b).
Proof.
  intros Ha [H1 H2] Hn. split; [|done]. destruct a as [|x a]; [done|]. cbn [fst tail app] in *.
  apply Forall_app. split; [done|]. by apply Forall_singleton.
Qed.

Lemma sided_p a b n : b <> [] -> sided (a, b) -> negative n = false -> sided (a, (b ++ [n])%list).
Proof.
  intros Hb [H1 H2] Hn. split; [done|]. destruct b as [|x b]; [done|]. cbn [snd tail app] in *.
  apply Forall_app. split; [done|]. by apply Forall_singleton.
Qed.

(** Filing one net in the last group, on its side. *)
Lemma tofe_inv_file ns n pt ps a b :
  tofe_inv ns (pt, halves (([], []) :: ps ++ [(a, b)])%list) -> filed n = true ->
  tofe_inv (ns ++ [n])%list
    (pt, append_at (if negative n then 2 else 1) n (halves (([], []) :: ps ++ [(a, b)])%list)).
Proof.
  intros (qs & Hq & Hpt & Hne & Hbal & Hperm) Hn. cbn [fst snd] in *.
  assert (qs = (ps ++ [(a, b)])%list) as ->.
  { clear -Hq. revert qs Hq. generalize (ps ++ [(a, b)])%list as l.
    unfold halves. simpl. intros l qs [= H]. revert qs H.
    induction l as [|[x y] l IH]; intros [|[x' y'] qs] H; simplify_eq/=; [done|]. f_equal. by apply IH. }
  rewrite removelast_last in Hbal. rewrite Forall_app, Forall_singleton in Hne.
  destruct Hne as [Hne (Ha & Hb & Hside)]. cbn [fst snd] in *. rewrite nets_of_snoc in Hperm.
  rewrite app_comm_cons. destruct (append_at_halves (([], []) :: ps) a b n) as [H2 H1].
  destruct (negative n) eqn:Eneg; [rewrite H2 | rewrite H1];
    [exists (ps ++ [(a ++ [n], b)])%list | exists (ps ++ [(a, b ++ [n])])%list]; cbn [fst snd];
    (split_and!;
      [done
      | rewrite Hpt; destruct ps; done
      | apply Forall_app; split; [done|]; apply Forall_singleton; cbn [fst snd];
        split_and!; [by destruct a, b | by destruct a, b | auto using sided_n, sided_p]
      | by rewrite removelast_last
      | rewrite nets_of_snoc, filter_snoc, Hn, <- Hperm; destruct a, b; try done; cbn [tail app];
        rewrite <- ?app_assoc; try done; solve_Permutation ]).
Qed.

(** Opening a new group keeps the invariant when the last one is balanced. *)
Lemma tofe_inv_open ns pt sigs t h1 h2 a b :
  tofe_inv ns (pt, sigs) -> last2 sigs = Some (a, b) -> length b = length a ->
  exists ps, tofe_inv ns (Some t, halves (([], []) :: ps ++ [([h1], [h2])])%list) /\
    (sigs ++ [[h1]; [h2]])%list = halves (([], []) :: ps ++ [([h1], [h2])])%list.
Proof.
  intros (ps & Hs & Hpt & Hne & Hbal & Hperm) Hl Hlen. cbn [fst snd] in *. exists ps.
  rewrite app_comm_cons, halves_snoc, Hs. split; [|done].
  exists (ps ++ [([h1], [h2])])%list. cbn [fst snd].
  rewrite app_comm_cons, halves_snoc, removelast_last, nets_of_snoc, Forall_app, Forall_singleton.
  split_and!; try done.
  - by destruct ps.
  - destruct ps as [|ab ps _] using rev_ind; [done|].
    rewrite removelast_last in Hbal. apply Forall_app. split; [done|]. apply Forall_singleton.
    destruct ab as [x y]. rewrite Hs, app_comm_cons, last2_halves in Hl. by simplify_eq.
  - cbn [tail]. rewrite app_nil_r. done.
Qed.


Lemma tofe_step_inv ns st st' n :
  tofe_inv ns st -> tofe_step st n = Some st' -> tofe_inv (ns ++ [n])%list st'.
Proof.
  destruct st as [pt sigs]. unfold tofe_step. intros Hinv Hstep.
  destruct (startswith n "diff") eqn:Hd; cbn [negb] in Hstep.
  2:{ simplify_eq. destruct Hinv as (ps & ?). exists ps. rewrite filter_snoc. unfold filed.
      rewrite Hd. cbn [andb]. by rewrite app_nil_r. }
  destruct (split_at "_" n) as [|u [|t [|p [|]]]] eqn:Hsp; try done.
  assert (Hf : filed n = endswith p "n" || endswith p "p") by (unfold filed; by rewrite Hd, Hsp).
  assert (Hneg : negative n = endswith p "n") by (unfold negative; by rewrite Hsp).
  assert (exists ps a b, tofe_inv ns (Some t, halves (([], []) :: ps ++ [(a, b)])%list) /\
    (if endswith p "n" then Some (Some t, append_at 2 n (halves (([], []) :: ps ++ [(a, b)])%list))
     else if endswith p "p" then Some (Some t, append_at 1 n (halves (([], []) :: ps ++ [(a, b)])%list))
     else Some (Some t, halves (([], []) :: ps ++ [(a, b)])%list)) = Some st') as (ps & a & b & Hi & He).
  { case_decide as Ht.
    - subst pt. pose proof Hinv as (ps & Hs & Hpt & _). cbn [fst snd] in Hs, Hpt.
      destruct ps as [|[a b] ps _] using rev_ind; [discriminate (proj2 Hpt eq_refl)|].
      exists ps, a, b. rewrite <- Hs. split; [done|]. exact Hstep.
    - destruct (last2 sigs) as [[a b]|] eqn:Hl; [|done]. cbn [mbind option_bind] in Hstep.
      destruct (length b =? length a)%nat eqn:Hlen; [|done]. destruct (truthy p); [|done].
      apply Nat.eqb_eq in Hlen. cbn [andb mbind option_bind] in Hstep.
      edestruct (tofe_inv_open ns pt sigs t) as (ps & Hi & He); [done..|].
      rewrite He in Hstep. eauto 6. }
  destruct (endswith p "n") eqn:En, (endswith p "p") eqn:Ep; cbn [orb] in Hf; simplify_eq;
    try (pose proof (tofe_inv_file _ _ _ _ _ _ Hi Hf) as Hfile; by rewrite Hneg in Hfile).
  destruct Hi as (qs & Hq). exists qs. rewrite filter_snoc, Hf, app_nil_r. done.
Qed.

Lemma tofe_loop_inv ns done st st' :
  tofe_inv done st -> tofe_loop ns st = Some st' -> tofe_inv (done ++ ns)%list st'.
Proof.
  revert done st. induction ns as [|n ns IH]; intros done st Hi Hl; simpl in Hl.
  - rewrite app_nil_r. by simplify_eq.
  - destruct (tofe_step st n) as [st1|] eqn:E; [|done]. cbn [mbind option_bind] in Hl.
    rewrite cons_middle, app_assoc. eauto using tofe_step_inv.
Qed.

(** The loop of [platforms/opsis.py] that groups the connector's
    differential nets. Whenever it returns, the list after its two initial
    empty entries is a sequence of (negative, positive) pairs of groups, each
    a header followed by nets of its side only; every group but the last pair has as many
    negative as positive nets (the assertion compares only when the next group
    opens); and the nets filed are exactly the names that start with "diff"
    and end in n or p, each once: none is lost or duplicated. *)
Theorem tofe_nets_grouped ns sigs :
  tofe_signals ns = Some sigs ->
  exists ps, sigs = [] :: [] :: halves ps /\
    Forall (fun ab => fst ab <> [] /\ snd ab <> [] /\ sided ab) ps /\
    Forall (fun ab => length (fst ab) = length (snd ab)) (removelast ps) /\
    nets_of ps ≡ₚ base.filter (fun n => filed n = true) ns.
Proof.
  unfold tofe_signals. destruct (tofe_loop ns _) as [[pt sg]|] eqn:E; intros [= ->].
  destruct (tofe_loop_inv ns [] (None, [[]; []]) (pt, sigs)) as (ps & Hs & _ & Hrest); [|done|].
  - by exists [].
  - exists ps. cbn [fst snd app] in *. done.
Qed.

(** The Opsis connector: six pairs of groups with all 36 differential nets. *)
Lemma tofe_nets_grouped_witness :
  exists sigs, tofe_signals (fst <$> _tofe_io) = Some sigs /\
  exists ps, sigs = [] :: [] :: halves ps /\
    Forall (fun ab => fst ab <> [] /\ snd ab <> [] /\ sided ab) ps /\
    Forall (fun ab => length (fst ab) = length (snd ab)) (removelast ps) /\
    nets_of ps ≡ₚ base.filter (fun n => filed n = true) (fst <$> _tofe_io).
Proof.
  eexists. split; [vm_compute; reflexivity|].
  apply (tofe_nets_grouped (fst <$> _tofe_io)). vm_compute. reflexivity.
Defined.
