(* ===== verification/Boards.v ===== *)
(** * All boards, and what fits their flash

    The platform tables together, and the image [mkimage.py] writes against
    the flash each board has. *)
From S2P Require Import Prelude PyStr FlashImage.
From S2P Require Platform PlatformsIce PlatformsSeries7 PlatformsSpartan6 PlatformAtlys PlatformOpsis.

(** The platforms that say how large gateware and flash are: all but Pano
    Logic G2, Saturn and Waxwing, whose FPGA is not configured from a flash of
    its own or whose file does not say. *)
Definition flash_boards : list Platform.Platform :=
  [PlatformAtlys.atlys; PlatformOpsis.opsis;
   PlatformsIce.ice40_hx8k_b_evn; PlatformsIce.ice40_up5k_b_evn; PlatformsIce.icebreaker;
   PlatformsIce.icefun; PlatformsIce.tinyfpga_bx; PlatformsIce.upduino_v1;
   PlatformsSeries7.arty; PlatformsSeries7.basys3; PlatformsSeries7.cmod_a7; PlatformsSeries7.mimas_a7;
   PlatformsSeries7.neso; PlatformsSeries7.netv2; PlatformsSeries7.nexys_video; PlatformsSeries7.picoevb;
   PlatformsSpartan6.galatea; PlatformsSpartan6.mimasv2; PlatformsSpartan6.minispartan6;
   PlatformsSpartan6.pipistrello].

(** The largest BIOS area a target of the repository asks for. *)
Definition largest_bios : Z := 0x10000.

(** What [mkimage.py] prints as the remaining space, before the firmware. *)
Definition room (l : Layout) : Z := spiflash_total_size l - firmware_pos l.

(** ** Theorems *)

(** The image with a firmware ends where the firmware or the padding does. *)
Lemma parts_end l g b fw :
  Z.of_nat (length g) < gateware_size l -> Z.of_nat (length b) < bios_size l -> fw <> [] ->
  length (content (parts l g b fw)) = (Z.to_nat (firmware_pos l) + length fw)%nat.
Proof.
  intros Hg Hb Hne. pose proof (parts_length l g b fw Hg Hb).
  unfold parts in *. rewrite fwrite_length in *. destruct fw; [done|]. cbn [pos seek] in *. lia.
Qed.

Lemma image_length l g b fw force f n :
  fw <> [] -> write_image l g b fw force = (f, Ok ()) -> force_size l force = Ok n ->
  Z.of_nat (length (content f)) = Z.max (firmware_pos l + Z.of_nat (length fw)) (default 0 n).
Proof.
  intros Hne H Hn. apply write_image_inv in H as (Hg & Hb & n' & Hn' & ->).
  rewrite Hn in Hn'. injection Hn' as <-. pose proof (parts_end l g b fw Hg Hb Hne) as He.
  assert (pos (parts l g b fw) = (Z.to_nat (firmware_pos l) + length fw)%nat) as Hp by (unfold parts; by rewrite fwrite_pos).
  assert (0 <= firmware_pos l) by (unfold firmware_pos; lia).
  destruct n as [n|]; [change (default 0 (Some n)) with n | change (default 0 None) with 0; rewrite He; lia].
  rewrite fwrite_length, Hp, He. destruct (replicate _ 255) eqn:E; apply (f_equal length) in E;
    rewrite length_replicate in E; cbn [length] in *; lia.
Qed.

(** A property of the sizes of every board with a flash. *)
Lemma flash_boards_ind (P : Platform.Platform -> Prop) p :
  Forall P flash_boards -> In p flash_boards -> P p.
Proof. intros H Hp. eapply Forall_forall; [exact H | by apply list_elem_of_In]. Qed.

(** Case analysis on the board. *)
Ltac each_board p Hp :=
  revert p Hp; refine (fun p Hp => flash_boards_ind (fun p => _) p _ Hp);
  unfold flash_boards; rewrite !Forall_cons; split_and!; [.. | done].

(** Claim C19: which images fit the flash, on every board that has one. The
    image with a firmware is as long as the flash allows exactly when the
    firmware is no longer than the remaining space [mkimage.py] prints, with or
    without padding to the size of the flash. There is remaining space on every
    board, for every BIOS area the targets ask for, except on the Mimas A7: its
    gateware area alone is the whole flash, and no image with a firmware fits. *)
Theorem image_fits_flash (p : Platform.Platform) (l : Layout) (g b fw : list Z) (force : option string)
    (n : option Z) (f : File)
    (Hp : In p flash_boards)
    (Hg : Platform.gateware_size p = Some (gateware_size l))
    (Ht : Platform.spiflash_total_size p = Some (spiflash_total_size l))
    (Hb : 0 <= bios_size l <= largest_bios)
    (Hne : fw <> [])
    (Hforce : force_size l force = Ok n) (Hn : n = None \/ n = Some (spiflash_total_size l))
    (H : write_image l g b fw force = (f, Ok ())) :
  (Z.of_nat (length (content f)) <= spiflash_total_size l <-> Z.of_nat (length fw) <= room l) /\
  (0 < room l <-> p <> PlatformsSeries7.mimas_a7).
Proof.
  split.
  - rewrite (image_length _ _ _ _ _ _ _ Hne H Hforce). unfold room.
    assert (0 <= spiflash_total_size l).
    { revert Hg Ht. clear -Hp. each_board p Hp; cbn; intros _ [= <-]; by vm_compute. }
    destruct Hn as [-> | ->]; [change (default 0 None) with 0 | change (default 0 (Some (spiflash_total_size l))) with (spiflash_total_size l)]; lia.
  - unfold largest_bios in Hb. unfold room, firmware_pos. revert Hg Ht. clear -Hp Hb.
    each_board p Hp; cbn [Platform.gateware_size Platform.spiflash_total_size]; intros [= <-] [= <-].
    all: split; [intros Hr E; apply (f_equal Platform.name) in E; vm_compute in E; first [discriminate | Z.div_mod_to_equations; lia] |].
    all: intros E; first [by destruct E | Z.div_mod_to_equations; lia].
Qed.

(** Three one-byte files on an iceFUN. *)
Lemma image_fits_flash_witness :
  let l := {| gateware_size := 0x28000; bios_size := 0x8000; spiflash_total_size := 0x100000 |} in
  let img := content (fst (write_image l [1] [2] [3] None)) in
  (Z.of_nat (length img) <= 0x100000 <-> 1 <= room l) /\ 0 < room l.
Proof.
  intros l img.
  assert (H : write_image l [1] [2] [3] None = (fst (write_image l [1] [2] [3] None), Ok ()))
    by (rewrite (surjective_pairing (write_image l [1] [2] [3] None)) at 1; f_equal; reflexivity).
  assert (Hp : In PlatformsIce.icefun flash_boards) by (do 5 right; left; reflexivity).
  assert (Hb : 0 <= bios_size l <= largest_bios) by (split; vm_compute; discriminate).
  destruct (image_fits_flash PlatformsIce.icefun l [1] [2] [3] None None _ Hp ltac:(reflexivity) ltac:(reflexivity)
              Hb ltac:(discriminate) ltac:(reflexivity) ltac:(left; reflexivity) H) as [H1 H2].
  split; [exact H1 | vm_compute; reflexivity].
Defined.
