(* ===== verification/Resources.v ===== *)
(** * Requesting a board's resources

    The targets ask LiteX for the resources of a board one by one. LiteX's
    bookkeeping is third-party: the class [Litex] names what it offers,
    [LitexLaws] what its documentation promises. A pair of lists is an
    instance. The theorems about the targets hold for every instance. *)
From S2P Require Import Prelude PyStr Platform.

#[local] Open Scope string_scope.

Abbreviation connectors := (list (string * connector)).

(** Is [r] an answer to a request for [n], and for number [k] if one is
    given? *)
Definition answers (n : string) (k : option Z) (r : resource) : bool :=
  String.eqb (res_name r) n &&
  match k with
  | None => true
  | Some z => match res_number r with Nr z' => (z' =? z)%Z | NotNr _ => false end
  end.

(** ** Pins: what an identifier of a [Pins] constraint stands for *)

Fixpoint digits_val (acc : nat) (s : string) : option nat :=
  match s with
  | EmptyString => Some acc
  | String c s =>
      let n := nat_of_ascii c in
      if (48 <=? n)%nat && (n <=? 57)%nat then digits_val (10 * acc + (n - 48)) s else None
  end.

Definition connector_pin (conns : connectors) (c i : string) : option string :=
  conn ← getitem conns c;
  match conn with
  | ConnPins pins => j ← digits_val 0 i; fields pins !! j
  | ConnMap pins => getitem pins i
  end.

(** The FPGA pin itself, or pin [i] of connector [c] for ["c:i"]. *)
Definition resolve (conns : connectors) (ident : string) : option string :=
  match split_at ":" ident with
  | [p] => Some p
  | [c; i] => connector_pin conns c i
  | _ => None
  end.

Definition resource_pins (conns : connectors) (r : resource) : option (list string) :=
  mapM (resolve conns) (flat_map fields (resource_identifiers r)).

(** ** The interface *)

(** [request]: [platform.request(n, k)]; [None] is ConstraintError.
    [add_extension]: [platform.add_extension(rs)].
    [pads]: the pins a resource that was handed out is placed on. *)
Class Litex (M : Type) := {
  available : M -> list resource;
  conns_of : M -> connectors;
  request : string -> option Z -> M -> option (resource * M);
  add_extension : list resource -> M -> M;
  pads : M -> resource -> option (list string)
}.

(** The first answer is handed out and is no longer available; ConstraintError
    means there is none; an extension's resources become available; an
    identifier is split at white space and looked up in the connectors. *)
Class LitexLaws (M : Type) `{L : Litex M} := {
  request_some : forall n k m r m',
    request n k m = Some (r, m') ->
    conns_of m' = conns_of m /\
    exists a b, available m = (a ++ r :: b)%list /\ answers n k r = true /\
      Forall (fun x => answers n k x = false) a /\ available m' = (a ++ b)%list;
  request_none : forall n k m,
    request n k m = None -> Forall (fun x => answers n k x = false) (available m);
  extension_available : forall rs m,
    available (add_extension rs m) = (available m ++ rs)%list /\
    conns_of (add_extension rs m) = conns_of m;
  pads_spec : forall m r, pads m r = resource_pins (conns_of m) r
}.

(** The first answer in a list, and the rest. *)
Fixpoint pick (n : string) (k : option Z) (l : list resource) : option (resource * list resource) :=
  match l with
  | [] => None
  | r :: l =>
      if answers n k r then Some (r, l)
      else '(x, l') ← pick n k l; Some (x, r :: l')
  end.

(** The reference: the available resources and the connectors. *)
Definition board : Type := list resource * connectors.

#[export] Instance board_litex : Litex board := {
  available := fst;
  conns_of := snd;
  request n k m := '(r, l) ← pick n k m.1; Some (r, (l, m.2));
  add_extension rs m := ((m.1 ++ rs)%list, m.2);
  pads m r := resource_pins m.2 r
}.

Lemma pick_app n k a r b :
  Forall (fun x => answers n k x = false) a -> answers n k r = true ->
  pick n k (a ++ r :: b)%list = Some (r, (a ++ b)%list).
Proof.
  induction 1 as [|x a Hx _ IH]; intros Hr; cbn [pick app]; [by rewrite Hr|].
  by rewrite Hx, (IH Hr).
Qed.

Lemma pick_none n k l : pick n k l = None <-> Forall (fun x => answers n k x = false) l.
Proof.
  induction l as [|r l IH]; cbn [pick]; [split; [constructor | done]|].
  rewrite Forall_cons, <- IH. destruct (answers n k r); [intuition discriminate|].
  destruct (pick n k l) as [[x l']|]; cbn; intuition discriminate.
Qed.

Lemma pick_some n k l r l' :
  pick n k l = Some (r, l') ->
  exists a b, l = (a ++ r :: b)%list /\ answers n k r = true /\
    Forall (fun x => answers n k x = false) a /\ l' = (a ++ b)%list.
Proof.
  revert l'. induction l as [|x l IH]; intros l' H; cbn [pick] in H; [done|].
  destruct (answers n k x) eqn:E; simplify_eq.
  - by exists [], l'.
  - destruct (pick n k l) as [[y l1]|]; simplify_eq/=.
    destruct (IH l1 eq_refl) as (a & b & -> & Hr & Ha & ->).
    exists (x :: a), b. auto using Forall_cons.
Qed.

#[export] Instance board_litex_laws : LitexLaws board.
Proof.
  split; [| | done | done]; cbn [request board_litex available].
  - intros n k m r m' H. destruct (pick n k m.1) as [[x l]|] eqn:E; simplify_eq/=.
    split; [done|]. by apply pick_some.
  - intros n k m H. apply pick_none. by destruct (pick n k m.1) as [[x l]|].
Qed.

(** ** What a target does with its board *)

Inductive io_step :=
| Request (n : string) (k : option Z)
| Extend (rs : list resource)
| TakeAll (n : string)       (** requests 0, 1, ... until ConstraintError *)
| RequestElse (n : string) (k : option Z).  (** a request whose ConstraintError is caught *)

Section machine.
Context {M : Type} {L : Litex M}.

(** [while True: try: l.append(platform.request(n, len(l))) except
    ConstraintError: break], [i] being the length so far. The fuel bounds the
    iterations; [collect_all] gives more than enough. *)
Fixpoint collect (fuel : nat) (n : string) (i : nat) (m : M) : list resource * M :=
  match fuel with
  | O => ([], m)
  | S fuel =>
      match request n (Some (Z.of_nat i)) m with
      | None => ([], m)
      | Some (r, m') => let '(rs, m'') := collect fuel n (S i) m' in (r :: rs, m'')
      end
  end.

Definition collect_all (n : string) (m : M) : list resource * M :=
  collect (S (length (available m))) n 0 m.

(** The resources handed out, in order; [None]: the SoC is not built. *)
Fixpoint run_io (s : list io_step) (m : M) : option (list resource * M) :=
  match s with
  | [] => Some ([], m)
  | Request n k :: s =>
      '(r, m) ← request n k m;
      '(rs, m) ← run_io s m;
      Some (r :: rs, m)
  | Extend l :: s => run_io s (add_extension l m)
  | TakeAll n :: s =>
      let '(rs, m) := collect_all n m in
      '(rs', m) ← run_io s m;
      Some ((rs ++ rs')%list, m)
  | RequestElse n k :: s =>
      match request n k m with
      | Some (r, m) => '(rs, m) ← run_io s m; Some (r :: rs, m)
      | None => run_io s m
      end
  end.

(** The pins of all resources handed out. *)
Definition all_pads (m : M) (rs : list resource) : option (list string) :=
  mjoin <$> mapM (pads m) rs.

(** The script succeeds and gives out every pin at most once. *)
Definition wired (s : list io_step) (m : M) : bool :=
  match run_io s m with
  | Some (rs, m') =>
      match all_pads m' rs with Some ps => bool_decide (NoDup ps) | None => false end
  | None => false
  end.
End machine.

Section laws.
Context {M : Type} {L : Litex M} {LL : LitexLaws M}.

(** Every implementation of the class does what the reference does. *)
Definition view (m : M) : board := (available m, conns_of m).

Lemma request_view n k (m : M) : prod_map id view <$> request n k m = request n k (view m).
Proof using LL.
  cbn [request board_litex view fst snd].
  destruct (request n k m) as [[r m']|] eqn:E; simpl.
  - destruct (request_some _ _ _ _ _ E) as (Hc & a & b & Hm & Hr & Ha & Hm').
    rewrite Hm, (pick_app n k a r b Ha Hr). cbn. unfold view. by rewrite Hm', Hc.
  - apply request_none in E. apply pick_none in E. by rewrite E.
Qed.

Lemma collect_view fuel n i (m : M) :
  prod_map id view (collect fuel n i m) = collect fuel n i (view m).
Proof using LL.
  revert i m. induction fuel as [|fuel IH]; intros i m; [done|]. cbn [collect].
  rewrite <- request_view. destruct (request n _ m) as [[r m']|]; [|done].
  cbn [fmap option_fmap option_map prod_map fst snd]. rewrite <- IH.
  by destruct (collect fuel n (S i) m').
Qed.

Lemma run_io_view s (m : M) : prod_map id view <$> run_io s m = run_io s (view m).
Proof using LL.
  revert m. induction s as [|[n k|l|n|n k] s IH]; intros m; cbn [run_io]; [done| | | |].
  - rewrite <- request_view. destruct (request n k m) as [[r m']|]; [|done].
    cbn. rewrite <- IH. by destruct (run_io s m') as [[rs m'']|].
  - rewrite IH. f_equal. unfold view. by destruct (extension_available l m) as [-> ->].
  - unfold collect_all. change (available (view m)) with (available m). rewrite <- collect_view.
    destruct (collect _ n 0 m) as [rs m']. cbn. rewrite <- IH. by destruct (run_io s m') as [[rs' m'']|].
  - rewrite <- request_view. destruct (request n k m) as [[r m']|]; cbn; [|apply IH].
    rewrite <- IH. by destruct (run_io s m') as [[rs m'']|].
Qed.

Lemma run_io_reference s (m : M) rs b :
  run_io s (view m) = Some (rs, b) -> exists m', run_io s m = Some (rs, m') /\ view m' = b.
Proof using LL.
  rewrite <- run_io_view. destruct (run_io s m) as [[rs' m']|]; [|done].
  cbn. intros [= <- <-]. by exists m'.
Qed.

Lemma all_pads_view (m : M) rs : all_pads m rs = all_pads (view m) rs.
Proof using LL.
  unfold all_pads. f_equal. apply mapM_ext. intros r. by rewrite pads_spec.
Qed.

Lemma wired_view s (m : M) : wired s m = wired s (view m).
Proof using LL.
  unfold wired. rewrite <- run_io_view. destruct (run_io s m) as [[rs m']|]; [|done].
  cbn. by rewrite all_pads_view.
Qed.

Lemma wired_spec s (m : M) :
  wired s m = true ->
  exists rs m' ps, run_io s m = Some (rs, m') /\ all_pads m' rs = Some ps /\ NoDup ps.
Proof using Type.
  unfold wired. destruct (run_io s m) as [[rs m']|]; [|done].
  destruct (all_pads m' rs) as [ps|] eqn:Hp; [|done]. intros H%bool_decide_eq_true. eauto 6.
Qed.
End laws.
