(* ===== verification/Hooks.v ===== *)
(** * What a platform does besides its tables

    [Platform.create_programmer] and [Platform.do_finalize] of [platforms/*.py]:
    which programmer a board gets, and the period constraints on the clocks that
    a design has requested. LiteX's programmers are third-party, as are
    [lookup_request] and the names that [import *] brings: they are arguments. *)
From Stdlib Require QArith_base.
From S2P Require Import Prelude PyStr Platform Resources.
From S2P Require PlatformsIce PlatformsSeries7 PlatformsSpartan6 PlatformAtlys PlatformOpsis.
#[local] Open Scope string_scope.

Inductive board :=
| arty | atlys | basys3 | cmod_a7 | galatea | ice40_hx8k_b_evn | ice40_up5k_b_evn | icebreaker | icefun
| mimas_a7 | mimasv2 | minispartan6 | neso | netv2 | nexys_video | opsis | pano_logic_g2 | picoevb
| pipistrello | saturn | tinyfpga_bx | upduino_v1 | waxwing.

#[export] Instance board_eq_dec : EqDecision board.
Proof. solve_decision. Defined.

(** ** [__init__]: the device, and the default of [programmer] *)

Definition device (b : board) : string :=
  match b with
  | arty => "xc7a35t-csg324-1"
  | atlys => "xc6slx45-csg324-3"
  | basys3 => "xc7a35t-cpg236-1"
  | cmod_a7 => "xc7a35t-cpg236-1"
  | galatea => "xc6slx45t-fgg484-3"
  | ice40_hx8k_b_evn => "ice40-hx8k-ct256"
  | ice40_up5k_b_evn => "ice40-up5k-sg48"
  | icebreaker => "ice40-up5k-sg48"
  | icefun => "ice40-hx8k-cb132"
  | mimas_a7 => "xc7a50t-fgg484-1"
  | mimasv2 => "xc6slx9-csg324-2"
  | minispartan6 => "xc6slx25" +++ "-3-ftg256"
  | neso => "xc7a100t-csg324-1"
  | netv2 => "xc7a35t" +++ "-fgg484-2"
  | nexys_video => "xc7a200t-sbg484-1"
  | opsis => "xc6slx45t-fgg484-3"
  | pano_logic_g2 => "xc6slx150" +++ "-2-fgg484"
  | picoevb => "xc7a50t-csg325-2"
  | pipistrello => "xc6slx45-csg324-3"
  | saturn => "xc6slx45-2csg324"
  | tinyfpga_bx => "ice40-lp8k-cm81"
  | upduino_v1 => "ice40-up5k-sg48"
  | waxwing => "xc6slx45-2csg324"
  end.

(** [None]: the constructor has no such argument. *)
Definition default_programmer (b : board) : option string :=
  match b with
  | arty | atlys | basys3 | cmod_a7 | galatea | mimas_a7 | minispartan6 | neso | nexys_video | opsis | pipistrello =>
      Some "openocd"
  | netv2 | picoevb => Some "vivado"
  | pano_logic_g2 => Some "impact"
  | _ => None
  end.

(** ** [create_programmer] *)

(** A programmer: its class and the arguments. *)
Record Programmer := { cls : string; args : list string }.

(** [cut "-" device] is [device.split('-')[0]]. *)
Definition proxy (device : string) : string := "bscan_spi_" +++ default "" (head (split_at "-" device)) +++ ".bit".

(** The classes a file imports by name. *)
Definition imported (b : board) : list string :=
  match b with
  | atlys | opsis | pano_logic_g2 => ["iMPACT"]
  | galatea => ["iMPACT"; "XC3SProg"]
  | arty | basys3 | neso => ["OpenOCD"; "XC3SProg"; "VivadoProgrammer"]
  | cmod_a7 => ["OpenOCD"; "VivadoProgrammer"]
  | mimas_a7 | nexys_video => ["XC3SProg"; "VivadoProgrammer"]
  | minispartan6 => ["XC3SProg"; "FpgaProg"; "OpenOCD"]
  | netv2 | picoevb => ["VivadoProgrammer"]
  | pipistrello => ["XC3SProg"; "OpenOCD"]
  | ice40_hx8k_b_evn | ice40_up5k_b_evn | icebreaker | icefun | upduino_v1 => ["IceStormProgrammer"]
  | tinyfpga_bx => ["TinyProgProgrammer"]
  | mimasv2 | saturn | waxwing => []
  end.

(** LiteX's base class has no programmer of its own: [NotImplementedError]. *)
Section programmers.
(** The names that the [import *] of the file brings along. *)
Variable star : string -> bool.

(** [C(...)]: a [NameError] if the file does not know [C]. *)
Definition new (b : board) (c : string) (args : list string) : result Programmer :=
  if bool_decide (c ∈ imported b) || star c then Ok {| cls := c; args := args |} else Raise NameError.

(** [if self.programmer == "a": return ... elif ... else: raise ValueError]. *)
Fixpoint choose (programmer : string) (l : list (string * result Programmer)) : result Programmer :=
  match l with
  | [] => Raise ValueError
  | (n, r) :: l => if String.eqb programmer n then r else choose programmer l
  end.

Definition openocd (b : board) (config : string) : string * result Programmer :=
  ("openocd", new b "OpenOCD" [config; proxy (device b)]).
Definition vivado (b : board) (flash_part : string) : string * result Programmer :=
  ("vivado", new b "VivadoProgrammer" [flash_part]).
Definition impact (b : board) : string * result Programmer := ("impact", new b "iMPACT" []).
Definition xc3sprog (b : board) (args : list string) : string * result Programmer := ("xc3sprog", new b "XC3SProg" args).

Definition arty_programmer (p : string) : result Programmer :=
  choose p [openocd arty "board/digilent_arty.cfg"; xc3sprog arty ["nexys4"];
            vivado arty "n25q128-3.3v-spi-x1_x2_x4"].
(** [mibuild] is LiteX's predecessor; [star] says whether it is there. *)
Definition atlys_programmer (p : string) : result Programmer :=
  choose p [openocd atlys "board/digilent_atlys.cfg"; xc3sprog atlys ["jtaghs1_fast"; "bscan_spi_digilent_atlys.bit"];
            impact atlys; ("adept", new atlys "Adept" ["Atlys"; "0"]);
            ("fpgalink", new atlys "FPGALink" ["1443:0007"]); ("urjtag", new atlys "UrJTAG" ["USBBlaster"; "spartan-6"])].
Definition basys3_programmer (p : string) : result Programmer :=
  choose p [openocd basys3 "board/digilent_arty.cfg"; xc3sprog basys3 ["nexys4"];
            vivado basys3 "n25q128-3.3v-spi-x1_x2_x4"].
Definition cmod_a7_programmer (p : string) : result Programmer :=
  choose p [openocd cmod_a7 "board/digilent_cmod_a7.cfg"; vivado cmod_a7 "n25q32-3.3v-spi-x1_x2_x4"].
Definition galatea_programmer (p : string) : result Programmer :=
  choose p [xc3sprog galatea ["xpc"]; impact galatea].
Definition mimas_a7_programmer (p : string) : result Programmer :=
  choose p [openocd mimas_a7 "board/numato_mimas_a7.cfg"; xc3sprog mimas_a7 ["nexys4"];
            vivado mimas_a7 "n25q128-3.3v-spi-x1_x2_x4"].
Definition minispartan6_programmer (p : string) : result Programmer :=
  choose p [openocd minispartan6 "board/minispartan6.cfg";
            xc3sprog minispartan6 ["minispartan6"; proxy (device minispartan6)];
            ("fpgaprog", new minispartan6 "FpgaProg" [])].
Definition neso_programmer (p : string) : result Programmer :=
  choose p [openocd neso "board/numato_neso.cfg"; xc3sprog neso ["saturn"]; vivado neso "n25q128-3.3v-spi-x1_x2_x4"].
Definition netv2_programmer (p : string) : result Programmer := choose p [vivado netv2 "mx25l6433f-spi-x1_x2_x4"].
Definition nexys_video_programmer (p : string) : result Programmer :=
  choose p [openocd nexys_video "board/digilent_nexys_video.cfg"; xc3sprog nexys_video ["nexys4"];
            vivado nexys_video "n25q128-3.3v-spi-x1_x2_x4"].
Definition opsis_programmer (p : string) : result Programmer :=
  choose p [openocd opsis "board/numato_opsis.cfg"; ("urjtag", new opsis "UrJTAG" ["USBBlaster"]); impact opsis].
Definition pano_logic_g2_programmer (p : string) : result Programmer := choose p [impact pano_logic_g2].
Definition picoevb_programmer (p : string) : result Programmer := choose p [vivado picoevb "n25q128-3.3v-spi-x1_x2_x4"].
Definition pipistrello_programmer (p : string) : result Programmer :=
  choose p [openocd pipistrello "board/pipistrello.cfg";
            xc3sprog pipistrello ["papilio"; "bscan_spi_lx45_csg324.bit"]].

(** [Platform(...).create_programmer()], with the constructor's argument
    [programmer] for the boards that have one. *)
Definition create_programmer (b : board) (programmer : string) : result Programmer :=
  match b with
  | arty => arty_programmer programmer
  | atlys => atlys_programmer programmer
  | basys3 => basys3_programmer programmer
  | cmod_a7 => cmod_a7_programmer programmer
  | galatea => galatea_programmer programmer
  | mimas_a7 => mimas_a7_programmer programmer
  | minispartan6 => minispartan6_programmer programmer
  | neso => neso_programmer programmer
  | netv2 => netv2_programmer programmer
  | nexys_video => nexys_video_programmer programmer
  | opsis => opsis_programmer programmer
  | pano_logic_g2 => pano_logic_g2_programmer programmer
  | picoevb => picoevb_programmer programmer
  | pipistrello => pipistrello_programmer programmer
  | ice40_hx8k_b_evn | ice40_up5k_b_evn | icebreaker => new b "IceStormProgrammer" []
  | tinyfpga_bx => new b "TinyProgProgrammer" []
  | icefun | mimasv2 | saturn | waxwing | upduino_v1 => Raise NotImplementedError
  end.

(** The programmer of a board made with default arguments. *)
Definition default_create (b : board) : result Programmer := create_programmer b (default "" (default_programmer b)).
End programmers.

(** ** [do_finalize] *)

(** Resource, number if one is given, signal of it, period in ns. *)
Definition constraint_spec : Type := string * option Z * option string * QArith_base.Q.

Definition atlys_finalize : list constraint_spec :=
  [("clk100", None, None, ns 10 1); ("hdmi_in", Some 0, Some "clk_p", ns 12 1);
   ("hdmi_in", Some 1, Some "clk_p", ns 12 1); ("eth_clocks", None, Some "rx", ns 40 1);
   ("fx2", None, Some "ifclk", ns 10 1)]%Z.
Definition opsis_finalize : list constraint_spec :=
  [("clk100", None, None, ns 10 1); ("clk27", None, None, ns 37 1); ("hdmi_in", Some 0, Some "clk_p", ns 12 1);
   ("hdmi_in", Some 1, Some "clk_p", ns 12 1); ("eth_clocks", None, Some "rx", ns 8 1);
   ("fx2", None, Some "ifclk", ns 10 1)]%Z.
Definition galatea_finalize : list constraint_spec := [("clk100", None, None, ns 10 1)].
Definition mimas_a7_finalize : list constraint_spec := [("eth_clocks", None, Some "rx", ns 8 1)].
Definition nexys_video_finalize : list constraint_spec := [("eth_clocks", None, Some "rx", ns 8 1)].
Definition minispartan6_finalize : list constraint_spec :=
  [("hdmi_in", Some 0, Some "clk_p", ns 12 1); ("clk50", Some 0, None, ns 20 1)]%Z.

Definition finalize (b : board) : list constraint_spec :=
  match b with
  | atlys => atlys_finalize
  | opsis => opsis_finalize
  | galatea => galatea_finalize
  | mimas_a7 => mimas_a7_finalize
  | nexys_video => nexys_video_finalize
  | minispartan6 => minispartan6_finalize
  | _ => []
  end.

Definition has_signal (r : resource) (s : string) : bool :=
  existsb (fun c => match c with Subsignal n _ => String.eqb n s | _ => false end) (res_constraints r).

Section finalize.
(** [lookup_request]: the requested resource; [None]: ConstraintError. *)
Variable lookup_request : string -> option Z -> option resource.

(** [try: self.add_period_constraint(self.lookup_request(n, k).s, period)
    except ConstraintError: pass]. *)
Definition constrain (c : constraint_spec) : result (list constraint_spec) :=
  let '(n, k, s, _) := c in
  match lookup_request n k, s with
  | None, _ => Ok []
  | Some _, None => Ok [c]
  | Some r, Some s => if has_signal r s then Ok [c] else Raise AttributeError
  end.

Fixpoint constrain_all (l : list constraint_spec) : result (list constraint_spec) :=
  match l with
  | [] => Ok []
  | c :: l => x ← constrain c; y ← constrain_all l; Ok (x ++ y)%list
  end.

Definition do_finalize (b : board) : result (list constraint_spec) := constrain_all (finalize b).
End finalize.

(** ** Theorems *)

(** The board's tables; the Atlys with its jumper at 3.3 V. *)
Definition platform (b : board) : Platform :=
  match b with
  | arty => PlatformsSeries7.arty
  | atlys => PlatformAtlys.atlys
  | basys3 => PlatformsSeries7.basys3
  | cmod_a7 => PlatformsSeries7.cmod_a7
  | galatea => PlatformsSpartan6.galatea
  | ice40_hx8k_b_evn => PlatformsIce.ice40_hx8k_b_evn
  | ice40_up5k_b_evn => PlatformsIce.ice40_up5k_b_evn
  | icebreaker => PlatformsIce.icebreaker
  | icefun => PlatformsIce.icefun
  | mimas_a7 => PlatformsSeries7.mimas_a7
  | mimasv2 => PlatformsSpartan6.mimasv2
  | minispartan6 => PlatformsSpartan6.minispartan6
  | neso => PlatformsSeries7.neso
  | netv2 => PlatformsSeries7.netv2
  | nexys_video => PlatformsSeries7.nexys_video
  | opsis => PlatformOpsis.opsis
  | pano_logic_g2 => PlatformsSpartan6.pano_logic_g2
  | picoevb => PlatformsSeries7.picoevb
  | pipistrello => PlatformsSpartan6.pipistrello
  | saturn => PlatformsSpartan6.saturn
  | tinyfpga_bx => PlatformsIce.tinyfpga_bx
  | upduino_v1 => PlatformsIce.upduino_v1
  | waxwing => PlatformsSpartan6.waxwing
  end.

(** The programmer of a board made with default arguments, which is
    what make.py and flash.py use. Five boards have none; the Galatea's
    default is a name its own method refuses; on Atlys, Opsis, Mimas A7 and
    Nexys Video the class OpenOCD is not imported by name, so that, unless
    LiteX's [generic_platform] happens to export it, asking for the programmer
    fails with a NameError; all others get one. An OpenOCD is given the flash
    proxy of the board's own FPGA. *)
Theorem programmer_by_default (star : string -> bool) (b : board) :
  if bool_decide (b ∈ [icefun; mimasv2; saturn; upduino_v1; waxwing]) then default_create star b = Raise NotImplementedError
  else if bool_decide (b = galatea) then default_create star b = Raise ValueError
  else if bool_decide (b ∈ [atlys; opsis; mimas_a7; nexys_video]) && negb (star "OpenOCD") then
    default_create star b = Raise NameError
  else exists p, default_create star b = Ok p /\ (cls p = "OpenOCD" -> last (args p) = Some (proxy (device b))).
Proof.
  unfold default_create. destruct b; cbn [default_programmer create_programmer default];
    first [reflexivity | eexists; split; [reflexivity | done] | idtac].
  all: unfold atlys_programmer, opsis_programmer, mimas_a7_programmer, nexys_video_programmer, openocd; cbn [choose String.eqb].
  all: unfold new; cbn; destruct (star "OpenOCD"); [eexists; split; reflexivity | reflexivity].
Qed.

(** The resources of a board that answer a constraint's lookup have the signal. *)
Definition covered (b : board) (c : constraint_spec) : bool :=
  let '(n, k, s, _) := c in
  forallb (fun r => negb (answers n k r) || match s with Some s => has_signal r s | None => true end) (io (platform b)) &&
  existsb (answers n k) (io (platform b)).

Lemma finalize_covered b : forallb (covered b) (finalize b) = true.
Proof. destruct b; vm_compute; reflexivity. Qed.

Lemma constrain_all_ok lookup b l :
  (forall n k r, lookup n k = Some r -> In r (io (platform b)) /\ answers n k r = true) ->
  forallb (covered b) l = true ->
  constrain_all lookup l = Ok (filter (fun c => is_Some (lookup (fst (fst (fst c))) (snd (fst (fst c))))) l).
Proof.
  intros Hl. induction l as [|[[[n k] s] t] l IH]; [done|]. cbn [forallb]. intros [Hc H]%andb_true_iff.
  cbn [constrain_all]. rewrite (IH H). rewrite filter_cons. cbn [fst snd constrain].
  destruct (lookup n k) as [r|] eqn:E.
  - destruct (Hl n k r E) as [Hin Ha]. unfold covered in Hc. apply andb_true_iff in Hc as [Hc _].
    rewrite forallb_forall in Hc. specialize (Hc r Hin). rewrite Ha in Hc. cbn [negb orb] in Hc.
    rewrite decide_True by done. destruct s as [s|]; [by rewrite Hc | done].
  - rewrite decide_False by (intros [? ?]; discriminate). done.
Qed.

(** Finalizing a design constrains exactly the clocks it uses. For
    every board and whatever the design has requested from the board's table,
    the hook raises nothing (a resource it finds has the signal it asks for, a missing one is
    skipped) and adds the listed constraint for each resource that was
    requested, in order. Every entry of the lists names a resource the
    board has, and the constraint on the default clock is its period. *)
Theorem finalize_constraints (lookup_request : string -> option Z -> option resource) (b : board)
    (Hl : forall n k r, lookup_request n k = Some r -> In r (io (platform b)) /\ answers n k r = true) :
  do_finalize lookup_request b =
    Ok (filter (fun c => is_Some (lookup_request (fst (fst (fst c))) (snd (fst (fst c))))) (finalize b)) /\
  forall n k s t, In (n, k, s, t) (finalize b) ->
    (exists r, In r (io (platform b)) /\ answers n k r = true) /\
    (n = default_clk_name (platform b) -> t = default_clk_period (platform b)).
Proof.
  pose proof (finalize_covered b) as Hc. split; [by apply (constrain_all_ok _ b)|].
  intros n k s t Hin. split.
  - rewrite forallb_forall in Hc. specialize (Hc _ Hin). unfold covered in Hc. apply andb_true_iff in Hc as [_ Hc].
    apply existsb_exists in Hc. exact Hc.
  - clear Hc Hl. destruct b; vm_compute in Hin; intuition (simplify_eq; done).
Qed.

(** An Opsis design that uses the Ethernet clocks only. *)
Definition eth_only (n : string) (k : option Z) : option resource :=
  if String.eqb n "eth_clocks" then fst <$> pick n k (io (platform opsis)) else None.

Lemma finalize_constraints_witness :
  do_finalize eth_only opsis = Ok [("eth_clocks", None, Some "rx", ns 8 1)].
Proof.
  refine (eq_trans (proj1 (finalize_constraints eth_only opsis _)) _).
  - intros n k r H. unfold eth_only in H. destruct (String.eqb n "eth_clocks"); [|done].
    destruct (pick n k (io (platform opsis))) as [[r' l]|] eqn:E; [|done]. injection H as <-.
    apply pick_some in E as (a & l' & -> & Hr & _). split; [|done]. apply in_app_iff. right. by left.
  - vm_compute. reflexivity.
Defined.
