(* ===== verification/Vendor.v ===== *)
(** * What the platforms' constructors tell the vendor tools

    The rest of [platforms/*.py]: options and commands for the vendor tools,
    the texts about the HDMI ports that become constants of the firmware, and
    the UPduino's internal oscillator. The toolchain objects are LiteX's: their
    default options are a parameter. *)
From S2P Require Import Prelude PyStr Paths Platform Hooks.
From Stdlib Require Import QArith_base.
#[local] Open Scope Z_scope.
#[local] Open Scope string_scope.
#[local] Open Scope py_scope.

(** ** Options and commands *)

(** [bitgen_opt] is what is added to LiteX's. *)
Record Tools := {
  bitgen_opt : string;
  bitstream_commands : list string;
  additional_commands : list string;
  platform_commands : list string
}.

Definition no_tools : Tools := {|
  bitgen_opt := ""; bitstream_commands := []; additional_commands := []; platform_commands := [] |}.

(** [for pin, config in pins.items(): bitgen_opt += ...], on the Opsis and the
    Galatea. *)
Definition pin_options : list (string * string) := [
  ("ProgPin", "PullUp"); ("DonePin", "PullUp"); ("TckPin", "PullNone"); ("TdiPin", "PullNone");
  ("TdoPin", "PullNone"); ("TmsPin", "PullNone"); ("UnusedPin", "PullNone")].

Definition add_pin_options (pins : list (string * string)) (bitgen_opt : string) : string :=
  fold_left (fun o pc => o +++ " -g " +++ fst pc +++ ":" +++ snd pc +++ " ") pins bitgen_opt.

Definition quoted (s : string) : string := let q := String (ascii_of_nat 34) "" in q +++ s +++ q.

Definition vccaux (volts : string) : string := "CONFIG VCCAUX=" +++ quoted volts +++ ";".

Definition numato_tools : Tools := {|
  bitgen_opt := add_pin_options pin_options ""; bitstream_commands := []; additional_commands := [];
  platform_commands := [vccaux "3.3"] |}.

Definition opsis_tools : Tools := numato_tools.
Definition galatea_tools : Tools := numato_tools.

Definition atlys_tools : Tools := {|
  bitgen_opt := ""; bitstream_commands := []; additional_commands := []; platform_commands := [vccaux "3.3"] |}.

Definition pano_logic_g2_tools : Tools := {|
  bitgen_opt := ""; bitstream_commands := []; additional_commands := []; platform_commands := [vccaux "2.5"] |}.

Definition pipistrello_tools : Tools := {|
  bitgen_opt := " -g Compress -g ConfigRate:6"; bitstream_commands := []; additional_commands := [];
  platform_commands := [] |}.

Definition set_property (property : string) : string := "set_property " +++ property +++ " [current_design]".

Definition write_cfgmem (options interface size : string) : string :=
  "write_cfgmem " +++ options +++ " -format bin -interface " +++ interface +++ " -size " +++ size +++ " " +++
  "-loadbit " +++ quoted "up 0x0 {build_name}.bit" +++ " -file {build_name}.bin".

Definition internal_vref (bank : string) : string := "set_property INTERNAL_VREF 0.750 [get_iobanks " +++ bank +++ "]".

(** The same text on seven boards, for one bank or another. *)
Definition spi_x4_tools (platform_commands : list string) : Tools := {|
  bitgen_opt := "";
  bitstream_commands := [set_property "BITSTREAM.CONFIG.SPI_BUSWIDTH 4"];
  additional_commands := [write_cfgmem "-force" "spix4" "16"];
  platform_commands := platform_commands |}.

Definition arty_tools : Tools := spi_x4_tools [internal_vref "34"].
Definition basys3_tools : Tools := spi_x4_tools [internal_vref "34"].
Definition cmod_a7_tools : Tools := spi_x4_tools [internal_vref "34"].
Definition mimas_a7_tools : Tools := spi_x4_tools [internal_vref "34"].
Definition neso_tools : Tools := spi_x4_tools [internal_vref "34"].
Definition nexys_video_tools : Tools := spi_x4_tools [internal_vref "35"].

Definition netv2_tools : Tools := {|
  bitgen_opt := "";
  bitstream_commands := [set_property "CONFIG_VOLTAGE 3.3"; set_property "CFGBVS VCCO";
    set_property "BITSTREAM.CONFIG.CONFIGRATE 40"; set_property "BITSTREAM.CONFIG.SPI_BUSWIDTH 4"];
  additional_commands := [write_cfgmem "-verbose -force" "spix4" "16"];
  platform_commands := [] |}.

Definition picoevb_properties : list string := [
  set_property "CONFIG_VOLTAGE 1.5"; set_property "CFGBVS GND";
  set_property "BITSTREAM.CONFIG.CONFIGRATE 22"; set_property "BITSTREAM.CONFIG.SPI_BUSWIDTH 1"].

Definition picoevb_tools : Tools := {|
  bitgen_opt := "";
  bitstream_commands := picoevb_properties;
  additional_commands := [write_cfgmem "-verbose -force" "spix1" "64"];
  platform_commands := (picoevb_properties ++
    [newline +++ "create_clock -name pcie_phy_clk -period 10.0 [get_pins {{pcie_phy/pcie_support_i/pcie_i/inst/inst/gt_top_i/pipe_wrapper_i/pipe_lane[0].gt_wrapper_i/gtp_channel.gtpe2_channel_i/TXOUTCLK}}]" +++ newline])%list |}.

Definition tools (b : board) : Tools :=
  match b with
  | arty => arty_tools | atlys => atlys_tools | basys3 => basys3_tools | cmod_a7 => cmod_a7_tools
  | galatea => galatea_tools | mimas_a7 => mimas_a7_tools | neso => neso_tools | netv2 => netv2_tools
  | nexys_video => nexys_video_tools | opsis => opsis_tools | pano_logic_g2 => pano_logic_g2_tools
  | picoevb => picoevb_tools | pipistrello => pipistrello_tools
  | ice40_hx8k_b_evn | ice40_up5k_b_evn | icebreaker | icefun | mimasv2 | minispartan6 | saturn | tinyfpga_bx
  | upduino_v1 | waxwing => no_tools
  end.

(** ** The texts about the HDMI ports *)

Definition atlys_hdmi_infos : list (string * string) := [
  ("HDMI_IN0_MNEMONIC", "J1");
  ("HDMI_IN0_DESCRIPTION", "  Type A connector, marked as J1, on side with USB connectors.\r\n  To use J1, make sure:\r\n   * JP4 has a jumper (it connects / disconnects 5V to HDMI pin 18).\r\n   * JP2 (marked only as SDA/SCL - not to be confused with JP6 and JP6)\r\n     has *two* jumpers (horizontally).\r\n   * JP5 has a jumper (it enables the HDMI input buffer).\r\n");
  ("HDMI_IN1_MNEMONIC", "J3");
  ("HDMI_IN1_DESCRIPTION", "  Type A connector, marked as J3, between audio connectors and\r\n  Ethernet RJ45 connector.\r\n  To use J3, make sure:\r\n  * JP8 has a jumper (it connects / disconnects 5V to HDMI pin 18)\r\n  * JP6 and JP7 do *not* have any jumpers (it connect J3's and J2's\r\n    EDID lines together).\r\n");
  ("HDMI_OUT0_MNEMONIC", "J2");
  ("HDMI_OUT0_DESCRIPTION", "  Type A connector, marked as J2, next to the power connector.\r\n  To use J2, make sure:\r\n  * JP8 has a jumper (it connects / disconnects 5V to HDMI pin 18)\r\n  * JP6 and JP7 do *not* have any jumpers (it connect J3's and J2's\r\n    EDID lines together).\r\n");
  ("HDMI_OUT1_MNEMONIC", "JB");
  ("HDMI_OUT1_DESCRIPTION", "  Micro-D connector, marked as JB, on the same side as switches\r\n  + LEDs but on the underside of the board below MOD connector.\r\n  Works as either output or input because it isn't buffered.\r\n  Also often referred to as 'JA'.\r\n")
].

Definition opsis_hdmi_infos : list (string * string) := [
  ("HDMI_OUT0_MNEMONIC", "TX1");
  ("HDMI_OUT0_DESCRIPTION", "  The *first* HDMI port from the left.\r\n  Labeled J3 and HDMI Out 1.\r\n");
  ("HDMI_OUT1_MNEMONIC", "TX2");
  ("HDMI_OUT1_DESCRIPTION", "  The *second* HDMI port from the left.\r\n  Labeled J2 and HDMI Out 2.\r\n");
  ("HDMI_IN0_MNEMONIC", "RX1");
  ("HDMI_IN0_DESCRIPTION", "  The *third* HDMI port from the left.\r\n  Labeled J5 and HDMI In 1.\r\n");
  ("HDMI_IN1_MNEMONIC", "RX2");
  ("HDMI_IN1_DESCRIPTION", "  The *fourth* HDMI port from the left. (Closest to the USB.)\r\n  Labeled J4 and HDMI In 2.\r\n")
].

Definition netv2_hdmi_infos : list (string * string) := [
  ("HDMI_OUT0_MNEMONIC", "TX1");
  ("HDMI_OUT0_DESCRIPTION", "HDMI-A connector (marked TX0/J10H on PCB) located in the mounting bracket area, connector is the one closer to the DC Jack\r\n");
  ("HDMI_OUT1_MNEMONIC", "TX2");
  ("HDMI_OUT1_DESCRIPTION", "HDMI-D connector (marked TX1/P10H on PCB) located on the top edge of the board, connector is the one closer to the DC Jack\r\n");
  ("HDMI_IN0_MNEMONIC", "RX1");
  ("HDMI_IN0_DESCRIPTION", "HDMI-A connector (marked RX0/J11H on PCB) located in the mounting bracket area, connector is the one farther from the DC Jack\r\n");
  ("HDMI_IN1_MNEMONIC", "RX2");
  ("HDMI_IN1_DESCRIPTION", "HDMI-A connector (marked OVERLAY/J12H on PCB) located on the top edge of the board, connector is the one farther from the DC Jack\r\n")
].

Definition mimas_a7_hdmi_infos : list (string * string) := [
  ("HDMI_OUT0_MNEMONIC", "OUT1");
  ("HDMI_OUT0_DESCRIPTION", "  Add description\r\n");
  ("HDMI_IN0_MNEMONIC", "IN1");
  ("HDMI_IN0_DESCRIPTION", "  Add description\r\n")
].

Definition nexys_video_hdmi_infos : list (string * string) := [
  ("HDMI_OUT0_MNEMONIC", "TX1");
  ("HDMI_OUT0_DESCRIPTION", "  FIXME in platforms/nexys_video.py\r\n");
  ("HDMI_IN0_MNEMONIC", "RX1");
  ("HDMI_IN0_DESCRIPTION", "  FIXME in platforms/nexys_video.py\r\n")
].

Definition minispartan6_hdmi_infos : list (string * string) := [
  ("HDMI_IN0_MNEMONIC", "J2");
  ("HDMI_IN0_DESCRIPTION", "  Type A connector, marked as J2.\r\n");
  ("HDMI_OUT0_MNEMONIC", "J3");
  ("HDMI_OUT0_DESCRIPTION", "  Type A connector, marked as J3.\r\n")
].

Definition pipistrello_hdmi_infos : list (string * string) := [
  ("HDMI_OUT0_MNEMONIC", "J4");
  ("HDMI_OUT0_DESCRIPTION", "  Type A connector, marked as J4.\r\n")
].

Definition hdmi_infos (b : board) : option (list (string * string)) :=
  match b with
  | atlys => Some atlys_hdmi_infos | opsis => Some opsis_hdmi_infos | netv2 => Some netv2_hdmi_infos
  | mimas_a7 => Some mimas_a7_hdmi_infos | nexys_video => Some nexys_video_hdmi_infos
  | minispartan6 => Some minispartan6_hdmi_infos | pipistrello => Some pipistrello_hdmi_infos
  | _ => None
  end.

(** ** The UPduino's oscillator *)

Section upduino.
(** [GenericPlatform.request], and the oscillator's signal. *)
Context {Sig : Type} (generic_request : string -> result Sig) (mach_clk_sig : Sig).

(** [HfoscRouting]: whether the oscillator is in use. *)
Definition mk_clk (hfosc_used : bool) : result (Sig * bool) :=
  if negb hfosc_used then Ok (mach_clk_sig, true) else Raise ConstraintError.

Definition request (name : string) (hfosc_used : bool) : result (Sig * bool) :=
  match generic_request name with
  | Ok sig => Ok (sig, hfosc_used)
  | Raise ConstraintError => if String.eqb name "sb_hfosc" then mk_clk hfosc_used else Raise ConstraintError
  | Raise e => Raise e
  end.

(** A design's requests, one after another. *)
Fixpoint requests (l : list string) (hfosc_used : bool) : result (list Sig) :=
  match l with
  | [] => Ok []
  | name :: l => '(sig, used) ← request name hfosc_used; sigs ← requests l used; Ok (sig :: sigs)
  end.
End upduino.

(** [MachClock]: the primitive's divider of 48 MHz, as its parameter codes it. *)
Definition CLKHF_DIV : string := "0b10".

(** [do_finalize]: whether LiteX's own is called, and the clock's period. *)
Definition upduino_finalize (default_clk_name : string) (default_clk_period : Q) : bool * Q :=
  (negb (String.eqb default_clk_name "sb_hfosc"),
   if String.eqb default_clk_name "sb_hfosc" then ns 83333 1000 else default_clk_period).

(** ** Theorems *)

(** The word behind a word. *)
Fixpoint word_after (w : string) (l : list string) : option string :=
  match l with
  | x :: ((y :: _) as l') => if String.eqb x w then Some y else word_after w l'
  | _ => None
  end.

Definition bus_width (t : Tools) : option string :=
  head (omap (fun c => word_after "BITSTREAM.CONFIG.SPI_BUSWIDTH" (fields c)) (bitstream_commands t)).

(** The memory file of a board: for the bus width the bitstream is configured to
    load itself with, and with room for the gateware's part of the image. *)
Definition memory_file_ok (b : board) (c : string) : bool :=
  match bus_width (tools b), word_after "-interface" (fields c), word_after "-size" (fields c), gateware_size (platform b) with
  | Some n, Some interface, Some size, Some g =>
      String.eqb interface ("spix" +++ n) &&
      match py_int size with Ok mb => (g <=? mb * 1024 * 1024)%Z | Raise _ => false end
  | _, _, _, _ => false
  end.

(** The boards with a 7-series FPGA, and no others, write a memory file, and it is
    right. *)
Lemma memory_files b :
  (additional_commands (tools b) = [] <-> startswith (device b) "xc7" = false) /\
  forallb (memory_file_ok b) (additional_commands (tools b)) = true.
Proof. destruct b; (split; [split; (done || (intros H; vm_compute in H; discriminate H)) | vm_compute; reflexivity]). Qed.

(** The file is as large as the flash chip on four of the boards; on the others
    the size is larger or smaller than the chip (the Nexys Video's half). *)
Definition memory_file_fills (b : board) : bool :=
  match additional_commands (tools b), spiflash_total_size (platform b) with
  | [c], Some total =>
      match word_after "-size" (fields c) with
      | Some size => match py_int size with Ok mb => (mb * 1024 * 1024 =? total)%Z | Raise _ => false end
      | None => false
      end
  | _, _ => false
  end.

Example memory_file_sizes :
  memory_file_fills <$> [arty; basys3; mimas_a7; neso; cmod_a7; netv2; nexys_video; picoevb] =
  [true; true; true; true; false; false; false; false].
Proof. vm_compute. reflexivity. Qed.

(** What a C compiler makes of the text between the quotes: [None] where it would
    end early, run over the line or use another escape. *)
Fixpoint c_string (s : string) : option string :=
  match s with
  | EmptyString => Some ""
  | String c s =>
      if Ascii.eqb c "\"%char then
        match s with
        | String "r" s => String (ascii_of_nat 13) <$> c_string s
        | String "n" s => String (ascii_of_nat 10) <$> c_string s
        | _ => None
        end
      else if Ascii.eqb c (ascii_of_nat 34) || Ascii.eqb c (ascii_of_nat 10) then None
      else String c <$> c_string s
  end.

(** The HDMI ports in a board's table, as the firmware names them. *)
Definition ports (b : board) : list string :=
  omap (fun r : resource => let '(name, num, _) := r in
          match num with
          | Nr n => if String.eqb name "hdmi_in" || String.eqb name "hdmi_out" then Some (upper name +++ str_Z n) else None
          | NotNr _ => None
          end) (io (platform b)).

Definition port_keys (port : string) : list string := [port +++ "_MNEMONIC"; port +++ "_DESCRIPTION"].

Definition text_ok (kv : string * string) : bool :=
  match c_string (snd kv) with
  | Some t => negb (endswith (fst kv) "_DESCRIPTION") || endswith t (String (ascii_of_nat 13) newline)
  | None => false
  end.

(** The texts about the HDMI ports: exactly the ports of the board have a name
    and a description, and each text is a C string, a description one that ends
    with a line end. The Pipistrello's only port is called hdmi. *)
Lemma hdmi_texts b infos : hdmi_infos b = Some infos -> b <> pipistrello ->
  fst <$> infos ≡ₚ (ports b ≫= port_keys) /\ forallb text_ok infos = true.
Proof.
  intros H Hb. assert (E : forallb (fun b => match hdmi_infos b with
    | Some l => bool_decide (b = pipistrello) || (bool_decide (sort_strings (fst <$> l) = sort_strings (ports b ≫= port_keys)) && forallb text_ok l)
    | None => true end) [atlys; opsis; netv2; mimas_a7; nexys_video; minispartan6; pipistrello] = true) by (vm_compute; reflexivity).
  assert (Hin : In b [atlys; opsis; netv2; mimas_a7; nexys_video; minispartan6; pipistrello])
    by (destruct b; try discriminate H; cbn; tauto).
  apply (proj1 (forallb_forall _ _) E) in Hin. rewrite H, (bool_decide_eq_false_2 _ Hb) in Hin.
  apply andb_true_iff in Hin as [Hk%bool_decide_eq_true Ht]. split; [|exact Ht].
  by rewrite <- (sort_strings_perm (fst <$> infos)), Hk, sort_strings_perm.
Qed.

(** The oscillator is given out once; all other requests are the board's. *)
Lemma oscillator_once {Sig} (generic_request : string -> result Sig) (clk : Sig) l used sigs :
  generic_request "sb_hfosc" = Raise ConstraintError -> requests generic_request clk l used = Ok sigs ->
  (length (List.filter (String.eqb "sb_hfosc") l) <= if used then 0 else 1)%nat /\
  Forall2 (fun name sig => if String.eqb name "sb_hfosc" then sig = clk else generic_request name = Ok sig) l sigs.
Proof.
  intros Hg. revert used sigs. induction l as [|name l IH]; intros used sigs H; [injection H as <-; split; [cbn; destruct used; lia | constructor]|].
  cbn [requests] in H. apply bind_ok in H as ([sig used'] & Hr & H). apply bind_ok in H as (rest & Hl & [= <-]).
  destruct (IH used' rest Hl) as [Hc Hf]. unfold request in Hr. cbn [List.filter].
  destruct (String.eqb_spec "sb_hfosc" name) as [<-|Hn].
  - rewrite Hg in Hr. cbn [String.eqb] in Hr. change (String.eqb "sb_hfosc" "sb_hfosc") with true in Hr. cbv iota in Hr.
    unfold mk_clk in Hr. destruct used; [discriminate Hr|]. injection Hr as <- <-. split; [cbn [length]; lia | by constructor].
  - assert (Hn' : String.eqb name "sb_hfosc" = false) by (apply String.eqb_neq; congruence).
    destruct (generic_request name) as [s|e] eqn:E.
    + injection Hr as <- <-. split; [exact Hc|]. constructor; [by rewrite Hn' | done].
    + rewrite Hn' in Hr. by destruct e.
Qed.
