(* ===== verification/Cas.v ===== *)
(** * Control and status: a board's LEDs, switches and buttons

    [gateware/cas.py]. The constructor takes every [user_led], [rgb_led],
    [user_sw] and [user_btn] the board has: it requests numbers 0, 1, ... until
    LiteX answers ConstraintError. Each button is debounced by a timer of 10 ms
    and raises an event; timer and event source are library modules that a class
    describes. *)
From S2P Require Import Prelude PyStr Hdl Platform PlatformsIce Resources.
From S2P Require Units.

#[local] Open Scope string_scope.

(** ** Taking the board's LEDs, switches and buttons *)

Section collect.
Context {M : Type} {L : Litex M} {LL : LitexLaws M}.

(** The pads the constructor takes, in its order. *)
Record Pads := { user_leds : list resource; rgb_leds : list resource;
                 user_sws : list resource; user_btns : list resource }.

Definition take_pads (m : M) : Pads * M :=
  let '(leds, m) := collect_all "user_led" m in
  let '(rgbs, m) := collect_all "rgb_led" m in
  let '(sws, m) := collect_all "user_sw" m in
  let '(btns, m) := collect_all "user_btn" m in
  ({| user_leds := leds; rgb_leds := rgbs; user_sws := sws; user_btns := btns |}, m).
End collect.

(** ** The logic between the registers and the pads *)

(** What [user_leds[i]] is after the RGB LEDs have been appended: a pad, or an
    inner signal that drives one channel of an RGB LED, inverted. *)
Inductive channel := Red | Green | Blue.
Inductive led := User (i : nat) | Rgb (j : nat) (c : channel).

#[export] Instance channel_eq_dec : EqDecision channel.
Proof. solve_decision. Defined.
#[export] Instance led_eq_dec : EqDecision led.
Proof. solve_decision. Defined.

Definition led_list (p : Pads) : list led :=
  ((User <$> seq 0 (length (user_leds p))) ++
   flat_map (fun j => [Rgb j Red; Rgb j Green; Rgb j Blue]) (seq 0 (length (rgb_leds p))))%list.

Definition leds_count (p : Pads) : Z := Z.of_nat (length (led_list p)).
Definition switches_count (p : Pads) : Z := Z.of_nat (length (user_sws p)).
Definition buttons_count (p : Pads) : Z := Z.of_nat (length (user_btns p)).

(** [user_leds[i].eq(leds[i])], and for a channel [rgb.r.eq(~r_n)]: the level
    on the pad of each LED for a value of the leds register. *)
Definition pad_level (l : led) (bit : bool) : bool :=
  match l with User _ => bit | Rgb _ _ => negb bit end.

Definition led_levels (p : Pads) (leds : Z) : list (led * bool) :=
  imap (fun i l => (l, pad_level l (Z.testbit leds (Z.of_nat i)))) (led_list p).

(** [switches[i].eq(~user_sws[i])], as the value of the register. *)
Definition switches_value (sws : list bool) : Z :=
  digits 1 (rev ((fun b => b2z (negb b)) <$> sws)).

(** ** Buttons

    [WaitTimer(t)]: [left] cycles remain, all [t] when it does not wait; it is
    done at 0. [EventSourceProcess]: pending is set when the trigger falls, and
    otherwise cleared by the CPU. *)
Class WaitTimer (t : nat) := {
  timer : Type;
  timer_init : timer;
  timer_next : bool -> timer -> timer;
  done : timer -> bool;
  left : timer -> nat;
  left_init : left timer_init = t;
  done_left c : done c = (left c =? 0)%nat;
  left_next wait c : left (timer_next wait c) = if wait then pred (left c) else t
}.

Class EventSourceProcess := {
  ev : Type;
  ev_init : ev;
  ev_next : bool -> bool -> ev -> ev;
  pending : ev -> bool;
  old_trigger : ev -> bool;
  ev_idle : pending ev_init = false /\ old_trigger ev_init = false;
  old_next trigger clear e : old_trigger (ev_next trigger clear e) = trigger;
  pending_next trigger clear e :
    pending (ev_next trigger clear e) = (old_trigger e && negb trigger) || (pending e && negb clear)
}.

Definition counter_timer (t : nat) : WaitTimer t := {|
  timer := nat; timer_init := t; timer_next wait c := if wait : bool then pred c else t;
  done c := (c =? 0)%nat; left c := c; left_init := eq_refl; done_left _ := eq_refl; left_next _ _ := eq_refl |}.

Definition flags_event : EventSourceProcess := {|
  ev := bool * bool; ev_init := (false, false);
  ev_next trigger clear e := ((snd e && negb trigger) || (fst e && negb clear), trigger);
  pending := fst; old_trigger := snd; ev_idle := conj eq_refl eq_refl;
  old_next _ _ _ := eq_refl; pending_next _ _ _ := eq_refl |}.

Section button.
Context {t : nat} {WT : WaitTimer t} {ES : EventSourceProcess}.

Record Button := { btn_timer : timer; btn_ev : ev }.
Record BtnIn := { user_btn : bool; clear : bool }.

Definition button_reset : Button := {| btn_timer := timer_init; btn_ev := ev_init |}.

(** [btn_timer.wait.eq(user_btns[i])]; [btn_ev.trigger.eq(~btn_timer.done)]. *)
Definition trigger (s : Button) : bool := negb (done (btn_timer s)).
Definition button_next (x : BtnIn) (s : Button) : Button :=
  {| btn_timer := timer_next (user_btn x) (btn_timer s); btn_ev := ev_next (trigger s) (clear x) (btn_ev s) |}.

(** The button's event of this cycle: the trigger falls. *)
Definition raises (s : Button) : bool := old_trigger (btn_ev s) && negb (trigger s).
End button.

(** For how many cycles the pad [user_btn] has been high before cycle [n]. The
    module takes that as pressed; on a board whose button pulls its pad low it
    is the time since the release. *)
Fixpoint held (inp : nat -> BtnIn) (n : nat) : nat :=
  match n with
  | O => 0
  | S n => if user_btn (inp n) then S (held inp n) else 0
  end.

(** The timer of a board: [WaitTimer(int(clk_freq*(10e-3)))]. *)
Definition debounce (clk_freq : Units.float) : result nat := x ← Units.ten_ms clk_freq; Ok (Z.to_nat x).

(** ** Theorems *)

Definition numbered (n : string) (i : nat) (r : resource) : Prop :=
  answers n (Some (Z.of_nat i)) r = true.

Section collect_theorems.
Context {M : Type} {L : Litex M} {LL : LitexLaws M}.

Lemma request_perm n k (m : M) r m' :
  request n k m = Some (r, m') -> available m ≡ₚ r :: available m'.
Proof using LL.
  intros (_ & a & b & -> & _ & _ & ->)%request_some. by rewrite Permutation_middle.
Qed.

Lemma collect_ok fuel n i (m : M) :
  (length (available m) < fuel)%nat ->
  let '(rs, m') := collect fuel n i m in
  available m ≡ₚ (rs ++ available m')%list /\
  (forall j r, rs !! j = Some r -> numbered n (i + j) r) /\
  request n (Some (Z.of_nat (i + length rs))) m' = None.
Proof using LL.
  revert i m. induction fuel as [|fuel IH]; intros i m Hf; [lia|]. cbn [collect].
  destruct (request n _ m) as [[r m1]|] eqn:E.
  - pose proof (request_perm _ _ _ _ _ E) as Hp. pose proof (Permutation_length Hp) as Hlen.
    cbn [length] in Hlen. specialize (IH (S i) m1 ltac:(lia)).
    destruct (collect fuel n (S i) m1) as [rs m2]. destruct IH as (H1 & H2 & H3).
    split_and!.
    + by rewrite Hp, H1.
    + intros [|j] r' Hj; simplify_eq/=.
      * destruct (request_some _ _ _ _ _ E) as (_ & a & b & _ & Hr & _). by rewrite Nat.add_0_r.
      * rewrite <- Nat.add_succ_comm. by apply H2.
    + cbn [length]. by rewrite <- Nat.add_succ_comm.
  - cbn [length]. rewrite Nat.add_0_r. split_and!; [done | by intros j r | done].
Qed.
End collect_theorems.

(** Taking the LEDs, switches or buttons of a board, for every LiteX.
    The loop ends with LiteX's ConstraintError, not for lack of fuel; what it
    took are resources [n] with the numbers 0, 1, ... in order; the board keeps
    exactly the others; and among those no resource [n] with the next number
    is left. *)
Theorem collect_all_takes_run {M : Type} {L : Litex M} {LL : LitexLaws M} (n : string) (m : M) :
  let '(rs, m') := collect_all n m in
  request n (Some (Z.of_nat (length rs))) m' = None /\
  (forall j r, rs !! j = Some r -> res_name r = n /\ res_number r = Nr (Z.of_nat j)) /\
  available m ≡ₚ (rs ++ available m')%list /\
  Forall (fun r => answers n (Some (Z.of_nat (length rs))) r = false) (available m').
Proof.
  unfold collect_all. pose proof (collect_ok (S (length (available m))) n 0 m ltac:(lia)) as H.
  destruct (collect _ n 0 m) as [rs m']. destruct H as (H1 & H2 & H3). split_and!; try done.
  - intros j r Hj. specialize (H2 j r Hj). unfold numbered, answers in H2.
    apply andb_prop in H2 as [Hn%String.eqb_eq Hk]. split; [done|].
    destruct (res_number r) as [z|]; [|done]. apply Z.eqb_eq in Hk. by subst.
  - by apply request_none.
Qed.

Definition led_key (l : led) : nat :=
  match l with User _ => 0 | Rgb j _ => S j end.

Lemma led_list_NoDup p : NoDup (led_list p).
Proof.
  unfold led_list. apply NoDup_app. split_and!.
  - apply NoDup_fmap_2_strong; [congruence | apply NoDup_seq].
  - intros l (i & -> & _)%list_elem_of_fmap Hin.
    apply list_elem_of_In, in_flat_map in Hin as (j & _ & [H|[H|[H|[]]]]); discriminate.
  - generalize 0%nat. induction (length (rgb_leds p)) as [|k IH]; intros s; cbn [seq flat_map];
      [constructor|].
    apply NoDup_app. split_and!; [| |apply IH].
    + rewrite !NoDup_cons, !not_elem_of_cons. split_and!; try apply not_elem_of_nil; try done.
      apply NoDup_nil_2.
    + intros l Hl Hin. apply list_elem_of_In, in_flat_map in Hin as (j & Hj%in_seq & Hin).
      apply list_elem_of_In in Hl. assert (led_key l = S s) by (destruct Hl as [<-|[<-|[<-|[]]]]; done).
      assert (led_key l = S j) by (destruct Hin as [<-|[<-|[<-|[]]]]; done). lia.
Qed.

Lemma length_channels s k :
  length (flat_map (fun j => [Rgb j Red; Rgb j Green; Rgb j Blue]) (seq s k)) = (3 * k)%nat.
Proof.
  revert s. induction k as [|k IH]; intros s; [done|]. cbn [seq flat_map app length].
  rewrite IH. lia.
Qed.

(** The leds register. There are as many LEDs as [leds_count] says:
    the user LEDs and three for each RGB LED; no LED is driven twice; LED [i]
    shows bit [i] of the register, a channel of an RGB LED inverted. *)
Theorem leds_driven (p : Pads) (v : Z) :
  leds_count p = Z.of_nat (length (user_leds p) + 3 * length (rgb_leds p)) /\
  NoDup (fst <$> led_levels p v) /\
  forall i l b, led_levels p v !! i = Some (l, b) ->
    led_list p !! i = Some l /\
    b = match l with User _ => Z.testbit v (Z.of_nat i) | Rgb _ _ => negb (Z.testbit v (Z.of_nat i)) end.
Proof.
  split_and!.
  - unfold leds_count, led_list. rewrite length_app, length_fmap, length_seq, length_channels. done.
  - replace (fst <$> led_levels p v) with (led_list p); [apply led_list_NoDup|].
    unfold led_levels. rewrite fmap_imap. symmetry. apply list_eq. intros i.
    rewrite list_lookup_imap. by destruct (led_list p !! i).
  - intros i l b. unfold led_levels. rewrite list_lookup_imap.
    destruct (led_list p !! i) as [l'|] eqn:E; [|done]. intros [= -> <-]. by destruct l.
Qed.

(** The iCE40-UP5K breakout board with its LiteX state: one RGB LED. *)
Lemma collect_all_takes_run_witness :
  let '(rs, m') := collect_all "rgb_led" (ice40_up5k_b_evn_io, ice40_up5k_b_evn_connectors) in
  request "rgb_led" (Some (Z.of_nat (length rs))) m' = None /\
  (forall j r, rs !! j = Some r -> res_name r = "rgb_led" /\ res_number r = Nr (Z.of_nat j)) /\
  available (ice40_up5k_b_evn_io, ice40_up5k_b_evn_connectors) ≡ₚ (rs ++ available m')%list /\
  Forall (fun r => answers "rgb_led" (Some (Z.of_nat (length rs))) r = false) (available m').
Proof. exact (collect_all_takes_run "rgb_led" (ice40_up5k_b_evn_io, ice40_up5k_b_evn_connectors)). Defined.

(** On that board the leds register has three bits, all of the RGB LED. *)
Example up5k_leds :
  led_list (fst (take_pads (ice40_up5k_b_evn_io, ice40_up5k_b_evn_connectors))) =
  [Rgb 0 Red; Rgb 0 Green; Rgb 0 Blue].
Proof. vm_compute. reflexivity. Qed.

(** *** Buttons *)

Section button_theorems.
Context {t : nat} {WT : WaitTimer t} {ES : EventSourceProcess} (inp : nat -> BtnIn).
#[local] Abbreviation st := (state_at button_next button_reset inp).

Lemma timer_held n : left (btn_timer (st n)) = (t - held inp n)%nat.
Proof using Type.
  induction n as [|n IH]; cbn [state_at held].
  - cbn [button_reset btn_timer]. rewrite left_init. lia.
  - cbn [button_next btn_timer]. rewrite left_next, IH. destruct (user_btn (inp n)); lia.
Qed.

Lemma trigger_held n : trigger (st n) = (held inp n <? t)%nat.
Proof using Type.
  unfold trigger. rewrite done_left, timer_held. destruct (Nat.ltb_spec (held inp n) t).
  - by rewrite (proj2 (Nat.eqb_neq _ _)) by lia.
  - by rewrite (proj2 (Nat.eqb_eq _ _)) by lia.
Qed.

Lemma old_trigger_held n : old_trigger (btn_ev (st (S n))) = (held inp n <? t)%nat.
Proof using Type. cbn [state_at button_next btn_ev]. by rewrite old_next, trigger_held. Qed.
End button_theorems.

(** Claim C28: a button's event. For every history of the button's pad and every
    timer of [t] cycles: an event is raised in a cycle exactly when the pad has
    then been high for [t] cycles, neither fewer nor more: pulses shorter
    than that raise none, a longer one raises one however long it lasts. The
    event then stays pending until the CPU clears it. *)
Theorem button_event {t : nat} {WT : WaitTimer t} {ES : EventSourceProcess} (inp : nat -> BtnIn) (n : nat)
    (Ht : (0 < t)%nat) :
  let st := state_at button_next button_reset inp in
  (raises (st n) = true <-> held inp n = t) /\
  pending (btn_ev (st (S n))) = raises (st n) || (pending (btn_ev (st n)) && negb (clear (inp n))).
Proof.
  intros st. split.
  - unfold raises. subst st. rewrite trigger_held.
    destruct n as [|n].
    + cbn [state_at button_reset btn_ev held]. rewrite (proj2 ev_idle). cbn. lia.
    + rewrite old_trigger_held, andb_true_iff, negb_true_iff, Nat.ltb_lt, Nat.ltb_ge. cbn [held].
      destruct (user_btn (inp n)); lia.
  - subst st. cbn [state_at button_next btn_ev]. apply pending_next.
Qed.

(** Three cycles, a bounce and a press. *)
Lemma button_event_witness :
  let inp n := {| user_btn := (n =? 1)%nat || (3 <=? n)%nat; clear := false |} in
  raises (state_at (button_next (WT := counter_timer 3) (ES := flags_event)) (button_reset (WT := counter_timer 3) (ES := flags_event)) inp 6) = true.
Proof.
  intros inp. exact (proj2 (proj1 (button_event (WT := counter_timer 3) (ES := flags_event) inp 6 ltac:(lia))) eq_refl).
Defined.
