(* ===== verification/Soc.v ===== *)
(** * Building a SoC

    What the targets share: the numbering of CSR banks ([targets/utils.py]),
    the memory maps that subclasses extend, and the steps a target's
    constructor takes on LiteX's SoC object, in order. LiteX's own part of the
    construction is one step, [Core], whose effect is third-party. *)
From Stdlib Require Import QArith.
From S2P Require Import Prelude PyStr Platform Resources.
From S2P Require Make FlashImage.
#[local] Open Scope Z_scope.

#[local] Open Scope string_scope.

(** ** CSR numbers *)

Definition max_value (m : gmap string Z) : option Z :=
  match snd <$> map_to_list m with
  | [] => None
  | v :: vs => Some (foldr Z.max v vs)
  end.

(** [enumerate(l, start)]. *)
Fixpoint enumerate {A} (start : Z) (l : list A) : list (Z * A) :=
  match l with [] => [] | x :: l => (start, x) :: enumerate (start + 1) l end.

Definition insert_all (m : gmap string Z) (l : list (Z * string)) : gmap string Z :=
  foldl (fun m vn => <[snd vn := fst vn]> m) m l.

(** [csr_map.update(dict((n, v) for v, n in enumerate(csr_peripherals,
    start=(max(csr_map.values()) + 1) if csr_map else 0)))]; an empty map has
    no maximum. *)
Definition csr_map_update (csr_map : gmap string Z) (csr_peripherals : list string) : gmap string Z :=
  let start := match max_value csr_map with Some v => (v + 1)%Z | None => 0%Z end in
  insert_all csr_map (enumerate start csr_peripherals).

(** The variant that prints fails on an empty map. *)
Definition csr_map_update_print (csr_map : gmap string Z) (csr_peripherals : list string)
    : result (gmap string Z) :=
  match max_value csr_map with
  | None => Raise ValueError
  | Some v => Ok (insert_all csr_map (enumerate (v + 1) csr_peripherals))
  end.

(** ** Memory maps: [mem_map = own; mem_map.update(base)] *)

Definition mem_map_update (own base : gmap string Z) : gmap string Z := base ∪ own.

(** ** Constructor steps *)

(** The keyword arguments the targets look at; [None]: not given. *)
Record Kwargs := {
  integrated_rom_size : option Z;
  integrated_sram_size : option Z;
  cpu_type_arg : option string;
  cpu_variant_arg : option string;
  expansion : option string;
  cpu_reset_address : option Z;
  uart_baudrate : option Z
}.

Definition no_kwargs : Kwargs := {|
  integrated_rom_size := None; integrated_sram_size := None; cpu_type_arg := None;
  cpu_variant_arg := None; expansion := None; cpu_reset_address := None; uart_baudrate := None |}.

(** [kwargs['integrated_rom_size'] = rom; kwargs['integrated_sram_size'] = sram]. *)
Definition set_sizes (rom sram : option Z) (kw : Kwargs) : Kwargs := {|
  integrated_rom_size := rom; integrated_sram_size := sram;
  cpu_type_arg := cpu_type_arg kw; cpu_variant_arg := cpu_variant_arg kw; expansion := expansion kw;
  cpu_reset_address := cpu_reset_address kw; uart_baudrate := uart_baudrate kw |}.

Definition set_cpu (t v : option string) (kw : Kwargs) : Kwargs := {|
  integrated_rom_size := integrated_rom_size kw; integrated_sram_size := integrated_sram_size kw;
  cpu_type_arg := t; cpu_variant_arg := v; expansion := expansion kw;
  cpu_reset_address := cpu_reset_address kw; uart_baudrate := uart_baudrate kw |}.

Definition set_expansion (e : option string) (kw : Kwargs) : Kwargs := {|
  integrated_rom_size := integrated_rom_size kw; integrated_sram_size := integrated_sram_size kw;
  cpu_type_arg := cpu_type_arg kw; cpu_variant_arg := cpu_variant_arg kw; expansion := e;
  cpu_reset_address := cpu_reset_address kw; uart_baudrate := uart_baudrate kw |}.

(** [kwargs['cpu_reset_address'] = a], [kwargs['uart_baudrate'] = b]. *)
Definition set_reset_address (a : Z) (kw : Kwargs) : Kwargs := {|
  integrated_rom_size := integrated_rom_size kw; integrated_sram_size := integrated_sram_size kw;
  cpu_type_arg := cpu_type_arg kw; cpu_variant_arg := cpu_variant_arg kw; expansion := expansion kw;
  cpu_reset_address := Some a; uart_baudrate := uart_baudrate kw |}.

Definition set_baudrate (b : Z) (kw : Kwargs) : Kwargs := {|
  integrated_rom_size := integrated_rom_size kw; integrated_sram_size := integrated_sram_size kw;
  cpu_type_arg := cpu_type_arg kw; cpu_variant_arg := cpu_variant_arg kw; expansion := expansion kw;
  cpu_reset_address := cpu_reset_address kw; uart_baudrate := Some b |}.

Inductive constant := CInt (z : Z) | CStr (s : string).

Inductive action :=
| Core (clk_freq : Q) (with_uart : bool) (kw : Kwargs)   (** LiteX's own constructor *)
| Io (s : io_step)
| Submodule (n : string)
| AddConstant (n : string) (v : constant)
| RegisterMem (n : string) (origin size : Z)             (** [register_mem] *)
| AddRegion (n : string) (origin size : Z)               (** [add_memory_region] *)
| WbSlave (origin : Z)                                   (** [add_wb_slave(mem_decoder(origin))] *)
| AddInterrupt (n : string).

(** What LiteX's SoC classes provide: their memory map, the uncached shadow's
    address, the CPU they select for given arguments, and the resources the
    constructor requests itself. *)
Class LitexSoC := {
  core_mem_map : gmap string Z;
  core_csr_map : gmap string Z;
  shadow_base : Z;
  cpu_type : Kwargs -> option string;
  cpu_variant : Kwargs -> option string;
  core_io : bool -> list io_step
}.

(** Unless told not to, LiteX adds a UART on the pins named "serial". *)
Class LitexUart {LS : LitexSoC} : Prop := {
  core_io_uart : core_io true = [Request "serial" None];
  core_io_none : core_io false = []
}.

(** A LiteX that behaves as documented, with this memory map. *)
Definition plain_soc (m : gmap string Z) : LitexSoC := {|
  core_mem_map := m; core_csr_map := ∅; shadow_base := 0x80000000;
  cpu_type := cpu_type_arg; cpu_variant := cpu_variant_arg;
  core_io b := if b then [Request "serial" None] else [] |}.

Lemma plain_uart m : @LitexUart (plain_soc m).
Proof. by split. Qed.

(** [self.mem_map[n]]. *)
Definition mem (m : gmap string Z) (n : string) : result Z :=
  match m !! n with Some a => Ok a | None => Raise KeyError end.

(** [platform.x] for an attribute a board may lack. *)
Definition attr {A} (o : option A) : result A :=
  match o with Some a => Ok a | None => Raise AttributeError end.

(** [if k not in kwargs: kwargs[k] = v]. *)
Definition dflt {A} (o : option A) (v : A) : option A := Some (match o with Some x => x | None => v end).

Definition with_sizes (kw : Kwargs) (rom sram : Z) : Kwargs :=
  set_sizes (dflt (integrated_rom_size kw) rom) (dflt (integrated_sram_size kw) sram) kw.

(** [del kwargs['expansion']]. *)
Definition without_expansion (kw : Kwargs) : Kwargs := set_expansion None kw.

(** The networked targets: a larger ROM unless the CPU is lm32. *)
Definition net_kwargs (kw : Kwargs) : Kwargs :=
  match integrated_rom_size kw with
  | Some _ => kw
  | None =>
      if String.eqb (match cpu_type_arg kw with Some c => c | None => "lm32" end) "lm32" then kw
      else set_sizes (Some 0x10000) (integrated_sram_size kw) kw
  end.

(** [self.cpu_type == "vexriscv" and self.cpu_variant == "linux"]. *)
Definition runs_linux {LS : LitexSoC} (kw : Kwargs) : bool :=
  bool_decide (cpu_type kw = Some "vexriscv") && bool_decide (cpu_variant kw = Some "linux").

(** The memory of the machine-mode emulator, for Linux on VexRiscv. *)
Definition emulator_steps {LS : LitexSoC} (mem_map : gmap string Z) (kw : Kwargs) : result (list action) :=
  if runs_linux kw then
    a ← mem mem_map "emulator_ram";
    Ok [Submodule "emulator_ram"; RegisterMem "emulator_ram" a 0x4000]
  else Ok [].

(** [platform.request(n)], [platform.request(n, k)]. *)
Definition req (n : string) : action := Io (Request n None).
Definition reqn (n : string) (k : Z) : action := Io (Request n (Some k)).

(** [cas.ControlAndStatus(platform, clk_freq)]. *)
Definition cas_steps : list action :=
  [Io (TakeAll "user_led"); Io (TakeAll "rgb_led"); Io (TakeAll "user_sw"); Io (TakeAll "user_btn");
   Submodule "cas"].

(** The SPI flash on the pins [pads], with the sizes of the platform. *)
Definition spiflash_steps (pads : string) (platform : Platform) (flash : Z) : result (list action) :=
  dummy ← attr (spiflash_read_dummy_bits platform);
  div ← attr (spiflash_clock_div platform);
  page ← attr (spiflash_page_size platform);
  sector ← attr (spiflash_sector_size platform);
  total ← attr (spiflash_total_size platform);
  Ok [req pads; Submodule "spiflash";
      AddConstant "SPIFLASH_PAGE_SIZE" (CInt page);
      AddConstant "SPIFLASH_SECTOR_SIZE" (CInt sector);
      RegisterMem "spiflash" flash total].

(** [for name, value in sorted(hdmi_infos.items()): self.add_constant(name, value)]. *)
Definition info_constants (hdmi_infos : list (string * string)) : list action :=
  (fun kv => AddConstant (fst kv) (CStr (snd kv))) <$> sorted_items hdmi_infos.

(** Views of a list of steps. *)
Definition io_of {LS : LitexSoC} (l : list action) : list io_step :=
  flat_map (fun a => match a with Core _ u _ => core_io u | Io s => [s] | _ => [] end) l.

(** The same for a LiteX that behaves as documented. *)
Definition plain_io (l : list action) : list io_step :=
  flat_map (fun a => match a with
                     | Core _ true _ => [Request "serial" None]
                     | Io s => [s]
                     | _ => []
                     end) l.

Definition submodules_of (l : list action) : list string :=
  omap (fun a => match a with Submodule n => Some n | _ => None end) l.

Definition interrupts_of (l : list action) : list string :=
  omap (fun a => match a with AddInterrupt n => Some n | _ => None end) l.

(** The regions, as (name, first address, length); an address may carry the
    shadow bit. *)
Definition regions_of (l : list action) : list (string * Z * Z) :=
  omap (fun a => match a with
                 | RegisterMem n o s | AddRegion n o s => Some (n, o, s)
                 | _ => None end) l.

Definition constants_of (l : list action) : list (string * constant) :=
  omap (fun a => match a with AddConstant n v => Some (n, v) | _ => None end) l.

(** The values of FLASH_BOOT_ADDRESS a constructor gives. *)
Definition boot_constants (l : list action) : list constant :=
  omap (fun nv => if String.eqb (fst nv) "FLASH_BOOT_ADDRESS" then Some (snd nv) else None) (constants_of l).

Definition rom_size_of (l : list action) : option Z :=
  mjoin (head (omap (fun a => match a with Core _ _ kw => Some (integrated_rom_size kw) | _ => None end) l)).

(** The physical range of a region: the shadow bit does not select memory. *)
Definition phys (r : string * Z * Z) : Z * Z :=
  let o := Z.land (snd (fst r)) 0x7fffffff in (o, (o + snd r)%Z).

Definition disjoint (a b : string * Z * Z) : bool :=
  (snd (phys a) <=? fst (phys b))%Z || (snd (phys b) <=? fst (phys a))%Z.

Fixpoint pairwise {A} (f : A -> A -> bool) (l : list A) : bool :=
  match l with [] => true | x :: l => forallb (f x) l && pairwise f l end.

(** What [make.py] sees of the SoC: the regions LiteX declares itself, then
    those of the constructor. *)
Definition soc_of (core : list (string * Z)) (l : list action) : Make.SoC := {|
  Make.mem_regions := (core ++ ((fun r => (fst (fst r), snd r)) <$> regions_of l))%list;
  Make.has_cpu_type := true; Make.has_pcie_phy := false; Make.has_do_exit := false |}.

(** The image [mkimage.py] lays out for a platform and a SoC. *)
Definition image_of (p : Platform) (soc : Make.SoC) : FlashImage.Layout := {|
  FlashImage.gateware_size := default 0%Z (gateware_size p);
  FlashImage.bios_size := Make.get_bios_maxsize soc;
  FlashImage.spiflash_total_size := default 0%Z (spiflash_total_size p) |}.

(** ** Theorems *)

Lemma find_region_app n a b :
  Make.find_region n a = None -> Make.find_region n (a ++ b)%list = Make.find_region n b.
Proof.
  induction a as [|[k v] a IH]; [done|]. cbn [Make.find_region app].
  destruct (String.eqb k n); [done | exact IH].
Qed.

Lemma bios_maxsize_core core l :
  Make.find_region "rom" core = None ->
  Make.get_bios_maxsize (soc_of core l) = Make.get_bios_maxsize (soc_of [] l).
Proof. intros H. unfold Make.get_bios_maxsize, soc_of. cbn [Make.mem_regions]. by rewrite find_region_app. Qed.

Lemma bios_maxsize_rom core l rom :
  Make.find_region "rom" core = Some rom -> Make.get_bios_maxsize (soc_of core l) = rom.
Proof.
  intros H. unfold Make.get_bios_maxsize, soc_of. cbn [Make.mem_regions].
  revert H. induction core as [|[k v] core IH]; [done|]. cbn [Make.find_region app].
  destruct (String.eqb k "rom"); [by intros [= ->] | exact IH].
Qed.

Lemma max_value_spec m v : max_value m = Some v -> forall n x, m !! n = Some x -> (x <= v)%Z.
Proof.
  unfold max_value. intros H n x Hx.
  assert (Hin : x ∈ snd <$> map_to_list m).
  { apply list_elem_of_fmap. exists (n, x). split; [done|]. by apply elem_of_map_to_list. }
  destruct (snd <$> map_to_list m) as [|w ws]; [done|]. simplify_eq.
  assert (Hle : forall l y, (y ∈ l \/ y = w) -> (y <= foldr Z.max w l)%Z).
  { induction l as [|z l IH]; intros y [Hy| ->]; cbn [foldr].
    - by apply elem_of_nil in Hy.
    - lia.
    - apply elem_of_cons in Hy as [->|Hy]; [lia|]. specialize (IH y (or_introl Hy)). lia.
    - specialize (IH w (or_intror eq_refl)). lia. }
  apply Hle. apply elem_of_cons in Hin. tauto.
Qed.

Lemma max_value_none m : max_value m = None -> m = ∅.
Proof.
  unfold max_value. intros H. apply map_to_list_empty_iff. by destruct (map_to_list m).
Qed.

Lemma enumerate_app {A} s (l1 l2 : list A) :
  enumerate s (l1 ++ l2)%list = (enumerate s l1 ++ enumerate (s + Z.of_nat (length l1)) l2)%list.
Proof.
  revert s. induction l1 as [|x l1 IH]; intros s; cbn [enumerate app length]; [by rewrite Z.add_0_r|].
  rewrite IH. do 3 f_equal. lia.
Qed.

(** The value of a name after the insertions. *)
Lemma insert_all_enumerate m s ps n :
  (n ∉ ps -> insert_all m (enumerate s ps) !! n = m !! n) /\
  (n ∈ ps -> exists i, insert_all m (enumerate s ps) !! n = Some (s + Z.of_nat i)%Z /\ ps !! i = Some n).
Proof.
  induction ps as [|p ps [IH1 IH2]] using rev_ind; [split; [done | by intros ?%elem_of_nil]|].
  unfold insert_all in *. rewrite enumerate_app, foldl_app. cbn [enumerate foldl fst snd].
  destruct (decide (n = p)) as [->|Hne].
  - rewrite lookup_insert_eq. split; [set_solver|]. intros _. exists (length ps). split; [done|].
    by rewrite lookup_app_r, Nat.sub_diag.
  - rewrite lookup_insert_ne by done. split; [set_solver|]. intros Hn.
    destruct IH2 as (i & Hi & Hp); [set_solver|]. exists i. split; [done|]. by apply lookup_app_l_Some.
Qed.

Definition unique (m : gmap string Z) : Prop :=
  forall a b v, m !! a = Some v -> m !! b = Some v -> a = b.

(** Adding CSR banks keeps the numbering one-to-one. If no two banks
    of the map share a number, none do after [csr_map_update], whatever the
    names: repeated ones and ones that were there before included. Banks that
    are not named keep their number, and a named one gets a number above all
    earlier ones. *)
Theorem csr_map_update_unique (m : gmap string Z) (ps : list string) (Hu : unique m) :
  unique (csr_map_update m ps) /\
  (forall n, n ∉ ps -> csr_map_update m ps !! n = m !! n) /\
  (forall n, n ∈ ps -> exists v, csr_map_update m ps !! n = Some v /\
                         forall n' v', m !! n' = Some v' -> (v' < v)%Z).
Proof.
  unfold csr_map_update.
  set (start := match max_value m with Some v => (v + 1)%Z | None => 0%Z end).
  assert (Hs : forall n v, m !! n = Some v -> (v < start)%Z).
  { intros n v Hv. unfold start. destruct (max_value m) as [x|] eqn:E.
    - pose proof (max_value_spec m x E n v Hv). lia.
    - apply max_value_none in E. subst. by rewrite lookup_empty in Hv. }
  pose proof (insert_all_enumerate m start ps) as Hins. split_and!.
  - intros a b v Ha Hb. destruct (Hins a) as [Ha1 Ha2], (Hins b) as [Hb1 Hb2].
    destruct (decide (a ∈ ps)) as [Ia|Ia], (decide (b ∈ ps)) as [Ib|Ib].
    + destruct (Ha2 Ia) as (i & Hi & Hpi), (Hb2 Ib) as (j & Hj & Hpj).
      assert (i = j) as -> by (rewrite Ha in Hi; rewrite Hb in Hj; simplify_eq; lia). congruence.
    + destruct (Ha2 Ia) as (i & Hi & _). rewrite (Hb1 Ib) in Hb. apply Hs in Hb.
      rewrite Ha in Hi. simplify_eq. lia.
    + destruct (Hb2 Ib) as (i & Hi & _). rewrite (Ha1 Ia) in Ha. apply Hs in Ha.
      rewrite Hb in Hi. simplify_eq. lia.
    + rewrite (Ha1 Ia) in Ha. rewrite (Hb1 Ib) in Hb. eauto.
  - intros n Hn. by apply Hins.
  - intros n Hn. destruct (proj2 (Hins n) Hn) as (i & Hi & _). eexists. split; [exact Hi|].
    intros n' v' Hv'. apply Hs in Hv'. lia.
Qed.

(** The Opsis banks on a map with two banks, one of which is named again. *)
Lemma csr_map_update_unique_witness :
  unique {["ctrl" := 0%Z; "uart" := 2%Z]} /\
  unique (csr_map_update {["ctrl" := 0%Z; "uart" := 2%Z]} ["spiflash"; "front_panel"; "uart"]) /\
  (forall n, n ∉ ["spiflash"; "front_panel"; "uart"] ->
     csr_map_update {["ctrl" := 0%Z; "uart" := 2%Z]} ["spiflash"; "front_panel"; "uart"] !! n
     = ({["ctrl" := 0%Z; "uart" := 2%Z]} : gmap string Z) !! n) /\
  (forall n, n ∈ ["spiflash"; "front_panel"; "uart"] ->
     exists v, csr_map_update {["ctrl" := 0%Z; "uart" := 2%Z]} ["spiflash"; "front_panel"; "uart"] !! n = Some v /\
       forall n' v', ({["ctrl" := 0%Z; "uart" := 2%Z]} : gmap string Z) !! n' = Some v' -> (v' < v)%Z).
Proof.
  assert (H : unique {["ctrl" := 0%Z; "uart" := 2%Z]}).
  { intros a b v. rewrite !lookup_insert_Some, !lookup_singleton_Some. intuition congruence. }
  split; [exact H|]. exact (csr_map_update_unique _ ["spiflash"; "front_panel"; "uart"] H).
Defined.

(** A subclass cannot move a region of its base class; a region it names that
    the base does not have is added. *)
Lemma mem_map_update_lookup own base n :
  mem_map_update own base !! n = match base !! n with Some a => Some a | None => own !! n end.
Proof.
  unfold mem_map_update. destruct (base !! n) as [a|] eqn:E.
  - by apply lookup_union_Some_l.
  - by apply lookup_union_r.
Qed.

Lemma mem_own (k : string) v own base :
  own !! k = Some v -> exists a, mem (mem_map_update own base) k = Ok a.
Proof.
  intros H. unfold mem. rewrite mem_map_update_lookup, H. destruct (base !! k); eauto.
Qed.

Lemma mem_base (k : string) own base a :
  mem base k = Ok a -> mem (mem_map_update own base) k = Ok a.
Proof.
  unfold mem. rewrite mem_map_update_lookup. destruct (base !! k); [done | discriminate].
Qed.

Lemma plain_io_app a b : plain_io (a ++ b)%list = (plain_io a ++ plain_io b)%list.
Proof. apply flat_map_app. Qed.

Lemma io_of_plain {LS : LitexSoC} {LU : LitexUart} l : io_of l = plain_io l.
Proof.
  unfold io_of, plain_io. apply flat_map_ext. intros [f [] k|t|n|n v|n o z|n o z|o|n];
    auto using core_io_uart, core_io_none.
Qed.
Lemma regions_of_app a b : regions_of (a ++ b)%list = (regions_of a ++ regions_of b)%list.
Proof. apply omap_app. Qed.

Lemma constants_steps (l : list (string * string)) :
  plain_io ((fun kv => AddConstant (fst kv) (CStr (snd kv))) <$> l) = [] /\
  regions_of ((fun kv => AddConstant (fst kv) (CStr (snd kv))) <$> l) = [].
Proof. induction l as [|kv l [IH1 IH2]]; done. Qed.

Lemma emulator_steps_ok {LS : LitexSoC} mm kw :
  (exists a, mem mm "emulator_ram" = Ok a) ->
  exists emu, emulator_steps mm kw = Ok emu /\ plain_io emu = [] /\
    regions_of emu = (if runs_linux kw then
      match mem mm "emulator_ram" with Ok a => [("emulator_ram", a, 0x4000%Z)] | Raise _ => [] end else []).
Proof.
  intros [a Ha]. unfold emulator_steps. destruct (runs_linux kw); [|by eexists].
  rewrite Ha. cbn. by eexists.
Qed.

Lemma net_kwargs_rom kw :
  integrated_rom_size (net_kwargs kw) =
  match integrated_rom_size kw with
  | Some r => Some r
  | None => if decide (default "lm32" (cpu_type_arg kw) = "lm32") then None else Some 0x10000%Z
  end.
Proof.
  unfold net_kwargs. destruct (integrated_rom_size kw) as [r|] eqn:E; [done|].
  change (match cpu_type_arg kw with Some c => c | None => "lm32" end) with (default "lm32" (cpu_type_arg kw)).
  destruct (String.eqb_spec (default "lm32" (cpu_type_arg kw)) "lm32"); by case_decide.
Qed.
