(* ===== verification/TargetsOpsis.v ===== *)
(** * The Opsis targets

    [targets/opsis/*.py] and [gateware/tofe.py]: for each SoC class the CSR
    banks and memory map it declares, and the steps of its constructor: the
    resources it requests, the submodules it adds, the constants, memory
    regions, bus slaves and interrupts it registers. Timing constraints,
    stream connections and the arguments of library modules are left out. *)
From S2P Require Import Prelude PyStr Platform Resources PlatformOpsis Soc.
From S2P Require FlashImage.
From Stdlib Require Import QArith.
#[local] Open Scope Z_scope.

#[local] Open Scope string_scope.

(** ** TOFE expansion boards *)

Inductive tofe_class := TOFE | TOFELowSpeedIO | TOFE2AXIOM.

Definition TOFEBoard (name : string) : tofe_class :=
  if String.eqb (lower name) "lowspeedio" then TOFELowSpeedIO
  else if String.eqb (lower name) "axiom" then TOFELowSpeedIO
  else TOFE.

(** The constructor, called with or without a shared UART: the wrong number of
    arguments is a TypeError. *)
Definition tofe_init (c : tofe_class) (with_uart : bool) : result (list action) :=
  let common := [req "tofe"] in
  match c, with_uart with
  | TOFELowSpeedIO, true =>
      Ok (common ++
          [req "tofe_lsio_serial"; req "tofe_lsio_pmod_serial";
           reqn "tofe_lsio_user_led" 0; reqn "tofe_lsio_user_led" 1;
           reqn "tofe_lsio_user_led" 2; reqn "tofe_lsio_user_led" 3;
           reqn "tofe_lsio_user_sw" 0; reqn "tofe_lsio_user_sw" 1;
           reqn "tofe_lsio_user_sw" 2; reqn "tofe_lsio_user_sw" 3])%list
  | TOFELowSpeedIO, false => Raise TypeError
  | _, false => Ok common
  | _, true => Raise TypeError
  end.

(** [if tofe_board_name: ...] at the end of the base constructor: only the
    exact name gets the shared UART. *)
Definition tofe_steps (tofe_board_name : option string) : result (list action) :=
  match tofe_board_name with
  | Some n =>
      if truthy n then
        a ← tofe_init (TOFEBoard n) (String.eqb n "lowspeedio");
        Ok (a ++ [Submodule "tofe"])%list
      else Ok []
  | None => Ok []
  end.

(** ** Parts of the base SoC *)

Definition crg : list action := [req "clk100"; req "cpu_reset"; req "ddram_clock"].
Definition front_panel : list action := [req "pwrsw"; req "hdled"; req "pwled"].
Definition opsis_i2c : list action := [req "opsis_i2c"; req "fx2_reset"].

Section soc.
Context {LS : LitexSoC}.

(** ** [BaseSoC] *)

Definition base_csr : list string :=
  ["spiflash"; "front_panel"; "ddrphy"; "info"; "fx2_reset"; "fx2_hack"; "tofe"; "opsis_i2c"; "uart"].

Definition base_mem_map : gmap string Z :=
  mem_map_update {["spiflash" := 0x20000000%Z; "emulator_ram" := 0x50000000%Z]} core_mem_map.

(** [mem_map] is the one of the object's class. *)
Definition base_init (mem_map : gmap string Z) (kwargs : Kwargs) : result (list action) :=
  let kw := with_sizes kwargs 0x8000 0x8000 in
  let tofe_board_name := expansion kw in
  let kw := without_expansion kw in
  dummy ← attr (spiflash_read_dummy_bits opsis);
  div ← attr (spiflash_clock_div opsis);
  page ← attr (spiflash_page_size opsis);
  sector ← attr (spiflash_sector_size opsis);
  flash ← mem mem_map "spiflash";
  total ← attr (spiflash_total_size opsis);
  emulator ← emulator_steps mem_map kw;
  gateware ← attr (gateware_size opsis);
  let bios_size := 0x8000%Z in
  let flash_boot_address := (flash + gateware + bios_size)%Z in
  tofe ← tofe_steps tofe_board_name;
  Ok ([Core (inject_Z 50000000) false kw] ++
      crg ++ [Submodule "crg"; Submodule "info"] ++
      opsis_i2c ++ [Submodule "opsis_i2c"; Submodule "suart"; req "fx2_serial"; Submodule "uart";
                    req "spiflash4x"; Submodule "spiflash";
                    AddConstant "SPIFLASH_PAGE_SIZE" (CInt page);
                    AddConstant "SPIFLASH_SECTOR_SIZE" (CInt sector);
                    RegisterMem "spiflash" flash total] ++
      emulator ++
      [AddConstant "FLASH_BOOT_ADDRESS" (CInt flash_boot_address)] ++
      front_panel ++ [Submodule "front_panel"; req "ddram"; Submodule "ddrphy"] ++
      tofe ++ [AddInterrupt "uart"])%list.

(** ** [NetSoC] *)

Definition net_csr : list string := ["ethphy"; "ethmac"].

Definition net_mem_map : gmap string Z := mem_map_update {["ethmac" := 0x30000000%Z]} base_mem_map.

Definition net_init (mem_map : gmap string Z) (kwargs : Kwargs) : result (list action) :=
  base ← base_init mem_map (net_kwargs kwargs);
  ethmac ← mem mem_map "ethmac";
  Ok (base ++ [req "eth_clocks"; req "eth"; Submodule "ethphy"; Submodule "ethmac"; WbSlave ethmac;
               AddRegion "ethmac" (Z.lor ethmac shadow_base) 0x2000; AddInterrupt "ethmac"])%list.

(** ** [VideoSoC] *)

Definition video_csr : list string :=
  ["hdmi_out0"; "hdmi_out1"; "hdmi_in0"; "hdmi_in0_freq"; "hdmi_in0_edid_mem";
   "hdmi_in1"; "hdmi_in1_freq"; "hdmi_in1_edid_mem"].

(** [for name, value in sorted(self.platform.hdmi_infos.items())]; the
    descriptions are text. *)
Definition video_init (hdmi_infos : list (string * string)) (mem_map : gmap string Z) (kwargs : Kwargs)
    : result (list action) :=
  net ← net_init mem_map kwargs;
  Ok (net ++ [reqn "hdmi_in" 0; Submodule "hdmi_in0"; Submodule "hdmi_in0_freq";
              reqn "hdmi_in" 1; Submodule "hdmi_in1"; Submodule "hdmi_in1_freq";
              reqn "hdmi_out" 0; Submodule "hdmi_out0";
              reqn "hdmi_out" 1; Submodule "hdmi_out1"] ++
      ((fun kv => AddConstant (fst kv) (CStr (snd kv))) <$> sorted_items hdmi_infos) ++
      [AddInterrupt "hdmi_in0"; AddInterrupt "hdmi_in1"])%list.

(** ** [HDMI2USBSoC] and [EncoderSoC] *)

Definition encoder_csr : list string := ["encoder_reader"; "encoder"].

(** The encoder's region on top of the memory map of the base class, which is
    the network's in both cases. *)
Definition encoder_mem_map : gmap string Z := mem_map_update {["encoder" := 0x50000000%Z]} net_mem_map.

Definition encoder_steps (mem_map : gmap string Z) : result (list action) :=
  enc ← mem mem_map "encoder";
  Ok [Submodule "encoder_reader"; req "fx2"; WbSlave enc;
      AddRegion "encoder" (enc + shadow_base) 0x2000].

Definition hdmi2usb_init (hdmi_infos : list (string * string)) (kwargs : Kwargs) : result (list action) :=
  video ← video_init hdmi_infos encoder_mem_map kwargs;
  enc ← encoder_steps encoder_mem_map;
  Ok (video ++ enc)%list.

Definition encoder_init (kwargs : Kwargs) : result (list action) :=
  net ← net_init encoder_mem_map kwargs;
  enc ← encoder_steps encoder_mem_map;
  Ok (net ++ enc)%list.

(** ** [AxiomSoC] *)

Definition axiom_csr : list string := ["gpio"].

(** [expansion='tofe2axiom'] next to an [expansion] in the arguments is a
    TypeError. *)
Definition axiom_init (kwargs : Kwargs) : result (list action) :=
  match expansion kwargs with
  | Some _ => Raise TypeError
  | None =>
      net ← net_init net_mem_map
              (set_expansion (Some "tofe2axiom") kwargs);
      Ok (net ++ [reqn "tofe" 0; Submodule "gpio"])%list
  end.

(** The CSR banks as the modules declare them, each class on its base's map. *)
Definition base_csr_map : gmap string Z := csr_map_update core_csr_map base_csr.
Definition net_csr_map : gmap string Z := csr_map_update base_csr_map net_csr.
Definition video_csr_map : gmap string Z := csr_map_update net_csr_map video_csr.
Definition hdmi2usb_csr_map : gmap string Z := csr_map_update video_csr_map encoder_csr.
End soc.

(** ** Theorems *)

(** An expansion board that can be constructed: none, or one whose class takes
    the arguments it is called with. *)
Definition tofe_ok (e : option string) : bool := is_ok (tofe_steps e).

(** The three possible outcomes. *)
Lemma tofe_steps_cases e l :
  tofe_steps e = Ok l -> l = [] \/ l = [req "tofe"; Submodule "tofe"] \/
    tofe_steps (Some "lowspeedio") = Ok l.
Proof.
  unfold tofe_steps. destruct e as [n|]; [|intros [= <-]; auto].
  destruct (truthy n); [|intros [= <-]; auto].
  destruct (TOFEBoard n) eqn:Ec, (String.eqb_spec n "lowspeedio") as [->|Hn]; cbn; try done;
    intros [= <-]; auto.
Qed.

Section theorems.
Context {LS : LitexSoC}.

Lemma base_spiflash : exists a, mem base_mem_map "spiflash" = Ok a.
Proof. by eapply mem_own. Qed.
Lemma base_emulator : exists a, mem base_mem_map "emulator_ram" = Ok a.
Proof. by eapply mem_own. Qed.
Lemma net_ethmac : exists a, mem net_mem_map "ethmac" = Ok a.
Proof. by eapply mem_own. Qed.
Lemma encoder_encoder : exists a, mem encoder_mem_map "encoder" = Ok a.
Proof. by eapply mem_own. Qed.

(** What the base constructor does, given the addresses. *)
Definition base_result (kw : Kwargs) (flash : Z) (emulator tofe : list action) : list action :=
  ([Core (inject_Z 50000000) false (without_expansion (with_sizes kw 0x8000 0x8000))] ++
   crg ++ [Submodule "crg"; Submodule "info"] ++
   opsis_i2c ++ [Submodule "opsis_i2c"; Submodule "suart"; req "fx2_serial"; Submodule "uart";
                 req "spiflash4x"; Submodule "spiflash";
                 AddConstant "SPIFLASH_PAGE_SIZE" (CInt 256);
                 AddConstant "SPIFLASH_SECTOR_SIZE" (CInt 0x10000);
                 RegisterMem "spiflash" flash 0x1000000] ++
   emulator ++
   [AddConstant "FLASH_BOOT_ADDRESS" (CInt (flash + 0x200000 + 0x8000))] ++
   front_panel ++ [Submodule "front_panel"; req "ddram"; Submodule "ddrphy"] ++
   tofe ++ [AddInterrupt "uart"])%list.

Lemma base_init_eq mm kw flash emu tofe :
  mem mm "spiflash" = Ok flash ->
  emulator_steps mm (without_expansion (with_sizes kw 0x8000 0x8000)) = Ok emu ->
  tofe_steps (expansion kw) = Ok tofe ->
  base_init mm kw = Ok (base_result kw flash emu tofe).
Proof.
  intros Hf He Ht. unfold base_init. cbn [expansion with_sizes]. cbn -[mem emulator_steps tofe_steps].
  rewrite Hf. cbn -[mem emulator_steps tofe_steps]. rewrite He. cbn -[mem emulator_steps tofe_steps].
  rewrite Ht. done.
Qed.

Lemma net_kwargs_expansion kw : expansion (net_kwargs kw) = expansion kw.
Proof. unfold net_kwargs. by repeat case_match. Qed.

Lemma net_init_eq mm kw flash emu ethmac tofe :
  mem mm "spiflash" = Ok flash -> mem mm "ethmac" = Ok ethmac ->
  emulator_steps mm (without_expansion (with_sizes (net_kwargs kw) 0x8000 0x8000)) = Ok emu ->
  tofe_steps (expansion kw) = Ok tofe ->
  net_init mm kw =
    Ok (base_result (net_kwargs kw) flash emu tofe ++
        [req "eth_clocks"; req "eth"; Submodule "ethphy"; Submodule "ethmac"; WbSlave ethmac;
         AddRegion "ethmac" (Z.lor ethmac shadow_base) 0x2000; AddInterrupt "ethmac"])%list.
Proof.
  intros Hf Hm He Ht. unfold net_init. rewrite (base_init_eq mm _ flash emu tofe Hf He).
  - cbn [mbind result_bind]. by rewrite Hm.
  - by rewrite net_kwargs_expansion.
Qed.

(** What the SoCs request, given what the expansion board requests. *)
Definition base_io (tofe : list action) : list io_step :=
  plain_io (base_result no_kwargs 0 [] tofe).

Definition net_io (tofe : list action) : list io_step :=
  (base_io tofe ++ [Request "eth_clocks" None; Request "eth" None])%list.

Definition hdmi2usb_io (tofe : list action) : list io_step :=
  (net_io tofe ++ [Request "hdmi_in" (Some 0%Z); Request "hdmi_in" (Some 1%Z);
                   Request "hdmi_out" (Some 0%Z); Request "hdmi_out" (Some 1%Z);
                   Request "fx2" None])%list.

Lemma base_result_io kw flash emu tofe :
  plain_io emu = [] -> plain_io (base_result kw flash emu tofe) = base_io tofe.
Proof. intros He. unfold base_io, base_result. rewrite !plain_io_app, He. done. Qed.

Lemma mem_map_chain :
  (exists f, mem base_mem_map "spiflash" = Ok f /\ mem net_mem_map "spiflash" = Ok f /\
             mem encoder_mem_map "spiflash" = Ok f) /\
  (exists e, mem base_mem_map "emulator_ram" = Ok e /\ mem net_mem_map "emulator_ram" = Ok e /\
             mem encoder_mem_map "emulator_ram" = Ok e) /\
  (exists m, mem net_mem_map "ethmac" = Ok m /\ mem encoder_mem_map "ethmac" = Ok m) /\
  (exists c, mem encoder_mem_map "encoder" = Ok c).
Proof.
  destruct base_spiflash as [f Hf], base_emulator as [e He], net_ethmac as [m Hm], encoder_encoder as [c Hc].
  split_and!; [exists f | exists e | exists m | by exists c]; split_and!; try done;
    unfold encoder_mem_map; try apply mem_base; try done; unfold net_mem_map; by apply mem_base.
Qed.

Lemma net_init_ok kw tofe :
  tofe_steps (expansion kw) = Ok tofe ->
  exists l, net_init net_mem_map kw = Ok l /\ plain_io l = net_io tofe.
Proof.
  intros Ht. destruct mem_map_chain as ((f & _ & Hf & _) & (e & _ & He & _) & (m & Hm & _) & _).
  destruct (emulator_steps_ok net_mem_map (without_expansion (with_sizes (net_kwargs kw) 0x8000 0x8000)))
    as (emu & Hemu & Hio & _); [by exists e|].
  rewrite (net_init_eq _ kw f emu m tofe Hf Hm Hemu Ht). eexists. split; [done|].
  rewrite plain_io_app, (base_result_io _ _ _ _ Hio). done.
Qed.

Lemma hdmi2usb_init_ok infos kw tofe :
  tofe_steps (expansion kw) = Ok tofe ->
  exists l, hdmi2usb_init infos kw = Ok l /\ plain_io l = hdmi2usb_io tofe.
Proof.
  intros Ht. destruct mem_map_chain as ((f & _ & _ & Hf) & (e & _ & _ & He) & (m & _ & Hm) & (c & Hc)).
  destruct (emulator_steps_ok encoder_mem_map (without_expansion (with_sizes (net_kwargs kw) 0x8000 0x8000)))
    as (emu & Hemu & Hio & _); [by exists e|].
  unfold hdmi2usb_init, video_init, encoder_steps.
  rewrite (net_init_eq _ kw f emu m tofe Hf Hm Hemu Ht). cbn [mbind result_bind]. rewrite Hc.
  cbn [mbind result_bind]. eexists. split; [done|].
  rewrite !plain_io_app, (base_result_io _ _ _ _ Hio), (proj1 (constants_steps _)). unfold hdmi2usb_io, net_io.
  by rewrite <- !(assoc_L (++)%list).
Qed.
End theorems.

(** The Opsis as LiteX sees it. *)
Definition opsis_board : board := (io opsis, opsis_connectors).

Lemma hdmi2usb_io_wired e tofe :
  tofe_steps e = Ok tofe -> wired (hdmi2usb_io tofe) opsis_board = true.
Proof.
  intros [->|[->|H]]%tofe_steps_cases; [vm_compute; reflexivity..|].
  vm_compute in H. injection H as <-. vm_compute. reflexivity.
Qed.

(** Claim C14: the HDMI2USB SoC fits the Opsis, for every LiteX, every keyword
    arguments and every expansion board that can be constructed. Its
    constructor succeeds; every resource it asks for is there when it asks;
    and the resources it gets are placed on pairwise different FPGA pins, the
    expansion board's included. *)
Theorem hdmi2usb_wired {LS : LitexSoC} {LU : LitexUart} {M : Type} {L : Litex M} {LL : LitexLaws M}
    (m : M) (infos : list (string * string)) (kw : Kwargs)
    (Hio : available m = io opsis) (Hc : conns_of m = opsis_connectors)
    (He : tofe_ok (expansion kw) = true) :
  exists l rs m' ps, hdmi2usb_init infos kw = Ok l /\ run_io (io_of l) m = Some (rs, m') /\
    all_pads m' rs = Some ps /\ NoDup ps.
Proof.
  unfold tofe_ok in He. destruct (tofe_steps (expansion kw)) as [tofe|] eqn:Ht; [|done].
  destruct (hdmi2usb_init_ok infos kw tofe Ht) as (l & Hl & Hlio).
  destruct (wired_spec (hdmi2usb_io tofe) m) as (rs & m' & ps & H1 & H2 & H3).
  - rewrite wired_view. unfold view. rewrite Hio, Hc. by apply (hdmi2usb_io_wired (expansion kw)).
  - exists l, rs, m', ps. rewrite io_of_plain, Hlio. done.
Qed.

(** LiteX's list of resources, its memory map empty, with LowSpeedIO. *)
Lemma hdmi2usb_wired_witness :
  let LS := plain_soc ∅ in
  let kw := set_expansion (Some "lowspeedio") no_kwargs in
  exists l rs m' ps, hdmi2usb_init [] kw = Ok l /\ run_io (io_of l) opsis_board = Some (rs, m') /\
    all_pads m' rs = Some ps /\ NoDup ps.
Proof.
  intros LS kw.
  exact (hdmi2usb_wired (LU := plain_uart ∅) (L := board_litex) opsis_board [] kw ltac:(reflexivity) ltac:(reflexivity) ltac:(vm_compute; reflexivity)).
Defined.

(** *** Expansion boards *)

Lemma tofe_steps_error e :
  (exists n, e = Some n /\ n <> "lowspeedio" /\ (lower n = "lowspeedio" \/ lower n = "axiom")) ->
  tofe_steps e = Raise TypeError.
Proof.
  intros (n & -> & Hn & Hl). unfold tofe_steps.
  assert (truthy n = true) as -> by (destruct n; [destruct Hl as [Hl|Hl]; vm_compute in Hl; discriminate | done]).
  assert (TOFEBoard n = TOFELowSpeedIO) as ->.
  { unfold TOFEBoard. destruct Hl as [-> | ->]; [done|]. reflexivity. }
  by destruct (String.eqb_spec n "lowspeedio").
Qed.

Lemma tofe_steps_fine e :
  (forall n, e = Some n -> n = "lowspeedio" \/ (lower n <> "lowspeedio" /\ lower n <> "axiom")) ->
  exists tofe, tofe_steps e = Ok tofe.
Proof.
  intros H. destruct e as [n|]; [|by eexists]. unfold tofe_steps.
  destruct (truthy n); [|by eexists]. destruct (H n eq_refl) as [->|[H1 H2]]; [by eexists|].
  destruct (String.eqb_spec n "lowspeedio") as [->|]; [by destruct H1|].
  unfold TOFEBoard. apply String.eqb_neq in H1 as ->. apply String.eqb_neq in H2 as ->. by eexists.
Qed.

(** Which expansion boards the networked SoC can be built with. The
    constructor fails, with a TypeError, exactly when [TOFEBoard] answers the
    LowSpeedIO class for a name other than "lowspeedio" itself: "axiom" in any
    case, and "lowspeedio" with an upper-case letter. Only the exact name gets
    the shared UART the class needs. *)
Theorem expansion_outcomes {LS : LitexSoC} (kw : Kwargs) :
  let clash := exists n, expansion kw = Some n /\ n <> "lowspeedio" /\
                 (lower n = "lowspeedio" \/ lower n = "axiom") in
  (clash -> net_init net_mem_map kw = Raise TypeError) /\
  (~ clash -> exists l, net_init net_mem_map kw = Ok l).
Proof.
  intros clash. split; intros H.
  - destruct mem_map_chain as ((f & _ & Hf & _) & (e & _ & He & _) & _).
    destruct (emulator_steps_ok net_mem_map (without_expansion (with_sizes (net_kwargs kw) 0x8000 0x8000)))
      as (emu & Hemu & _); [by exists e|].
    unfold net_init, base_init. cbn [expansion with_sizes]. cbn -[mem emulator_steps tofe_steps net_kwargs].
    rewrite Hf. cbn -[emulator_steps tofe_steps net_kwargs]. rewrite Hemu.
    cbn -[tofe_steps net_kwargs]. rewrite net_kwargs_expansion, tofe_steps_error by done. done.
  - destruct (tofe_steps_fine (expansion kw)) as [tofe Ht].
    + intros n Hn. destruct (decide (n = "lowspeedio")) as [|Hne]; [by left|]. right.
      split; intros Hl; apply H; exists n; auto.
    + destruct (net_init_ok kw tofe Ht) as (l & Hl & _). eauto.
Qed.

(** "Axiom" is refused, "milkymist" is not. *)
Lemma expansion_outcomes_witness :
  let LS := plain_soc ∅ in
  let kw n := set_expansion (Some n) no_kwargs in
  net_init net_mem_map (kw "Axiom") = Raise TypeError /\
  exists l, net_init net_mem_map (kw "milkymist") = Ok l.
Proof.
  intros LS kw. split.
  - apply (proj1 (expansion_outcomes (kw "Axiom"))). exists "Axiom".
    split; [done|]. split; [done|]. right. reflexivity.
  - apply (proj2 (expansion_outcomes (kw "milkymist"))).
    intros (n & [= <-] & _ & [H|H]); vm_compute in H; discriminate.
Defined.

(** *** The Axiom SoC *)

Definition axiom_io : list io_step :=
  (net_io [req "tofe"; Submodule "tofe"] ++ [Request "tofe" (Some 0%Z)])%list.

(** What the reference grants for these requests. *)
Lemma axiom_grants :
  exists rs b ps, run_io axiom_io opsis_board = Some (rs, b) /\ all_pads b rs = Some ps /\
    NoDup ps /\ last rs = tofe_resource /\
    exists common, In ("tofe", Nr 0, common) rs /\ identifiers (Subsignal "" common) = ["D3"; "N6"; "N7"].
Proof.
  do 3 eexists. split; [vm_compute; reflexivity|]. split; [vm_compute; reflexivity|].
  split; [refine (bool_decide_unpack _ _); vm_compute; exact I | split; [vm_compute; reflexivity|]].
  eexists. split; [do 11 right; left; reflexivity | reflexivity].
Qed.

Lemma axiom_init_ok {LS : LitexSoC} kw :
  expansion kw = None -> exists l, axiom_init kw = Ok l /\ plain_io l = axiom_io.
Proof.
  intros He. unfold axiom_init. rewrite He.
  match goal with |- context [net_init _ ?k] =>
    destruct (net_init_ok k [req "tofe"; Submodule "tofe"]) as (l & -> & Hl); [reflexivity|] end.
  cbn [mbind result_bind]. eexists. split; [done|]. by rewrite plain_io_app, Hl.
Qed.

(** The Axiom SoC, whose board table lists "tofe" number 0 twice. For
    every LiteX the constructor succeeds, all its requests are granted on
    different pins, and of the two "tofe" resources the expansion board gets
    the one with the I2C bus and the reset, the GPIOs the one the platform
    computes from the connector's nets. *)
Theorem axiom_gets_signals {LS : LitexSoC} {LU : LitexUart} {M : Type} {L : Litex M} {LL : LitexLaws M}
    (m : M) (kw : Kwargs)
    (Hio : available m = io opsis) (Hc : conns_of m = opsis_connectors)
    (He : expansion kw = None) :
  exists l rs m' ps, axiom_init kw = Ok l /\ run_io (io_of l) m = Some (rs, m') /\
    all_pads m' rs = Some ps /\ NoDup ps /\
    last rs = tofe_resource /\
    exists common, In ("tofe", Nr 0, common) rs /\ identifiers (Subsignal "" common) = ["D3"; "N6"; "N7"].
Proof.
  destruct (axiom_init_ok kw He) as (l & Hl & Hlio).
  assert (Hv : view m = opsis_board) by (unfold view; by rewrite Hio, Hc).
  destruct axiom_grants as (rs & b & ps & Hrun & Hpads & H). rewrite <- Hv in Hrun.
  destruct (run_io_reference axiom_io m rs b Hrun) as (m' & Hm' & Hb).
  exists l, rs, m', ps. rewrite io_of_plain, Hlio, all_pads_view, Hb. tauto.
Qed.

Lemma axiom_gets_signals_witness :
  let LS := plain_soc ∅ in
  let kw := no_kwargs in
  exists l rs m' ps, axiom_init kw = Ok l /\ run_io (io_of l) opsis_board = Some (rs, m') /\
    all_pads m' rs = Some ps /\ NoDup ps /\
    last rs = tofe_resource /\
    exists common, In ("tofe", Nr 0, common) rs /\ identifiers (Subsignal "" common) = ["D3"; "N6"; "N7"].
Proof.
  intros LS kw.
  exact (axiom_gets_signals (LU := plain_uart ∅) (L := board_litex) opsis_board kw
           ltac:(reflexivity) ltac:(reflexivity) ltac:(reflexivity)).
Defined.

(** *** Memory regions *)

(** The arguments as LiteX gets them from the HDMI2USB SoC. *)
Definition final_kwargs (kw : Kwargs) : Kwargs :=
  without_expansion (with_sizes (net_kwargs kw) 0x8000 0x8000).

(** LiteX's own map has none of the names the targets add. *)
Definition fresh_map {LS : LitexSoC} : Prop :=
  core_mem_map !! "spiflash" = None /\ core_mem_map !! "emulator_ram" = None /\
  core_mem_map !! "ethmac" = None /\ core_mem_map !! "encoder" = None.

Lemma encoder_addresses {LS : LitexSoC} :
  fresh_map ->
  mem encoder_mem_map "spiflash" = Ok 0x20000000%Z /\ mem encoder_mem_map "emulator_ram" = Ok 0x50000000%Z /\
  mem encoder_mem_map "ethmac" = Ok 0x30000000%Z /\ mem encoder_mem_map "encoder" = Ok 0x50000000%Z.
Proof.
  intros (H1 & H2 & H3 & H4).
  unfold mem, encoder_mem_map, net_mem_map, base_mem_map. rewrite !mem_map_update_lookup, H1, H2, H3, H4.
  split_and!; vm_compute; reflexivity.
Qed.

(** The memory regions the HDMI2USB SoC registers: flash, Ethernet
    buffers and encoder, and the emulator's RAM on a VexRiscv that runs Linux.
    They occupy different physical addresses exactly when the CPU is not that
    one: the emulator's RAM and the encoder are both at 0x50000000. *)
Theorem regions_disjoint {LS : LitexSoC} (infos : list (string * string)) (kw : Kwargs)
    (Hfresh : fresh_map) (Hshadow : shadow_base = 0x80000000%Z) (He : tofe_ok (expansion kw) = true) :
  exists l, hdmi2usb_init infos kw = Ok l /\
    pairwise disjoint (regions_of l) = negb (runs_linux (final_kwargs kw)).
Proof.
  unfold tofe_ok in He. destruct (tofe_steps (expansion kw)) as [tofe|] eqn:Ht; [|done].
  destruct (encoder_addresses Hfresh) as (Hf & Hemu & Hm & Hc).
  destruct (emulator_steps_ok encoder_mem_map (final_kwargs kw)) as (emu & Hes & _ & Hreg); [by eexists|].
  unfold hdmi2usb_init, video_init, encoder_steps.
  rewrite (net_init_eq _ kw _ emu _ tofe Hf Hm Hes Ht). cbn [mbind result_bind]. rewrite Hc.
  cbn [mbind result_bind]. eexists. split; [done|].
  assert (Hnone : regions_of tofe = []).
  { destruct (tofe_steps_cases _ _ Ht) as [->|[->|H]]; [done..|]. vm_compute in H. by injection H as <-. }
  rewrite Hemu in Hreg. unfold base_result. rewrite !regions_of_app, Hnone, Hreg, (proj2 (constants_steps _)), Hshadow.
  destruct (runs_linux (final_kwargs kw)); vm_compute; reflexivity.
Qed.

Lemma regions_disjoint_witness :
  let LS := plain_soc {["main_ram" := 0x40000000%Z]} in
  let kw := set_cpu (Some "vexriscv") (Some "linux") no_kwargs in
  exists l, hdmi2usb_init [] kw = Ok l /\
    pairwise disjoint (regions_of l) = negb (runs_linux (final_kwargs kw)).
Proof.
  intros LS kw. apply (regions_disjoint (LS := LS) [] kw); [|reflexivity|reflexivity].
  split_and!; vm_compute; reflexivity.
Defined.

(** *** Where the BIOS looks for the firmware *)

(** The image [mkimage.py] writes for a SoC whose ROM has this length. *)
Definition image_layout (rom : Z) : FlashImage.Layout :=
  FlashImage.Build_Layout (the (gateware_size opsis) I) rom (the (spiflash_total_size opsis) I).

(** Claim C17: the boot address of the networked SoC against the flash image.
    [mkimage.py] puts the firmware after a BIOS area as long as the ROM; the
    constructor computes FLASH_BOOT_ADDRESS for a BIOS of 0x8000 bytes. They
    agree exactly when the ROM has that length: when it is asked for, or when
    no length is given and the CPU is lm32. With any other CPU the networked
    SoC asks for 0x10000, and the address is 0x8000 short. *)
Theorem boot_address_vs_image {LS : LitexSoC} (kw : Kwargs) (He : tofe_ok (expansion kw) = true) :
  exists l flash boot rom,
    net_init net_mem_map kw = Ok l /\
    mem net_mem_map "spiflash" = Ok flash /\
    In ("FLASH_BOOT_ADDRESS", CInt boot) (constants_of l) /\
    rom_size_of l = Some rom /\
    rom = match integrated_rom_size kw with
          | Some r => r
          | None => if decide (default "lm32" (cpu_type_arg kw) = "lm32") then 0x8000%Z else 0x10000%Z
          end /\
    (boot = flash + FlashImage.firmware_pos (image_layout rom) <-> rom = 0x8000)%Z.
Proof.
  unfold tofe_ok in He. destruct (tofe_steps (expansion kw)) as [tofe|] eqn:Ht; [|done].
  destruct mem_map_chain as ((f & _ & Hf & _) & (e & _ & Hemu & _) & (m & Hm & _) & _).
  destruct (emulator_steps_ok net_mem_map (final_kwargs kw)) as (emu & Hes & _ & _); [by eexists|].
  rewrite (net_init_eq _ kw f emu m tofe Hf Hm Hes Ht).
  do 4 eexists. split; [reflexivity|]. split; [exact Hf|]. split.
  { unfold base_result, constants_of. rewrite !omap_app. apply in_or_app. left. do 6 (apply in_or_app; right).
    apply in_or_app. left. left. reflexivity. }
  split; [reflexivity|]. split.
  - cbn [integrated_rom_size without_expansion with_sizes dflt].
    rewrite net_kwargs_rom. destruct (integrated_rom_size kw); [done|]. by case_decide.
  - unfold FlashImage.firmware_pos, image_layout. cbn [FlashImage.gateware_size FlashImage.bios_size].
    change (the (gateware_size opsis) I) with 0x200000%Z. lia.
Qed.

(** An or1k: the address is the start of the second half of the ROM's area. *)
Lemma boot_address_vs_image_witness :
  let LS := plain_soc ∅ in
  let kw := set_cpu (Some "or1k") None no_kwargs in
  exists l flash boot rom,
    net_init net_mem_map kw = Ok l /\
    mem net_mem_map "spiflash" = Ok flash /\
    In ("FLASH_BOOT_ADDRESS", CInt boot) (constants_of l) /\
    rom_size_of l = Some rom /\
    rom = match integrated_rom_size kw with
          | Some r => r
          | None => if decide (default "lm32" (cpu_type_arg kw) = "lm32") then 0x8000%Z else 0x10000%Z
          end /\
    (boot = flash + FlashImage.firmware_pos (image_layout rom) <-> rom = 0x8000)%Z.
Proof. intros LS kw. exact (boot_address_vs_image (LS := LS) kw ltac:(reflexivity)). Defined.
