(* ===== verification/TargetsAtlys.v ===== *)
(** * The Atlys targets

    [targets/atlys/*.py]: the CSR banks, memory maps and constructor steps of
    the SoC classes for the Atlys, in the same form as for the Opsis. LiteX
    adds a UART itself here and requests its pins; that is part of [Core]. *)
From Stdlib Require Import QArith.
From S2P Require Import Prelude PyStr Platform Resources PlatformAtlys Soc.
#[local] Open Scope Z_scope.

#[local] Open Scope string_scope.

Definition crg : list action := [req "clk100"; req "cpu_reset"; req "ddram_clock"].

Section soc.
Context {LS : LitexSoC}.

(** ** [BaseSoC] *)

Definition base_csr : list string := ["spiflash"; "ddrphy"; "info"].

Definition base_mem_map : gmap string Z :=
  mem_map_update {["spiflash" := 0x20000000%Z]} core_mem_map.

Definition base_init (platform : Platform) (mem_map : gmap string Z) (kwargs : Kwargs)
    : result (list action) :=
  let kw := with_sizes kwargs 0x8000 0x8000 in
  dummy ← attr (spiflash_read_dummy_bits platform);
  div ← attr (spiflash_clock_div platform);
  page ← attr (spiflash_page_size platform);
  sector ← attr (spiflash_sector_size platform);
  flash ← mem mem_map "spiflash";
  total ← attr (spiflash_total_size platform);
  gateware ← attr (gateware_size platform);
  let bios_size := 0x8000%Z in
  let flash_boot_address := (flash + gateware + bios_size)%Z in
  Ok ([Core (inject_Z 75000000) true kw] ++
      crg ++ [Submodule "crg"; Submodule "info"; req "spiflash4x"; Submodule "spiflash";
              AddConstant "SPIFLASH_PAGE_SIZE" (CInt page);
              AddConstant "SPIFLASH_SECTOR_SIZE" (CInt sector);
              RegisterMem "spiflash" flash total;
              AddConstant "FLASH_BOOT_ADDRESS" (CInt flash_boot_address);
              req "ddram"; Submodule "ddrphy"])%list.

(** ** [NetSoC] *)

Definition net_csr : list string := ["ethphy"; "ethmac"].

Definition net_mem_map : gmap string Z := mem_map_update {["ethmac" := 0x30000000%Z]} base_mem_map.

Definition net_init (platform : Platform) (kwargs : Kwargs) : result (list action) :=
  base ← base_init platform net_mem_map (net_kwargs kwargs);
  ethmac ← mem net_mem_map "ethmac";
  Ok (base ++ [req "eth_clocks"; req "eth"; Submodule "ethphy"; Submodule "ethmac"; WbSlave ethmac;
               AddRegion "ethmac" (Z.lor ethmac shadow_base) 0x2000; AddInterrupt "ethmac"])%list.

(** ** [VideoSoC] *)

Definition video_csr : list string :=
  ["hdmi_out0"; "hdmi_out1"; "hdmi_in0"; "hdmi_in0_edid_mem"; "hdmi_in1"; "hdmi_in1_edid_mem"].

Definition video_init (platform : Platform) (hdmi_infos : list (string * string))
    (mem_map : gmap string Z) (kwargs : Kwargs) : result (list action) :=
  base ← base_init platform mem_map kwargs;
  Ok (base ++ [reqn "hdmi_in" 0; Submodule "hdmi_in0"; reqn "hdmi_in" 1; Submodule "hdmi_in1";
               reqn "hdmi_out" 0; Submodule "hdmi_out0"; reqn "hdmi_out" 1; Submodule "hdmi_out1"] ++
      ((fun kv => AddConstant (fst kv) (CStr (snd kv))) <$> sorted_items hdmi_infos) ++
      [AddInterrupt "hdmi_in0"; AddInterrupt "hdmi_in1"])%list.

(** ** [HDMI2USBSoC] *)

Definition encoder_csr : list string := ["encoder_reader"; "encoder"].

Definition encoder_mem_map : gmap string Z := mem_map_update {["encoder" := 0x50000000%Z]} base_mem_map.

Definition hdmi2usb_init (platform : Platform) (hdmi_infos : list (string * string)) (kwargs : Kwargs)
    : result (list action) :=
  video ← video_init platform hdmi_infos encoder_mem_map kwargs;
  enc ← mem encoder_mem_map "encoder";
  Ok (video ++ [Submodule "encoder_reader"; req "fx2"; WbSlave enc;
                AddRegion "encoder" (enc + shadow_base) 0x2000])%list.
End soc.

(** ** Theorems *)

Definition hdmi2usb_io : list io_step :=
  [Request "serial" None; Request "clk100" None; Request "cpu_reset" None; Request "ddram_clock" None;
   Request "spiflash4x" None; Request "ddram" None;
   Request "hdmi_in" (Some 0%Z); Request "hdmi_in" (Some 1%Z);
   Request "hdmi_out" (Some 0%Z); Request "hdmi_out" (Some 1%Z); Request "fx2" None].

(** The attributes of a platform made by [init] are the class's. *)
Lemma init_attributes v st p st' :
  init v st = Ok (p, st') -> exists l, p = with_io atlys_attributes l.
Proof.
  unfold init. destruct (String.eqb v "VCC3V3"), (String.eqb v "VCC2V5"); cbn [mbind result_bind]; try done;
    destruct (lvcmos_set v) as [lv|]; cbn [mbind result_bind]; try done;
    destruct (lvcmos_str lv) as [s|]; cbn [mbind result_bind]; try done; intros [= <- _]; by eexists.
Qed.

Lemma atlys_init_ok {LS : LitexSoC} p infos kw l0 :
  p = with_io atlys_attributes l0 ->
  exists l, hdmi2usb_init p infos kw = Ok l /\ plain_io l = hdmi2usb_io.
Proof.
  intros ->. assert (exists f, mem encoder_mem_map "spiflash" = Ok f) as [f Hf].
  { unfold encoder_mem_map, mem. rewrite mem_map_update_lookup.
    unfold base_mem_map. rewrite mem_map_update_lookup. destruct (core_mem_map !! "spiflash"); by eexists. }
  assert (exists c, mem encoder_mem_map "encoder" = Ok c) as [c Hc] by by eapply mem_own.
  unfold hdmi2usb_init, video_init, base_init. rewrite Hf, Hc. cbn [mbind result_bind attr].
  eexists. split; [reflexivity|]. by rewrite !plain_io_app, (proj1 (constants_steps _)).
Qed.

(** The jumper of bank 2 decides whether the Atlys can be an
    HDMI2USB. For every LiteX: on the first platform made, with the jumper at
    3.3 V the SoC's requests all succeed on different pins; at 2.5 V the
    constructor gets as far as the second HDMI output and fails there, since
    the board's list has none; any other setting is refused when the platform
    is made. *)
Theorem atlys_hdmi2usb_voltage {LS : LitexSoC} {LU : LitexUart} {M : Type} {L : Litex M} {LL : LitexLaws M}
    (mk : list resource -> connectors -> M)
    (Hav : forall io c, available (mk io c) = io) (Hco : forall io c, conns_of (mk io c) = c)
    (v : string) (infos : list (string * string)) (kw : Kwargs) :
  match init v loaded with
  | Ok (p, _) =>
      let m := mk (io p) atlys_connectors in
      exists l, hdmi2usb_init p infos kw = Ok l /\
        ((v = "VCC3V3" /\ exists rs m' ps, run_io (io_of l) m = Some (rs, m') /\
                            all_pads m' rs = Some ps /\ NoDup ps) \/
         (v = "VCC2V5" /\ run_io (io_of l) m = None /\
          exists m', (snd <$> run_io (take 9 (io_of l)) m) = Some m' /\
            request "hdmi_out" (Some 1%Z) m' = None))
  | Raise e => e = SystemError /\ v <> "VCC3V3" /\ v <> "VCC2V5"
  end.
Proof.
  destruct (String.eqb_spec v "VCC3V3") as [->|H3]; [|destruct (String.eqb_spec v "VCC2V5") as [->|H2]].
  - destruct init_default as [st ->]. set (m := mk _ _).
    destruct (atlys_init_ok atlys infos kw _ eq_refl) as (l & Hl & Hio). exists l. split; [done|].
    left. split; [done|]. rewrite io_of_plain, Hio. apply wired_spec. rewrite wired_view. unfold view.
    unfold m. rewrite Hav, Hco. vm_compute. reflexivity.
  - assert (exists st, init "VCC2V5" loaded =
        Ok (with_io atlys_attributes (atlys_io "LVCMOS25" ++ _io_vccb2_2v5)%list, st)) as [st ->]
      by (eexists; vm_compute; reflexivity).
    set (p := with_io _ _). set (m := mk _ _).
    destruct (atlys_init_ok p infos kw _ eq_refl) as (l & Hl & Hio). exists l. split; [done|].
    right. split; [done|]. rewrite io_of_plain, Hio.
    assert (Hv : view m = (io p, atlys_connectors)) by (unfold view, m; by rewrite Hav, Hco).
    split.
    + pose proof (run_io_view hdmi2usb_io m) as H. rewrite Hv in H.
      destruct (run_io hdmi2usb_io m) as [x|]; [|done]. exfalso. cbn [fmap option_fmap option_map] in H.
      assert (run_io hdmi2usb_io ((io p, atlys_connectors) : board) = None) as Hn by (vm_compute; reflexivity).
      rewrite Hn in H. discriminate.
    + assert (exists rs b, run_io (take 9 hdmi2usb_io) ((io p, atlys_connectors) : board) = Some (rs, b) /\
                request "hdmi_out" (Some 1%Z) b = None) as (rs & b & Hr & Hq)
        by (do 2 eexists; split; vm_compute; reflexivity).
      rewrite <- Hv in Hr. destruct (run_io_reference _ m rs b Hr) as (m' & Hm' & Hb).
      exists m'. rewrite Hm'. split; [done|]. pose proof (request_view "hdmi_out" (Some 1%Z) m') as H.
      rewrite Hb, Hq in H. by destruct (request "hdmi_out" (Some 1%Z) m').
  - rewrite init_unknown by done. done.
Qed.

Lemma atlys_hdmi2usb_voltage_witness :
  let LS := plain_soc ∅ in
  let kw := no_kwargs in
  match init "VCC2V5" loaded with
  | Ok (p, _) =>
      let m : board := (io p, atlys_connectors) in
      exists l, hdmi2usb_init p [] kw = Ok l /\
        (("VCC2V5" = "VCC3V3" /\ exists rs m' ps, run_io (io_of l) m = Some (rs, m') /\
                            all_pads m' rs = Some ps /\ NoDup ps) \/
         ("VCC2V5" = "VCC2V5" /\ run_io (io_of l) m = None /\
          exists m', (snd <$> run_io (take 9 (io_of l)) m) = Some m' /\
            request "hdmi_out" (Some 1%Z) m' = None))
  | Raise e => e = SystemError /\ "VCC2V5" <> "VCC3V3" /\ "VCC2V5" <> "VCC2V5"
  end.
Proof.
  intros LS kw.
  exact (atlys_hdmi2usb_voltage (LU := plain_uart ∅) (L := board_litex) pair
           (fun _ _ => eq_refl) (fun _ _ => eq_refl) "VCC2V5" [] kw).
Defined.
