(* ===== verification/TargetsIce.v ===== *)
(** * The iCE40 targets

    [targets/<board>/base.py] of the six iCE40 boards. None has DRAM: BIOS and
    firmware run in place from the SPI flash, so the constructors declare a
    "rom" region inside the flash and the rest of it as "user_flash". In the
    form of the Opsis targets; toolchain options and the [add_csr] of the
    iCEBreaker's LED driver are left out. *)
From Stdlib Require Import QArith.
From S2P Require Import Prelude PyStr Make Platform PlatformsIce Resources Soc.
From S2P Require FlashImage.
#[local] Open Scope Z_scope.

#[local] Open Scope string_scope.

(** ** Resources the target files add *)

(** [pmod_serial] of the UP5K breakout board. *)
Definition pmod_serial : list resource := [
  ("serial", Nr 0, [
    Subsignal "rx" [Pins ["PMOD:6"]];
    Subsignal "tx" [Pins ["PMOD:5"]];
    Subsignal "rts" [Pins ["PMOD:4"]];
    Subsignal "cts" [Pins ["PMOD:7"]];
    IOStandard "LVCMOS33"])
].

(** [serial] of the TinyFPGA BX. *)
Definition serial : list resource := [
  ("serial", Nr 0, [
    Subsignal "rx" [Pins ["GPIO:0"]];
    Subsignal "tx" [Pins ["GPIO:1"]];
    IOStandard "LVCMOS33"])
].

(** [Platform.bootloader_size] of the TinyFPGA BX. *)
Definition bootloader_size : Z := 0x28000.

(** ** Steps the constructors share *)

Definition csr_peripherals : list string := ["spiflash"; "cas"].

Section soc.
Context {LS : LitexSoC}.

Definition ice_csr_map : gmap string Z := csr_map_update core_csr_map csr_peripherals.

Definition ice_mem_map : gmap string Z :=
  mem_map_update {["spiflash" := 0x20000000%Z]} core_mem_map.

(** [offset]: what precedes the gateware in the flash. *)
Definition rom_steps (platform : Platform) (flash reset_address offset : Z) : result (list action) :=
  gateware ← attr (gateware_size platform);
  let bios_size := 0x8000%Z in
  Ok [AddConstant "ROM_DISABLE" (CInt 1);
      AddRegion "rom" reset_address bios_size;
      AddConstant "FLASH_BOOT_ADDRESS" (CInt (flash + gateware + bios_size + offset))].

Definition sram_steps : result (list action) :=
  sram ← mem ice_mem_map "sram";
  Ok [Submodule "spram"; RegisterMem "sram" sram 0x20000].

Definition user_flash_steps (platform : Platform) (flash offset : Z) : result (list action) :=
  gateware ← attr (gateware_size platform);
  total ← attr (spiflash_total_size platform);
  let flash_boot_address := (flash + gateware + 0x8000 + offset)%Z in
  Ok [AddRegion "user_flash" flash_boot_address (total - (flash_boot_address - flash) - 0x100)].

(** ** The constructors *)

(** iCE40-HX8K breakout board and iceFUN. *)
Definition hx8k_init (platform : Platform) (kwargs : Kwargs) : result (list action) :=
  flash ← mem ice_mem_map "spiflash";
  gateware ← attr (gateware_size platform);
  let kw := set_reset_address (flash + gateware) (with_sizes kwargs 0 0x2800) in
  spiflash ← spiflash_steps "spiflash" platform flash;
  rom ← rom_steps platform flash (flash + gateware) 0;
  user ← user_flash_steps platform flash 0;
  Ok ([Core (inject_Z 12000000) true kw; req "clk12"; Submodule "crg"] ++
      cas_steps ++ spiflash ++ rom ++ user)%list.

Definition ice40_hx8k_b_evn_init : Kwargs -> result (list action) := hx8k_init ice40_hx8k_b_evn.
Definition icefun_init : Kwargs -> result (list action) := hx8k_init icefun.

(** iCE40-UP5K breakout board. *)
Definition ice40_up5k_b_evn_init (kwargs : Kwargs) : result (list action) :=
  let platform := ice40_up5k_b_evn in
  flash ← mem ice_mem_map "spiflash";
  gateware ← attr (gateware_size platform);
  let kw := set_reset_address (flash + gateware) (with_sizes kwargs 0 0) in
  spiflash ← spiflash_steps "spiflash" platform flash;
  rom ← rom_steps platform flash (flash + gateware) 0;
  sram ← sram_steps;
  user ← user_flash_steps platform flash 0;
  Ok ([Io (Extend pmod_serial); Io (Extend ice40_up5k_b_evn_spiflash);
       Core (inject_Z 12000000) true kw; req "clk12"; Submodule "crg"] ++
      cas_steps ++ spiflash ++ rom ++ sram ++ user)%list.

Definition icebreaker_init (kwargs : Kwargs) : result (list action) :=
  let platform := icebreaker in
  flash ← mem ice_mem_map "spiflash";
  gateware ← attr (gateware_size platform);
  let kw := set_reset_address (flash + gateware) (with_sizes kwargs 0 0) in
  spiflash ← spiflash_steps "spiflash" platform flash;
  rom ← rom_steps platform flash (flash + gateware) 0;
  sram ← sram_steps;
  user ← user_flash_steps platform flash 0;
  Ok ([Io (Extend icebreaker_break_off_pmod);
       Core (inject_Z 12000000) true kw; req "clk12"; req "user_btn_n"; Submodule "crg"] ++
      cas_steps ++ spiflash ++
      [Io (Extend icebreaker_rgb_led); reqn "rgbled" 0; Submodule "rgbled"] ++ rom ++ sram ++ user)%list.

Definition tinyfpga_bx_init (kwargs : Kwargs) : result (list action) :=
  let platform := tinyfpga_bx in
  flash ← mem ice_mem_map "spiflash";
  gateware ← attr (gateware_size platform);
  let reset := (flash + gateware + bootloader_size)%Z in
  let kw := set_reset_address reset (with_sizes kwargs 0 0x2800) in
  spiflash ← spiflash_steps "spiflash" platform flash;
  rom ← rom_steps platform flash reset bootloader_size;
  user ← user_flash_steps platform flash bootloader_size;
  Ok ([Io (Extend serial);
       Core (inject_Z 16000000) true kw; req "clk16"; Submodule "crg"] ++
      cas_steps ++ spiflash ++ rom ++ user ++ [req "usb"])%list.

(** The board's own [request] answers "sb_hfosc" with the internal
    oscillator. *)
Definition upduino_v1_init (kwargs : Kwargs) : result (list action) :=
  let platform := upduino_v1 in
  flash ← mem ice_mem_map "spiflash";
  gateware ← attr (gateware_size platform);
  let kw := set_reset_address (flash + gateware) (with_sizes kwargs 0 0) in
  spiflash ← spiflash_steps "spiflash" platform flash;
  rom ← rom_steps platform flash (flash + gateware) 0;
  sram ← sram_steps;
  user ← user_flash_steps platform flash 0;
  Ok ([Io (Extend upduino_v1_serial); Io (Extend upduino_v1_spiflash);
       Core (inject_Z 12000000) true kw; Io (RequestElse "sb_hfosc" None); Submodule "crg"] ++
      cas_steps ++ spiflash ++ rom ++ sram ++ user)%list.

(** ** The boards *)

Inductive ice_board := Hx8k | Icefun | Up5k | Icebreaker | Tinyfpga | Upduino.

Definition ice_init (b : ice_board) : Kwargs -> result (list action) :=
  match b with
  | Hx8k => ice40_hx8k_b_evn_init
  | Icefun => icefun_init
  | Up5k => ice40_up5k_b_evn_init
  | Icebreaker => icebreaker_init
  | Tinyfpga => tinyfpga_bx_init
  | Upduino => upduino_v1_init
  end.
End soc.

Definition ice_platform (b : ice_board) : Platform :=
  match b with
  | Hx8k => ice40_hx8k_b_evn
  | Icefun => icefun
  | Up5k => ice40_up5k_b_evn
  | Icebreaker => icebreaker
  | Tinyfpga => tinyfpga_bx
  | Upduino => upduino_v1
  end.

Definition ice_connectors (b : ice_board) : list (string * connector) :=
  match b with
  | Hx8k => []
  | Icefun => []
  | Up5k => ice40_up5k_b_evn_connectors
  | Icebreaker => icebreaker_connectors
  | Tinyfpga => tinyfpga_bx_connectors
  | Upduino => upduino_v1_connectors
  end.

(** ** Theorems *)

(** The image [mkimage.py] lays out for the board and SoC. *)
Definition ice_image (b : ice_board) : Make.SoC -> FlashImage.Layout := image_of (ice_platform b).

(** Where the image goes in the flash: behind the bootloader, on the board
    that has one. *)
Definition image_offset (b : ice_board) : Z :=
  match b with Tinyfpga => bootloader_size | _ => 0%Z end.

Definition reset_addresses_of (l : list action) : list (option Z) :=
  omap (fun a => match a with Core _ _ kw => Some (cpu_reset_address kw) | _ => None end) l.

Section ice_theorems.
Context {LS : LitexSoC}.

(** The addresses the constructors read. *)
Lemma ice_addresses sram :
  core_mem_map !! "sram" = Some sram ->
  (exists flash, mem ice_mem_map "spiflash" = Ok flash) /\ mem ice_mem_map "sram" = Ok sram.
Proof.
  intros H. split; [by apply (mem_own "spiflash" 0x20000000%Z)|].
  apply mem_base. unfold mem. by rewrite H.
Qed.

(** The constructors succeed; the list of steps is a concrete one but for the
    two addresses and the arguments. *)
Lemma ice_init_total b kw flash sram :
  mem ice_mem_map "spiflash" = Ok flash -> mem ice_mem_map "sram" = Ok sram ->
  exists l, ice_init b kw = Ok l.
Proof.
  intros Hf Hs. destruct b; cbn [ice_init];
    unfold ice40_hx8k_b_evn_init, icefun_init, hx8k_init, ice40_up5k_b_evn_init, icebreaker_init,
      tinyfpga_bx_init, upduino_v1_init, sram_steps; rewrite Hf, ?Hs; by eexists.
Qed.
End ice_theorems.

(** Case analysis on the board, with the list of steps in the place of [l]. *)
Ltac ice_steps b Hf Hs Hl :=
  destruct b; cbn [ice_init] in Hl;
  unfold ice40_hx8k_b_evn_init, icefun_init, hx8k_init, ice40_up5k_b_evn_init, icebreaker_init,
    tinyfpga_bx_init, upduino_v1_init, sram_steps in Hl;
  rewrite Hf, ?Hs in Hl; injection Hl as <-.

(** Equality, and membership in a concrete list, up to arithmetic. *)
Ltac arith_eq :=
  lazymatch goal with
  | |- @eq Z _ _ => first [reflexivity | lia]
  | |- (_, _) = (_, _) => apply (f_equal2 pair); arith_eq
  | |- CInt _ = CInt _ => apply (f_equal CInt); arith_eq
  | |- [Some _] = [Some _] => apply (f_equal (fun z => [Some z])); arith_eq
  | |- _ => reflexivity
  end.
Ltac in_steps := first [left; arith_eq | right; in_steps].

(** Claim C18: how the iCE40 SoCs divide the flash, for every board and
    arguments. The constructor succeeds. The CPU starts at the "rom" region,
    which lies where [mkimage.py] puts the BIOS; FLASH_BOOT_ADDRESS and the
    region "user_flash" start where it puts the firmware, whatever regions
    LiteX declares besides ("rom" excepted); the image starts behind the
    bootloader on the TinyFPGA BX and at the start of the flash on the others.
    "user_flash" is not empty and ends 0x100 bytes before the flash does. *)
Theorem ice_flash_layout {LS : LitexSoC} (b : ice_board) (kw : Kwargs) (sram : Z)
    (core : list (string * Z))
    (Hsram : core_mem_map !! "sram" = Some sram) (Hcore : Make.find_region "rom" core = None) :
  exists l flash, ice_init b kw = Ok l /\ mem ice_mem_map "spiflash" = Ok flash /\
    let image := ice_image b (soc_of core l) in
    let start := (flash + image_offset b)%Z in
    let rom := (start + FlashImage.bios_pos image)%Z in
    let boot := (start + FlashImage.firmware_pos image)%Z in
    let total := FlashImage.spiflash_total_size image in
    reset_addresses_of l = [Some rom] /\
    In ("rom", rom, (boot - rom)%Z) (regions_of l) /\
    In ("FLASH_BOOT_ADDRESS", CInt boot) (constants_of l) /\
    In ("spiflash", flash, total) (regions_of l) /\
    exists size, In ("user_flash", boot, size) (regions_of l) /\
      (0 < size)%Z /\ (boot + size = flash + total - 0x100)%Z.
Proof.
  destruct (ice_addresses sram Hsram) as [(flash & Hf) Hs].
  destruct (ice_init_total b kw flash sram Hf Hs) as (l & Hl). exists l, flash.
  split; [done|]. split; [done|]. unfold ice_image, image_of. rewrite bios_maxsize_core by done.
  ice_steps b Hf Hs Hl;
    cbn -[FlashImage.bios_pos FlashImage.firmware_pos];
    unfold FlashImage.bios_pos, FlashImage.firmware_pos; cbn.
  all: split_and!; try first [arith_eq | in_steps].
  all: eexists; split; [in_steps | unfold bootloader_size; Z.div_mod_to_equations; lia].
Qed.

(** The iCEBreaker on a LiteX with a RAM at its documented address. *)
Lemma ice_flash_layout_witness :
  let LS := plain_soc {["sram" := 0x10000000%Z]} in
  exists l, ice_init Icebreaker no_kwargs = Ok l /\
    In ("FLASH_BOOT_ADDRESS", CInt 0x20028000) (constants_of l).
Proof.
  intros LS.
  destruct (ice_flash_layout (LS := LS) Icebreaker no_kwargs 0x10000000%Z [("csr", 0x10000%Z)]
              ltac:(vm_compute; reflexivity) ltac:(reflexivity)) as (l & flash & Hl & Hf & _ & _ & Hb & _).
  exists l. split; [exact Hl|].
  vm_compute in Hf. injection Hf as <-. vm_compute in Hl. injection Hl as <-. exact Hb.
Defined.

(** Every iCE40 SoC can be wired on its board, whatever LiteX and the
    arguments are: every resource its constructor and LiteX's UART ask for
    exists (the UPduino's clock is its inner oscillator), and no FPGA pin is
    given out twice. *)
Theorem ice_wired {LS : LitexSoC} {LU : LitexUart} {M : Type} {L : Litex M} {LL : LitexLaws M}
    (b : ice_board) (m : M) (kw : Kwargs) (sram : Z) (Hsram : core_mem_map !! "sram" = Some sram)
    (Hio : available m = io (ice_platform b)) (Hc : conns_of m = ice_connectors b) :
  exists l rs m' ps, ice_init b kw = Ok l /\ run_io (io_of l) m = Some (rs, m') /\
    all_pads m' rs = Some ps /\ NoDup ps.
Proof.
  destruct (ice_addresses sram Hsram) as [(flash & Hf) Hs].
  destruct (ice_init_total b kw flash sram Hf Hs) as (l & Hl). exists l.
  assert (Hw : wired (io_of l) m = true); [|destruct (wired_spec _ _ Hw) as (rs & m' & ps & H); by exists rs, m', ps].
  rewrite io_of_plain, wired_view. unfold view. rewrite Hio, Hc.
  ice_steps b Hf Hs Hl;
    vm_compute; reflexivity.
Qed.

(** The TinyFPGA BX on LiteX's list of resources. *)
Definition tinyfpga_board : board := (io tinyfpga_bx, tinyfpga_bx_connectors).

Lemma ice_wired_witness :
  let LS := plain_soc {["sram" := 0x10000000%Z]} in
  exists l rs m' ps, ice_init Tinyfpga no_kwargs = Ok l /\
    run_io (io_of l) tinyfpga_board = Some (rs, m') /\
    all_pads m' rs = Some ps /\ NoDup ps.
Proof.
  intros LS.
  exact (ice_wired (LS := LS) (LU := plain_uart _) (L := board_litex) Tinyfpga tinyfpga_board no_kwargs 0x10000000%Z
           ltac:(vm_compute; reflexivity) ltac:(reflexivity) ltac:(reflexivity)).
Defined.
