(* ===== verification/TargetsSpartan6.v ===== *)
(** * The Spartan-6 targets other than Opsis and Atlys

    [targets/<board>/*.py] of Galatea, Mimas V2, MiniSpartan6+, Pano Logic G2,
    Pipistrello, Saturn and Waxwing: CSR banks, memory maps and constructor
    steps, in the form of the Opsis targets. *)
From Stdlib Require Import QArith.
From S2P Require Import Prelude PyStr Platform PlatformsSpartan6 Resources Soc.
From S2P Require Make FlashImage.
#[local] Open Scope Z_scope.

#[local] Open Scope string_scope.

(** [(83 + Fraction(1, 3))*1000*1000] and [(31 + Fraction(1, 4))*1000*1000]. *)
Definition mhz83 : Q := (250000000 # 3)%Q.
Definition mhz31 : Q := (31250000 # 1)%Q.

(** ** What the clock modules request *)

Definition galatea_crg : list action := [req "clk100"; req "cpu_reset"; req "ddram_clock"].
Definition mimasv2_crg : list action := [req "clk100"; reqn "user_btn" 5; req "ddram_clock"].
Definition minispartan6_crg : list action := [req "clk32"; req "sdram_clock"].
Definition pano_logic_g2_crg : list action :=
  [req (default_clk_name pano_logic_g2); req "cpu_reset"; req "ddram_clock_b"].
Definition pipistrello_crg : list action := [req "clk50"; req "user_btn"; req "ddram_clock"].

(** The Saturn's [reset_pin]. *)
Definition reset_pin : list resource := [("reset", Nr 0, [Pins ["P2:0"]])].
Definition saturn_crg : list action := [req "clk100"; Io (Extend reset_pin); req "reset"; req "ddram_clock"].
Definition waxwing_crg : list action := [req "clk100"; reqn "user_btn" 0; req "ddram_clock"].

Definition galatea_csr : list string := ["spiflash"; "ddrphy"; "info"].
Definition mimasv2_csr : list string := ["spiflash"; "ddrphy"; "info"; "cas"].
Definition mimasv2_scope_csr : list string := ["analyzer"; "io"].
Definition minispartan6_csr : list string := ["spiflash"; "cas"; "ddrphy"; "info"].
Definition pano_logic_g2_csr : list string := ["ddrphy"; "info"; "cas"].
Definition pipistrello_csr : list string := ["spiflash"; "front_panel"; "ddrphy"; "info"].
Definition saturn_csr : list string := ["ddrphy"].
Definition waxwing_csr : list string := ["ddrphy"].

Section soc.
Context {LS : LitexSoC}.

(** The map of the boards with an SPI flash, and of the Pano Logic. *)
Definition flash_mem_map : gmap string Z := mem_map_update {["spiflash" := 0x20000000%Z]} core_mem_map.
Definition emulator_mem_map : gmap string Z := mem_map_update {["emulator_ram" := 0x50000000%Z]} core_mem_map.

(** ** Galatea *)

Definition galatea_init (kwargs : Kwargs) : result (list action) :=
  let kw := without_expansion (with_sizes kwargs 0x8000 0x4000) in
  Ok ([Core (inject_Z 50000000) true kw] ++ galatea_crg ++
      [Submodule "crg"; Submodule "info"; req "ddram"; Submodule "ddrphy"])%list.

(** ** Mimas V2

    The ROM size is set to [None], which LiteX takes like no size. [JIMMO] is
    the environment variable. *)
Definition mimasv2_init (JIMMO : option string) (with_uart : bool) (kwargs : Kwargs) : result (list action) :=
  let kw := set_sizes (integrated_rom_size kwargs) (dflt (integrated_sram_size kwargs) 0x4000) kwargs in
  flash ← mem flash_mem_map "spiflash";
  gateware ← attr (gateware_size mimasv2);
  let kw := set_reset_address (flash + gateware) kw in
  let kw := set_baudrate (if String.eqb (default "0" JIMMO) "0" then 19200 else 115200) kw in
  spiflash ← spiflash_steps "spiflash" mimasv2 flash;
  let bios_size := 0x8000%Z in
  Ok ([Core mhz83 with_uart kw] ++ mimasv2_crg ++ [Submodule "crg"; Submodule "info"] ++ cas_steps ++
      spiflash ++
      [AddConstant "ROM_DISABLE" (CInt 1); AddRegion "rom" (flash + gateware) bios_size;
       AddConstant "FLASH_BOOT_ADDRESS" (CInt (flash + gateware + bios_size));
       req "ddram"; Submodule "ddrphy"])%list.

(** [MemTestSoC]: [cpu_type=None], no CPU, which LiteX also accepts as "None",
    and no UART; the requests for LEDs are in a [try] that catches everything. *)
Definition mimasv2_scope_init (JIMMO : option string) (kwargs : Kwargs) : result (list action) :=
  base ← mimasv2_init JIMMO false (set_cpu (Some "None") (cpu_variant_arg kwargs) kwargs);
  Ok (base ++ [req "serial"; Submodule "io"] ++
      ((fun i => Io (RequestElse "user_led" (Some (Z.of_nat i)))) <$> seq 0 8) ++ [Submodule "analyzer"])%list.

(** ** MiniSpartan6+ *)

Definition minispartan6_init (kwargs : Kwargs) : result (list action) :=
  let kw := with_sizes kwargs 0x8000 0x4000 in
  dummy ← attr (spiflash_read_dummy_bits minispartan6);
  div ← attr (spiflash_clock_div minispartan6);
  page ← attr (spiflash_page_size minispartan6);
  sector ← attr (spiflash_sector_size minispartan6);
  flash ← mem flash_mem_map "spiflash";
  gateware ← attr (gateware_size minispartan6);
  total ← attr (spiflash_total_size minispartan6);
  Ok ([Core (inject_Z 80000000) true kw] ++ minispartan6_crg ++ [Submodule "crg"; Submodule "info"] ++ cas_steps ++
      [req "spiflash2x"; Submodule "spiflash";
       AddConstant "SPIFLASH_PAGE_SIZE" (CInt page);
       AddConstant "SPIFLASH_SECTOR_SIZE" (CInt sector);
       AddConstant "FLASH_BOOT_ADDRESS" (CInt (flash + gateware));
       RegisterMem "spiflash" flash total;
       req "sdram"; Submodule "ddrphy"])%list.

(** ** Pano Logic G2 *)

Definition pano_logic_g2_init (kwargs : Kwargs) : result (list action) :=
  let kw := with_sizes kwargs 0x8000 0x8000 in
  emulator ← emulator_steps emulator_mem_map kw;
  Ok ([Core (inject_Z 50000000) true kw] ++ pano_logic_g2_crg ++ [Submodule "crg"; Submodule "info"] ++ cas_steps ++
      [req "gmii_rst_n"] ++ emulator ++ [req "ddram_b"; Submodule "ddrphy"])%list.

(** ** Pipistrello *)

Definition pipistrello_init (kwargs : Kwargs) : result (list action) :=
  let kw := with_sizes kwargs 0x8000 0x4000 in
  flash ← mem flash_mem_map "spiflash";
  spiflash ← spiflash_steps "spiflash4x" pipistrello flash;
  gateware ← attr (gateware_size pipistrello);
  let bios_size := 0x8000%Z in
  Ok ([Core mhz83 true kw] ++ pipistrello_crg ++ [Submodule "crg"; Submodule "info"] ++ spiflash ++
      [AddConstant "FLASH_BOOT_ADDRESS" (CInt (flash + gateware + bios_size));
       req "ddram"; Submodule "ddrphy"])%list.

(** ** Saturn and Waxwing *)

Definition saturn_init (kwargs : Kwargs) : result (list action) :=
  let kw := with_sizes kwargs 0x8000 0x4000 in
  Ok ([Core mhz31 true kw] ++ saturn_crg ++ [Submodule "crg"; req "ddram"; Submodule "ddrphy"])%list.

Definition waxwing_init (kwargs : Kwargs) : result (list action) :=
  let kw := with_sizes kwargs 0x8000 0x8000 in
  Ok ([Core mhz31 true kw] ++ waxwing_crg ++ [Submodule "crg"; req "ddram"; Submodule "ddrphy"])%list.

(** [targets/waxwing/net.py]: a base class of its own. [main_ram]: LiteX's
    [integrated_main_ram_size] is not 0. *)
Definition waxwing_net_base (mem_map : gmap string Z) (main_ram : bool) (kwargs : Kwargs) : result (list action) :=
  let kw := with_sizes kwargs 0x8000 0x8000 in
  emulator ← emulator_steps mem_map kw;
  Ok ([Core mhz31 true kw] ++ waxwing_crg ++ [Submodule "crg"] ++ emulator ++
      (if main_ram then [] else [req "ddram"; Submodule "ddrphy"]))%list.

Definition ethernet_mem_map : gmap string Z := mem_map_update {["ethmac" := 0xb0000000%Z]} emulator_mem_map.

Definition waxwing_net_init (main_ram : bool) (kwargs : Kwargs) : result (list action) :=
  let kw := set_sizes (dflt (integrated_rom_size kwargs) 0x10000) (integrated_sram_size kwargs) kwargs in
  base ← waxwing_net_base ethernet_mem_map main_ram kw;
  ethmac ← mem ethernet_mem_map "ethmac";
  Ok (base ++ [req "eth_clocks"; req "eth"; Submodule "ethphy"; Submodule "ethmac"; WbSlave ethmac;
               AddRegion "ethmac" ethmac 0x2000; AddInterrupt "ethmac"])%list.

(** ** The SoC classes *)

Inductive spartan6_soc :=
| Galatea | MimasV2 (JIMMO : option string) | MimasV2Scope (JIMMO : option string) | MiniSpartan6
| PanoLogicG2 | Pipistrello | Saturn | Waxwing | WaxwingNet (main_ram : bool).

Definition spartan6_init (s : spartan6_soc) : Kwargs -> result (list action) :=
  match s with
  | Galatea => galatea_init
  | MimasV2 j => mimasv2_init j true
  | MimasV2Scope j => mimasv2_scope_init j
  | MiniSpartan6 => minispartan6_init
  | PanoLogicG2 => pano_logic_g2_init
  | Pipistrello => pipistrello_init
  | Saturn => saturn_init
  | Waxwing => waxwing_init
  | WaxwingNet r => waxwing_net_init r
  end.
End soc.

Definition spartan6_platform (s : spartan6_soc) : Platform :=
  match s with
  | Galatea => galatea
  | MimasV2 _ | MimasV2Scope _ => mimasv2
  | MiniSpartan6 => minispartan6
  | PanoLogicG2 => pano_logic_g2
  | Pipistrello => pipistrello
  | Saturn => saturn
  | Waxwing | WaxwingNet _ => waxwing
  end.

Definition spartan6_connectors (s : spartan6_soc) : connectors :=
  match s with
  | Galatea => galatea_connectors
  | MimasV2 _ | MimasV2Scope _ => mimasv2_connectors
  | MiniSpartan6 => minispartan6_connectors
  | PanoLogicG2 => []
  | Pipistrello => pipistrello_connectors
  | Saturn => saturn_connectors
  | Waxwing | WaxwingNet _ => waxwing_connectors
  end.

(** ** Theorems *)

(** The image [mkimage.py] lays out for the board and SoC. *)
Definition spartan6_image (s : spartan6_soc) : Make.SoC -> FlashImage.Layout := image_of (spartan6_platform s).

Section spartan6_theorems.
Context {LS : LitexSoC}.

(** The addresses the constructors read. *)
Lemma spartan6_addresses :
  (exists a, mem flash_mem_map "spiflash" = Ok a) /\
  (exists a, mem emulator_mem_map "emulator_ram" = Ok a) /\
  (exists a, mem ethernet_mem_map "emulator_ram" = Ok a) /\
  (exists a, mem ethernet_mem_map "ethmac" = Ok a).
Proof.
  assert (exists a, mem emulator_mem_map "emulator_ram" = Ok a) as [e He]
    by (by apply (mem_own "emulator_ram" 0x50000000%Z)).
  split_and!; [by apply (mem_own "spiflash" 0x20000000%Z) | by exists e | |].
  - exists e. by apply mem_base.
  - by apply (mem_own "ethmac" 0xb0000000%Z).
Qed.
End spartan6_theorems.

(** Case analysis on the SoC, with the list of steps in the place of the
    constructor, once with and once without the emulator's memory. *)
Ltac spartan6_steps s :=
  let f := fresh "f" in let e := fresh "e" in let w := fresh "w" in let m := fresh "m" in
  let Hf := fresh "Hf" in let He := fresh "He" in let Hw := fresh "Hw" in let Hm := fresh "Hm" in
  destruct spartan6_addresses as ([f Hf] & [e He] & [w Hw] & [m Hm]);
  destruct s; cbn [spartan6_init];
  unfold galatea_init, mimasv2_scope_init, mimasv2_init, minispartan6_init, pano_logic_g2_init, pipistrello_init,
    saturn_init, waxwing_init, waxwing_net_init, waxwing_net_base, emulator_steps;
  rewrite ?Hf, ?He, ?Hw, ?Hm;
  repeat match goal with |- context [if runs_linux ?k then _ else _] => destruct (runs_linux k) end;
  repeat match goal with b : bool |- _ => destruct b end;
  cbn.

(** Every SoC *)
Theorem spartan6_wired {LS : LitexSoC} {LU : LitexUart} {M : Type} {L : Litex M} {LL : LitexLaws M}
    (s : spartan6_soc) (m : M) (kw : Kwargs)
    (Hio : available m = io (spartan6_platform s)) (Hc : conns_of m = spartan6_connectors s) :
  exists l rs m' ps, spartan6_init s kw = Ok l /\ run_io (io_of l) m = Some (rs, m') /\
    all_pads m' rs = Some ps /\ NoDup ps.
Proof.
  assert (Hw : exists l, spartan6_init s kw = Ok l /\ wired (io_of l) m = true).
  { setoid_rewrite io_of_plain. setoid_rewrite wired_view. unfold view. rewrite Hio, Hc.
    spartan6_steps s. all: eexists; split; [reflexivity | vm_compute; reflexivity]. }
  destruct Hw as (l & Hl & Hw). destruct (wired_spec _ _ Hw) as (rs & m' & ps & H). by exists l, rs, m', ps.
Qed.

(** Where FLASH_BOOT_ADDRESS points: nowhere, at the firmware of the image, at
    the firmware if the ROM has the length the constructor assumes, or at the
    BIOS. *)
Inductive boot_rule := NoBoot | AtFirmware | IfRom8000 | AtBios.

Definition spartan6_boot (s : spartan6_soc) : boot_rule :=
  match s with
  | MimasV2 _ | MimasV2Scope _ => AtFirmware
  | Pipistrello => IfRom8000
  | MiniSpartan6 => AtBios
  | _ => NoBoot
  end.

(** The boot address of the Spartan-6 SoCs against the flash image
    [mkimage.py] writes for them, for every board and arguments; the
    constructor succeeds. The Mimas V2, whose BIOS runs from the flash, boots
    the image's firmware whatever regions LiteX declares besides; the
    Pipistrello exactly when its ROM has 0x8000 bytes (the default). The
    MiniSpartan6+ leaves out the BIOS: its address is where the image has the
    BIOS, short of the firmware by the length of the ROM. The other boards have
    no such constant. *)
Theorem spartan6_boot_address {LS : LitexSoC} (s : spartan6_soc) (kw : Kwargs) :
  exists l flash, spartan6_init s kw = Ok l /\ mem flash_mem_map "spiflash" = Ok flash /\
    match spartan6_boot s with
    | NoBoot => boot_constants l = []
    | AtFirmware => forall core, Make.find_region "rom" core = None ->
        boot_constants l = [CInt (flash + FlashImage.firmware_pos (spartan6_image s (soc_of core l)))]
    | IfRom8000 => exists rom boot, rom_size_of l = Some rom /\ boot_constants l = [CInt boot] /\
        forall core, Make.find_region "rom" core = Some rom ->
        (boot = flash + FlashImage.firmware_pos (spartan6_image s (soc_of core l)) <-> rom = 0x8000)%Z
    | AtBios => exists rom boot, rom_size_of l = Some rom /\ boot_constants l = [CInt boot] /\
        forall core, Make.find_region "rom" core = Some rom ->
        (boot = flash + FlashImage.bios_pos (spartan6_image s (soc_of core l)) /\
         boot + rom = flash + FlashImage.firmware_pos (spartan6_image s (soc_of core l)))%Z
    end.
Proof.
  spartan6_steps s.
  all: do 2 eexists; split; [reflexivity|]; split; [reflexivity|]; cbn [spartan6_boot]; try reflexivity.
  all: unfold spartan6_image, image_of, FlashImage.firmware_pos, FlashImage.bios_pos.
  1,2: intros core Hcore; rewrite (bios_maxsize_core _ _ Hcore); cbn; do 2 f_equal; lia.
  all: do 2 eexists; split; [reflexivity|]; split; [reflexivity|]; intros core Hcore;
    rewrite (bios_maxsize_rom _ _ _ Hcore); cbn; lia.
Qed.

(** The Waxwing's networked SoC on LiteX's list of resources. *)
Definition waxwing_board : board := (io waxwing, waxwing_connectors).

Lemma spartan6_wired_witness :
  let LS := plain_soc ∅ in
  exists l rs m' ps, spartan6_init (WaxwingNet false) no_kwargs = Ok l /\
    run_io (io_of l) waxwing_board = Some (rs, m') /\ all_pads m' rs = Some ps /\ NoDup ps.
Proof.
  intros LS.
  exact (spartan6_wired (LS := LS) (LU := plain_uart _) (L := board_litex) (WaxwingNet false) waxwing_board no_kwargs
           ltac:(reflexivity) ltac:(reflexivity)).
Defined.

(** The script without the requests that may fail. *)
Definition required (s : io_step) : bool := match s with RequestElse _ _ => false | _ => true end.

(** The number of LEDs handed out. *)
Definition leds_of {M} (p : list resource * M) : nat :=
  length (List.filter (fun r => String.eqb (res_name r) "user_led") (fst p)).

(** The LiteScope SoC of the Mimas V2 asks for eight LEDs and
    ignores failures, but the control and status block of its base class has
    taken all of them before: it builds, and the resources it gets are the same
    as without those requests, for every LiteX and arguments; none of the
    LiteScope outputs reaches a LED. *)
Theorem scope_gets_no_leds {LS : LitexSoC} {LU : LitexUart} {M : Type} {L : Litex M} {LL : LitexLaws M}
    (JIMMO : option string) (m : M) (kw : Kwargs)
    (Hio : available m = io mimasv2) (Hc : conns_of m = mimasv2_connectors) :
  exists l rs m1 m2, mimasv2_scope_init JIMMO kw = Ok l /\
    run_io (io_of l) m = Some (rs, m1) /\ run_io (List.filter required (io_of l)) m = Some (rs, m2) /\
    leds_of (rs, m1) = 8%nat.
Proof.
  destruct spartan6_addresses as ([f Hf] & _).
  assert (Hv : view m = (io mimasv2, mimasv2_connectors)) by (unfold view; by rewrite Hio, Hc).
  assert (Hl : exists l, mimasv2_scope_init JIMMO kw = Ok l /\
      run_io (List.filter required (plain_io l)) (view m) = run_io (plain_io l) (view m) /\
      leds_of <$> run_io (plain_io l) (view m) = Some 8%nat).
  { unfold mimasv2_scope_init, mimasv2_init. rewrite Hf, Hv.
    eexists. split; [reflexivity|]. split; vm_compute; reflexivity. }
  destruct Hl as (l & Hl & Hs & Hn). rewrite <- io_of_plain in Hs, Hn.
  destruct (run_io (io_of l) (view m)) as [[rs b]|] eqn:Hr; [|done]. cbn in Hn. injection Hn as Hn.
  destruct (run_io_reference (io_of l) m rs b Hr) as (m1 & H1 & _).
  destruct (run_io_reference _ m rs b Hs) as (m2 & H2 & _).
  exists l, rs, m1, m2. by split_and!.
Qed.

Lemma scope_gets_no_leds_witness :
  let LS := plain_soc ∅ in
  exists l rs m1 m2, mimasv2_scope_init None no_kwargs = Ok l /\
    run_io (io_of l) (io mimasv2, mimasv2_connectors) = Some (rs, m1) /\
    run_io (List.filter required (io_of l)) (io mimasv2, mimasv2_connectors) = Some (rs, m2) /\
    leds_of (rs, m1) = 8%nat.
Proof.
  intros LS.
  exact (scope_gets_no_leds (LS := LS) (LU := plain_uart _) (L := board_litex) None
           ((io mimasv2, mimasv2_connectors) : board) no_kwargs ltac:(reflexivity) ltac:(reflexivity)).
Defined.
