(* ===== verification/TargetsSeries7.v ===== *)
(** * The Artix-7 targets

    [targets/<board>/*.py] of Arty, Basys 3, Cmod A7, Mimas A7, Neso, NeTV2 and
    Nexys Video: CSR banks, memory maps and constructor steps, in the form of
    the Opsis targets. [spiflash] is the constructors' parameter of that name. *)
From Stdlib Require Import QArith.
From S2P Require Import Prelude PyStr Platform PlatformsSeries7 Resources Soc.
From S2P Require Make FlashImage.
#[local] Open Scope Z_scope.

#[local] Open Scope string_scope.

(** ** What the clock modules request *)

Definition arty_crg : list action := [req "clk100"; req "cpu_reset"; req "eth_ref_clk"].
Definition basys3_crg : list action := [req "clk100"; req "user_btn"].
Definition cmod_a7_crg : list action := [req "clk12"; reqn "user_btn" 0].
Definition mimas_a7_crg : list action := [req "clk100"; req "cpu_reset"].
Definition neso_crg : list action := [req "clk100"].
Definition netv2_crg : list action := [req "clk50"].
Definition nexys_video_crg : list action := [req "clk100"; req "cpu_reset"].

(** ** CSR banks *)

Definition arty_csr : list string := ["spiflash"; "ddrphy"; "info"; "cas"].
Definition basys3_csr : list string := ["spiflash"; "info"].
Definition mimas_a7_csr : list string := ["spiflash"; "ddrphy"; "info"].
Definition netv2_csr : list string := ["ddrphy"; "info"; "cas"].
Definition nexys_video_csr : list string := ["spiflash"; "ddrphy"; "info"; "oled"; "uart"; "uart_phy"].
Definition net_csr : list string := ["ethphy"; "ethmac"].
Definition video_csr : list string := ["hdmi_out0"; "hdmi_in0"; "hdmi_in0_freq"; "hdmi_in0_edid_mem"].
Definition debug_csr : list string := ["analyzer"].
Definition bridge_csr : list string := ["ethphy"; "ethcore"].
Definition hdmi2pcie_csr : list string :=
  ["pcie_phy"; "pcie_dma0"; "pcie_dma1"; "pcie_msi"; "hdmi_out0"; "hdmi_in0"; "hdmi_in0_freq"; "hdmi_in0_edid_mem"].

(** [i2c_pmod_d] of the Arty's [tf] target. *)
Definition i2c_pmod_d : list resource := [
  ("i2c_pmodd", Nr 0, [
    Subsignal "scl" [Pins ["F3"]; Misc "PULLUP"];
    Subsignal "sda" [Pins ["D3"]; Misc "PULLUP"];
    Subsignal "scl_pup" [Pins ["A14"]];
    Subsignal "sda_pup" [Pins ["A13"]];
    IOStandard "LVCMOS33"])
].

(** [spiflash_dummy[spiflash]]. *)
Definition spiflash_dummy (spiflash : string) : result Z :=
  if String.eqb spiflash "spiflash_1x" then Ok 9%Z
  else if String.eqb spiflash "spiflash_4x" then Ok 11%Z
  else Raise KeyError.

(** The SPI flash, whatever its size, behind a window of 16 MB. The pads are
    requested before the table is read: of an unknown name the first failure is
    LiteX's if the board has no such pads. *)
Definition spiflash16_steps (spiflash : string) (flash : Z) : result (list action) :=
  dummy ← spiflash_dummy spiflash;
  Ok [req spiflash; Submodule "spiflash";
      AddConstant "SPIFLASH_PAGE_SIZE" (CInt 256);
      AddConstant "SPIFLASH_SECTOR_SIZE" (CInt 0x10000);
      WbSlave flash; AddRegion "spiflash" flash (16 * 1024 * 1024)].

(** What the constructors that pass sizes of their own do when the caller gives
    them too. *)
Definition no_duplicate (given : list (option Z)) : result unit :=
  if forallb (fun o => bool_decide (o = None)) given then Ok tt else Raise TypeError.

(** [SoCSDRAM.mem_map] as the Arty's and the NeTV2's modules replace it. *)
Definition sdram_mem_map : gmap string Z :=
  {["rom" := 0x00000000%Z; "sram" := 0x10000000%Z; "main_ram" := 0x40000000%Z; "csr" := 0xe0000000%Z]}.

Definition linux_mem_map : gmap string Z :=
  mem_map_update {["spiflash" := 0x20000000%Z; "emulator_ram" := 0x50000000%Z]} sdram_mem_map.

Section soc.
Context {LS : LitexSoC}.

(** The other boards' map, and the networked targets'. *)
Definition flash_mem_map : gmap string Z := mem_map_update {["spiflash" := 0x20000000%Z]} core_mem_map.
Definition net_mem_map (base : gmap string Z) : gmap string Z := mem_map_update {["ethmac" := 0x30000000%Z]} base.

(** ** Base SoCs *)

Definition arty_init (mem_map : gmap string Z) (spiflash : string) (kwargs : Kwargs) : result (list action) :=
  let kw := with_sizes kwargs 0x8000 0x8000 in
  flash ← mem mem_map "spiflash";
  steps ← spiflash16_steps spiflash flash;
  emulator ← emulator_steps mem_map kw;
  gateware ← attr (gateware_size arty);
  let bios_size := 0x8000%Z in
  Ok ([Core (inject_Z 100000000) true kw] ++ arty_crg ++ [Submodule "crg"; Submodule "info"] ++ cas_steps ++
      steps ++ emulator ++
      [AddConstant "FLASH_BOOT_ADDRESS" (CInt (flash + gateware + bios_size));
       req "ddram"; Submodule "ddrphy";
       AddConstant "READ_LEVELING_BITSLIP" (CInt 3); AddConstant "READ_LEVELING_DELAY" (CInt 14)])%list.

(** [TFSoC]. *)
Definition arty_tf_init (spiflash : string) (kwargs : Kwargs) : result (list action) :=
  base ← arty_init linux_mem_map spiflash kwargs;
  Ok (base ++ [Io (Extend i2c_pmod_d); reqn "i2c_pmodd" 0; Submodule "i2c0"])%list.

(** Basys 3 and Cmod A7: no DRAM. *)
Definition small_init (crg : list action) (spiflash : string) (kwargs : Kwargs) : result (list action) :=
  let kw := with_sizes kwargs 0x8000 0x8000 in
  flash ← mem flash_mem_map "spiflash";
  steps ← spiflash16_steps spiflash flash;
  Ok ([Core (inject_Z 100000000) true kw] ++ crg ++ [Submodule "crg"; Submodule "info"] ++ steps)%list.

Definition basys3_init : string -> Kwargs -> result (list action) := small_init basys3_crg.
Definition cmod_a7_init : string -> Kwargs -> result (list action) := small_init cmod_a7_crg.

Definition mimas_a7_init (mem_map : gmap string Z) (spiflash : string) (kwargs : Kwargs) : result (list action) :=
  _ ← no_duplicate [integrated_rom_size kwargs; integrated_sram_size kwargs];
  let kw := set_sizes (Some 0x10000) (Some 0x10000) kwargs in
  flash ← mem mem_map "spiflash";
  steps ← spiflash16_steps spiflash flash;
  Ok ([Core (inject_Z 100000000) true kw] ++ mimas_a7_crg ++
      [Submodule "crg"; Submodule "info"; req "ddram"; Submodule "ddrphy"] ++ steps)%list.

Definition neso_init (spiflash : string) (kwargs : Kwargs) : result (list action) :=
  let kw := with_sizes kwargs 0x8000 0x8000 in
  flash ← mem flash_mem_map "spiflash";
  steps ← spiflash16_steps spiflash flash;
  Ok ([Core (inject_Z 100000000) true kw] ++ neso_crg ++ [Submodule "crg"; Submodule "info"] ++ steps ++
      [req "ddram"; Submodule "ddrphy";
       AddConstant "READ_LEVELING_BITSLIP" (CInt 3); AddConstant "READ_LEVELING_DELAY" (CInt 14)])%list.

(** No SPI flash core, although the map has a place for it. *)
Definition netv2_init (mem_map : gmap string Z) (kwargs : Kwargs) : result (list action) :=
  let kw := with_sizes kwargs 0x8000 0x8000 in
  emulator ← emulator_steps mem_map kw;
  Ok ([Core (inject_Z 100000000) true kw] ++ netv2_crg ++ [Submodule "crg"; Submodule "info"] ++ cas_steps ++
      emulator ++ [req "ddram"; Submodule "ddrphy"])%list.

(** Its own UART, shared with a Wishbone bridge by a switch. *)
Definition nexys_video_init (mem_map : gmap string Z) (spiflash : string) (kwargs : Kwargs) : result (list action) :=
  let kw := with_sizes kwargs 0x8000 0x8000 in
  flash ← mem mem_map "spiflash";
  steps ← spiflash16_steps spiflash flash;
  Ok ([Core (inject_Z 100000000) false kw] ++ nexys_video_crg ++
      [Submodule "crg"; Submodule "uart"; Submodule "bridge"; req "serial"; Submodule "uart_phy";
       Submodule "uart_multiplexer"; reqn "user_sw" 0; Submodule "info"; req "oled"; Submodule "oled";
       req "ddram"; Submodule "ddrphy";
       AddConstant "READ_LEVELING_BITSLIP" (CInt 3); AddConstant "READ_LEVELING_DELAY" (CInt 14)] ++
      steps ++ [AddInterrupt "uart"])%list.

(** ** Networked SoCs *)

Definition ethernet_steps (mem_map : gmap string Z) : result (list action) :=
  ethmac ← mem mem_map "ethmac";
  Ok [req "eth_clocks"; req "eth"; Submodule "ethphy"; Submodule "ethmac"; WbSlave ethmac;
      AddRegion "ethmac" (Z.lor ethmac shadow_base) 0x2000; AddInterrupt "ethmac"].

Definition arty_net_init (spiflash : string) (kwargs : Kwargs) : result (list action) :=
  base ← arty_init (net_mem_map linux_mem_map) spiflash (net_kwargs kwargs);
  ethernet ← ethernet_steps (net_mem_map linux_mem_map);
  Ok (base ++ ethernet)%list.

Definition mimas_a7_net_init (spiflash : string) (kwargs : Kwargs) : result (list action) :=
  base ← mimas_a7_init (net_mem_map flash_mem_map) spiflash kwargs;
  ethernet ← ethernet_steps (net_mem_map flash_mem_map);
  Ok (base ++ ethernet)%list.

Definition netv2_net_init (kwargs : Kwargs) : result (list action) :=
  _ ← no_duplicate [integrated_rom_size kwargs];
  base ← netv2_init (net_mem_map linux_mem_map) (set_sizes (Some 0x10000) (integrated_sram_size kwargs) kwargs);
  ethernet ← ethernet_steps (net_mem_map linux_mem_map);
  Ok (base ++ ethernet)%list.

Definition nexys_video_net_init (spiflash : string) (kwargs : Kwargs) : result (list action) :=
  base ← nexys_video_init (net_mem_map flash_mem_map) spiflash (net_kwargs kwargs);
  ethernet ← ethernet_steps (net_mem_map flash_mem_map);
  Ok (base ++ ethernet)%list.

(** [EtherboneSoC] of the Mimas A7: [cpu_type=None], no CPU, which LiteX also
    accepts as "None". *)
Definition mimas_a7_bridge_net_init (kwargs : Kwargs) : result (list action) :=
  _ ← no_duplicate [integrated_rom_size kwargs; integrated_sram_size kwargs];
  let kw := set_sizes (Some 0x8000) (Some 0x8000) (set_cpu (Some "None") (cpu_variant_arg kwargs) kwargs) in
  Ok ([Core (inject_Z 142000000) false kw] ++ mimas_a7_crg ++
      [Submodule "crg"; req "eth_clocks"; req "eth"; Submodule "ethphy"; Submodule "ethcore"])%list.

(** ** Video SoCs *)

(** [VideoSoC] of Mimas A7 and Nexys Video. *)
Definition video_steps (hdmi_infos : list (string * string)) : list action :=
  ([req "hdmi_in"; Submodule "hdmi_in0"; Submodule "hdmi_in0_freq"; req "hdmi_out"; Submodule "hdmi_out0"] ++
   info_constants hdmi_infos ++ [AddInterrupt "hdmi_in0"])%list.

(** [VideoSoCDebug]. *)
Definition debug_steps : list action :=
  [Submodule "analyzer"; reqn "user_led" 0; reqn "user_led" 1; reqn "user_led" 2].

Definition mimas_a7_video_init (debug : bool) (hdmi_infos : list (string * string)) (spiflash : string)
    (kwargs : Kwargs) : result (list action) :=
  net ← mimas_a7_net_init spiflash kwargs;
  Ok (net ++ video_steps hdmi_infos ++ if debug then debug_steps else [])%list.

Definition nexys_video_video_init (debug : bool) (hdmi_infos : list (string * string)) (spiflash : string)
    (kwargs : Kwargs) : result (list action) :=
  net ← nexys_video_net_init spiflash kwargs;
  Ok (net ++ video_steps hdmi_infos ++ if debug then debug_steps else [])%list.

(** [HDMI2PCIeSoC]: [self.interrupts] in the order of [sorted]. *)
Definition pcie_interrupts : list (string * string) :=
  [("PCIE_DMA0_WRITER", "writer"); ("PCIE_DMA0_READER", "reader")].

Definition interrupt_constants : list action :=
  (fun ik => AddConstant (fst (snd ik) +++ "_INTERRUPT") (CInt (fst ik))) <$> enumerate 0 (sorted_items pcie_interrupts).

Definition hdmi2pcie_init (hdmi_infos : list (string * string)) (kwargs : Kwargs) : result (list action) :=
  base ← netv2_init linux_mem_map kwargs;
  Ok (base ++ [req "pcie_x1"; Submodule "pcie_phy"; Submodule "pcie_endpoint"; Submodule "pcie_bridge";
               Submodule "wb_swap"; Submodule "pcie_dma0"; Submodule "pcie_msi"] ++ interrupt_constants ++
      [reqn "hdmi_in" 0; Submodule "hdmi_in0_freq"; Submodule "hdmi_in0"; reqn "hdmi_out" 0; Submodule "hdmi_out0"] ++
      info_constants hdmi_infos ++ [AddInterrupt "hdmi_in0"])%list.

(** ** The SoC classes *)

Inductive series7_soc :=
| Arty | ArtyNet | ArtyTf | Basys3 | CmodA7 | MimasA7 | MimasA7Net | MimasA7Bridge
| MimasA7Video (debug : bool) | Neso | Netv2 | Netv2Net | Hdmi2Pcie
| NexysVideo | NexysVideoNet | NexysVideoVideo (debug : bool).

#[export] Instance series7_soc_eq : EqDecision series7_soc.
Proof. solve_decision. Defined.

Definition series7_init (s : series7_soc) (hdmi_infos : list (string * string)) (spiflash : string)
    : Kwargs -> result (list action) :=
  match s with
  | Arty => arty_init linux_mem_map spiflash
  | ArtyNet => arty_net_init spiflash
  | ArtyTf => arty_tf_init spiflash
  | Basys3 => basys3_init spiflash
  | CmodA7 => cmod_a7_init spiflash
  | MimasA7 => mimas_a7_init flash_mem_map spiflash
  | MimasA7Net => mimas_a7_net_init spiflash
  | MimasA7Bridge => mimas_a7_bridge_net_init
  | MimasA7Video d => mimas_a7_video_init d hdmi_infos spiflash
  | Neso => neso_init spiflash
  | Netv2 => netv2_init linux_mem_map
  | Netv2Net => netv2_net_init
  | Hdmi2Pcie => hdmi2pcie_init hdmi_infos
  | NexysVideo => nexys_video_init flash_mem_map spiflash
  | NexysVideoNet => nexys_video_net_init spiflash
  | NexysVideoVideo d => nexys_video_video_init d hdmi_infos spiflash
  end.
End soc.

Definition series7_platform (s : series7_soc) : Platform :=
  match s with
  | Arty | ArtyNet | ArtyTf => arty
  | Basys3 => basys3
  | CmodA7 => cmod_a7
  | MimasA7 | MimasA7Net | MimasA7Bridge | MimasA7Video _ => mimas_a7
  | Neso => neso
  | Netv2 | Netv2Net | Hdmi2Pcie => netv2
  | NexysVideo | NexysVideoNet | NexysVideoVideo _ => nexys_video
  end.

Definition series7_connectors (s : series7_soc) : connectors :=
  match s with
  | MimasA7 | MimasA7Net | MimasA7Bridge | MimasA7Video _ => mimas_a7_connectors
  | NexysVideo | NexysVideoNet | NexysVideoVideo _ => nexys_video_connectors
  | _ => []
  end.

(** ** Theorems *)

(** The arguments the constructors refuse, and how. *)
Definition has_spiflash (s : series7_soc) : bool :=
  match s with MimasA7Bridge | Netv2 | Netv2Net | Hdmi2Pcie => false | _ => true end.

Definition own_sizes (s : series7_soc) (kw : Kwargs) : list (option Z) :=
  match s with
  | MimasA7 | MimasA7Net | MimasA7Bridge | MimasA7Video _ => [integrated_rom_size kw; integrated_sram_size kw]
  | Netv2Net => [integrated_rom_size kw]
  | _ => []
  end.

Definition refusal (s : series7_soc) (spiflash : string) (kw : Kwargs) : option exn :=
  if existsb (fun o => bool_decide (is_Some o)) (own_sizes s kw) then Some TypeError
  else if has_spiflash s && negb (String.eqb spiflash "spiflash_1x" || String.eqb spiflash "spiflash_4x")
  then Some KeyError
  else None.

Section series7_theorems.
Context {LS : LitexSoC}.

(** The addresses the constructors read. *)
Lemma series7_addresses :
  (exists a, mem flash_mem_map "spiflash" = Ok a) /\
  (exists a, mem (net_mem_map flash_mem_map) "spiflash" = Ok a) /\
  (exists a, mem (net_mem_map flash_mem_map) "ethmac" = Ok a).
Proof.
  assert (exists a, mem flash_mem_map "spiflash" = Ok a) as [f Hf]
    by (by apply (mem_own "spiflash" 0x20000000%Z)).
  split_and!; [by exists f | exists f; by apply mem_base | by apply (mem_own "ethmac" 0x30000000%Z)].
Qed.

(** Those of the Arty and the NeTV2 are known. *)
Lemma linux_addresses :
  mem linux_mem_map "spiflash" = Ok 0x20000000%Z /\ mem linux_mem_map "emulator_ram" = Ok 0x50000000%Z /\
  mem (net_mem_map linux_mem_map) "spiflash" = Ok 0x20000000%Z /\
  mem (net_mem_map linux_mem_map) "emulator_ram" = Ok 0x50000000%Z /\
  mem (net_mem_map linux_mem_map) "ethmac" = Ok 0x30000000%Z.
Proof. by vm_compute. Qed.

Lemma no_duplicate_spec l :
  no_duplicate l = if existsb (fun o => bool_decide (is_Some o)) l then Raise TypeError else Ok tt.
Proof.
  unfold no_duplicate. assert (E : forallb (fun o : option Z => bool_decide (o = None)) l
    = negb (existsb (fun o => bool_decide (is_Some o)) l)).
  { induction l as [|[z|] l IH]; [done | done |]. exact IH. }
  rewrite E. by destruct existsb.
Qed.
End series7_theorems.

(** Case analysis on the SoC and its arguments, with the list of steps or the
    exception in the place of the constructor. *)
Ltac series7_steps s :=
  let f := fresh "f" in let n := fresh "n" in let m := fresh "m" in
  let H1 := fresh in let H2 := fresh in let H3 := fresh in
  let K1 := fresh in let K2 := fresh in let K3 := fresh in let K4 := fresh in let K5 := fresh in
  destruct series7_addresses as ([f H1] & [n H2] & [m H3]);
  destruct linux_addresses as (K1 & K2 & K3 & K4 & K5);
  destruct s; cbn [series7_init has_spiflash own_sizes];
  unfold arty_net_init, arty_tf_init, arty_init, basys3_init, cmod_a7_init, small_init, mimas_a7_video_init,
    mimas_a7_net_init, mimas_a7_init, mimas_a7_bridge_net_init, neso_init, hdmi2pcie_init, netv2_net_init,
    netv2_init, nexys_video_video_init, nexys_video_net_init, nexys_video_init, ethernet_steps,
    emulator_steps, spiflash16_steps, spiflash_dummy;
  rewrite ?no_duplicate_spec, ?H1, ?H2, ?H3, ?K1, ?K2, ?K3, ?K4, ?K5;
  repeat match goal with
         | |- context [if existsb ?f (?x :: ?l) then _ else _] => destruct (existsb f (x :: l))
         | |- context [if runs_linux ?k then _ else _] => destruct (runs_linux k)
         | b : bool |- _ => destruct b
         end.

(** Wired *)
Theorem series7_wired {LS : LitexSoC} {LU : LitexUart} {M : Type} {L : Litex M} {LL : LitexLaws M}
    (s : series7_soc) (m : M) (hdmi_infos : list (string * string)) (spiflash : string) (kw : Kwargs)
    (Hio : available m = io (series7_platform s)) (Hc : conns_of m = series7_connectors s) :
  match refusal s spiflash kw with
  | Some e => series7_init s hdmi_infos spiflash kw = Raise e
  | None => exists l rs m' ps, series7_init s hdmi_infos spiflash kw = Ok l /\
      run_io (io_of l) m = Some (rs, m') /\ all_pads m' rs = Some ps /\ NoDup ps
  end.
Proof.
  assert (Hw : match refusal s spiflash kw with
               | Some e => series7_init s hdmi_infos spiflash kw = Raise e
               | None => exists l, series7_init s hdmi_infos spiflash kw = Ok l /\ wired (io_of l) m = true
               end).
  { unfold refusal.
    destruct (String.eqb_spec spiflash "spiflash_1x") as [->|H1];
      [|destruct (String.eqb_spec spiflash "spiflash_4x") as [->|H4]].
    all: series7_steps s; rewrite ?(proj2 (String.eqb_neq _ _) H1), ?(proj2 (String.eqb_neq _ _) H4).
    all: cbn [existsb andb orb negb String.eqb Ascii.eqb Bool.eqb]; try reflexivity.
    all: eexists; split; [reflexivity|].
    all: rewrite io_of_plain, wired_view; unfold view; rewrite Hio, Hc; unfold video_steps, info_constants;
      rewrite ?plain_io_app, ?(proj1 (constants_steps _)); vm_compute; reflexivity. }
  destruct (refusal s spiflash kw); [exact Hw|]. destruct Hw as (l & Hl & Hw).
  destruct (wired_spec _ _ Hw) as (rs & m' & ps & H). by exists l, rs, m', ps.
Qed.

(** The boot address of the Arty's SoCs, for every Linux or other
    CPU, flash wiring and arguments the constructors accept. The address is that
    of the firmware in the image [mkimage.py] writes exactly when the ROM has
    0x8000 bytes. The plain and the [tf] SoC ask for that much; the networked
    one asks for 0x10000 if no size is given and the CPU is not lm32, and then
    the address is 0x8000 short. *)
Theorem arty_boot_address {LS : LitexSoC} (s : series7_soc) (spiflash : string) (kw : Kwargs)
    (Hs : s = Arty \/ s = ArtyTf \/ s = ArtyNet) (Hr : refusal s spiflash kw = None) :
  exists l rom boot, series7_init s [] spiflash kw = Ok l /\ rom_size_of l = Some rom /\
    boot_constants l = [CInt boot] /\
    rom = match integrated_rom_size kw with
          | Some r => r
          | None => if decide (s = ArtyNet /\ default "lm32" (cpu_type_arg kw) <> "lm32") then 0x10000%Z else 0x8000%Z
          end /\
    forall core, Make.find_region "rom" core = Some rom ->
      (boot = 0x20000000 + FlashImage.firmware_pos (image_of (series7_platform s) (soc_of core l)) <-> rom = 0x8000)%Z.
Proof.
  assert (Hd : spiflash_dummy spiflash = Ok 9%Z \/ spiflash_dummy spiflash = Ok 11%Z).
  { unfold refusal in Hr. destruct Hs as [-> | [-> | ->]]; cbn [own_sizes existsb has_spiflash andb] in Hr;
      unfold spiflash_dummy; destruct (String.eqb spiflash "spiflash_1x"), (String.eqb spiflash "spiflash_4x"); auto; done. }
  destruct linux_addresses as (K1 & K2 & K3 & K4 & K5).
  assert (Hb : exists l rom boot, series7_init s [] spiflash kw = Ok l /\ rom_size_of l = Some rom /\
     boot_constants l = [CInt boot] /\ boot = (0x20000000 + 0x220000 + 0x8000)%Z /\
     rom = default 0x8000%Z (match s with ArtyNet => integrated_rom_size (net_kwargs kw) | _ => integrated_rom_size kw end)).
  { destruct Hs as [-> | [-> | ->]]; cbn [series7_init]; unfold arty_net_init, arty_tf_init, arty_init, ethernet_steps,
      emulator_steps, spiflash16_steps; rewrite ?K1, ?K2, ?K3, ?K4, ?K5; destruct Hd as [-> | ->];
      destruct (runs_linux _); cbn; do 3 eexists; split_and!; reflexivity. }
  destruct Hb as (l & rom & boot & H1 & H2 & H3 & H4 & H5). exists l, rom, boot. split_and!; [done..| |].
  - rewrite H5. destruct Hs as [-> | [-> | ->]]; [| |rewrite net_kwargs_rom];
      destruct (integrated_rom_size kw); try done; repeat case_decide; naive_solver.
  - intros core Hcore. unfold image_of, FlashImage.firmware_pos. rewrite (bios_maxsize_rom _ _ _ Hcore).
    assert (series7_platform s = arty) as -> by (destruct Hs as [-> | [-> | ->]]; done).
    cbn [FlashImage.gateware_size FlashImage.bios_size gateware_size arty]. change (default 0%Z (Some 0x220000%Z)) with 0x220000%Z. lia.
Qed.

(** The networked Arty with a VexRiscv. *)
Lemma arty_boot_address_witness :
  let LS := plain_soc ∅ in
  let kw := set_cpu (Some "vexriscv") None no_kwargs in
  exists l rom boot, series7_init ArtyNet [] "spiflash_1x" kw = Ok l /\ rom_size_of l = Some rom /\
    boot_constants l = [CInt boot] /\ rom = 0x10000%Z.
Proof.
  intros LS kw.
  destruct (arty_boot_address (LS := LS) ArtyNet "spiflash_1x" kw ltac:(right; right; reflexivity) ltac:(reflexivity))
    as (l & rom & boot & H1 & H2 & H3 & H4 & _).
  exists l, rom, boot. split; [exact H1|]. split; [exact H2|]. split; [exact H3|].
  rewrite H4. vm_compute. reflexivity.
Defined.

(** The SoC behind PCI Express on a NeTV2 with LiteX's list of resources. *)
Definition netv2_board : board := (io netv2, []).

Lemma series7_wired_witness :
  let LS := plain_soc ∅ in
  exists l rs m' ps, series7_init Hdmi2Pcie [("HDMI_IN0_MNEMONIC", "RX1")] "" no_kwargs = Ok l /\
    run_io (io_of l) netv2_board = Some (rs, m') /\ all_pads m' rs = Some ps /\ NoDup ps.
Proof.
  intros LS.
  exact (series7_wired (LS := LS) (LU := plain_uart _) (L := board_litex) Hdmi2Pcie netv2_board
           [("HDMI_IN0_MNEMONIC", "RX1")] "" no_kwargs ltac:(reflexivity) ltac:(reflexivity)).
Defined.
