(* ===== verification/Info.v ===== *)
(** * Information registers

    [gateware/info/*.py]: what a board tells the firmware about itself. The
    identifier of the FPGA is shifted out of a vendor primitive; the git commit
    and the names of platform and target are constants packed into registers;
    the XADC's channels are latched. *)
From S2P Require Import Prelude PyStr Hdl.

(** ** Packing bytes into a register *)

(** [sum(x << (i*8) for i, x in enumerate(reversed(l)))]. *)
Definition packed (l : list Z) : Z :=
  foldr Z.add 0 (imap (fun i x => Z.shiftl x (Z.of_nat i * 8)) (rev l)).

(** ** [dna.py]: the identifier of the FPGA *)

(** The primitive DNA_PORT as documented: a rising clock edge with READ loads
    the device's identifier into a 57-bit shift register, one with SHIFT moves
    it up and takes DIN in at the bottom; DOUT is its top bit. *)
Class DnaPort := {
  port : Type;
  clk_edge : forall (READ SHIFT DIN : bool), port -> port;
  DOUT : port -> bool;
  device_dna : Z;
  content : port -> Z;
  device_dna_range : in_width 57 device_dna;
  edge_read sh din p : content (clk_edge true sh din p) = device_dna;
  edge_shift din p : content (clk_edge false true din p) = wrap 57 (content p * 2 + b2z din);
  DOUT_top p : DOUT p = Z.testbit (content p) 56
}.

(** A shift register is an instance. *)
Definition shift_register (dna : Z) (H : in_width 57 dna) : DnaPort.
Proof.
  refine {| port := Z; device_dna := dna; content := id; DOUT p := Z.testbit p 56;
            clk_edge r sh din p :=
              if r then dna else if sh then wrap 57 (p * 2 + b2z din) else p |}; done.
Defined.

Section dna.
Context {DP : DnaPort}.

Definition n : Z := 57.

Record DNA := { _id : Z; cnt : Z; dna_port : port }.

Definition dna_reset (p : port) : DNA := {| _id := 0; cnt := 0; dna_port := p |}.

(** The primitive's clock is [cnt[0]]: it sees an edge when that bit rises. *)
Definition dna_next (_ : ()) (s : DNA) : DNA :=
  let counting := cnt s <? 2 * n in
  let cnt' := if counting then wrap 7 (cnt s + 1) else cnt s in
  {| _id := if counting && Z.odd (cnt s)
            then wrap 57 (cat 1 (b2z (DOUT (dna_port s))) (_id s)) else _id s;
     cnt := cnt';
     dna_port := if negb (Z.odd (cnt s)) && Z.odd cnt'
                 then clk_edge (cnt s <? 2) true (Z.testbit (_id s) 56) (dna_port s)
                 else dna_port s |}.
End dna.

(** ** [platform.py]: names *)

Fixpoint nuls (k : nat) : string := match k with O => EmptyString | S k => String nul (nuls k) end.

Definition binify (s : string) (size : Z) : result Z :=
  py_assert (size mod 8 =? 0);;
  let blen := size / 8 in
  py_assert (Z.of_nat (String.length s) <=? blen);;
  Ok (packed (ords (s +++ nuls (Z.to_nat blen - String.length s)))).

(** The registers of [PlatformInfo(platform, target)]. *)
Definition PlatformInfo (platform target : string) : result (Z * Z) :=
  p ← binify (String.substring 0 8 platform) 64;
  t ← binify (String.substring 0 8 target) 64;
  Ok (p, t).

(** ** [__init__.py]: [target_name.lower()[:-3]], and which modules there are *)

Definition info_target (target_name : string) : string := cut_end 3 (lower target_name).

Definition info_modules (device : string) : list string :=
  app ["dna"; "git"; "platform"]%string (if contains device "xc7" then ["xadc"]%string else []).

(** ** [git.py]: the commit *)

Definition hex_value (c : ascii) : option Z :=
  let k := nat_of_ascii c in
  if (48 <=? k)%nat && (k <=? 57)%nat then Some (Z.of_nat k - 48)
  else if (97 <=? k)%nat && (k <=? 102)%nat then Some (Z.of_nat k - 87)
  else if (65 <=? k)%nat && (k <=? 70)%nat then Some (Z.of_nat k - 55)
  else None.

(** [binascii.unhexlify]; its exception is a ValueError. *)
Fixpoint unhexlify (s : string) : result (list Z) :=
  match s with
  | EmptyString => Ok []
  | String a (String b s) =>
      match hex_value a, hex_value b with
      | Some x, Some y => l ← unhexlify s; Ok (16 * x + y :: l)
      | _, _ => Raise ValueError
      end
  | String _ EmptyString => Raise ValueError
  end.

(** [decode('ascii')] of what git printed. *)
Definition decode_ascii (out : string) : result string :=
  if forallb (fun x => x <? 128) (ords out) then Ok out else Raise UnicodeError.


Definition git_commit (out : string) : result (list Z) := s ← decode_ascii out; unhexlify (strip s).

(** The value of the 160-bit [commit] register. *)
Definition GitInfo (out : string) : result Z := c ← git_commit out; Ok (wrap 160 (packed c)).

(** ** [xadc.py]: the analogue channels *)

(** What the primitive shows in a cycle: DRDY, CHANNEL and DO. *)
Record XadcIn := { drdy : bool; channel : Z; data : Z }.

Record XADC := { _temperature : Z; _vccint : Z; _vccaux : Z; _vccbram : Z }.

Definition xadc_reset : XADC := {| _temperature := 0; _vccint := 0; _vccaux := 0; _vccbram := 0 |}.

Definition xadc_next (i : XadcIn) (s : XADC) : XADC :=
  let v := wrap 12 (Z.shiftr (data i) 4) in
  let latch c old := if drdy i && (channel i =? c) then v else old in
  {| _temperature := latch 0 (_temperature s); _vccint := latch 1 (_vccint s);
     _vccaux := latch 2 (_vccaux s); _vccbram := latch 6 (_vccbram s) |}.

(** ** Theorems *)

Lemma packed_snoc l d : packed (l ++ [d]) = packed l * 2 ^ 8 + d.
Proof.
  unfold packed. rewrite rev_app_distr. cbn [rev app imap foldr]. rewrite Z.shiftl_0_r.
  cut (forall (f : nat -> nat) m, foldr Z.add 0 (imap (fun i x => Z.shiftl x (Z.of_nat (S (f i)) * 8)) m) =
                         foldr Z.add 0 (imap (fun i x => Z.shiftl x (Z.of_nat (f i) * 8)) m) * 2 ^ 8).
  { intros H. rewrite Z.add_comm. f_equal. apply (H id). }
  intros f m. revert f. induction m as [|x m IH]; intros f; [done|]. cbn [imap foldr].
  unfold compose. rewrite (IH (fun i => f (S i))), Z.mul_add_distr_r. f_equal.
  rewrite !Z.shiftl_mul_pow2 by lia.
  replace (Z.of_nat (S (f 0%nat)) * 8) with (Z.of_nat (f 0%nat) * 8 + 8) by lia. rewrite pow2_add by lia. ring.
Qed.

Lemma packed_digits l : packed l = digits 8 l.
Proof.
  induction l as [|d l IH] using rev_ind; [done|]. by rewrite packed_snoc, digits_snoc, IH.
Qed.

(** *** The identifier *)

Section dna_theorems.
Context {DP : DnaPort}.

(** After [k] rounds of two cycles: [k] bits are in the register, and the
    primitive has moved [k - 1] of them out. *)
Definition dna_inv (k : nat) (s : DNA) : Prop :=
  (k <= 57)%nat /\ cnt s = 2 * Z.of_nat k /\ _id s = device_dna / 2 ^ (57 - Z.of_nat k) /\
  (k = 0%nat \/ exists j, 0 <= j < 2 ^ (Z.of_nat k - 1) /\
     content (dna_port s) = wrap 57 (device_dna * 2 ^ (Z.of_nat k - 1) + j)).

Lemma dna_div_range k : 0 <= k <= 57 -> in_width k (device_dna / 2 ^ (57 - k)).
Proof.
  intros Hk. pose proof device_dna_range as H. unfold in_width in *. pow2.
  split; [apply Z.div_pos; lia|]. apply Z.div_lt_upper_bound; [lia|]. rewrite <- pow2_add by lia.
  replace (57 - k + k) with 57 by lia. lia.
Qed.

(** One more edge, and the bit that shows. *)
Lemma dna_edge k s p' :
  dna_inv k s -> (k < 57)%nat ->
  p' = clk_edge (cnt s <? 2) true (Z.testbit (_id s) 56) (dna_port s) ->
  (exists j, 0 <= j < 2 ^ Z.of_nat k /\ content p' = wrap 57 (device_dna * 2 ^ Z.of_nat k + j)) /\
  DOUT p' = Z.testbit device_dna (56 - Z.of_nat k).
Proof.
  intros (_ & Hc & _ & Hp) Hk ->.
  assert (exists j, 0 <= j < 2 ^ Z.of_nat k /\
            content (clk_edge (cnt s <? 2) true (Z.testbit (_id s) 56) (dna_port s)) =
            wrap 57 (device_dna * 2 ^ Z.of_nat k + j)) as (j & Hj & E).
  { rewrite Hc. destruct k as [|k].
    - exists 0. split; [done|]. change (2 * Z.of_nat 0 <? 2) with true. rewrite edge_read.
      cbn. rewrite Z.add_0_r, Z.mul_1_r. symmetry. apply wrap_id, device_dna_range.
    - destruct Hp as [|(j & Hj & E)]; [done|].
      replace (2 * Z.of_nat (S k) <? 2) with false by (symmetry; apply Z.ltb_ge; lia).
      rewrite edge_shift, E. set (d := Z.testbit (_id s) 56).
      exists (2 * j + b2z d). replace (Z.of_nat (S k) - 1) with (Z.of_nat k) in * by lia.
      replace (Z.of_nat (S k)) with (Z.of_nat k + 1) by lia. rewrite pow2_add by lia.
      pose proof (b2z_range d). unfold in_width in *. split; [lia|].
      unfold wrap. rewrite <- (Z.add_mod_idemp_l (_ * 2)), Z.mul_mod_idemp_l by done.
      rewrite Z.add_mod_idemp_l by done. f_equal. ring. }
  split; [by exists j|]. rewrite DOUT_top, E, wrap_testbit by lia.
  replace 56 with ((56 - Z.of_nat k) + Z.of_nat k) at 1 by lia.
  rewrite <- Z.div_pow2_bits by lia. f_equal. rewrite Z.div_add_l, Z.div_small by (pow2; lia). lia.
Qed.

Lemma dna_id_step k (d : Z) :
  0 <= k < 57 -> 2 * (d / 2 ^ (57 - k)) + b2z (Z.testbit d (56 - k)) = d / 2 ^ (57 - (k + 1)).
Proof.
  intros Hk. replace (57 - (k + 1)) with (56 - k) by lia. replace (57 - k) with (56 - k + 1) by lia.
  rewrite pow2_add, <- Z.div_div by (pow2; lia). change (2 ^ 1) with 2.
  replace (Z.testbit d (56 - k)) with (Z.odd (d / 2 ^ (56 - k))).
  - pose proof (Z.div2_odd (d / 2 ^ (56 - k))) as H. rewrite Z.div2_div in H.
    unfold b2z, Z.b2z in *. lia.
  - by rewrite <- Z.bit0_odd, Z.div_pow2_bits by lia.
Qed.

Lemma dna_odd k : Z.odd (2 * Z.of_nat k) = false /\ Z.odd (2 * Z.of_nat k + 1) = true.
Proof. by rewrite Z.odd_add, Z.odd_mul. Qed.

Lemma dna_odd_cycle k s :
  dna_inv k s -> (k < 57)%nat ->
  let s1 := dna_next () s in
  cnt s1 = 2 * Z.of_nat k + 1 /\ _id s1 = _id s /\
  dna_port s1 = clk_edge (cnt s <? 2) true (Z.testbit (_id s) 56) (dna_port s).
Proof.
  intros (_ & Hc & _) Hk. unfold dna_next. cbn [cnt _id dna_port]. rewrite Hc.
  destruct (dna_odd k) as [E1 E2]. rewrite E1, andb_false_r.
  replace (2 * Z.of_nat k <? 2 * n) with true by (symmetry; apply Z.ltb_lt; unfold n; lia).
  rewrite wrap_id by (unfold in_width; lia). by rewrite E2.
Qed.

Lemma dna_round k s :
  dna_inv k s -> (k < 57)%nat -> dna_inv (S k) (dna_next () (dna_next () s)).
Proof.
  intros Hi Hk. destruct (dna_odd_cycle k s Hi Hk) as (Hc & Hid & Hp).
  destruct (dna_edge k s _ Hi Hk Hp) as ((j & Hj & E) & Ed).
  destruct Hi as (_ & _ & Hi & _). set (s1 := dna_next () s) in *. clearbody s1.
  unfold dna_next. rewrite Hc. destruct (dna_odd k) as [_ E2]. rewrite E2.
  replace (2 * Z.of_nat k + 1 <? 2 * n) with true by (symmetry; apply Z.ltb_lt; unfold n; lia).
  unfold dna_inv. cbn [cnt _id dna_port andb negb]. rewrite wrap_id by (unfold in_width; lia).
  split_and!; [lia | lia | | right; exists j].
  - rewrite Ed, Hid, Hi, cat_eq by (try apply b2z_range; lia).
    replace (Z.of_nat (S k)) with (Z.of_nat k + 1) by lia. rewrite <- dna_id_step by lia.
    rewrite Z.mul_comm. change (2 ^ 1) with 2. rewrite wrap_id; [done|].
    pose proof (dna_id_step (Z.of_nat k) device_dna ltac:(lia)) as ->.
    pose proof (dna_div_range (Z.of_nat k + 1) ltac:(lia)) as H. unfold in_width in *.
    pose proof (Z.pow_le_mono_r 2 (Z.of_nat k + 1) 57). lia.
  - replace (Z.of_nat (S k) - 1) with (Z.of_nat k) by lia. done.
Qed.

Lemma dna_rounds p k : (k <= 57)%nat -> dna_inv k (state_at dna_next (dna_reset p) (fun _ => ()) (2 * k)).
Proof.
  induction k as [|k IH]; intros Hk.
  - split_and!; [lia | done | | by left]. cbn. change (57 - Z.of_nat 0) with 57.
    symmetry. apply Z.div_small, device_dna_range.
  - replace (2 * S k)%nat with (S (S (2 * k))) by lia. apply dna_round; [apply IH|]; lia.
Qed.

Lemma dna_stop s : dna_inv 57 s -> dna_next () s = s.
Proof.
  intros (_ & Hc & _). destruct s as [d c q]. cbn in Hc. by subst c.
Qed.

Lemma dna_done p t :
  (114 <= t)%nat -> dna_inv 57 (state_at dna_next (dna_reset p) (fun _ => ()) t).
Proof.
  intros Ht. replace t with (114 + (t - 114))%nat by lia. generalize (t - 114)%nat. clear t Ht.
  intros t. induction t as [|t IH]; [apply (dna_rounds p 57); lia|].
  rewrite Nat.add_succ_r. rewrite state_at_S, dna_stop by done. done.
Qed.
End dna_theorems.

(** Claim C29: the identifier register, for every primitive that behaves as
    documented, whatever it holds at first: after [t] cycles the register has
    the [t/2] most significant bits of the device's identifier, from the 114th
    cycle on all 57 of them, and then it does not change any more. *)
Theorem dna_reads_identifier {DP : DnaPort} (p : port) (t : nat) :
  let s := state_at dna_next (dna_reset p) (fun _ => ()) t in
  _id s = device_dna / 2 ^ (57 - Z.min (Z.of_nat t / 2) 57) /\
  ((114 <= t)%nat -> _id s = device_dna /\ dna_next () s = s).
Proof.
  cbn zeta. destruct (decide (114 <= t)%nat) as [Ht|Ht].
  - pose proof (dna_done p t Ht) as Hi. pose proof (dna_stop _ Hi) as Hs.
    destruct Hi as (_ & _ & Hi & _). rewrite Hi in *.
    rewrite Z.min_r by (apply Z.div_le_lower_bound; lia). change (57 - Z.of_nat 57) with 0 in *.
    change (57 - 57) with 0. rewrite Z.div_1_r in *. done.
  - split; [|lia]. pose proof (Z.div_mod (Z.of_nat t) 2 ltac:(lia)) as Hd.
    pose proof (Z.mod_pos_bound (Z.of_nat t) 2 ltac:(lia)).
    rewrite Z.min_l by (apply Z.div_le_upper_bound; lia).
    assert (exists k, Z.of_nat t / 2 = Z.of_nat k) as [k Hk] by (exists (Z.to_nat (Z.of_nat t / 2)); lia).
    rewrite Hk in *.
    pose proof (dna_rounds p k ltac:(lia)) as Hi.
    assert (t = 2 * k \/ t = S (2 * k))%nat as [-> | ->] by lia; [apply Hi|].
    rewrite state_at_S. rewrite (proj1 (proj2 (dna_odd_cycle k _ Hi ltac:(lia)))). apply Hi.
Qed.

(** A device whose identifier is 0x123456789abcde. *)
Definition example_port : DnaPort := shift_register 0x123456789abcde ltac:(by split).

Lemma dna_reads_identifier_witness :
  _id (state_at (dna_next (DP := example_port)) (dna_reset (DP := example_port) 0) (fun _ => ()) 200)
  = 0x123456789abcde.
Proof.
  apply (proj2 (dna_reads_identifier (DP := example_port) 0 200)). lia.
Defined.

(** *** Names *)

Lemma ords_nuls k : ords (nuls k) = replicate k 0.
Proof. unfold ords. induction k as [|k IH]; [done|]. cbn. by rewrite IH. Qed.

(** The text a register of [k] bytes holds: its bytes from the top, without
    the NUL bytes at the end. *)
Fixpoint strip_zeros (l : list Z) : list Z :=
  match l with
  | [] => []
  | x :: l => match strip_zeros l with [] => if x =? 0 then [] else [x] | r => x :: r end
  end.

Definition register_text (k : nat) (v : Z) : list Z := strip_zeros (to_digits 8 k v).

Lemma strip_zeros_pad l k : Forall (fun x => x <> 0) l -> strip_zeros (l ++ replicate k 0) = l.
Proof.
  intros H. induction H as [|x l Hx _ IH]; cbn [app strip_zeros].
  - induction k as [|k IH]; [done|]. cbn. by rewrite IH.
  - rewrite IH. destruct l; [|done]. by rewrite (proj2 (Z.eqb_neq x 0) Hx).
Qed.

Definition no_nul (s : string) : Prop := Forall (fun x => x <> 0) (ords s).

Lemma binify_ok s k :
  (String.length s <= k)%nat ->
  exists v, binify s (8 * Z.of_nat k) = Ok v /\ in_width (8 * Z.of_nat k) v /\
    to_digits 8 k v = ords s ++ replicate (k - String.length s) 0.
Proof.
  intros Hk. unfold binify.
  replace (8 * Z.of_nat k / 8) with (Z.of_nat k) by (symmetry; rewrite Z.mul_comm; by apply Z.div_mul).
  replace ((8 * Z.of_nat k) mod 8) with 0 by (symmetry; rewrite Z.mul_comm; by apply Z.mod_mul).
  replace (Z.of_nat (String.length s) <=? Z.of_nat k) with true by (symmetry; apply Z.leb_le; lia).
  cbn [Z.eqb py_assert mbind result_bind]. rewrite Nat2Z.id, packed_digits, ords_append, ords_nuls.
  set (l := ords s ++ replicate (k - String.length s) 0).
  assert (length l = k) as Hl by (unfold l; rewrite length_app, length_ords, length_replicate; lia).
  assert (Forall (in_width 8) l) as Hf by (apply Forall_app; split; [apply ords_range | by apply Forall_replicate]).
  eexists. split; [reflexivity|]. rewrite <- Hl. split; [by apply digits_range | by apply to_digits_digits].
Qed.

Lemma substring_length k s : String.length (String.substring 0 k s) = Nat.min k (String.length s).
Proof. revert s. induction k as [|k IH]; intros [|c s]; cbn; try done. by rewrite IH. Qed.

Lemma substring_take k s : ords (String.substring 0 k s) = take k (ords s).
Proof.
  unfold ords. revert s. induction k as [|k IH]; intros [|c s]; cbn; try done. by rewrite IH.
Qed.

(** The name registers of [PlatformInfo]: it never fails, and the
    firmware reads back, most significant byte first and up to the NUL bytes
    at the end, exactly the first eight characters of each name. *)
Theorem platform_info_roundtrip (platform target : string) (Hp : no_nul platform) (Ht : no_nul target) :
  exists p t, PlatformInfo platform target = Ok (p, t) /\ in_width 64 p /\ in_width 64 t /\
    register_text 8 p = take 8 (ords platform) /\ register_text 8 t = take 8 (ords target).
Proof.
  assert (H : forall s, no_nul s -> exists v, binify (String.substring 0 8 s) 64 = Ok v /\ in_width 64 v /\
                                    register_text 8 v = take 8 (ords s)).
  { intros s Hs. destruct (binify_ok (String.substring 0 8 s) 8) as (v & Hv & Hw & Hd).
    - rewrite substring_length. lia.
    - exists v. split; [exact Hv|]. split; [exact Hw|]. unfold register_text. rewrite Hd, substring_take.
      apply strip_zeros_pad. by apply Forall_take. }
  destruct (H _ Hp) as (p & Ep & Wp & Rp), (H _ Ht) as (t & Et & Wt & Rt).
  exists p, t. unfold PlatformInfo. rewrite Ep, Et. done.
Qed.

(** The Opsis with the class HDMI2USBSoC. *)
Lemma platform_info_roundtrip_witness :
  exists p t, PlatformInfo "opsis" (info_target "HDMI2USBSoC") = Ok (p, t) /\
    register_text 8 p = ords "opsis" /\ register_text 8 t = ords "hdmi2usb".
Proof.
  destruct (platform_info_roundtrip "opsis" (info_target "HDMI2USBSoC")) as (p & t & E & _ & _ & Rp & Rt);
    [by repeat constructor..|]. exists p, t. split; [exact E|]. split; [exact Rp | exact Rt].
Defined.

(** *** The commit *)

Definition lower_hex (c : ascii) : Prop := exists x, hex_value c = Some x /\ digit_char x = c /\ 0 <= x < 16.

(** Two lower-case digits for each byte: what git prints of a commit. *)
Definition hexlify (l : list Z) : string :=
  foldr (fun b s => String (digit_char (b / 16)) (String (digit_char (b mod 16)) s)) EmptyString l.

Lemma unhexlify_ok m s :
  String.length s = (2 * m)%nat -> Forall lower_hex (String.list_ascii_of_string s) ->
  exists l, unhexlify s = Ok l /\ length l = m /\ Forall (in_width 8) l /\ hexlify l = s.
Proof.
  revert s. induction m as [|m IH]; intros [|a [|b s]] Hl Hs; cbn [String.length] in Hl; try lia.
  - by exists [].
  - cbn in Hs. apply Forall_cons in Hs as [(x & Hx & Dx & Rx) [(y & Hy & Dy & Ry) Hs]%Forall_cons].
    destruct (IH s ltac:(lia) Hs) as (l & Hu & Hm & Hf & Hh).
    exists (16 * x + y :: l). cbn [unhexlify]. rewrite Hx, Hy, Hu. split_and!; [done | by cbn; rewrite Hm | |].
    + apply Forall_cons. split; [unfold in_width; lia | done].
    + cbn. fold (hexlify l).
      replace ((16 * x + y) / 16) with x by (rewrite Z.mul_comm, Z.div_add_l, Z.div_small; lia).
      replace ((16 * x + y) mod 16) with y
        by (rewrite Z.mul_comm, Z.add_comm, Z.mod_add, Z.mod_small; lia).
      by rewrite Dx, Dy, Hh.
Qed.


Lemma lower_hex_char c : lower_hex c -> blank c = false /\ (ord c <? 128) = true.
Proof.
  intros (x & H & _). destruct c as [[] [] [] [] [] [] [] []]; vm_compute in H; try done; by vm_compute.
Qed.

Lemma strip_hex s :
  Forall lower_hex (String.list_ascii_of_string s) -> strip (s +++ newline) = s.
Proof.
  intros Hs. unfold strip. assert (rstrip (s +++ newline) = s) as ->.
  { induction s as [|c s IH]; [done|]. cbn in Hs. apply Forall_cons in Hs as [Hc Hs].
    rewrite append_cons. cbn [rstrip]. rewrite IH by done. by rewrite (proj1 (lower_hex_char c Hc)). }
  destruct s as [|c s]; [done|]. cbn in Hs. apply Forall_cons in Hs as [Hc _].
  cbn [lstrip]. by rewrite (proj1 (lower_hex_char c Hc)).
Qed.

Lemma decode_hex s :
  Forall lower_hex (String.list_ascii_of_string s) -> decode_ascii (s +++ newline) = Ok (s +++ newline).
Proof.
  intros Hs. unfold decode_ascii. rewrite ords_append, forallb_app.
  replace (forallb (fun x => x <? 128) (ords s)) with true; [done|]. symmetry. apply forallb_forall.
  intros x Hx. apply list_elem_of_In, list_elem_of_fmap in Hx as (c & -> & Hc).
  rewrite Forall_forall in Hs. apply (lower_hex_char c), Hs, Hc.
Qed.

(** The register's value has the commit's bytes as digits. *)
Lemma git_commit_digits (h : string) :
  String.length h = 40%nat -> Forall lower_hex (String.list_ascii_of_string h) ->
  exists l, GitInfo (h +++ newline) = Ok (digits 8 l) /\ length l = 20%nat /\ Forall (in_width 8) l /\ hexlify l = h.
Proof.
  intros Hl Hh. destruct (unhexlify_ok 20 h Hl Hh) as (l & Hu & Hm & Hf & Hx).
  exists l. split; [|done]. unfold GitInfo, git_commit. rewrite decode_hex by done. cbn [mbind result_bind].
  rewrite strip_hex, Hu by done. cbn [mbind result_bind]. rewrite packed_digits.
  pose proof (digits_range 8 l ltac:(lia) Hf) as Hr. rewrite Hm in Hr. by rewrite wrap_id by exact Hr.
Qed.

(** The commit register. Of a commit as git prints it, forty
    lower-case digits and a newline, the register holds the number: its twenty
    bytes, printed from the top with two digits each, are the commit again. *)
Theorem git_commit_roundtrip (h : string)
    (Hl : String.length h = 40%nat) (Hh : Forall lower_hex (String.list_ascii_of_string h)) :
  exists v, GitInfo (h +++ newline) = Ok v /\ in_width 160 v /\ hexlify (to_digits 8 20 v) = h.
Proof.
  destruct (git_commit_digits h Hl Hh) as (l & E & Hm & Hf & Hx). eexists. split; [exact E|].
  pose proof (digits_range 8 l ltac:(lia) Hf) as Hr. rewrite Hm in Hr. split; [exact Hr|].
  by rewrite <- Hm, to_digits_digits by done.
Qed.

Lemma git_commit_roundtrip_witness :
  exists v, GitInfo ("00112233445566778899aabbccddeeff01234567" +++ newline) = Ok v /\
    hexlify (to_digits 8 20 v) = "00112233445566778899aabbccddeeff01234567"%string.
Proof.
  destruct (git_commit_roundtrip "00112233445566778899aabbccddeeff01234567" eq_refl) as (v & E & _ & R).
  - repeat (apply Forall_cons; split; [eexists; split_and!; [reflexivity | reflexivity | done | done]|]). constructor.
  - exists v. split; [exact E | exact R].
Defined.

(** *** The analogue channels *)

(** The samples of a channel. *)
Definition samples (c : Z) (l : list XadcIn) : list Z :=
  omap (fun i => if drdy i && (channel i =? c) then Some (slice (data i) 4 12) else None) l.

(** The register of a channel holds its last sample, whatever the other
    channels do. *)
Theorem xadc_holds_last_sample (l : list XadcIn) :
  let s := run xadc_next xadc_reset l in
  _temperature s = default 0 (last (samples 0 l)) /\ _vccint s = default 0 (last (samples 1 l)) /\
  _vccaux s = default 0 (last (samples 2 l)) /\ _vccbram s = default 0 (last (samples 6 l)).
Proof.
  cbn zeta. induction l as [|i l (H1 & H2 & H3 & H4)] using rev_ind; [done|].
  rewrite run_snoc. unfold xadc_next at 1 3 5 7. cbn [_temperature _vccint _vccaux _vccbram].
  rewrite H1, H2, H3, H4. unfold samples. rewrite !omap_app. cbn [omap list_omap].
  fold (samples 0 l) (samples 1 l) (samples 2 l) (samples 6 l).
  split_and!; destruct (_ && _); by rewrite ?last_snoc, ?app_nil_r.
Qed.
