(* ===== verification/NetConfig.v ===== *)
(** * The network addresses of a SoC

    [configure_iprange] and [_configure_ip], which the networked targets share
    word for word, and that reading a number that was printed gives it back. *)
From S2P Require Import Prelude PyStr Paths Soc.

#[local] Open Scope string_scope.

(** ** The constants *)

(** [[int(x) for x in l]]. *)
Fixpoint ints (l : list string) : result (list Z) :=
  match l with
  | [] => Ok []
  | x :: l => z ← py_int x; zs ← ints l; Ok (z :: zs)
  end.

(** [for i, e in enumerate(ip): self.add_constant((ip_type + str(i + 1)).upper(), e)]. *)
Definition _configure_ip (ip_type : string) (ip : list Z) : list action :=
  imap (fun i e => AddConstant (upper (ip_type +++ str_Z (Z.of_nat i + 1))) (CInt e)) ip.

Definition configure_iprange (iprange : string) : result (list action) :=
  zs ← ints (split_at "." iprange);
  let zs := (zs ++ replicate (4 - length zs) 0%Z)%list in
  Ok (_configure_ip "LOCALIP" (removelast zs ++ [50%Z]) ++
      _configure_ip "REMOTEIP" (removelast zs ++ [100%Z]))%list.

(** ** Theorems *)

Definition is_digit (c : ascii) : bool := match digit_value c with Some _ => true | None => false end.

Fixpoint all_chars (f : ascii -> bool) (s : string) : bool :=
  match s with EmptyString => true | String c s => f c && all_chars f s end.

Lemma digit_char_value d : (0 <= d < 10)%Z -> digit_value (digit_char d) = Some d.
Proof.
  intros H. assert (d = 0 \/ d = 1 \/ d = 2 \/ d = 3 \/ d = 4 \/ d = 5 \/ d = 6 \/ d = 7 \/ d = 8 \/ d = 9)%Z
    as Hd by lia.
  repeat destruct Hd as [->|Hd]; subst; reflexivity.
Qed.

Lemma digits_base_digits fuel z acc :
  (0 <= z)%Z -> all_chars is_digit acc = true -> all_chars is_digit (digits_base fuel 10 z acc) = true.
Proof.
  revert z acc. induction fuel as [|fuel IH]; intros z acc Hz Ha; [done|]. cbn [digits_base].
  assert (all_chars is_digit (String (digit_char (z mod 10)) acc) = true) as H.
  { cbn [all_chars]. unfold is_digit at 1. rewrite digit_char_value by (apply Z.mod_pos_bound; lia). done. }
  destruct (z <? 10)%Z; [done|]. apply IH; [apply Z.div_pos; lia | done].
Qed.

(** Reading the digits of [z] before those of [acc]. *)
Lemma int_digits_base fuel z acc :
  (0 <= z < 10 ^ Z.of_nat fuel)%Z -> fuel <> 0%nat ->
  forall b, int_digits 0 b (digits_base fuel 10 z acc) = int_digits z true acc.
Proof.
  revert z acc. induction fuel as [|fuel IH]; intros z acc Hz Hf b; [done|]. cbn [digits_base].
  pose proof (Z.mod_pos_bound z 10 ltac:(lia)) as Hm. pose proof (Z.div_mod z 10 ltac:(lia)) as Hdm.
  destruct (Z.ltb_spec z 10) as [Hlt|Hge].
  - cbn [int_digits]. rewrite digit_char_value by done. rewrite Z.mod_small by lia. f_equal; lia.
  - rewrite IH.
    + cbn [int_digits]. rewrite digit_char_value by done. f_equal; lia.
    + rewrite Nat2Z.inj_succ, Z.pow_succ_r in Hz by lia. split; [apply Z.div_pos; lia|].
      apply Z.div_lt_upper_bound; lia.
    + intros ->. change (10 ^ Z.of_nat 1)%Z with 10%Z in Hz. lia.
Qed.

Lemma log2_fuel z : (0 <= z)%Z -> (z < 10 ^ Z.of_nat (S (Z.to_nat (Z.log2 z))))%Z.
Proof.
  intros Hz. rewrite Nat2Z.inj_succ, Z2Nat.id by apply Z.log2_nonneg.
  destruct (Z.eq_dec z 0) as [->|Hne]; [by vm_compute|].
  apply Z.lt_le_trans with (2 ^ Z.succ (Z.log2 z))%Z; [apply Z.log2_spec; lia|].
  apply Z.pow_le_mono_l. lia.
Qed.

Lemma digit_not_blank c : is_digit c = true -> blank c = false.
Proof. destruct c as [[] [] [] [] [] [] [] []]; (reflexivity || discriminate). Qed.

Lemma strip_digits s : all_chars is_digit s = true -> lstrip s = s /\ rstrip s = s.
Proof.
  induction s as [|c s IH]; cbn [all_chars lstrip rstrip]; [done|].
  intros [Hc Hs]%andb_prop. rewrite (digit_not_blank c Hc). destruct (IH Hs) as [_ ->]. done.
Qed.

Lemma py_int_str z : (0 <= z)%Z -> py_int (str_Z z) = Ok z.
Proof.
  intros Hz. unfold py_int, str_Z, to_base. replace (z <? 0)%Z with false by lia.
  set (s := digits_base _ _ _ _).
  assert (Hd : all_chars is_digit s = true) by (by apply digits_base_digits).
  assert (Hv : int_digits 0 false s = Some z)
    by (unfold s; rewrite int_digits_base; [done | split; [done | by apply log2_fuel] | done]).
  destruct (strip_digits s Hd) as [Hl Hr]. rewrite Hr, Hl.
  destruct s as [|c s']; [done|]. cbn [all_chars] in Hd. apply andb_prop in Hd as [Hc _].
  destruct c as [[] [] [] [] [] [] [] []]; try discriminate; by rewrite Hv.
Qed.

Lemma digits_no_dot s :
  all_chars is_digit s = true -> all_chars (fun x => negb (Ascii.eqb x ".")) s = true.
Proof.
  induction s as [|x s IH]; [done|]. cbn [all_chars]. intros [Hx Hs]%andb_prop. rewrite (IH Hs).
  destruct x as [[] [] [] [] [] [] [] []]; (reflexivity || discriminate).
Qed.

Lemma str_no_dot z : (0 <= z)%Z -> all_chars (fun x => negb (Ascii.eqb x ".")) (str_Z z) = true.
Proof.
  intros Hz. apply digits_no_dot. unfold str_Z. replace (z <? 0)%Z with false by lia.
  by apply digits_base_digits.
Qed.

(** A string without a character, in both readings. *)
Lemma no_char c s : all_chars (fun x => negb (Ascii.eqb x c)) s = true -> has_char c s = false.
Proof.
  induction s as [|x s IH]; [done|]. cbn [all_chars]. intros [Hx Hs]%andb_prop. rewrite has_char_cons, IH by done.
  rewrite Ascii.eqb_sym. by destruct (Ascii.eqb x c).
Qed.

(** Reading a dotted list of numbers. *)
Lemma ints_dotted z zs :
  Forall (fun z => 0 <= z)%Z (z :: zs) ->
  ints (split_at "." (join_with "." (str_Z <$> z :: zs))) = Ok (z :: zs).
Proof.
  revert z. induction zs as [|y zs IH]; intros z H; rewrite Forall_cons in H; destruct H as [Hz Hzs].
  - unfold join_with. cbn [fmap list_fmap String.concat]. rewrite split_at_none by by apply no_char, str_no_dot.
    cbn [ints]. by rewrite py_int_str.
  - unfold join_with in *. cbn [fmap list_fmap String.concat] in *.
    rewrite append_cons. change ("" +++ ?x) with x. rewrite split_at_app by by apply no_char, str_no_dot.
    cbn [ints]. rewrite py_int_str by done. cbn [mbind result_bind]. rewrite (IH y Hzs). done.
Qed.

(** The addresses of the SoC and of its TFTP server. For a range
    written with one to four numbers, the constructor adds exactly the eight
    constants LOCALIP1..4 and REMOTEIP1..4: the first three numbers, missing
    ones 0, then 50 for the SoC and 100 for the server. A fourth number is
    ignored. *)
Theorem configure_iprange_spec (z : Z) (zs : list Z)
    (Hpos : Forall (fun z => 0 <= z)%Z (z :: zs)) (Hlen : (length zs < 4)%nat) :
  let b := nth 0 zs 0%Z in let c := nth 1 zs 0%Z in
  configure_iprange (join_with "." (str_Z <$> z :: zs)) =
    Ok [AddConstant "LOCALIP1" (CInt z); AddConstant "LOCALIP2" (CInt b);
        AddConstant "LOCALIP3" (CInt c); AddConstant "LOCALIP4" (CInt 50);
        AddConstant "REMOTEIP1" (CInt z); AddConstant "REMOTEIP2" (CInt b);
        AddConstant "REMOTEIP3" (CInt c); AddConstant "REMOTEIP4" (CInt 100)].
Proof.
  intros b c. unfold configure_iprange. rewrite ints_dotted by done. cbn [mbind result_bind].
  destruct zs as [|b' [|c' [|d' [|]]]]; try (cbn in Hlen; lia); reflexivity.
Qed.

(** [make.py]'s default. *)
Lemma configure_iprange_spec_witness :
  configure_iprange "192.168.100" =
    Ok [AddConstant "LOCALIP1" (CInt 192); AddConstant "LOCALIP2" (CInt 168);
        AddConstant "LOCALIP3" (CInt 100); AddConstant "LOCALIP4" (CInt 50);
        AddConstant "REMOTEIP1" (CInt 192); AddConstant "REMOTEIP2" (CInt 168);
        AddConstant "REMOTEIP3" (CInt 100); AddConstant "REMOTEIP4" (CInt 100)].
Proof.
  apply (configure_iprange_spec 192 [168; 100]%Z); [|cbn; lia].
  repeat constructor; lia.
Defined.

(** More than four numbers make more constants; anything but numbers is a
    ValueError. *)
Example five_numbers :
  length (match configure_iprange "1.2.3.4.5" with Ok l => l | Raise _ => [] end) = 10%nat.
Proof. reflexivity. Qed.

Example not_a_number : configure_iprange "192.168.x" = Raise ValueError.
Proof. reflexivity. Qed.
