(* ===== verification/CpuInterface.v ===== *)
(** * The register maps for firmware and host

    [targets/common/cpu_interface.py]: the C header and the CSV file that list
    the CSR registers of a SoC with their addresses. Both are made from the
    same list of regions, each file by its own walk over the registers. *)
From S2P Require Import Prelude PyStr.

#[local] Open Scope string_scope.

(** ** Data *)

Record csr := { csr_name : string; csr_size : Z; is_status : bool }.

(** The object of a region: a memory or a list of registers. *)
Inductive region_obj := Memory | Csrs (l : list csr).

Record region := { name : string; origin : Z; busword : Z; obj : region_obj }.

(** The text of a constant's value; [None] is Python's [None]. *)
Definition constants : Type := list (string * option string).

Definition nl : string := String (ascii_of_nat 10) "".

(** [(csr.size + busword - 1)//busword]; the bus word is 8 or 32. *)
Definition nwords (busword : Z) (c : csr) : Z := (csr_size c + busword - 1) / busword.

(** ** The header *)

Definition _get_rw_functions (reg_name : string) (reg_base nwords : Z) (read_only : bool) : string :=
  "#define CSR_" +++ upper reg_name +++ "_ADDR " +++ hex reg_base +++ nl +++
  "#define CSR_" +++ upper reg_name +++ "_SIZE " +++ str_Z nwords +++ nl +++
  "#define CSR_" +++ upper reg_name +++ "_RO " +++ str_Z (b2z read_only) +++ nl.

Fixpoint header_csrs (name : string) (busword origin : Z) (l : list csr) : string :=
  match l with
  | [] => ""
  | c :: l =>
      let nr := nwords busword c in
      _get_rw_functions (name +++ "_" +++ csr_name c) origin nr (is_status c) +++
      header_csrs name busword (origin + 4 * nr) l
  end.

Definition header_region (r : region) : string :=
  let o := Z.land (origin r) 0x7fffffff in
  match obj r with
  | Memory => "#define " +++ upper (name r) +++ "_BASE " +++ hex o +++ nl
  | Csrs l =>
      nl +++ "/* " +++ name r +++ " */" +++ nl +++
      "#define " +++ upper (name r) +++ "_BASE " +++ hex o +++ nl +++
      header_csrs (name r) (busword r) o l
  end.

Definition header_constant (nv : string * option string) : string :=
  "#define " +++ fst nv +++ (match snd nv with Some v => " " +++ v | None => "" end) +++ nl.

(** [for x in l: r += f(x)]. *)
Definition cat_map {A} (f : A -> string) (l : list A) : string := foldr (fun x r => f x +++ r) "" l.

Definition get_csr_header (regions : list region) (consts : constants) : string :=
  "#ifndef __GENERATED_CSR_H" +++ nl +++ "#define __GENERATED_CSR_H" +++ nl +++
  cat_map header_region regions +++
  nl +++ "/* constants */" +++ nl +++ cat_map header_constant consts +++
  nl +++ "#endif" +++ nl.

(** ** The CSV file *)

Definition csv_base (r : region) : string :=
  "csr_base," +++ name r +++ ",0x" +++ hex8 (origin r) +++ ",," +++ nl.

Fixpoint csv_csrs (name : string) (busword origin : Z) (l : list csr) : string :=
  match l with
  | [] => ""
  | c :: l =>
      let nr := nwords busword c in
      "csr_register," +++ name +++ "_" +++ csr_name c +++ ",0x" +++ hex8 origin +++ "," +++ str_Z nr +++ "," +++
      (if is_status c then "ro" else "rw") +++ nl +++
      csv_csrs name busword (origin + 4 * nr) l
  end.

Definition csv_region (r : region) : string :=
  match obj r with
  | Memory => ""
  | Csrs l => csv_csrs (name r) (busword r) (origin r) l
  end.

(** [{}] of [None] is "None". *)
Definition csv_constant (nv : string * option string) : string :=
  "constant," +++ lower (fst nv) +++ "," +++ (match snd nv with Some v => v | None => "None" end) +++ ",," +++ nl.

Definition csv_memory (m : string * Z * Z) : string :=
  "memory_region," +++ lower (fst (fst m)) +++ ",0x" +++ hex8 (snd (fst m)) +++ "," +++ str_Z (snd m) +++ "," +++ nl.

Definition part {A} (f : A -> string) (o : option (list A)) : string :=
  match o with Some l => cat_map f l | None => "" end.

Definition get_csr_csv (csr_regions : option (list region)) (consts : option constants)
    (memory_regions : option (list (string * Z * Z))) : string :=
  (match csr_regions with
   | Some rs => cat_map csv_base rs +++ cat_map csv_region rs
   | None => "" end) +++
  part csv_constant consts +++ part csv_memory memory_regions.

(** ** The register table both files print *)

Record reg := { reg_name : string; reg_addr : Z; reg_words : Z; reg_ro : bool }.

(** The words before register [j]. *)
Definition words_before (busword : Z) (l : list csr) (j : nat) : Z :=
  foldr (fun c n => nwords busword c + n)%Z 0%Z (take j l).

Definition table (name : string) (busword origin : Z) (l : list csr) : list reg :=
  imap (fun j c => {| reg_name := name +++ "_" +++ csr_name c;
                      reg_addr := origin + 4 * words_before busword l j;
                      reg_words := nwords busword c; reg_ro := is_status c |}) l.

Definition header_line (shadow : Z) (r : reg) : string :=
  _get_rw_functions (reg_name r) (reg_addr r - shadow) (reg_words r) (reg_ro r).

Definition csv_line (r : reg) : string :=
  "csr_register," +++ reg_name r +++ ",0x" +++ hex8 (reg_addr r) +++ "," +++ str_Z (reg_words r) +++ "," +++
  (if reg_ro r then "ro" else "rw") +++ nl.

(** The bit the header leaves out: the uncached shadow. *)
Definition shadow (o : Z) : Z := o - Z.land o 0x7fffffff.

(** ** Theorems *)

Lemma land_shadow o : (o - shadow o)%Z = Z.land o 0x7fffffff.
Proof. unfold shadow. lia. Qed.

Lemma words_before_0 busword l : words_before busword l 0 = 0%Z.
Proof. by destruct l. Qed.

Lemma words_before_S busword c l j :
  words_before busword (c :: l) (S j) = (nwords busword c + words_before busword l j)%Z.
Proof. reflexivity. Qed.

Lemma table_cons name busword origin c l :
  table name busword origin (c :: l) =
  {| reg_name := name +++ "_" +++ csr_name c; reg_addr := origin;
     reg_words := nwords busword c; reg_ro := is_status c |} ::
  table name busword (origin + 4 * nwords busword c) l.
Proof.
  unfold table. cbn [imap]. f_equal.
  - f_equal. rewrite words_before_0. lia.
  - apply imap_ext. intros j c' _. cbn [compose]. rewrite words_before_S. f_equal. lia.
Qed.

Lemma csv_csrs_table name busword origin l :
  csv_csrs name busword origin l = cat_map csv_line (table name busword origin l).
Proof.
  revert origin. induction l as [|c l IH]; intros origin; [done|].
  rewrite table_cons. cbn [csv_csrs cat_map foldr]. unfold csv_line at 1. cbn [reg_name reg_addr reg_words reg_ro].
  rewrite IH. by rewrite !append_assoc.
Qed.

Lemma header_csrs_table name busword origin s l :
  header_csrs name busword (origin - s) l = cat_map (header_line s) (table name busword origin l).
Proof.
  revert origin. induction l as [|c l IH]; intros origin; [done|].
  rewrite table_cons. cbn [header_csrs cat_map foldr]. unfold header_line at 1.
  cbn [reg_name reg_addr reg_words reg_ro]. f_equal.
  transitivity (header_csrs name busword (origin + 4 * nwords busword c - s) l); [f_equal; lia | apply IH].
Qed.

Lemma words_before_mono busword l i j c :
  (0 < busword)%Z -> Forall (fun c => 0 <= csr_size c)%Z l -> l !! i = Some c -> (i < j)%nat ->
  (words_before busword l i + nwords busword c <= words_before busword l j)%Z.
Proof.
  intros Hb. revert i j. induction l as [|d l IH]; intros i j Hl Hi Hij; [done|].
  rewrite Forall_cons in Hl. destruct Hl as [Hd Hl]. destruct j as [|j]; [lia|].
  assert (Hnn : forall k, (0 <= words_before busword l k)%Z).
  { intros k. unfold words_before. revert k. clear -Hl Hb. induction Hl as [|e l He Hl IHl]; intros [|k]; try done.
    cbn [take foldr]. specialize (IHl k). assert (0 <= nwords busword e)%Z; [|lia].
    apply Z.div_pos; lia. }
  rewrite words_before_S. destruct i as [|i]; simplify_eq/=.
  - specialize (Hnn j). rewrite words_before_0. lia.
  - rewrite words_before_S. specialize (IH i j Hl Hi ltac:(lia)). lia.
Qed.

(** The region part of each file, printed from the table. *)
Definition header_of_table (r : region) : string :=
  let o := (origin r - shadow (origin r))%Z in
  match obj r with
  | Memory => "#define " +++ upper (name r) +++ "_BASE " +++ hex o +++ nl
  | Csrs l =>
      nl +++ "/* " +++ name r +++ " */" +++ nl +++
      "#define " +++ upper (name r) +++ "_BASE " +++ hex o +++ nl +++
      cat_map (header_line (shadow (origin r))) (table (name r) (busword r) (origin r) l)
  end.

Definition csv_of_table (r : region) : string :=
  match obj r with
  | Memory => ""
  | Csrs l => cat_map csv_line (table (name r) (busword r) (origin r) l)
  end.

Lemma cat_map_ext {A} (f g : A -> string) l : (forall x, f x = g x) -> cat_map f l = cat_map g l.
Proof. intros H. induction l as [|x l IH]; [done|].
  change (f x +++ cat_map f l = g x +++ cat_map g l). by rewrite H, IH. Qed.

(** Header and CSV agree. Both print, register by register, the same
    table, the header without the shadow bit of the region: name, address,
    number of bus words and access. *)
Theorem csr_files_agree (regions : list region) (consts : constants)
    (mems : option (list (string * Z * Z))) :
  get_csr_header regions consts =
    "#ifndef __GENERATED_CSR_H" +++ nl +++ "#define __GENERATED_CSR_H" +++ nl +++
    cat_map header_of_table regions +++
    nl +++ "/* constants */" +++ nl +++ cat_map header_constant consts +++ nl +++ "#endif" +++ nl /\
  get_csr_csv (Some regions) (Some consts) mems =
    cat_map csv_base regions +++ cat_map csv_of_table regions +++
    cat_map csv_constant consts +++ part csv_memory mems.
Proof.
  split.
  - unfold get_csr_header. do 4 f_equal. f_equal. apply cat_map_ext. intros r.
    unfold header_region, header_of_table. rewrite land_shadow.
    destruct (obj r) as [|l]; [done|].
    by rewrite <- header_csrs_table, land_shadow.
  - unfold get_csr_csv. cbn [part]. rewrite append_assoc. do 2 f_equal. apply cat_map_ext.
    intros r. unfold csv_region, csv_of_table. destruct (obj r); [done|]. apply csv_csrs_table.
Qed.

(** Registers of a region do not overlap: in the table that both
    files print, a register's words end where a later one's begin or before,
    and every register starts at or after the region's origin, at a multiple
    of four from it. *)
Theorem registers_disjoint (nm : string) (bw o : Z) (l : list csr)
    (Hbw : (0 < bw)%Z) (Hsize : Forall (fun c => 0 <= csr_size c)%Z l)
    (i j : nat) (a b : reg)
    (Ha : table nm bw o l !! i = Some a) (Hb : table nm bw o l !! j = Some b) (Hij : (i < j)%nat) :
  (reg_addr a + 4 * reg_words a <= reg_addr b /\ o <= reg_addr a /\ (reg_addr a - o) mod 4 = 0)%Z.
Proof.
  unfold table in *. rewrite list_lookup_imap in Ha, Hb.
  destruct (l !! i) as [c|] eqn:Hi; [|done]. destruct (l !! j) as [d|] eqn:Hj; [|done].
  simplify_eq/=. pose proof (words_before_mono bw l i j c Hbw Hsize Hi Hij) as Hm. split_and!; [lia| |].
  - destruct i as [|i]; [rewrite words_before_0; lia|].
    destruct (l !! 0%nat) as [e|] eqn:H0; [|by destruct l].
    pose proof (words_before_mono bw l 0 (S i) e Hbw Hsize H0 ltac:(lia)) as H.
    assert (0 <= nwords bw e)%Z.
    { rewrite Forall_lookup in Hsize. specialize (Hsize 0%nat e H0). apply Z.div_pos; lia. }
    rewrite words_before_0 in H. lia.
  - replace (o + 4 * words_before bw l i - o)%Z with (words_before bw l i * 4)%Z by lia.
    apply Z_mod_mult.
Qed.

(** A 20-bit control register before an 8-bit status on an 8-bit bus. *)
Lemma registers_disjoint_witness :
  let l := [{| csr_name := "ctl"; csr_size := 20; is_status := false |};
            {| csr_name := "status"; csr_size := 8; is_status := true |}] in
  exists a b, table "uart" 8 0xe0001000 l !! 0%nat = Some a /\ table "uart" 8 0xe0001000 l !! 1%nat = Some b /\
  (reg_addr a + 4 * reg_words a <= reg_addr b /\ 0xe0001000 <= reg_addr a /\
   (reg_addr a - 0xe0001000) mod 4 = 0)%Z.
Proof.
  intros l. do 2 eexists. split; [reflexivity|]. split; [reflexivity|].
  eapply (registers_disjoint "uart" 8 0xe0001000 l ltac:(lia)
            ltac:(repeat constructor; cbn; lia) 0 1); [reflexivity | reflexivity | lia].
Defined.

Example header_example :
  header_csrs "uart" 8 0x60001000 [{| csr_name := "ctl"; csr_size := 20; is_status := false |}] =
  "#define CSR_UART_CTL_ADDR 0x60001000" +++ nl +++ "#define CSR_UART_CTL_SIZE 3" +++ nl +++
  "#define CSR_UART_CTL_RO 0" +++ nl.
Proof. vm_compute. reflexivity. Qed.
