(* ===== verification/Crg.v ===== *)
(** * Clocks of the Spartan-6 video boards

    [_CRG] of [targets/opsis/base.py] and [targets/atlys/base.py]: the PLL
    parameters computed from the system clock frequency and the clock of every
    domain. The FPGA's primitives are third-party:
    [Pll] states the frequencies a PLL_ADV and a DCM_CLKGEN are documented to
    give, in exact rationals; phases are kept as parameters. *)
From S2P Require Import Prelude.
From Stdlib Require Import QArith.
#[local] Open Scope Z_scope.

(** ** Parameters of the primitives *)

(** An output: phase in degrees and divider. *)
Record PllOut := { phase : Z; divide : Z }.

Record Pll := { clkin : Z; divclk : Z; mult : Z; outs : list PllOut }.

(** The documented output frequency, [clkin * mult / (divclk * divide)]. *)
Definition pll_freq (p : Pll) (o : PllOut) : Q :=
  (inject_Z (clkin p * mult p) / inject_Z (divclk p * divide o))%Q.

Definition out_freq (p : Pll) (k : nat) : option Q := pll_freq p <$> (outs p !! k).

Record Dcm := { dcm_clkin : Z; dcm_multiply : Z; dcm_divide : Z }.

Definition dcm_freq (d : Dcm) : Q := (inject_Z (dcm_clkin d * dcm_multiply d) / inject_Z (dcm_divide d))%Q.

(** ** The parameters the constructors compute *)

(** [f = Fraction(int(clk_freq), int(f0)); n, m = f.denominator, f.numerator]. *)
Definition fraction (clk_freq f0 : Z) : Z * Z :=
  let g := Z.gcd clk_freq f0 in (f0 / g, clk_freq / g).

(** [p_CLKFBOUT_MULT = m*p//n]. *)
Definition fb_mult (clk_freq f0 p : Z) : Z :=
  let '(n, m) := fraction clk_freq f0 in m * p / n.

Definition f0 : Z := 100 * 1000000.
Definition p : Z := 8.

(** Opsis: sdram_full, encoder, sdram_half_a, sdram_half_b, sys2x, sys. *)
Definition opsis_pll (clk_freq : Z) : Pll := {|
  clkin := f0; divclk := 1; mult := fb_mult clk_freq f0 p;
  outs := [ {| phase := 0; divide := p / 8 |}; {| phase := 0; divide := 6 |};
            {| phase := 230; divide := p / 4 |}; {| phase := 210; divide := p / 4 |};
            {| phase := 0; divide := p / 2 |}; {| phase := 0; divide := p / 1 |} ] |}.

(** Atlys: sdram_full, encoder, sdram_half_a, sdram_half_b, unused, sys. *)
Definition atlys_pll (clk_freq : Z) : Pll := {|
  clkin := f0; divclk := 1; mult := fb_mult clk_freq f0 p;
  outs := [ {| phase := 0; divide := p / 4 |}; {| phase := 0; divide := 9 |};
            {| phase := 270; divide := p / 2 |}; {| phase := 250; divide := p / 2 |};
            {| phase := 0; divide := 12 |}; {| phase := 0; divide := p / 1 |} ] |}.

(** The peripheral clock, from the oscillator, the same on both boards. *)
Definition base50_dcm : Dcm := {| dcm_clkin := f0; dcm_multiply := 2; dcm_divide := 4 |}.

(** The [clk_freq] of the SoC classes. *)
Definition opsis_clk_freq : Z := 50 * 1000000.
Definition atlys_clk_freq : Z := 75 * 1000000.

(** ** Theorems *)

Lemma gcd_pos a b : 0 < b -> 0 < Z.gcd a b.
Proof. intros H. pose proof (Z.gcd_nonneg a b). destruct (Z.eq_dec (Z.gcd a b) 0) as [E|]; [|lia].
  apply Z.gcd_eq_0_r in E. lia. Qed.

(** The multiplier is the integer part of [clk * q / f]. *)
Lemma fb_mult_floor clk f q : 0 < f -> fb_mult clk f q = clk * q / f.
Proof.
  intros Hf. unfold fb_mult, fraction. pose proof (gcd_pos clk f Hf) as Hg.
  destruct (Z.gcd_divide_l clk f) as [a Ha], (Z.gcd_divide_r clk f) as [b Hb].
  set (g := Z.gcd clk f) in *. clearbody g. subst clk f. rewrite !Z.div_mul by lia.
  replace (a * g * q) with (a * q * g) by ring. symmetry. apply Z.div_mul_cancel_r; nia.
Qed.

(** The constructors' assertion [f0/n*m == clk_freq], in exact arithmetic. *)
Lemma fraction_exact clk f : 0 < f -> let '(n, m) := fraction clk f in f * m = clk * n.
Proof.
  intros Hf. unfold fraction. pose proof (gcd_pos clk f Hf) as Hg.
  destruct (Z.gcd_divide_l clk f) as [a Ha], (Z.gcd_divide_r clk f) as [b Hb].
  set (g := Z.gcd clk f) in *. clearbody g. subst clk f. rewrite !Z.div_mul by lia. ring.
Qed.

Lemma inject_nonzero d : 0 < d -> ~ (inject_Z d == 0)%Q.
Proof. intros H E. change 0%Q with (inject_Z 0) in E. rewrite inject_Z_injective in E. lia. Qed.

Lemma ratio_eq n d c : 0 < d -> (inject_Z n / inject_Z d == inject_Z c)%Q <-> n = c * d.
Proof.
  intros Hd. pose proof (inject_nonzero d Hd) as Hn. rewrite <- inject_Z_injective, inject_Z_mult.
  split; intros H.
  - rewrite <- H. by field.
  - rewrite H. by field.
Qed.

Lemma ratio_le n d c : 0 < d -> n <= c * d -> (inject_Z n / inject_Z d <= inject_Z c)%Q.
Proof.
  intros Hd H. apply Qle_shift_div_r.
  - change 0%Q with (inject_Z 0). by rewrite <- Zlt_Qlt.
  - by rewrite <- inject_Z_mult, <- Zle_Qle.
Qed.

(** Outputs of one PLL: the frequencies are in the inverse ratio of the
    dividers. *)
Lemma ratio_scale n d k : 0 < d -> 0 < k ->
  (inject_Z n / inject_Z d == inject_Z k * (inject_Z n / inject_Z (k * d)))%Q.
Proof.
  intros Hd Hk. rewrite inject_Z_mult. field. split; by apply inject_nonzero.
Qed.

Lemma floor_exact x f : 0 < f -> f * (x / f) = x <-> x mod f = 0.
Proof. intros Hf. pose proof (Z.div_mod x f ltac:(lia)). lia. Qed.

(** The clocks of the two video boards, for any system clock the
    constructors are given. The system domain runs at exactly [clk_freq] if and
    only if eight times that is a multiple of the oscillator's frequency;
    otherwise it is slower. Whatever it is, the DDR clocks keep their ratio to
    it: on the Opsis 8 (full), 4 (half) and 2 (sys2x), on the Atlys 4 and 2. *)
Theorem crg_clocks (clk_freq : Z) :
  exists sys o_full o_half o_2x a_full a_half,
    out_freq (opsis_pll clk_freq) 5 = Some sys /\ out_freq (atlys_pll clk_freq) 5 = Some sys /\
    (sys <= inject_Z clk_freq)%Q /\
    ((sys == inject_Z clk_freq)%Q <-> (clk_freq * 8) mod f0 = 0) /\
    out_freq (opsis_pll clk_freq) 0 = Some o_full /\ (o_full == 8 * sys)%Q /\
    out_freq (opsis_pll clk_freq) 2 = Some o_half /\ (o_half == 4 * sys)%Q /\
    out_freq (opsis_pll clk_freq) 4 = Some o_2x /\ (o_2x == 2 * sys)%Q /\
    out_freq (atlys_pll clk_freq) 0 = Some a_full /\ (a_full == 4 * sys)%Q /\
    out_freq (atlys_pll clk_freq) 2 = Some a_half /\ (a_half == 2 * sys)%Q.
Proof.
  unfold out_freq, opsis_pll, atlys_pll, pll_freq, p. rewrite !fb_mult_floor by done.
  cbn [outs lookup list_lookup fmap option_fmap option_map clkin mult divclk divide].
  pose proof (floor_exact (clk_freq * 8) f0 ltac:(done)) as Hex.
  pose proof (Z.mul_div_le (clk_freq * 8) f0 ltac:(done)) as Hle.
  set (q := clk_freq * 8 / f0) in *.
  do 6 eexists. split_and!; try reflexivity.
  - apply ratio_le; [done|]. change (1 * (8 / 1)) with 8; lia.
  - rewrite ratio_eq by done. rewrite <- Hex. change (1 * (8 / 1)) with 8. lia.
  - apply (ratio_scale (f0 * q) 1 8); done.
  - apply (ratio_scale (f0 * q) 2 4); done.
  - apply (ratio_scale (f0 * q) 4 2); done.
  - apply (ratio_scale (f0 * q) 2 4); done.
  - apply (ratio_scale (f0 * q) 4 2); done.
Qed.

(** The frequencies of the boards: 50 and 75 MHz, with the encoder at 66.7 MHz
    on both and the peripheral clock at 50 MHz. *)
Example board_clocks :
  option_map Qred (out_freq (opsis_pll opsis_clk_freq) 5) = Some (inject_Z 50000000) /\
  option_map Qred (out_freq (atlys_pll atlys_clk_freq) 5) = Some (inject_Z 75000000) /\
  option_map Qred (out_freq (opsis_pll opsis_clk_freq) 1) = Some (200000000 # 3)%Q /\
  option_map Qred (out_freq (atlys_pll atlys_clk_freq) 1) = Some (200000000 # 3)%Q /\
  Qred (dcm_freq base50_dcm) = inject_Z 50000000.
Proof. vm_compute. auto. Qed.
