(* ===== verification/Clocks.v ===== *)
(** * Clocks of the Spartan-6 and Artix-7 targets

    [_CRG] of the boards of [TargetsSpartan6] and [TargetsSeries7]: the PLL
    parameters, which output clocks which domain, and the reset of the delay
    controller. Frequencies are exact rationals; the assertions the modules
    make in floating point compare values that are far from rounding. *)
From Stdlib Require Import QArith Qreduction.
From S2P Require Import Prelude Soc Crg.
From S2P Require TargetsSpartan6 TargetsSeries7.
#[local] Open Scope Z_scope.

Definition out (phase divide : Z) : PllOut := {| phase := phase; divide := divide |}.

(** ** Spartan-6: [PLL_ADV] *)

(** Galatea: sdram_full, encoder, sdram_half_a, sdram_half_b, sys2x, sys. *)
Definition galatea_pll (clk_freq : Z) : Pll :=
  let f0 := 100 * 1000000 in
  let p := 8 in
  {| clkin := f0; divclk := 1; mult := fb_mult clk_freq f0 p;
     outs := [out 0 (p / 8); out 0 6; out 230 (p / 4); out 210 (p / 4); out 0 (p / 2); out 0 (p / 1)] |}.

(** MiniSpartan6+: four spare ones, sys, sys_ps. *)
Definition minispartan6_pll (clk_freq : Z) : Pll :=
  let f0 := 32 * 1000000 in
  let p := 8 in
  {| clkin := f0; divclk := 1; mult := fb_mult clk_freq f0 p;
     outs := [out 0 (p / 1); out 0 (p / 1); out 0 (p / 1); out 0 (p / 1); out 0 (p / 1); out 270 (p / 1)] |}.

Definition pano_logic_g2_pll : Pll :=
  {| clkin := 125000000; divclk := 1; mult := 8;
     outs := [out 0 5; out 0 10; out 270 10; out 250 10; out 0 10; out 0 20] |}.

(** [lo <= f0/d <= 500e6] and [400e6 <= f0*n/d <= hi]. *)
Definition pfd_ok (f0 d : Z) : bool := (19000000 * d <=? f0) && (f0 <=? 500000000 * d).
Definition vco_ok (hi f0 n d : Z) : bool := (400000000 * d <=? f0 * n) && (f0 * n <=? hi * d).

(** [f = Fraction(clk_freq*p, f0); n, d = f.numerator, f.denominator]. *)
Definition clk_fraction (clk_freq : Q) (p f0 : Z) : Q := Qred (clk_freq * inject_Z p / inject_Z f0).

(** Mimas V2 and Pipistrello: sdram_full, unused, sdram_half_a, sdram_half_b,
    periph, sys. *)
Definition fraction_pll (f0 p : Z) (outs : list PllOut) (clk_freq : Q) : result Pll :=
  let f := clk_fraction clk_freq p f0 in
  let n := Qnum f in
  let d := Z.pos (Qden f) in
  py_assert (pfd_ok f0 d);;
  py_assert (vco_ok 1080000000 f0 n d);;
  Ok {| clkin := f0; divclk := d; mult := n; outs := outs |}.

Definition mimasv2_pll : Q -> result Pll :=
  let p := 8 in
  fraction_pll (100 * 1000000) p [out 0 (p / 4); out 0 (p / 4); out 270 (p / 2); out 270 (p / 2); out 0 (p / 1); out 0 (p / 1)].

Definition pipistrello_pll : Q -> result Pll :=
  let p := 12 in
  fraction_pll (50 * 1000000) p [out 0 (p / 4); out 0 15; out 270 (p / 2); out 250 (p / 2); out 0 20; out 0 (p / 1)].

(** Saturn and Waxwing: a fixed ratio, and the frequency is checked. *)
Definition fixed_pll (spare : Z) (clk_freq : Q) : result Pll :=
  let f0 := 100 * 1000000 in
  let '(n, d) := (10, 1) in
  let p := 8 in
  py_assert (Qeq_bool (inject_Z f0 * inject_Z n / inject_Z d / inject_Z p / inject_Z 4) clk_freq);;
  py_assert (pfd_ok f0 d);;
  py_assert (vco_ok 1000000000 f0 n d);;
  Ok {| clkin := f0; divclk := d; mult := n;
        outs := [out 0 p; out 0 p; out 270 (p * 2); out 270 (p * 2); out 0 (p * spare); out 0 (p * 4)] |}.

Definition saturn_pll : Q -> result Pll := fixed_pll 4.
Definition waxwing_pll : Q -> result Pll := fixed_pll 4.
Definition waxwing_net_pll : Q -> result Pll := fixed_pll 5.

(** [_CRG(platform, clk_freq)]; Galatea and MiniSpartan6+ use [int(clk_freq)]. *)
Definition spartan6_pll (s : TargetsSpartan6.spartan6_soc) (clk_freq : Q) : result Pll :=
  match s with
  | TargetsSpartan6.Galatea => Ok (galatea_pll (Qnum clk_freq / Z.pos (Qden clk_freq)))
  | TargetsSpartan6.MiniSpartan6 => Ok (minispartan6_pll (Qnum clk_freq / Z.pos (Qden clk_freq)))
  | TargetsSpartan6.PanoLogicG2 => Ok pano_logic_g2_pll
  | TargetsSpartan6.MimasV2 _ | TargetsSpartan6.MimasV2Scope _ => mimasv2_pll clk_freq
  | TargetsSpartan6.Pipistrello => pipistrello_pll clk_freq
  | TargetsSpartan6.Saturn => saturn_pll clk_freq
  | TargetsSpartan6.Waxwing => waxwing_pll clk_freq
  | TargetsSpartan6.WaxwingNet _ => waxwing_net_pll clk_freq
  end.

(** The output that clocks the system domain. *)
Definition spartan6_sys (s : TargetsSpartan6.spartan6_soc) : nat :=
  match s with TargetsSpartan6.MiniSpartan6 => 4%nat | _ => 5%nat end.

(** [BUFPLL]: the DDR interface's fast output, its divider, and the output that
    clocks the logic ([i_GCLK]). The MiniSpartan6+ has plain SDRAM. *)
Definition spartan6_bufpll (s : TargetsSpartan6.spartan6_soc) : option (nat * Z * nat) :=
  match s with
  | TargetsSpartan6.Galatea => Some (0, 4%Z, 4)%nat
  | TargetsSpartan6.MiniSpartan6 => None
  | _ => Some (0, 4%Z, 5)%nat
  end.

(** ** Artix-7: [PLLE2_BASE] *)

Definition arty_pll : Pll :=
  {| clkin := 100000000; divclk := 1; mult := 16;
     outs := [out 0 16; out 0 4; out 90 4; out 0 8; out 0 32; out 0 16] |}.
Definition basys3_pll : Pll := {| clkin := 100000000; divclk := 1; mult := 16; outs := [out 0 16] |}.
Definition mimas_a7_pll : Pll :=
  {| clkin := 100000000; divclk := 1; mult := 16; outs := [out 0 16; out 0 4; out 90 4; out 0 8] |}.
Definition neso_pll : Pll :=
  {| clkin := 100000000; divclk := 1; mult := 16; outs := [out 0 16; out 0 4; out 90 4; out 0 8; out 0 32] |}.
Definition netv2_pll : Pll :=
  {| clkin := 50000000; divclk := 1; mult := 32;
     outs := [out 0 16; out 0 4; out 90 4; out 0 8; out 0 32; out 0 16] |}.
Definition nexys_video_pll : Pll :=
  {| clkin := 100000000; divclk := 1; mult := 16; outs := [out 0 16; out 0 4; out 90 4; out 0 8] |}.
Definition bridge_pll : Pll := {| clkin := 100000000; divclk := 1; mult := 14; outs := [out 0 10; out 0 7] |}.

(** The PLL, or the frequency of the oscillator where the system domain runs
    directly on it. *)
Definition series7_clock (s : TargetsSeries7.series7_soc) : Pll + Z :=
  match s with
  | TargetsSeries7.Arty | TargetsSeries7.ArtyNet | TargetsSeries7.ArtyTf => inl arty_pll
  | TargetsSeries7.Basys3 => inl basys3_pll
  | TargetsSeries7.CmodA7 => inr 12000000
  | TargetsSeries7.MimasA7Bridge => inl bridge_pll
  | TargetsSeries7.MimasA7 | TargetsSeries7.MimasA7Net | TargetsSeries7.MimasA7Video _ => inl mimas_a7_pll
  | TargetsSeries7.Neso => inl neso_pll
  | TargetsSeries7.Netv2 | TargetsSeries7.Netv2Net | TargetsSeries7.Hdmi2Pcie => inl netv2_pll
  | TargetsSeries7.NexysVideo | TargetsSeries7.NexysVideoNet | TargetsSeries7.NexysVideoVideo _ => inl nexys_video_pll
  end.

(** Output 0 clocks the system domain on every board with a PLL. *)
Definition series7_sys_freq (s : TargetsSeries7.series7_soc) : option Q :=
  match series7_clock s with inl p => out_freq p 0 | inr f => Some (inject_Z f) end.

(** The 200 MHz reference of the delay controller. *)
Definition series7_idelay (s : TargetsSeries7.series7_soc) : option nat :=
  match s with
  | TargetsSeries7.Basys3 | TargetsSeries7.CmodA7 => None
  | TargetsSeries7.MimasA7Bridge => Some 1%nat
  | _ => Some 3%nat
  end.

(** [BUFR] with divider 4 from the oscillator: the Ethernet PHY's clock. *)
Definition arty_eth_clk : Q := (inject_Z (clkin arty_pll) / inject_Z 4)%Q.

(** ** The reset of the delay controller, in the 200 MHz domain *)

Record Idelay := { reset_counter : Z; ic_reset : bool }.

Definition idelay_init : Idelay := {| reset_counter := 15; ic_reset := true |}.

(** A cycle; the domain's own reset restores the initial values. *)
Definition idelay_step (rst : bool) (s : Idelay) : Idelay :=
  if rst then idelay_init
  else if reset_counter s =? 0 then {| reset_counter := reset_counter s; ic_reset := false |}
  else {| reset_counter := wrap 4 (reset_counter s - 1); ic_reset := ic_reset s |}.

(** The frequency a constructor tells LiteX. *)
Definition declared_freq (l : list action) : option Q :=
  head (omap (fun a => match a with Core f _ _ => Some f | _ => None end) l).

(** ** Theorems *)

Lemma clk_fraction_eq clk_freq p f0 :
  0 < f0 -> (inject_Z (f0 * Qnum (clk_fraction clk_freq p f0)) / inject_Z (Z.pos (Qden (clk_fraction clk_freq p f0)))
             == clk_freq * inject_Z p)%Q.
Proof.
  intros Hf. set (f := clk_fraction clk_freq p f0).
  assert (Hq : (f == clk_freq * inject_Z p / inject_Z f0)%Q) by apply Qred_correct.
  assert (Hd : (inject_Z (Qnum f) / inject_Z (Z.pos (Qden f)) == f)%Q).
  { destruct f as [n d]. cbn [Qnum Qden]. unfold Qeq, Qdiv, Qmult, Qinv, inject_Z. cbn. lia. }
  pose proof (inject_nonzero f0 Hf) as Hn. pose proof (inject_nonzero (Z.pos (Qden f)) ltac:(lia)) as Hn'.
  rewrite inject_Z_mult. transitivity (inject_Z f0 * (inject_Z (Qnum f) / inject_Z (Z.pos (Qden f))))%Q; [by field|].
  rewrite Hd, Hq. by field.
Qed.

(** The VCO's limits, on the exact frequency. *)
Lemma vco_ok_spec hi clk_freq p f0 :
  0 < f0 -> vco_ok hi f0 (Qnum (clk_fraction clk_freq p f0)) (Z.pos (Qden (clk_fraction clk_freq p f0))) = true <->
  (inject_Z 400000000 <= clk_freq * inject_Z p <= inject_Z hi)%Q.
Proof.
  intros Hf. rewrite <- (clk_fraction_eq clk_freq p f0 Hf). set (n := (f0 * _)%Z). set (d := Qden _).
  unfold vco_ok. fold n. rewrite andb_true_iff, !Z.leb_le.
  pose proof (inject_nonzero (Z.pos d) ltac:(lia)) as Hn.
  assert (E : (inject_Z n / inject_Z (Z.pos d) == n # d)%Q) by (unfold Qeq, Qdiv, Qmult, Qinv, inject_Z; cbn; lia).
  rewrite E. unfold Qle, inject_Z. cbn. lia.
Qed.

(** The PLLs of Mimas V2 and Pipistrello, for every rational
    system clock. The constructor accepts the frequency exactly when the VCO,
    which runs at [p] times it, is between 400 and 1080 MHz and the phase
    detector's input, the oscillator over the denominator of [clk*p/f0] in
    lowest terms, between 19 and 500 MHz; otherwise it stops with an assertion.
    Then the system domain runs at exactly the frequency asked for, and the DDR
    clocks at 4 and 2 times it. *)
Theorem fraction_pll_exact (clk_freq : Q) (b : bool) :
  let f0 := if b then 100000000 else 50000000 in
  let p := if b then 8 else 12 in
  let ok := (inject_Z 400000000 <= clk_freq * inject_Z p <= inject_Z 1080000000)%Q /\
            pfd_ok f0 (Z.pos (Qden (clk_fraction clk_freq p f0))) = true in
  match (if b then mimasv2_pll else pipistrello_pll) clk_freq with
  | Raise e => e = AssertionError /\ ~ ok
  | Ok pll => ok /\ exists sys full half,
      out_freq pll 5 = Some sys /\ (sys == clk_freq)%Q /\
      out_freq pll 0 = Some full /\ (full == 4 * clk_freq)%Q /\
      out_freq pll 2 = Some half /\ out_freq pll 3 = Some half /\ (half == 2 * clk_freq)%Q
  end.
Proof.
  intros f0 p ok. unfold ok. clear ok.
  pose proof (vco_ok_spec 1080000000 clk_freq p f0 ltac:(unfold f0; by destruct b)) as Hv.
  pose proof (clk_fraction_eq clk_freq p f0 ltac:(unfold f0; by destruct b)) as He.
  set (n := Qnum _) in *. set (d := Qden _) in *.
  assert (E : (if b then mimasv2_pll else pipistrello_pll) clk_freq =
    (py_assert (pfd_ok f0 (Z.pos d));; py_assert (vco_ok 1080000000 f0 n (Z.pos d));;
     Ok {| clkin := f0; divclk := Z.pos d; mult := n;
           outs := outs (if b then Build_Pll 0 0 0 [out 0 2; out 0 2; out 270 4; out 270 4; out 0 8; out 0 8]
                         else Build_Pll 0 0 0 [out 0 3; out 0 15; out 270 6; out 250 6; out 0 20; out 0 12]) |}))
    by (unfold n, d, f0, p; by destruct b).
  rewrite E. destruct (pfd_ok f0 (Z.pos d)) eqn:Hp; cbn [py_assert mbind result_bind]; [|intuition discriminate].
  destruct (vco_ok _ _ _ _); cbn [py_assert mbind result_bind]; [|split; [done|]; intros [H _]; by apply Hv in H].
  split; [split; [by apply Hv | done]|].
  assert (Hs : forall k, 0 < k -> (inject_Z (f0 * n) / inject_Z (Z.pos d * k) == clk_freq * inject_Z p / inject_Z k)%Q).
  { intros k Hk. rewrite <- He, !inject_Z_mult. field. split; apply inject_nonzero; lia. }
  destruct b; do 3 eexists; split_and!; try reflexivity; unfold pll_freq; cbn [clkin mult divclk divide out];
    rewrite Hs by done. all: subst f0 p; clear; unfold inject_Z. all: try field.
Qed.

(** On every Spartan-6 target the clocks are what the rest of the
    SoC assumes, whatever LiteX and the arguments are: the PLL's assertions
    hold for the frequency the constructor declares to LiteX, the system domain
    runs at exactly that frequency, and the fast clock of the DDR interface is
    the divider of its [BUFPLL] times the clock of the logic. *)
Theorem spartan6_clock_plan {LS : LitexSoC} (s : TargetsSpartan6.spartan6_soc) (kw : Kwargs) :
  exists l f pll sys, TargetsSpartan6.spartan6_init s kw = Ok l /\ declared_freq l = Some f /\
    spartan6_pll s f = Ok pll /\ out_freq pll (spartan6_sys s) = Some sys /\ (sys == f)%Q /\
    match spartan6_bufpll s with
    | None => True
    | Some (full, div, logic) => exists a b, out_freq pll full = Some a /\ out_freq pll logic = Some b /\
        (a == inject_Z div * b)%Q
    end.
Proof.
  TargetsSpartan6.spartan6_steps s; do 4 eexists; (split; [reflexivity|]); (split; [reflexivity|]);
    (split; [vm_compute; reflexivity|]); (split; [reflexivity|]); (split; [vm_compute; reflexivity|]);
    try exact I; do 2 eexists; split_and!; try reflexivity; vm_compute; reflexivity.
Qed.

(** What the Artix-7 constructors declare. *)
Lemma series7_declared {LS : LitexSoC} s hdmi_infos spiflash kw :
  match TargetsSeries7.series7_init s hdmi_infos spiflash kw with
  | Ok l => declared_freq l = Some (inject_Z (match s with TargetsSeries7.MimasA7Bridge => 142000000 | _ => 100000000 end))
  | Raise _ => True
  end.
Proof.
  TargetsSeries7.series7_steps s.
  all: destruct (String.eqb spiflash "spiflash_1x"), (String.eqb spiflash "spiflash_4x").
  all: first [exact I | reflexivity].
Qed.

(** On the Artix-7 targets, for all arguments the constructors
    accept, the system domain runs at the frequency declared to LiteX, from
    which LiteX derives baud rates and timers, except on two: the Cmod A7
    declares 100 MHz and runs on its 12 MHz oscillator, and the Mimas A7's
    bridge declares 142 MHz and runs at 140 MHz. The reference of the delay
    controller is exactly 200 MHz wherever there is one. *)
Theorem series7_clock_plan {LS : LitexSoC} (s : TargetsSeries7.series7_soc) (hdmi_infos : list (string * string))
    (spiflash : string) (kw : Kwargs) (l : list action)
    (Hl : TargetsSeries7.series7_init s hdmi_infos spiflash kw = Ok l) :
  exists f sys, declared_freq l = Some f /\ series7_sys_freq s = Some sys /\
    ((sys == f)%Q <-> s <> TargetsSeries7.CmodA7 /\ s <> TargetsSeries7.MimasA7Bridge) /\
    (s = TargetsSeries7.CmodA7 -> f = inject_Z 100000000 /\ (sys == inject_Z 12000000)%Q) /\
    (s = TargetsSeries7.MimasA7Bridge -> f = inject_Z 142000000 /\ (sys == inject_Z 140000000)%Q) /\
    match series7_idelay s, series7_clock s with
    | Some k, inl pll => exists r, out_freq pll k = Some r /\ (r == inject_Z 200000000)%Q
    | _, _ => True
    end.
Proof.
  pose proof (series7_declared s hdmi_infos spiflash kw) as Hd.
  rewrite Hl in Hd. rewrite Hd. clear Hl Hd. destruct s; do 2 eexists; (split; [reflexivity|]); (split; [reflexivity|]).
  all: split_and!; try done; try (split; [intros _; done | intros _; vm_compute; reflexivity]).
  all: first [by eexists; split; [reflexivity | vm_compute; reflexivity]
             | split; [intros E; vm_compute in E; discriminate | by intros [A B]; first [destruct A | destruct B]]].
Qed.

(** The Cmod A7. *)
Lemma series7_clock_plan_witness :
  let LS := plain_soc {["sram" := 0x10000000%Z]} in
  exists f sys, series7_sys_freq TargetsSeries7.CmodA7 = Some sys /\ f = inject_Z 100000000 /\ (sys == inject_Z 12000000)%Q.
Proof.
  intros LS.
  destruct (TargetsSeries7.series7_init TargetsSeries7.CmodA7 [] "spiflash_1x"%string no_kwargs) as [l|] eqn:Hl;
    [|vm_compute in Hl; discriminate].
  destruct (series7_clock_plan (LS := LS) TargetsSeries7.CmodA7 [] "spiflash_1x"%string no_kwargs l Hl)
    as (f & sys & _ & Hs & _ & Hc & _).
  exists f, sys. split; [exact Hs|]. exact (Hc eq_refl).
Defined.

(** The reset of the delay controller on the Artix-7 boards. From any
    state, after a reset of its clock domain the controller is held in reset for
    exactly 16 cycles of the 200 MHz clock and released for good. *)
Theorem idelay_release (s : Idelay) (k : nat) :
  let s' := fold_left (fun s rst => idelay_step rst s) (true :: replicate k false) s in
  reset_counter s' = Z.max 0 (15 - Z.of_nat k) /\ (ic_reset s' = true <-> (k <= 15)%nat).
Proof.
  cbn [fold_left idelay_step]. induction k as [|k IH]; [by split; [|split; [lia|]]|].
  rewrite replicate_S_end, fold_left_app. cbn [fold_left]. cbv zeta in IH. revert IH.
  set (s' := fold_left _ _ _). intros [Hc Hr]. unfold idelay_step.
  destruct (Z.eqb_spec (reset_counter s') 0) as [E|E]; cbn [reset_counter ic_reset].
  - split; [lia|]. split; [done | lia].
  - rewrite wrap_id by (unfold in_width; lia). rewrite Hr. lia.
Qed.
