(* ===== verification/ClockTree.v ===== *)
(** * Clock trees

    A clock and reset module ([_CRG]) instantiates the FPGA's clock primitives
    and connects them by named nets: a [CRG] is that netlist. What the primitives
    do is not in the repository: it is the class [ClockPrims], whose laws are
    what the FPGA's clocking guides state of frequency and phase, and the class
    [ResetSync], which states what the [AsyncResetSynchronizer] of migen
    does. For any instance of the two, this file says which clock a net carries
    ([clock]) and how the resets of the domains evolve ([step], [in_reset]).
    The netlists of the boards are in [ClockTrees]. *)
From Stdlib Require Import QArith Qreduction.
From S2P Require Import Prelude PyStr Crg.
#[local] Open Scope Z_scope.
#[local] Open Scope string_scope.

Definition net : Type := string.

(** The clock of domain [d]: [self.cd_<d>.clk]. *)
Definition cd (d : string) : net := "cd_" +++ d +++ ".clk".

(** ** Netlists *)

(** The conditions the modules build for resets: a PLL's lock signal, the
    power-on counter not yet at 0, the level of a requested pin, [self.reset],
    the reset of a domain. *)
Inductive rst :=
| Lock (n : net)
| Por
| Pin (n : string) (k : option Z)
| SelfReset
| DomainRst (d : string)
| Not (r : rst)
| Or (r s : rst).

(** Arguments in the order: parameters, inputs, outputs. [C1] of an [ODDR2] is
    always the inverse of its [C0]; the [BUFIO2] have their divider bypassed. *)
Inductive cell :=
| IBUFG (i o : net)
| BUFIO2 (i o : net)
| BUFG (i o : net)
| BUFR (divide : Z) (i o : net)
| Comb (i o : net)                                   (** [o.eq(i)] *)
| PLL (p : Pll) (clkin1 : net) (clkouts : list net) (locked : net)
| DCM_CLKGEN (d : Dcm) (clkin : net) (reset : rst) (clkfx locked : net)
| BUFPLL (divide : Z) (pllin gclk locked ioclk serdesstrobe : net)
| ODDR2 (d0 d1 : bool) (c0 q : net)
| OBUFDS (i o ob : net)
| IDELAYCTRL (refclk : net)
| AsyncResetSynchronizer (domain : string) (r : rst)
| CombReset (domain : string) (r : rst).             (** [cd_<domain>.rst.eq(r)] *)

(** The nets a cell drives. *)
Definition drives (c : cell) : list net :=
  match c with
  | IBUFG _ o | BUFIO2 _ o | BUFG _ o | BUFR _ _ o | Comb _ o | ODDR2 _ _ _ o => [o]
  | PLL _ _ os l => l :: os
  | DCM_CLKGEN _ _ _ o l => [l; o]
  | BUFPLL _ _ _ _ o s => [o; s]
  | OBUFDS _ o ob => [o; ob]
  | IDELAYCTRL _ | AsyncResetSynchronizer _ _ | CombReset _ _ => []
  end.

(** The nets a cell reads. *)
Fixpoint rst_reads (r : rst) : list net :=
  match r with
  | Lock n => [n]
  | Not r => rst_reads r
  | Or r s => rst_reads r ++ rst_reads s
  | _ => []
  end.

Definition reads (c : cell) : list net :=
  match c with
  | IBUFG i _ | BUFIO2 i _ | BUFG i _ | BUFR _ i _ | Comb i _ | PLL _ i _ _ | ODDR2 _ _ i _ | OBUFDS i _ _
  | IDELAYCTRL i => [i]
  | DCM_CLKGEN _ i r _ _ => i :: rst_reads r
  | BUFPLL _ i g l _ _ => [i; g; l]
  | AsyncResetSynchronizer _ r | CombReset _ r => rst_reads r
  end.

(** The domain whose reset a cell drives: through a synchroniser or not, and
    the condition. *)
Definition resets (c : cell) : list (string * (bool * rst)) :=
  match c with
  | AsyncResetSynchronizer d r => [(d, (true, r))]
  | CombReset d r => [(d, (false, r))]
  | _ => []
  end.

(** A clock and reset module. [domains]: the clock domains it declares;
    [oscillator]: the clock it requests from the board; [periods]: the calls of
    [add_period_constraint], in ns; [counter]: the power-on counter's width. *)
Record CRG := {
  domains : list string;
  oscillator : net;
  cells : list cell;
  periods : list (net * Q);
  counter : option Z
}.

Definition all_driven (cells : list cell) : list net := flat_map drives cells.

Definition all_resets (c : CRG) : list (string * (bool * rst)) := flat_map resets (cells c).

(** One driver for each net. *)
Definition single_driver (cells : list cell) : Prop := NoDup (all_driven cells).

(** Every net that is read is driven, or is the oscillator. *)
Definition no_floating (c : CRG) : Prop :=
  Forall (fun n => n ∈ oscillator c :: all_driven (cells c)) (flat_map reads (cells c)).

(** ** Clocks *)

(** Frequency in Hz, and the phase in degrees against the oscillator's edges,
    if that is defined. *)
Record Clk := { hz : Q; deg : option Z }.

(** [r ⊑ c]: [c] has the frequency of [r], and its phase if [r] has one. *)
#[global] Instance Clk_sqsubseteq : SqSubsetEq Clk := fun r c => (hz c == hz r)%Q /\ forall d, deg r = Some d -> deg c = Some d.

#[global] Instance Clk_preorder : PreOrder (⊑@{Clk}).
Proof.
  split; [by split|]. intros a b c [H1 H2] [H3 H4]. split; [by rewrite H3 | auto].
Qed.

(** The same clock [d] degrees later; [k] times the frequency at phase [d],
    for an input at phase 0; [k] times the frequency at any phase. *)
Definition shift (d : Z) (c : Clk) : Clk := {| hz := hz c; deg := (fun x => (x + d) mod 360) <$> deg c |}.
Definition synth (k : Q) (d : Z) (c : Clk) : Clk :=
  {| hz := (k * hz c)%Q; deg := if decide (deg c = Some 0) then Some (d mod 360) else None |}.
Definition free (k : Q) (c : Clk) : Clk := {| hz := (k * hz c)%Q; deg := None |}.

#[global] Instance shift_mono d : Proper ((⊑) ==> (⊑)) (shift d).
Proof.
  intros r c [H1 H2]. split; [exact H1|]. cbn [shift deg]. intros x Hx. apply fmap_Some in Hx as (y & Hy & ->). by rewrite (H2 _ Hy).
Qed.

#[global] Instance synth_mono k d : Proper ((⊑) ==> (⊑)) (synth k d).
Proof.
  intros r c [H1 H2]. split; cbn [synth hz deg]; [by rewrite H1|]. intros x.
  destruct (decide (deg r = Some 0)) as [E|]; [|done]. by rewrite decide_True by auto.
Qed.

#[global] Instance free_mono k : Proper ((⊑) ==> (⊑)) (free k).
Proof. intros r c [H1 H2]. split; cbn [free hz deg]; [by rewrite H1 | done]. Qed.

(** The ratio of output [o] of PLL [p] to its input. *)
Definition pll_ratio (p : Pll) (o : PllOut) : Q := (inject_Z (mult p) / inject_Z (divclk p * divide o))%Q.

(** The attributes for which the guides define it. *)
Definition between (lo x hi : Z) : bool := (lo <=? x)%Z && (x <=? hi)%Z.

Definition legal (c : cell) : bool :=
  match c with
  | PLL p _ os _ => between 1 (mult p) 64 && between 1 (divclk p) 52 &&
      forallb (fun o => between 1 (divide o) 128 && between 0 (phase o) 359) (outs p)
  | DCM_CLKGEN d _ _ _ _ => between 2 (dcm_multiply d) 256 && between 1 (dcm_divide d) 256
  | BUFR k _ _ => between 1 k 8
  | _ => true
  end.

(** The clock primitives: the clock at an output for the clock at the input,
    and what is documented of it. Buffers keep frequency and phase; a
    differential output's second pin is inverted; a double data rate flip-flop
    fed with 1 and 0 repeats its clock, fed with 0 and 1 inverts it; a PLL
    multiplies and divides and has a phase attribute for each output; the phase
    of a digital synthesiser or of a divided regional buffer is not defined. *)
Class ClockPrims := {
  ibufg : Clk -> Clk;
  bufio2 : Clk -> Clk;
  bufg : Clk -> Clk;
  bufr : Z -> Clk -> Clk;
  clkout : Pll -> PllOut -> Clk -> Clk;
  clkfx : Dcm -> Clk -> Clk;
  ioclk : Z -> Clk -> Clk;
  oddr2 : bool -> bool -> Clk -> option Clk;
  obufds_o : Clk -> Clk;
  obufds_ob : Clk -> Clk;
  ibufg_law c : c ⊑ ibufg c;
  bufio2_law c : c ⊑ bufio2 c;
  bufg_law c : c ⊑ bufg c;
  bufr_law k c : between 1 k 8 = true -> free (/ inject_Z k) c ⊑ bufr k c;
  clkout_law p o c :
    between 1 (mult p) 64 = true -> between 1 (divclk p) 52 = true -> between 1 (divide o) 128 = true ->
    between 0 (phase o) 359 = true -> synth (pll_ratio p o) (phase o) c ⊑ clkout p o c;
  clkfx_law d c :
    between 2 (dcm_multiply d) 256 = true -> between 1 (dcm_divide d) 256 = true ->
    free (inject_Z (dcm_multiply d) / inject_Z (dcm_divide d)) c ⊑ clkfx d c;
  ioclk_law k c : c ⊑ ioclk k c;
  oddr2_same c : exists c', oddr2 true false c = Some c' /\ c ⊑ c';
  oddr2_inverse c : exists c', oddr2 false true c = Some c' /\ shift 180 c ⊑ c';
  obufds_o_law c : c ⊑ obufds_o c;
  obufds_ob_law c : shift 180 c ⊑ obufds_ob c
}.

(** Primitives that do just that. *)
Lemma clk_refl (c : Clk) : c ⊑ c.
Proof. reflexivity. Qed.

Definition ideal : ClockPrims := {|
  ibufg c := c; bufio2 c := c; bufg c := c; bufr k := free (/ inject_Z k);
  clkout p o := synth (pll_ratio p o) (phase o);
  clkfx d := free (inject_Z (dcm_multiply d) / inject_Z (dcm_divide d));
  ioclk _ c := c;
  oddr2 d0 d1 c := match d0, d1 with true, false => Some c | false, true => Some (shift 180 c) | _, _ => None end;
  obufds_o c := c; obufds_ob := shift 180;
  ibufg_law := clk_refl; bufio2_law := clk_refl; bufg_law := clk_refl;
  bufr_law _ _ _ := clk_refl _; clkout_law _ _ _ _ _ _ _ := clk_refl _; clkfx_law _ _ _ _ := clk_refl _;
  ioclk_law _ := clk_refl;
  oddr2_same c := ex_intro _ c (conj eq_refl (clk_refl c));
  oddr2_inverse c := ex_intro _ (shift 180 c) (conj eq_refl (clk_refl _));
  obufds_o_law := clk_refl; obufds_ob_law _ := clk_refl _ |}.

(** *** The clock of a net *)

Section clocks.
Context {CP : ClockPrims}.

(** What each net a cell drives carries, as a function of the clock of the net
    it depends on. *)
Definition edges (c : cell) : list (net * (net * (Clk -> option Clk))) :=
  match c with
  | IBUFG i o => [(o, (i, Some ∘ ibufg))]
  | BUFIO2 i o => [(o, (i, Some ∘ bufio2))]
  | BUFG i o => [(o, (i, Some ∘ bufg))]
  | Comb i o => [(o, (i, Some))]
  | BUFR k i o => [(o, (i, Some ∘ bufr k))]
  | PLL p i os l => (l, (i, const None)) :: zip_with (fun o po => (o, (i, Some ∘ clkout p po))) os (outs p)
  | DCM_CLKGEN d i _ o l => [(l, (i, const None)); (o, (i, Some ∘ clkfx d))]
  | BUFPLL k i g _ o s => [(o, (i, Some ∘ ioclk k)); (s, (g, const None))]
  | ODDR2 d0 d1 c q => [(q, (c, oddr2 d0 d1))]
  | OBUFDS i o ob => [(o, (i, Some ∘ obufds_o)); (ob, (i, Some ∘ obufds_ob))]
  | IDELAYCTRL _ | AsyncResetSynchronizer _ _ | CombReset _ _ => []
  end.

Definition all_edges (cells : list cell) : list (net * (net * (Clk -> option Clk))) := flat_map edges cells.

Variable pins : net -> option Clk.
Variable cells : list cell.

(** The meaning of the netlist. *)
Inductive clocked : net -> Clk -> Prop :=
| clocked_pin n c : (n ∉ fst <$> all_edges cells) -> pins n = Some c -> clocked n c
| clocked_cell n i t c c' : In (n, (i, t)) (all_edges cells) -> clocked i c -> t c = Some c' -> clocked n c'.

(** Following a net back to a pin, through at most [fuel] cells. *)
Fixpoint clock_at (fuel : nat) (n : net) : option Clk :=
  match fuel with
  | O => None
  | S fuel =>
      match getitem (all_edges cells) n with
      | Some (i, t) => c ← clock_at fuel i; t c
      | None => pins n
      end
  end.

(** Each net is met at most once. *)
Definition clock_of (n : net) : option Clk := clock_at (S (length (all_edges cells))) n.

Lemma clock_at_step k n :
  clock_at (S k) n = match getitem (all_edges cells) n with Some (i, t) => c ← clock_at k i; t c | None => pins n end.
Proof using Type. done. Qed.

Lemma clock_at_S k n c : clock_at k n = Some c -> clock_at (S k) n = Some c.
Proof using Type.
  revert n c. induction k as [|k IH]; intros n c; [done|]. rewrite (clock_at_step (S k)), (clock_at_step k).
  destruct (getitem (all_edges cells) n) as [[i t]|]; [|done].
  destruct (clock_at k i) as [ci|] eqn:E; [|done]. by rewrite (IH _ _ E).
Qed.

Lemma clock_at_le k k' n c : (k <= k')%nat -> clock_at k n = Some c -> clock_at k' n = Some c.
Proof using Type. induction 1; auto using clock_at_S. Qed.

Lemma clock_at_sound k n c : clock_at k n = Some c -> clocked n c.
Proof using Type.
  revert n c. induction k as [|k IH]; intros n c; [done|]. rewrite clock_at_step.
  destruct (getitem (all_edges cells) n) as [[i t]|] eqn:E.
  - intros H. destruct (clock_at k i) as [ci|] eqn:Ei; [|done].
    eapply clocked_cell; eauto using getitem_in.
  - intros H. apply clocked_pin; auto using getitem_none.
Qed.

Lemma clock_at_complete n c : NoDup (fst <$> all_edges cells) -> clocked n c -> exists k, clock_at k n = Some c.
Proof using Type.
  intros Hs. induction 1 as [n c Hn Hp|n i t ci c Hin _ [k IH] Ht].
  - exists 1%nat. rewrite clock_at_step. destruct (getitem (all_edges cells) n) as [[i t]|] eqn:E; [|done].
    destruct Hn. eapply key_in, getitem_in; done.
  - exists (S k). rewrite clock_at_step. by rewrite (getitem_unique _ _ _ Hs Hin), IH.
Qed.

(** If [n] needs exactly [S k] steps, there are [k] different driven nets on the
    way. *)
Lemma clock_at_path k n c : clock_at (S k) n = Some c -> clock_at k n = None ->
  exists l, length l = k /\ NoDup l /\ Forall (fun x => x ∈ fst <$> all_edges cells /\ clock_at (S k) x <> None) l.
Proof using Type.
  revert n c. induction k as [|k IH]; intros n c Hs Hn.
  { exists []. split_and!; [done | apply NoDup_nil_2 | constructor]. }
  pose proof Hs as Hs'. rewrite clock_at_step in Hs.
  pose proof Hn as Hn'. rewrite clock_at_step in Hn'. destruct (getitem _ n) as [[i t]|] eqn:E; [|congruence].
  destruct (clock_at (S k) i) as [ci|] eqn:Ei; [|done].
  assert (clock_at k i = None) as Hi.
  { destruct (clock_at k i) as [ci'|] eqn:E'; [|done]. pose proof (clock_at_S _ _ _ E'). simplify_eq. }
  destruct (IH _ _ Ei Hi) as (l & <- & Hl & Hf). exists (n :: l). split_and!; [done| |].
  - apply NoDup_cons. split; [|done]. intros Hin. rewrite Forall_forall in Hf. by apply Hf in Hin as [_ []].
  - constructor.
    + split; [|by rewrite Hs'].
      eapply key_in, getitem_in; done.
    + eapply Forall_impl; [exact Hf|]. intros x [Hx Hc]. split; [done|].
      destruct (clock_at (S (length l)) x) as [cx|] eqn:Ex; [|done]. by rewrite (clock_at_S _ _ _ Ex).
Qed.

Lemma clock_at_enough k n c : clock_at k n = Some c -> clock_of n = Some c.
Proof using Type.
  intros H. assert (exists m, clock_at (S m) n = Some c /\ clock_at m n = None) as (m & Hm & Hm').
  { induction k as [|k IH]; [done|]. destruct (clock_at k n) as [c'|] eqn:E; [|by exists k].
    pose proof (clock_at_S _ _ _ E). apply IH. congruence. }
  destruct (clock_at_path _ _ _ Hm Hm') as (l & Hl & Hn & Hf).
  apply (clock_at_le (S m)); [|done]. rewrite <- Hl.
  assert (length l <= length (fst <$> all_edges cells))%nat as Hle.
  { apply submseteq_length, NoDup_submseteq; [done|]. intros x Hx. rewrite Forall_forall in Hf. by apply Hf. }
  rewrite length_fmap in Hle. lia.
Qed.

(** The function computes the relation: its fuel is enough. *)
Lemma clock_of_clocked n c : NoDup (fst <$> all_edges cells) -> clock_of n = Some c <-> clocked n c.
Proof using Type.
  intros Hs. split; [apply clock_at_sound|]. intros [k Hk]%clock_at_complete; [|done]. by apply clock_at_enough in Hk.
Qed.
End clocks.

(** The clock of a net, with an oscillator of frequency [f] on the board. *)
Definition clock {CP : ClockPrims} (f : Q) (c : CRG) (n : net) : option Clk :=
  clock_of (fun n => if String.eqb n (oscillator c) then Some {| hz := f; deg := Some 0 |} else None) (cells c) n.

Definition freq {CP : ClockPrims} (f : Q) (c : CRG) (n : net) : option Q := Qred <$> (hz <$> clock f c n).

(** *** From the ideal primitives to all *)

(** [t'] is a function of the clock that says as much as [t]. *)
Definition says (t t' : Clk -> option Clk) : Prop :=
  forall r c x, r ⊑ c -> t r = Some x -> exists y, t' c = Some y /\ x ⊑ y.

Lemma says_law (t t' : Clk -> Clk) : Proper ((⊑) ==> (⊑)) t -> (forall c, t c ⊑ t' c) -> says (Some ∘ t) (Some ∘ t').
Proof. intros Ht Hl r c x Hrc [= <-]. exists (t' c). split; [done|]. by rewrite Hrc. Qed.

Lemma says_same (t' : Clk -> Clk) : (forall c, c ⊑ t' c) -> says (Some ∘ (fun c => c)) (Some ∘ t').
Proof. apply (says_law (fun c => c)). by intros ??. Qed.

Lemma says_none t' : says (const None) t'.
Proof. by intros r c x _ [=]. Qed.

Lemma says_some : says Some Some.
Proof. intros r c x H [= <-]. eauto. Qed.

Definition edge_says (x y : net * (net * (Clk -> option Clk))) : Prop :=
  x.1 = y.1 /\ x.2.1 = y.2.1 /\ says x.2.2 y.2.2.

#[local] Hint Resolve ibufg_law bufio2_law bufg_law ioclk_law obufds_o_law obufds_ob_law : core.

Lemma edges_say {CP : ClockPrims} (c : cell) : legal c = true -> Forall2 edge_says (@edges ideal c) (edges c).
Proof.
  destruct c as [| | |k i o| |p i os l|d i r o l| |d0 d1 c q| | | |]; cbn [edges legal]; intros Hl.
  all: repeat (apply Forall2_cons; split); try apply Forall2_nil; try done.
  all: try (split_and!; [done | done|]; first [apply says_none | apply says_some | apply says_same; auto]).
  - split_and!; [done | done|]. apply says_law; [apply _|]. intros c. by apply bufr_law.
  - rewrite !andb_true_iff, forallb_forall in Hl. destruct Hl as [[Hm Hd] Ho].
    revert os. induction (outs p) as [|po outs IH]; intros os; [destruct os; constructor|].
    destruct os as [|o os]; [constructor|]. cbn [zip_with]. constructor.
    + split_and!; [done | done|]. apply says_law; [apply _|]. intros c.
      destruct (andb_prop _ _ (Ho po ltac:(by left))). by apply clkout_law.
    + apply IH. intros x Hx. apply Ho. by right.
  - apply andb_prop in Hl as [H1 H2]. split_and!; [done | done|]. apply says_law; [apply _|]. intros c. by apply clkfx_law.
  - split_and!; [done | done|]. intros r x y Hrx. cbn. destruct d0, d1; [done | | | done]; intros [= <-].
    + destruct (oddr2_same x) as (x' & -> & Hx). eexists. split; [done|]. by rewrite Hrx.
    + destruct (oddr2_inverse x) as (x' & -> & Hx). eexists. split; [done|]. by rewrite Hrx.
  - split_and!; [done | done|]. apply (says_law (shift 180)); [apply _ | auto].
Qed.

Lemma all_edges_say {CP : ClockPrims} (cells : list cell) :
  forallb legal cells = true -> Forall2 edge_says (@all_edges ideal cells) (all_edges cells).
Proof.
  intros H. rewrite forallb_forall in H. induction cells as [|c cells IH]; [constructor|]. cbn [all_edges flat_map].
  apply Forall2_app; [apply edges_say, H; by left | apply IH; intros x Hx; apply H; by right].
Qed.

Lemma getitem_says l l' n : Forall2 edge_says l l' ->
  match getitem l n with
  | Some (i, t) => exists t', getitem l' n = Some (i, t') /\ says t t'
  | None => getitem l' n = None
  end.
Proof.
  induction 1 as [|[k [i t]] [k' [i' t']] l l' (H1 & H2 & H3) _ IH]; [done|]. cbn in H1, H2, H3 |- *. subst k' i'.
  destruct (String.eqb n k); [by exists t' | exact IH].
Qed.

Lemma clock_at_says {CP : ClockPrims} pins cells k n r : forallb legal cells = true ->
  @clock_at ideal pins cells k n = Some r -> exists c, clock_at pins cells k n = Some c /\ r ⊑ c.
Proof.
  intros Hl%all_edges_say. revert n r. induction k as [|k IH]; intros n r; [done|].
  rewrite (@clock_at_step ideal), clock_at_step. pose proof (getitem_says _ _ n Hl) as Hg.
  destruct (getitem (@all_edges ideal cells) n) as [[i t]|].
  - destruct Hg as (t' & -> & Ht). destruct (@clock_at ideal pins cells k i) as [ri|] eqn:E; [|done].
    destruct (IH _ _ E) as (ci & -> & Hi). cbn [mbind option_bind]. by apply Ht.
  - rewrite Hg. intros ->. by exists r.
Qed.

(** What is computed with the ideal primitives holds of all. *)
Lemma clock_ideal {CP : ClockPrims} f c n r : forallb legal (cells c) = true ->
  @clock ideal f c n = Some r -> exists x, clock f c n = Some x /\ r ⊑ x.
Proof.
  intros Hl. unfold clock, clock_of.
  rewrite (Forall2_length _ _ _ (@all_edges_say CP _ Hl)). by apply clock_at_says.
Qed.

Lemma freq_ideal {CP : ClockPrims} f c n x : forallb legal (cells c) = true ->
  @freq ideal f c n = Some x -> freq f c n = Some x.
Proof.
  intros Hl H. unfold freq in *. destruct (@clock ideal f c n) as [r|] eqn:E; [|done].
  destruct (clock_ideal f c n r Hl E) as (y & -> & [Hy _]). injection H as <-. cbn. f_equal. by apply Qred_complete.
Qed.

(** The frequency and the phase. *)
Lemma clock_ideal_deg {CP : ClockPrims} f c n r d : forallb legal (cells c) = true ->
  @clock ideal f c n = Some r -> deg r = Some d ->
  exists x, clock f c n = Some x /\ (hz x == hz r)%Q /\ deg x = Some d.
Proof. intros Hl H Hd. destruct (clock_ideal f c n r Hl H) as (x & -> & Hx & Hy). eauto. Qed.

(** The nets with a driver do not depend on the primitives. *)
Lemma driven_edges {CP : ClockPrims} (c : cell) : fst <$> edges c ⊆+ drives c.
Proof.
  destruct c as [| | | | |p i os l| | | | | | |]; try done. cbn [edges drives]. rewrite fmap_cons. cbn [fst]. apply submseteq_skip.
  revert os. induction (outs p) as [|po l' IH]; intros [|o os]; [done | apply submseteq_nil_l | done|].
  cbn [zip_with]. rewrite fmap_cons. by apply submseteq_skip.
Qed.

Lemma all_driven_edges {CP : ClockPrims} (cells : list cell) : fst <$> all_edges cells ⊆+ all_driven cells.
Proof.
  induction cells as [|c cells IH]; [done|]. cbn [all_edges all_driven flat_map]. rewrite fmap_app.
  apply submseteq_app; [apply driven_edges | exact IH].
Qed.

(** A net without a driver, other than the oscillator, has no clock. *)
Lemma clock_undriven {CP : ClockPrims} f c n : (n ∉ oscillator c :: all_driven (cells c)) -> clock f c n = None.
Proof.
  intros [H1 H2]%not_elem_of_cons. unfold clock, clock_of. rewrite clock_at_step.
  destruct (getitem (all_edges (cells c)) n) as [[i t]|] eqn:E.
  - destruct H2. eapply elem_of_submseteq; [|apply all_driven_edges]. by eapply key_in, getitem_in.
  - by destruct (String.eqb_spec n (oscillator c)).
Qed.

(** With single drivers, a net has one clock: the one [clock] finds. *)
Lemma clock_unique {CP : ClockPrims} pins cells n c : single_driver cells ->
  clock_of pins cells n = Some c <-> clocked pins cells n c.
Proof.
  intros H. apply clock_of_clocked. unfold single_driver in H.
  destruct (submseteq_Permutation _ _ (all_driven_edges cells)) as [k Hk]. rewrite Hk in H. by apply NoDup_app in H as [H _].
Qed.

(** ** Resets *)

(** [AsyncResetSynchronizer(cd, async)]: flip-flops in the domain's clock that
    [async] sets, without waiting for the clock, and through which a release is
    shifted. [rs_left]: the edges until the domain's reset is released, if
    [async] stays low. *)
Class ResetSync := {
  rs_state : Type;
  rs_init : rs_state;
  rs_rst : bool -> rs_state -> bool;
  rs_next : bool -> bool -> rs_state -> rs_state;    (** [async], an edge of the clock *)
  rs_edges : nat;
  rs_left : rs_state -> nat;
  rs_edges_pos : (0 < rs_edges)%nat;
  rs_init_law : rs_left rs_init = rs_edges;
  rs_rst_law async s : rs_rst async s = async || bool_decide (0 < rs_left s)%nat;
  rs_next_set edge s : rs_left (rs_next true edge s) = rs_edges;
  rs_next_edge s : rs_left (rs_next false true s) = pred (rs_left s);
  rs_next_idle s : rs_left (rs_next false false s) = rs_left s
}.

(** Two flip-flops, the first fed with 0. *)
Inductive two_flops := BothSet | SecondSet | Clear.

Definition flop_edges (s : two_flops) : nat := match s with BothSet => 2 | SecondSet => 1 | Clear => 0 end%nat.

Definition flop_next (async edge : bool) (s : two_flops) : two_flops :=
  if async then BothSet else if edge then match s with BothSet => SecondSet | _ => Clear end else s.

Lemma flop_law async s :
  match s with Clear => async | _ => true end = async || bool_decide (0 < flop_edges s)%nat.
Proof. by destruct async, s. Qed.

Lemma flop_next_edge s : flop_edges (flop_next false true s) = pred (flop_edges s).
Proof. by destruct s. Qed.

Definition two_flop_sync : ResetSync := {|
  rs_state := two_flops; rs_init := BothSet;
  rs_rst async s := match s with Clear => async | _ => true end;
  rs_next := flop_next; rs_edges := 2; rs_left := flop_edges;
  rs_edges_pos := Nat.lt_0_2; rs_init_law := eq_refl; rs_rst_law := flop_law;
  rs_next_set _ _ := eq_refl; rs_next_edge := flop_next_edge; rs_next_idle _ := eq_refl |}.

(** What the resets depend on: the lock signals, the levels of pins, and
    [self.reset]. *)
Record Env := { locked : net -> bool; level : string -> option Z -> bool; self_reset : bool }.

(** An instant: these inputs, and the nets with a rising edge. *)
Record Instant := { env : Env; edge : net -> bool }.

(** The module's direct connections pass the edges on. *)
Definition wired (c : CRG) (i : Instant) : Prop := forall a b, In (Comb a b) (cells c) -> edge i b = edge i a.

Fixpoint holds (e : Env) (por : Z) (dom : string -> bool) (r : rst) : bool :=
  match r with
  | Lock n => locked e n
  | Por => (0 <? por)%Z
  | Pin n k => level e n k
  | SelfReset => self_reset e
  | DomainRst d => dom d
  | Not r => negb (holds e por dom r)
  | Or r s => holds e por dom r || holds e por dom s
  end.

(** [por] (or [reset_delay]) at an edge of its domain's clock: it starts, and
    is reset to, all ones. *)
Definition count_down (w : Z) (reset : bool) (por : Z) : Z :=
  if reset then 2 ^ w - 1 else if (por =? 0)%Z then por else wrap w (por - 1).

Section resets.
#[local] Open Scope list_scope.
Context {RS : ResetSync}.
Variable c : CRG.

(** The synchronisers of the domains and the power-on counter. *)
Record Resets := { syncs : string -> rs_state; por : Z }.

Definition power_on : Resets :=
  {| syncs _ := rs_init; por := match counter c with Some w => 2 ^ w - 1 | None => 0 end |}.

(** The reset of domain [d], given those of the others. A domain nobody resets
    is not in reset. *)
Definition domain_reset (s : Resets) (e : Env) (dom : string -> bool) (d : string) : bool :=
  match getitem (all_resets c) d with
  | Some (true, r) => rs_rst (holds e (por s) dom r) (syncs s d)
  | Some (false, r) => holds e (por s) dom r
  | None => false
  end.

(** [fuel] bounds the chain of domains that follow the reset of another. *)
Fixpoint reset_at (fuel : nat) (s : Resets) (e : Env) (d : string) : bool :=
  match fuel with O => false | S fuel => domain_reset s e (reset_at fuel s e) d end.

Definition in_reset (s : Resets) (e : Env) (d : string) : bool := reset_at (S (length (all_resets c))) s e d.

(** The condition a domain's reset is given. *)
Definition asserted (s : Resets) (e : Env) (d : string) : bool :=
  match getitem (all_resets c) d with
  | Some (_, r) => holds e (por s) (reset_at (length (all_resets c)) s e) r
  | None => false
  end.

(** The registers after an instant: all see the values before it. *)
Definition step (s : Resets) (i : Instant) : Resets := {|
  syncs d := rs_next (asserted s (env i) d) (edge i (cd d)) (syncs s d);
  por := match counter c with
         | Some w => if edge i (cd "por") then count_down w (in_reset s (env i) "por") (por s) else por s
         | None => por s
         end |}.

Definition run (s : Resets) (tr : list Instant) : Resets := fold_left step tr s.

Definition edges_of (d : string) (tr : list Instant) : nat := length (filter (fun i => edge i (cd d) = true) tr).

(** *** Generic facts *)

Lemma in_reset_sync s e d r : getitem (all_resets c) d = Some (true, r) ->
  in_reset s e d = asserted s e d || bool_decide (0 < rs_left (syncs s d))%nat.
Proof using Type. intros H. unfold in_reset, asserted. cbn [reset_at]. unfold domain_reset. by rewrite H, rs_rst_law. Qed.

Lemma in_reset_comb s e d r : getitem (all_resets c) d = Some (false, r) -> in_reset s e d = asserted s e d.
Proof using Type. intros H. unfold in_reset, asserted. cbn [reset_at]. unfold domain_reset. by rewrite H. Qed.

Lemma in_reset_none s e d : getitem (all_resets c) d = None -> in_reset s e d = false.
Proof using Type. intros H. unfold in_reset. cbn [reset_at]. unfold domain_reset. by rewrite H. Qed.

Lemma step_left s i d : rs_left (syncs (step s i) d) =
  if asserted s (env i) d then rs_edges
  else if edge i (cd d) then pred (rs_left (syncs s d)) else rs_left (syncs s d).
Proof using Type.
  cbn [step syncs]. destruct (asserted s (env i) d), (edge i (cd d));
    auto using rs_next_set, rs_next_edge, rs_next_idle.
Qed.

Lemma reset_run_snoc s tr i : run s (tr ++ [i]) = step (run s tr) i.
Proof using Type. unfold run. by rewrite fold_left_app. Qed.

Lemma edges_of_app d tr tr' : edges_of d (tr ++ tr') = (edges_of d tr + edges_of d tr')%nat.
Proof using Type. unfold edges_of. by rewrite filter_app, length_app. Qed.

Lemma edges_of_one d i : edges_of d [i] = if edge i (cd d) then 1%nat else 0%nat.
Proof using Type. unfold edges_of, filter. cbn. by destruct (edge i (cd d)). Qed.

(** How many edges a synchroniser still waits for: those not seen yet since it
    was last set, at power-on or by its condition. *)
Lemma run_left (d : string) (tr : list Instant) (m : nat) :
  (m < rs_left (syncs (run power_on tr) d) <->
   edges_of d tr + m < rs_edges \/
   exists pre i post, tr = pre ++ i :: post /\ asserted (run power_on pre) (env i) d = true /\ edges_of d post + m < rs_edges)%nat.
Proof using Type.
  revert m. induction tr as [|i tr IH] using rev_ind; intros m.
  { unfold run. cbn. rewrite rs_init_law. split; [by left|]. intros [H|([] & j & post & [=] & _)]. exact H. }
  rewrite reset_run_snoc, step_left, edges_of_app, edges_of_one.
  destruct (asserted (run power_on tr) (env i) d) eqn:Ha.
  - split.
    + intros Hm. right. exists tr, i, []. by split_and!.
    + intros [H|(pre & j & post & _ & _ & H)]; lia.
  - assert (Hlast : forall pre j post, tr ++ [i] = pre ++ j :: post -> asserted (run power_on pre) (env j) d = true ->
      exists post', post = post' ++ [i] /\ tr = pre ++ j :: post').
    { intros pre j post H Hj. destruct post as [|k post' _] using rev_ind.
      - apply app_inj_tail in H as [<- <-]. congruence.
      - exists post'. rewrite app_comm_cons, app_assoc in H. by apply app_inj_tail in H as [-> ->]. }
    specialize (IH (if edge i (cd d) then S m else m)).
    assert (Hl : (m < (if edge i (cd d) then pred (rs_left (syncs (run power_on tr) d)) else rs_left (syncs (run power_on tr) d)) <->
      (if edge i (cd d) then S m else m) < rs_left (syncs (run power_on tr) d))%nat) by (destruct (edge i (cd d)); lia).
    rewrite Hl, IH. split; (intros [H|(pre & j & post & E & Hj & H)]; [left; destruct (edge i (cd d)); lia|right]).
    + exists pre, j, (post ++ [i]). rewrite E, edges_of_app, edges_of_one, <- app_assoc.
      split_and!; [done | done |]. destruct (edge i (cd d)); lia.
    + destruct (Hlast _ _ _ E Hj) as (post' & -> & ->). exists pre, j, post'.
      rewrite edges_of_app, edges_of_one in H. split_and!; [done | done |]. destruct (edge i (cd d)); lia.
Qed.
(** *** Letting go of the reset *)

(** An instant at which the power-on domain's condition is low and only the
    counter holds the system domain, whose clock is the same. *)
Definition quiet (i : Instant) : Prop :=
  (forall s, asserted s (env i) "por" = false) /\
  (forall s, asserted s (env i) "sys" = (0 <? por s)%Z) /\
  edge i (cd "por") = edge i (cd "sys").

(** [k] quiet edges after a restart: the synchroniser takes the first
    [rs_edges], the counter the next [2 ^ w - 1], the system domain's own
    synchroniser [rs_edges] more. *)
Definition counting (w : Z) (k : nat) (s : Resets) : Prop :=
  rs_left (syncs s "por") = (rs_edges - k)%nat /\
  por s = Z.max 0 (2 ^ w - 1 - Z.max 0 (Z.of_nat k - Z.of_nat rs_edges)) /\
  (Z.of_nat rs_edges + (2 ^ w - 1) <= Z.of_nat k ->
   Z.of_nat (rs_left (syncs s "sys")) = Z.max 0 (2 * Z.of_nat rs_edges + (2 ^ w - 1) - Z.of_nat k)).

Lemma count_down_spec w b p : 0 < w -> 0 <= p <= 2 ^ w - 1 ->
  count_down w b p = if b then 2 ^ w - 1 else Z.max 0 (p - 1).
Proof using Type.
  intros Hw Hp. unfold count_down. destruct b; [done|]. destruct (Z.eqb_spec p 0); [lia|].
  rewrite wrap_id; [lia | unfold in_width; lia].
Qed.

Lemma counting_step w k s i r : 0 < w -> counter c = Some w -> getitem (all_resets c) "por" = Some (true, r) ->
  quiet i -> counting w k s -> counting w (edges_of "por" [i] + k) (step s i).
Proof using Type.
  intros Hw Hc Hr (Hp & Hs & He) (H1 & H2 & H3). pose proof (proj1 (Z.pow_gt_1 2 w ltac:(lia)) Hw).
  assert (Hpor : in_reset s (env i) "por" = bool_decide (0 < rs_edges - k)%nat)
    by (by rewrite (in_reset_sync s _ _ r Hr), Hp, H1).
  rewrite edges_of_one. unfold counting. rewrite !step_left, Hp, Hs, <- He. cbn [step por]. rewrite Hc, Hpor.
  destruct (edge i (cd "por")); cbn [Nat.add]; [|split_and!; [done | done|]; intros Hk; rewrite (proj2 (Z.ltb_ge _ _)) by lia; auto].
  rewrite count_down_spec by lia. split_and!; [lia | case_bool_decide; lia|]. intros Hk.
  destruct (Z.ltb_spec 0 (por s)); [lia|]. specialize (H3 ltac:(lia)). lia.
Qed.

Lemma counting_run w k s tr r : 0 < w -> counter c = Some w -> getitem (all_resets c) "por" = Some (true, r) ->
  Forall quiet tr -> counting w k s -> counting w (edges_of "por" tr + k) (run s tr).
Proof using Type.
  intros Hw Hc Hr Hq. revert k s. induction Hq as [|i tr Hi _ IH]; intros k s H; [done|].
  change (i :: tr) with ([i] ++ tr). rewrite edges_of_app, (Nat.add_comm (edges_of _ [i])), <- Nat.add_assoc.
  unfold run. rewrite fold_left_app. apply IH. by apply (counting_step w k s i r).
Qed.

(** A restart: an edge of the clock while the condition is high, or power-on. *)
Lemma counting_restart w s i r : 0 < w -> counter c = Some w -> getitem (all_resets c) "por" = Some (true, r) ->
  asserted s (env i) "por" = true -> edge i (cd "por") = true -> counting w 0 (step s i).
Proof using Type.
  intros Hw Hc Hr Ha He. pose proof rs_edges_pos. pose proof (proj1 (Z.pow_gt_1 2 w ltac:(lia)) Hw).
  unfold counting. rewrite !step_left, Ha. cbn [step por]. rewrite Hc, He, (in_reset_sync s _ _ r Hr), Ha. cbn [orb count_down].
  split_and!; lia.
Qed.

Lemma counting_power_on w : 0 < w -> counter c = Some w -> counting w 0 power_on.
Proof using Type.
  intros Hw Hc. pose proof rs_edges_pos. pose proof (proj1 (Z.pow_gt_1 2 w ltac:(lia)) Hw).
  unfold counting. cbn [power_on syncs por]. rewrite Hc, rs_init_law. split_and!; lia.
Qed.
End resets.
