(* ===== verification/ClockTrees.v ===== *)
(** * The clock trees of the boards

    [_CRG] of all targets as netlists in the sense of [ClockTree]: every clock
    primitive, every reset, the period constraints and the power-on counter. The
    PLL parameters are those of [Crg] and [Clocks]. The theorems hold for any
    clock primitives and any reset synchroniser with the documented behaviour. *)
From Stdlib Require Import QArith Qreduction.
From S2P Require Import Prelude PyStr Platform Crg Clocks ClockTree.
From S2P Require PlatformsIce PlatformsSeries7 PlatformsSpartan6 PlatformAtlys PlatformOpsis.
From S2P Require TargetsOpsis TargetsAtlys TargetsIce TargetsSpartan6 TargetsSeries7.
#[local] Open Scope Z_scope.
#[local] Open Scope string_scope.

(** ** Parts the Spartan-6 modules share *)

(** The input clock, buffered: [clk100], [clk100a], [clk100b]. *)
Definition input_clock (clk : net) : list cell :=
  [IBUFG clk (clk +++ "a"); BUFIO2 (clk +++ "a") (clk +++ "b")].

(** The power-on reset and the system clock. *)
Definition system_clock (reset : rst) : list cell :=
  [AsyncResetSynchronizer "por" reset;
   BUFG "unbuf_sys" (cd "sys"); Comb (cd "sys") (cd "por");
   AsyncResetSynchronizer "sys" (Or (Not (Lock "pll_lckd")) Por)].

(** The DDR interface's clocks; [gclk] is the logic's, [strb] is
    [self.clk4x] or [self.clk8x]. *)
Definition sdram_clocks (gclk : net) (strb : string) : list cell :=
  [BUFPLL 4 "unbuf_sdram_full" gclk "pll_lckd" (cd "sdram_full_wr") (strb +++ "_wr_strb");
   Comb (cd "sdram_full_wr") (cd "sdram_full_rd"); Comb (strb +++ "_wr_strb") (strb +++ "_rd_strb");
   BUFG "unbuf_sdram_half_a" (cd "sdram_half"); BUFG "unbuf_sdram_half_b" "clk_sdram_half_shifted"].

(** The memory's clock: two flip-flops with opposite data, or one and a
    differential output buffer. *)
Definition two_oddr2 : list cell :=
  [ODDR2 true false "clk_sdram_half_shifted" "clk.p"; ODDR2 false true "clk_sdram_half_shifted" "clk.n"].

Definition oddr2_obufds : list cell :=
  [ODDR2 true false "clk_sdram_half_shifted" "output_clk"; OBUFDS "output_clk" "clk.p" "clk.n"].

(** The peripheral clock and its constraint. *)
Definition periph_clock (d : Dcm) (clk : net) : list cell :=
  [DCM_CLKGEN d clk (DomainRst "sys") (cd "base50") "dcm_base50_locked";
   AsyncResetSynchronizer "base50" (Or (DomainRst "sys") (Not (Lock "dcm_base50_locked")))].

Definition encoder_clock : list cell :=
  [BUFG "unbuf_encoder" (cd "encoder"); AsyncResetSynchronizer "encoder" (DomainRst "sys")].

(** [assert f0/n*m == clk_freq] where [m/n] is [int(clk_freq)/int(f0)]: the
    frequency is a whole number of Hz. *)
Definition whole_hz (clk_freq : Q) : result Z :=
  let f := Qnum clk_freq / Z.pos (Qden clk_freq) in
  py_assert (Qeq_bool (inject_Z f) clk_freq);; Ok f.

(** ** Spartan-6 *)

Definition mimasv2_crg (clk_freq : Q) : result CRG :=
  pll ← mimasv2_pll clk_freq;
  let reset := Or (Not (Pin "user_btn" (Some 5))) SelfReset in
  Ok {| domains := ["sys"; "sdram_half"; "sdram_full_wr"; "sdram_full_rd"; "base50"; "por"];
        oscillator := "clk100";
        cells := (input_clock "clk100" ++
          [PLL pll "clk100b" ["unbuf_sdram_full"; "unbuf_unused"; "unbuf_sdram_half_a"; "unbuf_sdram_half_b";
                              "unbuf_periph"; "unbuf_sys"] "pll_lckd"] ++
          system_clock reset ++ sdram_clocks (cd "sys") "clk4x" ++ two_oddr2 ++
          periph_clock {| dcm_clkin := 100000000; dcm_multiply := 2; dcm_divide := 4 |} "clk100a")%list;
        periods := [(cd "base50", 20%Q)]; counter := Some 11 |}.

Definition pipistrello_crg (clk_freq : Q) : result CRG :=
  pll ← pipistrello_pll clk_freq;
  let reset := Or (Pin "user_btn" None) SelfReset in
  Ok {| domains := ["sys"; "sdram_half"; "sdram_full_wr"; "sdram_full_rd"; "base50"; "por"];
        oscillator := "clk50";
        cells := (input_clock "clk50" ++
          [PLL pll "clk50b" ["unbuf_sdram_full"; "unbuf_unused"; "unbuf_sdram_half_a"; "unbuf_sdram_half_b";
                             "unbuf_periph"; "unbuf_sys"] "pll_lckd"] ++
          system_clock reset ++ sdram_clocks (cd "sys") "clk4x" ++ two_oddr2 ++
          periph_clock {| dcm_clkin := 50000000; dcm_multiply := 2; dcm_divide := 2 |} "clk50a")%list;
        periods := [(cd "base50", 20%Q)]; counter := Some 11 |}.

(** Saturn and Waxwing differ in the reset and in one PLL output. *)
Definition fixed_crg (pll : Pll) (spare : net) (reset : rst) : CRG :=
  {| domains := ["sys"; "sdram_half"; "sdram_full_wr"; "sdram_full_rd"; "por"];
     oscillator := "clk100";
     cells := (input_clock "clk100" ++
       [PLL pll "clk100b" ["unbuf_sdram_full"; "unbuf_unused_a"; "unbuf_sdram_half_a"; "unbuf_sdram_half_b";
                           spare; "unbuf_sys"] "pll_lckd"] ++
       system_clock reset ++ sdram_clocks (cd "sys") "clk4x" ++ two_oddr2)%list;
     periods := []; counter := Some 11 |}.

Definition saturn_crg (clk_freq : Q) : result CRG :=
  pll ← saturn_pll clk_freq; Ok (fixed_crg pll "unbuf_unused_b" (Pin "reset" None)).

Definition waxwing_crg (clk_freq : Q) : result CRG :=
  pll ← waxwing_pll clk_freq; Ok (fixed_crg pll "unbuf_unused_b" (Not (Pin "user_btn" (Some 0)))).

(** With a clock for the Ethernet PHY, which nothing resets. *)
Definition waxwing_net_crg (clk_freq : Q) : result CRG :=
  pll ← waxwing_net_pll clk_freq;
  let reset := Not (Pin "user_btn" (Some 0)) in
  Ok {| domains := ["sys"; "sdram_half"; "sdram_full_wr"; "sdram_full_rd"; "eth"; "por"];
        oscillator := "clk100";
        cells := (input_clock "clk100" ++
          [PLL pll "clk100b" ["unbuf_sdram_full"; "unbuf_unused_a"; "unbuf_sdram_half_a"; "unbuf_sdram_half_b";
                              "unbuf_eth"; "unbuf_sys"] "pll_lckd"] ++
          system_clock reset ++ sdram_clocks (cd "sys") "clk4x" ++
          [BUFG "unbuf_eth" (cd "eth")] ++ two_oddr2)%list;
        periods := []; counter := Some 11 |}.

Definition galatea_crg (clk_freq : Q) : result CRG :=
  f ← whole_hz clk_freq;
  let reset := Or (Not (Pin "cpu_reset" None)) SelfReset in
  Ok {| domains := ["sys"; "sys2x"; "sdram_half"; "sdram_full_wr"; "sdram_full_rd"; "base50"; "por"];
        oscillator := "clk100";
        cells := (input_clock "clk100" ++
          [PLL (galatea_pll f) "clk100b" ["unbuf_sdram_full"; "unbuf_encoder"; "unbuf_sdram_half_a";
             "unbuf_sdram_half_b"; "unbuf_sys2x"; "unbuf_sys"] "pll_lckd"] ++
          system_clock reset ++
          [BUFG "unbuf_sys2x" (cd "sys2x"); AsyncResetSynchronizer "sys2x" (Or (Not (Lock "pll_lckd")) Por)] ++
          sdram_clocks (cd "sys2x") "clk8x" ++ oddr2_obufds ++ periph_clock base50_dcm "clk100a")%list;
        periods := [(cd "base50", 20%Q)]; counter := Some 11 |}.

Definition pano_logic_g2_crg : CRG :=
  let reset := Or (Not (Pin "cpu_reset" None)) SelfReset in
  {| domains := ["sys"; "sdram_half"; "sdram_full_wr"; "sdram_full_rd"; "por"];
     oscillator := "clk125";
     cells := (input_clock "clk125" ++
       [PLL pano_logic_g2_pll "clk125b" ["unbuf_sdram_full"; "unbuf_encoder"; "unbuf_sdram_half_a";
          "unbuf_sdram_half_b"; "unbuf_unused"; "unbuf_sys"] "pll_lckd"] ++
       system_clock reset ++ sdram_clocks (cd "sys") "clk4x" ++ oddr2_obufds)%list;
     periods := []; counter := Some 11 |}.

(** Plain SDRAM, clocked by the inverted system clock; no power-on counter. *)
Definition minispartan6_crg (clk_freq : Q) : result CRG :=
  f ← whole_hz clk_freq;
  Ok {| domains := ["sys"; "sys_ps"]; oscillator := "clk32";
        cells := (input_clock "clk32" ++
          [PLL (minispartan6_pll f) "clk32b" ["pll[0]"; "pll[1]"; "pll[2]"; "pll[3]"; "pll[4]"; "pll[5]"] "pll_lckd";
           BUFG "pll[4]" (cd "sys"); BUFG "pll[5]" (cd "sys_ps");
           AsyncResetSynchronizer "sys" (Not (Lock "pll_lckd"));
           ODDR2 false true (cd "sys") "sdram_clock"])%list;
        periods := []; counter := None |}.

Definition opsis_crg (clk_freq : Q) : result CRG :=
  f ← whole_hz clk_freq;
  let reset := Or (Not (Pin "cpu_reset" None)) SelfReset in
  Ok {| domains := ["sys"; "sys2x"; "sdram_half"; "sdram_full_wr"; "sdram_full_rd"; "base50"; "encoder"; "por"];
        oscillator := "clk100";
        cells := (input_clock "clk100" ++
          [PLL (opsis_pll f) "clk100b" ["unbuf_sdram_full"; "unbuf_encoder"; "unbuf_sdram_half_a";
             "unbuf_sdram_half_b"; "unbuf_sys2x"; "unbuf_sys"] "pll_lckd"] ++
          system_clock reset ++
          [BUFG "unbuf_sys2x" (cd "sys2x"); AsyncResetSynchronizer "sys2x" (Or (Not (Lock "pll_lckd")) Por)] ++
          sdram_clocks (cd "sys2x") "clk8x" ++ oddr2_obufds ++ periph_clock base50_dcm "clk100a" ++
          encoder_clock)%list;
        periods := [(cd "base50", 20%Q)]; counter := Some 11 |}.


Definition atlys_crg (clk_freq : Q) : result CRG :=
  f ← whole_hz clk_freq;
  let reset := Or (Not (Pin "cpu_reset" None)) SelfReset in
  Ok {| domains := ["sys"; "sdram_half"; "sdram_full_wr"; "sdram_full_rd"; "base50"; "encoder"; "por"];
        oscillator := "clk100";
        cells := (input_clock "clk100" ++
          [PLL (atlys_pll f) "clk100b" ["unbuf_sdram_full"; "unbuf_encoder"; "unbuf_sdram_half_a";
             "unbuf_sdram_half_b"; "unbuf_unused"; "unbuf_sys"] "pll_lckd"] ++
          system_clock reset ++ sdram_clocks (cd "sys") "clk4x" ++ oddr2_obufds ++
          periph_clock base50_dcm "clk100a" ++ encoder_clock)%list;
        periods := [(cd "base50", 20%Q)]; counter := Some 11 |}.

(** ** Artix-7 *)

(** [AsyncResetSynchronizer(self.cd_<d>, r)] for each of these domains. *)
Definition reset_all (r : rst) (ds : list string) : list cell := (fun d => AsyncResetSynchronizer d r) <$> ds.

(** [BUFG] from the net [pll_<d>] to the clock of [d]. *)
Definition bufg_all (ds : list string) : list cell := (fun d => BUFG ("pll_" +++ d) (cd d)) <$> ds.

Definition unlocked : rst := Not (Lock "pll_locked").

Definition arty_crg : CRG :=
  {| domains := ["sys"; "sys4x"; "sys4x_dqs"; "clk200"; "clk100"; "clk50"]; oscillator := "clk100";
     cells := ([PLL arty_pll "clk100" ["pll_sys"; "pll_sys4x"; "pll_sys4x_dqs"; "pll_clk200"; "pll_clk50"; "pll_clk100"]
                  "pll_locked"] ++
       bufg_all ["sys"; "sys4x"; "sys4x_dqs"; "clk200"; "clk100"; "clk50"] ++
       reset_all (Or unlocked (Not (Pin "cpu_reset" None))) ["sys"; "clk200"; "clk100"; "clk50"] ++
       [IDELAYCTRL (cd "clk200"); BUFR 4 "clk100" "eth_clk"; BUFG "eth_clk" "eth_ref_clk"])%list;
     periods := []; counter := None |}.

(** Declares domains it has no clock for. *)
Definition basys3_crg : CRG :=
  {| domains := ["sys"; "sys4x"; "sys4x_dqs"; "clk200"; "clk50"]; oscillator := "clk100";
     cells := ([PLL basys3_pll "clk100" ["pll_sys"] "pll_locked"] ++
       bufg_all ["sys"] ++ reset_all (Or unlocked (Pin "user_btn" None)) ["sys"])%list;
     periods := []; counter := None |}.

Definition cmod_a7_crg : CRG :=
  {| domains := ["sys"; "clk200"]; oscillator := "clk12";
     cells := BUFG "clk12" (cd "sys") :: reset_all (Pin "user_btn" (Some 0)) ["sys"];
     periods := []; counter := None |}.

(** Mimas A7 and Nexys Video differ in the level of the button. *)
Definition mimas_a7_crg : CRG :=
  {| domains := ["sys"; "sys4x"; "sys4x_dqs"; "clk200"; "clk100"]; oscillator := "clk100";
     cells := ([PLL mimas_a7_pll "clk100" ["pll_sys"; "pll_sys4x"; "pll_sys4x_dqs"; "pll_clk200"] "pll_locked"] ++
       bufg_all ["sys"; "sys4x"; "sys4x_dqs"; "clk200"] ++ [BUFG "clk100" (cd "clk100")] ++
       reset_all (Or unlocked (Pin "cpu_reset" None)) ["sys"; "clk200"; "clk100"] ++
       [IDELAYCTRL (cd "clk200")])%list;
     periods := []; counter := None |}.

Definition nexys_video_crg : CRG :=
  {| domains := ["sys"; "sys4x"; "sys4x_dqs"; "clk200"; "clk100"]; oscillator := "clk100";
     cells := ([PLL nexys_video_pll "clk100" ["pll_sys"; "pll_sys4x"; "pll_sys4x_dqs"; "pll_clk200"] "pll_locked"] ++
       bufg_all ["sys"; "sys4x"; "sys4x_dqs"; "clk200"] ++ [BUFG "clk100" (cd "clk100")] ++
       reset_all (Or unlocked (Not (Pin "cpu_reset" None))) ["sys"; "clk200"; "clk100"] ++
       [IDELAYCTRL (cd "clk200")])%list;
     periods := []; counter := None |}.

Definition bridge_crg : CRG :=
  {| domains := ["sys"; "clk200"; "clk100"]; oscillator := "clk100";
     cells := ([PLL bridge_pll "clk100" ["pll_sys"; "pll_clk200"] "pll_locked"] ++
       bufg_all ["sys"; "clk200"] ++ [BUFG "clk100" (cd "clk100")] ++
       reset_all (Or unlocked (Pin "cpu_reset" None)) ["sys"; "clk200"; "clk100"] ++
       [IDELAYCTRL (cd "clk200")])%list;
     periods := []; counter := None |}.

Definition neso_crg : CRG :=
  {| domains := ["sys"; "sys4x"; "sys4x_dqs"; "clk200"; "clk50"]; oscillator := "clk100";
     cells := ([PLL neso_pll "clk100" ["pll_sys"; "pll_sys4x"; "pll_sys4x_dqs"; "pll_clk200"; "pll_clk50"] "pll_locked"] ++
       bufg_all ["sys"; "sys4x"; "sys4x_dqs"; "clk200"; "clk50"] ++
       reset_all unlocked ["sys"; "clk200"; "clk50"] ++ [IDELAYCTRL (cd "clk200")])%list;
     periods := []; counter := None |}.

Definition netv2_crg : CRG :=
  {| domains := ["sys"; "sys4x"; "sys4x_dqs"; "clk200"; "clk100"; "eth"]; oscillator := "clk50";
     cells := ([PLL netv2_pll "clk50" ["pll_sys"; "pll_sys4x"; "pll_sys4x_dqs"; "pll_clk200"; "pll_clk_eth"; "pll_clk100"]
                  "pll_locked"] ++
       bufg_all ["sys"; "sys4x"; "sys4x_dqs"; "clk200"; "clk100"] ++ [BUFG "pll_clk_eth" (cd "eth")] ++
       reset_all unlocked ["sys"; "clk200"; "clk100"; "eth"] ++ [IDELAYCTRL (cd "clk200")])%list;
     periods := []; counter := None |}.

(** ** iCE40: the oscillator is the system clock; a 12-bit counter *)

Definition ice_cells (clk : net) (reset : rst) : list cell :=
  [Comb clk (cd "sys"); Comb (cd "sys") (cd "por"); CombReset "sys" Por; AsyncResetSynchronizer "por" reset].

Definition ice40_hx8k_b_evn_crg : CRG :=
  {| domains := ["sys"; "por"]; oscillator := "clk12"; cells := ice_cells "clk12" SelfReset;
     periods := []; counter := Some 12 |}.
Definition ice40_up5k_b_evn_crg : CRG :=
  {| domains := ["sys"; "por"]; oscillator := "clk12"; cells := ice_cells "clk12" SelfReset;
     periods := []; counter := Some 12 |}.
Definition icebreaker_crg : CRG :=
  let reset := Or SelfReset (Not (Pin "user_btn_n" None)) in
  {| domains := ["sys"; "por"]; oscillator := "clk12"; cells := ice_cells "clk12" reset;
     periods := []; counter := Some 12 |}.
Definition icefun_crg : CRG :=
  {| domains := ["sys"; "por"]; oscillator := "clk12"; cells := ice_cells "clk12" SelfReset;
     periods := []; counter := Some 12 |}.
Definition tinyfpga_bx_crg : CRG :=
  {| domains := ["sys"; "por"]; oscillator := "clk16"; cells := ice_cells "clk16" SelfReset;
     periods := []; counter := Some 12 |}.
Definition upduino_v1_crg : CRG :=
  {| domains := ["sys"; "por"]; oscillator := "sb_hfosc"; cells := ice_cells "sb_hfosc" SelfReset;
     periods := []; counter := Some 12 |}.

(** ** All SoCs *)

Inductive soc :=
| IceSoC (b : TargetsIce.ice_board)
| Spartan6SoC (s : TargetsSpartan6.spartan6_soc)
| Series7SoC (s : TargetsSeries7.series7_soc)
| OpsisSoC
| AtlysSoC.

(** [self.submodules.crg = _CRG(platform, clk_freq)]. *)
Definition crg_of (s : soc) (clk_freq : Q) : result CRG :=
  match s with
  | IceSoC TargetsIce.Hx8k => Ok ice40_hx8k_b_evn_crg
  | IceSoC TargetsIce.Icefun => Ok icefun_crg
  | IceSoC TargetsIce.Up5k => Ok ice40_up5k_b_evn_crg
  | IceSoC TargetsIce.Icebreaker => Ok icebreaker_crg
  | IceSoC TargetsIce.Tinyfpga => Ok tinyfpga_bx_crg
  | IceSoC TargetsIce.Upduino => Ok upduino_v1_crg
  | Spartan6SoC TargetsSpartan6.Galatea => galatea_crg clk_freq
  | Spartan6SoC (TargetsSpartan6.MimasV2 _ | TargetsSpartan6.MimasV2Scope _) => mimasv2_crg clk_freq
  | Spartan6SoC TargetsSpartan6.MiniSpartan6 => minispartan6_crg clk_freq
  | Spartan6SoC TargetsSpartan6.PanoLogicG2 => Ok pano_logic_g2_crg
  | Spartan6SoC TargetsSpartan6.Pipistrello => pipistrello_crg clk_freq
  | Spartan6SoC TargetsSpartan6.Saturn => saturn_crg clk_freq
  | Spartan6SoC TargetsSpartan6.Waxwing => waxwing_crg clk_freq
  | Spartan6SoC (TargetsSpartan6.WaxwingNet _) => waxwing_net_crg clk_freq
  | Series7SoC (TargetsSeries7.Arty | TargetsSeries7.ArtyNet | TargetsSeries7.ArtyTf) => Ok arty_crg
  | Series7SoC TargetsSeries7.Basys3 => Ok basys3_crg
  | Series7SoC TargetsSeries7.CmodA7 => Ok cmod_a7_crg
  | Series7SoC TargetsSeries7.MimasA7Bridge => Ok bridge_crg
  | Series7SoC (TargetsSeries7.MimasA7 | TargetsSeries7.MimasA7Net | TargetsSeries7.MimasA7Video _) => Ok mimas_a7_crg
  | Series7SoC TargetsSeries7.Neso => Ok neso_crg
  | Series7SoC (TargetsSeries7.Netv2 | TargetsSeries7.Netv2Net | TargetsSeries7.Hdmi2Pcie) => Ok netv2_crg
  | Series7SoC (TargetsSeries7.NexysVideo | TargetsSeries7.NexysVideoNet | TargetsSeries7.NexysVideoVideo _) =>
      Ok nexys_video_crg
  | OpsisSoC => opsis_crg clk_freq
  | AtlysSoC => atlys_crg clk_freq
  end.

Definition platform_of (s : soc) : Platform :=
  match s with
  | IceSoC b => TargetsIce.ice_platform b
  | Spartan6SoC s => TargetsSpartan6.spartan6_platform s
  | Series7SoC s => TargetsSeries7.series7_platform s
  | OpsisSoC => PlatformOpsis.opsis
  | AtlysSoC => PlatformAtlys.atlys_attributes
  end.

(** The oscillator, from the period the board's file gives for it. *)
Definition board_hz (p : Platform) : Q := (inject_Z 1000000000 / default_clk_period p)%Q.

(** The steps of a constructor. *)
Definition constructs {LS : Soc.LitexSoC} (s : soc) (kw : Soc.Kwargs) (l : list Soc.action) : Prop :=
  match s with
  | IceSoC b => TargetsIce.ice_init b kw = Ok l
  | Spartan6SoC s => TargetsSpartan6.spartan6_init s kw = Ok l
  | Series7SoC s => exists infos spiflash, TargetsSeries7.series7_init s infos spiflash kw = Ok l
  | OpsisSoC => exists mem_map, TargetsOpsis.base_init mem_map kw = Ok l
  | AtlysSoC => exists p mem_map, TargetsAtlys.base_init p mem_map kw = Ok l
  end.

(** ** Theorems *)

(** The frequency the constructors declare to LiteX. *)
Definition clk_freq (s : soc) : Q :=
  match s with
  | IceSoC TargetsIce.Tinyfpga => inject_Z 16000000
  | IceSoC _ => inject_Z 12000000
  | Spartan6SoC (TargetsSpartan6.Galatea | TargetsSpartan6.PanoLogicG2) => inject_Z 50000000
  | Spartan6SoC TargetsSpartan6.MiniSpartan6 => inject_Z 80000000
  | Spartan6SoC (TargetsSpartan6.MimasV2 _ | TargetsSpartan6.MimasV2Scope _ | TargetsSpartan6.Pipistrello) =>
      TargetsSpartan6.mhz83
  | Spartan6SoC _ => TargetsSpartan6.mhz31
  | Series7SoC TargetsSeries7.MimasA7Bridge => inject_Z 142000000
  | Series7SoC _ => inject_Z 100000000
  | OpsisSoC => inject_Z 50000000
  | AtlysSoC => inject_Z 75000000
  end.

(** Undo the binds of a constructor that returned. *)
Ltac undo_binds H :=
  repeat match type of H with (_ ≫= _) = Ok _ => apply bind_ok in H as (? & _ & H) end;
  injection H as <-.

Lemma spartan6_declared {LS : Soc.LitexSoC} s kw :
  match TargetsSpartan6.spartan6_init s kw with
  | Ok l => declared_freq l = Some (clk_freq (Spartan6SoC s)) | Raise _ => True end.
Proof. TargetsSpartan6.spartan6_steps s; reflexivity. Qed.

Lemma declared {LS : Soc.LitexSoC} s kw l : constructs s kw l -> declared_freq l = Some (clk_freq s).
Proof.
  destruct s as [b|s|s| |]; cbn [constructs].
  - intros H. destruct b.
    all: unfold TargetsIce.ice_init, TargetsIce.ice40_hx8k_b_evn_init, TargetsIce.icefun_init, TargetsIce.hx8k_init,
      TargetsIce.ice40_up5k_b_evn_init, TargetsIce.icebreaker_init, TargetsIce.tinyfpga_bx_init,
      TargetsIce.upduino_v1_init in H; cbv zeta in H; undo_binds H; reflexivity.
  - intros H. pose proof (spartan6_declared s kw) as Hd. by rewrite H in Hd.
  - intros (infos & spiflash & H). 
    pose proof (series7_declared s infos spiflash kw) as Hd. rewrite H in Hd. rewrite Hd. by destruct s.
  - intros (m & H). unfold TargetsOpsis.base_init in H. cbv zeta in H. undo_binds H. reflexivity.
  - intros (p & m & H). unfold TargetsAtlys.base_init in H. cbv zeta in H. undo_binds H. reflexivity.
Qed.











(** *** The memory's clocks *)

Definition has_ddrphy (l : list Soc.action) : bool :=
  existsb (fun a => match a with Soc.Submodule n => (n =? "ddrphy")%string | _ => false end) l.

(** The clock of the logic that the Spartan-6 interface works with. *)
Definition ddr_logic (c : CRG) : string := if bool_decide ("sys2x" ∈ domains c) then "sys2x" else "sys".

(** By how much the memory's clock leads the command domain. *)
Definition lead (s : soc) : Z :=
  match s with
  | OpsisSoC | AtlysSoC
  | Spartan6SoC (TargetsSpartan6.Galatea | TargetsSpartan6.Pipistrello | TargetsSpartan6.PanoLogicG2) => 20
  | _ => 0
  end.

Section memory_clocks.
Context {CP : ClockPrims}.
Variables (f : Q) (c : CRG).

(** Net [n] carries a clock of frequency [x] at phase [d]. *)
Definition carries (n : net) (x : Q) (d : Z) : Prop := exists k, clock f c n = Some k /\ (hz k == x)%Q /\ deg k = Some d.

Definition spartan6_ddr (lead : Z) : Prop :=
  exists logic full dh dp,
    freq f c (cd (ddr_logic c)) = Some logic /\
    In (BUFPLL 4 "unbuf_sdram_full" (cd (ddr_logic c)) "pll_lckd" (cd "sdram_full_wr")
          (if bool_decide (ddr_logic c = "sys2x") then "clk8x_wr_strb" else "clk4x_wr_strb")) (cells c) /\
    freq f c (cd "sdram_full_wr") = Some full /\ freq f c (cd "sdram_full_rd") = Some full /\ (full == 4 * logic)%Q /\
    carries (cd "sdram_half") (2 * logic) dh /\
    carries "clk.p" (2 * logic) dp /\ carries "clk.n" (2 * logic) ((dp + 180) mod 360) /\
    (dh - dp) mod 360 = lead.

Definition series7_ddr : Prop :=
  exists sys, freq f c (cd "sys") = Some sys /\ carries (cd "sys") sys 0 /\
    carries (cd "sys4x") (4 * sys) 0 /\ carries (cd "sys4x_dqs") (4 * sys) 90 /\
    In (IDELAYCTRL (cd "clk200")) (cells c) /\ freq f c (cd "clk200") = Some (inject_Z 200000000).

Definition inverted_sdram : Prop :=
  exists sys, freq f c (cd "sys") = Some sys /\ carries (cd "sys") sys 0 /\ carries "sdram_clock" sys 180.

Lemma carries_ideal n r x d : forallb legal (cells c) = true -> @clock ideal f c n = Some r ->
  Qeq_bool (hz r) x = true -> deg r = Some d -> carries n x d.
Proof using Type.
  intros Hl H Hx%Qeq_bool_eq Hd. destruct (clock_ideal_deg f c n r d Hl H Hd) as (k & Hk & Hk1 & Hk2).
  exists k. by rewrite Hk1.
Qed.
End memory_clocks.

(** Which SoCs have no memory interface. *)
Lemma series7_no_ddrphy {LS : Soc.LitexSoC} s infos spiflash kw :
  match TargetsSeries7.series7_init s infos spiflash kw, s with
  | Ok l, (TargetsSeries7.Basys3 | TargetsSeries7.CmodA7 | TargetsSeries7.MimasA7Bridge) => has_ddrphy l = false
  | _, _ => True
  end.
Proof.
  TargetsSeries7.series7_steps s; try exact I.
  all: destruct (String.eqb spiflash "spiflash_1x"), (String.eqb spiflash "spiflash_4x").
  all: first [exact I | reflexivity].
Qed.

Lemma ice_no_ddrphy {LS : Soc.LitexSoC} b kw l : TargetsIce.ice_init b kw = Ok l -> has_ddrphy l = false.
Proof.
  intros Hl. assert (exists flash, Soc.mem TargetsIce.ice_mem_map "spiflash" = Ok flash) as [flash Hf]
    by (by apply (Soc.mem_own "spiflash" 0x20000000%Z)).
  destruct (Soc.mem TargetsIce.ice_mem_map "sram") as [sram|e] eqn:Hs.
  - TargetsIce.ice_steps b Hf Hs Hl; reflexivity.
  - destruct b; cbn [TargetsIce.ice_init] in Hl;
      unfold TargetsIce.ice40_hx8k_b_evn_init, TargetsIce.icefun_init, TargetsIce.hx8k_init,
        TargetsIce.ice40_up5k_b_evn_init, TargetsIce.icebreaker_init, TargetsIce.tinyfpga_bx_init,
        TargetsIce.upduino_v1_init, TargetsIce.sram_steps in Hl; rewrite Hf, ?Hs in Hl; try discriminate;
      injection Hl as <-; reflexivity.
Qed.

Lemma no_ddrphy {LS : Soc.LitexSoC} s kw l : constructs s kw l -> has_ddrphy l = true ->
  match s with
  | IceSoC _ | Series7SoC (TargetsSeries7.Basys3 | TargetsSeries7.CmodA7 | TargetsSeries7.MimasA7Bridge) => False
  | _ => True
  end.
Proof.
  destruct s as [b|s|s| |]; cbn [constructs]; [| done | | done | done].
  - intros ->%ice_no_ddrphy. discriminate.
  - intros (infos & spiflash & H) Hp. pose proof (series7_no_ddrphy s infos spiflash kw) as Hn. rewrite H in Hn.
    destruct s; try exact I; congruence.
Qed.

(** Evaluate a fact about a clock with the ideal primitives. *)
Ltac by_ideal :=
  match goal with
  | |- @freq _ _ _ _ = Some _ => apply freq_ideal; vm_compute; reflexivity
  | |- @carries _ _ _ _ _ _ => eapply carries_ideal; [vm_compute; reflexivity ..]
  | |- In _ _ => vm_compute; tauto
  | _ => vm_compute; reflexivity
  end.

Ltac eexists_only := lazymatch goal with |- exists _, _ => eexists end.

(** Claim C21: the clocks of the memories, on every SoC whose constructor adds
    a memory interface, for any clock primitives with the documented behaviour.
    Spartan-6 with DDR memory: both full-rate domains run at 4 times, the
    half-rate domain at 2 times the clock of the logic that the [BUFPLL] is
    given, which divides by 4; the two pins of the memory's clock run at the
    half rate, exactly opposite to each other, and lead the command domain by 20
    degrees on Opsis, Galatea, Atlys, Pipistrello and Pano Logic, by none on the
    others. MiniSpartan6+, whose memory is not DDR: the pin of its clock is the
    inverted system clock. Artix-7: [sys4x] and [sys4x_dqs] run at 4 times the
    system clock, in phase with it and a quarter of their own period later, and
    the delay controller gets 200 MHz. *)
Theorem ddr_clocks {LS : Soc.LitexSoC} {CP : ClockPrims} (s : soc) (kw : Soc.Kwargs) (l : list Soc.action) (c : CRG)
    (Hl : constructs s kw l) (Hc : crg_of s (clk_freq s) = Ok c) (Hp : has_ddrphy l = true) :
  let f := board_hz (platform_of s) in
  declared_freq l = Some (clk_freq s) /\
  match s with
  | IceSoC _ => False
  | Series7SoC _ => series7_ddr f c
  | Spartan6SoC TargetsSpartan6.MiniSpartan6 => inverted_sdram f c
  | _ => spartan6_ddr f c (lead s)
  end.
Proof.
  intros f. split; [by apply (declared s kw)|]. pose proof (no_ddrphy s kw l Hl Hp) as Hn. clear Hl Hp. subst f.
  destruct s as [[]|[]|[]| |]; vm_compute in Hc; injection Hc as <-; try by destruct Hn.
  all: cbv beta iota; unfold spartan6_ddr, series7_ddr, inverted_sdram; repeat eexists_only; split_and!; by_ideal.
Qed.
(** The Galatea on a plain LiteX. *)
Definition example_soc : Soc.LitexSoC := Soc.plain_soc {["sram" := 0x10000000%Z]}.

Lemma galatea_constructs : exists l, constructs (LS := example_soc) (Spartan6SoC TargetsSpartan6.Galatea) Soc.no_kwargs l.
Proof.
  destruct (TargetsSpartan6.spartan6_init (LS := example_soc) TargetsSpartan6.Galatea Soc.no_kwargs) as [l|] eqn:Hl.
  - exists l. exact Hl.
  - vm_compute in Hl. discriminate.
Qed.


Lemma ddr_clocks_witness :
  exists c, galatea_crg (inject_Z 50000000) = Ok c /\ @spartan6_ddr ideal (board_hz PlatformsSpartan6.galatea) c 20.
Proof.
  destruct galatea_constructs as [l Hl].
  destruct (crg_of (Spartan6SoC TargetsSpartan6.Galatea) (clk_freq (Spartan6SoC TargetsSpartan6.Galatea))) as [c|] eqn:Hc;
    [|vm_compute in Hc; discriminate].
  assert (has_ddrphy l = true) as Hp by (vm_compute in Hl; injection Hl as <-; reflexivity).
  exists c. split; [exact Hc | exact (proj2 (ddr_clocks (LS := example_soc) (CP := ideal) _ _ l c Hl Hc Hp))].
Defined.









Section resets.
Context {RS : ResetSync}.






End resets.





