(* ===== verification/SpiFlash.v ===== *)
(** * gateware/spi_flash.py: the memory-mapped SPI flash

    [SpiFlashSingle] and [SpiFlashDualQuad] are one engine: a clock divider, a
    32-bit shift register moved by one [spi_width]-bit digit per SPI clock, and
    a timeline of register loads. They differ in the lane count, in the
    command's encoding and in the direction control of the data pins. *)
From S2P Require Import Prelude Hdl.

Definition FAST_READ : Z := 0x0b.
Definition DIOFR : Z := 0xbb.
Definition QIOFR : Z := 0xeb.

(** [_format_cmd]: the 8 command bits, each on lane 0 of its own digit, the
    other lanes high. *)
Definition format_cmd (cmd spi_width : Z) : Z :=
  fold_left
    (fun c b => if negb (Z.odd (Z.shiftr cmd b))
                then Z.land c (Z.lnot (Z.shiftl 1 (b * spi_width))) else c)
    (seqZ 0 8) (2 ^ (8 * spi_width) - 1).

Definition wbone_width : Z := 32.
Definition addr_width : Z := 24.

(** What the constructors fix: the lanes, the read command as it is shifted
    out, the SPI clock divider, the dummy cycles, and whether the data pins
    have a direction ([dq]) or are [mosi]/[miso]. *)
Record config := Config {
  spi_width : Z;
  cmd_width : Z;
  read_cmd : Z;
  div : nat;
  dummy : nat;
  tristate : bool
}.

(** The pads a board file hands over: [mosi] or a [dq] bus of some width. *)
Record pads := Pads { has_mosi : bool; dq_len : Z }.

Definition SpiFlashSingle (dummy div : nat) : result config :=
  if (div <? 2)%nat then Raise ValueError
  else Ok (Config 1 8 FAST_READ div dummy false).

Definition SpiFlashDualQuad (p : pads) (dummy div : nat) : result config :=
  py_assert (2 <=? dq_len p) ;;
  '(read_cmd, cmd_width) ←
    (if dq_len p =? 4 then Ok (format_cmd QIOFR 4, 4 * 8)
     else if dq_len p =? 2 then Ok (format_cmd DIOFR 2, 2 * 8)
     else Raise KeyError) ;
  if (div <? 2)%nat then Raise ValueError
  else Ok (Config (dq_len p) cmd_width read_cmd div dummy true).

Definition SpiFlash (p : pads) (dummy div : nat) : result config :=
  if has_mosi p then SpiFlashSingle dummy div else SpiFlashDualQuad p dummy div.

(** The statements of the timeline. *)
Inductive action :=
| DqOe (b : bool)      (* dq_oe.eq(b) *)
| CsN (b : bool)       (* cs_n.eq(b) *)
| Ack (b : bool)       (* bus.ack.eq(b) *)
| SrCmd                (* sr[-cmd_width:].eq(read_cmd) *)
| SrAddr.              (* sr[-addr_width:].eq(Cat(z, bus.adr)) *)

Section Engine.
Context `{Timeline} (cfg : config).

Definition cmd_periods : nat := Z.to_nat (cmd_width cfg / spi_width cfg).
Definition addr_periods : nat := Z.to_nat (addr_width / spi_width cfg).
Definition data_periods : nat := Z.to_nat (wbone_width / spi_width cfg).

(** [seq]: durations and statements. *)
Definition timeline_seq : list (nat * list action) :=
  let oe b := if tristate cfg then [DqOe b] else [] in
  [ ((cmd_periods * div cfg)%nat, oe true ++ [CsN false; SrCmd]);
    ((addr_periods * div cfg)%nat, [SrAddr]);
    (((dummy cfg + data_periods) * div cfg)%nat, oe false);
    (1%nat, [Ack true; CsN true]);
    (div cfg, [Ack false]);
    (0%nat, []) ].

(** The loop that accumulates the timeline deltas. *)
Fixpoint accumulate (t : nat) (l : list (nat * list action)) : list (nat * list action) :=
  match l with
  | [] => []
  | (dt, a) :: l => (t, a) :: accumulate (t + dt) l
  end.

Definition tseq : list (nat * list action) := accumulate 0 timeline_seq.

Definition lastevent : nat := foldr max 0%nat (fst <$> tseq).

Record st := St {
  i : nat;
  clk : bool;
  dqi : Z;
  sr : Z;
  cs_n : bool;
  dq_oe : bool;
  ack : bool;
  tl : tl_state
}.

Record input := Input {
  cyc : bool;
  stb : bool;
  adr : Z;            (* bus.adr: a 30-bit word address *)
  dq_i : Z;           (* the level of the data pins, or of miso *)
  bitbang_en : bool;
  bitbang : Z
}.

Definition reset : st := St 0 false 0 0 true false false tl_init.

(** The clock divider and the shift of the data path. *)
Definition shift_step (x : input) (s : st) : st :=
  let rise := (i s =? div cfg / 2 - 1)%nat in
  let wrapped := (i s =? div cfg - 1)%nat in
  St (if wrapped then 0%nat else S (i s))
     (if wrapped then false else if rise then true else clk s)
     (if rise then dq_i x else dqi s)
     (if wrapped then shift_in 32 (spi_width cfg) (sr s) (dqi s) else sr s)
     (cs_n s) (dq_oe s) (ack s) (tl s).

Definition apply_action (x : input) (s : st) (a : action) : st :=
  match a with
  | DqOe b => St (i s) (clk s) (dqi s) (sr s) (cs_n s) b (ack s) (tl s)
  | CsN b => St (i s) (clk s) (dqi s) (sr s) b (dq_oe s) (ack s) (tl s)
  | Ack b => St (i s) (clk s) (dqi s) (sr s) (cs_n s) (dq_oe s) b (tl s)
  | SrCmd => St (i s) (clk s) (dqi s) (set_top 32 (cmd_width cfg) (sr s) (read_cmd cfg))
                (cs_n s) (dq_oe s) (ack s) (tl s)
  | SrAddr => St (i s) (clk s) (dqi s) (set_top 32 addr_width (sr s) (cat 2 0 (adr x)))
                 (cs_n s) (dq_oe s) (ack s) (tl s)
  end.

Definition trigger (x : input) (s : st) : bool :=
  cyc x && stb x && (i s =? div cfg - 1)%nat.

(** One clock edge: the later statements of the list win, and all of them
    read the registers of before the edge. *)
Definition next (x : input) (s : st) : st :=
  let fired := List.filter (fun e => tl_fires (tl s) (trigger x s) (fst e)) tseq in
  let s' := fold_left (apply_action x) (mjoin (snd <$> fired)) (shift_step x s) in
  St (i s') (clk s') (dqi s') (sr s') (cs_n s') (dq_oe s') (ack s')
     (tl_step lastevent (trigger x s) (tl s)).

(** [bus.dat_r]; [reverse_bytes] is the library's. *)
Definition dat_r (reverse_bytes : Z -> Z) (big : bool) (s : st) : Z :=
  if big then sr s else reverse_bytes (sr s).

Record pins := Pins { p_clk : bool; p_cs_n : bool; p_dq_o : Z; p_dq_oe : bool; p_miso_status : bool }.

Definition hw_read_logic (s : st) : pins :=
  Pins (clk s) (cs_n s) (top 32 (spi_width cfg) (sr s)) (dq_oe s) false.

(** Bit-banging: bit 0 mosi, bit 1 clock, bit 2 chip select, bit 3 direction
    (of a [dq] bus only); [dq[1]] is miso there. *)
Definition bitbang_logic (x : input) : pins :=
  let b := Z.testbit (bitbang x) in
  if tristate cfg then
    Pins (b 1) (b 2) (cat 1 (b2z (b 0)) (2 ^ (spi_width cfg - 1) - 1)) (negb (b 3))
         (b 1 && Z.testbit (dq_i x) 1)
  else Pins (b 1) (b 2) (b2z (b 0)) false (b 1 && Z.testbit (dq_i x) 0).

Definition pads_out (with_bitbang : bool) (x : input) (s : st) : pins :=
  if with_bitbang && bitbang_en x then bitbang_logic x else hw_read_logic s.

(** ** Timing *)

(** The configurations the constructors build: 1, 2 or 4 lanes, the command
    spread over the lanes so that it takes 8 SPI clocks. *)
Definition valid : Prop :=
  (spi_width cfg = 1 \/ spi_width cfg = 2 \/ spi_width cfg = 4) /\
  cmd_width cfg = 8 * spi_width cfg /\ in_width (cmd_width cfg) (read_cmd cfg) /\
  (2 <= div cfg)%nat.

(** SPI clocks of a read, and the cycles of the timeline's events. *)
Definition periods : nat := cmd_periods + addr_periods + (dummy cfg + data_periods).

Definition t_addr : nat := cmd_periods * div cfg.
Definition t_dummy : nat := (cmd_periods + addr_periods) * div cfg.
Definition t_ack : nat := periods * div cfg.

(** The statements that fire at distance [p] from the trigger. *)
Definition actions_at (p : nat) : list action :=
  let oe b := if tristate cfg then [DqOe b] else [] in
  if (p =? 0)%nat then oe true ++ [CsN false; SrCmd]
  else if (p =? t_addr)%nat then [SrAddr]
  else if (p =? t_dummy)%nat then oe false
  else if (p =? t_ack)%nat then [Ack true; CsN true]
  else if (p =? t_ack + 1)%nat then [Ack false]
  else [].

Hypothesis Hvalid : valid.

Lemma cmd_periods_eq : cmd_periods = 8%nat.
Proof using Hvalid.
  destruct Hvalid as (Hw & Hc & _). unfold cmd_periods. rewrite Hc.
  by destruct Hw as [-> | [-> | ->]].
Qed.

Lemma periods_pos : (0 < addr_periods)%nat /\ (0 < data_periods)%nat.
Proof using Hvalid.
  destruct Hvalid as (Hw & _). unfold addr_periods, data_periods.
  destruct Hw as [-> | [-> | ->]]; split; vm_compute; lia.
Qed.

Lemma lane_counts :
  spi_width cfg * Z.of_nat cmd_periods = cmd_width cfg /\
  spi_width cfg * Z.of_nat addr_periods = addr_width /\
  spi_width cfg * Z.of_nat data_periods = wbone_width.
Proof using Hvalid.
  rewrite cmd_periods_eq. destruct Hvalid as (Hw & -> & _). unfold addr_periods, data_periods.
  split; [lia|]. by destruct Hw as [-> | [-> | ->]].
Qed.

Lemma tseq_eq :
  let oe b := if tristate cfg then [DqOe b] else [] in
  tseq = [ (0%nat, oe true ++ [CsN false; SrCmd]); (t_addr, [SrAddr]); (t_dummy, oe false);
           (t_ack, [Ack true; CsN true]); ((t_ack + 1)%nat, [Ack false]);
           ((t_ack + 1 + div cfg)%nat, []) ].
Proof using.
  unfold tseq, timeline_seq, t_addr, t_dummy, t_ack, periods. simpl. repeat f_equal; lia.
Qed.

Lemma times_ordered :
  (0 < t_addr < t_dummy)%nat /\ (t_dummy < t_ack)%nat.
Proof using Hvalid.
  pose proof periods_pos. pose proof cmd_periods_eq. destruct Hvalid as (_ & _ & _ & Hd).
  unfold t_addr, t_dummy, t_ack, periods. nia.
Qed.

Lemma lastevent_eq : lastevent = (t_ack + 1 + div cfg)%nat.
Proof using Hvalid.
  pose proof times_ordered. unfold lastevent. rewrite tseq_eq. simpl. lia.
Qed.

(** [next] in terms of the position of the timeline. *)
Lemma fired_eq trig ts :
  mjoin (snd <$> List.filter (fun e => tl_fires ts trig (fst e)) tseq) =
  if (tl_pos ts =? 0)%nat && negb trig then [] else actions_at (tl_pos ts).
Proof using Hvalid.
  pose proof times_ordered. rewrite tseq_eq. cbn [List.filter fst snd].
  rewrite !tl_fires_pos. unfold actions_at. generalize (tl_pos ts) as p. intros p.
  repeat match goal with
  | |- context [(?a =? ?b)%nat] => destruct (Nat.eqb_spec a b); try lia
  end; destruct trig, (tristate cfg); done.
Qed.

Lemma next_at x s :
  next x s =
  let acts := if (tl_pos (tl s) =? 0)%nat && negb (trigger x s) then []
              else actions_at (tl_pos (tl s)) in
  let s' := fold_left (apply_action x) acts (shift_step x s) in
  St (i s') (clk s') (dqi s') (sr s') (cs_n s') (dq_oe s') (ack s')
     (tl_step lastevent (trigger x s) (tl s)).
Proof using Hvalid. unfold next. by rewrite fired_eq. Qed.

(** In the middle of an SPI clock nothing fires. *)
Lemma actions_interior k j :
  (k < periods)%nat -> (j + 1 < div cfg)%nat -> actions_at (1 + k * div cfg + j) = [].
Proof using Hvalid.
  intros Hk Hj. destruct Hvalid as (_ & _ & _ & Hd).
  assert (forall m, 1 + k * div cfg + j <> m * div cfg)%nat as Hne.
  { intros m. destruct (Nat.le_gt_cases m k); [|assert (S k * div cfg <= m * div cfg)%nat]; nia. }
  pose proof (Hne cmd_periods). pose proof (Hne (cmd_periods + addr_periods)%nat).
  pose proof (Hne periods). unfold actions_at, t_addr, t_dummy, t_ack.
  assert (1 + k * div cfg + j <> periods * div cfg + 1)%nat by nia.
  repeat match goal with
  | |- context [(?a =? ?b)%nat] => destruct (Nat.eqb_spec a b); [lia|]
  end. done.
Qed.

(** At the end of SPI clock [k]. *)
Lemma actions_boundary k :
  (k < periods)%nat ->
  actions_at (S k * div cfg) =
  if (S k =? cmd_periods)%nat then [SrAddr]
  else if (S k =? cmd_periods + addr_periods)%nat then (if tristate cfg then [DqOe false] else [])
  else if (S k =? periods)%nat then [Ack true; CsN true] else [].
Proof using Hvalid.
  intros Hk. destruct Hvalid as (_ & _ & _ & Hd).
  assert (forall m, (S k * div cfg =? m * div cfg)%nat = (S k =? m)%nat) as Heq.
  { intros m. apply eq_true_iff_eq. rewrite !Nat.eqb_eq. nia. }
  unfold actions_at, t_addr, t_dummy, t_ack. rewrite !Heq.
  assert (S k * div cfg <> periods * div cfg + 1)%nat by nia.
  assert (S k * div cfg <> 0)%nat by nia.
  repeat match goal with
  | |- context [(?a =? ?b)%nat] => destruct (Nat.eqb_spec a b); try lia; try done
  end.
Qed.

Ltac regs := cbn [i clk dqi sr cs_n dq_oe ack tl fold_left apply_action app].

(** ** A read transaction *)
Section Transaction.
Context (inp : nat -> input) (s0 : st).

(** The engine is idle at the last cycle of an SPI clock and the bus asks. *)
Record read_starts : Prop := {
  rs_idle : tl_pos (tl s0) = 0%nat;
  rs_phase : i s0 = (div cfg - 1)%nat;
  rs_trigger : cyc (inp 0%nat) && stb (inp 0%nat) = true;
  rs_ack : ack s0 = false;
  rs_sr : in_width 32 (sr s0);
  rs_dqi : in_width (spi_width cfg) (dqi s0);
  rs_pins : forall n, in_width (spi_width cfg) (dq_i (inp n))
}.

(** The pin level sampled in SPI clock [k], at its rising edge. *)
Definition lane (k : nat) : Z := dq_i (inp (k * div cfg + div cfg / 2)%nat).

Definition lanes (from n : nat) : list Z := lane <$> seq from n.

Definition sr_cmd : Z :=
  set_top 32 (cmd_width cfg) (shift_in 32 (spi_width cfg) (sr s0) (dqi s0)) (read_cmd cfg).

Definition sr_addr : Z :=
  set_top 32 addr_width
    (shift_ins 32 (spi_width cfg) sr_cmd (lanes 0 cmd_periods)) (cat 2 0 (adr (inp t_addr))).

(** The shift register during SPI clock [k]. *)
Definition sr_at (k : nat) : Z :=
  if (k <? cmd_periods)%nat then shift_ins 32 (spi_width cfg) sr_cmd (lanes 0 k)
  else shift_ins 32 (spi_width cfg) sr_addr (lanes cmd_periods (k - cmd_periods)).

(** The registers in cycle [j] of SPI clock [k]. *)
Record busy (k j : nat) (s : st) : Prop := {
  b_i : i s = j;
  b_clk : clk s = (div cfg / 2 <=? j)%nat;
  b_cs_n : cs_n s = false;
  b_ack : ack s = false;
  b_pos : tl_pos (tl s) = (1 + k * div cfg + j)%nat;
  b_sr : sr s = sr_at k;
  b_dqi : (div cfg / 2 <= j)%nat -> dqi s = lane k;
  b_oe : tristate cfg = true -> dq_oe s = (k <? cmd_periods + addr_periods)%nat
}.

Lemma lanes_S a n : lanes a (S n) = lanes a n ++ [lane (a + n)].
Proof using. unfold lanes. by rewrite seq_S, fmap_app. Qed.

Lemma sr_at_S k :
  sr_at (S k) =
  if (S k =? cmd_periods)%nat
  then set_top 32 addr_width (shift_in 32 (spi_width cfg) (sr_at k) (lane k))
         (cat 2 0 (adr (inp t_addr)))
  else shift_in 32 (spi_width cfg) (sr_at k) (lane k).
Proof using Hvalid.
  pose proof cmd_periods_eq. unfold sr_at.
  destruct (Nat.eqb_spec (S k) cmd_periods) as [E | Hne].
  - rewrite E, Nat.ltb_irrefl, Nat.sub_diag. simpl.
    replace (k <? cmd_periods)%nat with true by (symmetry; apply Nat.ltb_lt; lia).
    rewrite <- shift_ins_snoc, <- (lanes_S 0), E. done.
  - destruct (Nat.ltb_spec (S k) cmd_periods), (Nat.ltb_spec k cmd_periods); try lia;
      rewrite <- shift_ins_snoc.
    + by rewrite <- (lanes_S 0).
    + rewrite (Nat.sub_succ_l cmd_periods k) by lia. rewrite lanes_S.
      by replace (cmd_periods + (k - cmd_periods))%nat with k by lia.
Qed.

Hypothesis Hstart : read_starts.

#[local] Abbreviation at_cycle := (state_at next s0 inp).

Lemma busy_first : busy 0 0 (at_cycle 1).
Proof using Hvalid Hstart.
  destruct Hstart as [Hidle Hphase Htrig Hack _ _ _]. destruct Hvalid as (_ & _ & _ & Hd).
  pose proof cmd_periods_eq as Hc. pose proof lastevent_eq as Hl.
  assert (Hd2 : (div cfg / 2 <=? 0)%nat = false)
    by (apply Nat.leb_gt, Nat.div_str_pos; lia).
  cbn [state_at]. rewrite next_at. unfold trigger. rewrite Hidle, Htrig, Hphase, Nat.eqb_refl.
  unfold shift_step. rewrite Hphase, Nat.eqb_refl.
  cbn [andb negb Nat.eqb]. unfold actions_at. cbn [Nat.eqb].
  split; destruct (tristate cfg); regs; try done.
  all: try (unfold sr_at; by rewrite Hc).
  all: try (intros ?%Nat.leb_le; congruence).
  all: rewrite tl_pos_step, Hidle by lia; destruct (Nat.eqb_spec 0 lastevent); [lia | done].
Qed.

Lemma busy_interior k j s x :
  (k < periods)%nat -> (j + 1 < div cfg)%nat -> x = inp (1 + k * div cfg + j)%nat ->
  busy k j s -> busy k (j + 1) (next x s).
Proof using Hvalid.
  intros Hk Hj -> [Hi Hclk Hcs Hack Hpos Hsr Hdqi Hoe].
  pose proof lastevent_eq as Hl. pose proof times_ordered as Ht.
  pose proof (actions_interior k j Hk Hj) as Hact. rewrite next_at, Hpos, Hact.
  assert (1 + k * div cfg + j < t_ack)%nat by (unfold t_ack; nia).
  unfold shift_step, trigger. rewrite Hi.
  replace (j =? div cfg - 1)%nat with false by (symmetry; apply Nat.eqb_neq; lia).
  rewrite andb_false_r.
  replace (1 + k * div cfg + j =? 0)%nat with false by (symmetry; apply Nat.eqb_neq; lia).
  cbn [andb]. regs. split; regs; try done.
  - lia.
  - rewrite Hclk. 
    destruct (Nat.eqb_spec j (div cfg / 2 - 1)), (Nat.leb_spec (div cfg / 2) j),
      (Nat.leb_spec (div cfg / 2) (j + 1)); lia || done.
  - rewrite tl_pos_step, Hpos by lia.
    replace (1 + k * div cfg + j =? lastevent)%nat with false by (symmetry; apply Nat.eqb_neq; lia).
    replace (1 + k * div cfg + j =? 0)%nat with false by (symmetry; apply Nat.eqb_neq; lia). lia.
  - intros Hj'. destruct (Nat.eqb_spec j (div cfg / 2 - 1)); [|apply Hdqi; lia].
    unfold lane. do 2 f_equal. assert (0 < div cfg / 2)%nat by (apply Nat.div_str_pos; lia). lia.
Qed.

(** What the last cycle of SPI clock [k] leaves, before the timeline acts. *)
Lemma shift_step_boundary k s x :
  busy k (div cfg - 1) s ->
  shift_step x s =
  St 0 false (if (div cfg - 1 =? div cfg / 2 - 1)%nat then dq_i x else dqi s)
     (shift_in 32 (spi_width cfg) (sr_at k) (lane k)) false (dq_oe s) false (tl s).
Proof using Hvalid.
  intros [Hi Hclk Hcs Hack Hpos Hsr Hdqi Hoe]. destruct Hvalid as (_ & _ & _ & Hd).
  unfold shift_step. rewrite Hi, Nat.eqb_refl, Hcs, Hack, Hsr, Hdqi; [done|].
  pose proof (Nat.div_lt (div cfg) 2). lia.
Qed.

Lemma busy_boundary k s x :
  (S k < periods)%nat -> (S k = cmd_periods -> x = inp t_addr) ->
  busy k (div cfg - 1) s -> busy (S k) 0 (next x s).
Proof using Hvalid.
  intros Hk Hx Hb. pose proof (shift_step_boundary k s x Hb) as Hshift.
  destruct Hb as [Hi Hclk Hcs Hack Hpos Hsr Hdqi Hoe]. pose proof Hvalid as (_ & _ & _ & Hd).
  pose proof lastevent_eq as Hl. pose proof periods_pos as Hp. pose proof cmd_periods_eq as Hc.
  assert (Hpos' : tl_pos (tl s) = (S k * div cfg)%nat) by (rewrite Hpos; lia).
  assert (S k * div cfg < lastevent)%nat by (rewrite Hl; unfold t_ack; nia).
  assert (Hd2 : (div cfg / 2 <=? 0)%nat = false) by (apply Nat.leb_gt, Nat.div_str_pos; lia).
  rewrite next_at, Hpos', Hshift, actions_boundary by lia.
  replace (S k * div cfg =? 0)%nat with false by (symmetry; apply Nat.eqb_neq; nia).
  assert (Hend : tl_pos (tl_step lastevent (trigger x s) (tl s)) = (1 + S k * div cfg + 0)%nat).
  { rewrite tl_pos_step, Hpos' by lia.
    destruct (Nat.eqb_spec (S k * div cfg) lastevent), (Nat.eqb_spec (S k * div cfg) 0); lia || nia. }
  cbn [andb]. replace (S k =? periods)%nat with false by (symmetry; apply Nat.eqb_neq; lia).
  assert (Hno : (div cfg / 2 <= 0)%nat -> False) by (intros ?%Nat.leb_le; congruence).
  destruct (Nat.eqb_spec (S k) cmd_periods) as [E1 | E1].
  { split; regs; try done; [rewrite sr_at_S, E1, Nat.eqb_refl, Hx by done; done|].
    intros Ht. rewrite Hoe by done. apply eq_true_iff_eq. rewrite !Nat.ltb_lt. lia. }
  destruct (Nat.eqb_spec (S k) (cmd_periods + addr_periods)) as [E2 | E2];
    [destruct (tristate cfg) eqn:Ht|]; split; regs; try done.
  all: try (rewrite sr_at_S; by replace (S k =? cmd_periods)%nat with false by (symmetry; apply Nat.eqb_neq; lia)).
  all: intros Ht'; try (rewrite Ht' in *; discriminate);
    rewrite ?Hoe by done; try (symmetry; apply Nat.ltb_ge; lia);
    apply eq_true_iff_eq; rewrite !Nat.ltb_lt; lia.
Qed.

(** The cycle of the acknowledge, and the recovery after it. *)
Record acked (s : st) : Prop := {
  a_i : i s = 0%nat;
  a_ack : ack s = true;
  a_cs_n : cs_n s = true;
  a_sr : sr s = sr_at periods;
  a_pos : tl_pos (tl s) = (t_ack + 1)%nat
}.

Record recovering (m : nat) (s : st) : Prop := {
  r_ack : ack s = false;
  r_cs_n : cs_n s = true;
  r_pos : tl_pos (tl s) = m
}.

Lemma acked_boundary s x :
  busy (periods - 1) (div cfg - 1) s -> acked (next x s).
Proof using Hvalid.
  intros Hb. pose proof (shift_step_boundary _ s x Hb) as Hshift.
  destruct Hb as [Hi Hclk Hcs Hack Hpos Hsr Hdqi Hoe]. pose proof Hvalid as (_ & _ & _ & Hd).
  pose proof lastevent_eq as Hl. pose proof times_ordered as Ht.
  pose proof periods_pos as Hp. pose proof cmd_periods_eq as Hc.
  assert (HS : S (periods - 1) = periods) by (unfold periods; lia).
  assert (Hpos' : tl_pos (tl s) = t_ack) by (rewrite Hpos; unfold t_ack; nia).
  assert (Hsr' : sr_at periods = shift_in 32 (spi_width cfg) (sr_at (periods - 1)) (lane (periods - 1))).
  { rewrite <- HS at 1. rewrite sr_at_S.
    by replace (S (periods - 1) =? cmd_periods)%nat with false
      by (symmetry; apply Nat.eqb_neq; unfold periods; lia). }
  rewrite next_at, Hpos', Hshift. unfold actions_at.
  repeat match goal with
  | |- context [(?a =? ?b)%nat] => destruct (Nat.eqb_spec a b); try lia
  end; cbn [andb]; split; regs; try done;
    rewrite tl_pos_step, Hpos' by lia;
    destruct (Nat.eqb_spec t_ack lastevent), (Nat.eqb_spec t_ack 0); lia.
Qed.

Lemma busy_at k j :
  (k < periods)%nat -> (j < div cfg)%nat -> busy k j (at_cycle (1 + k * div cfg + j)).
Proof using Hvalid Hstart.
  pose proof Hvalid as (_ & _ & _ & Hd). revert j. induction k as [|k IHk]; intros j Hk Hj.
  all: induction j as [|j IHj]; [|rewrite Nat.add_succ_r, <- (Nat.add_1_r j); apply busy_interior; [lia | lia | done | apply IHj; lia]].
  { apply busy_first. }
  replace (1 + S k * div cfg + 0)%nat with (S (1 + k * div cfg + (div cfg - 1))) by lia.
  apply busy_boundary; [lia | | apply IHk; lia].
  intros E. f_equal. unfold t_addr. rewrite <- E. lia.
Qed.

Lemma acked_at : acked (at_cycle (t_ack + 1)).
Proof using Hvalid Hstart.
  pose proof Hvalid as (_ & _ & _ & Hd). pose proof periods_pos.
  assert (0 < periods)%nat by (unfold periods; lia).
  replace (t_ack + 1)%nat with (S (1 + (periods - 1) * div cfg + (div cfg - 1)))
    by (unfold t_ack; destruct periods as [|q]; [lia|]; rewrite Nat.sub_succ, Nat.sub_0_r; lia).
  apply acked_boundary, busy_at; lia.
Qed.

Lemma recovering_at m :
  (1 <= m <= div cfg)%nat -> recovering (t_ack + 1 + m) (at_cycle (t_ack + 1 + m)).
Proof using Hvalid Hstart.
  pose proof times_ordered. pose proof lastevent_eq. intros [Hm1 Hm2].
  induction m as [|m IH]; [lia|]. rewrite Nat.add_succ_r. cbn [state_at].
  set (s := at_cycle (t_ack + 1 + m)) in *. set (x := inp (t_ack + 1 + m)%nat).
  assert (tl_pos (tl s) = t_ack + 1 + m /\ cs_n s = true /\ (m <> 0 -> ack s = false))%nat as (Hp & Hc & Ha).
  { destruct (decide (m = 0%nat)) as [-> | Hm].
    - subst s. rewrite Nat.add_0_r. destruct acked_at. done.
    - destruct IH; [lia..|]. done. }
  rewrite next_at, Hp. unfold actions_at.
  repeat match goal with
  | |- context [(?a =? ?b)%nat] => destruct (Nat.eqb_spec a b); try lia
  end; cbn [andb]; split; unfold shift_step; regs; try done; try (apply Ha; lia);
    rewrite tl_pos_step, Hp by lia;
    destruct (Nat.eqb_spec (t_ack + 1 + m) lastevent), (Nat.eqb_spec (t_ack + 1 + m) 0); lia.
Qed.

(** After the recovery time the engine accepts the next read. *)
Lemma idle_again : recovering 0 (at_cycle (t_ack + div cfg + 2)).
Proof using Hvalid Hstart.
  pose proof times_ordered. pose proof lastevent_eq. pose proof Hvalid as (_ & _ & _ & Hd).
  destruct (recovering_at (div cfg)) as [Ha Hc Hp]; [lia|].
  replace (t_ack + div cfg + 2)%nat with (S (t_ack + 1 + div cfg)) by lia. cbn [state_at].
  rewrite next_at, Hp. unfold actions_at.
  repeat match goal with
  | |- context [(?a =? ?b)%nat] => destruct (Nat.eqb_spec a b); try lia
  end; cbn [andb]; split; unfold shift_step; regs; try done;
    rewrite tl_pos_step, Hp by lia;
    destruct (Nat.eqb_spec (t_ack + 1 + div cfg) lastevent); lia.
Qed.

Lemma width_range : 0 < spi_width cfg <= 4 /\ spi_width cfg <= cmd_width cfg <= 32.
Proof using Hvalid. destruct Hvalid as (Hw & -> & _). lia. Qed.

Lemma lanes_range a n : Forall (in_width (spi_width cfg)) (lanes a n).
Proof using Hstart. apply Forall_fmap, Forall_forall. intros. apply Hstart. Qed.

Lemma lanes_length a n : length (lanes a n) = n.
Proof using. unfold lanes. by rewrite length_fmap, length_seq. Qed.

Lemma sr_cmd_range : in_width 32 sr_cmd.
Proof using Hvalid. pose proof width_range. apply set_top_range. lia. Qed.

Lemma sr_addr_range : in_width 32 sr_addr.
Proof using. apply set_top_range. unfold addr_width. lia. Qed.

(** The digit on the pins in SPI clock [k]. *)
Lemma top_sr_at_cmd k :
  (k < cmd_periods)%nat ->
  top 32 (spi_width cfg) (sr_at k) = digit (spi_width cfg) cmd_periods (read_cmd cfg) k.
Proof using Hvalid Hstart.
  intros Hk. pose proof width_range. destruct lane_counts as (Hc & _).
  pose proof Hvalid as (_ & _ & Hr & _).
  unfold sr_at. rewrite (proj2 (Nat.ltb_lt _ _)) by done.
  rewrite shift_ins_top; rewrite ?lanes_length; try apply sr_cmd_range; try apply lanes_range; try nia.
  unfold sr_cmd, digit. rewrite set_top_eq, (wrap_id (cmd_width cfg)) by (done || lia).
  replace (32 - spi_width cfg - spi_width cfg * Z.of_nat k)
    with ((32 - cmd_width cfg) + (spi_width cfg * (Z.of_nat cmd_periods - 1 - Z.of_nat k))) by lia.
  apply slice_above; [lia | nia | apply wrap_range; lia].
Qed.

Lemma top_sr_at_addr k :
  (k < addr_periods)%nat ->
  top 32 (spi_width cfg) (sr_at (cmd_periods + k)) =
  digit (spi_width cfg) addr_periods (wrap addr_width (cat 2 0 (adr (inp t_addr)))) k.
Proof using Hvalid Hstart.
  intros Hk. pose proof width_range. destruct lane_counts as (_ & Ha & _).
  unfold sr_at. rewrite (proj2 (Nat.ltb_ge _ _)) by lia.
  replace (cmd_periods + k - cmd_periods)%nat with k by lia.
  unfold addr_width in *.
  rewrite shift_ins_top; rewrite ?lanes_length; try apply sr_addr_range; try apply lanes_range; try nia.
  unfold sr_addr, digit, addr_width. rewrite set_top_eq by lia.
  replace (32 - spi_width cfg - spi_width cfg * Z.of_nat k)
    with ((32 - 24) + (spi_width cfg * (Z.of_nat addr_periods - 1 - Z.of_nat k))) by lia.
  apply slice_above; [lia | nia | apply wrap_range; lia].
Qed.
End Transaction.
End Engine.

(** * The command format *)

Lemma format_cmd_bits cmd w bs c n :
  Forall (fun b => 0 <= b) bs -> 0 <= w -> 0 <= n ->
  Z.testbit
    (fold_left (fun c b => if negb (Z.odd (Z.shiftr cmd b))
                           then Z.land c (Z.lnot (Z.shiftl 1 (b * w))) else c) bs c) n =
  Z.testbit c n && forallb (fun b => Z.testbit cmd b || negb (n =? b * w)) bs.
Proof.
  intros Hbs Hw Hn. revert c. induction Hbs as [|b bs Hb _ IH]; intros c; simpl.
  { by rewrite andb_true_r. }
  rewrite IH, <- Z.bit0_odd, Z.shiftr_spec, Z.add_0_l by lia.
  destruct (Z.testbit cmd b); simpl; [done|].
  rewrite Z.land_spec, Z.lnot_spec, Z.shiftl_mul_pow2, Z.mul_1_l, Z.pow2_bits_eqb by lia.
  rewrite (Z.eqb_sym (b * w)). by rewrite andb_assoc.
Qed.

Lemma SpiFlash_valid p dm dv cfg :
  SpiFlash p dm dv = Ok cfg -> valid cfg /\ div cfg = dv.
Proof.
  unfold SpiFlash, SpiFlashSingle, SpiFlashDualQuad, valid. intros H.
  destruct (Nat.ltb_spec dv 2).
  { destruct (has_mosi p), (2 <=? dq_len p); try done. simpl in H.
    destruct (dq_len p =? 4), (dq_len p =? 2); done. }
  destruct (has_mosi p); [|apply bind_ok in H as (u & _ & H);
    destruct (Z.eqb_spec (dq_len p) 4) as [-> |]; [|destruct (Z.eqb_spec (dq_len p) 2) as [-> |]; [|done]]].
  all: injection H as <-; cbn; repeat split; auto; vm_compute; congruence.
Qed.

(** [_format_cmd] spreads the 8 command bits over the lanes: bit [b]
    of the command is bit [b * spi_width] of the result, every other bit below
    [8 * spi_width] is 1 and nothing is set above. *)
Theorem format_cmd_spec cmd spi_width n :
  1 <= spi_width -> 0 <= n ->
  Z.testbit (format_cmd cmd spi_width) n =
  (n <? 8 * spi_width) && (negb (n mod spi_width =? 0) || Z.testbit cmd (n / spi_width)).
Proof.
  intros Hw Hn. unfold format_cmd. rewrite format_cmd_bits by (done || lia || (repeat constructor; lia)).
  rewrite Z.sub_1_r, <- Z.ones_equiv, Z.testbit_ones_nonneg by lia.
  destruct (Z.ltb_spec n (8 * spi_width)) as [Hlt|]; [|done].
  pose proof (Z.div_mod n spi_width ltac:(lia)) as Hdm.
  pose proof (Z.mod_pos_bound n spi_width ltac:(lia)) as Hm.
  assert (0 <= n / spi_width < 8) as Hq by (split; [apply Z.div_pos | apply Z.div_lt_upper_bound]; lia).
  destruct (Z.eqb_spec (n mod spi_width) 0) as [E | E].
  - assert (Hb : forall b, (n =? b * spi_width) = (b =? n / spi_width)).
    { intros b. apply eq_true_iff_eq. rewrite !Z.eqb_eq. nia. }
    change (seqZ 0 8) with [0; 1; 2; 3; 4; 5; 6; 7]. cbn [forallb negb orb]. rewrite !Hb. generalize dependent (n / spi_width). intros q Hdm Hq Hb.
    assert (q = 0 \/ q = 1 \/ q = 2 \/ q = 3 \/ q = 4 \/ q = 5 \/ q = 6 \/ q = 7) as Hcases by lia.
    destruct_or! Hcases; subst q; cbn -[Z.testbit]; rewrite ?orb_true_r, ?orb_false_r, ?andb_true_r; done.
  - change (seqZ 0 8) with [0; 1; 2; 3; 4; 5; 6; 7]. cbn [forallb negb orb].
    assert (Hb : forall b, (n =? b * spi_width) = false).
    { intros b. apply Z.eqb_neq. intros ->. apply E. by rewrite Z.mod_mul by lia. }
    rewrite !Hb. by rewrite !orb_true_r.
Qed.

(** Claim C13: during the command and address phases of a read the flash sees
    chip select low, one rising clock edge in the middle of each SPI clock,
    stable data, and on the data pins the 8 command digits, then the digits
    of the 24-bit byte address, both most significant first. A [dq] bus is
    driven. *)
Theorem spi_flash_command_address `{Timeline} p dummy div cfg with_bitbang inp s0 k j :
  SpiFlash p dummy div = Ok cfg -> read_starts cfg inp s0 ->
  (k < cmd_periods cfg + addr_periods cfg)%nat -> (j < div)%nat ->
  let n := (1 + k * div + j)%nat in
  with_bitbang && bitbang_en (inp n) = false ->
  let pads := pads_out cfg with_bitbang (inp n) (state_at (next cfg) s0 inp n) in
  p_cs_n pads = false /\ p_clk pads = (div / 2 <=? j)%nat /\
  p_dq_o pads =
    (if (k <? cmd_periods cfg)%nat then digit (spi_width cfg) (cmd_periods cfg) (read_cmd cfg) k
     else digit (spi_width cfg) (addr_periods cfg) (wrap 24 (4 * adr (inp (t_addr cfg))))
            (k - cmd_periods cfg)) /\
  (tristate cfg = true -> p_dq_oe pads = true).
Proof.
  intros [Hv <-]%SpiFlash_valid Hs Hk Hj n Hbb. subst n.
  assert (Hkp : (k < periods cfg)%nat) by (pose proof (periods_pos cfg Hv); unfold periods; lia).
  destruct (busy_at cfg Hv inp s0 Hs k j Hkp Hj) as [_ Hclk Hcs _ _ Hsr _ Hoe].
  unfold pads_out. rewrite Hbb. unfold hw_read_logic. cbn [p_cs_n p_clk p_dq_o p_dq_oe].
  rewrite Hclk, Hcs, Hsr. repeat split; auto.
  - destruct (Nat.ltb_spec k (cmd_periods cfg)).
    + by apply top_sr_at_cmd.
    + replace k with (cmd_periods cfg + (k - cmd_periods cfg))%nat at 1 by lia.
      rewrite top_sr_at_addr by (done || lia). unfold cat, addr_width. do 2 f_equal.
      rewrite Z.shiftl_mul_pow2, Z.add_0_r by lia. lia.
  - intros Ht. rewrite Hoe by done. by apply Nat.ltb_lt.
Qed.

(** A concrete read on a single-lane flash. *)
Definition demo_cfg : config := Config 1 8 FAST_READ 2 1 false.

Definition demo_inp (n : nat) : input :=
  Input true (n <? 5)%nat 0x48d159 (Z.of_nat (n / 4) mod 2) false 0.

Definition demo_state : st := St 1 false 0 0 true false false tl_init.

Lemma demo_read_starts : read_starts demo_cfg demo_inp demo_state.
Proof.
  split; try done. intros n. unfold demo_inp, in_width. cbn [dq_i].
  apply (Z.mod_pos_bound _ 2). lia.
Qed.

(** SPI clock 4 of the command 0x0b carries a 1, SPI clock 31 the last address
    bit. *)
Lemma spi_flash_command_address_witness :
  p_dq_o (pads_out demo_cfg true (demo_inp 10) (state_at (next demo_cfg) demo_state demo_inp 10)) = 1 /\
  p_dq_o (pads_out demo_cfg true (demo_inp 63) (state_at (next demo_cfg) demo_state demo_inp 63)) = 0.
Proof.
  split.
  - pose proof (spi_flash_command_address (Pads true 1) 1 2 demo_cfg true demo_inp demo_state 4 1
      eq_refl demo_read_starts ltac:(vm_compute; lia) ltac:(lia) eq_refl) as (_ & _ & Hd & _).
    refine (eq_trans Hd _). vm_compute. reflexivity.
  - pose proof (spi_flash_command_address (Pads true 1) 1 2 demo_cfg true demo_inp demo_state 31 0
      eq_refl demo_read_starts ltac:(vm_compute; lia) ltac:(lia) eq_refl) as (_ & _ & Hd & _).
    refine (eq_trans Hd _). vm_compute. reflexivity.
Defined.

(** Claim C4: a read is acknowledged exactly once, [8 + 24/w + dummy + 32/w]
    SPI clocks after its trigger, with the last [32/w] digits sampled from
    the pins, first digit most significant, as the data word; [div + 1] cycles
    later the engine is idle again. *)
Theorem spi_flash_read_data `{Timeline} p dummy div cfg inp s0 rb :
  SpiFlash p dummy div = Ok cfg -> read_starts cfg inp s0 ->
  let state n := state_at (next cfg) s0 inp n in
  ack (state (t_ack cfg + 1)%nat) = true /\
  dat_r rb true (state (t_ack cfg + 1)%nat) =
    digits (spi_width cfg) (lanes cfg inp (periods cfg - data_periods cfg) (data_periods cfg)) /\
  (forall n, (1 <= n <= t_ack cfg + div + 2)%nat -> n <> (t_ack cfg + 1)%nat -> ack (state n) = false) /\
  recovering 0 (state (t_ack cfg + div + 2)%nat).
Proof.
  intros [Hv <-]%SpiFlash_valid Hs state. pose proof (acked_at cfg Hv inp s0 Hs) as [_ Hack _ Hsr _].
  pose proof (periods_pos cfg Hv) as Hp. pose proof (lane_counts cfg Hv) as (_ & _ & Hl).
  pose proof (width_range cfg Hv) as Hw. pose proof (cmd_periods_eq cfg Hv) as Hc.
  assert (Hr : in_width 32 (sr_at cfg inp s0 (periods cfg - data_periods cfg))).
  { unfold sr_at. rewrite (proj2 (Nat.ltb_ge _ _)) by (unfold periods; lia).
    rewrite shift_ins_eq; [apply wrap_range; lia | lia | apply sr_addr_range |].
    by apply lanes_range with s0. }
  split; [done|]. split; [|split; [|by apply idle_again]].
  - cbn [dat_r]. unfold state. rewrite Hsr. unfold sr_at.
    rewrite (proj2 (Nat.ltb_ge _ _)) by (unfold periods; lia).
    set (m := (periods cfg - data_periods cfg - cmd_periods cfg)%nat).
    replace (periods cfg - cmd_periods cfg)%nat with (m + data_periods cfg)%nat
      by (unfold m, periods; lia).
    unfold lanes at 1. rewrite seq_app, fmap_app. unfold shift_ins. rewrite fold_left_app.
    replace (cmd_periods cfg + m)%nat with (periods cfg - data_periods cfg)%nat
      by (unfold m, periods; lia).
    rewrite <- (shift_ins_full 32 (spi_width cfg) (sr_at cfg inp s0 (periods cfg - data_periods cfg)));
      [| lia | done | by apply lanes_range with s0 | by rewrite lanes_length].
    unfold sr_at, shift_ins. rewrite (proj2 (Nat.ltb_ge _ _)) by (unfold periods; lia). done.
  - intros n [Hn1 Hn2] Hne. unfold state.
    destruct (Nat.le_gt_cases n (t_ack cfg)) as [Hle | Hgt].
    + pose proof Hv as (_ & _ & _ & Hd).
      pose proof (Nat.div_mod_eq (n - 1) (div cfg)) as Hdm.
      pose proof (Nat.mod_upper_bound (n - 1) (div cfg) ltac:(lia)) as Hmod.
      replace n with (1 + (n - 1) / div cfg * div cfg + (n - 1) mod div cfg)%nat by lia.
      eapply b_ack, (busy_at cfg Hv inp s0 Hs); [|done].
      apply Nat.Div0.div_lt_upper_bound. unfold t_ack in Hle. lia.
    + destruct (decide (n = t_ack cfg + div cfg + 2)%nat) as [-> | Hn].
      { by apply (r_ack 0), idle_again. }
      replace n with (t_ack cfg + 1 + (n - t_ack cfg - 1))%nat by lia.
      eapply r_ack, recovering_at; try done; lia.
Qed.

(** The word read is what the pins showed in the last 32 SPI clocks. *)
Lemma spi_flash_read_data_witness :
  dat_r id true (state_at (next demo_cfg) demo_state demo_inp 131) = 0x66666666.
Proof.
  pose proof (spi_flash_read_data (Pads true 1) 1 2 demo_cfg demo_inp demo_state id
    eq_refl demo_read_starts) as (_ & Hd & _).
  refine (eq_trans Hd _). vm_compute. reflexivity.
Defined.

(** The quad fast read command as the flash expects it. *)
Lemma format_cmd_spec_witness :
  Z.testbit (format_cmd 0xeb 4) 8 = false /\ format_cmd 0xeb 4 = 0xfffefeff.
Proof.
  split; [|reflexivity]. rewrite (format_cmd_spec 0xeb 4 8) by lia. reflexivity.
Defined.
