(* ===== verification/EncoderBuffer.v ===== *)
(** * gateware/encoder/core.py: [EncoderBuffer]

    Two 8-word banks between the DRAM reader and the JPEG encoder. A writer
    FSM fills one bank with eight 128-bit lines, a reader FSM empties the other
    as 64 pixels of 16 bits; [write_sel] and [read_sel] decide whose turn it
    is. *)
From S2P Require Import Prelude Hdl.

Inductive wstate := W_IDLE | W_WRITE.
Inductive rstate := R_IDLE | R_READ.

#[export] Instance wstate_eq_dec : EqDecision wstate.
Proof. solve_decision. Defined.
#[export] Instance rstate_eq_dec : EqDecision rstate.
Proof. solve_decision. Defined.

Record st := St {
  mem : list Z;          (* Memory(128, 16) *)
  write_sel : bool;
  read_sel : bool;
  v_write : Z;
  write_fsm : wstate;
  h_read : Z;
  v_read : Z;
  read_fsm : rstate
}.

Record input := Input { sink_valid : bool; sink_data : Z; source_ready : bool }.

Definition reset : st := St (replicate 16 0) false true 0 W_IDLE 0 0 R_IDLE.

(** ** Write path *)

Definition sink_ready (s : st) : bool := bool_decide (write_fsm s = W_WRITE).

Definition accept (x : input) (s : st) : bool := sink_valid x && sink_ready s.

(** The port's address: [v_write] with its top bit replaced by the bank. *)
Definition bank_adr (v : Z) (sel : bool) : Z := v + 8 * b2z sel.

Definition last_line (x : input) (s : st) : bool := accept x s && (v_write s =? 7).

Definition write_next (x : input) (s : st) : wstate :=
  match write_fsm s with
  | W_IDLE => if eqb (write_sel s) (read_sel s) then W_IDLE else W_WRITE
  | W_WRITE => if last_line x s then W_IDLE else W_WRITE
  end.

Definition v_write_next (x : input) (s : st) : Z :=
  match write_fsm s with
  | W_IDLE => 0
  | W_WRITE => if accept x s && negb (v_write s =? 7) then wrap 3 (v_write s + 1) else v_write s
  end.

(** ** Read path *)

Definition source_valid (s : st) : bool := bool_decide (read_fsm s = R_READ).

Definition source_last (s : st) : bool :=
  source_valid s && (h_read s =? 7) && (v_read s =? 7).

(** [chooser(read_port.dat_r, h_read, source.data, reverse=True)]: pixel 0 is
    the top 16 bits of the line. *)
Definition pixel (word h : Z) : Z := slice word (16 * (7 - h)) 16.

Definition source_data (s : st) : Z :=
  pixel (nth (Z.to_nat (bank_adr (v_read s) (read_sel s))) (mem s) 0) (h_read s).

Definition emit (x : input) (s : st) : bool := source_valid s && source_ready x.

Definition read_swap (s : st) : bool :=
  bool_decide (read_fsm s = R_IDLE) && eqb (read_sel s) (write_sel s).

Definition read_next (x : input) (s : st) : rstate :=
  match read_fsm s with
  | R_IDLE => if read_swap s then R_READ else R_IDLE
  | R_READ => if emit x s && (h_read s =? 7) && (v_read s =? 7) then R_IDLE else R_READ
  end.

Definition h_read_next (x : input) (s : st) : Z :=
  match read_fsm s with
  | R_IDLE => 0
  | R_READ => if emit x s then (if h_read s =? 7 then 0 else wrap 3 (h_read s + 1)) else h_read s
  end.

Definition v_read_next (x : input) (s : st) : Z :=
  match read_fsm s with
  | R_IDLE => 0
  | R_READ => if emit x s && (h_read s =? 7) && negb (v_read s =? 7)
              then wrap 3 (v_read s + 1) else v_read s
  end.

Definition next (x : input) (s : st) : st :=
  St (if accept x s
      then <[Z.to_nat (bank_adr (v_write s) (write_sel s)) := sink_data x]> (mem s) else mem s)
     (if last_line x s then negb (write_sel s) else write_sel s)
     (if read_swap s then negb (read_sel s) else read_sel s)
     (v_write_next x s) (write_next x s)
     (h_read_next x s) (v_read_next x s) (read_next x s).

(** ** Specification

    What goes in is a list of lines, what comes out a list of pixels with
    their [last] flags; the buffer is a queue of blocks of 8 lines. *)

Definition accepted (x : input) (s : st) : option Z :=
  if accept x s then Some (sink_data x) else None.

Definition emitted (x : input) (s : st) : option (Z * bool) :=
  if emit x s then Some (source_data s, source_last s) else None.

(** Pixel number [n] of the stream of lines [ws]. *)
Definition stream_pixel (ws : list Z) (n : nat) : Z * bool :=
  (pixel (nth (n / 8) ws 0) (Z.of_nat (n mod 8)), (n mod 64 =? 63)%nat).

Definition pixel_stream (ws : list Z) (n : nat) : list (Z * bool) :=
  stream_pixel ws <$> seq 0 n.

(** ** The invariant

    [8 * B + w] lines have been accepted and [64 * R + 8 * v + h] pixels
    emitted: the writer is at line [w] of block [B], the reader at pixel [h]
    of line [v] of block [R]. *)

Record ctrl (B w R v h : nat) (s : st) : Prop := {
  c_w : (w < 8)%nat;
  c_v : (v < 8)%nat;
  c_h : (h < 8)%nat;
  c_write_sel : write_sel s = Nat.odd B;
  c_writer :
    match write_fsm s with
    | W_IDLE => w = 0%nat
    | W_WRITE => v_write s = Z.of_nat w
    end;
  c_reader :
    match read_fsm s with
    | R_IDLE => v = 0%nat /\ h = 0%nat /\ read_sel s = negb (Nat.odd R) /\ (R <= B <= S R)%nat
    | R_READ => v_read s = Z.of_nat v /\ h_read s = Z.of_nat h /\ read_sel s = Nat.odd R /\
                (S R <= B <= S (S R))%nat
    end;
  c_turn : write_fsm s = W_WRITE -> B = match read_fsm s with R_IDLE => R | R_READ => S R end
}.

Lemma odd_S n : Nat.odd (S n) = negb (Nat.odd n).
Proof. by rewrite Nat.odd_succ, Nat.negb_odd. Qed.

Lemma writer_step B w R v h x s :
  ctrl B w R v h s ->
  exists B' w', (8 * B' + w' = 8 * B + w + Nat.b2n (accept x s))%nat /\
    (w' < 8)%nat /\ (B <= B')%nat /\
    write_sel (next x s) = Nat.odd B' /\
    match write_next x s with W_IDLE => w' = 0%nat | W_WRITE => v_write_next x s = Z.of_nat w' end /\
    (B' = B \/ write_fsm s = W_WRITE /\ B' = S B /\ write_next x s = W_IDLE) /\
    (write_next x s = W_WRITE -> write_fsm s = W_IDLE -> eqb (write_sel s) (read_sel s) = false).
Proof.
  intros [Hw Hv Hh Hsel Hwr Hrd Hturn]. cbn [write_sel next].
  unfold write_next, v_write_next, last_line, accept, sink_ready in *.
  destruct (write_fsm s) eqn:Ef.
  - exists B, w. rewrite bool_decide_eq_false_2, andb_false_r by done. simpl.
    destruct (eqb _ _); repeat split; auto; try lia; try done.
  - rewrite bool_decide_eq_true_2, andb_true_r by done.
    destruct (sink_valid x); cbn [andb negb Nat.b2n].
    + destruct (Z.eqb_spec (v_write s) 7).
      * exists (S B), 0%nat. repeat split; auto; try lia; try done. by rewrite odd_S, Hsel.
      * exists B, (S w). rewrite wrap_id by (unfold in_width; lia).
        cbn [negb]. repeat split; auto; try lia; try done.
    + exists B, w. repeat split; auto; try lia; try done.
Qed.

Lemma reader_step B w R v h x s :
  ctrl B w R v h s ->
  exists R' v' h', (64 * R' + 8 * v' + h' = 64 * R + 8 * v + h + Nat.b2n (emit x s))%nat /\
    (v' < 8)%nat /\ (h' < 8)%nat /\ (R <= R' <= B)%nat /\
    match read_next x s with
    | R_IDLE => v' = 0%nat /\ h' = 0%nat /\ read_sel (next x s) = negb (Nat.odd R')
    | R_READ => v_read_next x s = Z.of_nat v' /\ h_read_next x s = Z.of_nat h' /\
                read_sel (next x s) = Nat.odd R'
    end /\
    match read_fsm s, read_next x s with
    | R_IDLE, R_IDLE => R' = R /\ B = R
    | R_IDLE, R_READ => R' = R /\ B = S R
    | R_READ, R_IDLE => R' = S R
    | R_READ, R_READ => R' = R
    end.
Proof.
  intros [Hw Hv Hh Hsel Hwr Hrd Hturn]. cbn [read_sel next].
  unfold read_next, v_read_next, h_read_next, read_swap, emit, source_valid in *.
  destruct (read_fsm s) eqn:Ef.
  - destruct Hrd as (-> & -> & Hrs & HB). exists R, 0%nat, 0%nat.
    rewrite bool_decide_eq_false_2, bool_decide_eq_true_2 by done. cbn [andb Nat.b2n].
    assert (eqb (read_sel s) (write_sel s) = negb (B =? R)%nat) as ->.
    { rewrite Hrs, Hsel. destruct (Nat.eqb_spec B R) as [-> |].
      - by destruct (Nat.odd R).
      - replace B with (S R) by lia. rewrite odd_S. by destruct (Nat.odd R). }
    destruct (Nat.eqb_spec B R); cbn [negb]; repeat split; auto; try lia.
    by rewrite Hrs, negb_involutive.
  - destruct Hrd as (Hvr & Hhr & Hrs & HB).
    rewrite bool_decide_eq_true_2, bool_decide_eq_false_2 by done. cbn [andb].
    rewrite Hvr, Hhr. destruct (source_ready x); cbn [andb Nat.b2n].
    + destruct (Z.eqb_spec (Z.of_nat h) 7), (Z.eqb_spec (Z.of_nat v) 7); cbn [andb negb].
      * exists (S R), 0%nat, 0%nat. repeat split; auto; try lia. by rewrite odd_S, negb_involutive.
      * exists R, (S v), 0%nat. rewrite wrap_id by (unfold in_width; lia). repeat split; auto; lia.
      * exists R, v, (S h). rewrite wrap_id by (unfold in_width; lia). repeat split; auto; lia.
      * exists R, v, (S h). rewrite wrap_id by (unfold in_width; lia). repeat split; auto; lia.
    + exists R, v, h. repeat split; auto; lia.
Qed.

Lemma ctrl_step B w R v h x s :
  ctrl B w R v h s ->
  exists B' w' R' v' h', ctrl B' w' R' v' h' (next x s) /\
    (8 * B' + w' = 8 * B + w + Nat.b2n (accept x s))%nat /\
    (64 * R' + 8 * v' + h' = 64 * R + 8 * v + h + Nat.b2n (emit x s))%nat /\ (R <= R')%nat.
Proof.
  intros Hc. destruct (writer_step _ _ _ _ _ x s Hc) as (B' & w' & HB & Hw' & HBB & Hsel' & Hwr' & Hmv & Hstart).
  destruct (reader_step _ _ _ _ _ x s Hc) as (R' & v' & h' & HR & Hv' & Hh' & HRR & Hrd' & Hmv').
  exists B', w', R', v', h'. split; [|split; [done|split; [done|lia]]].
  destruct Hc as [Hw Hv Hh Hsel Hwr Hrd Hturn].
  split; cbn [write_fsm read_fsm v_write v_read h_read next]; try done.
  - destruct (read_fsm s), (read_next x s); destruct_and?; repeat split; try done;
      destruct (write_fsm s); destruct_or?; destruct_and?; try (specialize (Hturn eq_refl)); lia || done.
  - intros Hw1. destruct (write_fsm s) eqn:Ew.
    + specialize (Hstart Hw1 eq_refl). rewrite Hsel in Hstart. destruct Hmv as [-> | (? & _)]; [|done].
      assert (Hblock : read_sel s = Nat.odd R -> B <> S (S R)).
      { intros Hrs ->. rewrite Hrs, !odd_S, negb_involutive, eqb_reflx in Hstart. done. }
      destruct (read_fsm s), (read_next x s); destruct_and?; try lia;
        specialize (Hblock ltac:(done)); lia.
    + specialize (Hturn eq_refl). destruct Hmv as [-> | (_ & _ & Hidle)]; [|congruence].
      destruct (read_fsm s), (read_next x s); destruct_and?; lia.
Qed.

(** ** The contents *)

Definition slot (b v : nat) : nat := Z.to_nat (bank_adr (Z.of_nat v) (Nat.odd b)).

Lemma slot_lt b v : (v < 8)%nat -> (slot b v < 16)%nat.
Proof. unfold slot, bank_adr, b2z. destruct (Nat.odd b); lia. Qed.

Lemma slot_inj B b v w :
  (v < 8)%nat -> (w < 8)%nat -> (b <= B <= S b)%nat -> slot B w = slot b v -> b = B /\ v = w.
Proof.
  intros Hv Hw Hb. unfold slot, bank_adr, b2z. destruct (decide (B = b)) as [-> | Hne]; [destruct (Nat.odd b); lia|].
  replace B with (S b) by lia. rewrite odd_S. destruct (Nat.odd b); cbv [negb]; lia.
Qed.

(** Every accepted line of block [R] or later is in its slot. *)
Definition holds (R : nat) (ws : list Z) (s : st) : Prop :=
  length (mem s) = 16%nat /\
  forall b v, (v < 8)%nat -> (R <= b)%nat -> (8 * b + v < length ws)%nat ->
    nth (slot b v) (mem s) 0 = nth (8 * b + v) ws 0.

Lemma nth_insert_eq (l : list Z) k x d : (k < length l)%nat -> nth k (<[k:=x]> l) d = x.
Proof. intros. by rewrite nth_lookup, list_lookup_insert_eq. Qed.

Lemma nth_insert_ne (l : list Z) k k' x d : k <> k' -> nth k (<[k':=x]> l) d = nth k l d.
Proof. intros. by rewrite !nth_lookup, list_lookup_insert_ne. Qed.

Lemma holds_step B w R v h R' ws x s :
  ctrl B w R v h s -> length ws = (8 * B + w)%nat -> (R <= R')%nat ->
  holds R ws s -> holds R' (ws ++ option_list (accepted x s)) (next x s).
Proof.
  intros [Hw Hv Hh Hsel Hwr Hrd Hturn] Hlen HR [Hl Hm]. unfold holds, accepted. cbn [mem next].
  destruct (accept x s) eqn:Ha; cbn [option_list].
  2: { rewrite app_nil_r. split; [done|]. intros. apply Hm; lia. }
  assert (write_fsm s = W_WRITE) as Ew.
  { unfold accept, sink_ready in Ha. apply andb_prop in Ha as [_ Ha%bool_decide_eq_true]. done. }
  rewrite Ew in Hwr. specialize (Hturn Ew). rewrite Hwr, Hsel. fold (slot B w).
  assert (R <= B <= S R)%nat as HB by (destruct (read_fsm s); lia).
  rewrite length_insert, length_app. split; [done|]. intros b u Hu Hb Hlt. simpl in Hlt.
  destruct (decide (8 * b + u = length ws)%nat) as [E | Hne].
  - assert (b = B /\ u = w) as [-> ->] by lia. rewrite nth_insert_eq by (rewrite Hl; by apply slot_lt).
    by rewrite app_nth2, E, Nat.sub_diag by lia.
  - rewrite app_nth1 by lia. rewrite nth_insert_ne; [apply Hm; lia|].
    intros E. symmetry in E. apply slot_inj in E as [-> ->]; lia.
Qed.

Lemma pixel_stream_S ws n : pixel_stream ws (S n) = pixel_stream ws n ++ [stream_pixel ws n].
Proof. unfold pixel_stream. by rewrite seq_S, fmap_app. Qed.

Lemma pixel_stream_app ws l n :
  (n <= 8 * length ws)%nat -> pixel_stream (ws ++ l) n = pixel_stream ws n.
Proof.
  intros Hn. apply list_fmap_ext. intros k m [-> Hk]%lookup_seq. unfold stream_pixel.
  rewrite app_nth1; [done|]. apply Nat.Div0.div_lt_upper_bound. lia.
Qed.

Lemma stream_pixel_at ws R v h :
  (v < 8)%nat -> (h < 8)%nat ->
  stream_pixel ws (64 * R + 8 * v + h) =
  (pixel (nth (8 * R + v) ws 0) (Z.of_nat h), ((h =? 7) && (v =? 7))%nat).
Proof.
  intros Hv Hh. unfold stream_pixel. set (n := (64 * R + 8 * v + h)%nat).
  assert (n / 8 = 8 * R + v)%nat as -> by (symmetry; apply (Nat.div_unique n 8 _ h); lia).
  assert (n mod 8 = h)%nat as -> by (symmetry; apply (Nat.mod_unique n 8 (8 * R + v)); lia).
  assert (n mod 64 = 8 * v + h)%nat as -> by (symmetry; apply (Nat.mod_unique n 64 R); lia).
  f_equal. apply eq_true_iff_eq. rewrite andb_true_iff, !Nat.eqb_eq. lia.
Qed.

(** Everything together, for the lines and pixels seen so far. *)
Definition inv (ws : list Z) (ps : list (Z * bool)) (s : st) : Prop :=
  exists B w R v h, ctrl B w R v h s /\ holds R ws s /\
    length ws = (8 * B + w)%nat /\ length ps = (64 * R + 8 * v + h)%nat /\
    ps = pixel_stream ws (length ps).

Lemma emit_step B w R v h ws x s :
  ctrl B w R v h s -> length ws = (8 * B + w)%nat -> holds R ws s -> emit x s = true ->
  (64 * R + 8 * v + h < 8 * length ws)%nat /\
  (source_data s, source_last s) = stream_pixel ws (64 * R + 8 * v + h).
Proof.
  intros [Hw Hv Hh Hsel Hwr Hrd Hturn] Hlen [_ Hm] He.
  unfold emit in He. apply andb_prop in He as [Hval _]. rewrite stream_pixel_at by done.
  unfold source_data, source_last. rewrite Hval.
  unfold source_valid in Hval. apply bool_decide_eq_true in Hval. rewrite Hval in Hrd.
  destruct Hrd as (-> & -> & -> & HB). split; [lia|]. f_equal.
  - f_equal. apply (Hm R v); lia.
  - cbn [andb]. apply eq_true_iff_eq. rewrite !andb_true_iff, !Nat.eqb_eq, !Z.eqb_eq. lia.
Qed.

Lemma inv_step ws ps x s :
  inv ws ps s ->
  inv (ws ++ option_list (accepted x s)) (ps ++ option_list (emitted x s)) (next x s).
Proof.
  intros (B & w & R & v & h & Hc & Hm & Hlw & Hlp & Hps).
  destruct (ctrl_step _ _ _ _ _ x s Hc) as (B' & w' & R' & v' & h' & Hc' & HB & HR & HRR).
  exists B', w', R', v', h'. split; [done|]. split; [by eapply holds_step|].
  rewrite !length_app. unfold accepted, emitted.
  split; [destruct (accept x s); simpl in *; lia|].
  split; [destruct (emit x s); simpl in *; lia|].
  assert (length ps <= 8 * length ws)%nat as Hle.
  { destruct Hc as [_ Hv Hh _ _ Hrd _]. destruct (read_fsm s); lia. }
  destruct (emit x s) eqn:He; cbn [option_list]; cycle 1.
  { rewrite app_nil_r, Nat.add_0_r, pixel_stream_app by lia. done. }
  destruct (emit_step _ _ _ _ _ _ _ _ Hc Hlw Hm He) as [Hlt Hpix].
  cbn [length]. rewrite Nat.add_1_r, pixel_stream_S, pixel_stream_app, <- Hps by lia.
  f_equal. f_equal. rewrite Hpix, <- Hlp. unfold stream_pixel. rewrite app_nth1; [done|].
  apply Nat.Div0.div_lt_upper_bound. lia.
Qed.

Lemma inv_reset : inv [] [] reset.
Proof.
  exists 0%nat, 0%nat, 0%nat, 0%nat, 0%nat.
  split; [split; simpl; try done; lia|]. split; [split; [done|simpl; lia]|]. done.
Qed.

Lemma inv_trace inp t :
  inv (events next accepted reset inp t) (events next emitted reset inp t) (state_at next reset inp t).
Proof.
  induction t as [|t IH]; [apply inv_reset|]. rewrite !events_S. by apply inv_step.
Qed.

Lemma inv_reachable s : reachable next reset s -> exists ws ps, inv ws ps s.
Proof.
  intros Hr. induction Hr as [|x s Hr (ws & ps & IH)]; [exists [], []; apply inv_reset|].
  eexists _, _. by apply inv_step.
Qed.

(** Only complete blocks are read, and at most two are in flight. *)
Lemma inv_lengths ws ps s :
  inv ws ps s -> (length ps <= 64 * (length ws / 8))%nat /\ (8 * length ws <= length ps + 128)%nat.
Proof.
  intros (B & w & R & v & h & [Hw Hv Hh _ Hwr Hrd Hturn] & _ & Hlw & Hlp & _).
  rewrite Hlw, Hlp, (Nat.mul_comm 8 B), Nat.div_add_l by lia. rewrite (Nat.div_small w) by done.
  destruct (read_fsm _), (write_fsm _); destruct_and?; try (specialize (Hturn eq_refl)); lia.
Qed.

(** A reader that waits, with no bank to turn to, has emitted every complete
    block. *)
Lemma inv_drained ws ps s :
  inv ws ps s -> read_fsm s = R_IDLE -> read_swap s = false -> length ps = (64 * (length ws / 8))%nat.
Proof.
  intros (B & w & R & v & h & [Hw Hv Hh Hsel Hwr Hrd Hturn] & _ & Hlw & Hlp & _) Er Hs.
  unfold read_swap in Hs. rewrite Er in Hrd, Hs. destruct Hrd as (-> & -> & Hrs & HB).
  rewrite bool_decide_eq_true_2, Hrs, Hsel in Hs by done. cbn [andb] in Hs.
  assert (B = R) as ->.
  { destruct (decide (B = S R)) as [->|]; [|lia]. rewrite odd_S in Hs. by destruct (Nat.odd R). }
  rewrite Hlw, Hlp, (Nat.mul_comm 8 R), Nat.div_add_l, (Nat.div_small w) by lia. lia.
Qed.

(** ** Theorems *)

(** Claim C3: for every schedule of the source and of the sink, the pixels
    handed to the encoder are, in order and with [last] on every 64th, the
    pixels of the lines accepted from the DRAM reader; only complete blocks
    are read, and at most two blocks are in flight. *)
Theorem encoder_buffer_refines_queue inp t :
  let ws := events next accepted reset inp t in
  let ps := events next emitted reset inp t in
  ps = pixel_stream ws (length ps) /\
  (length ps <= 64 * (length ws / 8))%nat /\ (8 * length ws <= length ps + 128)%nat.
Proof.
  intros ws ps. pose proof (inv_trace inp t) as Hi. split; [|exact (inv_lengths _ _ _ Hi)].
  by destruct Hi as (B & w & R & v & h & _ & _ & _ & _ & Hps).
Qed.

(** The buffer never deadlocks: from every reachable state, with data
    offered and the encoder ready for two cycles, a line is accepted or a
    pixel is emitted in one of them. *)
Theorem encoder_buffer_progress s x1 x2 :
  reachable next reset s ->
  sink_valid x1 && source_ready x1 = true -> sink_valid x2 && source_ready x2 = true ->
  accept x1 s || emit x1 s || accept x2 (next x1 s) || emit x2 (next x1 s) = true.
Proof.
  intros Hr [Hv1 Hr1]%andb_prop [Hv2 Hr2]%andb_prop.
  destruct (inv_reachable s Hr) as (ws & ps & B & w & R & v & h & Hc & _).
  destruct Hc as [_ _ _ Hsel _ Hrd _].
  unfold accept, emit, sink_ready, source_valid. rewrite Hv1, Hr1, Hv2, Hr2. cbn [write_fsm read_fsm next].
  unfold write_next, read_next, read_swap.
  destruct (write_fsm s) eqn:Ew; [|by rewrite bool_decide_eq_true_2].
  destruct (read_fsm s) eqn:Er; [|by rewrite (bool_decide_eq_true_2 (R_READ = R_READ))].
  destruct (write_sel s), (read_sel s); done.
Qed.

(** From reset the first offered line is accepted one cycle later. *)
Lemma encoder_buffer_progress_witness :
  let x := Input true 42 true in
  accept x reset || emit x reset || accept x (next x reset) || emit x (next x reset) = true.
Proof.
  exact (encoder_buffer_progress reset (Input true 42 true) (Input true 42 true)
           (reachable_reset next reset) eq_refl eq_refl).
Defined.
