(* ===== verification/EncoderDma.v ===== *)
(** * gateware/encoder/core.py: [EncoderDMAReader]

    Walks a frame of 16-bit pixels in DRAM in the order the JPEG encoder wants
    them: 8x8 blocks from left to right and from top to bottom, the lines of a
    block from top to bottom. *)
From S2P Require Import Prelude Hdl.

Inductive fsm := IDLE | READ.

#[export] Instance fsm_eq_dec : EqDecision fsm.
Proof. solve_decision. Defined.

Section Reader.
Context `{BitMath} (dw aw : Z).   (* dram_port.dw, dram_port.aw *)

Definition pixel_bits : Z := 16.
Definition burst_pixels : Z := dw / pixel_bits.
Definition alignment_bits : Z := bits_for (dw / 8) - 1.

Record st := St { base : Z; h : Z; v : Z; state : fsm }.

Record input := Input {
  base_storage : Z;      (* CSR base *)
  h_width : Z;           (* CSR h_width *)
  v_width : Z;           (* CSR v_width *)
  start : bool;          (* start.r & start.re *)
  sink_ready : bool      (* dma.sink.ready *)
}.

Definition reset : st := St 0 0 0 IDLE.

Definition h_next (s : st) : Z := wrap 16 (h s + burst_pixels).

(** What the FSM asserts in a cycle. *)
Record ctl := Ctl {
  h_clr : bool; h_clr_lsb : bool; h_inc : bool;
  v_clr : bool; v_inc : bool; v_dec7 : bool;
  sink_valid : bool; done : bool;
  next_state : fsm
}.

Definition stay (f : fsm) (valid : bool) : ctl :=
  Ctl false false false false false false valid false f.

(** Comparisons are made at the signals' 16 bits. *)
Definition last_block (x : input) (s : st) : bool := wrap 16 (h_width x - burst_pixels) <=? h s.
Definition last_row (x : input) (s : st) : bool := wrap 16 (v_width x - 1) <=? v s.

Definition control (x : input) (s : st) : ctl :=
  match state s with
  | IDLE => Ctl true false false true false false false (negb (start x))
                (if start x then READ else IDLE)
  | READ =>
      if sink_ready x then
        if slice (h_next s) 0 3 =? 0 then
          if slice (v s) 0 3 =? 7 then
            if last_block x s
            then Ctl true false false false true false true false (if last_row x s then IDLE else READ)
            else Ctl false false true false false true true false READ
          else Ctl false true false false true false true false READ
        else Ctl false false true false false false true false READ
      else stay READ true
  end.

Definition next (x : input) (s : st) : st :=
  let c := control x s in
  St (if start x then wrap 32 (base_storage x) else base s)
     (if h_clr c then 0
      else if h_clr_lsb c then cat 3 0 (slice (h s) 3 13)
      else if h_inc c then h_next s else h s)
     (if v_clr c then 0
      else if v_inc c then wrap 16 (v s + 1)
      else if v_dec7 c then wrap 16 (v s - 7) else v s)
     (next_state c).

Definition read_address (x : input) (s : st) : Z :=
  wrap (aw + alignment_bits) (v s * h_width x + h s).

Definition sink_address (x : input) (s : st) : Z :=
  wrap aw (Z.shiftr (base s) alignment_bits +
           Z.shiftr (read_address x s) (alignment_bits - log2_int (pixel_bits / 8))).

(** The requests the DMA takes. *)
Definition request (x : input) (s : st) : option Z :=
  if sink_valid (control x s) && sink_ready x then Some (sink_address x s) else None.
End Reader.

(** ** The raster *)

Section Raster.
(** [K] bursts per line of a block, [BX] blocks per row, [BY] rows. *)
Context (burst : Z) (K BX BY : nat).

Definition raster_index (by_ bx y k : nat) : nat := (((by_ * BX + bx) * 8 + y) * K + k)%nat.

Definition total : nat := (BY * BX * 8 * K)%nat.

(** Pixel column and row of request number [n]. *)
Definition raster_pos (n : nat) : Z * Z :=
  let k := (n mod K)%nat in
  let y := (n / K mod 8)%nat in
  let b := (n / K / 8)%nat in
  (8 * Z.of_nat (b mod BX) + burst * Z.of_nat k, 8 * Z.of_nat (b / BX) + Z.of_nat y).

(** One request further: the next burst of a line, the next line of a block,
    the next block of a row, the next row. *)
Lemma raster_index_burst by_ bx y k :
  S (raster_index by_ bx y k) = raster_index by_ bx y (S k).
Proof using. unfold raster_index. lia. Qed.

Lemma raster_index_line by_ bx y k :
  S k = K -> S (raster_index by_ bx y k) = raster_index by_ bx (S y) 0.
Proof using. unfold raster_index. intros <-. lia. Qed.

Lemma raster_index_block by_ bx k :
  S k = K -> S (raster_index by_ bx 7 k) = raster_index by_ (S bx) 0 0.
Proof using. unfold raster_index. intros <-. lia. Qed.

Lemma raster_index_row by_ bx k :
  S k = K -> S bx = BX -> S (raster_index by_ bx 7 k) = raster_index (S by_) 0 0 0.
Proof using. unfold raster_index. intros <- <-. lia. Qed.

Lemma raster_index_0 : raster_index 0 0 0 0 = 0%nat.
Proof using. done. Qed.

Lemma raster_index_end : raster_index BY 0 0 0 = total.
Proof using. unfold raster_index, total. lia. Qed.
Hypothesis HK : (0 < K)%nat.
Hypothesis HBX : (0 < BX)%nat.

Lemma raster_pos_index by_ bx y k :
  (k < K)%nat -> (y < 8)%nat -> (bx < BX)%nat ->
  raster_pos (raster_index by_ bx y k) =
  (8 * Z.of_nat bx + burst * Z.of_nat k, 8 * Z.of_nat by_ + Z.of_nat y).
Proof using HK HBX.
  intros Hk Hy Hbx. unfold raster_pos, raster_index.
  set (m := ((by_ * BX + bx) * 8 + y)%nat).
  assert ((m * K + k) / K = m)%nat as -> by (symmetry; apply (Nat.div_unique _ K _ k); lia).
  assert ((m * K + k) mod K = k)%nat as -> by (symmetry; apply (Nat.mod_unique _ K m); lia).
  subst m. set (b := (by_ * BX + bx)%nat).
  assert ((b * 8 + y) / 8 = b)%nat as -> by (symmetry; apply (Nat.div_unique _ 8 _ y); lia).
  assert ((b * 8 + y) mod 8 = y)%nat as -> by (symmetry; apply (Nat.mod_unique _ 8 b); lia).
  subst b.
  assert ((by_ * BX + bx) / BX = by_)%nat as -> by (symmetry; apply (Nat.div_unique _ BX _ bx); lia).
  assert ((by_ * BX + bx) mod BX = bx)%nat as -> by (symmetry; apply (Nat.mod_unique _ BX by_); lia).
  done.
Qed.

Lemma raster_index_lt by_ bx y k :
  (k < K)%nat -> (y < 8)%nat -> (bx < BX)%nat ->
  (raster_index by_ bx y k < total)%nat <-> (by_ < BY)%nat.
Proof using HK HBX.
  intros Hk Hy Hbx. unfold raster_index, total. split; intros H.
  - destruct (Nat.lt_ge_cases by_ BY) as [|Hge]; [done|]. exfalso.
    assert (BY * BX * 8 * K <= by_ * BX * 8 * K)%nat by (repeat apply Nat.mul_le_mono_r; done). lia.
  - assert (S (by_ * BX + bx) <= BY * BX)%nat by nia.
    assert (S ((by_ * BX + bx) * 8 + y) <= BY * BX * 8)%nat by lia. nia.
Qed.

Lemma raster_decompose n :
  (n < total)%nat ->
  exists by_ bx y k, n = raster_index by_ bx y k /\
    (k < K)%nat /\ (y < 8)%nat /\ (bx < BX)%nat /\ (by_ < BY)%nat.
Proof using HK HBX.
  intros Hn. exists (n / K / 8 / BX)%nat, (n / K / 8 mod BX)%nat, (n / K mod 8)%nat, (n mod K)%nat.
  assert (n = raster_index (n / K / 8 / BX) (n / K / 8 mod BX) (n / K mod 8) (n mod K)) as E.
  { unfold raster_index. pose proof (Nat.div_mod_eq n K). pose proof (Nat.div_mod_eq (n / K) 8).
    pose proof (Nat.div_mod_eq (n / K / 8) BX). lia. }
  pose proof (Nat.mod_upper_bound n K ltac:(lia)).
  pose proof (Nat.mod_upper_bound (n / K) 8 ltac:(lia)).
  pose proof (Nat.mod_upper_bound (n / K / 8) BX ltac:(lia)).
  repeat split; try done. rewrite E in Hn. by apply raster_index_lt in Hn.
Qed.

End Raster.

(** ** A frame *)

Section Frame.
Context `{BitMath} (dw aw : Z) (K : nat) (hw vw : Z).

(** The port carries a whole fraction of a block's line, the frame is at
    least one burst wide, and its size in whole blocks fits the 16-bit
    counters. *)
Record frame_ok : Prop := {
  f_burst : burst_pixels dw * Z.of_nat K = 8;
  f_hw : burst_pixels dw <= hw <= 65528;
  f_vw : 0 < vw <= 65528
}.

Definition blocks_x : nat := Z.to_nat ((hw + 7) / 8).
Definition blocks_y : nat := Z.to_nat ((vw + 7) / 8).

Definition frame_total : nat := total K blocks_x blocks_y.

Definition frame_pos (n : nat) : Z * Z := raster_pos (burst_pixels dw) K blocks_x n.

Hypothesis Hok : frame_ok.

Lemma burst_spec : (0 < K)%nat /\ 0 < burst_pixels dw.
Proof using Hok.
  destruct Hok as [Hb _ _]. assert (0 < K)%nat by (destruct K; lia).
  split; [done|]. destruct (Z.lt_ge_cases 0 (burst_pixels dw)); [done|nia].
Qed.

Lemma blocks_spec :
  (0 < blocks_x)%nat /\ (0 < blocks_y)%nat /\
  8 * (Z.of_nat blocks_x - 1) < hw <= 8 * Z.of_nat blocks_x /\
  8 * (Z.of_nat blocks_y - 1) < vw <= 8 * Z.of_nat blocks_y.
Proof using Hok.
  destruct burst_spec as [_ Hb]. destruct Hok as [_ Hh Hv]. unfold blocks_x, blocks_y.
  pose proof (Z.div_mod (hw + 7) 8 ltac:(lia)). pose proof (Z.mod_pos_bound (hw + 7) 8 ltac:(lia)).
  pose proof (Z.div_mod (vw + 7) 8 ltac:(lia)). pose proof (Z.mod_pos_bound (vw + 7) 8 ltac:(lia)).
  lia.
Qed.

(** The reader is at request [n]. *)
Definition at_request (n : nat) (s : st) : Prop :=
  if (n <? frame_total)%nat then state s = READ /\ (h s, v s) = frame_pos n
  else state s = IDLE.

Lemma low3 a b : 0 <= a -> 0 <= b < 8 -> slice (8 * a + b) 0 3 = b.
Proof using.
  intros. rewrite slice_0. unfold wrap. change (2 ^ 3) with 8.
  rewrite Z.add_comm, Z.mul_comm, Z.mod_add by lia. apply Z.mod_small. lia.
Qed.

Lemma clear_low3 a b :
  0 <= 8 * a < 65536 -> 0 <= b < 8 -> cat 3 0 (slice (8 * a + b) 3 13) = 8 * a.
Proof using.
  intros. rewrite cat_eq by (done || (unfold in_width; lia)).
  rewrite slice_div by lia. rewrite <- (Z.mod_small a (2 ^ 13)) at 2 by lia.
  replace ((8 * a + b) / 2 ^ 3) with a; [lia|]. apply (Z.div_unique _ _ _ b); lia.
Qed.

Lemma wrap16 z : 0 <= z < 65536 -> wrap 16 z = z.
Proof using. exact (wrap_id 16 z). Qed.

Lemma at_request_index by_ bx y k s :
  (k < K)%nat -> (y < 8)%nat -> (bx < blocks_x)%nat -> (by_ < blocks_y)%nat ->
  state s = READ -> h s = 8 * Z.of_nat bx + burst_pixels dw * Z.of_nat k ->
  v s = 8 * Z.of_nat by_ + Z.of_nat y ->
  at_request (raster_index K blocks_x by_ bx y k) s.
Proof using Hok.
  intros Hk Hy Hbx Hby Hst Hh Hv. destruct blocks_spec as (HX & _). destruct burst_spec as [HK _].
  unfold at_request, frame_total, frame_pos. rewrite raster_pos_index, Hh, Hv by done.
  by rewrite (proj2 (Nat.ltb_lt _ _)) by (by apply raster_index_lt).
Qed.

Lemma at_request_inv n s :
  (n < frame_total)%nat -> at_request n s ->
  exists by_ bx y k, n = raster_index K blocks_x by_ bx y k /\
    (k < K)%nat /\ (y < 8)%nat /\ (bx < blocks_x)%nat /\ (by_ < blocks_y)%nat /\
    state s = READ /\ h s = 8 * Z.of_nat bx + burst_pixels dw * Z.of_nat k /\
    v s = 8 * Z.of_nat by_ + Z.of_nat y.
Proof using Hok.
  intros Hn Hat. destruct blocks_spec as (HX & _). destruct burst_spec as [HK _].
  destruct (raster_decompose K blocks_x blocks_y HK HX n Hn)
    as (by_ & bx & y & k & -> & Hk & Hy & Hbx & Hby).
  unfold at_request in Hat. rewrite (proj2 (Nat.ltb_lt _ _) Hn) in Hat.
  destruct Hat as [Hst Hpos]. unfold frame_pos in Hpos.
  rewrite raster_pos_index in Hpos by done. injection Hpos as Hh Hv.
  exists by_, bx, y, k. done.
Qed.

(** A request that the DMA takes moves the reader to the next one. *)
Lemma next_request n x s :
  (n < frame_total)%nat -> h_width x = hw -> v_width x = vw -> sink_ready x = true ->
  at_request n s -> at_request (S n) (next dw x s).
Proof using Hok.
  intros Hn Hhw Hvw Hrdy (by_ & bx & y & k & -> & Hk & Hy & Hbx & Hby & Hst & Hh & Hv)%at_request_inv;
    [|done].
  destruct blocks_spec as (HX & HY & HbX & HbY). destruct burst_spec as [HK Hb].
  pose proof Hok as [Hburst Hhr Hvr].
  assert (burst_pixels dw * Z.of_nat k + burst_pixels dw <= 8) by nia.
  assert (Hhn : h_next dw s = 8 * Z.of_nat bx + (burst_pixels dw * Z.of_nat k + burst_pixels dw)).
  { unfold h_next. rewrite Hh, wrap16 by lia. lia. }
  assert (Hv3 : slice (v s) 0 3 = Z.of_nat y) by (rewrite Hv; apply low3; lia).
  destruct (decide (S k = K)) as [HkK | HkK].
  - assert (burst_pixels dw * Z.of_nat k + burst_pixels dw = 8) by nia.
    assert (Hl : slice (h_next dw s) 0 3 = 0).
    { rewrite Hhn. replace (8 * Z.of_nat bx + _) with (8 * (Z.of_nat bx + 1) + 0) by lia.
      apply low3; lia. }
    unfold next, control, last_block, last_row.
    rewrite Hst, Hrdy, Hl, Hv3, Hhw, Hvw, (wrap16 (hw - _)), (wrap16 (vw - 1)), Hh, Hv by lia. cbn [Z.eqb].
    destruct (Z.eqb_spec (Z.of_nat y) 7).
    + replace y with 7%nat by lia.
      destruct (Z.leb_spec (hw - burst_pixels dw) (8 * Z.of_nat bx + burst_pixels dw * Z.of_nat k)).
      * rewrite raster_index_row by lia.
        destruct (Z.leb_spec (vw - 1) (8 * Z.of_nat by_ + Z.of_nat 7)).
        -- replace (S by_) with blocks_y by lia. rewrite raster_index_end.
           unfold at_request, frame_total. by rewrite Nat.ltb_irrefl.
        -- apply at_request_index; cbn; rewrite ?wrap16; lia || done.
      * rewrite raster_index_block by lia.
        apply at_request_index; cbn -[h_next]; rewrite ?Hhn, ?wrap16; lia || done.
    + rewrite raster_index_line by lia.
      apply at_request_index; cbn -[cat slice]; rewrite ?clear_low3, ?wrap16; lia || done.
  - assert (burst_pixels dw * Z.of_nat (S k) < 8) by nia.
    assert (Hl : slice (h_next dw s) 0 3 <> 0).
    { rewrite Hhn, low3; lia. }
    unfold next, control. rewrite Hst, Hrdy.
    destruct (Z.eqb_spec (slice (h_next dw s) 0 3) 0); [done|].
    rewrite raster_index_burst. apply at_request_index; cbn -[h_next]; rewrite ?Hhn; lia || done.
Qed.

(** A stalled request does not move. *)
Lemma next_stall n x s :
  (n < frame_total)%nat -> sink_ready x = false -> at_request n s -> at_request n (next dw x s).
Proof using Hok.
  intros Hn Hrdy Hat. unfold at_request in *. rewrite (proj2 (Nat.ltb_lt _ _) Hn) in *.
  destruct Hat as [Hst Hpos]. unfold next, control. rewrite Hst, Hrdy. done.
Qed.

(** A start strobe makes the idle reader ask for the first word. *)
Lemma start_request x s :
  state s = IDLE -> start x = true ->
  at_request 0 (next dw x s) /\ base (next dw x s) = wrap 32 (base_storage x) /\ request dw aw x s = None.
Proof using Hok.
  intros Hidle Hst. destruct blocks_spec as (HX & HY & _). destruct burst_spec as [HK _].
  split; [|split].
  - enough (at_request (raster_index K blocks_x 0 0 0 0) (next dw x s)) by done.
    apply at_request_index; try done; try lia. all: unfold next, control; rewrite Hidle, Hst; cbn; lia || done.
  - unfold next. by rewrite Hst.
  - unfold request, control. by rewrite Hidle.
Qed.

(** After the last request it waits for the next strobe. *)
Lemma next_idle n x s :
  (frame_total <= n)%nat -> start x = false -> at_request n s ->
  at_request n (next dw x s) /\ request dw aw x s = None.
Proof using.
  intros Hge Hx Hat. unfold at_request in *. rewrite (proj2 (Nat.ltb_ge _ _) Hge) in *.
  unfold next, request, control. by rewrite Hat, Hx.
Qed.

Lemma base_kept x s : start x = false -> base (next dw x s) = base s.
Proof using. intros Hx. unfold next. by rewrite Hx. Qed.
End Frame.

(** ** Theorems *)

Section Run.
Context `{BitMath} (dw aw : Z) (K : nat) (hw vw : Z) (inp : nat -> input) (s0 : st).

(** The reader is idle, a start strobe comes in cycle 0 and none later, and
    the size registers do not change. *)
Record frame_starts : Prop := {
  fs_idle : state s0 = IDLE;
  fs_start : start (inp 0%nat) = true;
  fs_once : forall n, (0 < n)%nat -> start (inp n) = false;
  fs_h : forall n, h_width (inp n) = hw;
  fs_v : forall n, v_width (inp n) = vw
}.

(** How often the DMA was ready in cycles [1 .. t]. *)
Fixpoint ready_count (t : nat) : nat :=
  match t with
  | O => 0%nat
  | S t => (ready_count t + Nat.b2n (sink_ready (inp (S t))))%nat
  end.

(** The word address of request [n]. *)
Definition request_address (n : nat) : Z :=
  let '(c, r) := frame_pos dw K hw n in
  wrap aw (Z.shiftr (wrap 32 (base_storage (inp 0%nat))) (alignment_bits dw) +
           Z.shiftr (wrap (aw + alignment_bits dw) (r * hw + c))
                    (alignment_bits dw - log2_int (pixel_bits / 8))).

Lemma request_at n x s :
  (n < frame_total K hw vw)%nat -> h_width x = hw -> at_request dw K hw vw n s ->
  base s = wrap 32 (base_storage (inp 0%nat)) ->
  request dw aw x s = if sink_ready x then Some (request_address n) else None.
Proof using.
  intros Hlt Hh Hat Hbase. unfold at_request in Hat. rewrite (proj2 (Nat.ltb_lt _ _) Hlt) in Hat.
  destruct Hat as [Hs Hpos]. unfold request, request_address, sink_address, read_address.
  rewrite <- Hpos, Hbase, Hh. assert (sink_valid (control dw x s) = true) as ->; [|done].
  unfold control. rewrite Hs. by split_ifs.
Qed.

Hypothesis Hok : frame_ok dw K hw vw.
Hypothesis Hstart : frame_starts.

#[local] Abbreviation at_cycle := (state_at (next dw) s0 inp).

Definition served (t : nat) : nat := Nat.min (frame_total K hw vw) (ready_count t).

Lemma served_S t :
  served (S t) =
  if (served t <? frame_total K hw vw)%nat && sink_ready (inp (S t)) then S (served t) else served t.
Proof using.
  unfold served. cbn [ready_count]. destruct (sink_ready (inp (S t))); cbn [Nat.b2n];
    destruct (Nat.ltb_spec (frame_total K hw vw `min` ready_count t) (frame_total K hw vw)); cbn [andb]; lia.
Qed.

Lemma run_inv t :
  at_request dw K hw vw (served t) (at_cycle (S t)) /\
  base (at_cycle (S t)) = wrap 32 (base_storage (inp 0%nat)) /\
  events (next dw) (request dw aw) s0 inp (S t) = request_address <$> seq 0 (served t).
Proof using Hok Hstart.
  pose proof Hstart as [Hidle Hst Honce Hh Hv].
  induction t as [|t (Hat & Hbase & Hev)].
  - destruct (start_request dw aw K hw vw Hok (inp 0%nat) s0 Hidle Hst) as (Hat & Hb & Hreq).
    assert (served 0 = 0%nat) as -> by (unfold served; cbn; lia).
    split; [done|]. split; [done|]. rewrite events_S. cbn [state_at]. by rewrite Hreq.
  - rewrite state_at_S, events_S. set (s := at_cycle (S t)) in *. set (x := inp (S t)).
    assert (start x = false) as Hx by (apply Honce; lia).
    rewrite (base_kept _ x s Hx), Hev, served_S. fold x.
    destruct (Nat.ltb_spec (served t) (frame_total K hw vw)) as [Hlt | Hge]; cbn [andb].
    + rewrite (request_at _ x s Hlt (Hh _) Hat Hbase). destruct (sink_ready x) eqn:Hr.
      * split; [apply next_request; (done || apply Hh || apply Hv)|]. split; [done|]. by rewrite seq_S, fmap_app.
      * split; [by apply next_stall|]. split; [done|]. cbn. by rewrite app_nil_r.
    + destruct (next_idle dw aw K hw vw _ x s Hge Hx Hat) as [Hat' ->].
      split; [done|]. split; [done|]. cbn. by rewrite app_nil_r.
Qed.
End Run.

(** Claim C7: from a start strobe on, whatever the DMA's ready does, the word
    addresses requested are those of the block raster of the frame, in order,
    one per ready cycle; when the last one is taken the reader is idle and
    reports [done]. *)
Theorem dma_reader_raster `{BitMath} dw aw K hw vw inp s0 t :
  frame_ok dw K hw vw -> frame_starts hw vw inp s0 ->
  let n := Nat.min (frame_total K hw vw) (ready_count inp t) in
  let s := state_at (next dw) s0 inp (S t) in
  events (next dw) (request dw aw) s0 inp (S t) = request_address dw aw K hw inp <$> seq 0 n /\
  (done (control dw (inp (S t)) s) = true <-> n = frame_total K hw vw).
Proof.
  intros Hok Hstart n s. destruct (run_inv dw aw K hw vw inp s0 Hok Hstart t) as (Hat & _ & Hev).
  split; [exact Hev|]. fold s in Hat. unfold at_request, served in Hat. fold n in Hat.
  pose proof (fs_once _ _ _ _ Hstart (S t) ltac:(lia)) as Hst.
  destruct (Nat.ltb_spec n (frame_total K hw vw)) as [Hlt | Hge].
  - destruct Hat as [Hs _]. unfold control. rewrite Hs.
    assert (forall b : bool, b = false -> b = true <-> n = frame_total K hw vw) as Hb by (intros b ->; split; [done|lia]).
    apply Hb. by split_ifs.
  - unfold control. rewrite Hat, Hst. cbn. split; [unfold n in *; lia|done].
Qed.

(** A 16x8 frame over a 128-bit port: two blocks, one burst per line. *)
Definition demo_inp (n : nat) : input := Input 0x1000 16 8 (n =? 0)%nat (Nat.odd n).

Lemma demo_frame_ok : frame_ok 128 1 16 8.
Proof. split; vm_compute; split; congruence || done. Qed.

Lemma demo_frame_starts : frame_starts 16 8 demo_inp reset.
Proof. split; try done. intros n Hn. unfold demo_inp. cbn. by apply Nat.eqb_neq; lia. Qed.

Lemma dma_reader_raster_witness :
  events (next 128) (request 128 28) reset demo_inp 8 = [0x100; 0x102; 0x104; 0x106] /\
  done (control 128 (demo_inp 32) (state_at (next 128) reset demo_inp 32)) = true.
Proof.
  split.
  - pose proof (dma_reader_raster 128 28 1 16 8 demo_inp reset 7 demo_frame_ok demo_frame_starts) as [He _].
    refine (eq_trans He _). vm_compute. reflexivity.
  - pose proof (dma_reader_raster 128 28 1 16 8 demo_inp reset 31 demo_frame_ok demo_frame_starts) as [_ Hd].
    apply Hd. vm_compute. reflexivity.
Defined.

(** ** The frame as words of memory *)

Section Words.
Context `{BitMath} (aw b : Z) (BX BY : nat) (inp : nat -> input).

Lemma alignment_128 : alignment_bits 128 = 4 /\ log2_int (pixel_bits / 8) = 1.
Proof using.
  split; [|apply (log2_int_spec 1); lia]. unfold alignment_bits.
  destruct (bits_for_spec (128 / 8) ltac:(done)) as (Hp & Hlo & Hhi). change (128 / 8) with (2 ^ 4) in *.
  apply Z.pow_lt_mono_r_iff in Hhi; [|lia..]. apply Z.pow_le_mono_r_iff in Hlo; [|lia..]. lia.
Qed.

Lemma blocks_x_whole : blocks_x (8 * Z.of_nat BX) = BX.
Proof using.
  unfold blocks_x. replace ((8 * Z.of_nat BX + 7) / 8) with (Z.of_nat BX); [lia|].
  apply (Z.div_unique _ _ _ 7); lia.
Qed.

Hypothesis Hbase : base_storage (inp 0%nat) = 16 * b.
Hypothesis Hb : 0 <= b < 2 ^ 28.
Hypothesis Hfit : b + 8 * Z.of_nat BX * Z.of_nat BY <= 2 ^ aw.
Hypothesis Hpos : (0 < BX)%nat /\ 8 * Z.of_nat BX <= 65528.

(** The word requested for line [y] of a block. *)
Lemma request_address_index by_ bx y :
  (bx < BX)%nat -> (by_ < BY)%nat -> (y < 8)%nat ->
  request_address 128 aw 1 (8 * Z.of_nat BX) inp (raster_index 1 BX by_ bx y 0) =
  b + ((8 * Z.of_nat by_ + Z.of_nat y) * Z.of_nat BX + Z.of_nat bx).
Proof using Hbase Hb Hfit Hpos.
  intros Hbx Hby Hy. destruct alignment_128 as [Ha Hl]. destruct Hpos as [HX HXb].
  unfold request_address, frame_pos. rewrite blocks_x_whole.
  rewrite raster_pos_index, Ha, Hl, Hbase by lia. unfold burst_pixels, pixel_bits.
  change (128 / 16) with 8. rewrite !Z.shiftr_div_pow2 by lia.
  set (w := (8 * Z.of_nat by_ + Z.of_nat y) * Z.of_nat BX + Z.of_nat bx).
  assert (0 <= w < 8 * Z.of_nat BX * Z.of_nat BY) as Hw by (unfold w; nia).
  assert (0 < aw).
  { destruct (Z.lt_ge_cases 0 aw) as [|Hle]; [done|]. exfalso.
    assert (2 ^ aw <= 1) by (apply (Z.pow_le_mono_r 2 aw 0); lia). nia. }
  rewrite (wrap_id 32) by (unfold in_width; lia).
  replace ((8 * Z.of_nat by_ + Z.of_nat y) * (8 * Z.of_nat BX) + (8 * Z.of_nat bx + 8 * Z.of_nat 0))
    with (8 * w) by (unfold w; lia).
  rewrite (wrap_id (aw + 4)) by (unfold in_width; rewrite pow2_add by lia; change (2 ^ 4) with 16; lia).
  replace (16 * b / 2 ^ 4) with b by (change (2 ^ 4) with 16; rewrite Z.mul_comm, Z.div_mul; lia).
  replace (8 * w / 2 ^ (4 - 1)) with w by (change (2 ^ (4 - 1)) with 8; rewrite Z.mul_comm, Z.div_mul; lia).
  apply wrap_id. unfold in_width. lia.
Qed.

Lemma request_address_word n :
  (n < BY * BX * 8)%nat ->
  exists by_ bx y, n = raster_index 1 BX by_ bx y 0 /\ (bx < BX)%nat /\ (by_ < BY)%nat /\ (y < 8)%nat /\
    request_address 128 aw 1 (8 * Z.of_nat BX) inp n =
    b + ((8 * Z.of_nat by_ + Z.of_nat y) * Z.of_nat BX + Z.of_nat bx).
Proof using Hbase Hb Hfit Hpos.
  intros Hn. destruct (raster_decompose 1 BX BY ltac:(lia) (proj1 Hpos) n) as (by_ & bx & y & k & -> & Hk & Hy & Hbx & Hby).
  { unfold total. lia. }
  assert (k = 0%nat) as -> by lia. exists by_, bx, y. repeat (split; [done|]). by apply request_address_index.
Qed.

(** The raster requests every word of the frame exactly once. *)
Lemma raster_words :
  request_address 128 aw 1 (8 * Z.of_nat BX) inp <$> seq 0 (BY * BX * 8) ≡ₚ
  seqZ b (8 * Z.of_nat BX * Z.of_nat BY).
Proof using Hbase Hb Hfit Hpos.
  apply NoDup_Permutation.
  - apply NoDup_fmap_2_strong; [|apply NoDup_seq].
    intros n m [_ Hn]%elem_of_seq [_ Hm]%elem_of_seq E.
    destruct (request_address_word n) as (by1 & bx1 & y1 & -> & Hx1 & Hb1 & Hy1 & E1); [lia|].
    destruct (request_address_word m) as (by2 & bx2 & y2 & -> & Hx2 & Hb2 & Hy2 & E2); [lia|].
    rewrite E1, E2 in E.
    assert (8 * Z.of_nat by1 + Z.of_nat y1 = 8 * Z.of_nat by2 + Z.of_nat y2) by nia.
    assert (by1 = by2 /\ y1 = y2 /\ bx1 = bx2) as (-> & -> & ->) by nia. done.
  - apply NoDup_seqZ.
  - intros a. rewrite list_elem_of_fmap, elem_of_seqZ. split.
    + intros (n & -> & [_ Hn]%elem_of_seq).
      destruct (request_address_word n) as (by1 & bx1 & y1 & -> & Hx1 & Hb1 & Hy1 & ->); [lia|]. nia.
    + intros Ha. set (w := a - b). destruct Hpos as [HX _].
      pose proof (Z.div_mod w (Z.of_nat BX) ltac:(lia)).
      pose proof (Z.mod_pos_bound w (Z.of_nat BX) ltac:(lia)).
      set (r := w / Z.of_nat BX) in *. assert (0 <= r < 8 * Z.of_nat BY) by (subst w; nia).
      pose proof (Z.div_mod r 8 ltac:(lia)). pose proof (Z.mod_pos_bound r 8 ltac:(lia)).
      set (n := raster_index 1 BX (Z.to_nat (r / 8)) (Z.to_nat (w mod Z.of_nat BX)) (Z.to_nat (r mod 8)) 0).
      assert (n < BY * BX * 8)%nat as Hn.
      { replace (BY * BX * 8)%nat with (total 1 BX BY) by (unfold total; lia).
        apply raster_index_lt; lia. }
      exists n. split; [|apply elem_of_seq; lia].
      destruct (request_address_word n Hn) as (by1 & bx1 & y1 & En & Hx1 & Hb1 & Hy1 & ->).
      apply (f_equal (raster_pos 8 1 BX)) in En. unfold n in En.
      rewrite !raster_pos_index in En by lia. injection En as E1 E2.
      replace (8 * Z.of_nat by1 + Z.of_nat y1) with r by lia.
      replace (Z.of_nat bx1) with (w mod Z.of_nat BX) by lia. lia.
Qed.
End Words.

(** The number of words of a frame of [BX] by [BY] blocks. *)
Lemma whole_frame_total BX BY : frame_total 1 (8 * Z.of_nat BX) (8 * Z.of_nat BY) = (BY * BX * 8)%nat.
Proof.
  unfold frame_total, total, blocks_x, blocks_y.
  assert (forall m, (8 * Z.of_nat m + 7) / 8 = Z.of_nat m) as Hdiv
    by (intros m; symmetry; apply (Z.div_unique _ _ _ 7); lia).
  rewrite !Hdiv. lia.
Qed.

(** Over the 128-bit port of the SoCs, a complete frame whose sides
    are multiples of 8 and which fits the port's address space is read word by
    word: the requests are a permutation of the frame's consecutive words,
    each requested exactly once. *)
Theorem dma_reads_each_word_once `{BitMath} aw b BX BY inp s0 t :
  let hw := 8 * Z.of_nat BX in
  let vw := 8 * Z.of_nat BY in
  frame_ok 128 1 hw vw -> frame_starts hw vw inp s0 ->
  base_storage (inp 0%nat) = 16 * b -> 0 <= b < 2 ^ 28 ->
  b + 8 * Z.of_nat BX * Z.of_nat BY <= 2 ^ aw ->
  done (control 128 (inp (S t)) (state_at (next 128) s0 inp (S t))) = true ->
  events (next 128) (request 128 aw) s0 inp (S t) ≡ₚ seqZ b (8 * Z.of_nat BX * Z.of_nat BY).
Proof.
  intros hw vw Hok Hstart Hbase Hb Hfit Hdone.
  destruct (run_inv 128 aw 1 hw vw inp s0 Hok Hstart t) as (Hat & _ & ->).
  pose proof (fs_once _ _ _ _ Hstart (S t) ltac:(lia)) as Hst.
  assert (served 1 hw vw inp t = BY * BX * 8)%nat as ->.
  2: { destruct Hok as [_ Hh _]. apply raster_words; try done.
       change (burst_pixels 128) with 8 in Hh. unfold hw in Hh. lia. }
  assert (frame_total 1 hw vw = BY * BX * 8)%nat as Htot by apply whole_frame_total.
  rewrite <- Htot. unfold at_request in Hat.
  destruct (Nat.ltb_spec (served 1 hw vw inp t) (frame_total 1 hw vw)) as [Hlt | Hge];
    [|unfold served in *; lia].
  destruct Hat as [Hs _]. unfold control in Hdone. rewrite Hs in Hdone. revert Hdone.
  by split_ifs.
Qed.

Lemma dma_reads_each_word_once_witness :
  events (next 128) (request 128 28) reset demo_inp 33 ≡ₚ seqZ 0x100 16.
Proof.
  refine (dma_reads_each_word_once 28 0x100 2 1 demo_inp reset 32 demo_frame_ok demo_frame_starts
            eq_refl _ _ _); [lia | lia | vm_compute; reflexivity].
Defined.
