(* ===== verification/EncoderPipeline.v ===== *)
(** * targets/opsis/hdmi2usb.py: the path of a frame from DRAM to the JPEG encoder

    [HDMI2USBSoC] chains the DMA reader (system clock), a FIFO between two
    clock domains and the block buffer (encoder clock); the buffer feeds the
    encoder. An execution is any sequence of edges of the two clocks. The two
    library modules of the path are classes: LiteDRAM's DMA, which answers
    requests in order with the words of memory, and the asynchronous FIFO. *)
From S2P Require Import Prelude Hdl.
From S2P Require EncoderDma EncoderBuffer.

(** [LiteDRAMDMAReader]: [in_flight] are the addresses it has taken and not
    answered. [dma_env] is what the DRAM controller does in a cycle. The
    memory [dram] does not change while the frame is read. *)
Class DmaReader (dram : Z -> Z) := {
  dma : Type;
  dma_env : Type;
  dma_init : dma;
  sink_ready : dma_env -> dma -> bool;
  source : dma_env -> dma -> option Z;
  dma_next : dma_env -> option Z -> bool -> dma -> dma;
  in_flight : dma -> list Z;
  in_flight_init : in_flight dma_init = [];
  source_oldest e d w : source e d = Some w -> exists a l, in_flight d = a :: l /\ w = dram a;
  in_flight_next e (a : option Z) (taken : bool) d :
    (a <> None -> sink_ready e d = true) -> (taken = true -> source e d <> None) ->
    in_flight (dma_next e a taken d) =
    ((if taken then tail (in_flight d) else in_flight d) ++ option_list a)%list
}.

(** [stream.AsyncFIFO]: one side sees the write clock's edges, the other the
    read clock's; what is written appears on the read side some edges later. *)
Class AsyncFifo := {
  fifo : Type;
  fifo_init : fifo;
  writable : fifo -> bool;
  readable : fifo -> option Z;
  write_edge : option Z -> fifo -> fifo;
  read_edge : bool -> fifo -> fifo;
  held : fifo -> list Z;
  held_init : held fifo_init = [];
  readable_oldest f w : readable f = Some w -> exists l, held f = w :: l;
  held_write d f : (d <> None -> writable f = true) -> held (write_edge d f) = (held f ++ option_list d)%list;
  held_read (re : bool) f : (re = true -> readable f <> None) -> held (read_edge re f) = if re then tail (held f) else held f
}.

Section pipeline.
Context `{BitMath} {dram : Z -> Z} {DR : DmaReader dram} {AF : AsyncFifo} (aw : Z).

Record pipe := Pipe { reader : EncoderDma.st; port : dma; encoder_cdc : fifo; buffer : EncoderBuffer.st }.

Definition reset : pipe := Pipe EncoderDma.reset dma_init fifo_init EncoderBuffer.reset.

(** An edge of the system clock, with the reader's registers; one of the
    encoder's clock, with [encoder.sink.ready]. *)
Inductive edge :=
| Sys (base h_width v_width : Z) (start : bool) (e : dma_env)
| Enc (encoder_ready : bool).

Definition is_some {A} (o : option A) : bool := match o with Some _ => true | None => false end.

(** The reader's inputs; [dma.sink.ready] is the DMA's. *)
Definition reader_in (base hw vw : Z) (start : bool) (e : dma_env) (p : pipe) : EncoderDma.input :=
  EncoderDma.Input base hw vw start (sink_ready e (port p)).

(** [encoder_reader.source.connect(encoder_cdc.sink)]. *)
Definition word_moves (e : dma_env) (p : pipe) : bool := is_some (source e (port p)) && writable (encoder_cdc p).

(** [encoder_cdc.source.connect(encoder_buffer.sink)],
    [encoder_buffer.source.connect(encoder.sink)]. *)
Definition buffer_in (ready : bool) (p : pipe) : EncoderBuffer.input :=
  EncoderBuffer.Input (is_some (readable (encoder_cdc p))) (default 0 (readable (encoder_cdc p))) ready.

Definition sys_next (x : EncoderDma.input) (e : dma_env) (p : pipe) : pipe :=
  let taken := word_moves e p in
  Pipe (EncoderDma.next 128 x (reader p))
       (dma_next e (EncoderDma.request 128 aw x (reader p)) taken (port p))
       (write_edge (if taken then source e (port p) else None) (encoder_cdc p))
       (buffer p).

Definition enc_next (x : EncoderBuffer.input) (p : pipe) : pipe :=
  Pipe (reader p) (port p)
       (read_edge (EncoderBuffer.accept x (buffer p)) (encoder_cdc p))
       (EncoderBuffer.next x (buffer p)).

Definition step (k : edge) (p : pipe) : pipe :=
  match k with
  | Sys base hw vw start e => sys_next (reader_in base hw vw start e p) e p
  | Enc ready => enc_next (buffer_in ready p) p
  end.

(** The pixel handed to the encoder, with [last]. *)
Definition to_encoder (k : edge) (p : pipe) : option (Z * bool) :=
  match k with
  | Sys _ _ _ _ _ => None
  | Enc ready => EncoderBuffer.emitted (buffer_in ready p) (buffer p)
  end.

Fixpoint run (p : pipe) (l : list edge) : pipe :=
  match l with [] => p | k :: l => run (step k p) l end.

Fixpoint pixels (p : pipe) (l : list edge) : list (Z * bool) :=
  match l with [] => [] | k :: l => (option_list (to_encoder k p) ++ pixels (step k p) l)%list end.
End pipeline.

(** ** Theorems *)

Section frame.
Context `{BitMath} {dram : Z -> Z} {DR : DmaReader dram} {AF : AsyncFifo} (aw b : Z) (BX BY : nat).

#[local] Abbreviation hw := (8 * Z.of_nat BX).
#[local] Abbreviation vw := (8 * Z.of_nat BY).

(** Pixel of a column and a row of the frame in memory: rows one after the
    other from word [b], eight pixels in a word. *)
Definition frame_pixel (c r : nat) : Z :=
  EncoderBuffer.pixel (dram (b + Z.of_nat r * Z.of_nat BX + Z.of_nat (c / 8))) (Z.of_nat (c mod 8)).

(** Number, in the encoder's order, of pixel [x] of line [y] of a block. *)
Definition block_pixel (by_ bx y x : nat) : nat := (64 * (by_ * BX + bx) + 8 * y + x)%nat.

(** The reader's registers describe the frame. *)
Definition starts (k : edge) : Prop := exists e, k = Sys (16 * b) hw vw true e.
Definition waits (k : edge) : Prop := match k with Sys _ _ _ start _ => start = false | Enc _ => True end.
Definition reads (k : edge) : Prop :=
  match k with Sys _ h v start _ => start = false /\ h = hw /\ v = vw | Enc _ => True end.

(** Nothing is on the way any more. *)
Definition drained (p : pipe) : Prop :=
  EncoderDma.state (reader p) = EncoderDma.IDLE /\ in_flight (port p) = [] /\ held (encoder_cdc p) = [] /\
  EncoderBuffer.read_fsm (buffer p) = EncoderBuffer.R_IDLE /\ EncoderBuffer.read_swap (buffer p) = false.

Definition address (n : nat) : Z :=
  EncoderDma.request_address 128 aw 1 hw (fun _ => EncoderDma.Input (16 * b) hw vw true true) n.

(** [n] words have been requested; they are those that have reached the
    buffer, those in the FIFO and those the DMA still owes. *)
Record frame_inv (n : nat) (ws : list Z) (ps : list (Z * bool)) (p : pipe) : Prop := {
  i_n : (n <= EncoderDma.frame_total 1 hw vw)%nat;
  i_at : EncoderDma.at_request 128 1 hw vw n (reader p);
  i_base : EncoderDma.base (reader p) = wrap 32 (16 * b);
  i_words : dram <$> (address <$> seq 0 n) = (ws ++ held (encoder_cdc p) ++ (dram <$> in_flight (port p)))%list;
  i_buffer : EncoderBuffer.inv ws ps (buffer p)
}.

(** Before the start. *)
Definition quiet (p : pipe) : Prop :=
  EncoderDma.state (reader p) = EncoderDma.IDLE /\ in_flight (port p) = [] /\ held (encoder_cdc p) = [] /\
  EncoderBuffer.inv [] [] (buffer p).

(** *** The two hand-overs *)

(** From the DMA to the FIFO nothing is lost, made up or overtaken. *)
Lemma word_moves_inv e p :
  word_moves e p = true -> writable (encoder_cdc p) = true /\
  exists a l, in_flight (port p) = a :: l /\ source e (port p) = Some (dram a).
Proof using.
  unfold word_moves. intros [Hs Hw]%andb_prop. split; [done|].
  destruct (source e (port p)) as [w|] eqn:E; [|done].
  destruct (source_oldest _ _ _ E) as (a & l & Hf & ->). by exists a, l.
Qed.

Lemma sys_words x e p (Hx : EncoderDma.sink_ready x = sink_ready e (port p)) :
  (held (encoder_cdc (sys_next aw x e p)) ++ (dram <$> in_flight (port (sys_next aw x e p))))%list =
  ((held (encoder_cdc p) ++ (dram <$> in_flight (port p))) ++
   (dram <$> option_list (EncoderDma.request 128 aw x (reader p))))%list.
Proof using.
  cbn [sys_next encoder_cdc port]. destruct (word_moves e p) eqn:E.
  - destruct (word_moves_inv e p E) as (Hw & a & l & Hf & Hs).
    rewrite in_flight_next, held_write, Hf, Hs; [|done|..].
    + cbn. rewrite fmap_app, <- !app_assoc. done.
    + rewrite <- Hx. unfold EncoderDma.request. destruct (EncoderDma.sink_ready x); [done|]. by rewrite andb_false_r.
    + by rewrite Hs.
  - rewrite in_flight_next, held_write; [|done| |done].
    + cbn. by rewrite app_nil_r, fmap_app, app_assoc.
    + rewrite <- Hx. unfold EncoderDma.request. destruct (EncoderDma.sink_ready x); [done|]. by rewrite andb_false_r.
Qed.

(** From the FIFO to the buffer. *)
Lemma enc_words ready p :
  let x := buffer_in ready p in
  held (encoder_cdc p) =
  (option_list (EncoderBuffer.accepted x (buffer p)) ++ held (encoder_cdc (enc_next x p)))%list.
Proof using.
  intros x. cbn [enc_next encoder_cdc]. unfold EncoderBuffer.accepted.
  assert (Ha : EncoderBuffer.accept x (buffer p) = true -> is_some (readable (encoder_cdc p)) = true).
  { unfold EncoderBuffer.accept, x. by intros [? _]%andb_prop. }
  destruct (EncoderBuffer.accept x (buffer p)) eqn:E.
  - specialize (Ha eq_refl). unfold x, buffer_in. cbn [EncoderBuffer.sink_data].
    destruct (readable (encoder_cdc p)) as [w|] eqn:Er; [|done].
    destruct (readable_oldest _ _ Er) as [l Hl]. rewrite held_read by (by rewrite Er). by rewrite Hl.
  - by rewrite held_read.
Qed.

(** *** Before and at the start *)

Lemma buffer_empty x s : EncoderBuffer.inv [] [] s -> EncoderBuffer.emitted x s = None.
Proof using.
  intros (B & w & R & v & h & Hc & Hm & Hlw & Hlp & _). unfold EncoderBuffer.emitted.
  destruct (EncoderBuffer.emit x s) eqn:E; [|done].
  destruct (EncoderBuffer.emit_step _ _ _ _ _ _ _ _ Hc Hlw Hm E) as [Hlt _]. cbn in Hlt. lia.
Qed.

Lemma quiet_reset : quiet reset.
Proof using.
  split; [done|]. split; [apply in_flight_init|]. split; [apply held_init|]. apply EncoderBuffer.inv_reset.
Qed.

(** While the reader requests nothing, nothing moves. *)
Lemma quiet_sys x e p :
  quiet p -> EncoderDma.sink_ready x = sink_ready e (port p) ->
  EncoderDma.request 128 aw x (reader p) = None ->
  in_flight (port (sys_next aw x e p)) = [] /\ held (encoder_cdc (sys_next aw x e p)) = [].
Proof using.
  intros (_ & Hf & Hh & _) Hx Hr. pose proof (sys_words x e p Hx) as Hw. rewrite Hf, Hh, Hr in Hw.
  apply app_eq_nil in Hw as [-> Hw]. split; [|done]. by apply fmap_nil_inv in Hw.
Qed.

Lemma quiet_step k p : quiet p -> waits k -> quiet (step aw k p) /\ to_encoder k p = None.
Proof using.
  intros Hq Hk. pose proof Hq as (Hs & Hf & Hh & Hi). destruct k as [b0 h0 v0 start e|ready].
  - cbn in Hk. subst start. split; [|done]. set (x := reader_in b0 h0 v0 false e p).
    assert (Hr : EncoderDma.request 128 aw x (reader p) = None) by (unfold EncoderDma.request, EncoderDma.control; by rewrite Hs).
    destruct (quiet_sys x e p Hq eq_refl Hr) as [Hf' Hh']. cbn [step]. fold x.
    split; [|split; [done|split; [done|exact Hi]]]. cbn [sys_next reader].
    unfold EncoderDma.next, EncoderDma.control. by rewrite Hs.
  - assert (Ha : EncoderBuffer.accept (buffer_in ready p) (buffer p) = false).
    { unfold EncoderBuffer.accept, buffer_in. destruct (readable (encoder_cdc p)) eqn:E; [|done].
      apply readable_oldest in E as [l El]. by rewrite Hh in El. }
    cbn [step to_encoder]. rewrite (buffer_empty _ _ Hi). split; [|done].
    split; [done|]. split; [done|]. cbn [enc_next encoder_cdc buffer]. split; [by rewrite Ha, held_read|].
    pose proof (EncoderBuffer.inv_step [] [] (buffer_in ready p) (buffer p) Hi) as Hi'.
    unfold EncoderBuffer.accepted in Hi'. rewrite Ha, (buffer_empty _ _ Hi) in Hi'. exact Hi'.
Qed.

Lemma quiet_run l p : quiet p -> Forall waits l -> quiet (run aw p l) /\ pixels aw p l = [].
Proof using.
  intros Hq Hl. revert p Hq. induction Hl as [|k l Hk _ IH]; intros p Hq; [done|].
  destruct (quiet_step k p Hq Hk) as [Hq' Ho]. destruct (IH _ Hq') as [Hr Hp].
  cbn [run pixels]. by rewrite Ho, Hp.
Qed.

Lemma run_edges p l1 l2 : run aw p (l1 ++ l2)%list = run aw (run aw p l1) l2.
Proof using. revert p. induction l1 as [|k l1 IH]; intros p; [done|]. apply IH. Qed.

Lemma pixels_app p l1 l2 : pixels aw p (l1 ++ l2)%list = (pixels aw p l1 ++ pixels aw (run aw p l1) l2)%list.
Proof using. revert p. induction l1 as [|k l1 IH]; intros p; [done|]. cbn. by rewrite IH, app_assoc. Qed.

(** *** The frame *)

Hypothesis Hok : EncoderDma.frame_ok 128 1 hw vw.

Lemma start_inv k p : quiet p -> starts k -> frame_inv 0 [] [] (step aw k p) /\ to_encoder k p = None.
Proof using Hok.
  intros Hq [e ->]. split; [|done]. pose proof Hq as (Hs & Hf & Hh & Hi).
  set (x := reader_in (16 * b) hw vw true e p).
  destruct (EncoderDma.start_request 128 aw 1 hw vw Hok x (reader p) Hs eq_refl) as (Hat & Hb & Hr).
  destruct (quiet_sys x e p Hq eq_refl Hr) as [Hf' Hh']. cbn [step]. fold x.
  split; [lia|exact Hat|exact Hb| |exact Hi]. rewrite Hf', Hh'. done.
Qed.

(** What an edge moves out of the reader, and into the buffer. *)
Definition requested (k : edge) (p : pipe) : option Z :=
  match k with Sys b0 h v start e => EncoderDma.request 128 aw (reader_in b0 h v start e p) (reader p) | Enc _ => None end.

Definition taken (k : edge) (p : pipe) : option Z :=
  match k with Sys _ _ _ _ _ => None | Enc ready => EncoderBuffer.accepted (buffer_in ready p) (buffer p) end.

Lemma frame_step n ws ps k p :
  frame_inv n ws ps p -> reads k ->
  frame_inv (n + length (option_list (requested k p))) (ws ++ option_list (taken k p))
            (ps ++ option_list (to_encoder k p)) (step aw k p).
Proof using Hok.
  intros [Hn Hat Hb Hw Hi] Hk. destruct k as [b0 h0 v0 start e|ready].
  - destruct Hk as (-> & -> & ->). cbn [step to_encoder requested taken]. set (x := reader_in b0 hw vw false e p).
    pose proof (sys_words x e p eq_refl) as Hm. cbn [option_list]. rewrite !app_nil_r.
    destruct (Nat.ltb_spec n (EncoderDma.frame_total 1 hw vw)) as [Hlt|Hge].
    + rewrite (EncoderDma.request_at 128 aw 1 hw vw (fun _ => EncoderDma.Input (16 * b) hw vw true true) n x _ Hlt eq_refl Hat Hb) in Hm |- *.
      destruct (EncoderDma.sink_ready x) eqn:Er; cbn [option_list length]; rewrite ?Nat.add_1_r, ?Nat.add_0_r.
      * split; [lia| | | |exact Hi].
        -- apply EncoderDma.next_request; done.
        -- exact Hb.
        -- rewrite Hm, app_assoc, <- Hw, seq_S, !fmap_app. done.
      * split; [done| | | |exact Hi].
        -- by apply EncoderDma.next_stall.
        -- exact Hb.
        -- rewrite Hm, Hw. cbn. by rewrite app_nil_r.
    + destruct (EncoderDma.next_idle 128 aw 1 hw vw n x (reader p) Hge eq_refl Hat) as [Hat' Hr].
      rewrite Hr in Hm |- *. cbn [option_list length]. rewrite Nat.add_0_r. split; [done|exact Hat'|exact Hb| |exact Hi].
      rewrite Hm, Hw. cbn. by rewrite app_nil_r.
  - cbn [step to_encoder requested taken option_list length]. rewrite Nat.add_0_r. set (x := buffer_in ready p).
    split; [done|exact Hat|exact Hb| |by apply EncoderBuffer.inv_step].
    rewrite Hw, (enc_words ready p), <- !app_assoc. done.
Qed.

Lemma frame_run n ws ps l p :
  frame_inv n ws ps p -> Forall reads l ->
  exists n' ws', frame_inv n' ws' (ps ++ pixels aw p l)%list (run aw p l).
Proof using Hok.
  intros Hi Hl. revert n ws ps p Hi. induction Hl as [|k l Hk _ IH]; intros n ws ps p Hi.
  - exists n, ws. cbn. by rewrite app_nil_r.
  - pose proof (frame_step n ws ps k p Hi Hk) as Hi'.
    destruct (IH _ _ _ _ Hi') as (n'' & ws'' & Hi''). exists n'', ws''. cbn. by rewrite app_assoc.
Qed.

Lemma frame_trace l0 k l :
  Forall waits l0 -> starts k -> Forall reads l ->
  exists n ws, frame_inv n ws (pixels aw reset (l0 ++ k :: l)) (run aw reset (l0 ++ k :: l)).
Proof using Hok.
  intros H0 Hk Hl. destruct (quiet_run l0 _ quiet_reset H0) as [Hq Hp].
  destruct (start_inv k _ Hq Hk) as [Hi Ho]. rewrite run_edges, pixels_app, Hp. cbn [run pixels]. rewrite Ho.
  exact (frame_run 0 [] [] l _ Hi Hl).
Qed.

Lemma frame_width : (0 < BX)%nat /\ hw <= 65528.
Proof using Hok. destruct Hok as [_ Hh _]. change (EncoderDma.burst_pixels 128) with 8 in Hh. lia. Qed.

(** Once nothing is on the way every pixel has been emitted. *)
Lemma drained_length n ws ps p : frame_inv n ws ps p -> drained p -> length ps = (64 * (BY * BX))%nat.
Proof using.
  intros [Hn Hat _ Hwords Hi] (Hs & Hf & Hh & Hr & Hw). rewrite (EncoderBuffer.inv_drained _ _ _ Hi Hr Hw).
  apply (f_equal length) in Hwords. rewrite !length_app, !length_fmap, length_seq, Hf, Hh in Hwords. cbn in Hwords.
  unfold EncoderDma.at_request in Hat. rewrite EncoderDma.whole_frame_total, Hs in *.
  destruct (Nat.ltb_spec n (BY * BX * 8)); [by destruct Hat|].
  replace (length ws) with (BY * BX * 8)%nat by lia. rewrite Nat.div_mul by lia. lia.
Qed.

Hypothesis Hb : 0 <= b < 2 ^ 28.
Hypothesis Hfit : b + 8 * Z.of_nat BX * Z.of_nat BY <= 2 ^ aw.

(** The word of a line of a block, among those that reached the buffer. *)
Lemma word_of n ws ps p by_ bx y :
  frame_inv n ws ps p -> (bx < BX)%nat -> (by_ < BY)%nat -> (y < 8)%nat ->
  (8 * (by_ * BX + bx) + y < length ws)%nat ->
  nth (8 * (by_ * BX + bx) + y) ws 0 =
  dram (b + ((8 * Z.of_nat by_ + Z.of_nat y) * Z.of_nat BX + Z.of_nat bx)).
Proof using Hok Hb Hfit.
  intros [Hn _ _ Hw _] Hbx Hby Hy Hlt. set (i := (8 * (by_ * BX + bx) + y)%nat) in *.
  destruct (lookup_lt_is_Some_2 ws i Hlt) as [w Hi]. rewrite (nth_lookup_Some ws i 0 w Hi).
  assert (Hw' : (dram <$> (address <$> seq 0 n)) !! i = Some w) by (rewrite Hw; by apply lookup_app_l_Some).
  rewrite !list_lookup_fmap in Hw'.
  assert (i < n)%nat. { apply (f_equal length) in Hw. rewrite !length_app, !length_fmap, length_seq in Hw. lia. }
  rewrite lookup_seq_lt in Hw' by done. change (Some (dram (address i)) = Some w) in Hw'. injection Hw' as <-. f_equal.
  rewrite <- (EncoderDma.request_address_index aw b BX BY (fun _ => EncoderDma.Input (16 * b) hw vw true true) eq_refl Hb Hfit frame_width by_ bx y) by done.
  unfold address, EncoderDma.raster_index. f_equal. rewrite Nat.mul_1_r, Nat.add_0_r. unfold i. lia.
Qed.
End frame.

(** Claim C1: the path as a whole. Whatever the two clocks, the DRAM and the
    encoder do, what the encoder is given after a start strobe is the frame in
    memory in the order a JPEG encoder needs: block by block from left to right
    and from top to bottom, inside a block line by line, with [last] on the last
    pixel of each block and on no other; never a pixel more than the frame has,
    and all of them once nothing is on the way. *)
Theorem encoder_gets_blocks `{BitMath} {dram : Z -> Z} {DR : DmaReader dram} {AF : AsyncFifo}
    (aw b : Z) (BX BY : nat) (before : list edge) (start : edge) (after : list edge)
    (Hok : EncoderDma.frame_ok 128 1 (8 * Z.of_nat BX) (8 * Z.of_nat BY))
    (Hb : 0 <= b < 2 ^ 28) (Hfit : b + 8 * Z.of_nat BX * Z.of_nat BY <= 2 ^ aw)
    (H0 : Forall waits before) (H1 : starts b BX BY start) (H2 : Forall (reads BX BY) after) :
  let ps := pixels aw reset (before ++ start :: after) in
  (forall by_ bx y x, (bx < BX)%nat -> (by_ < BY)%nat -> (y < 8)%nat -> (x < 8)%nat ->
     let i := block_pixel BX by_ bx y x in
     (i < length ps)%nat ->
     ps !! i = Some (frame_pixel (dram := dram) b BX (8 * bx + x) (8 * by_ + y), ((x =? 7) && (y =? 7))%nat)) /\
  (length ps <= 64 * (BY * BX))%nat /\
  (drained (run aw reset (before ++ start :: after)) -> length ps = (64 * (BY * BX))%nat).
Proof.
  intros ps. destruct (frame_trace aw b BX BY Hok before start after H0 H1 H2) as (n & ws & Hi). fold ps in Hi.
  destruct (EncoderBuffer.inv_lengths _ _ _ (i_buffer _ _ _ _ _ _ _ _ Hi)) as [Hle _].
  pose proof (i_n _ _ _ _ _ _ _ _ Hi) as Hn. rewrite EncoderDma.whole_frame_total in Hn.
  pose proof (f_equal length (i_words _ _ _ _ _ _ _ _ Hi)) as Hlen.
  rewrite !length_app, !length_fmap, length_seq in Hlen.
  pose proof (Nat.Div0.mul_div_le (length ws) 8) as Hd.
  split; [|split; [lia|]].
  - intros by_ bx y x Hbx Hby Hy Hx i Hlt. unfold i, block_pixel in *.
    destruct (i_buffer _ _ _ _ _ _ _ _ Hi) as (B & w & R & v & h & _ & _ & _ & _ & Hps).
    rewrite Hps at 1. unfold EncoderBuffer.pixel_stream. rewrite list_lookup_fmap, lookup_seq_lt by done. cbn [fmap option_fmap option_map].
    rewrite Nat.add_0_l, EncoderBuffer.stream_pixel_at by done. do 2 f_equal.
    rewrite (word_of aw b BX BY Hok Hb Hfit n ws ps _ by_ bx y Hi Hbx Hby Hy) by lia. unfold frame_pixel.
    assert ((8 * bx + x) / 8 = bx)%nat as -> by (symmetry; apply (Nat.div_unique _ 8 _ x); lia).
    assert ((8 * bx + x) mod 8 = x)%nat as -> by (symmetry; apply (Nat.mod_unique _ 8 bx); lia).
    do 2 f_equal. lia.
  - exact (drained_length aw b BX BY n ws ps _ Hi).
Qed.

(** *** Lists in place of the library modules *)

(** A DMA that answers a request as soon as the DRAM controller lets it. *)
Definition list_source (dram : Z -> Z) (e : bool * bool) (l : list Z) : option Z :=
  if fst e then dram <$> head l else None.

Definition list_dma_next (_ : bool * bool) (a : option Z) (taken : bool) (l : list Z) : list Z :=
  ((if taken then tail l else l) ++ option_list a)%list.

Lemma list_source_oldest dram e l w : list_source dram e l = Some w -> exists a l', l = a :: l' /\ w = dram a.
Proof. unfold list_source. destruct (fst e), l as [|a l]; intros [= <-]. by exists a, l. Qed.

#[export] Instance list_dma (dram : Z -> Z) : DmaReader dram := {|
  dma := list Z; dma_env := bool * bool; dma_init := []; sink_ready e _ := snd e; source := list_source dram;
  dma_next := list_dma_next; in_flight l := l; in_flight_init := eq_refl;
  source_oldest := list_source_oldest dram; in_flight_next _ _ _ _ _ _ := eq_refl |}.

(** A FIFO of four words. *)
Definition queue_write (d : option Z) (l : list Z) : list Z := (l ++ option_list d)%list.
Definition queue_read (re : bool) (l : list Z) : list Z := if re then tail l else l.

Lemma queue_oldest (l : list Z) w : head l = Some w -> exists l', l = w :: l'.
Proof. destruct l as [|a l]; intros [= ->]. by exists l. Qed.

#[export] Instance queue_cdc : AsyncFifo := {|
  fifo := list Z; fifo_init := []; writable l := (length l <? 4)%nat; readable := head; write_edge := queue_write;
  read_edge := queue_read; held l := l; held_init := eq_refl; readable_oldest := queue_oldest;
  held_write _ _ _ := eq_refl; held_read _ _ _ := eq_refl |}.

(** A frame of 16 by 8 pixels at word 256: 64 pixels of two blocks. The
    encoder stalls in every third cycle, the DRAM in every second. *)
Definition demo_dram (a : Z) : Z := a * (2 ^ 113 + 2 ^ 65 + 1).
Definition demo_start : edge (dram := demo_dram) := Sys (16 * 256) 16 8 true (true, true).
Definition demo_edge (n : nat) : edge (dram := demo_dram) :=
  if Nat.even n then Sys 0 16 8 false (Nat.even (n / 2), true) else Enc (negb (n mod 3 =? 0)%nat).

Lemma demo_reads : Forall (reads (dram := demo_dram) 2 1) (demo_edge <$> seq 0 500).
Proof.
  apply Forall_fmap, Forall_true. intros n. unfold compose, demo_edge. by destruct (Nat.even n).
Qed.

Definition demo_before : list (edge (dram := demo_dram)) := [Enc true; Sys 5 6 7 false (true, true)].
Definition demo_after : list (edge (dram := demo_dram)) := demo_edge <$> seq 0 500.

Lemma demo_drained : drained (run 28 reset (demo_before ++ demo_start :: demo_after)).
Proof. vm_compute. repeat split. Qed.

Lemma encoder_gets_blocks_witness :
  pixels 28 reset (demo_before ++ demo_start :: demo_after) !! block_pixel 2 0 1 7 5 =
    Some (frame_pixel (dram := demo_dram) 256 2 13 7, false) /\
  length (pixels 28 reset (demo_before ++ demo_start :: demo_after)) = (64 * (1 * 2))%nat.
Proof.
  pose proof (encoder_gets_blocks (dram := demo_dram) 28 256 2 1 demo_before demo_start demo_after
    ltac:(split; vm_compute; split; congruence || done) ltac:(lia) ltac:(lia)
    ltac:(by repeat constructor) ltac:(by eexists) demo_reads) as (Hp & _ & Hd).
  specialize (Hd demo_drained). split; [|exact Hd].
  refine (Hp 0%nat 1%nat 7%nat 5%nat _ _ _ _ _); [lia..|]. rewrite Hd. cbn; lia.
Defined.
