(* ===== verification/EncoderLiveness.v ===== *)
(** * The path of a frame ends ([EncoderPipeline])

    Under fair conditions on the two library modules and on the encoder, every
    execution of the path of targets/opsis/hdmi2usb.py comes to the point where
    nothing is on the way: each transfer lowers a measure of the work left, and
    while there is work some transfer happens. *)
From S2P Require Import Prelude Hdl EncoderPipeline.
From S2P Require EncoderDma EncoderBuffer.

Section forever.
Context `{BitMath} {dram : Z -> Z} {DR : DmaReader dram} {AF : AsyncFifo} (aw b : Z) (BX BY : nat).
Context (p0 : pipe) (edges : nat -> edge).

(** The path after [n] edges. *)
Fixpoint after (n : nat) : pipe := match n with O => p0 | S n => step aw (edges n) (after n) end.

(** ** Fairness *)

Definition fifo_at (n : nat) : list Z := held (encoder_cdc (after n)).
Definition owed_at (n : nat) : list Z := in_flight (port (after n)).

(** The DRAM: with nothing on its way it takes a request sooner or later; of
    words on their way one is handed over, if the FIFO stays empty. *)
Definition dram_fair : Prop :=
  (forall n, owed_at n = [] -> exists m, (n <= m)%nat /\
     ((exists b0 h v s e, edges m = Sys b0 h v s e /\ sink_ready e (port (after m)) = true) \/ owed_at m <> [])) /\
  (forall n, owed_at n <> [] -> exists m, (n <= m)%nat /\
     ((exists b0 h v s e, edges m = Sys b0 h v s e /\ word_moves e (after m) = true) \/ fifo_at m <> [])).

(** The FIFO: what is in it can be read at some edge of the reader's clock. *)
Definition fifo_fair : Prop :=
  forall n, fifo_at n <> [] -> exists m, (n <= m)%nat /\
    ((exists r, edges m = Enc r /\ is_some (readable (encoder_cdc (after m))) = true) \/ fifo_at m = []).

(** The encoder is ready again and again. *)
Definition encoder_fair : Prop := forall n, exists m, (n <= m)%nat /\ edges m = Enc true.

(** ** The work left *)

(** Requests made, lines in the buffer so far, pixels emitted. *)
Fixpoint ghost (n : nat) : nat * list Z * list (Z * bool) :=
  match n with
  | O => (0%nat, [], [])
  | S n =>
      let '(r, ws, ps) := ghost n in
      ((r + length (option_list (requested aw (edges n) (after n))))%nat,
       (ws ++ option_list (taken (edges n) (after n)))%list,
       (ps ++ option_list (to_encoder (edges n) (after n)))%list)
  end.

Definition nreq (n : nat) : nat := (ghost n).1.1.
Definition wss (n : nat) : list Z := (ghost n).1.2.
Definition pss (n : nat) : list (Z * bool) := (ghost n).2.

Definition moved (n : nat) : bool :=
  match edges n with Sys _ _ _ _ e => word_moves e (after n) | Enc _ => false end.

Definition work (n : nat) : nat :=
  (20 * (EncoderDma.frame_total 1 (8 * Z.of_nat BX) (8 * Z.of_nat BY) - nreq n) + 19 * length (owed_at n) +
   18 * length (fifo_at n) + 2 * (8 * length (wss n) - length (pss n)))%nat.

(** Transfers at an edge. *)
Definition transfers (n : nat) : nat :=
  (length (option_list (requested aw (edges n) (after n))) + Nat.b2n (moved n) +
   2 * length (option_list (taken (edges n) (after n))) + 2 * length (option_list (to_encoder (edges n) (after n))))%nat.

Hypothesis Hok : EncoderDma.frame_ok 128 1 (8 * Z.of_nat BX) (8 * Z.of_nat BY).
Hypothesis H0 : frame_inv aw b BX BY 0 [] [] p0.
Hypothesis Hreads : forall n, reads BX BY (edges n).

Lemma inv_after n : frame_inv aw b BX BY (nreq n) (wss n) (pss n) (after n).
Proof using Hok H0 Hreads.
  induction n as [|n IH]; [exact H0|].
  pose proof (frame_step aw b BX BY Hok _ _ _ (edges n) (after n) IH (Hreads n)) as Hi.
  unfold nreq, wss, pss in *. cbn [ghost after]. destruct (ghost n) as [[r ws] ps]. exact Hi.
Qed.

(** Queues grow by what is put in and shrink by what is taken out. *)
Lemma owed_next n :
  (length (owed_at (S n)) + Nat.b2n (moved n) =
   length (owed_at n) + length (option_list (requested aw (edges n) (after n))))%nat /\
  (length (fifo_at (S n)) + length (option_list (taken (edges n) (after n))) =
   length (fifo_at n) + Nat.b2n (moved n))%nat.
Proof using.
  unfold owed_at, fifo_at, moved. cbn [after]. destruct (edges n) as [b0 h v s e|r]; cbn [step requested taken].
  - set (x := reader_in b0 h v s e (after n)). set (p := after n) in *. cbn [option_list length]. rewrite Nat.add_0_r.
    assert (Hready : EncoderDma.request 128 aw x (reader p) <> None -> sink_ready e (port p) = true).
    { unfold EncoderDma.request. change (EncoderDma.sink_ready x) with (sink_ready e (port p)).
      destruct (sink_ready e (port p)); [done|]. by rewrite andb_false_r. }
    cbn [sys_next port encoder_cdc]. destruct (word_moves e p) eqn:E; cbn [Nat.b2n].
    + destruct (word_moves_inv e p E) as (Hw & a & l & Hf & Hs).
      rewrite in_flight_next, held_write, !length_app, Hf, Hs; [cbn; lia|done|done|by rewrite Hs].
    + rewrite in_flight_next, held_write, !length_app; [cbn; lia|done|done|done].
  - pose proof (f_equal length (enc_words r (after n))) as Hl. rewrite length_app in Hl.
    cbn [enc_next port encoder_cdc Nat.b2n] in Hl |- *. split; [done|lia].
Qed.

Lemma work_step n : work n = (work (S n) + transfers n)%nat.
Proof using Hok H0 Hreads.
  pose proof (inv_after n) as Hi. pose proof (inv_after (S n)) as Hi'. destruct (owed_next n) as [Ho Hf].
  pose proof (i_n _ _ _ _ _ _ _ _ Hi') as Hn.
  destruct (EncoderBuffer.inv_lengths _ _ _ (i_buffer _ _ _ _ _ _ _ _ Hi)) as [Hl _].
  destruct (EncoderBuffer.inv_lengths _ _ _ (i_buffer _ _ _ _ _ _ _ _ Hi')) as [Hl' _].
  pose proof (Nat.Div0.mul_div_le (length (wss n)) 8). pose proof (Nat.Div0.mul_div_le (length (wss (S n))) 8).
  assert (E : nreq (S n) = (nreq n + length (option_list (requested aw (edges n) (after n))))%nat /\
              length (wss (S n)) = (length (wss n) + length (option_list (taken (edges n) (after n))))%nat /\
              length (pss (S n)) = (length (pss n) + length (option_list (to_encoder (edges n) (after n))))%nat).
  { unfold nreq, wss, pss. cbn [ghost]. destruct (ghost n) as [[r ws] ps]. cbn [fst snd]. by rewrite !length_app. }
  destruct E as (En & Ew & Ep). unfold work, transfers. lia.
Qed.

Lemma work_le n m : (n <= m)%nat -> (work m <= work n)%nat.
Proof using Hok H0 Hreads. induction 1 as [|m _ IH]; [done|]. pose proof (work_step m). lia. Qed.

(** What holds without transfers holds until the next one. *)
Lemma until (P : pipe -> Prop) n m :
  (forall k, P (after k) -> transfers k = 0%nat -> P (after (S k))) ->
  P (after n) -> (n <= m)%nat -> P (after m) \/ (work m < work n)%nat.
Proof using Hok H0 Hreads.
  intros Hs HP. induction 1 as [|m Hm IH]; [by left|]. pose proof (work_step m). destruct IH as [IH|IH]; [|right; lia].
  destruct (decide (transfers m = 0%nat)) as [E|E]; [left; by apply Hs|right]. pose proof (work_le n m Hm). lia.
Qed.

Lemma no_transfers k :
  transfers k = 0%nat ->
  requested aw (edges k) (after k) = None /\ moved k = false /\
  taken (edges k) (after k) = None /\ to_encoder (edges k) (after k) = None.
Proof using.
  unfold transfers. destruct (requested _ _ _), (moved k), (taken _ _), (to_encoder _ _); cbn; intros; (lia || done).
Qed.

(** Nor do the queues change their lengths. *)
Lemma still_lengths k :
  transfers k = 0%nat -> length (owed_at (S k)) = length (owed_at k) /\ length (fifo_at (S k)) = length (fifo_at k).
Proof using.
  intros Ht. destruct (owed_next k) as [Ho Hf]. unfold transfers in Ht. split; lia.
Qed.

Lemma still_nil k :
  transfers k = 0%nat -> (owed_at (S k) = [] <-> owed_at k = []) /\ (fifo_at (S k) = [] <-> fifo_at k = []).
Proof using. intros Ht. destruct (still_lengths k Ht). rewrite <- !length_zero_iff_nil. lia. Qed.

Definition lower (n : nat) : Prop := exists m, (work m < work n)%nat.

Lemma lower_le n m : (n <= m)%nat -> lower m -> lower n.
Proof using Hok H0 Hreads. intros Hm [k Hk]. exists k. pose proof (work_le n m Hm). lia. Qed.

Lemma transfer_lower n m : (n <= m)%nat -> transfers m <> 0%nat -> lower n.
Proof using Hok H0 Hreads. intros Hm Ht. apply (lower_le n m Hm). exists (S m). pose proof (work_step m). lia. Qed.

(** *** The buffer's two machines *)

Lemma buffer_still k :
  transfers k = 0%nat ->
  let s := buffer (after k) in
  let s' := buffer (after (S k)) in
  match edges k with
  | Sys _ _ _ _ _ => s' = s
  | Enc _ =>
      EncoderBuffer.write_sel s' = EncoderBuffer.write_sel s /\
      EncoderBuffer.read_sel s' = xorb (EncoderBuffer.read_swap s) (EncoderBuffer.read_sel s) /\
      EncoderBuffer.write_fsm s' = match EncoderBuffer.write_fsm s with
        | EncoderBuffer.W_IDLE =>
            if eqb (EncoderBuffer.write_sel s) (EncoderBuffer.read_sel s) then EncoderBuffer.W_IDLE else EncoderBuffer.W_WRITE
        | EncoderBuffer.W_WRITE => EncoderBuffer.W_WRITE
        end /\
      EncoderBuffer.read_fsm s' = match EncoderBuffer.read_fsm s with
        | EncoderBuffer.R_IDLE => if EncoderBuffer.read_swap s then EncoderBuffer.R_READ else EncoderBuffer.R_IDLE
        | EncoderBuffer.R_READ => EncoderBuffer.R_READ
        end
  end.
Proof using.
  intros (_ & _ & Ht & He)%no_transfers s s'. subst s s'. cbn [after]. destruct (edges k) as [b0 h v st e|r]; [done|].
  cbn [step enc_next buffer taken to_encoder] in *. set (x := buffer_in r (after k)) in *. set (s := buffer (after k)) in *.
  unfold EncoderBuffer.accepted in Ht. unfold EncoderBuffer.emitted in He.
  destruct (EncoderBuffer.accept x s) eqn:Ea; [done|]. destruct (EncoderBuffer.emit x s) eqn:Ee; [done|].
  cbn [EncoderBuffer.next EncoderBuffer.write_sel EncoderBuffer.read_sel EncoderBuffer.write_fsm EncoderBuffer.read_fsm].
  unfold EncoderBuffer.last_line, EncoderBuffer.write_next, EncoderBuffer.last_line, EncoderBuffer.read_next. rewrite Ea, Ee. cbn [andb].
  split; [done|]. split; [by destruct (EncoderBuffer.read_swap s), (EncoderBuffer.read_sel s)|].
  by destruct (EncoderBuffer.write_fsm s), (EncoderBuffer.read_fsm s).
Qed.

(** The reader has a block to send, or is about to. *)
Definition busy (p : pipe) : Prop :=
  EncoderBuffer.read_fsm (buffer p) = EncoderBuffer.R_READ \/
  EncoderBuffer.read_fsm (buffer p) = EncoderBuffer.R_IDLE /\ EncoderBuffer.read_swap (buffer p) = true.

Lemma busy_still k : busy (after k) -> transfers k = 0%nat -> busy (after (S k)).
Proof using.
  intros Hb Ht. pose proof (buffer_still k Ht) as Hs. cbv zeta in Hs. unfold busy in *.
  destruct (edges k); [by rewrite Hs|]. destruct Hs as (_ & _ & _ & ->). left. by destruct Hb as [->|[-> ->]].
Qed.

Lemma reading_lower n : encoder_fair -> EncoderBuffer.read_fsm (buffer (after n)) = EncoderBuffer.R_READ -> lower n.
Proof using Hok H0 Hreads.
  intros Hf Hr. destruct (Hf n) as (m & Hm & He).
  destruct (until (fun p => EncoderBuffer.read_fsm (buffer p) = EncoderBuffer.R_READ) n m) as [Hr'|Hl]; [|done|done| |by exists m].
  - intros k Hk Ht. pose proof (buffer_still k Ht) as Hs. cbv zeta in Hs. destruct (edges k); [by rewrite Hs|].
    destruct Hs as (_ & _ & _ & ->). by rewrite Hk.
  - apply (transfer_lower n m Hm). unfold transfers. rewrite He. cbn [to_encoder].
    unfold EncoderBuffer.emitted, EncoderBuffer.emit, EncoderBuffer.source_valid.
    rewrite bool_decide_eq_true_2 by done. cbn. lia.
Qed.

Lemma busy_lower n : encoder_fair -> busy (after n) -> lower n.
Proof using Hok H0 Hreads.
  intros Hf Hb. destruct (Hf n) as (m & Hm & He).
  destruct (until busy n m busy_still Hb Hm) as [[Hr|[Hr Hs]]|Hl]; [| |by exists m].
  - by apply (lower_le n m Hm), reading_lower.
  - destruct (decide (transfers m = 0%nat)) as [Ht|Ht]; [|by apply (transfer_lower n m Hm)].
    apply (lower_le n (S m)); [lia|]. apply reading_lower; [done|].
    pose proof (buffer_still m Ht) as Hb'. cbv zeta in Hb'. rewrite He in Hb'. destruct Hb' as (_ & _ & _ & ->).
    by rewrite Hr, Hs.
Qed.

(** The writer takes a word at the next edge with one to read, or at the one
    after. *)
Definition holding (p : pipe) : Prop := held (encoder_cdc p) <> [].
Definition writing (p : pipe) : Prop := holding p /\ EncoderBuffer.write_fsm (buffer p) = EncoderBuffer.W_WRITE.
Definition may_write (p : pipe) : Prop :=
  holding p /\ (EncoderBuffer.write_fsm (buffer p) = EncoderBuffer.W_IDLE ->
                eqb (EncoderBuffer.write_sel (buffer p)) (EncoderBuffer.read_sel (buffer p)) = false).

Lemma holding_still k : holding (after k) -> transfers k = 0%nat -> holding (after (S k)).
Proof using. intros Hh Ht Hn. by apply Hh, (proj2 (still_nil k Ht)). Qed.

Lemma writing_still k : writing (after k) -> transfers k = 0%nat -> writing (after (S k)).
Proof using.
  intros [Hh Hw] Ht. split; [by apply holding_still|]. pose proof (buffer_still k Ht) as Hs. cbv zeta in Hs.
  destruct (edges k); [by rewrite Hs|]. destruct Hs as (_ & _ & -> & _). by rewrite Hw.
Qed.

Lemma may_write_still k : may_write (after k) -> transfers k = 0%nat -> may_write (after (S k)).
Proof using.
  intros [Hh Hw] Ht. split; [by apply holding_still|]. pose proof (buffer_still k Ht) as Hs. cbv zeta in Hs.
  destruct (edges k); [by rewrite Hs|]. destruct Hs as (-> & -> & -> & _).
  destruct (EncoderBuffer.write_fsm (buffer (after k))); [|done]. specialize (Hw eq_refl). rewrite Hw. done.
Qed.

(** An edge of the encoder's clock at which the FIFO can be read. *)
Lemma reading_edge n (P : pipe -> Prop) :
  fifo_fair -> (forall p, P p -> holding p) ->
  (forall k, P (after k) -> transfers k = 0%nat -> P (after (S k))) -> P (after n) ->
  lower n \/ exists m r, (n <= m)%nat /\ P (after m) /\ edges m = Enc r /\ is_some (readable (encoder_cdc (after m))) = true.
Proof using Hok H0 Hreads.
  intros Hf Hh Hs HP. destruct (Hf n (Hh _ HP)) as (m & Hm & Hev).
  destruct (until P n m Hs HP Hm) as [HPm|Hl]; [|left; by exists m].
  destruct Hev as [(r & He & Hr)|He]; [right; by exists m, r|]. destruct (Hh _ HPm He).
Qed.

Lemma writing_lower n : fifo_fair -> writing (after n) -> lower n.
Proof using Hok H0 Hreads.
  intros Hf Hw. destruct (reading_edge n writing Hf ltac:(by intros p []) writing_still Hw) as [|(m & r & Hm & [_ Hwm] & He & Hr)]; [done|].
  apply (transfer_lower n m Hm). unfold transfers. rewrite He. cbn [taken].
  unfold EncoderBuffer.accepted, EncoderBuffer.accept, EncoderBuffer.sink_ready, buffer_in. cbn [EncoderBuffer.sink_valid].
  rewrite Hr, bool_decide_eq_true_2 by done. cbn. lia.
Qed.

Lemma may_write_lower n : fifo_fair -> may_write (after n) -> lower n.
Proof using Hok H0 Hreads.
  intros Hf Hw. destruct (reading_edge n may_write Hf ltac:(by intros p []) may_write_still Hw) as [|(m & r & Hm & [Hh Hwm] & He & Hr)]; [done|].
  destruct (decide (transfers m = 0%nat)) as [Ht|Ht]; [|by apply (transfer_lower n m Hm)].
  apply (lower_le n (S m)); [lia|]. apply writing_lower; [done|]. split; [by apply holding_still|].
  pose proof (buffer_still m Ht) as Hb. cbv zeta in Hb. rewrite He in Hb. destruct Hb as (_ & _ & -> & _).
  destruct (EncoderBuffer.write_fsm (buffer (after m))); [|done]. by rewrite Hwm.
Qed.

(** A word in the FIFO: the writer may take it, or both banks are the reader's. *)
Lemma fifo_lower n : fifo_fair -> encoder_fair -> fifo_at n <> [] -> lower n.
Proof using Hok H0 Hreads.
  intros Hf He Hh. set (s := buffer (after n)).
  destruct (eqb (EncoderBuffer.write_sel s) (EncoderBuffer.read_sel s)) eqn:E.
  - apply busy_lower; [done|]. unfold busy. fold s. destruct (EncoderBuffer.read_fsm s) eqn:Er; [|by left]. right.
    split; [done|]. unfold EncoderBuffer.read_swap. rewrite Er, bool_decide_eq_true_2 by done.
    apply eqb_prop in E. rewrite E. apply eqb_reflx.
  - apply may_write_lower; [done|]. by split.
Qed.

(** *** The reader and the DMA *)

Definition asking (p : pipe) : Prop := EncoderDma.state (reader p) = EncoderDma.READ /\ in_flight (port p) = [].

Lemma reading_valid x s : EncoderDma.state s = EncoderDma.READ -> EncoderDma.sink_valid (EncoderDma.control 128 x s) = true.
Proof using. intros Hs. unfold EncoderDma.control. rewrite Hs. by split_ifs. Qed.

Lemma asking_still k : asking (after k) -> transfers k = 0%nat -> asking (after (S k)).
Proof using.
  intros [Hs Hf] Ht. pose proof (no_transfers k Ht) as (Hr & _). split; [|by apply (proj1 (still_nil k Ht))].
  cbn [after]. destruct (edges k) as [b0 h v st e|r]; [|done]. cbn [step sys_next reader requested] in *.
  unfold EncoderDma.request in Hr. rewrite reading_valid in Hr by done. cbn [andb] in Hr.
  unfold EncoderDma.next, EncoderDma.control. rewrite Hs.
  by destruct (EncoderDma.sink_ready (reader_in b0 h v st e (after k))).
Qed.

Lemma asking_lower n : dram_fair -> asking (after n) -> lower n.
Proof using Hok H0 Hreads.
  intros [Hf _] Ha. destruct (Hf n (proj2 Ha)) as (m & Hm & Hev).
  destruct (until asking n m asking_still Ha Hm) as [[Hs Ho]|Hl]; [|by exists m].
  destruct Hev as [(b0 & h & v & st & e & He & Hr)|Hne]; [|by destruct (Hne Ho)].
  apply (transfer_lower n m Hm). unfold transfers. rewrite He. cbn [requested]. unfold EncoderDma.request.
  rewrite reading_valid by done. change (EncoderDma.sink_ready (reader_in b0 h v st e (after m))) with (sink_ready e (port (after m))).
  rewrite Hr. cbn. lia.
Qed.

Definition owing (p : pipe) : Prop := in_flight (port p) <> [] /\ held (encoder_cdc p) = [].

Lemma owing_still k : owing (after k) -> transfers k = 0%nat -> owing (after (S k)).
Proof using.
  intros [Ho Hh] Ht. destruct (still_nil k Ht) as [H1 H2]. split; [|by apply H2]. intros E. by apply Ho, H1.
Qed.

Lemma owing_lower n : dram_fair -> owing (after n) -> lower n.
Proof using Hok H0 Hreads.
  intros [_ Hf] Ho. destruct (Hf n (proj1 Ho)) as (m & Hm & Hev).
  destruct (until owing n m owing_still Ho Hm) as [[_ Hh]|Hl]; [|by exists m].
  destruct Hev as [(b0 & h & v & st & e & He & Hr)|Hne]; [|by destruct (Hne Hh)].
  apply (transfer_lower n m Hm). unfold transfers, moved. rewrite He, Hr. cbn. lia.
Qed.

(** *** While something is on the way, the work gets less *)

Lemma progress n : dram_fair -> fifo_fair -> encoder_fair -> drained (after n) \/ lower n.
Proof using Hok H0 Hreads.
  intros Hd Hf He. destruct (decide (fifo_at n = [])) as [Eh|Eh]; [|right; by apply fifo_lower].
  destruct (decide (owed_at n = [])) as [Eo|Eo]; [|right; by apply owing_lower].
  destruct (EncoderDma.state (reader (after n))) eqn:Es; [|right; by apply asking_lower].
  destruct (EncoderBuffer.read_fsm (buffer (after n))) eqn:Er; [|right; by apply reading_lower].
  destruct (EncoderBuffer.read_swap (buffer (after n))) eqn:Ew; [right; apply busy_lower; [done|by right]|].
  left. by split.
Qed.

Lemma drains : dram_fair -> fifo_fair -> encoder_fair -> exists n, drained (after n).
Proof using Hok H0 Hreads.
  intros Hd Hf He. enough (Hw : forall w n, (work n <= w)%nat -> exists m, drained (after m)) by exact (Hw _ 0%nat (le_n _)).
  induction w as [w IH] using lt_wf_ind. intros n Hn. destruct (progress n Hd Hf He) as [|[m Hm]]; [by exists n|].
  exact (IH (work m) ltac:(lia) m (le_n _)).
Qed.

Lemma after_run n : after n = run aw p0 (edges <$> seq 0 n).
Proof using. induction n as [|n IH]; [done|]. by rewrite seq_S, fmap_app, run_edges, <- IH. Qed.
End forever.

(** Claim C2: the whole frame arrives. However the clocks run against each
    other, if DRAM controller, FIFO and encoder are fair then some time after a
    start strobe nothing is on the way any more, and the encoder has been given
    every pixel of the frame. *)
Theorem frame_arrives `{BitMath} {dram : Z -> Z} {DR : DmaReader dram} {AF : AsyncFifo}
    (aw b : Z) (BX BY : nat) (before : list edge) (start : edge) (edges : nat -> edge)
    (Hok : EncoderDma.frame_ok 128 1 (8 * Z.of_nat BX) (8 * Z.of_nat BY))
    (Hbefore : Forall waits before) (Hstart : starts b BX BY start) (Hreads : forall n, reads BX BY (edges n)) :
  let p0 := run aw reset (before ++ [start]) in
  dram_fair aw p0 edges -> fifo_fair aw p0 edges -> encoder_fair edges ->
  exists n, drained (run aw p0 (edges <$> seq 0 n)) /\
    length (pixels aw p0 (edges <$> seq 0 n)) = (64 * (BY * BX))%nat.
Proof.
  intros p0 Hd Hf He. destruct (frame_trace aw b BX BY Hok before start [] Hbefore Hstart (Forall_nil_2 _)) as (r & ws & Hi).
  assert (H0 : frame_inv aw b BX BY 0 [] [] p0).
  { destruct (quiet_run aw before _ quiet_reset Hbefore) as [Hq _].
    unfold p0. rewrite run_edges. exact (proj1 (start_inv aw b BX BY Hok start _ Hq Hstart)). }
  destruct (drains aw b BX BY p0 edges Hok H0 Hreads Hd Hf He) as [n Hn]. rewrite after_run in Hn. exists n. split; [done|].
  destruct (frame_run aw b BX BY Hok 0 [] [] (edges <$> seq 0 n) p0 H0) as (r' & ws' & Hi').
  { apply Forall_fmap, Forall_true. intros k. apply Hreads. }
  exact (drained_length aw b BX BY _ _ _ _ Hi' Hn).
Qed.

(** Lists for the modules, the clocks in turn: the frame of 16 by 8 pixels. *)
Definition turn (n : nat) : edge (dram := demo_dram) :=
  if Nat.even n then Sys 0 16 8 false (true, true) else Enc true.

Definition start_pipe : pipe (dram := demo_dram) := run 28 reset ([] ++ [demo_start]).

Lemma turn_reads n : reads (dram := demo_dram) 2 1 (turn n).
Proof. unfold turn. by destruct (Nat.even n). Qed.

Lemma even_or n : Nat.even n = true \/ Nat.even n = false /\ Nat.even (S n) = true.
Proof. destruct (Nat.even n) eqn:E; [by left|right]. split; [done|]. by rewrite Nat.even_succ, <- Nat.negb_even, E. Qed.

Lemma turn_dram_fair : dram_fair 28 start_pipe turn.
Proof.
  split; intros n Hn.
  - exists (2 * n)%nat. split; [lia|]. left. exists 0, 16, 8, false, (true, true). split; [|done].
    unfold turn. by rewrite Nat.even_mul.
  - assert (Hm : exists m, (n <= m)%nat /\ Nat.even m = true /\ owed_at 28 start_pipe turn m <> []).
    { destruct (even_or n) as [E|[E E']]; [by exists n|]. exists (S n). split; [lia|]. split; [done|].
      unfold owed_at. cbn [after]. unfold turn at 1. rewrite E. exact Hn. }
    destruct Hm as (m & Hle & E & Ho). exists m. split; [done|].
    destruct (decide (fifo_at 28 start_pipe turn m = [])) as [Ef|]; [left|by right].
    exists 0, 16, 8, false, (true, true). split; [unfold turn; by rewrite E|].
    unfold word_moves, fifo_at, owed_at in *. cbn [held queue_cdc in_flight list_dma source list_source writable] in *.
    rewrite Ef. by destruct (port (after 28 start_pipe turn m)).
Qed.

Lemma turn_fifo_fair : fifo_fair 28 start_pipe turn.
Proof.
  intros n Hn. assert (Hm : exists m, (n <= m)%nat /\ Nat.even m = false /\ fifo_at 28 start_pipe turn m <> []).
  { destruct (Nat.even n) eqn:E; [|by exists n]. exists (S n). split; [lia|].
    split; [by rewrite Nat.even_succ, <- Nat.negb_even, E|]. unfold fifo_at in *. cbn [after]. unfold turn at 1. rewrite E.
    cbn [held queue_cdc step sys_next encoder_cdc write_edge] in *. unfold queue_write. intros [Hl _]%app_eq_nil. by apply Hn. }
  destruct Hm as (m & Hle & E & Hh). exists m. split; [done|]. left. exists true. split; [unfold turn; by rewrite E|].
  unfold fifo_at in Hh. cbn [held queue_cdc readable] in *. by destruct (encoder_cdc (after 28 start_pipe turn m)).
Qed.

Lemma turn_encoder_fair : encoder_fair (dram := demo_dram) turn.
Proof. intros n. exists (S (2 * n)). split; [lia|]. unfold turn. by rewrite Nat.even_succ, <- Nat.negb_even, Nat.even_mul. Qed.

Lemma frame_arrives_witness :
  exists n, length (pixels 28 start_pipe (turn <$> seq 0 n)) = (64 * (1 * 2))%nat.
Proof.
  destruct (frame_arrives (dram := demo_dram) 28 256 2 1 [] demo_start turn
    ltac:(split; vm_compute; split; congruence || done) (Forall_nil_2 _) ltac:(by eexists) turn_reads
    turn_dram_fair turn_fifo_fair turn_encoder_fair) as (n & _ & Hn).
  exists n. exact Hn.
Defined.
