(* ===== verification/EncoderTop.v ===== *)
(** * The JPEG encoder's wrapper ([gateware/encoder/core.py], [Encoder])

    What stands between the streams and the encoder core: the pixel pipeline in
    front of it, the FIFO behind it, and the register bus. The core (VHDL), the
    chroma upsampler, the clock-domain bridge of the bus and the FIFO are
    third-party: the core is the environment, a class states what the FIFO
    does. *)
From S2P Require Import Prelude Hdl.

(** ** Pixels into the core *)

(** [ycbcr422to444.sink.y], [.cb_cr]: the halves of the stream's word. *)
Definition upsampler_y (data : Z) : Z := slice data 0 8.
Definition upsampler_cb_cr (data : Z) : Z := slice data 8 8.

(** The upsampler's output, and the core's read strobe. *)
Record PixIn := { valid : bool; y : Z; cb : Z; cr : Z; fdct_fifo_rd : bool }.

Record Pipe := { data_d1 : Z; data_d2 : Z; data_d3 : Z; data_d4 : Z; data_d5 : Z }.

Definition pipe_reset : Pipe := {| data_d1 := 0; data_d2 := 0; data_d3 := 0; data_d4 := 0; data_d5 := 0 |}.

(** [Cat(y, cb, cr)]. *)
Definition pixel (x : PixIn) : Z := cat 8 (y x) (cat 8 (cb x) (cr x)).

Definition pipe_next (x : PixIn) (s : Pipe) : Pipe := {|
  data_d1 := if fdct_fifo_rd x then pixel x else data_d1 s;
  data_d2 := data_d1 s; data_d3 := data_d2 s; data_d4 := data_d3 s; data_d5 := data_d4 s |}.

Definition fdct_fifo_q (s : Pipe) : Z := data_d4 s.
Definition fdct_fifo_hf_full (x : PixIn) : bool := valid x.
Definition upsampler_ready (x : PixIn) : bool := fdct_fifo_rd x.

(** A pixel leaves the upsampler. *)
Definition pixel_taken (x : PixIn) : bool := valid x && upsampler_ready x.

(** ** Bytes out of the core *)

(** [stream.SyncFIFO(layout, depth, buffered=True)]: its contents, oldest
    first; the level is their number. It takes a byte whenever fewer than
    [capacity] are in it (a buffered one has a register more than its depth);
    it offers its oldest byte when [readable], not necessarily at once. *)
Class SyncFifo (capacity : nat) := {
  fifo : Type;
  fifo_init : fifo;
  contents : fifo -> list Z;
  readable : fifo -> bool;
  writable : fifo -> bool;
  fifo_next : option Z -> bool -> fifo -> fifo;
  contents_init : contents fifo_init = [];
  readable_some f : readable f = true -> contents f <> [];
  writable_room f : (length (contents f) < capacity)%nat -> writable f = true;
  contents_next w r f :
    contents (fifo_next w r f) =
    ((if r && readable f then tail (contents f) else contents f) ++
     match w with Some b => if writable f then [b] else [] | None => [] end)%list
}.

(** A list is one. *)
Definition list_writable (capacity : nat) (l : list Z) : bool := (length l <? capacity)%nat.
Definition list_readable (l : list Z) : bool := negb (length l =? 0)%nat.
Definition list_fifo_next (capacity : nat) (w : option Z) (r : bool) (l : list Z) : list Z :=
  ((if r && list_readable l then tail l else l) ++
   match w with Some b => if list_writable capacity l then [b] else [] | None => [] end)%list.

Lemma list_readable_some l : list_readable l = true -> l <> [].
Proof. by destruct l. Qed.

Lemma list_writable_room capacity l : (length l < capacity)%nat -> list_writable capacity l = true.
Proof. by intros H%Nat.ltb_lt. Qed.

Definition list_fifo (capacity : nat) : SyncFifo capacity := {|
  fifo := list Z; fifo_init := []; contents l := l; readable := list_readable; writable := list_writable capacity;
  fifo_next := list_fifo_next capacity; contents_init := eq_refl; readable_some := list_readable_some;
  writable_room := list_writable_room capacity; contents_next _ _ _ := eq_refl |}.

Section output.
Context {capacity : nat} {SF : SyncFifo capacity}.

(** The core's write port and the reader of the stream. *)
Record OutIn := { ram_wren : bool; ram_byte : Z; source_ready : bool }.

(** [sink.valid] is [ram_wren]; [sink.ready] is not connected. *)
Definition out_next (x : OutIn) (f : fifo) : fifo :=
  fifo_next (if ram_wren x then Some (ram_byte x) else None) (source_ready x) f.

(** [level > 1024-128]. *)
Definition output_fifo_almost_full (f : fifo) : bool := (1024 - 128 <? length (contents f))%nat.

(** The bytes the core writes, and those the reader gets. *)
Definition written (x : OutIn) (f : fifo) : option Z := if ram_wren x then Some (ram_byte x) else None.
Definition delivered (x : OutIn) (f : fifo) : option Z :=
  if source_ready x && readable f then head (contents f) else None.

(** How many bytes the core writes in the cycles [n .. n+k-1]. *)
Definition writes (inp : nat -> OutIn) (n k : nat) : nat :=
  length (filter (fun m => ram_wren (inp m) = true) (seq n k)).

(** The core reacts to [almost_full]: while it holds, from any cycle on, it
    writes no more than [overshoot] bytes. *)
Definition reacts (overshoot : nat) (inp : nat -> OutIn) : Prop :=
  forall n k, (forall j, (j < k)%nat -> output_fifo_almost_full (state_at out_next fifo_init inp (n + j)) = true) ->
    (writes inp n k <= overshoot)%nat.
End output.

(** ** The register bus *)

(** [Cat(Signal(2), adr) & 0x3ff]; [~we]; [stb & cyc]. *)
Definition OPB_ABus (adr : Z) : Z := Z.land (cat 2 0 adr) 0x3ff.
Definition OPB_RNW (we : bool) : bool := negb we.
Definition OPB_select (stb cyc : bool) : bool := stb && cyc.

(** ** Theorems *)

Section output_theorems.
Context {capacity : nat} {SF : SyncFifo capacity} (inp : nat -> OutIn) (overshoot : nat).
#[local] Abbreviation st := (state_at out_next fifo_init inp).
#[local] Abbreviation level t := (length (contents (st t))).

Lemma writes_S n k : writes inp n (S k) = (writes inp n k + (if ram_wren (inp (n + k)%nat) then 1 else 0))%nat.
Proof using Type.
  unfold writes. rewrite seq_S, filter_app, length_app. f_equal. rewrite filter_cons, filter_nil.
  destruct (ram_wren (inp (n + k)%nat)); by destruct decide.
Qed.

Lemma contents_S t :
  contents (st (S t)) =
  ((if source_ready (inp t) && readable (st t) then tail (contents (st t)) else contents (st t)) ++
   match written (inp t) (st t) with Some b => if writable (st t) then [b] else [] | None => [] end)%list.
Proof using Type. apply contents_next. Qed.

Lemma level_S t : (level (S t) <= level t + (if ram_wren (inp t) then 1 else 0))%nat.
Proof using Type.
  rewrite contents_S, length_app. unfold written.
  assert (length (if source_ready (inp t) && readable (st t) then tail (contents (st t)) else contents (st t)) <= level t)%nat.
  { destruct (_ && _); [|done]. destruct (contents (st t)); cbn; lia. }
  destruct (ram_wren (inp t)); cbn [length]; [destruct (writable (st t)); cbn [length]; lia | lia].
Qed.

(** Every cycle is some cycles into a run of [almost_full]; the level is what
    it was at its start, at most, plus what was written since. *)
Lemma level_run t : exists n k, t = (n + k)%nat /\
  (forall j, (j < k)%nat -> output_fifo_almost_full (st (n + j)) = true) /\
  (level t <= 897 + writes inp n k)%nat.
Proof using Type.
  induction t as [|t (n & k & -> & Haf & Hl)].
  { exists 0%nat, 0%nat. split_and!; [done | lia|]. cbn [state_at]. rewrite contents_init. cbn. lia. }
  pose proof (level_S (n + k)) as HS. destruct (output_fifo_almost_full (st (n + k))) eqn:E.
  - exists n, (S k). split_and!; [lia | |].
    + intros j Hj. destruct (decide (j = k)) as [->|]; [done|]. apply Haf. lia.
    + rewrite writes_S. replace (n + S k)%nat with (S (n + k)) by lia. lia.
  - exists (S (n + k)), 0%nat. split_and!; [lia | lia|]. unfold output_fifo_almost_full in E. apply Nat.ltb_ge in E.
    rewrite Nat.add_0_r. destruct (ram_wren _); lia.
Qed.

Hypothesis Hreacts : reacts overshoot inp.
Lemma level_bound t : (level t <= 897 + overshoot)%nat.
Proof using Hreacts.
  destruct (level_run t) as (n & k & -> & Haf & Hl). pose proof (Hreacts n k Haf). lia.
Qed.

Hypothesis Hroom : (897 + overshoot <= capacity)%nat.

Lemma write_fits t : ram_wren (inp t) = true -> writable (st t) = true.
Proof using Hreacts Hroom.
  intros Hw. apply writable_room. destruct (output_fifo_almost_full (st t)) eqn:E.
  - destruct (level_run t) as (n & k & -> & Haf & Hl). assert (writes inp n (S k) <= overshoot)%nat as Ho.
    { apply Hreacts. intros j Hj. destruct (decide (j = k)) as [->|]; [done|]. apply Haf. lia. }
    rewrite writes_S, Hw in Ho. lia.
  - apply Nat.ltb_ge in E. lia.
Qed.

(** Claim C8: the encoder's output loses nothing. The write port ignores whether
    the FIFO is ready; if while the FIFO reports [almost_full] the core writes at
    most [overshoot] more bytes, and the FIFO has room for them beyond 897, then
    in every execution, however the reader stalls, every byte written is
    delivered, once and in order, or still in the FIFO, which never holds more
    than 897 plus [overshoot]. *)
Theorem encoder_output_lossless (t : nat) :
  events out_next written fifo_init inp t =
    (events out_next delivered fifo_init inp t ++ contents (st t))%list /\
  (level t <= 897 + overshoot)%nat.
Proof using Hreacts Hroom.
  split; [|apply level_bound]. induction t as [|t IH]; [cbn; by rewrite contents_init|].
  rewrite !events_S, IH, <- !app_assoc. f_equal. rewrite contents_S.
  pose proof (write_fits t) as Hw. unfold written, delivered.
  pose proof (readable_some (st t)) as Hr.
  destruct (source_ready (inp t) && readable (st t)) eqn:Er.
  - apply andb_true_iff in Er as [_ Er]. specialize (Hr Er). destruct (contents (st t)) as [|b l]; [done|].
    destruct (ram_wren (inp t)); [rewrite Hw by done; cbn; by rewrite ?app_nil_r | cbn; by rewrite !app_nil_r].
  - destruct (ram_wren (inp t)); [by rewrite Hw | cbn; by rewrite ?app_nil_r].
Qed.
End output_theorems.

(** A core that writes 1025 bytes without a pause and a reader that never takes
    one: with the buffered FIFO of depth 1024 all are kept. *)
Definition burst (n : nat) : OutIn :=
  {| ram_wren := (n <? 1025)%nat; ram_byte := Z.of_nat n mod 256; source_ready := false |}.

Lemma burst_reacts : reacts (SF := list_fifo 1025) 128 burst.
Proof.
  intros n [|k] Haf; [cbn; lia|]. assert (Hn : (897 <= n)%nat).
  { specialize (Haf 0%nat ltac:(lia)). rewrite Nat.add_0_r in Haf. apply Nat.ltb_lt in Haf.
    assert (forall t, length (contents (SyncFifo := list_fifo 1025)
      (state_at (out_next (SF := list_fifo 1025)) (fifo_init (SyncFifo := list_fifo 1025)) burst t)) <= t)%nat as H.
    { induction t as [|t IH]; [done|]. pose proof (level_S (SF := list_fifo 1025) burst t). destruct (ram_wren _); lia. }
    specialize (H n). lia. }
  unfold writes. transitivity (length (seq 897 128)); [|by rewrite length_seq].
  apply submseteq_length, NoDup_submseteq; [apply NoDup_filter, NoDup_seq|].
  intros m [Hm Hk]%list_elem_of_filter. apply elem_of_seq in Hk. cbn [burst ram_wren] in Hm. apply Nat.ltb_lt in Hm. apply elem_of_seq. lia.
Qed.

Lemma encoder_output_lossless_witness :
  length (contents (SyncFifo := list_fifo 1025)
    (state_at (out_next (SF := list_fifo 1025)) (fifo_init (SyncFifo := list_fifo 1025)) burst 1025)) = 1025%nat /\
  (1025 <= 897 + 128)%nat.
Proof.
  pose proof (proj2 (encoder_output_lossless (SF := list_fifo 1025) burst 128 burst_reacts ltac:(lia) 1025)) as H.
  match type of H with (?k <= _)%nat => assert (E : k = 1025%nat) by (vm_compute; reflexivity) end.
  rewrite E in H. exact (conj E H).
Defined.

(** Without the extra register the last byte of the burst is lost. *)
Example burst_overruns :
  length (state_at (out_next (SF := list_fifo 1024)) (fifo_init (SyncFifo := list_fifo 1024)) burst 1025) = 1024%nat.
Proof. vm_compute. reflexivity. Qed.

(** *** The pixel pipeline *)

(** A pixel the core reads is on [fdct_fifo_q] four cycles later. For
    every history of strobes: in cycle [t + 4] the core sees the pixel of the
    last cycle up to [t] in which it gave the strobe, [t] itself if it did; and
    the upsampler gives up a pixel in exactly the cycles with a strobe and
    something to read. *)
Theorem fdct_latency (s : Pipe) (inp : nat -> PixIn) (t n : nat)
    (Hn : (n <= t)%nat) (Hrd : fdct_fifo_rd (inp n) = true)
    (Hlast : forall m, (n < m <= t)%nat -> fdct_fifo_rd (inp m) = false) :
  fdct_fifo_q (state_at pipe_next s inp (t + 4)) = pixel (inp n) /\
  (pixel_taken (inp t) = true <-> fdct_fifo_hf_full (inp t) = true /\ fdct_fifo_rd (inp t) = true).
Proof.
  split.
  - replace (t + 4)%nat with (S (S (S (S t)))) by lia. cbn [state_at]. unfold fdct_fifo_q. cbn [pipe_next data_d4 data_d3 data_d2].
    induction Hn as [|t Ht IH]; [cbn [pipe_next data_d1]; by rewrite Hrd|].
    unfold pipe_next at 1. cbn [data_d1]. rewrite (Hlast (S t)) by lia. cbn [state_at]. apply IH. intros m Hm. apply Hlast. lia.
  - unfold pixel_taken, upsampler_ready, fdct_fifo_hf_full. by rewrite andb_true_iff.
Qed.

Lemma fdct_latency_witness :
  let inp n := {| valid := true; y := Z.of_nat n; cb := 0; cr := 0; fdct_fifo_rd := (n =? 3)%nat |} in
  fdct_fifo_q (state_at pipe_next pipe_reset inp 9) = 3.
Proof.
  intros inp. refine (proj1 (fdct_latency pipe_reset inp 5 3 ltac:(lia) eq_refl _)).
  intros m Hm. apply Nat.eqb_neq. lia.
Defined.

(** The words of the bus are the words of the core's 1 KiB register file; the
    upper address bits are ignored. *)
Lemma opb_word_address adr : 0 <= adr -> OPB_ABus adr = 4 * (adr mod 256).
Proof.
  intros H. unfold OPB_ABus. rewrite cat_eq by (unfold in_width; lia). rewrite Z.add_0_r.
  change 0x3ff with (Z.ones 10). rewrite Z.land_ones by lia. change (2 ^ 2) with 4. change (2 ^ 10) with (4 * 256).
  rewrite Z.mul_comm, Z.mul_mod_distr_l by lia. done.
Qed.

(** The stream's word is luma in the low byte, chroma in the high byte. *)
Lemma upsampler_split data : 0 <= data < 2 ^ 16 -> cat 8 (upsampler_y data) (upsampler_cb_cr data) = data.
Proof.
  intros H. unfold upsampler_y, upsampler_cb_cr. rewrite cat_eq by (lia || apply slice_range; lia).
  rewrite !slice_div by lia. change (2 ^ 0) with 1. rewrite Z.div_1_r. change (2 ^ 8) with 256.
  rewrite (Z.mod_small (data / 256)) by (split; [apply Z.div_pos; lia | apply Z.div_lt_upper_bound; lia]).
  pose proof (Z.div_mod data 256 ltac:(lia)). lia.
Qed.
