(* ===== verification/Streamer.v ===== *)
(** * From the encoder to USB ([gateware/streamer/core.py], [USBStreamer])

    The encoder's output FIFO (its own clock) feeds, through
    [encoder.source.connect(encoder_streamer.sink)] of [HDMI2USBSoC], the
    streamer's FIFO, which the core that talks to the FX2 chip reads on the
    USB clock. An execution is any sequence of edges of the two clocks. The
    encoder core and the FX2 core (both VHDL) are the environment; both FIFOs
    are classes. *)
From S2P Require Import Prelude Hdl Platform.
From S2P Require PlatformAtlys PlatformOpsis.
#[local] Open Scope Z_scope.
From S2P Require EncoderTop EncoderPipeline.

Section streamer.
Context {capacity : nat} {SF : EncoderTop.SyncFifo capacity} {AF : EncoderPipeline.AsyncFifo}.

Record st := State { output : @EncoderTop.fifo capacity SF; usb : @EncoderPipeline.fifo AF }.

Definition reset : st := State EncoderTop.fifo_init EncoderPipeline.fifo_init.

(** An edge of the encoder's clock with the core's write port; one of the USB
    clock with the FX2 core's acknowledge. *)
Inductive edge := Encoder (ram_wren : bool) (ram_byte : Z) | Usb (sink_ack : bool).

(** [Record.connect(sink, fifo.sink)]: the output FIFO's reader is ready when the
    streamer's FIFO has room. *)
Definition out_in (ram_wren : bool) (ram_byte : Z) (s : st) : EncoderTop.OutIn :=
  {| EncoderTop.ram_wren := ram_wren; EncoderTop.ram_byte := ram_byte;
     EncoderTop.source_ready := EncoderPipeline.writable (usb s) |}.

(** [i_sink_stb], [i_sink_data]. *)
Definition sink_stb (s : st) : bool := EncoderPipeline.is_some (EncoderPipeline.readable (usb s)).
Definition sink_data (s : st) : Z := default 0 (EncoderPipeline.readable (usb s)).

Definition step (k : edge) (s : st) : st :=
  match k with
  | Encoder wren byte =>
      let x := out_in wren byte s in
      State (EncoderTop.out_next x (output s)) (EncoderPipeline.write_edge (EncoderTop.delivered x (output s)) (usb s))
  | Usb ack => State (output s) (EncoderPipeline.read_edge (sink_stb s && ack) (usb s))
  end.

(** The byte the encoder core writes, and the one the FX2 core takes. *)
Definition coded (k : edge) : option Z := match k with Encoder true byte => Some byte | _ => None end.
Definition sent (k : edge) (s : st) : option Z :=
  match k with Usb ack => if sink_stb s && ack then Some (sink_data s) else None | _ => None end.

Definition run (l : list edge) : st := fold_left (fun s k => step k s) l reset.

Fixpoint sent_from (s : st) (l : list edge) : list Z :=
  match l with [] => [] | k :: l => (option_list (sent k s) ++ sent_from (step k s) l)%list end.

(** What the output FIFO sees, edge by edge of its clock. *)
Fixpoint out_ins (s : st) (l : list edge) : list EncoderTop.OutIn :=
  match l with
  | [] => []
  | k :: l => ((match k with Encoder wren byte => [out_in wren byte s] | Usb _ => [] end) ++ out_ins (step k s) l)%list
  end.

Definition no_write : EncoderTop.OutIn :=
  {| EncoderTop.ram_wren := false; EncoderTop.ram_byte := 0; EncoderTop.source_ready := false |}.

Definition out_at (l : list edge) (n : nat) : EncoderTop.OutIn := nth n (out_ins reset l) no_write.

(** ** Theorems *)

Lemma stream_run_snoc l k : run (l ++ [k]) = step k (run l).
Proof using Type. unfold run. by rewrite fold_left_app. Qed.

Lemma sent_snoc s l k : sent_from s (l ++ [k]) = (sent_from s l ++ option_list (sent k (fold_left (fun s k => step k s) l s)))%list.
Proof using Type.
  revert s. induction l as [|x l IH]; intros s; cbn [app sent_from fold_left]; [by rewrite app_nil_r|]. by rewrite IH, app_assoc.
Qed.

Lemma out_ins_app s l1 l2 :
  out_ins s (l1 ++ l2) = (out_ins s l1 ++ out_ins (fold_left (fun s k => step k s) l1 s) l2)%list.
Proof using Type.
  revert s. induction l1 as [|x l1 IH]; intros s; cbn [app out_ins fold_left]; [done|]. by rewrite IH, app_assoc.
Qed.

(** The output FIFO runs on its own edges. *)
Lemma output_at l l' :
  output (run l) = state_at EncoderTop.out_next EncoderTop.fifo_init (out_at (l ++ l')) (length (out_ins reset l)).
Proof using Type.
  revert l'. induction l as [|k l IH] using rev_ind; intros l'; [done|].
  rewrite stream_run_snoc, out_ins_app, length_app, <- app_assoc. specialize (IH ([k] ++ l')%list). fold (run l).
  destruct k as [wren byte|ack]; cbn [out_ins app length step output] in *.
  - rewrite Nat.add_1_r. cbn [state_at]. rewrite <- IH. f_equal.
    unfold out_at. rewrite out_ins_app, app_nth2 by lia. by rewrite Nat.sub_diag.
  - rewrite Nat.add_0_r. exact IH.
Qed.
End streamer.
Section delivery.
Context {capacity : nat} {SF : EncoderTop.SyncFifo capacity} {AF : EncoderPipeline.AsyncFifo}.
Context (overshoot : nat) (L : list edge) (Hreacts : EncoderTop.reacts overshoot (out_at L)) (Hroom : (897 + overshoot <= capacity)%nat).

(** In every cycle of the schedule the byte written finds room. *)
Lemma byte_fits l byte l' : L = (l ++ Encoder true byte :: l')%list ->
  EncoderTop.writable (output (run l)) = true.
Proof using Hreacts Hroom.
  intros ->. rewrite (output_at l (Encoder true byte :: l')).
  apply (EncoderTop.write_fits _ overshoot Hreacts Hroom). unfold out_at. rewrite out_ins_app, app_nth2 by lia.
  by rewrite Nat.sub_diag.
Qed.

(** Everything written so far has been sent, or is in one of the FIFOs. *)
Lemma nothing_lost l l' : L = (l ++ l')%list ->
  omap coded l = (sent_from reset l ++ EncoderPipeline.held (usb (run l)) ++ EncoderTop.contents (output (run l)))%list.
Proof using Hreacts Hroom.
  revert l'. induction l as [|k l IH] using rev_ind; intros l' HL.
  { cbn. by rewrite EncoderPipeline.held_init, EncoderTop.contents_init. }
  rewrite <- app_assoc in HL. specialize (IH _ HL). rewrite omap_app, IH, stream_run_snoc, sent_snoc. fold (run l).
  destruct k as [wren byte|ack].
  - cbn [sent option_list step usb output]. rewrite app_nil_r, <- !app_assoc. f_equal.
    unfold EncoderTop.out_next. rewrite EncoderTop.contents_next. cbn [EncoderTop.source_ready out_in EncoderTop.ram_wren EncoderTop.ram_byte].
    rewrite EncoderPipeline.held_write.
    2:{ unfold EncoderTop.delivered. cbn [EncoderTop.source_ready out_in]. by destruct (EncoderPipeline.writable (usb (run l))). }
    rewrite <- app_assoc. f_equal. unfold EncoderTop.delivered. cbn [EncoderTop.source_ready out_in].
    assert (Hw : omap coded [Encoder wren byte] = match (if wren then Some byte else None) with
      | Some b => if EncoderTop.writable (output (run l)) then [b] else [] | None => [] end).
    { destruct wren; [|done]. cbn [app] in HL. by rewrite (byte_fits l byte _ HL). }
    rewrite Hw. destruct (EncoderPipeline.writable (usb (run l)) && EncoderTop.readable (output (run l))) eqn:E; [|done].
    apply andb_true_iff in E as [_ E]. apply EncoderTop.readable_some in E. by destruct (EncoderTop.contents (output (run l))).
  - cbn [omap list_omap coded step usb output]. rewrite app_nil_r, <- !app_assoc. f_equal.
    rewrite EncoderPipeline.held_read.
    2:{ unfold sink_stb. by destruct (EncoderPipeline.readable (usb (run l))). }
    cbn [sent]. unfold sink_stb, sink_data.
    destruct (EncoderPipeline.readable (usb (run l))) as [w|] eqn:E; [|done]. cbn [EncoderPipeline.is_some andb].
    destruct ack; [|done]. apply EncoderPipeline.readable_oldest in E as [r ->]. done.
Qed.

(** Claim C9: from the encoder core to the FX2 core. Let [L] be a schedule in which
    the encoder core, while almost_full holds, writes at most [overshoot] more
    bytes, and let the output FIFO have room for them beyond the 897 at which
    almost_full rises. Then, however the two clocks run against each other, whenever
    the FX2 core acknowledges, and however often the streamer's FIFO is full,
    the bytes the FX2 core has taken are the first bytes the encoder core wrote,
    in order, none lost, repeated or reordered: what is missing is in the two
    FIFOs, first the streamer's, then the encoder's; so when both are empty it
    has all. (Nothing but almost_full holds the encoder core back: without the two
    conditions bytes are lost.) *)
Theorem usb_stream_lossless :
  omap coded L = (sent_from reset L ++ EncoderPipeline.held (usb (run L)) ++ EncoderTop.contents (output (run L)))%list.
Proof using Hreacts Hroom. apply (nothing_lost L []). by rewrite app_nil_r. Qed.
End delivery.

(** *** A schedule that uses all the room

    The encoder core writes 1029 bytes without a pause while the USB clock
    stands still: four go to the streamer's FIFO, and the last 128 are written
    while almost_full holds, until the output FIFO is full. Then the FX2 core
    takes six. *)
Section burst.
#[local] Instance output_fifo : EncoderTop.SyncFifo 1025 := EncoderTop.list_fifo 1025.
#[local] Existing Instance EncoderPipeline.queue_cdc.

Definition burst_schedule : list edge :=
  (((fun n => Encoder true (Z.of_nat n mod 256)) <$> seq 0 1029) ++ replicate 6 (Usb true))%list.

Abbreviation burst_level t :=
  (length (EncoderTop.contents (state_at EncoderTop.out_next EncoderTop.fifo_init (out_at burst_schedule) t))).

Lemma burst_level_bound t : (burst_level (10 + t) <= 6 + t)%nat.
Proof.
  induction t as [|t IH]; [vm_compute; lia|].
  pose proof (EncoderTop.level_S (out_at burst_schedule) (10 + t)) as HS. rewrite Nat.add_succ_r.
  destruct (EncoderTop.ram_wren _); lia.
Qed.

Lemma burst_writes n : (1029 <= n)%nat -> EncoderTop.ram_wren (out_at burst_schedule n) = false.
Proof.
  intros Hn. unfold out_at. rewrite nth_overflow; [done|].
  assert (length (out_ins reset burst_schedule) = 1029%nat) as -> by (vm_compute; reflexivity). exact Hn.
Qed.

Lemma burst_stops_in_time : EncoderTop.reacts 128 (out_at burst_schedule).
Proof.
  intros n [|k] Haf; [unfold EncoderTop.writes; cbn; lia|].
  assert (Hn : (901 <= n)%nat).
  { specialize (Haf 0%nat ltac:(lia)). rewrite Nat.add_0_r in Haf. apply Nat.ltb_lt in Haf.
    destruct (decide (10 <= n)%nat) as [Hn|Hn].
    - pose proof (burst_level_bound (n - 10)) as Hl. replace (10 + (n - 10))%nat with n in Hl by lia. lia.
    - exfalso. assert (Forall (fun t => burst_level t <= 896)%nat (seq 0 10)) as Hl
        by (apply (bool_decide_unpack (Forall _ _)); vm_compute; exact I).
      rewrite Forall_forall in Hl. specialize (Hl n ltac:(apply elem_of_seq; lia)). lia. }
  unfold EncoderTop.writes. transitivity (length (seq 901 128)); [|by rewrite length_seq].
  apply submseteq_length, NoDup_submseteq; [apply NoDup_filter, NoDup_seq|].
  intros m [Hm Hk]%list_elem_of_filter. apply elem_of_seq in Hk. apply elem_of_seq.
  destruct (decide (m < 1029)%nat); [lia|]. rewrite burst_writes in Hm by lia. discriminate Hm.
Qed.

Lemma usb_stream_lossless_witness :
  length (EncoderTop.contents (output (run burst_schedule))) = 1025%nat /\
  (omap coded burst_schedule = sent_from reset burst_schedule ++ EncoderPipeline.held (usb (run burst_schedule)) ++
     EncoderTop.contents (output (run burst_schedule)))%list /\
  sent_from reset burst_schedule = [0; 1; 2; 3].
Proof.
  split; [vm_compute; reflexivity|].
  split; [exact (usb_stream_lossless 128 burst_schedule burst_stops_in_time ltac:(lia)) | vm_compute; reflexivity].
Defined.
End burst.

(** ** The pads *)

#[local] Open Scope string_scope.

(** The ports of the FX2 core and of the clock buffer, and the signals of
    [platform.request("fx2")] they are connected to. *)
Definition fx2_pads : list (string * string) := [
  ("i_I", "ifclk"); ("io_fx2_data", "data"); ("i_fx2_full_n", "flagb"); ("i_fx2_empty_n", "flagc");
  ("o_fx2_addr", "addr"); ("o_fx2_cs_n", "cs_n"); ("o_fx2_wr_n", "wr_n"); ("o_fx2_rd_n", "rd_n");
  ("o_fx2_oe_n", "oe_n"); ("o_fx2_pktend_n", "pktend_n")].

(** The signals of a board's resource. *)
Definition signals (l : list resource) (name : string) : list string :=
  flat_map (fun r : resource =>
    if String.eqb (res_name r) name then omap (fun c => match c with Subsignal s _ => Some s | _ => None end) (res_constraints r) else []) l.

(** Both boards with an FX2 have all of them; the core leaves only flaga alone. *)
Lemma fx2_signals :
  Forall (fun p => signals (io p) "fx2" ≡ₚ "flaga" :: (snd <$> fx2_pads)) [PlatformAtlys.atlys; PlatformOpsis.opsis].
Proof.
  assert (H : forall a b : list string, bool_decide (a ⊆+ b) = true -> bool_decide (b ⊆+ a) = true -> a ≡ₚ b).
  { intros a b Ha%bool_decide_eq_true Hb%bool_decide_eq_true. by apply (anti_symm submseteq). }
  repeat constructor; apply H; vm_compute; reflexivity.
Qed.
