(* ===== verification/Pattern.v ===== *)
(** * firmware/pattern.py: the words of the colour bars

    The script computes, in doubles, the YCbCr 4:2:2 word of two equal pixels
    for each of eight colours and prints it; firmware/pattern.h holds the words
    the firmware draws with. *)
From Stdlib Require Import SpecFloat.
From S2P Require Import Prelude PyStr Units.
From S2P Require EncoderTop.
#[local] Open Scope Z_scope.
#[local] Open Scope string_scope.
#[local] Open Scope py_scope.

(** [x + y], [x - y], [-x]; [lit m k] is the literal [m / 10^k], the nearest
    double, which the division of two exact doubles gives. *)
Definition fadd : float -> float -> float := SFadd 53 1024.
Definition fsub : float -> float -> float := SFsub 53 1024.
Definition fneg : float -> float := SFopp.
Definition lit (m k : Z) : float := SFdiv 53 1024 (of_int m) (of_int (10 ^ k)).

Definition rgb2ycbcr (r g b : Z) : result (Z * Z * Z) :=
  let r := of_int r in let g := of_int g in let b := of_int b in
  y ← to_int (fadd (fadd (fmul (lit 299 3) r) (fmul (lit 587 3) g)) (fmul (lit 114 3) b));
  cb ← to_int (fadd (fadd (fsub (fmul (fneg (lit 1687 4)) r) (fmul (lit 3313 4) g)) (fmul (lit 5 1) b)) (of_int 128));
  cr ← to_int (fadd (fsub (fsub (fmul (lit 5 1) r) (fmul (lit 4187 4) g)) (fmul (lit 813 4) b)) (of_int 128));
  Ok (y, cb, cr).

Definition ycbcr_pack (y cb cr : Z) : Z :=
  Z.lor (Z.lor (Z.lor y (Z.shiftl cr 8)) (Z.shiftl y 16)) (Z.shiftl cb 24).

Definition color_bars_rgb : list (Z * Z * Z) := [
  (255, 255, 255);
  (255, 255,   0);
  (0,   255, 255);
  (0,   255,   0);
  (255,   0, 255);
  (255,   0,   0);
  (0,     0, 255);
  (0,     0,   0)].

Definition color_word (c : Z * Z * Z) : result Z :=
  let '(r, g, b) := c in
  '(y, cb, cr) ← rgb2ycbcr r g b;
  Ok (ycbcr_pack y cb cr).

(** What is printed, a line for a colour. *)
Fixpoint print_words (l : list (Z * Z * Z)) : result (list string) :=
  match l with
  | [] => Ok []
  | c :: l => w ← color_word c; rest ← print_words l; Ok (hex8 w :: rest)
  end.

(** [YCBCR422_WHITE] to [YCBCR422_BLACK] of pattern.h. *)
Definition pattern_h : list Z :=
  [0x80ff80ff; 0x00e194e1; 0xabb200b2; 0x2b951595; 0xd469e969; 0x544cff4c; 0xff1d6f1d; 0x80108010].

(** ** Theorems *)

Lemma lor_shift (a b k : Z) : 0 <= k -> in_width k a -> Z.lor a (Z.shiftl b k) = (a + b * 2 ^ k)%Z.
Proof.
  intros Hk Ha. assert (Hl : Z.land a (Z.shiftl b k) = 0%Z).
  { apply Z.bits_inj'. intros n Hn. rewrite Z.land_spec, Z.bits_0. destruct (Z.lt_ge_cases n k) as [Hlt|Hge].
    - by rewrite Z.shiftl_spec_low, andb_false_r.
    - rewrite <- (wrap_id k a Ha). unfold wrap. by rewrite Z.mod_pow2_bits_high by lia. }
  rewrite <- Z.lxor_lor, <- Z.add_nocarry_lxor, Z.shiftl_mul_pow2 by done. done.
Qed.

Lemma pack_sum y cb cr :
  in_width 8 y -> in_width 8 cr -> ycbcr_pack y cb cr = (y + cr * 2 ^ 8 + y * 2 ^ 16 + cb * 2 ^ 24)%Z.
Proof.
  unfold in_width. intros Hy Hr. unfold ycbcr_pack.
  rewrite (lor_shift y cr 8), (lor_shift _ y 16), (lor_shift _ cb 24) by (unfold in_width; lia). done.
Qed.

(** The fields of a word do not overlap: the encoder's sink sees, of the upper
    half, the luminance and the blue difference, of the lower half the same
    luminance and the red difference. *)
Theorem word_fields (y cb cr : Z) (Hy : in_width 8 y) (Hb : in_width 8 cb) (Hr : in_width 8 cr) :
  let w := ycbcr_pack y cb cr in
  in_width 32 w /\
  EncoderTop.upsampler_y (slice w 16 16) = y /\ EncoderTop.upsampler_cb_cr (slice w 16 16) = cb /\
  EncoderTop.upsampler_y (slice w 0 16) = y /\ EncoderTop.upsampler_cb_cr (slice w 0 16) = cr.
Proof.
  intros w. assert (Hw : w = (y + cr * 2 ^ 8 + y * 2 ^ 16 + cb * 2 ^ 24)%Z) by (by apply pack_sum).
  clearbody w. subst w. unfold in_width in *. split; [lia|].
  unfold EncoderTop.upsampler_y, EncoderTop.upsampler_cb_cr. rewrite !slice_div by lia.
  change (2 ^ 24)%Z with 16777216%Z. change (2 ^ 16)%Z with 65536%Z. change (2 ^ 8)%Z with 256%Z. change (2 ^ 0)%Z with 1%Z.
  change (2 ^ 8)%Z with 256%Z in *. split_and!; Z.div_mod_to_equations; lia.
Qed.

Lemma word_fields_witness : EncoderTop.upsampler_cb_cr (slice (ycbcr_pack 0x69 0xd4 0xea) 16 16) = 0xd4%Z.
Proof. exact (proj1 (proj2 (proj2 (word_fields 0x69 0xd4 0xea ltac:(split; done) ltac:(split; done) ltac:(split; done))))). Defined.

Definition agrees (r : result Z) (z : Z) : bool := match r with Ok w => (w =? z)%Z | Raise _ => false end.

(** What the script prints, and where pattern.h, which refers to it, has
    something else: the purple, the blue and the black. *)
Theorem printed_words :
  print_words color_bars_rgb =
    Ok ["80ff80ff"; "00e194e1"; "abb200b2"; "2b951595"; "d469ea69"; "544cff4c"; "ff1d6b1d"; "80008000"] /\
  List.filter (fun p => negb (agrees (fst p) (snd p))) (zip (color_word <$> color_bars_rgb) pattern_h) =
    [(Ok 0xd469ea69, 0xd469e969); (Ok 0xff1d6b1d, 0xff1d6f1d); (Ok 0x80008000, 0x80108010)]%Z.
Proof. split; vm_compute; reflexivity. Qed.
