(* ===== verification/OpsisI2c.v ===== *)
(** * The I2C slave of the Opsis ([gateware/opsis_i2c.py])

    [I2CShiftReg]: an I2C slave that hands bytes to the firmware through a
    shift register and a status register. It samples the bus lines every eight
    cycles, detects edges and start conditions on the samples, receives bytes
    bit by bit, answers to its address, stretches the clock while the firmware
    is not ready, and sends or receives one byte at a time.

    [CSRStorage] with [write_from_dev] and [chooser] are third-party: classes
    state what the module relies on. The [MultiReg] synchronisers are outside:
    [scl_raw] and [sda_raw] are inputs. *)
From S2P Require Import Prelude Hdl.

(** A register that the CPU and the hardware both write. Who wins a
    simultaneous write is left open. *)
Class CSRStorageDev := {
  csr_next : option Z -> option Z -> Z -> Z;
  csr_keep v : csr_next None None v = v;
  csr_bus b v : csr_next (Some b) None v = b;
  csr_dev d v : csr_next None (Some d) v = d;
  csr_both b d v : csr_next (Some b) (Some d) v = b \/ csr_next (Some b) (Some d) v = d
}.

Definition csr_bus_wins (b d : option Z) (v : Z) : Z :=
  match b, d with Some b, _ => b | None, Some d => d | None, None => v end.

#[export] Instance csr_bus_first : CSRStorageDev := {|
  csr_next := csr_bus_wins;
  csr_keep _ := eq_refl; csr_bus _ _ := eq_refl; csr_dev _ _ := eq_refl;
  csr_both _ _ _ := or_introl eq_refl
|}.

(** [chooser(signal, shift, output, n, reverse=True)] for a 1-bit output. *)
Class Chooser := {
  chooser_rev : Z -> Z -> Z -> bool;
  chooser_rev_spec s k n : 0 <= k < n -> chooser_rev s k n = Z.testbit s (n - 1 - k)
}.

Definition testbit_rev (s k n : Z) : bool := Z.testbit s (n - 1 - k).

#[export] Instance testbit_chooser : Chooser := {|
  chooser_rev := testbit_rev;
  chooser_rev_spec _ _ _ _ := eq_refl
|}.

Definition STATUS_FULL : Z := 1.
Definition STATUS_EMPTY : Z := 2.

Inductive fsm_state :=
| WAIT_START | RCV_ADDRESS | ACK_ADDRESS0 | ACK_ADDRESS1 | ACK_ADDRESS2 | PAUSE
| DO_READ | ACK_READ0 | ACK_READ1 | DO_WRITE | ACK_WRITE0 | ACK_WRITE1 | ACK_WRITE2.

#[export] Instance fsm_state_eq_dec : EqDecision fsm_state.
Proof. solve_decision. Defined.

(** What the module sees in a cycle: the synchronised lines and the CPU's
    writes. [addr_re] is [slave_addr.re]. *)
Record I2CIn := {
  scl_raw : bool; sda_raw : bool;
  bus_shift_reg : option Z; bus_status : option Z; bus_slave_addr : option Z;
  addr_re : bool
}.

Record I2CShiftReg := {
  shift_reg : Z; status : Z; slave_addr : Z;
  sda_drv_reg : bool; scl_drv_reg : bool;
  samp_count : Z; samp_carry : bool;
  scl_i : bool; sda_i : bool; scl_r : bool; sda_r : bool;
  din : Z; counter : Z; is_read : bool;
  data_bit : bool; data_drv : bool;
  fsm : fsm_state
}.

Definition reset : I2CShiftReg := {|
  shift_reg := 0; status := STATUS_EMPTY; slave_addr := 0;
  sda_drv_reg := false; scl_drv_reg := false;
  samp_count := 0; samp_carry := false;
  scl_i := false; sda_i := false; scl_r := false; sda_r := false;
  din := 0; counter := 0; is_read := false;
  data_bit := false; data_drv := false; fsm := WAIT_START
|}.

(** The open-drain pads: the line is pulled low when [oe] is set. *)
Definition scl_oe (s : I2CShiftReg) : bool := scl_drv_reg s.
Definition sda_oe (s : I2CShiftReg) : bool := sda_drv_reg s.

(** [samp_count] and [samp_carry] after [Cat(samp_count, samp_carry).eq(samp_count + 1)]. *)
Definition sample_next (s : I2CShiftReg) : Z * bool :=
  let x := wrap 4 (samp_count s + 1) in (slice x 0 3, Z.testbit x 3).

Definition shift_reg_full (s : I2CShiftReg) : bool := Z.testbit (status s) 0.
Definition shift_reg_empty (s : I2CShiftReg) : bool := Z.testbit (status s) 1.
Definition scl_rising (s : I2CShiftReg) : bool := scl_i s && negb (scl_r s).
Definition scl_falling (s : I2CShiftReg) : bool := negb (scl_i s) && scl_r s.
Definition sda_falling (s : I2CShiftReg) : bool := negb (sda_i s) && sda_r s.
Definition start (s : I2CShiftReg) : bool := scl_i s && sda_falling s.

(** The combinational signals the FSM drives; each is 0 by default. *)
Record FsmOut := {
  counter_reset : bool; update_is_read : bool; zero_drv : bool; pause_drv : bool;
  data_drv_en : bool; data_drv_stop : bool;
  status_w : option Z; shift_reg_w : option Z;
  next_state : fsm_state
}.

Definition fsm_default (q : fsm_state) : FsmOut :=
  {| counter_reset := false; update_is_read := false; zero_drv := false; pause_drv := false;
     data_drv_en := false; data_drv_stop := false; status_w := None; shift_reg_w := None;
     next_state := q |}.

Definition ack_phase (zero : bool) (q : fsm_state) (w : option Z) : FsmOut :=
  {| counter_reset := true; update_is_read := false; zero_drv := zero; pause_drv := false;
     data_drv_en := false; data_drv_stop := false; status_w := w; shift_reg_w := None;
     next_state := q |}.

Definition fsm_act (s : I2CShiftReg) : FsmOut :=
  match fsm s with
  | WAIT_START =>
      {| counter_reset := false; update_is_read := false; zero_drv := false; pause_drv := false;
         data_drv_en := false; data_drv_stop := true; status_w := None; shift_reg_w := None;
         next_state := WAIT_START |}
  | RCV_ADDRESS =>
      let full := counter s =? 8 in
      let hit := slice (din s) 1 7 =? slave_addr s in
      {| counter_reset := false; update_is_read := full && hit; zero_drv := false; pause_drv := false;
         data_drv_en := false; data_drv_stop := true; status_w := None; shift_reg_w := None;
         next_state := if full then if hit then ACK_ADDRESS0 else WAIT_START else RCV_ADDRESS |}
  | ACK_ADDRESS0 => ack_phase false (if negb (scl_i s) then ACK_ADDRESS1 else ACK_ADDRESS0) None
  | ACK_ADDRESS1 => ack_phase true (if scl_i s then ACK_ADDRESS2 else ACK_ADDRESS1) None
  | ACK_ADDRESS2 => ack_phase true (if negb (scl_i s) then PAUSE else ACK_ADDRESS2) None
  | PAUSE =>
      {| counter_reset := true; update_is_read := false; zero_drv := false; pause_drv := true;
         data_drv_en := false; data_drv_stop := false; status_w := None; shift_reg_w := None;
         next_state :=
           if negb (shift_reg_empty s) && is_read s then DO_READ
           else if negb (shift_reg_full s) && negb (is_read s) then DO_WRITE else PAUSE |}
  | DO_READ =>
      let low := negb (scl_i s) in
      let sent := counter s =? 8 in
      {| counter_reset := false; update_is_read := false; zero_drv := false; pause_drv := false;
         data_drv_en := low && negb sent; data_drv_stop := low && sent;
         status_w := if low && sent then Some STATUS_EMPTY else None; shift_reg_w := None;
         next_state := if low && sent then ACK_READ0 else DO_READ |}
  | ACK_READ0 =>
      ack_phase false (if scl_rising s then if sda_i s then WAIT_START else ACK_READ1 else ACK_READ0) None
  | ACK_READ1 => ack_phase false (if scl_falling s then PAUSE else ACK_READ1) None
  | DO_WRITE =>
      let full := counter s =? 8 in
      {| counter_reset := false; update_is_read := false; zero_drv := false; pause_drv := false;
         data_drv_en := false; data_drv_stop := false; status_w := None;
         shift_reg_w := if full then Some (din s) else None;
         next_state := if full then ACK_WRITE0 else DO_WRITE |}
  | ACK_WRITE0 => ack_phase false (if negb (scl_i s) then ACK_WRITE1 else ACK_WRITE0) None
  | ACK_WRITE1 => ack_phase true (if scl_i s then ACK_WRITE2 else ACK_WRITE1) None
  | ACK_WRITE2 =>
      ack_phase true (if negb (scl_i s) then PAUSE else ACK_WRITE2)
        (if negb (scl_i s) then Some STATUS_FULL else None)
  end.

(** The two loops over [fsm.actions]: a start condition restarts reception,
    and a write of the address wins over everything. *)
Definition fsm_next (i : I2CIn) (s : I2CShiftReg) : fsm_state :=
  if addr_re i then WAIT_START
  else if start s then RCV_ADDRESS
  else next_state (fsm_act s).

Definition sda_drv (s : I2CShiftReg) : bool :=
  if zero_drv (fsm_act s) then true else if data_drv s then negb (data_bit s) else false.

(** The bit counter and the input shift register. *)
Definition counter_next (s : I2CShiftReg) : Z :=
  if scl_rising s then if counter s =? 8 then 0 else wrap 4 (counter s + 1)
  else if start s || counter_reset (fsm_act s) then 0 else counter s.

Definition din_next (s : I2CShiftReg) : Z :=
  if scl_rising s && negb (counter s =? 8) then cat 1 (b2z (sda_i s)) (slice (din s) 0 7)
  else din s.

Section Machine.
Context {CS : CSRStorageDev} {CH : Chooser}.

Definition next (i : I2CIn) (s : I2CShiftReg) : I2CShiftReg :=
  let o := fsm_act s in
  {| shift_reg := csr_next (wrap 8 <$> bus_shift_reg i) (shift_reg_w o) (shift_reg s);
     status := csr_next (wrap 2 <$> bus_status i) (status_w o) (status s);
     slave_addr := match bus_slave_addr i with Some a => wrap 7 a | None => slave_addr s end;
     sda_drv_reg := sda_drv s;
     scl_drv_reg := pause_drv o;
     samp_count := fst (sample_next s);
     samp_carry := snd (sample_next s);
     scl_i := if samp_carry s then scl_raw i else scl_i s;
     sda_i := if samp_carry s then sda_raw i else sda_i s;
     scl_r := scl_i s;
     sda_r := sda_i s;
     din := din_next s;
     counter := counter_next s;
     is_read := if update_is_read o then Z.testbit (din s) 0 else is_read s;
     data_bit := if data_drv_en o then chooser_rev (shift_reg s) (counter s) 8 else data_bit s;
     data_drv := if data_drv_en o then true else if data_drv_stop o then false else data_drv s;
     fsm := fsm_next i s |}.

(** The bit a listener sees at a rising edge of the sampled clock, and what
    the slave itself puts on the line in that cycle ([true]: released). *)
Definition bit_in (i : I2CIn) (s : I2CShiftReg) : option bool :=
  if scl_rising s then Some (sda_i s) else None.

Definition bit_out (i : I2CIn) (s : I2CShiftReg) : option bool :=
  if scl_rising s then Some (negb (sda_oe s)) else None.

(** No start condition and no address write in the cycle. *)
Definition undisturbed (i : I2CIn) (s : I2CShiftReg) : Prop := start s = false /\ addr_re i = false.
(** ** Well-formedness *)

Record wf (s : I2CShiftReg) : Prop := {
  wf_counter : 0 <= counter s <= 8;
  wf_din : in_width 8 (din s);
  wf_shift : in_width 8 (shift_reg s);
  wf_samp : in_width 3 (samp_count s);
  wf_carry : samp_carry s = true -> samp_count s = 0;
  wf_scl_edge : scl_i s <> scl_r s -> samp_count s = 1;
  wf_sda_edge : sda_i s <> sda_r s -> samp_count s = 1
}.

Lemma csr_next_cases b d v :
  csr_next b d v = v \/ b = Some (csr_next b d v) \/ d = Some (csr_next b d v).
Proof.
  destruct b as [b|], d as [d|].
  - destruct (csr_both b d v) as [E|E]; rewrite E; auto.
  - rewrite csr_bus. auto.
  - rewrite csr_dev. auto.
  - rewrite csr_keep. auto.
Qed.

Lemma sample_next_spec s :
  in_width 3 (samp_count s) ->
  fst (sample_next s) = (samp_count s + 1) mod 8 /\ snd (sample_next s) = (samp_count s =? 7).
Proof.
  unfold in_width. intros Hs. unfold sample_next.
  assert (samp_count s = 0 \/ samp_count s = 1 \/ samp_count s = 2 \/ samp_count s = 3 \/
          samp_count s = 4 \/ samp_count s = 5 \/ samp_count s = 6 \/ samp_count s = 7) as Hc by lia.
  by destruct Hc as [->|[->|[->|[->|[->|[->|[->| ->]]]]]]].
Qed.

Lemma wf_reset : wf reset.
Proof. split; simpl; unfold in_width; done || lia. Qed.

Lemma din_next_eq s :
  in_width 8 (din s) ->
  din_next s = if scl_rising s && negb (counter s =? 8)
               then shift_in 8 1 (din s) (b2z (sda_i s)) else din s.
Proof. intros. unfold din_next, shift_in. split_ifs; done. Qed.

Lemma wf_next i s : wf s -> wf (next i s).
Proof.
  intros [Hc Hd Hs Hn Hcar Hscl Hsda]. destruct (sample_next_spec s Hn) as [Hn' Hc'].
  split; cbn [next counter din shift_reg samp_count samp_carry scl_i scl_r sda_i sda_r].
  - unfold counter_next. split_ifs; try lia. unfold wrap. apply Z.eqb_neq in Heqb0.
    rewrite Z.mod_small; lia.
  - rewrite din_next_eq by done. split_ifs; [apply shift_in_range; [lia | apply b2z_range] | done].
  - destruct (csr_next_cases (wrap 8 <$> bus_shift_reg i) (shift_reg_w (fsm_act s)) (shift_reg s)) as [-> | [E|E]]; [done | |].
    + apply fmap_Some in E as [x [_ ->]]. apply wrap_range; lia.
    + revert E. generalize (csr_next (wrap 8 <$> bus_shift_reg i) (shift_reg_w (fsm_act s)) (shift_reg s)).
      intros z E. assert (z = din s) as ->; [|done].
      unfold fsm_act in E. destruct (fsm s); simpl in E; try done. destruct (_ =? _) in E; congruence.
  - rewrite Hn'. unfold in_width. pose proof (Z.mod_pos_bound (samp_count s + 1) 8). lia.
  - rewrite Hn', Hc'. intros E%Z.eqb_eq. by rewrite E.
  - rewrite Hn'. destruct (samp_carry s); [intros _; by rewrite Hcar | done].
  - rewrite Hn'. destruct (samp_carry s); [intros _; by rewrite Hcar | done].
Qed.

Lemma wf_state_at s inp t : wf s -> wf (state_at next s inp t).
Proof. intros. apply state_at_invariant; [done | by intros; apply wf_next]. Qed.

(** The two registers the invariant of the protocol leaves out. *)
Definition csr_typed (s : I2CShiftReg) : Prop := in_width 2 (status s) /\ in_width 7 (slave_addr s).

Lemma csr_typed_next i s : csr_typed s -> csr_typed (next i s).
Proof.
  intros [Hs Ha]. split; cbn [next status slave_addr].
  - destruct (csr_next_cases (wrap 2 <$> bus_status i) (status_w (fsm_act s)) (status s)) as [-> | [E|E]]; [done | |].
    + apply fmap_Some in E as [x [_ ->]]. apply wrap_range; lia.
    + revert E. generalize (csr_next (wrap 2 <$> bus_status i) (status_w (fsm_act s)) (status s)).
      intros z E. assert (z = STATUS_EMPTY \/ z = STATUS_FULL) as [-> | ->]; [|done..].
      unfold fsm_act in E. destruct (fsm s); simpl in E; try done; repeat case_match; simplify_eq; auto.
  - destruct (bus_slave_addr i); [apply wrap_range; lia | done].
Qed.

(** Claim C27: the registers of the slave keep their types. From reset, under any
    signals on the bus, any writes of the firmware, whatever LiteX's register
    does on simultaneous writes: at every cycle each register holds a value of
    its declared width, and the four-bit bit counter never passes 8. *)
Theorem i2c_registers_typed (inp : nat -> I2CIn) (t : nat) :
  let s := state_at next reset inp t in
  in_width 8 (shift_reg s) /\ in_width 2 (status s) /\ in_width 7 (slave_addr s) /\
  in_width 3 (samp_count s) /\ in_width 8 (din s) /\ in_width 4 (counter s) /\ counter s <= 8.
Proof.
  intros s. assert (Hw : wf s) by (apply wf_state_at, wf_reset).
  assert (csr_typed s) as [H1 H2].
  { apply state_at_invariant; [by split; vm_compute | by intros; apply csr_typed_next]. }
  pose proof (wf_counter _ Hw). split_and!; try done; try by destruct Hw.
  all: unfold in_width; lia.
Qed.

Lemma samp_count_at s inp t :
  wf s -> samp_count (state_at next s inp t) = (samp_count s + Z.of_nat t) mod 8.
Proof.
  intros Hw. induction t as [|t IH].
  { simpl. rewrite Z.add_0_r. symmetry. apply Z.mod_small. apply Hw. }
  cbn [state_at next samp_count]. pose proof (wf_state_at s inp t Hw) as Ht.
  destruct (sample_next_spec _ (wf_samp _ Ht)) as [-> _]. rewrite IH.
  rewrite Zplus_mod_idemp_l. f_equal. lia.
Qed.

Definition edge (s : I2CShiftReg) : Prop := scl_i s <> scl_r s \/ sda_i s <> sda_r s.

Lemma edge_count s : wf s -> edge s -> samp_count s = 1.
Proof. intros Hw [E|E]; [by apply wf_scl_edge | by apply wf_sda_edge]. Qed.

(** A rising edge: the clock was low in the two cycles before it. *)
Lemma rising_low_before s inp t :
  wf s -> scl_rising (state_at next s inp (S (S t))) = true ->
  scl_i (state_at next s inp (S t)) = false /\ scl_i (state_at next s inp t) = false.
Proof.
  intros Hw Hr. unfold scl_rising in Hr. apply andb_prop in Hr as [Hi Hr%negb_true_iff].
  cbn [state_at] in *. set (u := state_at next s inp t) in *.
  pose proof (wf_state_at s inp t Hw) as Hu. fold u in Hu.
  change (scl_i (next (inp t) u) = false) in Hr. split; [done|].
  change ((if samp_carry (next (inp t) u) then scl_raw (inp (S t)) else scl_i (next (inp t) u)) = true) in Hi.
  destruct (samp_carry (next (inp t) u)) eqn:Hc; [|congruence].
  cbn [next samp_carry] in Hc. rewrite (proj2 (sample_next_spec u (wf_samp _ Hu))) in Hc.
  apply Z.eqb_eq in Hc. cbn [next scl_i] in Hr.
  destruct (samp_carry u) eqn:Ec; [|done]. apply (wf_carry _ Hu) in Ec. lia.
Qed.
(** ** Receiving bits *)

Definition receiving (q : fsm_state) : Prop := q = RCV_ADDRESS \/ q = DO_WRITE.

(** The value of eight bits, the first one the most significant. *)
Definition byte_of (bits : list bool) : Z := digits 1 (b2z <$> bits).

Lemma rcv_step i s :
  wf s -> receiving (fsm s) -> counter s <> 8 -> undisturbed i s ->
  fsm (next i s) = fsm s /\
  match bit_in i s with
  | Some b => counter (next i s) = counter s + 1 /\ din (next i s) = shift_in 8 1 (din s) (b2z b)
  | None => counter (next i s) = counter s /\ din (next i s) = din s
  end.
Proof.
  intros Hw Hq Hc%Z.eqb_neq [Hs Ha]. cbn [next fsm counter din]. unfold fsm_next. rewrite Ha, Hs.
  rewrite din_next_eq by apply Hw. unfold counter_next, bit_in. rewrite Hs, Hc.
  assert (wrap 4 (counter s + 1) = counter s + 1) as E.
  { pose proof (wf_counter _ Hw). apply wrap_id. unfold in_width. lia. }
  unfold fsm_act. rewrite Hc, E. destruct Hq as [-> | ->]; cbn; destruct (scl_rising s); done.
Qed.

Lemma rcv_bits s inp t :
  wf s -> receiving (fsm s) -> counter s = 0 ->
  (forall n, (n < t)%nat -> undisturbed (inp n) (state_at next s inp n)) ->
  (length (events next bit_in s inp t) <= 7)%nat ->
  let s' := state_at next s inp t in
  let bits := events next bit_in s inp t in
  fsm s' = fsm s /\ counter s' = Z.of_nat (length bits) /\ din s' = shift_ins 8 1 (din s) (b2z <$> bits).
Proof.
  intros Hw Hq Hc. cbv zeta. induction t as [|t IH]; intros Hu Hl; [done|].
  rewrite events_S in *. rewrite length_app in Hl.
  destruct IH as (IHf & IHc & IHd); [auto with lia | lia |].
  destruct (rcv_step (inp t) (state_at next s inp t)) as [Hf Hb].
  - by apply wf_state_at.
  - by rewrite IHf.
  - rewrite IHc. lia.
  - apply Hu. lia.
  - rewrite state_at_S. split; [congruence|].
    destruct (bit_in _ _) as [b|]; cbn [option_list]; destruct Hb as [-> ->].
    + rewrite IHc, IHd, length_app, fmap_app, (shift_ins_snoc 8 1 _ _ (b2z b)). simpl. split; [lia | done].
    + by rewrite app_nil_r.
Qed.

(** The eighth bit completes the byte. *)
Lemma rcv_byte s inp u b :
  wf s -> receiving (fsm s) -> counter s = 0 ->
  (forall n, (n <= u)%nat -> undisturbed (inp n) (state_at next s inp n)) ->
  length (events next bit_in s inp u) = 7%nat ->
  bit_in (inp u) (state_at next s inp u) = Some b ->
  let s' := state_at next s inp (S u) in
  fsm s' = fsm s /\ counter s' = 8 /\ din s' = byte_of (events next bit_in s inp u ++ [b]).
Proof.
  intros Hw Hq Hc Hu Hl Hb. cbv zeta. rewrite state_at_S.
  destruct (rcv_bits s inp u) as (Hf & Hcu & Hd); [done | done | done | auto with lia | lia |].
  destruct (rcv_step (inp u) (state_at next s inp u)) as [Hf' Hb'].
  - by apply wf_state_at.
  - by rewrite Hf.
  - rewrite Hcu. lia.
  - apply Hu. lia.
  - rewrite Hb in Hb'. destruct Hb' as [-> ->]. split; [congruence|]. split; [rewrite Hcu; lia|].
    rewrite Hd, <- shift_ins_snoc. unfold byte_of. rewrite fmap_app. cbn [fmap list_fmap].
    apply shift_ins_full; [lia | apply Hw | |].
    + apply Forall_app. split; [apply Forall_fmap, Forall_true; intros; apply b2z_range|].
      repeat constructor; apply b2z_range.
    + rewrite length_app, length_fmap, Hl. done.
Qed.

(** ** A byte written by the master *)

(** From the pause in which the slave lets the master write, the eight bits
    the master clocks in become the byte of the shift register, and the slave
    goes on to acknowledge it. *)
(** Claim C6: From the pause of a write transfer with the shift register
    free, whatever the clock's timing, the eight bits sampled at the next
    eight rising clock edges (first bit most significant) are the byte stored
    into the shift register one cycle after the last edge, and the slave moves
    on to the acknowledge phase, provided no start condition and no address
    write intervene. *)
Theorem i2c_receives_byte s inp u b :
  wf s -> fsm s = PAUSE -> is_read s = false -> shift_reg_full s = false -> scl_i s = false ->
  (forall n, (n <= S (S u))%nat -> undisturbed (inp n) (state_at next s inp n)) ->
  let s1 := next (inp 0%nat) s in
  let inp1 n := inp (S n) in
  length (events next bit_in s1 inp1 u) = 7%nat ->
  bit_in (inp1 u) (state_at next s1 inp1 u) = Some b ->
  bus_shift_reg (inp (S (S u))) = None ->
  let s' := state_at next s inp (S (S (S u))) in
  shift_reg s' = byte_of (events next bit_in s1 inp1 u ++ [b]) /\ fsm s' = ACK_WRITE0 /\
  status s' = csr_next (wrap 2 <$> bus_status (inp (S (S u)))) None (status (state_at next s inp (S (S u)))).
Proof.
  intros Hw Hf Hr Hfull Hscl Hu. cbv zeta. intros Hl Hb Hbus.
  assert (forall n, state_at next s inp (S n) =
                    state_at next (next (inp 0%nat) s) (fun n => inp (S n)) n) as Hshift.
  { intros n. apply (state_at_add next s inp 1 n). }
  set (s1 := next (inp 0%nat) s) in *.
  assert (fsm s1 = DO_WRITE /\ counter s1 = 0) as [H1f H1c].
  { destruct (Hu 0%nat) as [Hs Ha]; [lia|]. cbn [state_at] in Hs. unfold s1.
    cbn [next fsm counter]. unfold fsm_next, counter_next, scl_rising.
    rewrite Hs, Ha, Hscl. unfold fsm_act. rewrite Hf, Hr, Hfull. cbn.
    by rewrite andb_false_r. }
  destruct (rcv_byte s1 (fun n => inp (S n)) u b) as (Ef & Ec & Ed).
  - by apply wf_next.
  - by right.
  - done.
  - intros n Hn. rewrite <- Hshift. apply Hu. lia.
  - done.
  - done.
  - rewrite (state_at_S next s). rewrite (Hshift (S u)).
    set (v := state_at next s1 _ (S u)) in *. assert ((counter v =? 8) = true) as Ec' by (rewrite Ec; done).
    destruct (Hu (S (S u))) as [Hs Ha]; [lia|]. rewrite (Hshift (S u)) in Hs. fold v in Hs.
    cbn [next shift_reg fsm status]. unfold fsm_next. rewrite Ha, Hs, Hbus. unfold fsm_act.
    rewrite Ef, H1f, Ec'. cbn. rewrite csr_dev. done.
Qed.

(** Claim C10: After a start condition with the clock already high, the eight
    bits of the next eight rising edges are compared with the slave's address:
    when the upper seven are the address the slave goes on to acknowledge and
    remembers the last bit as the transfer's direction, otherwise it waits for
    the next start condition. *)
Theorem i2c_address_phase s inp u b :
  wf s -> start s = true -> scl_rising s = false -> addr_re (inp 0%nat) = false ->
  (forall n, (0 < n <= S (S u))%nat -> undisturbed (inp n) (state_at next s inp n)) ->
  let s1 := next (inp 0%nat) s in
  let inp1 n := inp (S n) in
  length (events next bit_in s1 inp1 u) = 7%nat ->
  bit_in (inp1 u) (state_at next s1 inp1 u) = Some b ->
  let byte := byte_of (events next bit_in s1 inp1 u ++ [b]) in
  let s' := state_at next s inp (S (S (S u))) in
  if byte / 2 =? slave_addr (state_at next s inp (S (S u)))
  then fsm s' = ACK_ADDRESS0 /\ is_read s' = Z.odd byte
  else fsm s' = WAIT_START /\ is_read s' = is_read (state_at next s inp (S (S u))).
Proof.
  intros Hw Hst Hrise Ha0 Hu. cbv zeta. intros Hl Hb.
  assert (forall n, state_at next s inp (S n) =
                    state_at next (next (inp 0%nat) s) (fun n => inp (S n)) n) as Hshift.
  { intros n. apply (state_at_add next s inp 1 n). }
  set (s1 := next (inp 0%nat) s) in *.
  assert (fsm s1 = RCV_ADDRESS /\ counter s1 = 0) as [H1f H1c].
  { unfold s1. cbn [next fsm counter]. unfold fsm_next, counter_next. by rewrite Ha0, Hst, Hrise. }
  destruct (rcv_byte s1 (fun n => inp (S n)) u b) as (Ef & Ec & Ed).
  - by apply wf_next.
  - by left.
  - done.
  - intros n Hn. rewrite <- Hshift. apply Hu. lia.
  - done.
  - done.
  - rewrite <- Ed, !(Hshift (S u)), (Hshift (S (S u))), (state_at_S next s1 _ (S u)).
    set (v := state_at next s1 _ (S u)) in *. assert ((counter v =? 8) = true) as Ec' by (rewrite Ec; done).
    assert (wf v) as Hv by (apply wf_state_at, wf_next; done).
    assert (slice (din v) 1 7 = din v / 2) as Esl.
    { rewrite slice_div by lia. apply Z.mod_small. destruct (wf_din _ Hv).
      change (2 ^ 1) with 2. change (2 ^ 8) with 256 in *. change (2 ^ 7) with 128.
      split; [apply Z.div_pos; lia | apply Z.div_lt_upper_bound; lia]. }
    destruct (Hu (S (S u))) as [Hs Ha]; [lia|]. rewrite (Hshift (S u)) in Hs. fold v in Hs.
        cbn [next is_read fsm]. unfold fsm_next. cbv beta. rewrite Ha, Hs. unfold fsm_act.
    rewrite Ef, H1f, Ec', Esl. destruct (din v `div` 2 =? slave_addr v); cbn; [|done].
    split; [done | apply Z.bit0_odd].
Qed.
(** ** A byte read by the master *)

Definition quiet (i : I2CIn) (s : I2CShiftReg) : Prop :=
  undisturbed i s /\ bus_shift_reg i = None.

(** Bits of a byte in transmission order. *)
Definition sent_bits (v : Z) (n : nat) : list bool :=
  (fun k => Z.testbit v (7 - Z.of_nat k)) <$> seq 0 n.

Lemma sent_bits_S v n : sent_bits v (S n) = sent_bits v n ++ [Z.testbit v (7 - Z.of_nat n)].
Proof. unfold sent_bits. by rewrite seq_S, fmap_app. Qed.

Lemma read_step i s :
  wf s -> fsm s = DO_READ -> counter s <> 8 -> quiet i s ->
  fsm (next i s) = DO_READ /\ shift_reg (next i s) = shift_reg s /\
  counter (next i s) = counter s + b2z (scl_rising s) /\
  (scl_i s = false -> data_drv (next i s) = true /\
                      data_bit (next i s) = Z.testbit (shift_reg s) (7 - counter s)) /\
  sda_oe (next i s) = data_drv s && negb (data_bit s).
Proof.
  intros Hw Hf Hc%Z.eqb_neq [[Hs Ha] Hb]. pose proof (wf_counter _ Hw).
  unfold sda_oe. cbn [next fsm counter shift_reg data_drv data_bit sda_drv_reg].
  unfold fsm_next, counter_next, sda_drv, fsm_act. rewrite Ha, Hs, Hb, Hf, Hc. cbn.
  rewrite andb_false_r, andb_true_r, csr_keep. apply Z.eqb_neq in Hc. repeat split.
  - destruct (scl_rising s); cbn; [apply wrap_id; unfold in_width|]; lia.
  - by rewrite H0.
  - rewrite H0. cbn. rewrite chooser_rev_spec by lia. f_equal; lia.
Qed.

Lemma bit_out_length i s : Z.of_nat (length (option_list (bit_out i s))) = b2z (scl_rising s).
Proof. unfold bit_out. by destruct (scl_rising s). Qed.

Lemma read_inv s inp t :
  wf s -> fsm s = DO_READ -> counter s = 0 ->
  (forall n, (n < t)%nat -> quiet (inp n) (state_at next s inp n)) ->
  (length (events next bit_out s inp t) <= 8)%nat ->
  (forall n, (n < t)%nat -> (length (events next bit_out s inp n) <= 7)%nat) ->
  let s' := state_at next s inp t in
  fsm s' = DO_READ /\ shift_reg s' = shift_reg s /\
  counter s' = Z.of_nat (length (events next bit_out s inp t)).
Proof.
  intros Hw Hf Hc. cbv zeta. induction t as [|t IH]; intros Hq Hl Hl'; [done|].
  destruct IH as (If_ & Is & Ic); [auto with lia | | auto with lia |].
  { pose proof (Hl' t ltac:(lia)). lia. }
  pose proof (Hl' t ltac:(lia)) as Hlt.
  destruct (read_step (inp t) (state_at next s inp t)) as (Ef & Es & Ec & _).
  - by apply wf_state_at.
  - done.
  - rewrite Ic. lia.
  - apply Hq. lia.
  - rewrite state_at_S. split; [done|]. split; [congruence|].
    rewrite Ec, Ic, events_S, length_app, Nat2Z.inj_add, bit_out_length. lia.
Qed.

Lemma events_mono {E} (ev : I2CIn -> I2CShiftReg -> option E) s inp a b :
  (a <= b)%nat -> (length (events next ev s inp a) <= length (events next ev s inp b))%nat.
Proof.
  induction 1 as [|b _ IH]; [done|]. rewrite events_S, length_app. lia.
Qed.

(** What the slave puts on the line at a rising edge. *)
Lemma read_bit s inp n :
  wf s -> fsm s = DO_READ -> counter s = 0 ->
  (forall m, (m <= S n)%nat -> quiet (inp m) (state_at next s inp m)) ->
  (length (events next bit_out s inp (S (S n))) <= 7)%nat ->
  scl_rising (state_at next s inp (S (S n))) = true ->
  negb (sda_oe (state_at next s inp (S (S n)))) =
  Z.testbit (shift_reg s) (7 - Z.of_nat (length (events next bit_out s inp (S (S n))))).
Proof.
  intros Hw Hf Hc Hq Hl Hr. destruct (rising_low_before s inp n Hw Hr) as [L1 L0].
  assert (forall m, (m <= S (S n))%nat -> (length (events next bit_out s inp m) <= 7)%nat) as Hl'.
  { intros m Hm. pose proof (events_mono bit_out s inp m (S (S n)) Hm). lia. }
  assert (forall m, (m <= S (S n))%nat -> let s' := state_at next s inp m in
    fsm s' = DO_READ /\ shift_reg s' = shift_reg s /\
    counter s' = Z.of_nat (length (events next bit_out s inp m))) as Hinv.
  { intros m Hm. apply read_inv; [done | done | done | | |]; intros; auto with lia. }
  destruct (Hinv n) as (F0 & S0 & C0); [lia|]. destruct (Hinv (S n)) as (F1 & S1 & C1); [lia|].
  destruct (Hinv (S (S n))) as (_ & _ & C2); [lia|].
  destruct (read_step (inp n) (state_at next s inp n)) as (_ & _ & Ec0 & Ed & _);
    [by apply wf_state_at | done | rewrite C0; pose proof (Hl' n); lia | apply Hq; lia |].
  destruct (read_step (inp (S n)) (state_at next s inp (S n))) as (_ & _ & Ec1 & _ & Eo);
    [by apply wf_state_at | done | rewrite C1; pose proof (Hl' (S n)); lia | apply Hq; lia |].
  destruct (Ed L0) as [Dd Db]. rewrite state_at_S, Eo. rewrite (state_at_S next s inp n), Dd, Db.
  rewrite andb_true_l, negb_involutive, S0. f_equal. rewrite <- C2, state_at_S, Ec1.
  unfold scl_rising at 1. rewrite L1. rewrite state_at_S, Ec0. unfold scl_rising. rewrite L0. cbn [andb b2z]. lia.
Qed.

Lemma read_bits s inp t :
  wf s -> fsm s = DO_READ -> counter s = 0 ->
  scl_i s = false -> scl_i (state_at next s inp 1) = false ->
  (forall m, (m < t)%nat -> quiet (inp m) (state_at next s inp m)) ->
  (forall n, (n < t)%nat -> (length (events next bit_out s inp n) <= 7)%nat) ->
  events next bit_out s inp t =
  sent_bits (shift_reg s) (length (events next bit_out s inp t)).
Proof.
  intros Hw Hf Hc L0 L1. induction t as [|t IH]; intros Hq Hl; [done|].
  rewrite events_S. specialize (IH ltac:(auto with lia) ltac:(auto with lia)).
  destruct (bit_out (inp t) (state_at next s inp t)) as [b|] eqn:E; cbn [option_list].
  2: { by rewrite !app_nil_r. }
  unfold bit_out in E. destruct (scl_rising _) eqn:Hr in E; [|done]. injection E as <-.
  destruct t as [|[|n]].
  { unfold scl_rising in Hr. cbn in Hr. by rewrite L0 in Hr. }
  { unfold scl_rising in Hr. by rewrite L1 in Hr. }
  rewrite length_app, Nat.add_1_r, sent_bits_S, <- IH. f_equal. refine (f_equal (fun x => [x]) _).
  apply read_bit; auto with lia.
Qed.

(** After the last bit the slave waits for the clock to fall. *)
Lemma read_wait s inp w :
  wf s -> fsm s = DO_READ -> counter s = 8 ->
  (forall m, (m <= w)%nat -> undisturbed (inp m) (state_at next s inp m)) ->
  (forall m, (m < w)%nat -> scl_i (state_at next s inp m) = true) ->
  (forall m, (m <= w)%nat -> scl_rising (state_at next s inp m) = false) ->
  fsm (state_at next s inp w) = DO_READ /\ counter (state_at next s inp w) = 8.
Proof.
  intros Hw Hf Hc. induction w as [|w IH]; intros Hu Hh Hr; [done|].
  destruct IH as [IF IC]; [auto with lia.. |]. destruct (Hu w) as [Hs Ha]; [lia|].
  rewrite state_at_S. cbn [next fsm counter]. unfold fsm_next, counter_next, fsm_act.
  rewrite Ha, Hs, IF, IC, Hh, Hr by lia. done.
Qed.

(** Claim C5: From the pause of a read transfer with a byte in the shift
    register, and whatever the clock's timing as long as the clock the slave
    was stretching stays low two more cycles, the level the slave puts on SDA
    at the successive rising clock edges is the byte's bits, most significant
    first; after the eighth bit it waits for the clock to fall, then releases
    the line, reports the register empty and listens for the master's
    acknowledge. *)
Theorem i2c_sends_byte s inp u w :
  wf s -> fsm s = PAUSE -> is_read s = true -> shift_reg_empty s = false ->
  scl_i s = false -> bus_shift_reg (inp 0%nat) = None ->
  let s1 := next (inp 0%nat) s in
  let inp1 n := inp (S n) in
  scl_i s1 = false -> scl_i (state_at next s1 inp1 1) = false ->
  undisturbed (inp 0%nat) s ->
  (forall n, (n <= u + S w)%nat -> quiet (inp1 n) (state_at next s1 inp1 n)) ->
  (forall n, (n <= u)%nat -> (length (events next bit_out s1 inp1 n) <= 7)%nat) ->
  let sent := events next bit_out s1 inp1 (S u) in
  sent = sent_bits (shift_reg s) (length sent) /\
  (length sent = 8%nat ->
   let v n := state_at next s1 inp1 (S u + n) in
   (forall n, (n < w)%nat -> scl_i (v n) = true) ->
   (forall n, (n <= w)%nat -> scl_rising (v n) = false) ->
   scl_i (v w) = false -> bus_status (inp1 (S u + w)%nat) = None ->
   let s' := v (S w) in
   fsm s' = ACK_READ0 /\ status s' = STATUS_EMPTY /\ data_drv s' = false /\ sda_drv s' = false).
Proof.
  intros Hw Hf Hr He Hscl Hb0. cbv zeta. intros L0 L1 [Hs Ha] Hq Hl.
  set (s1 := next (inp 0%nat) s) in *. set (inp1 := fun n => inp (S n)) in *.
  assert (wf s1) as Hw1 by (apply wf_next; done).
  assert (fsm s1 = DO_READ /\ counter s1 = 0 /\ shift_reg s1 = shift_reg s) as (H1f & H1c & H1s).
  { unfold s1. cbn [next fsm counter shift_reg]. unfold fsm_next, counter_next, scl_rising.
    rewrite Hs, Ha, Hscl, Hb0. unfold fsm_act. rewrite Hf, Hr, He. cbn. by rewrite csr_keep. }
  assert (events next bit_out s1 inp1 (S u) =
          sent_bits (shift_reg s) (length (events next bit_out s1 inp1 (S u)))) as Hsent.
  { rewrite <- H1s. apply read_bits; try done; intros; [apply Hq | apply Hl]; lia. }
  split; [done|]. intros Hlen Hhi Hri Hlo Hbs.
  assert (fsm (state_at next s1 inp1 (S u)) = DO_READ /\ counter (state_at next s1 inp1 (S u)) = 8)
    as [Fu Cu].
  { destruct (read_inv s1 inp1 (S u)) as (? & _ & E);
      [done | done | done | intros; apply Hq; lia | by rewrite Hlen | intros; apply Hl; lia |].
    by rewrite E, Hlen. }
  destruct (read_wait (state_at next s1 inp1 (S u)) (fun n => inp1 (S u + n)%nat) w) as [Fw Cw].
  1: by apply wf_state_at. 1, 2: done.
  1-3: intros m Hm; rewrite <- state_at_add; (apply Hq + apply Hhi + apply Hri); lia.
  rewrite <- state_at_add in Fw, Cw. rewrite Nat.add_succ_r, state_at_S.
  set (v := state_at next s1 inp1 (S u + w)) in *.
  destruct (Hq (S u + w)%nat) as [[Hs' Ha'] _]; [lia|]. fold v in Hs'.
  change (addr_re (inp1 (S u + w)%nat) = false) in Ha'.
  change (bus_status (inp1 (S u + w)%nat) = None) in Hbs.
  assert (fsm (next (inp1 (S u + w)%nat) v) = ACK_READ0 /\
          status (next (inp1 (S u + w)%nat) v) = STATUS_EMPTY /\
          data_drv (next (inp1 (S u + w)%nat) v) = false) as (F' & S' & D').
  { cbn [next fsm status data_drv]. unfold fsm_next. rewrite Ha', Hs'.
    unfold fsm_act. rewrite Fw, Cw, Hlo, Hbs. cbn. by rewrite csr_dev. }
  repeat split; [done..|]. unfold sda_drv, fsm_act. by rewrite F', D'.
Qed.
(** ** Safety *)

(** Claim C11: A slave that has not been addressed never drives the bus: if
    from reset it pulls SDA or SCL low in some cycle, then in an earlier cycle
    it had received eight bits of which the upper seven are its address. *)
Theorem i2c_silent_until_addressed inp t :
  (sda_oe (state_at next reset inp t) = true \/ scl_oe (state_at next reset inp t) = true) ->
  exists n, (n < t)%nat /\ let s := state_at next reset inp n in
    fsm s = RCV_ADDRESS /\ counter s = 8 /\ slice (din s) 1 7 = slave_addr s.
Proof.
  intros Ho.
  assert (forall m, (exists n, (n < m)%nat /\ let s := state_at next reset inp n in
            fsm s = RCV_ADDRESS /\ counter s = 8 /\ slice (din s) 1 7 = slave_addr s) \/
          (let s := state_at next reset inp m in
           (fsm s = WAIT_START \/ fsm s = RCV_ADDRESS) /\ data_drv s = false /\
           sda_oe s = false /\ scl_oe s = false)) as Hinv.
  { intros m. induction m as [|m [[n [Hn IH]]|IH]]; [right; cbn; auto | left; eauto with lia |].
    set (s := state_at next reset inp m) in *.
    destruct (decide (fsm s = RCV_ADDRESS /\ counter s = 8 /\ slice (din s) 1 7 = slave_addr s)) as [Hm|Hm].
    { left. eauto with lia. }
    right. destruct IH as (Hf & Hd & _). cbv zeta. rewrite state_at_S. fold s.
    unfold sda_oe, scl_oe. cbn [next fsm data_drv sda_drv_reg scl_drv_reg].
    unfold fsm_next, sda_drv, fsm_act. rewrite Hd.
    destruct Hf as [Hf|Hf]; rewrite Hf; cbn; split_ifs; auto.
    all: rewrite ?Z.eqb_eq in *; tauto. }
  destruct (Hinv t) as [?|(_ & _ & E1 & E2)]; [done|]. cbv zeta in E1, E2. rewrite E1, E2 in Ho.
  by destruct Ho.
Qed.

(** States in which a byte is on its way into, or out of, the shift register. *)
Definition writing (q : fsm_state) : bool :=
  match q with DO_WRITE | ACK_WRITE0 | ACK_WRITE1 | ACK_WRITE2 => true | _ => false end.

Lemma start_high s : start s = true -> scl_i s = true.
Proof. unfold start. by intros [? _]%andb_prop. Qed.

(** The slave's own writes of the status register. *)
Lemma status_w_cases s : status_w (fsm_act s) = None \/ status_w (fsm_act s) = Some STATUS_EMPTY \/
  status_w (fsm_act s) = Some STATUS_FULL /\ fsm s = ACK_WRITE2 /\ scl_i s = false.
Proof using Type. unfold fsm_act. destruct (fsm s); cbn; try (by left); repeat case_match; auto. by destruct (scl_i s); auto. Qed.

(** A set flag, or one the slave sets, stays set unless the firmware clears it
    or the slave reports the register empty. *)
Lemma full_or_cleared i s :
  status_w (fsm_act s) <> Some STATUS_EMPTY ->
  shift_reg_full s = true \/ status_w (fsm_act s) = Some STATUS_FULL ->
  shift_reg_full (next i s) = true \/ exists x, bus_status i = Some x /\ Z.testbit x 0 = false.
Proof using Type.
  intros He Hf. unfold shift_reg_full in *. cbn [next status].
  assert (Hbit : forall b, Z.testbit (wrap 2 b) 0 = Z.testbit b 0) by (intros b; apply Z.mod_pow2_bits_low; lia).
  destruct (status_w_cases s) as [E|[E|[E _]]]; [|done|]; rewrite E in *; clear He.
  - destruct Hf as [Hf|Hf]; [|done]. destruct (bus_status i) as [b|]; cbn [fmap option_fmap option_map].
    + rewrite csr_bus, Hbit. destruct (Z.testbit b 0) eqn:Eb; eauto.
    + rewrite csr_keep. by left.
  - destruct (bus_status i) as [b|]; cbn [fmap option_fmap option_map]; [|rewrite csr_dev; by left].
    destruct (csr_both (wrap 2 b) STATUS_FULL (status s)) as [-> | ->]; [|by left].
    rewrite Hbit. destruct (Z.testbit b 0) eqn:Eb; eauto.
Qed.

(** While the flag is set the slave does not start to receive. *)
Lemma full_stays_out i s :
  (writing (fsm s) = false /\ shift_reg_full s = true) \/ status_w (fsm_act s) = Some STATUS_FULL ->
  writing (fsm (next i s)) = false.
Proof using Type.
  intros H. cbn [next fsm]. unfold fsm_next. destruct (addr_re i); [done|]. destruct (start s); [done|].
  unfold fsm_act in *. destruct H as [[Hw Hf]|H].
  - rewrite Hf. destruct (fsm s); try done; cbn; split_ifs; done.
  - revert H. destruct (fsm s); cbn; try done; split_ifs; done.
Qed.

(** The acknowledge of a stored byte ends with the announcement. *)
Definition acknowledging (q : fsm_state) : bool := match q with ACK_WRITE0 | ACK_WRITE1 | ACK_WRITE2 => true | _ => false end.

Lemma ack_next i s : acknowledging (fsm s) = true -> undisturbed i s -> status_w (fsm_act s) <> Some STATUS_FULL ->
  acknowledging (fsm (next i s)) = true.
Proof using Type.
  intros Hq [Hs Ha] Hw. cbn [next fsm]. unfold fsm_next. rewrite Hs, Ha. unfold fsm_act in *.
  destruct (fsm s); try done; cbn in *; destruct (scl_i s); done.
Qed.

Lemma store_write s v : shift_reg_w (fsm_act s) = Some v -> fsm s = DO_WRITE /\ counter s = 8.
Proof using Type. unfold fsm_act. destruct (fsm s); try done. cbn. destruct (Z.eqb_spec (counter s) 8); done. Qed.

Section overrun.
Variables (s : I2CShiftReg) (inp : nat -> I2CIn) (t : nat).
#[local] Abbreviation st n := (state_at next s inp n).

(** Cycle [n] announces the byte to the firmware. *)
Definition announces (n : nat) : Prop := status_w (fsm_act (st n)) = Some STATUS_FULL.

(** From cycle [t] on: the byte is acknowledged; it has been announced and the
    flag set since; the firmware has cleared the flag. *)
Definition unannounced (k : nat) : Prop :=
  acknowledging (fsm (st k)) = true /\ forall j, (t < j < k)%nat -> ~ announces j /\ acknowledging (fsm (st j)) = true.

Definition announced (n k : nat) : Prop :=
  (t < n < k)%nat /\ announces n /\
  (forall j, t < j <= n -> acknowledging (fsm (st j)) = true)%nat /\
  (forall j, n < j <= k -> shift_reg_full (st j) = true /\ writing (fsm (st j)) = false)%nat.

Definition cleared (k : nat) : Prop :=
  exists n m x, (t < n)%nat /\ (n <= m < k)%nat /\ announces n /\ bus_status (inp m) = Some x /\ Z.testbit x 0 = false /\
    (forall j, n < j <= m -> shift_reg_full (st j) = true)%nat /\
    (forall j, t < j <= m -> shift_reg_w (fsm_act (st j)) = None)%nat.

Lemma no_store q : acknowledging (fsm q) = true \/ writing (fsm q) = false -> shift_reg_w (fsm_act q) = None.
Proof using Type.
  intros H. destruct (shift_reg_w (fsm_act q)) as [v|] eqn:E; [|done]. apply store_write in E as [E _].
  rewrite E in H. by destruct H.
Qed.

(** A set flag in cycle [k], from the announcement in cycle [n] on. *)
Lemma announced_next n k :
  status_w (fsm_act (st k)) <> Some STATUS_EMPTY -> announced n k \/ n = k /\ (t < k)%nat /\ announces k /\ unannounced k ->
  announced n (S k) \/ cleared (S k).
Proof using Type.
  intros He H.
  assert (Hb : (t < n <= k)%nat /\ announces n /\ (forall j, t < j <= n -> acknowledging (fsm (st j)) = true)%nat /\
    (forall j, n < j <= k -> shift_reg_full (st j) = true /\ writing (fsm (st j)) = false)%nat /\
    ((writing (fsm (st k)) = false /\ shift_reg_full (st k) = true) \/ announces k)).
  { destruct H as [(H1 & H2 & H3 & H4)|(-> & H1 & H2 & H3 & H4)].
    - split_and!; try done; try lia. left. destruct (H4 k); [lia | done].
    - split_and!; try done; try lia; [|by right]. intros j Hj. destruct (decide (j = k)) as [->|]; [done | apply H4; lia]. }
  destruct Hb as (H1 & H2 & H3 & H4 & H5). clear H.
  assert (Hw : writing (fsm (st (S k))) = false) by (rewrite state_at_S; by apply full_stays_out).
  destruct (full_or_cleared (inp k) (st k) He) as [Hf|(x & Hx & Hx0)]; [destruct H5 as [[_ ?]|?]; auto | |].
  - left. rewrite <- state_at_S in Hf. split_and!; try done; try lia.
    intros j Hj. destruct (decide (j = S k)) as [->|]; [done | apply H4; lia].
  - right. exists n, k, x. split_and!; try done; try lia.
    + intros j Hj. by apply H4.
    + intros j Hj. apply no_store. destruct (decide (j <= n)%nat); [left; apply H3; lia | right; apply H4; lia].
Qed.

Lemma cleared_next k : cleared k -> cleared (S k).
Proof using Type. intros (n & m & x & H1 & H2 & H). exists n, m, x. split_and!; [done | lia | lia | apply H ..]. Qed.

Lemma after_store v k :
  shift_reg_w (fsm_act (st t)) = Some v ->
  (forall j, t <= j < S t + k -> (forall n, t < n <= j -> ~ announces n) -> undisturbed (inp j) (st j))%nat ->
  (forall j, t < j < S t + k -> status_w (fsm_act (st j)) <> Some STATUS_EMPTY)%nat ->
  unannounced (S t + k) \/ (exists n, announced n (S t + k)) \/ cleared (S t + k).
Proof using Type.
  intros Hv. induction k as [|k IH]; intros Hu He.
  - left. rewrite Nat.add_0_r. split; [|lia]. destruct (Hu t) as [Hs Ha]; [lia | lia|]. apply store_write in Hv as [Hv Hc].
    rewrite state_at_S. cbn [next fsm]. unfold fsm_next, fsm_act. by rewrite Hs, Ha, Hv, (proj2 (Z.eqb_eq _ _) Hc).
  - rewrite Nat.add_succ_r. destruct IH as [Hk|[[n Hk]|Hk]]; [intros; apply Hu; lia || done | intros; apply He; lia | | |].
    + destruct (decide (status_w (fsm_act (st (S t + k))) = Some STATUS_FULL)) as [Hn|Hn].
      * right. destruct (announced_next (S t + k) (S t + k)) as [H|H]; [apply He; lia | right; split_and!; done || lia | eauto..].
      * left. split.
        { rewrite state_at_S. apply ack_next; [exact (proj1 Hk) | | done]. apply Hu; [lia|]. intros n Hj.
          destruct (decide (n = S t + k)%nat) as [->|]; [done | apply (proj2 Hk n); lia]. }
        intros j Hj. destruct (decide (j = S t + k)%nat) as [->|]; [split; [done | exact (proj1 Hk)] | apply (proj2 Hk j); lia].
    + right. destruct (announced_next n (S t + k)) as [H|H]; [apply He; lia | by left | eauto..].
    + right. right. by apply cleared_next.
Qed.
End overrun.

(** Claim C12: no received byte is lost. Take, in any execution and whatever
    LiteX's register does on simultaneous writes, a cycle [t] in which the slave
    stores a received byte and a later one [u] in which it stores
    another. Until the first byte is announced no start condition and no
    address write occurs, and between the two the slave does not report a
    byte read by the master. Then in between it announced the first byte by setting
    the full flag (cycle [n]), the firmware has written the status register with
    the flag clear (cycle [m], not before [n]), and from the announcement to
    that write the flag was set and the slave did not touch the shift register.
    (A byte whose acknowledge a start condition cuts short is not announced,
    and the next one takes its place.) *)
Theorem i2c_no_overrun (s : I2CShiftReg) (inp : nat -> I2CIn) (t u : nat) (v w : Z) :
  let st n := state_at next s inp n in
  let announces n := status_w (fsm_act (st n)) = Some STATUS_FULL in
  (t < u)%nat -> shift_reg_w (fsm_act (st t)) = Some v -> shift_reg_w (fsm_act (st u)) = Some w ->
  (forall k, t <= k < u -> (forall n, t < n <= k -> ~ announces n) -> undisturbed (inp k) (st k))%nat ->
  (forall k, t < k < u -> status_w (fsm_act (st k)) <> Some STATUS_EMPTY)%nat ->
  exists n m x, (t < n)%nat /\ (n <= m < u)%nat /\ announces n /\ bus_status (inp m) = Some x /\ Z.testbit x 0 = false /\
    (forall k, n < k <= m -> shift_reg_full (st k) = true)%nat /\
    (forall k, t < k <= m -> shift_reg_w (fsm_act (st k)) = None)%nat.
Proof.
  intros st announces' Htu Hv Hw Hu He.
  destruct (after_store s inp t v (u - S t) Hv) as [H|[[n H]|H]]; rewrite ?(Nat.add_comm (S t)), ?Nat.sub_add in * by lia; try done.
  - apply store_write in Hw as [Hw _]. destruct H as [H _]. unfold st in Hw. by rewrite Hw in H.
  - apply store_write in Hw as [Hw _]. destruct H as (H & _ & _ & Hf). destruct (Hf u) as [_ Hf']; [lia|].
    unfold st in Hw. by rewrite Hw in Hf'.
Qed.

(** Two edges of the sampled bus lines, in any execution, are a
    multiple of eight cycles apart, so that a pulse shorter than the sampling
    period shows as at most one level change. *)
Theorem i2c_sampled_edges s inp t u :
  wf s -> edge (state_at next s inp t) -> edge (state_at next s inp u) ->
  (Z.of_nat u - Z.of_nat t) mod 8 = 0.
Proof.
  intros Hw Ht Hu. apply edge_count in Ht, Hu; [|by apply wf_state_at..].
  rewrite samp_count_at in Ht, Hu by done.
  pose proof (Z_div_mod_eq_full (samp_count s + Z.of_nat t) 8).
  pose proof (Z_div_mod_eq_full (samp_count s + Z.of_nat u) 8).
  apply Z.mod_divide; [lia|].
  exists ((samp_count s + Z.of_nat u) / 8 - (samp_count s + Z.of_nat t) / 8). lia.
Qed.
End Machine.
(** ** Witnesses

    A bus master with a clock period of sixteen cycles. *)

Lemma forallb_le (P : nat -> bool) u :
  forallb P (seq 0 (S u)) = true -> forall n, (n <= u)%nat -> P n = true.
Proof. intros HP n Hn. rewrite forallb_forall in HP. apply HP, in_seq. lia. Qed.

Definition quietb (i : I2CIn) (s : I2CShiftReg) : bool :=
  negb (start s) && negb (addr_re i) && match bus_shift_reg i with None => true | _ => false end.

Lemma quietb_quiet i s : quietb i s = true -> quiet i s.
Proof.
  unfold quietb, quiet, undisturbed. intros Hq. bool_to_prop. by destruct (bus_shift_reg i).
Qed.

Lemma quiet_upto s inp u :
  forallb (fun n => quietb (inp n) (state_at next s inp n)) (seq 0 (S u)) = true ->
  forall n, (n <= u)%nat -> quiet (inp n) (state_at next s inp n).
Proof. intros HP n Hn. apply quietb_quiet. apply (forallb_le _ u HP n Hn). Qed.

Definition master (bits : list bool) (n : nat) : I2CIn := {|
  scl_raw := Nat.odd (n / 8);
  sda_raw := default true (bits !! (n / 16)%nat);
  bus_shift_reg := None; bus_status := None; bus_slave_addr := None; addr_re := false |}.

Definition bits_a5 : list bool := [true; false; true; false; false; true; false; true].

Definition paused (r : bool) : I2CShiftReg := {|
  shift_reg := 0xA5; status := 0; slave_addr := 0x50;
  sda_drv_reg := false; scl_drv_reg := false;
  samp_count := 0; samp_carry := false;
  scl_i := false; sda_i := true; scl_r := false; sda_r := true;
  din := 0; counter := 0; is_read := r;
  data_bit := false; data_drv := false; fsm := PAUSE
|}.

(** A start condition: SDA has just fallen while SCL is high. *)
Definition started : I2CShiftReg := {|
  shift_reg := 0; status := STATUS_EMPTY; slave_addr := 0x50;
  sda_drv_reg := false; scl_drv_reg := false;
  samp_count := 1; samp_carry := false;
  scl_i := true; sda_i := false; scl_r := true; sda_r := true;
  din := 0; counter := 5; is_read := false;
  data_bit := false; data_drv := false; fsm := WAIT_START
|}.

Lemma wf_paused r : wf (paused r).
Proof. split; cbn; unfold in_width; done || lia. Qed.

Lemma wf_started : wf started.
Proof. split; cbn; unfold in_width; done || lia. Qed.

Lemma i2c_receives_byte_witness :
  shift_reg (state_at next (paused false) (master bits_a5) 123) = 0xA5 /\
  fsm (state_at next (paused false) (master bits_a5) 123) = ACK_WRITE0.
Proof.
  destruct (i2c_receives_byte (paused false) (master bits_a5) 120 true) as (E & F & _).
  - apply wf_paused.
  - done.
  - done.
  - done.
  - done.
  - intros n Hn. apply (quiet_upto (paused false) (master bits_a5) 122); [vm_compute; reflexivity | exact Hn].
  - vm_compute; reflexivity.
  - vm_compute; reflexivity.
  - done.
  - split; [|exact F]. refine (eq_trans E _). vm_compute; reflexivity.
Defined.

Definition addressing (n : nat) : I2CIn := master [false; true; false; true; false; false; false; false; true] (S n).

Lemma addressing_quiet n :
  (0 < n <= 137)%nat -> undisturbed (addressing n) (state_at next started addressing n).
Proof.
  intros [H0 Hn]. apply quietb_quiet.
  pose proof (forallb_le (fun k => (k =? 0)%nat || quietb (addressing k) (state_at next started addressing k))
                137 ltac:(vm_compute; reflexivity) n Hn) as Hk.
  by destruct n; [lia|].
Qed.

Lemma i2c_address_phase_witness :
  fsm (state_at next started addressing 138) = ACK_ADDRESS0 /\
  is_read (state_at next started addressing 138) = true.
Proof.
  pose proof (i2c_address_phase started addressing 135 true wf_started eq_refl eq_refl eq_refl
    addressing_quiet ltac:(vm_compute; reflexivity) ltac:(vm_compute; reflexivity)) as W.
  cbv zeta in W. match type of W with if ?c then _ else _ =>
    assert (c = true) as Ec by (vm_compute; reflexivity); rewrite Ec in W end.
  destruct W as [F R]. split; [exact F|]. refine (eq_trans R _). vm_compute; reflexivity.
Defined.

Definition reading (n : nat) : I2CIn := master [] n.

Lemma reading_quiet n :
  (n <= 128)%nat -> quiet (reading (S n)) (state_at next (next (reading 0) (paused true)) (fun k => reading (S k)) n).
Proof.
  intros Hn. apply (quiet_upto _ (fun k => reading (S k)) 128); [vm_compute; reflexivity | exact Hn].
Qed.

Definition read1 : I2CShiftReg := next (reading 0) (paused true).

Lemma i2c_sends_byte_witness :
  events next bit_out read1 (fun n => reading (S n)) 121 = bits_a5 /\
  fsm (state_at next read1 (fun n => reading (S n)) 129) = ACK_READ0.
Proof.
  destruct (i2c_sends_byte (paused true) reading 120 7 (wf_paused true)) as [E D].
  1-8: first [reflexivity | split; reflexivity | vm_compute; reflexivity].
  - exact reading_quiet.
  - intros n Hn. apply Nat.leb_le.
    exact (forallb_le (fun n => length (events next bit_out read1 (fun n => reading (S n)) n) <=? 7)%nat 120
             ltac:(vm_compute; reflexivity) n Hn).
  - split.
    + refine (eq_trans E _). vm_compute; reflexivity.
    + apply D.
      * vm_compute; reflexivity.
      * intros n Hn. apply (forallb_le (fun n => scl_i (state_at next read1 (fun n => reading (S n)) (121 + n))) 6);
          [vm_compute; reflexivity | lia].
      * intros n Hn. apply negb_true_iff.
        apply (forallb_le (fun n => negb (scl_rising (state_at next read1 (fun n => reading (S n)) (121 + n)))) 7);
          [vm_compute; reflexivity | lia].
      * vm_compute; reflexivity.
      * reflexivity.
Defined.

(** From reset: the firmware sets the address, the master sends a start
    condition, the address byte and, after the acknowledge clock, a byte. *)
Definition session (bits : list bool) (n : nat) : I2CIn := {|
  scl_raw := (n <? 32)%nat || Nat.odd (n / 8);
  sda_raw := if (n <? 16)%nat then true else if (n <? 32)%nat then false
             else default true (bits !! ((n - 32) / 16)%nat);
  bus_shift_reg := None; bus_status := None;
  bus_slave_addr := if (n =? 0)%nat then Some 0x50 else None;
  addr_re := (n =? 1)%nat |}.

Definition write_session : nat -> I2CIn :=
  session ([true; false; true; false; false; false; false; false; true] ++ bits_a5).

Lemma i2c_silent_until_addressed_witness :
  exists n, (n < 170)%nat /\ let s := state_at next reset write_session n in
    fsm s = RCV_ADDRESS /\ counter s = 8 /\ slice (din s) 1 7 = slave_addr s.
Proof. apply (i2c_silent_until_addressed write_session 170). left. vm_compute; reflexivity. Defined.

(** Two bytes; the firmware takes the first one when it has been announced. *)
Definition two_byte_session (n : nat) : I2CIn :=
  let i := session ([true; false; true; false; false; false; false; false; true] ++ bits_a5 ++ [true] ++ bits_a5) n in
  {| scl_raw := scl_raw i; sda_raw := sda_raw i; bus_shift_reg := None;
     bus_status := if (n =? 322)%nat then Some 0 else None;
     bus_slave_addr := bus_slave_addr i; addr_re := addr_re i |}.

Lemma two_bytes_undisturbed k : (298 <= k < 442)%nat ->
  undisturbed (two_byte_session k) (state_at next reset two_byte_session k) /\
  status_w (fsm_act (state_at next reset two_byte_session k)) <> Some STATUS_EMPTY.
Proof.
  intros Hk.
  assert (H : forallb (fun k => let s := state_at next reset two_byte_session (298 + k) in
    quietb (two_byte_session (298 + k)) s && negb (bool_decide (status_w (fsm_act s) = Some STATUS_EMPTY))) (seq 0 144) = true)
    by (vm_compute; reflexivity).
  pose proof (forallb_le _ 143 H (k - 298) ltac:(lia)) as Hq. cbv beta zeta in Hq.
  replace (298 + (k - 298))%nat with k in Hq by lia. apply andb_prop in Hq as [H1 H2%negb_true_iff].
  split; [by apply quietb_quiet in H1 as [? _] | by apply bool_decide_eq_false in H2].
Qed.

Lemma i2c_no_overrun_witness :
  shift_reg_w (fsm_act (state_at next reset two_byte_session 298)) = Some 0xA5 /\
  shift_reg_w (fsm_act (state_at next reset two_byte_session 442)) = Some 0xA5 /\
  exists n m x, (298 < n)%nat /\ (n <= m < 442)%nat /\ bus_status (two_byte_session m) = Some x.
Proof.
  split; [vm_compute; reflexivity|]. split; [vm_compute; reflexivity|].
  destruct (i2c_no_overrun reset two_byte_session 298 442 0xA5 0xA5) as (n & m & x & H1 & H2 & _ & H3 & _).
  - lia.
  - vm_compute; reflexivity.
  - vm_compute; reflexivity.
  - intros k Hk _. apply two_bytes_undisturbed. lia.
  - intros k Hk. apply two_bytes_undisturbed. lia.
  - exists n, m, x. split; [exact H1|]. split; [exact H2 | exact H3].
Defined.

Lemma i2c_sampled_edges_witness : (Z.of_nat 169 - Z.of_nat 41) mod 8 = 0.
Proof.
  apply (i2c_sampled_edges reset write_session 41 169 wf_reset); left; vm_compute; discriminate.
Defined.
