(* ===== verification/I2c.v ===== *)
(** * I2C pads, bit-banged master and multiplexer ([gateware/i2c.py])

    and the Opsis instance that puts the bit-banged master and the slave of
    [OpsisI2c] behind one pair of pins ([OpsisI2C] of [gateware/opsis_i2c.py]).
    Everything here is combinational: a pair of pads is a request to the pins
    ([oe], [w]) and the level read back ([r]). A combinational signal that no
    statement drives is 0. *)
From S2P Require Import Prelude Hdl.
From S2P Require OpsisI2c.

(** One tristate line as its user drives it. *)
Record Drive := { oe : bool; w : bool }.

Definition released : Drive := {| oe := false; w := false |}.

Record I2CPads := { scl : Drive; sda : Drive }.

Definition idle_pads : I2CPads := {| scl := released; sda := released |}.

(** The levels read back on both lines. *)
Record Levels := { scl_level : bool; sda_level : bool }.

Definition no_levels : Levels := {| scl_level := false; sda_level := false |}.

(** [out_pads.connect(pads)]: the request of [pads] goes out, the levels of
    the pins come back. *)
Definition connect (pads : I2CPads) (pins : Levels) : I2CPads * Levels := (pads, pins).

(** [I2C]: the firmware's register [w] drives the pads, [r] reads SDA. *)
Definition I2C_pads (w : Z) : I2CPads :=
  {| scl := {| oe := true; w := Z.testbit w 0 |};
     sda := {| oe := Z.testbit w 1; w := Z.testbit w 2 |} |}.

Definition I2C_r (pins : Levels) : Z := b2z (sda_level pins).

Definition I2C_w_reset : Z := 1.

(** [I2CMux.finalize]: the selector's width, and [Case(sel, {i: connect(i)})]
    without a default. *)
Definition sel_width `{BitMath} (in_pads : list I2CPads) : Z :=
  let m := Z.of_nat (length in_pads) - 1 in if m =? 0 then 1 else bits_for m.

Definition I2CMux_out (sel : nat) (in_pads : list I2CPads) : I2CPads :=
  match in_pads !! sel with Some p => fst (connect p no_levels) | None => idle_pads end.

Definition I2CMux_in (sel : nat) (in_pads : list I2CPads) (pins : Levels) (k : nat) : Levels :=
  match in_pads !! k with
  | Some p => if (sel =? k)%nat then snd (connect p pins) else no_levels
  | None => no_levels
  end.

(** The level of a line: what we drive, or the rest of the bus. *)
Definition line (d : Drive) (outside : bool) : bool := if oe d then w d else outside.

Definition pins_levels (p : I2CPads) (outside : Levels) : Levels :=
  {| scl_level := line (scl p) (scl_level outside); sda_level := line (sda p) (sda_level outside) |}.

(** ** The Opsis instance *)

(** [fx2_reset]: a tristate whose output is 0 and whose enable is the register. *)
Definition fx2_reset_pin (storage : Z) : Drive := {| oe := Z.testbit storage 0; w := false |}.

(** The slave's pads: open drain. *)
Definition I2CShiftReg_pads (s : OpsisI2c.I2CShiftReg) : I2CPads :=
  {| scl := {| oe := OpsisI2c.scl_oe s; w := false |};
     sda := {| oe := OpsisI2c.sda_oe s; w := false |} |}.

(** The master gets the first pads, the slave the second. *)
Definition OpsisI2C_in_pads (master_w : Z) (s : OpsisI2c.I2CShiftReg) : list I2CPads :=
  [I2C_pads master_w; I2CShiftReg_pads s].

Definition OpsisI2C_out (sel : nat) (master_w : Z) (s : OpsisI2c.I2CShiftReg) : I2CPads :=
  I2CMux_out sel (OpsisI2C_in_pads master_w s).

Definition OpsisI2C_in (sel : nat) (master_w : Z) (s : OpsisI2c.I2CShiftReg) (pins : Levels) (k : nat) : Levels :=
  I2CMux_in sel (OpsisI2C_in_pads master_w s) pins k.

Lemma mux_out_selected in_pads sel p : in_pads !! sel = Some p -> I2CMux_out sel in_pads = p.
Proof. unfold I2CMux_out. by intros ->. Qed.

Lemma mux_in_selected in_pads sel p pins :
  in_pads !! sel = Some p -> I2CMux_in sel in_pads pins sel = pins.
Proof. unfold I2CMux_in. intros ->. by rewrite Nat.eqb_refl. Qed.

Lemma mux_in_other in_pads sel k pins : k <> sel -> I2CMux_in sel in_pads pins k = no_levels.
Proof.
  intros Hk. unfold I2CMux_in. destruct (in_pads !! k); [|done].
  destruct (sel =? k)%nat eqn:E; [apply Nat.eqb_eq in E; congruence | done].
Qed.

(** The multiplexer connects exactly the selected client: the pins
    carry its request and it reads the pins, no other client influences the
    pins, every other client reads both lines low, and with a selector beyond
    the clients the bus is released. *)
Theorem i2c_mux_isolates in_pads in_pads' sel pins :
  (forall p, in_pads !! sel = Some p ->
     I2CMux_out sel in_pads = p /\ I2CMux_in sel in_pads pins sel = pins) /\
  (forall k, k <> sel -> I2CMux_in sel in_pads pins k = no_levels) /\
  (in_pads !! sel = in_pads' !! sel -> I2CMux_out sel in_pads = I2CMux_out sel in_pads') /\
  ((length in_pads <= sel)%nat -> I2CMux_out sel in_pads = idle_pads).
Proof.
  split; [|split; [|split]].
  - intros p Hp. split; [by apply mux_out_selected | by eapply mux_in_selected].
  - intros k. apply mux_in_other.
  - unfold I2CMux_out. by intros ->.
  - intros Hlen%lookup_ge_None_2. unfold I2CMux_out. by rewrite Hlen.
Qed.

(** On the Opsis a one-bit selector reaches both clients; selecting
    the slave leaves the pins open drain (a driven line is low, so the bus is
    never driven high), and makes the level of each line the conjunction of
    the slave's release and the rest of the bus. *)
Theorem opsis_slave_open_drain master_w s outside :
  sel_width (OpsisI2C_in_pads master_w s) = 1 /\
  let pins := pins_levels (OpsisI2C_out 1 master_w s) outside in
  scl_level pins = negb (OpsisI2c.scl_oe s) && scl_level outside /\
  sda_level pins = negb (OpsisI2c.sda_oe s) && sda_level outside /\
  OpsisI2C_in 1 master_w s pins 1 = pins /\ OpsisI2C_in 1 master_w s pins 0 = no_levels.
Proof.
  split; [done|]. cbn. unfold line. cbn. by destruct (OpsisI2c.scl_oe s), (OpsisI2c.sda_oe s).
Qed.

Definition two_clients : list I2CPads := [I2C_pads 7; idle_pads].

Lemma i2c_mux_isolates_witness :
  I2CMux_out 0 two_clients = I2C_pads 7 /\
  I2CMux_in 0 two_clients {| scl_level := true; sda_level := true |} 1 = no_levels /\
  I2CMux_out 2 two_clients = idle_pads.
Proof.
  pose proof (i2c_mux_isolates two_clients two_clients 0 {| scl_level := true; sda_level := true |})
    as (A & B & _).
  pose proof (i2c_mux_isolates two_clients two_clients 2 no_levels) as (_ & _ & _ & D).
  split; [apply (A _ eq_refl) | split; [by apply B | by apply D]].
Defined.
