(* ===== verification/FreqMeasurement.v ===== *)
(** * Frequency measurement ([gateware/freq_measurement.py])

    [Sampler] accumulates the increments of a narrow free-running counter,
    [FrequencyMeasurement] latches the sum once per measurement period. The
    Gray counter in the measured clock domain, its synchroniser and its decoder
    are third-party: the sampler's input is the low bits of [total n], the
    number of edges they have reported by cycle [n]. *)
From S2P Require Import Prelude Hdl.

Section FrequencyMeasurement.
Context (measure_width counter_width measure_period : Z).

Record Sampler := { i_d : Z; counter : Z; value : Z }.

Definition Sampler_reset : Sampler := {| i_d := 0; counter := 0; value := 0 |}.

Definition counter_inc (i : Z) (s : Sampler) : Z := wrap measure_width (i - i_d s).

Definition Sampler_next (i : Z) (latch : bool) (s : Sampler) : Sampler :=
  {| i_d := i;
     counter := if latch then 0 else wrap counter_width (counter s + counter_inc i s);
     value := if latch then counter s else value s |}.

Record FrequencyMeasurement := { sampler : Sampler; period_counter : Z }.

Definition reset : FrequencyMeasurement := {| sampler := Sampler_reset; period_counter := 0 |}.

Definition period_done (s : FrequencyMeasurement) : bool := period_counter s =? measure_period.

Definition next (i : Z) (s : FrequencyMeasurement) : FrequencyMeasurement :=
  {| sampler := Sampler_next i (period_done s) (sampler s);
     period_counter :=
       if period_done s then 0 else wrap counter_width (period_counter s + 1) |}.

(** The value the firmware reads. *)
Definition status (s : FrequencyMeasurement) : Z := value (sampler s).

Context (Hmw : 0 < measure_width) (Hcw : 0 < counter_width)
        (Hmp : 0 <= measure_period < 2 ^ counter_width).

Lemma counter_inc_delta a b d :
  b - a = d -> 0 <= d < 2 ^ measure_width -> wrap measure_width (wrap measure_width b - wrap measure_width a) = d.
Proof using.
  intros Hd Hr. unfold wrap. rewrite <- Zminus_mod. rewrite Hd. by apply Z.mod_small.
Qed.

Lemma slow_shift (total : nat -> Z) a :
  (forall n, 0 <= total (S n) - total n < 2 ^ measure_width) ->
  forall n, 0 <= total (a + S n)%nat - total (a + n)%nat < 2 ^ measure_width.
Proof using. intros Ht n. rewrite Nat.add_succ_r. apply Ht. Qed.

Section Window.
Variable total : nat -> Z.
Hypothesis total_slow : forall n, 0 <= total (S n) - total n < 2 ^ measure_width.

Abbreviation at_ s := (state_at next s (fun n => wrap measure_width (total n))).

(** Between two latches the counter holds the edges since the first one. *)
Lemma window s k :
  period_done s = true -> (Z.of_nat k <= measure_period) ->
  let s' := at_ s (S k) in
  period_counter s' = Z.of_nat k /\ i_d (sampler s') = wrap measure_width (total k) /\
  counter (sampler s') = wrap counter_width (total k - total 0%nat) /\
  status s' = counter (sampler s).
Proof using Hmw Hcw Hmp total_slow.
  intros Hd. cbv zeta. induction k as [|k IH]; intros Hk.
  { cbn. unfold status. cbn. rewrite Hd, Z.sub_diag. done. }
  destruct IH as (Ip & Ii & Ic & Iv); [lia|]. rewrite state_at_S. set (s' := at_ s (S k)) in *.
  assert (period_done s' = false) as Hn.
  { unfold period_done. rewrite Ip. apply Z.eqb_neq. lia. }
  unfold status in *. cbn [next sampler period_counter Sampler_next i_d counter value].
  rewrite Hn. unfold counter_inc. rewrite Ii, Ic, Ip, Iv.
  rewrite (counter_inc_delta _ _ (total (S k) - total k)) by (done || apply total_slow).
  split; [rewrite wrap_id; unfold in_width; lia|]. split; [done|]. split; [|done].
  unfold wrap. rewrite Zplus_mod_idemp_l. f_equal. lia.
Qed.

Lemma one_period s k :
  period_done s = true -> Z.of_nat k = measure_period ->
  period_done (at_ s (S k)) = true /\
  status (at_ s (S (S k))) = wrap counter_width (total k - total 0%nat).
Proof using Hmw Hcw Hmp total_slow.
  intros Hd Hk. destruct (window s k Hd) as (Ip & _ & Ic & _); [lia|]. cbv zeta in *.
  set (s' := at_ s (S k)) in *.
  assert (period_done s' = true) as Hd' by (unfold period_done; rewrite Ip; by apply Z.eqb_eq).
  split; [done|]. rewrite state_at_S. fold s'. unfold status.
  cbn [next sampler Sampler_next value]. by rewrite Hd', Ic.
Qed.
End Window.

Lemma first_period inp k :
  (Z.of_nat k <= measure_period) -> period_counter (state_at next reset inp k) = Z.of_nat k.
Proof using Hmw Hcw Hmp.
  induction k as [|k IH]; intros Hk; [done|]. rewrite state_at_S. cbn [next period_counter].
  unfold period_done. rewrite IH by lia. destruct (Z.of_nat k =? _) eqn:E; [apply Z.eqb_eq in E; lia|].
  rewrite wrap_id; unfold in_width; lia.
Qed.

(** A latch happens every [measure_period + 1] cycles. *)
Lemma latch_times (total : nat -> Z) m k :
  (forall n, 0 <= total (S n) - total n < 2 ^ measure_width) -> Z.of_nat m = measure_period ->
  period_done (state_at next reset (fun n => wrap measure_width (total n)) (k * S m + m)) = true.
Proof using Hmw Hcw Hmp.
  intros Ht Hm. induction k as [|k IH].
  { unfold period_done. rewrite first_period by lia. by apply Z.eqb_eq. }
  replace (S k * S m + m)%nat with ((k * S m + m) + S m)%nat by lia.
  rewrite state_at_add.
  apply (one_period (fun n => total (k * S m + m + n)%nat)); [by apply slow_shift | done..].
Qed.

(** Claim C26: If fewer than 2^measure_width edges arrive per cycle, then
    throughout the (k+2)-th period after reset the value read is the number of
    edges of the measured clock (modulo 2^counter_width) in exactly
    [measure_period] system clock cycles of the period before: the extra
    cycle of the latch is not counted. *)
Theorem frequency_counts_edges (total : nat -> Z) m k j :
  (forall n, 0 <= total (S n) - total n < 2 ^ measure_width) ->
  Z.of_nat m = measure_period -> (j <= m)%nat ->
  let t0 := (k * S m + m)%nat in
  status (state_at next reset (fun n => wrap measure_width (total n)) (S (t0 + S m + j))) =
  wrap counter_width (total (t0 + m)%nat - total t0).
Proof using Hmw Hcw Hmp.
  intros Ht Hm Hj. cbv zeta. set (t0 := (k * S m + m)%nat).
  set (inp := fun n => wrap measure_width (total n)).
  pose proof (latch_times total m k Ht Hm) as L0. pose proof (latch_times total m (S k) Ht Hm) as L1.
  replace (S k * S m + m)%nat with (t0 + S m)%nat in L1 by lia. fold inp t0 in L0, L1.
  destruct (one_period (fun n => total (t0 + n)%nat) (slow_shift total t0 Ht)
              (state_at next reset inp t0) m L0 Hm) as [_ V].
  rewrite Nat.add_0_r in V. change (fun n => wrap measure_width (total (t0 + n)%nat)) with (fun n => inp (t0 + n)%nat) in V.
  rewrite <- V, <- (state_at_add next reset inp t0 (S (S m))).
  destruct (window (fun n => total (t0 + S m + n)%nat) (slow_shift total (t0 + S m) Ht)
              (state_at next reset inp (t0 + S m)) j L1) as (_ & _ & _ & W); [lia|].
  change (fun n => wrap measure_width (total (t0 + S m + n)%nat)) with (fun n => inp (t0 + S m + n)%nat) in W.
  rewrite <- (state_at_add next reset inp (t0 + S m) (S j)) in W.
  rewrite <- Nat.add_succ_r, W.
  unfold status. rewrite (Nat.add_succ_r t0 (S m)), state_at_S. cbn [next sampler Sampler_next value].
  by rewrite L1.
Qed.
End FrequencyMeasurement.

Lemma frequency_counts_edges_witness :
  status (state_at (next 6 32 10) (reset) (fun n => wrap 6 (3 * Z.of_nat n)) 36) = 30.
Proof.
  refine (eq_trans (frequency_counts_edges 6 32 10 ltac:(lia) ltac:(lia) ltac:(lia)
            (fun n => 3 * Z.of_nat n) 10 1 3 _ _ _) _).
  - intros n. lia.
  - reflexivity.
  - lia.
  - vm_compute; reflexivity.
Defined.
