(* ===== verification/Pwm.v ===== *)
(** * Pulse width modulation ([gateware/pwm.py], [gateware/led.py]) *)
From S2P Require Import Prelude Hdl.

(** The registers the firmware writes, as the module sees them in a cycle. *)
Record PwmIn := { enable : bool; width : Z; period : Z }.

Record PWM := { pwm : bool; cnt : Z }.

Definition reset : PWM := {| pwm := false; cnt := 0 |}.

(** [cnt == period-1] is a 32-bit comparison: a period of 0 is 2^32. *)
Definition last_count (i : PwmIn) : Z := wrap 32 (period i - 1).

Definition next (i : PwmIn) (s : PWM) : PWM :=
  if enable i then
    {| pwm := cnt s <? width i;
       cnt := if cnt s =? last_count i then 0 else wrap 32 (cnt s + 1) |}
  else {| pwm := false; cnt := 0 |}.

(** [RGBLed]: one [PWM] per colour of each of the [nleds] LEDs, in the order
    the submodules are created. *)
Definition RGBLed (nleds : nat) : list (string * nat) :=
  flat_map (fun n => (fun c => (c, n)) <$> ["r"; "g"; "b"]%string) (seq 0 nleds).

Definition period_of (i : PwmIn) : Z := last_count i + 1.

Lemma period_of_range i : 1 <= period_of i <= 2 ^ 32.
Proof. unfold period_of, last_count. pose proof (wrap_range 32 (period i - 1)). unfold in_width in *. lia. Qed.

Lemma period_of_eq i : 0 < period i < 2 ^ 32 -> period_of i = period i.
Proof. intros. unfold period_of, last_count. rewrite wrap_id; unfold in_width; lia. Qed.

Lemma cnt_at i s n :
  enable i = true -> cnt s = 0 -> cnt (state_at next s (fun _ => i) n) = Z.of_nat n mod period_of i.
Proof.
  intros He Hc. pose proof (period_of_range i) as Hp.
  induction n as [|n IH]; [done|]. rewrite state_at_S. unfold next at 1. rewrite He.
  cbn [cnt]. rewrite IH. pose proof (Z.mod_pos_bound (Z.of_nat n) (period_of i)).
  pose proof (Z.div_mod (Z.of_nat n) (period_of i)).
  destruct (_ =? last_count i) eqn:E; [apply Z.eqb_eq in E | apply Z.eqb_neq in E].
  - symmetry. apply Z.mod_divide; [lia|]. exists (Z.of_nat n / period_of i + 1). unfold period_of in *. lia.
  - unfold period_of in *. rewrite wrap_id by (unfold in_width; lia).
    apply Z.mod_unique with (Z.of_nat n / (last_count i + 1)); lia.
Qed.

Definition highs (l : list bool) : nat := length (filter (fun b => b = true) l).

Lemma highs_below (w : Z) n :
  0 <= w -> Z.of_nat (highs ((fun k => Z.of_nat k <? w) <$> seq 0 n)) = Z.min w (Z.of_nat n).
Proof.
  intros Hw. induction n as [|n IH]; [cbn; lia|]. rewrite seq_S, fmap_app. unfold highs in *.
  rewrite filter_app, length_app. cbn [fmap list_fmap].
  rewrite Nat2Z.inj_add, IH. destruct (Z.of_nat n <? w) eqn:E; cbn; destruct (decide _); (congruence || (cbn; lia)).
Qed.

(** With constant registers the output repeats with the programmed
    period (2^32 cycles for a period register of 0): from the idle state, in
    every period it is high in the first [width] cycles and low in the rest,
    so the number of high cycles is the smaller of width and period. *)
Theorem pwm_duty_cycle i s k :
  enable i = true -> cnt s = 0 -> 0 <= width i ->
  let p := Z.to_nat (period_of i) in
  let out n := pwm (state_at next s (fun _ => i) (S n)) in
  (forall n, out n = (Z.of_nat n mod period_of i <? width i)) /\
  Z.of_nat (highs (out <$> seq (k * p) p)) = Z.min (width i) (period_of i).
Proof.
  intros He Hc Hw. cbv zeta. pose proof (period_of_range i) as Hp.
  assert (forall n, pwm (state_at next s (fun _ => i) (S n)) = (Z.of_nat n mod period_of i <? width i)) as Ho.
  { intros n. rewrite state_at_S. unfold next at 1. rewrite He. cbn [pwm]. by rewrite cnt_at. }
  split; [done|]. set (p := Z.to_nat (period_of i)).
  rewrite <- (Nat.add_0_r (k * p)), <- fmap_add_seq, <- list_fmap_compose.
  rewrite (list_fmap_ext _ (fun n => Z.of_nat n <? width i)).
  - rewrite highs_below by done. unfold p. rewrite Z2Nat.id; lia.
  - intros j x Hx. apply lookup_seq in Hx as [-> Hj]. unfold compose. rewrite Ho. f_equal.
    rewrite Nat2Z.inj_add, Nat2Z.inj_mul. unfold p at 1. rewrite Z2Nat.id by lia.
    rewrite Z.add_comm, Z.mod_add by lia. apply Z.mod_small. unfold p in Hj. lia.
Qed.

Lemma pwm_duty_cycle_witness :
  highs ((fun n => pwm (state_at next reset (fun _ => {| enable := true; width := 3; period := 10 |}) (S n)))
           <$> seq 20 10) = 3%nat.
Proof.
  pose proof (pwm_duty_cycle {| enable := true; width := 3; period := 10 |} reset 2 eq_refl eq_refl
                ltac:(done)) as [_ W].
  apply Nat2Z.inj. exact W.
Defined.
