(* ===== verification/Spram.v ===== *)
(** * The single-port RAM of the iCE40 UltraPlus on Wishbone ([gateware/ice40.py])

    [SPRAM] builds a 32-bit, byte-enabled RAM of 64 kB or 128 kB from the
    16-bit [SB_SPRAM256KA] primitives of the FPGA: two side by side for the
    width and, for 128 kB, two banks selected by address bit 14. The primitive
    is the vendor's: a class states its documented behaviour. *)
From S2P Require Import Prelude Hdl.

(** A primitive with chip select and power on: a write stores the nibbles of
    the mask, a read registers the word; what a write leaves on the output is
    unspecified. *)
Class SB_SPRAM256KA := {
  sp_state : Type;
  sp_mem : sp_state -> Z -> Z;
  sp_out : sp_state -> Z;
  sp_step : Z -> Z -> Z -> bool -> sp_state -> sp_state;
  sp_write address datain maskwren s a j :
    0 <= j < 16 ->
    Z.testbit (sp_mem (sp_step address datain maskwren true s) a) j =
    if (a =? address) && Z.testbit maskwren (j / 4) then Z.testbit datain j
    else Z.testbit (sp_mem s a) j;
  sp_keep address datain maskwren s a :
    sp_mem (sp_step address datain maskwren false s) a = sp_mem s a;
  sp_read address datain maskwren s :
    sp_out (sp_step address datain maskwren false s) = sp_mem s address
}.

Section SPRAM.
Context {PRIM : SB_SPRAM256KA}.

(** The size in bytes; only [kB64] and [kB128] get past the constructor. *)
Definition kB64 : Z := 64 * 1024.
Definition kB128 : Z := 128 * 1024.

Definition SPRAM_check (width size : Z) : result () :=
  if negb (width =? 32) then Raise ValueError
  else if negb (size =? kB64) && negb (size =? kB128) then Raise ValueError
  else Ok ().

Record Wishbone := { adr : Z; dat_w : Z; sel : Z; we : bool; stb : bool; cyc : bool }.

(** The primitives: lane 0 carries bits 0-15, lane 1 bits 16-31; the second
    bank exists in the 128 kB configuration only. *)
Record SPRAM := { ram : bool -> bool -> sp_state; ack : bool }.

Definition wren (b : Wishbone) : bool := we b && stb b && cyc b.

(** [Cat(Replicate(sel[2*i], 2), Replicate(sel[2*i + 1], 2))] for lane [i]. *)
Definition maskwren (b : Wishbone) (lane : bool) : Z :=
  let i := b2z lane in
  b2z (Z.testbit (sel b) (2 * i)) * 3 + b2z (Z.testbit (sel b) (2 * i + 1)) * 12.

Definition datain (b : Wishbone) (lane : bool) : Z := slice (dat_w b) (16 * b2z lane) 16.

(** The bank a cycle goes to. *)
Definition bank_sel (size : Z) (b : Wishbone) : bool :=
  if size =? kB64 then false else Z.testbit (adr b) 14.

(** The signals of the bank that is not selected are 0. *)
Definition datain_bank (size : Z) (b : Wishbone) (bank lane : bool) : Z :=
  if eqb (bank_sel size b) bank then datain b lane else 0.

Definition maskwren_bank (size : Z) (b : Wishbone) (bank lane : bool) : Z :=
  if eqb (bank_sel size b) bank then maskwren b lane else 0.

Definition next (size : Z) (b : Wishbone) (s : SPRAM) : SPRAM :=
  {| ram bank lane :=
       sp_step (slice (adr b) 0 14) (datain_bank size b bank lane) (maskwren_bank size b bank lane)
               (wren b) (ram s bank lane);
     ack := stb b && cyc b && negb (ack s) |}.

Definition dat_r (size : Z) (b : Wishbone) (s : SPRAM) : Z :=
  cat 16 (sp_out (ram s (bank_sel size b) false)) (wrap 16 (sp_out (ram s (bank_sel size b) true))).

(** ** The abstract memory

    Bit [j] of the 32-bit word at word address [a]; the bank is address bit 14. *)
Definition word_bit (size : Z) (s : SPRAM) (a j : Z) : bool :=
  let bank := if size =? kB64 then false else Z.testbit a 14 in
  Z.testbit (sp_mem (ram s bank (16 <=? j)) (slice a 0 14)) (j mod 16).

(** The words of a memory are told apart by the address bits that are wired. *)
Definition wired (size : Z) (a : Z) : bool * Z :=
  (if size =? kB64 then false else Z.testbit a 14, slice a 0 14).

Lemma maskwren_bit b lane j :
  0 <= j < 16 -> Z.testbit (maskwren b lane) (j / 4) = Z.testbit (sel b) (2 * b2z lane + j / 8).
Proof.
  intros Hj. unfold maskwren. cbv zeta.
  set (p := Z.testbit (sel b) (2 * b2z lane)). set (q := Z.testbit (sel b) (2 * b2z lane + 1)).
  assert (j / 4 = 0 /\ j / 8 = 0 \/ j / 4 = 1 /\ j / 8 = 0 \/ j / 4 = 2 /\ j / 8 = 1 \/ j / 4 = 3 /\ j / 8 = 1)
    as Hc by (Z.div_mod_to_equations; lia).
  assert (forall z, Z.testbit (sel b) (2 * b2z lane + z) = if z =? 0 then p else if z =? 1 then q
                     else Z.testbit (sel b) (2 * b2z lane + z)) as Hs.
  { intros z. destruct (z =? 0) eqn:E0; [apply Z.eqb_eq in E0; subst; by rewrite Z.add_0_r|].
    destruct (z =? 1) eqn:E1; [apply Z.eqb_eq in E1; by subst | done]. }
  rewrite Hs. by destruct Hc as [[-> ->]|[[-> ->]|[[-> ->]|[-> ->]]]]; destruct p, q.
Qed.

Lemma datain_bit b lane j :
  0 <= j < 16 -> Z.testbit (datain b lane) j = Z.testbit (dat_w b) (16 * b2z lane + j).
Proof.
  intros Hj. unfold datain, slice, wrap. rewrite Z.mod_pow2_bits_low, Z.shiftr_spec by lia.
  f_equal. lia.
Qed.

Lemma lane_split j : 0 <= j < 32 ->
  16 * b2z (16 <=? j) + j mod 16 = j /\ 2 * b2z (16 <=? j) + (j mod 16) / 8 = j / 8 /\ 0 <= j mod 16 < 16.
Proof.
  intros Hj. destruct (16 <=? j) eqn:E; [apply Z.leb_le in E | apply Z.leb_gt in E]; cbn [b2z];
    Z.div_mod_to_equations; lia.
Qed.

Lemma dat_r_bit size b s j :
  0 <= j < 32 ->
  Z.testbit (dat_r size b s) j = Z.testbit (sp_out (ram s (bank_sel size b) (16 <=? j))) (j mod 16).
Proof.
  intros Hj. unfold dat_r. rewrite cat_testbit by lia.
  destruct (16 <=? j) eqn:E; [apply Z.leb_le in E | apply Z.leb_gt in E].
  - rewrite (proj2 (Z.ltb_ge j 16)), wrap_testbit by lia. f_equal. Z.div_mod_to_equations; lia.
  - rewrite (proj2 (Z.ltb_lt j 16)) by lia. f_equal. rewrite Z.mod_small; lia.
Qed.

(** Claim C33: Seen from the bus the primitives are one byte-enabled memory:
    a clock edge with write, strobe and cycle set replaces, in the addressed
    word and nowhere else, exactly the bytes whose select bit is set; any
    other edge leaves the whole memory unchanged. *)
Theorem spram_write_spec size b s a j :
  0 <= j < 32 ->
  word_bit size (next size b s) a j =
  if wren b && bool_decide (wired size a = wired size (adr b)) && Z.testbit (sel b) (j / 8)
  then Z.testbit (dat_w b) j else word_bit size s a j.
Proof.
  intros Hj. destruct (lane_split j Hj) as (E1 & E2 & Hj').
  unfold word_bit, wired. cbv zeta. cbn [next ram]. set (lane := 16 <=? j) in *.
  set (bank := if size =? kB64 then false else Z.testbit a 14).
  destruct (wren b) eqn:Ew; [|by rewrite sp_keep].
  rewrite sp_write by done. unfold datain_bank, maskwren_bank. fold (bank_sel size b).
  destruct (eqb (bank_sel size b) bank) eqn:Eb.
  - apply eqb_prop in Eb. rewrite maskwren_bit, datain_bit, E1, E2 by done.
    rewrite andb_true_l. destruct (slice a 0 14 =? slice (adr b) 0 14) eqn:Ea.
    + apply Z.eqb_eq in Ea. rewrite bool_decide_true by congruence. done.
    + apply Z.eqb_neq in Ea. rewrite bool_decide_false by congruence. done.
  - rewrite bool_decide_false; [by rewrite Z.testbit_0_l, andb_false_r|].
    intros [= Eb' _]. rewrite Eb', eqb_reflx in Eb. done.
Qed.

(** A read held for two cycles on an idle bus is acknowledged in the
    second cycle and not in the first, shows there all 32 bits of the
    addressed word, and the acknowledge falls again in the cycle after. *)
Theorem spram_read_spec size b s :
  stb b = true -> cyc b = true -> we b = false -> ack s = false ->
  let s1 := next size b s in
  ack s1 = true /\ ack (next size b s1) = false /\
  (forall j, 0 <= j < 32 -> Z.testbit (dat_r size b s1) j = word_bit size s (adr b) j).
Proof.
  intros Hs Hc Hw Ha. cbv zeta. cbn [next ack]. rewrite Hs, Hc, Ha. split; [done|]. split; [done|].
  intros j Hj. rewrite dat_r_bit by done. cbn [next ram]. unfold wren. rewrite Hw. cbn [andb].
  by rewrite sp_read.
Qed.

(** Only a 32-bit RAM of 64 kB or 128 kB can be built. *)
Theorem spram_config width size :
  SPRAM_check width size = Ok () <-> width = 32 /\ (size = kB64 \/ size = kB128).
Proof.
  unfold SPRAM_check. destruct (width =? 32) eqn:Ew; [apply Z.eqb_eq in Ew | apply Z.eqb_neq in Ew]; cbn [negb].
  - destruct (size =? kB64) eqn:E1, (size =? kB128) eqn:E2; cbn [negb andb];
      rewrite ?Z.eqb_eq, ?Z.eqb_neq in *; intuition congruence.
  - intuition congruence.
Qed.
End SPRAM.

(** ** An instance: a memory as a function *)

Definition merge_nibbles (mask new old : Z) : Z :=
  Z.lor (Z.land new (fold_right Z.lor 0 ((fun k => if Z.testbit mask k then Z.shiftl 15 (4 * k) else 0) <$> [0; 1; 2; 3])))
        (Z.ldiff old (fold_right Z.lor 0 ((fun k => if Z.testbit mask k then Z.shiftl 15 (4 * k) else 0) <$> [0; 1; 2; 3]))).

Definition fun_step (address datain maskwren : Z) (wr : bool) (s : (Z -> Z) * Z) : (Z -> Z) * Z :=
  if wr then (fun a => if a =? address then merge_nibbles maskwren datain (fst s a) else fst s a, snd s)
  else (fst s, fst s address).

Ltac nibble_case mask :=
  match goal with |- context [Z.testbit mask (?a / 4)] =>
    let v := eval vm_compute in (a / 4) in change (a / 4) with v end;
  destruct (Z.testbit mask 0), (Z.testbit mask 1), (Z.testbit mask 2), (Z.testbit mask 3); reflexivity.

Lemma nibble_mask mask j : 0 <= j < 16 ->
  Z.testbit (fold_right Z.lor 0 ((fun k => if Z.testbit mask k then Z.shiftl 15 (4 * k) else 0) <$> [0; 1; 2; 3])) j =
  Z.testbit mask (j / 4).
Proof.
  intros Hj. cbn [fmap list_fmap fold_right].
  assert (j = 0 \/ j = 1 \/ j = 2 \/ j = 3 \/ j = 4 \/ j = 5 \/ j = 6 \/ j = 7 \/ j = 8 \/ j = 9 \/
          j = 10 \/ j = 11 \/ j = 12 \/ j = 13 \/ j = 14 \/ j = 15) as Hc by lia.
  repeat match type of Hc with _ \/ _ => destruct Hc as [-> | Hc]; [nibble_case mask|] end.
  subst j. nibble_case mask.
Qed.

Lemma fun_write address datain maskwren s a j :
  0 <= j < 16 ->
  Z.testbit (fst (fun_step address datain maskwren true s) a) j =
  if (a =? address) && Z.testbit maskwren (j / 4) then Z.testbit datain j else Z.testbit (fst s a) j.
Proof.
  intros Hj. cbn. destruct (a =? address); [|done]. unfold merge_nibbles.
  rewrite Z.lor_spec, Z.land_spec, Z.ldiff_spec, nibble_mask by done. cbn [andb].
  by destruct (Z.testbit maskwren (j / 4)), (Z.testbit datain j), (Z.testbit (fst s a) j).
Qed.

#[export] Instance fun_spram : SB_SPRAM256KA := {|
  sp_state := (Z -> Z) * Z;
  sp_mem := fst; sp_out := snd; sp_step := fun_step;
  sp_write := fun_write;
  sp_keep _ _ _ _ _ := eq_refl; sp_read _ _ _ _ := eq_refl
|}.

Definition blank : SPRAM := {| ram _ _ := ((fun _ => 0), 0); ack := false |}.

Definition write_cycle : Wishbone :=
  {| adr := 0x4003; dat_w := 0x11223344; sel := 5; we := true; stb := true; cyc := true |}.

Definition read_cycle : Wishbone :=
  {| adr := 0x4003; dat_w := 0; sel := 15; we := false; stb := true; cyc := true |}.

Lemma spram_write_spec_witness :
  word_bit kB128 (next kB128 write_cycle blank) 0x4003 2 = true /\
  word_bit kB128 (next kB128 write_cycle blank) 0x4003 9 = false /\
  word_bit kB128 (next kB128 write_cycle blank) 3 2 = false.
Proof.
  split; [|split].
  - refine (eq_trans (spram_write_spec kB128 write_cycle blank 0x4003 2 _) _); [lia | vm_compute; reflexivity].
  - refine (eq_trans (spram_write_spec kB128 write_cycle blank 0x4003 9 _) _); [lia | vm_compute; reflexivity].
  - refine (eq_trans (spram_write_spec kB128 write_cycle blank 3 2 _) _); [lia | vm_compute; reflexivity].
Defined.

Lemma spram_read_spec_witness :
  let s := next kB128 write_cycle (next kB128 write_cycle blank) in
  ack s = false /\ Z.testbit (dat_r kB128 read_cycle (next kB128 read_cycle s)) 2 = true.
Proof.
  cbv zeta. split; [vm_compute; reflexivity|].
  destruct (spram_read_spec kB128 read_cycle (next kB128 write_cycle (next kB128 write_cycle blank))
              eq_refl eq_refl eq_refl ltac:(vm_compute; reflexivity)) as (_ & _ & W).
  refine (eq_trans (W 2 _) _); [lia | vm_compute; reflexivity].
Defined.
