(* ===== verification/Ice40Led.v ===== *)
(** * The RGB LED of the iCE40 UltraPlus boards ([LED] of [gateware/ice40.py])

    Three registers on the CSR bus drive two primitives of the FPGA: the LED
    controller, whose own registers are written through [addr] and [dat], and the
    current driver. Both primitives and LiteX's register are classes that state
    their documented behaviour. *)
From S2P Require Import Prelude Hdl.

(** A register of [w] bits: a bus write is in it one cycle later, with [re] high
    in that cycle. *)
Class CSRStorage := {
  csr : Type;
  csr_reset : csr;
  csr_step : Z -> option Z -> csr -> csr;
  storage : csr -> Z;
  re : csr -> bool;
  csr_reset_idle : storage csr_reset = 0 /\ re csr_reset = false;
  csr_written w v s : storage (csr_step w (Some v) s) = wrap w v /\ re (csr_step w (Some v) s) = true;
  csr_kept w s : storage (csr_step w None s) = storage s /\ re (csr_step w None s) = false
}.

(** The inputs of the LED controller. *)
Record LedIn := { leddcs : bool; leddden : bool; ledddat : Z; leddaddr : Z; leddexe : bool }.

(** A cycle with chip select and data enable writes one register. *)
Class SB_LEDDA_IP := {
  ip : Type;
  ip_reset : ip;
  ip_next : LedIn -> ip -> ip;
  ip_regs : ip -> Z -> Z;
  pwmout : ip -> nat -> bool;
  ip_write x s a :
    ip_regs (ip_next x s) a = if leddcs x && leddden x && (a =? leddaddr x) then ledddat x else ip_regs s a
}.

(** The current driver: the level of an output from the enables and its PWM. *)
Class SB_RGBA_DRV := rgb : bool -> bool -> bool -> bool.

Section led.
Context {C : CSRStorage} {L : SB_LEDDA_IP} {R : SB_RGBA_DRV}.

(** A write on the CSR bus. *)
Inductive bus_write := WriteDat (v : Z) | WriteAddr (v : Z) | WriteCtrl (v : Z).

Record LED := { dat : csr; addr : csr; ctrl : csr; ledda : ip }.

Definition reset : LED := {| dat := csr_reset; addr := csr_reset; ctrl := csr_reset; ledda := ip_reset |}.

Definition leddin (s : LED) : LedIn := {|
  leddcs := re (dat s); leddden := re (dat s);
  ledddat := storage (dat s); leddaddr := storage (addr s);
  leddexe := Z.testbit (storage (ctrl s)) 0 |}.

Definition next (b : option bus_write) (s : LED) : LED := {|
  dat := csr_step 8 (match b with Some (WriteDat v) => Some v | _ => None end) (dat s);
  addr := csr_step 4 (match b with Some (WriteAddr v) => Some v | _ => None end) (addr s);
  ctrl := csr_step 4 (match b with Some (WriteCtrl v) => Some v | _ => None end) (ctrl s);
  ledda := ip_next (leddin s) (ledda s) |}.

(** [pads.rgb0] to [rgb2]. *)
Definition pads (s : LED) (k : nat) : bool :=
  rgb (Z.testbit (storage (ctrl s)) 1) (Z.testbit (storage (ctrl s)) 2) (pwmout (ledda s) k).

(** ** What software sees

    An address, the controller's registers and the control register. *)
Record View := { cur : Z; file : Z -> Z; control : Z }.

Definition view_write (v : View) (b : option bus_write) : View :=
  match b with
  | Some (WriteAddr a) => {| cur := wrap 4 a; file := file v; control := control v |}
  | Some (WriteDat d) =>
      {| cur := cur v; file := fun a => if a =? cur v then wrap 8 d else file v a; control := control v |}
  | Some (WriteCtrl c) => {| cur := cur v; file := file v; control := wrap 4 c |}
  | None => v
  end.

Definition view_at (inp : nat -> option bus_write) (t : nat) : View :=
  fold_left view_write (inp <$> seq 0 t) {| cur := 0; file := ip_regs ip_reset; control := 0 |}.

(** The registers with the write that is on its way. *)
Definition effective (s : LED) (a : Z) : Z :=
  if re (dat s) && (a =? storage (addr s)) then storage (dat s) else ip_regs (ledda s) a.

Definition seen (s : LED) (v : View) : Prop :=
  storage (addr s) = cur v /\ storage (ctrl s) = control v /\ forall a, effective s a = file v a.

Lemma next_regs b s a : ip_regs (ledda (next b s)) a = effective s a.
Proof. cbn [ledda next]. rewrite ip_write. cbn [leddcs leddden ledddat leddaddr leddin]. by rewrite andb_diag. Qed.

Lemma seen_next b s v : seen s v -> seen (next b s) (view_write v b).
Proof.
  intros (Ha & Hc & He). unfold seen. unfold effective at 1.
  assert (Hr : forall a, ip_regs (ledda (next b s)) a = file v a) by (intros a; by rewrite next_regs).
  setoid_rewrite Hr. clear Hr He. cbn [dat addr ctrl next].
  destruct b as [[d|a|c]|]; cbn [view_write cur file control];
    repeat match goal with
    | |- context [csr_step ?w (Some ?x) ?r] =>
        first [rewrite (proj1 (csr_written w x r)) | rewrite (proj2 (csr_written w x r))]
    | |- context [csr_step ?w None ?r] =>
        first [rewrite (proj1 (csr_kept w r)) | rewrite (proj2 (csr_kept w r))]
    end; rewrite ?Ha, ?Hc; auto.
Qed.

Lemma seen_at inp t : seen (state_at next reset inp t) (view_at inp t).
Proof.
  unfold view_at. induction t as [|t IH].
  - unfold seen, effective. cbn [state_at reset dat addr ctrl ledda]. destruct csr_reset_idle as [-> ->]. by split_and!.
  - cbn [state_at]. rewrite seq_S, fmap_app, fold_left_app. by apply seen_next.
Qed.

(** Whatever is written to the three registers and when: once a cycle without
    a write to [dat] has passed, every register of the LED controller holds the
    last byte written to [dat] while [addr] had its number, and the driver's
    enables are the bits of [ctrl]. *)
Theorem led_registers inp t (Hq : forall v, inp t <> Some (WriteDat v)) :
  let s := state_at next reset inp (S t) in
  (forall a, ip_regs (ledda s) a = file (view_at inp t) a) /\
  forall k, pads s k = rgb (Z.testbit (control (view_at inp (S t))) 1) (Z.testbit (control (view_at inp (S t))) 2) (pwmout (ledda s) k).
Proof using Type.
  cbv zeta. split.
  - intros a. cbn [state_at]. rewrite next_regs. apply seen_at.
  - intros k. unfold pads. by destruct (seen_at inp (S t)) as (_ & -> & _).
Qed.
End led.

(** ** Instances *)

#[export] Program Instance plain_csr : CSRStorage := {|
  csr := Z * bool;
  csr_reset := (0, false);
  csr_step := fun w b s => match b with Some v => (wrap w v, true) | None => (fst s, false) end;
  storage := fst;
  re := snd
|}.
Solve Obligations with (intros; split; reflexivity).

#[export] Program Instance plain_ledda : SB_LEDDA_IP := {|
  ip := Z -> Z;
  ip_reset := fun _ => 0;
  ip_next := fun x s a => if leddcs x && leddden x && (a =? leddaddr x) then ledddat x else s a;
  ip_regs := fun s => s;
  pwmout := fun s k => 0 <? s (Z.of_nat k)
|}.
Next Obligation. done. Qed.

#[export] Instance plain_drv : SB_RGBA_DRV := fun curren rgbleden pwm => curren && rgbleden && pwm.

(** Register 1 is selected and written, and the outputs are enabled. *)
Lemma led_registers_witness :
  let inp := fun n => nth n [Some (WriteAddr 1); Some (WriteDat 0x1ff); Some (WriteCtrl 7)] None in
  ip_regs (ledda (state_at next reset inp 3)) 1 = 0xff /\ pads (state_at next reset inp 3) 1 = true.
Proof.
  intros inp. destruct (led_registers inp 2 ltac:(done)) as [Hr Hp]. split.
  - exact (Hr 1).
  - exact (Hp 1%nat).
Defined.
