(* ===== verification/Oled.v ===== *)
(** * The SPI master of the OLED display ([gateware/oled.py])

    [SPIMaster]: a free-running clock divider of [div] cycles, a four-state
    FSM that counts the bits of a transfer, and the two shift registers.
    [OLED] instantiates it with eight bits, [div = 16] and [cpha = 0]. *)
From S2P Require Import Prelude Hdl.

Inductive fsm_state := IDLE | WAIT_CLK | SHIFT | END.

#[export] Instance fsm_state_eq_dec : EqDecision fsm_state.
Proof. solve_decision. Defined.

(** [ctrl_start]: a write of [ctrl] with bit 0 set. *)
Record SpiIn := { ctrl_start : bool; length_ : Z; mosi_storage : Z; miso_pin : bool }.

Record SPIMaster := {
  pads_clk : bool; pads_mosi : bool;
  i : Z; cnt : Z; fsm : fsm_state;
  miso : bool; sr_miso : Z; sr_mosi : Z
}.

Definition reset : SPIMaster := {|
  pads_clk := false; pads_mosi := false; i := 0; cnt := 0; fsm := IDLE;
  miso := false; sr_miso := 0; sr_mosi := 0 |}.

Section SPIMaster.
Context (width div : Z) (cpha : bool).

Definition set_clk (s : SPIMaster) : bool := i s =? div / 2 - 1.
Definition clr_clk (s : SPIMaster) : bool := i s =? div - 1.

Definition enable_cs (s : SPIMaster) : bool := match fsm s with SHIFT => true | _ => false end.
Definition enable_shift (s : SPIMaster) : bool :=
  match fsm s with SHIFT | END => true | _ => false end.
Definition done_ (s : SPIMaster) : bool := match fsm s with IDLE => true | _ => false end.
Definition irq (s : SPIMaster) : bool := match fsm s with END => true | _ => false end.
Definition cs_n (s : SPIMaster) : bool := negb (enable_cs s).

Definition fsm_next (x : SpiIn) (s : SPIMaster) : fsm_state :=
  match fsm s with
  | IDLE => if ctrl_start x then WAIT_CLK else IDLE
  | WAIT_CLK => if clr_clk s then SHIFT else WAIT_CLK
  | SHIFT => if cnt s =? length_ x then END else SHIFT
  | END => if set_clk s then IDLE else END
  end.

Definition clr_cnt (s : SPIMaster) : bool := match fsm s with IDLE => true | _ => false end.
Definition inc_cnt (x : SpiIn) (s : SPIMaster) : bool :=
  match fsm s with SHIFT => negb (cnt s =? length_ x) && clr_clk s | _ => false end.

(** [cpha] exchanges the edges on which MISO is captured and shifted, and
    those on which MOSI is shifted and driven. *)
Definition capture_edge (s : SPIMaster) : bool := if cpha then clr_clk s else set_clk s.
Definition other_edge (s : SPIMaster) : bool := if cpha then set_clk s else clr_clk s.

Definition miso_next (x : SpiIn) (s : SPIMaster) : bool * Z :=
  if enable_shift s then
    if capture_edge s then (miso_pin x, sr_miso s)
    else if other_edge s then (miso s, shift_in width 1 (sr_miso s) (b2z (miso s)))
    else (miso s, sr_miso s)
  else (miso s, sr_miso s).

Definition mosi_next (x : SpiIn) (s : SPIMaster) : bool * Z :=
  if ctrl_start x then (pads_mosi s, mosi_storage x)
  else if capture_edge s && enable_shift s then (pads_mosi s, shift_in width 1 (sr_mosi s) 0)
  else if other_edge s then (Z.testbit (sr_mosi s) (width - 1), sr_mosi s)
  else (pads_mosi s, sr_mosi s).

Definition next (x : SpiIn) (s : SPIMaster) : SPIMaster := {|
  pads_clk := if clr_clk s then false else if set_clk s then enable_cs s else pads_clk s;
  pads_mosi := fst (mosi_next x s);
  i := if clr_clk s then 0 else i s + 1;
  cnt := if clr_cnt s then 0 else if inc_cnt x s then wrap 8 (cnt s + 1) else cnt s;
  fsm := fsm_next x s;
  miso := fst (miso_next x s);
  sr_miso := snd (miso_next x s);
  sr_mosi := snd (mosi_next x s) |}.
End SPIMaster.

(** ** A transfer with [cpha = 0] *)

Section Transfer.
Context (width div : Z) (L v : Z) (pin : nat -> bool).
Hypothesis Hwidth : 0 < width.
Hypothesis Hdiv : 4 <= div.
Hypothesis HL : 0 <= L < 2 ^ 8.
Hypothesis Hv : in_width width v.

Abbreviation step := (next width div false).

Definition xfer (n : nat) : SpiIn :=
  {| ctrl_start := (n =? 0)%nat; length_ := L; mosi_storage := v; miso_pin := pin n |}.

(** MOSI's shift register after [m] shifts. *)
Definition sr_after (m : Z) : Z := wrap width (v * 2 ^ m).

Lemma sr_after_shift m : 0 <= m -> shift_in width 1 (sr_after m) 0 = sr_after (m + 1).
Proof using Hwidth.
  intros Hm. rewrite shift_in_eq by (unfold in_width; lia). unfold sr_after, wrap.
  rewrite Z.add_0_r, Zmult_mod_idemp_l. f_equal. rewrite Z.pow_add_r by lia. ring.
Qed.

Lemma sr_after_top m : 0 <= m -> Z.testbit (sr_after m) (width - 1) = Z.testbit v (width - 1 - m).
Proof using Hwidth.
  intros Hm. unfold sr_after. rewrite wrap_testbit by lia. by rewrite Z.mul_pow2_bits by lia.
Qed.

(** The state [j] cycles into SPI clock period [k]. *)
Definition in_period (k j : Z) (m : bool) (sm : Z) : SPIMaster := {|
  pads_clk := div / 2 <=? j; pads_mosi := Z.testbit v (width - 1 - k);
  i := j; cnt := k; fsm := SHIFT; miso := m; sr_miso := sm;
  sr_mosi := sr_after (if div / 2 <=? j then k + 1 else k) |}.

Lemma half : 2 <= div / 2 /\ div / 2 <= div - 2.
Proof using Hdiv. clear -Hdiv. Z.div_mod_to_equations; lia. Qed.

Lemma period_step x k j m sm :
  0 <= k < L -> 0 <= j < div - 1 -> ctrl_start x = false -> length_ x = L ->
  step x (in_period k j m sm) =
  in_period k (j + 1) (if j =? div / 2 - 1 then miso_pin x else m) sm.
Proof using Hwidth Hdiv HL.
  intros Hk Hj Hs Hl. pose proof half as [Hh Hh'].
  assert ((j =? div - 1) = false) as Ec by (apply Z.eqb_neq; lia).
  assert ((k =? L) = false) as Ek by (apply Z.eqb_neq; lia).
  unfold next, set_clk, clr_clk, miso_next, mosi_next, capture_edge, other_edge, fsm_next, inc_cnt,
    clr_cnt, enable_cs, enable_shift, set_clk, clr_clk.
  cbn [in_period i cnt fsm miso sr_miso sr_mosi pads_clk pads_mosi].
  rewrite Hs, Hl, Ek, Ec. unfold in_period. cbn [negb andb].
  destruct (j =? div / 2 - 1) eqn:Ej; [apply Z.eqb_eq in Ej | apply Z.eqb_neq in Ej]; cbn [fst snd andb].
  - rewrite (proj2 (Z.leb_gt _ j)), (proj2 (Z.leb_le _ (j + 1))) by lia.
    rewrite sr_after_shift by lia. reflexivity.
  - destruct (div / 2 <=? j) eqn:E; [apply Z.leb_le in E | apply Z.leb_gt in E].
    + by rewrite (proj2 (Z.leb_le _ (j + 1))) by lia.
    + by rewrite (proj2 (Z.leb_gt _ (j + 1))) by lia.
Qed.

Lemma period_last x k m sm :
  0 <= k < L -> ctrl_start x = false -> length_ x = L ->
  step x (in_period k (div - 1) m sm) =
  in_period (k + 1) 0 m (shift_in width 1 sm (b2z m)).
Proof using Hwidth Hdiv HL.
  intros Hk Hs Hl. pose proof half as [Hh Hh'].
  assert ((k =? L) = false) as Ek by (apply Z.eqb_neq; lia).
  unfold next, set_clk, clr_clk, miso_next, mosi_next, capture_edge, other_edge, fsm_next, inc_cnt,
    clr_cnt, enable_cs, enable_shift, set_clk, clr_clk.
  cbn [in_period i cnt fsm miso sr_miso sr_mosi pads_clk pads_mosi].
  rewrite Hs, Hl, Ek, Z.eqb_refl. rewrite (proj2 (Z.eqb_neq (div - 1) _)) by lia.
  rewrite (proj2 (Z.leb_le _ (div - 1))) by lia. cbn [negb andb fst snd].
  unfold in_period. rewrite (proj2 (Z.leb_gt _ 0)) by lia.
  rewrite wrap_id by (unfold in_width; lia). rewrite sr_after_top by lia.
  done.
Qed.
(** Waiting for the divider, and the half period after the last bit. *)
Definition in_wait (j : Z) (pm m : bool) (sm : Z) : SPIMaster := {|
  pads_clk := false; pads_mosi := pm; i := j; cnt := 0; fsm := WAIT_CLK;
  miso := m; sr_miso := sm; sr_mosi := v |}.

Definition in_end (j : Z) (pm m : bool) (sm sr : Z) : SPIMaster := {|
  pads_clk := false; pads_mosi := pm; i := j; cnt := L; fsm := END;
  miso := m; sr_miso := sm; sr_mosi := sr |}.

Ltac unfold_step :=
  unfold next, set_clk, clr_clk, miso_next, mosi_next, capture_edge, other_edge, fsm_next, inc_cnt,
    clr_cnt, enable_cs, enable_shift, set_clk, clr_clk;
  cbn [in_period in_wait in_end i cnt fsm miso sr_miso sr_mosi pads_clk pads_mosi].

Lemma wait_step x j pm m sm :
  0 <= j < div - 1 -> ctrl_start x = false -> step x (in_wait j pm m sm) = in_wait (j + 1) pm m sm.
Proof using.
  intros Hj Hs. unfold_step. rewrite Hs. rewrite (proj2 (Z.eqb_neq j (div - 1))) by lia.
  unfold in_wait. by destruct (j =? div / 2 - 1).
Qed.

Lemma wait_last x pm m sm :
  ctrl_start x = false -> step x (in_wait (div - 1) pm m sm) = in_period 0 0 m sm.
Proof using Hdiv Hv.
  intros Hs. unfold_step. rewrite Hs, Z.eqb_refl. pose proof half as [Hh Hh'].
  unfold in_period. rewrite (proj2 (Z.leb_gt _ 0)) by lia.
  unfold sr_after. rewrite Z.mul_1_r, wrap_id by done. cbn. rewrite andb_false_r, Z.sub_0_r. done.
Qed.

Lemma end_enter x m sm :
  ctrl_start x = false -> length_ x = L ->
  exists pm sr, step x (in_period L 0 m sm) = in_end 1 pm m sm sr.
Proof using Hdiv.
  intros Hs Hl. pose proof half as [Hh Hh']. unfold_step. rewrite Hs, Hl, Z.eqb_refl.
  rewrite !(proj2 (Z.eqb_neq 0 _)), (proj2 (Z.leb_gt _ 0)) by lia. cbn. by eexists _, _.
Qed.

Lemma end_step x j pm m sm sr :
  1 <= j < div / 2 - 1 -> ctrl_start x = false ->
  step x (in_end j pm m sm sr) = in_end (j + 1) pm m sm sr.
Proof using Hdiv.
  intros Hj Hs. pose proof half as [Hh Hh']. unfold_step. rewrite Hs.
  by rewrite (proj2 (Z.eqb_neq j (div / 2 - 1))), (proj2 (Z.eqb_neq j (div - 1))) by lia.
Qed.

Lemma end_last x pm m sm sr :
  ctrl_start x = false ->
  let s' := step x (in_end (div / 2 - 1) pm m sm sr) in
  fsm s' = IDLE /\ pads_clk s' = false /\ sr_miso s' = sm /\ i s' = div / 2.
Proof using Hdiv.
  intros Hs. pose proof half as [Hh Hh']. cbv zeta. unfold_step. rewrite Z.eqb_refl.
  rewrite (proj2 (Z.eqb_neq (div / 2 - 1) (div - 1))) by lia. cbn. repeat split. lia.
Qed.

Section Run.
Variable s : SPIMaster.
Hypothesis Hidle : fsm s = IDLE.
Hypothesis Hclk : pads_clk s = false.
Hypothesis Hi : 0 <= i s < div.

Abbreviation at_ := (state_at step s xfer).

Definition D : nat := Z.to_nat div.
Definition h : nat := Z.to_nat (div / 2).
Definition t0 : nat := Z.to_nat (if i s =? div - 1 then div + 1 else div - i s).

Lemma wait_at n :
  (n < t0)%nat -> (0 < n)%nat ->
  at_ n = in_wait (div - 1 - (Z.of_nat t0 - 1 - Z.of_nat n)) (pads_mosi s) (miso s) (sr_miso s).
Proof using Hidle Hclk Hi Hdiv.
  intros Hn H0. pose proof half as [Hh Hh'].
  assert (Z.of_nat t0 = if i s =? div - 1 then div + 1 else div - i s) as Et.
  { unfold t0. rewrite Z2Nat.id; [done|]. destruct (_ =? _); lia. }
  induction n as [|n IH]; [lia|]. rewrite state_at_S. destruct n as [|n].
  - cbn [state_at]. unfold next, set_clk, clr_clk, miso_next, mosi_next, fsm_next, inc_cnt, clr_cnt,
      enable_cs, enable_shift. rewrite Hidle, Hclk. cbn [xfer ctrl_start Nat.eqb fst snd].
    unfold in_wait. destruct (i s =? div - 1) eqn:E.
    + replace (div - 1 - (Z.of_nat t0 - 1 - Z.of_nat 1)) with 0 by lia. done.
    + replace (div - 1 - (Z.of_nat t0 - 1 - Z.of_nat 1)) with (i s + 1) by lia.
      unfold set_clk. by destruct (i s =? div / 2 - 1).
  - rewrite IH by lia. destruct (i s =? div - 1); rewrite wait_step by (lia || done); f_equal; lia.
Qed.

(** The level sampled from MISO in period [k]. *)
Definition sampled (k : nat) : bool := pin (t0 + k * D + h - 1)%nat.

Definition sr_miso_after (k : nat) : Z :=
  shift_ins width 1 (sr_miso s) ((fun n => b2z (sampled n)) <$> seq 0 k).

Lemma t0_pos : (2 <= t0)%nat.
Proof using Hi Hdiv.
  clear -Hi Hdiv. unfold t0. destruct (i s =? div - 1) eqn:E; [|apply Z.eqb_neq in E]; lia.
Qed.

Lemma D_eq : Z.of_nat D = div.
Proof using Hdiv. clear -Hdiv. unfold D. lia. Qed.

Lemma h_eq : Z.of_nat h = div / 2.
Proof using Hdiv. unfold h. pose proof half. lia. Qed.

Lemma no_start n : (0 < n)%nat -> ctrl_start (xfer n) = false.
Proof using. intros Hn. cbn. destruct n; [lia | done]. Qed.

Definition period_at (k j : nat) : Prop :=
  exists m, at_ (t0 + k * D + j)%nat = in_period (Z.of_nat k) (Z.of_nat j) m (sr_miso_after k) /\
            ((h <= j)%nat -> m = sampled k).

Lemma period_at_first : period_at 0 0.
Proof using Hidle Hclk Hi Hdiv Hv.
  pose proof t0_pos as Ht. exists (miso s). split; [|pose proof h_eq; pose proof half; lia].
  replace (t0 + 0 * D + 0)%nat with (S (t0 - 1)) by lia. rewrite state_at_S, wait_at by lia.
  replace (div - 1 - (Z.of_nat t0 - 1 - Z.of_nat (t0 - 1))) with (div - 1) by lia.
  apply wait_last, no_start. lia.
Qed.

Lemma period_at_step k j :
  Z.of_nat k < L -> (S j < D)%nat -> period_at k j -> period_at k (S j).
Proof using Hwidth Hdiv HL Hi.
  intros Hk Hj [m [E Hm]]. pose proof t0_pos as Ht. pose proof D_eq as HD. pose proof h_eq as Hh.
  unfold period_at. rewrite Nat.add_succ_r, state_at_S, E.
  rewrite period_step by (done || lia || apply no_start; lia).
  eexists. rewrite Nat2Z.inj_succ, <- Z.add_1_r. split; [done|]. intros Hhj.
  destruct (Z.of_nat j =? div / 2 - 1) eqn:Ej; [apply Z.eqb_eq in Ej | apply Z.eqb_neq in Ej].
  - unfold sampled. cbn [xfer miso_pin]. f_equal. lia.
  - apply Hm. lia.
Qed.

Lemma period_at_next k :
  Z.of_nat k < L -> period_at k (D - 1) -> period_at (S k) 0.
Proof using Hwidth Hdiv HL Hi.
  intros Hk [m [E Hm]]. pose proof t0_pos as Ht. pose proof D_eq as HD. pose proof h_eq as Hh.
  pose proof half as [Hh1 Hh2]. exists m. split; [|lia].
  replace (t0 + S k * D + 0)%nat with (S (t0 + k * D + (D - 1))) by lia.
  rewrite state_at_S, E. replace (Z.of_nat (D - 1)) with (div - 1) by lia.
  rewrite period_last by (done || lia || apply no_start; lia).
  unfold sr_miso_after. rewrite seq_S, fmap_app. cbn [fmap list_fmap].
  rewrite (shift_ins_snoc width 1 _ _ (b2z (sampled k))), (Hm ltac:(lia)).
  f_equal. lia.
Qed.

Lemma period_at_all k j : Z.of_nat k < L -> (j < D)%nat -> period_at k 0 -> period_at k j.
Proof using Hwidth Hdiv HL Hi.
  intros Hk Hj H0. induction j as [|j IH]; [done|]. apply period_at_step; [done..|]. apply IH. lia.
Qed.

Lemma period_at_start k : Z.of_nat k <= L -> period_at k 0.
Proof using Hidle Hclk Hi Hwidth Hdiv HL Hv.
  pose proof D_eq as HD. induction k as [|k IH]; intros Hk; [apply period_at_first|].
  apply period_at_next; [lia|]. apply period_at_all; [lia | lia | apply IH; lia].
Qed.

Lemma end_at j : (1 <= j < h)%nat ->
  exists pm m sr, at_ (t0 + Z.to_nat L * D + j)%nat = in_end (Z.of_nat j) pm m (sr_miso_after (Z.to_nat L)) sr.
Proof using Hidle Hclk Hi Hwidth Hdiv HL Hv.
  pose proof t0_pos as Ht. pose proof h_eq as Hh.
  induction j as [|j IH]; intros Hj; [lia|]. rewrite Nat.add_succ_r, state_at_S. destruct j as [|j].
  - destruct (period_at_start (Z.to_nat L)) as [m [E _]]; [lia|]. rewrite E, Z2Nat.id by lia.
    destruct (end_enter (xfer (t0 + Z.to_nat L * D + 0)) m (sr_miso_after (Z.to_nat L)))
      as (pm & sr & E'); [apply no_start; lia | done |]. change (Z.of_nat 0) with 0. exists pm, m, sr. exact E'.
  - destruct IH as (pm & m & sr & E); [lia|]. rewrite E.
    rewrite end_step by (lia || apply no_start; lia). exists pm, m, sr. f_equal. lia.
Qed.

(** Claim C25: A transfer of [L] bits started while the master is idle, with a
    divider of at least four cycles: before the first bit the chip select and
    the clock are inactive; in each of [L] successive clock periods of [div]
    cycles the chip is selected, the clock is low in the first half and high
    in the second, and MOSI holds the next bit of the data word, most
    significant first, for the whole period (so at the rising edge); half a
    period after the last one the master is idle, with the clock low and the
    [L] levels sampled from MISO at the rising edges shifted into the receive
    register. *)
Theorem oled_spi_transfer :
  (forall n, (0 < n < t0)%nat -> pads_clk (at_ n) = false /\ cs_n (at_ n) = true) /\
  (forall k j, Z.of_nat k < L -> (j < D)%nat ->
     let s' := at_ (t0 + k * D + j)%nat in
     cs_n s' = false /\ pads_clk s' = (h <=? j)%nat /\
     pads_mosi s' = Z.testbit v (width - 1 - Z.of_nat k)) /\
  (let s' := at_ (t0 + Z.to_nat L * D + h)%nat in
   fsm s' = IDLE /\ pads_clk s' = false /\ sr_miso s' = sr_miso_after (Z.to_nat L)).
Proof using Hidle Hclk Hi Hwidth Hdiv HL Hv.
  pose proof h_eq as Hh. pose proof half as [Hh1 Hh2]. split; [|split].
  - intros n [H0 Hn]. by rewrite wait_at.
  - intros k j Hk Hj. cbv zeta.
    destruct (period_at_all k j Hk Hj) as [m [E _]]; [apply period_at_start; lia|].
    rewrite E. cbn. split; [done|]. split; [|done].
    destruct (h <=? j)%nat eqn:E1; [apply Nat.leb_le in E1; apply Z.leb_le | apply Nat.leb_gt in E1; apply Z.leb_gt]; lia.
  - destruct (end_at (h - 1)) as (pm & m & sr & E); [lia|]. cbv zeta.
    replace (t0 + Z.to_nat L * D + h)%nat with (S (t0 + Z.to_nat L * D + (h - 1))) by lia.
    rewrite state_at_S, E. replace (Z.of_nat (h - 1)) with (div / 2 - 1) by lia.
    destruct (end_last (xfer (t0 + Z.to_nat L * D + (h - 1))) pm m (sr_miso_after (Z.to_nat L)) sr)
      as (? & ? & ? & _); [apply no_start; pose proof t0_pos; lia | done].
Qed.
End Run.
End Transfer.

(** [OLED]: an 8-bit master with [div = 16] and [cpha = 0]; the display takes
    the clock and the data. *)
Definition OLED_next : SpiIn -> SPIMaster -> SPIMaster := next 8 16 false.
Definition OLED_pads (s : SPIMaster) : bool * bool := (pads_clk s, pads_mosi s).

Lemma oled_spi_transfer_witness :
  (forall k j, Z.of_nat k < 8 -> (j < 16)%nat ->
     pads_mosi (state_at OLED_next reset (xfer 8 0xA5 (fun _ => false)) (16 + k * 16 + j)) =
     Z.testbit 0xA5 (7 - Z.of_nat k)) /\
  fsm (state_at OLED_next reset (xfer 8 0xA5 (fun _ => false)) (16 + 8 * 16 + 8)) = IDLE.
Proof.
  destruct (oled_spi_transfer 8 16 8 0xA5 (fun _ => false) ltac:(lia) ltac:(lia) ltac:(lia)
              ltac:(unfold in_width; lia) reset eq_refl eq_refl ltac:(cbn; lia)) as (_ & W & (F & _)).
  split; [|exact F]. intros k j Hk Hj. apply (W k j Hk Hj).
Defined.

(** The rising clock edges of an execution. *)
Definition clock_edges (s : SPIMaster) (inp : nat -> SpiIn) (width div : Z) (t : nat) : nat :=
  length (filter (fun n => negb (pads_clk (state_at (next width div false) s inp n)) &&
                           pads_clk (state_at (next width div false) s inp (S n)) = true) (seq 0 t)).

(** With the constructor's default divider of two cycles a transfer of [L]
    bits has [L + 1] rising clock edges. *)
Lemma default_divider_extra_edge :
  clock_edges reset (xfer 8 0xA5 (fun _ => false)) 24 2 100 = 9%nat /\
  clock_edges reset (xfer 8 0xA5 (fun _ => false)) 8 16 300 = 8%nat.
Proof. vm_compute. done. Qed.
