(* ===== verification/Rtp.v ===== *)
(** * RTP packets of the encoder stream ([gateware/streamer/rtp.py])

    The header layout, the generator that cuts the encoder's byte stream into
    packets, and the sender that numbers them. The FIFO, the flush timer, the
    [FlipFlop], the [Counter] and the [Packetizer] are third-party: the FIFO's
    level and valid flag and the timer's [done] are inputs of the model, and a
    class states what the two registers do. *)
From S2P Require Import Prelude Hdl.

(** [HeaderField(byte, offset, width)]. *)
Record HeaderField := { byte : nat; offset : nat; fwidth : nat }.

Definition rtp_header_length : nat := 12.

Definition rtp_header_fields : list (string * HeaderField) := [
  ("ver", {| byte := 0; offset := 6; fwidth := 2 |});
  ("p", {| byte := 0; offset := 5; fwidth := 1 |});
  ("x", {| byte := 0; offset := 4; fwidth := 1 |});
  ("cc", {| byte := 0; offset := 0; fwidth := 4 |});
  ("m", {| byte := 1; offset := 7; fwidth := 1 |});
  ("pt", {| byte := 1; offset := 0; fwidth := 7 |});
  ("sequence_number", {| byte := 2; offset := 0; fwidth := 16 |});
  ("timestamp", {| byte := 4; offset := 0; fwidth := 32 |});
  ("ssrc", {| byte := 8; offset := 0; fwidth := 32 |})
]%string.

(** The header bits a field occupies. *)
Definition field_bits (f : HeaderField) : list nat := seq (8 * byte f + offset f) (fwidth f).

(** The constant fields the sender puts into every header. *)
Definition sender_fields : list (string * Z) :=
  [("ver", 0x2); ("p", 0); ("x", 0); ("cc", 0); ("m", 0); ("pt", 26); ("ssrc", 1)]%string.

(** [FlipFlop] and [Counter]. *)
Class Registers := {
  ff_next : bool -> Z -> Z -> Z;
  ff_load d q : ff_next true d q = d;
  ff_hold d q : ff_next false d q = q;
  counter_next : bool -> bool -> Z -> Z -> Z;
  counter_clear ce w v : counter_next true ce w v = 0;
  counter_count w v : counter_next false true w v = wrap w (v + 1);
  counter_hold w v : counter_next false false w v = v
}.

Definition ff_mux (ce : bool) (d q : Z) : Z := if ce then d else q.
Definition counter_mux (rst ce : bool) (w v : Z) : Z :=
  if rst then 0 else if ce then wrap w (v + 1) else v.

#[export] Instance mux_registers : Registers := {|
  ff_next := ff_mux; ff_load _ _ := eq_refl; ff_hold _ _ := eq_refl;
  counter_next := counter_mux;
  counter_clear _ _ _ := eq_refl; counter_count _ _ := eq_refl; counter_hold _ _ := eq_refl
|}.

Inductive rtp_state := IDLE | SEND.

Section EncoderRTPGenerator.
Context {BM : BitMath} {RG : Registers} (fifo_depth : Z).

Record GenIn := { fifo_level : Z; fifo_stb : bool; timer_done : bool; source_ack : bool }.

Record EncoderRTPGenerator := { level_q : Z; counter : Z; gstate : rtp_state }.

Definition generator_reset : EncoderRTPGenerator := {| level_q := 0; counter := 0; gstate := IDLE |}.

Definition flush (x : GenIn) : bool := (0 <? fifo_level x) && timer_done x.
Definition accept (x : GenIn) (s : EncoderRTPGenerator) : bool :=
  match gstate s with IDLE => (256 <=? fifo_level x) || flush x | SEND => false end.

(** The source endpoint in [SEND]; all its signals are 0 otherwise. *)
Definition source_stb (x : GenIn) (s : EncoderRTPGenerator) : bool :=
  match gstate s with SEND => fifo_stb x | IDLE => false end.
Definition source_sop (s : EncoderRTPGenerator) : bool := counter s =? 0.
Definition source_eop (s : EncoderRTPGenerator) : bool :=
  if level_q s =? 0 then true else counter s =? level_q s - 1.
Definition source_length (s : EncoderRTPGenerator) : Z :=
  wrap 16 (if level_q s =? 0 then 1 else level_q s).

Definition transfer (x : GenIn) (s : EncoderRTPGenerator) : bool := source_stb x s && source_ack x.

(** The FIFO gives up a byte exactly when it is transferred. *)
Definition fifo_ack (x : GenIn) (s : EncoderRTPGenerator) : bool :=
  match gstate s with SEND => source_ack x | IDLE => false end.

Definition next (x : GenIn) (s : EncoderRTPGenerator) : EncoderRTPGenerator := {|
  level_q := ff_next (accept x s) (fifo_level x) (level_q s);
  counter := counter_next (accept x s) (transfer x s) (bits_for (fifo_depth - 1)) (counter s);
  gstate := match gstate s with
            | IDLE => if accept x s then SEND else IDLE
            | SEND => if transfer x s && source_eop s then IDLE else SEND
            end |}.

(** A transferred byte, as the receiver sees it: its packet flags and the
    packet's length field. *)
Definition beat (x : GenIn) (s : EncoderRTPGenerator) : option (bool * bool * Z) :=
  if transfer x s then Some (source_sop s, source_eop s, source_length s) else None.

(** The first [k] bytes of a packet of [n]. *)
Definition packet (n : Z) (k : nat) : list (bool * bool * Z) :=
  (fun j => (Z.of_nat j =? 0, Z.of_nat j =? n - 1, n)) <$> seq 0 k.

Context (Hdepth : 1 < fifo_depth < 2 ^ 16).

Lemma send_step x s n :
  gstate s = SEND -> level_q s = n -> 1 <= n <= fifo_depth -> 0 <= counter s < n ->
  level_q (next x s) = n /\
  match beat x s with
  | Some b => b = (counter s =? 0, counter s =? n - 1, n) /\
              (if counter s =? n - 1 then gstate (next x s) = IDLE
               else gstate (next x s) = SEND /\ counter (next x s) = counter s + 1)
  | None => gstate (next x s) = SEND /\ counter (next x s) = counter s
  end.
Proof using Hdepth.
  intros Hs Hq Hn Hc. unfold beat, source_sop, source_eop, source_length.
  cbn [next level_q counter gstate]. rewrite Hs. unfold accept. rewrite Hs, ff_hold, Hq.
  split; [done|]. unfold source_eop. rewrite Hq, (proj2 (Z.eqb_neq n 0)) by lia.
  destruct (transfer x s) eqn:Et; [|by rewrite counter_hold].
  rewrite wrap_id by (unfold in_width; lia). split; [done|]. cbn [andb].
  destruct (counter s =? n - 1) eqn:Ec; [done|]. apply Z.eqb_neq in Ec. split; [done|].
  rewrite counter_count. apply wrap_id. unfold in_width.
  pose proof (bits_for_spec (fifo_depth - 1)). lia.
Qed.

Lemma sending s inp n t :
  gstate s = SEND -> level_q s = n -> 1 <= n <= fifo_depth -> counter s = 0 ->
  Z.of_nat (length (events next beat s inp t)) < n ->
  let s' := state_at next s inp t in
  gstate s' = SEND /\ level_q s' = n /\ counter s' = Z.of_nat (length (events next beat s inp t)) /\
  events next beat s inp t = packet n (length (events next beat s inp t)).
Proof using Hdepth.
  intros Hs Hq Hn Hc. cbv zeta. induction t as [|t IH]; intros Hl; [done|].
  rewrite events_S in *. rewrite length_app, Nat2Z.inj_add in Hl. rewrite state_at_S.
  destruct IH as (Is & Iq & Ic & Ie); [lia|].
  destruct (send_step (inp t) (state_at next s inp t) n) as [Hq' Hb]; [done | done | done | lia |].
  destruct (beat _ _) as [b|]; simpl option_list in *; simpl length in *.
  - destruct Hb as [-> Hb]. rewrite Ic in Hb |- *.
    rewrite (proj2 (Z.eqb_neq (Z.of_nat (length (events next beat s inp t))) (n - 1))) in Hb |- * by lia.
    destruct Hb as [Hb Hc']. rewrite length_app, Nat.add_1_r. unfold packet. rewrite seq_S, fmap_app.
    fold (packet n (length (events next beat s inp t))). rewrite <- Ie.
    split; [done|]. split; [done|]. split; [lia|]. f_equal. cbn [fmap list_fmap].
    by rewrite (proj2 (Z.eqb_neq _ (n - 1))) by lia.
  - rewrite app_nil_r. destruct Hb. split; [done|]. split; [done|]. split; [lia | done].
Qed.

(** A packet has exactly as many bytes as its length field says. When
    the generator, idle, sees at least 256 bytes in the FIFO (or the flush
    timer expires with some), it sends a packet of the FIFO's level [n] at
    that moment: whatever the stalls of FIFO and receiver, the first transfer
    carries the start flag, the [n]-th the end flag, no other one either flag,
    all the length [n], and the generator is idle again right after the last
    and not before. *)
Theorem rtp_packet_length x s inp n t :
  gstate s = IDLE -> accept x s = true -> fifo_level x = n -> 0 <= n <= fifo_depth ->
  let s1 := next x s in
  let beats := events next beat s1 inp t in
  1 <= n /\
  (Z.of_nat (length beats) < n -> gstate (state_at next s1 inp t) = SEND /\
     beats = packet n (length beats)) /\
  (Z.of_nat (length beats) = n - 1 -> forall b, beat (inp t) (state_at next s1 inp t) = Some b ->
     beats ++ [b] = packet n (Z.to_nat n) /\ gstate (state_at next s1 inp (S t)) = IDLE).
Proof using Hdepth.
  intros Hs Ha Hl Hn. cbv zeta.
  assert (1 <= n) as Hn1.
  { unfold accept, flush in Ha. rewrite Hs, Hl in Ha.
    destruct (256 <=? n) eqn:E1; [apply Z.leb_le in E1; lia|].
    destruct (0 <? n) eqn:E2; [apply Z.ltb_lt in E2; lia | done]. }
  assert (gstate (next x s) = SEND /\ level_q (next x s) = n /\ counter (next x s) = 0) as (S1 & Q1 & C1).
  { cbn [next gstate level_q counter]. by rewrite Hs, Ha, ff_load, counter_clear. }
  split; [done|]. split.
  - intros Hlt. by destruct (sending (next x s) inp n t S1 Q1 ltac:(lia) C1 Hlt) as (? & _ & _ & ?).
  - intros Hlast b Hb. destruct (sending (next x s) inp n t S1 Q1 ltac:(lia) C1 ltac:(lia)) as (St & Qt & Ct & Et).
    destruct (send_step (inp t) (state_at next (next x s) inp t) n) as [_ Hstep]; [done | done | lia | lia |].
    rewrite Hb, Ct, Hlast, Z.eqb_refl in Hstep. destruct Hstep as [-> Hidle]. split; [|done].
    rewrite Et. replace (Z.to_nat n) with (S (length (events next beat (next x s) inp t))) by lia.
    unfold packet at 2. rewrite seq_S, fmap_app. f_equal. cbn. by rewrite Hlast, Z.eqb_refl.
Qed.
End EncoderRTPGenerator.

(** ** The sender *)

Record SendIn := { pkt_stb : bool; pkt_sop : bool; pkt_eop : bool; out_ack : bool; sink_length : Z }.

Record EncoderRTPSender := { timestamp : Z; sequence_number : Z; sstate : rtp_state }.

(** The packetizer is acknowledged in [IDLE] unless it starts a packet, and
    follows the receiver in [SEND]. *)
Definition packetizer_ack (x : SendIn) (s : EncoderRTPSender) : bool :=
  match sstate s with IDLE => negb (pkt_stb x && pkt_sop x) | SEND => out_ack x end.

Definition out_stb (x : SendIn) (s : EncoderRTPSender) : bool :=
  match sstate s with IDLE => false | SEND => pkt_stb x end.

Definition out_length (x : SendIn) : Z := wrap 16 (sink_length x + Z.of_nat rtp_header_length).

Definition sender_next `{Registers} (x : SendIn) (s : EncoderRTPSender) : EncoderRTPSender :=
  let last := match sstate s with SEND => pkt_stb x && pkt_eop x && out_ack x | IDLE => false end in
  {| timestamp := wrap 32 (timestamp s + 1);
     sequence_number := counter_next false last 16 (sequence_number s);
     sstate := match sstate s with
               | IDLE => if pkt_stb x && pkt_sop x then SEND else IDLE
               | SEND => if last then IDLE else SEND
               end |}.

(** The last byte of a packet leaves the sender. *)
Definition packet_end (x : SendIn) (s : EncoderRTPSender) : option () :=
  if out_stb x s && pkt_eop x && out_ack x then Some () else None.

(** The header fields tile the twelve bytes of the RTP header
    exactly, the sender's constants fit their fields, and from any state the
    sequence number counts the packets completed, modulo 2^16, while the
    timestamp counts the cycles, modulo 2^32. *)
Theorem rtp_header_and_sequence `{Registers} s inp t :
  in_width 16 (sequence_number s) -> in_width 32 (timestamp s) ->
  Permutation (flat_map (fun f => field_bits (snd f)) rtp_header_fields) (seq 0 (8 * rtp_header_length)) /\
  (forall name c, (name, c) ∈ sender_fields -> exists f, (name, f) ∈ rtp_header_fields /\ 0 <= c < 2 ^ Z.of_nat (fwidth f)) /\
  sequence_number (state_at sender_next s inp t) =
    wrap 16 (sequence_number s + Z.of_nat (length (events sender_next packet_end s inp t))) /\
  timestamp (state_at sender_next s inp t) = wrap 32 (timestamp s + Z.of_nat t).
Proof.
  intros Hq Hts. split; [|split].
  - apply NoDup_Permutation.
    + refine (bool_decide_unpack _ _). vm_compute. exact I.
    + apply NoDup_seq.
    + intros k. assert (forall l1 l2 : list nat, bool_decide (Forall (fun x => x ∈ l2) l1) && bool_decide (Forall (fun x => x ∈ l1) l2) = true ->
        k ∈ l1 <-> k ∈ l2) as Hset.
      { intros l1 l2 [H1%bool_decide_eq_true H2%bool_decide_eq_true]%andb_prop.
        rewrite Forall_forall in H1, H2. split; auto. }
      apply Hset. vm_compute. reflexivity.
  - assert (Forall (fun nc => Exists (fun nf => fst nf = fst nc /\ 0 <= snd nc < 2 ^ Z.of_nat (fwidth (snd nf)))
                      rtp_header_fields) sender_fields) as Hall.
    { refine (bool_decide_unpack _ _). vm_compute. exact I. }
    intros name c Hin. rewrite Forall_forall in Hall. apply Hall in Hin. apply Exists_exists in Hin as [[n f] [Hf [E Hc]]].
    cbn in E, Hc. subst. by exists f.
  - induction t as [|t [IHq IHt]].
    + cbn. rewrite !Z.add_0_r. by rewrite !wrap_id.
    + rewrite events_S, length_app, Nat2Z.inj_add. cbn [state_at sender_next sequence_number timestamp].
      rewrite IHt. split.
      * unfold packet_end at 2. unfold out_stb. destruct (sstate _); simpl.
        { by rewrite counter_hold, IHq, Z.add_0_r. }
        destruct (_ && _ && _); simpl;
          [rewrite counter_count | rewrite counter_hold]; rewrite IHq; [|by rewrite Z.add_0_r].
        unfold wrap. rewrite Zplus_mod_idemp_l. f_equal. lia.
      * unfold wrap. rewrite Zplus_mod_idemp_l. f_equal. lia.
Qed.

Definition flushing : GenIn := {| fifo_level := 3; fifo_stb := true; timer_done := true; source_ack := true |}.

Lemma rtp_packet_length_witness :
  events (next 1024) beat (next 1024 flushing generator_reset) (fun _ => flushing) 2 ++ [(false, true, 3)] =
    packet 3 3 /\
  gstate (state_at (next 1024) (next 1024 flushing generator_reset) (fun _ => flushing) 3) = IDLE.
Proof.
  destruct (rtp_packet_length 1024 ltac:(lia) flushing generator_reset (fun _ => flushing) 3 2
              eq_refl eq_refl eq_refl ltac:(lia)) as (_ & _ & W).
  apply W; vm_compute; reflexivity.
Defined.

Definition streaming : SendIn :=
  {| pkt_stb := true; pkt_sop := true; pkt_eop := true; out_ack := true; sink_length := 3 |}.

Lemma rtp_header_and_sequence_witness :
  sequence_number (state_at sender_next {| timestamp := 0; sequence_number := 65535; sstate := IDLE |}
                     (fun _ => streaming) 4) = 1.
Proof.
  destruct (rtp_header_and_sequence {| timestamp := 0; sequence_number := 65535; sstate := IDLE |}
              (fun _ => streaming) 4 ltac:(cbn; unfold in_width; lia) ltac:(cbn; unfold in_width; lia))
    as (_ & _ & W & _).
  refine (eq_trans W _). vm_compute; reflexivity.
Defined.
