(* ===== verification/Rgmii.v ===== *)
(** * Packet framing of the Spartan-6 RGMII PHY ([gateware/s6rgmii.py])

    The vendor core [rgmii_if] delivers a data-valid flag and a byte per
    receive clock; the PHY registers them and derives the end-of-packet flag.
    The transmit side registers the sink's byte and accepts one every cycle. *)
From S2P Require Import Prelude Hdl.

Record RxIn := { rx_dv : bool; rxd : Z }.

Record LiteEthPHYRGMII := { rx_dv_d : bool; source_valid : bool; source_data : Z }.

Definition reset : LiteEthPHYRGMII := {| rx_dv_d := false; source_valid := false; source_data := 0 |}.

Definition rx_next (x : RxIn) (s : LiteEthPHYRGMII) : LiteEthPHYRGMII :=
  {| rx_dv_d := rx_dv x; source_valid := rx_dv x; source_data := wrap 8 (rxd x) |}.

Definition source_last (x : RxIn) (s : LiteEthPHYRGMII) : bool := negb (rx_dv x) && rx_dv_d s.

(** The transmit registers; [sink.ready] is always set. *)
Record TxIn := { sink_valid : bool; sink_data : Z }.
Record Tx := { tx_valid : bool; tx_data : Z }.
Definition tx_next (x : TxIn) (s : Tx) : Tx := {| tx_valid := sink_valid x; tx_data := wrap 8 (sink_data x) |}.
Definition sink_ready : bool := true.

(** [LiteEthPHYRGMIICRG]: the pin is the complement of the register. *)
Definition rst_n (reset_storage : bool) : bool := negb reset_storage.

(** What the MAC receives in a cycle: a byte and whether it ends the packet. *)
Definition received (x : RxIn) (s : LiteEthPHYRGMII) : option (Z * bool) :=
  if source_valid s then Some (source_data s, source_last x s) else None.

(** The stream a sequence of line cycles should give: each valid byte, ending
    a packet when the next cycle is not valid. *)
Fixpoint frames (l : list RxIn) : list (Z * bool) :=
  match l with
  | x :: ((y :: _) as l') => if rx_dv x then (wrap 8 (rxd x), negb (rx_dv y)) :: frames l' else frames l'
  | _ => []
  end.

Lemma frames_snoc l x y :
  frames (l ++ [x; y]) = frames (l ++ [x]) ++ (if rx_dv x then [(wrap 8 (rxd x), negb (rx_dv y))] else []).
Proof.
  induction l as [|a l IH]; [by cbn; destruct (rx_dv x)|].
  destruct l as [|b l]; cbn in *.
  - destruct (rx_dv a), (rx_dv x); done.
  - rewrite IH. by destruct (rx_dv a).
Qed.

(** Every byte received with data valid reaches the MAC exactly once
    and in order, and is flagged as the last of its packet exactly when the
    line is not valid in the following cycle. *)
Theorem rgmii_frames inp t :
  events rx_next received reset inp (S t) = frames (inp <$> seq 0 (S t)).
Proof.
  induction t as [|t IH]; [done|]. rewrite events_S, IH.
  replace (seq 0 (S (S t))) with (seq 0 t ++ [t; S t]).
  2: { rewrite !seq_S, <- app_assoc. done. }
  rewrite seq_S, !fmap_app. cbn [fmap list_fmap]. rewrite frames_snoc. f_equal.
  rewrite state_at_S. unfold received, source_last. cbn. rewrite andb_true_r || idtac.
  by destruct (rx_dv (inp t)); cbn; rewrite ?andb_true_r.
Qed.
