(* ===== verification/EndianSwap.v ===== *)
(** * Byte order between PCIe and the bus of the NeTV2

    [WishboneEndianSwap] of [targets/netv2/hdmi2pcie.py]: every signal between
    the master [wb_if] and the bus goes through a register, with the bytes of
    the data and the byte enables reversed. *)
From S2P Require Import Prelude Hdl.

(** The lines of a Wishbone interface, from the master and from the slave. *)
Record Req := { adr : Z; dat_w : Z; sel : Z; cyc : bool; stb : bool; we : bool; cti : Z; bte : Z }.
Record Rsp := { dat_r : Z; ack : bool; err : bool }.

(** The four assignments of data bytes, and those of [sel]. *)
Definition swap32 (x : Z) : Z :=
  cat 8 (slice x 24 8) (cat 8 (slice x 16 8) (cat 8 (slice x 8 8) (slice x 0 8))).

Definition swap_sel (x : Z) : Z :=
  cat 1 (slice x 3 1) (cat 1 (slice x 2 1) (cat 1 (slice x 1 1) (slice x 0 1))).

(** The registers: the lines to the bus and the lines back to the master. *)
Record WishboneEndianSwap := { wishbone : Req; wb_if : Rsp }.

(** [i]: what the master and the bus drive in a cycle. *)
Definition next (i : Req * Rsp) (_ : WishboneEndianSwap) : WishboneEndianSwap :=
  let (m, s) := i in
  {| wishbone := {| adr := adr m; dat_w := swap32 (dat_w m); sel := swap_sel (sel m);
                    cyc := cyc m; stb := stb m; we := we m; cti := cti m; bte := bte m |};
     wb_if := {| dat_r := swap32 (dat_r s); ack := ack s; err := err s |} |}.

Definition req_reset : Req := {| adr := 0; dat_w := 0; sel := 0; cyc := false; stb := false; we := false; cti := 0; bte := 0 |}.
Definition reset : WishboneEndianSwap :=
  {| wishbone := req_reset; wb_if := {| dat_r := 0; ack := false; err := false |} |}.

(** ** Theorems *)

(** [swap32] reverses the bytes. *)
Lemma swap32_digits a b c d :
  Forall (in_width 8) [a; b; c; d] -> swap32 (digits 8 [a; b; c; d]) = digits 8 [d; c; b; a].
Proof.
  intros H. pose proof (to_digits_digits 8 [a; b; c; d] ltac:(lia) H) as E.
  injection E as Ea Eb Ec Ed. unfold digit in *. cbn [length] in *.
  change (8 * (Z.of_nat 4 - 1 - Z.of_nat 0)) with 24 in Ea. change (8 * (Z.of_nat 4 - 1 - Z.of_nat 1)) with 16 in Eb.
  change (8 * (Z.of_nat 4 - 1 - Z.of_nat 2)) with 8 in Ec. change (8 * (Z.of_nat 4 - 1 - Z.of_nat 3)) with 0 in Ed.
  unfold swap32. rewrite Ea, Eb, Ec, Ed.
  rewrite !Forall_cons in H. destruct H as (Ha & Hb & Hc & Hd & _).
  rewrite !cat_eq by (done || lia). unfold digits. cbn [fold_left]. ring.
Qed.

Lemma swap_sel_digits a b c d :
  Forall (in_width 1) [a; b; c; d] -> swap_sel (digits 1 [a; b; c; d]) = digits 1 [d; c; b; a].
Proof.
  rewrite !Forall_cons. unfold in_width. change (2 ^ 1) with 2. intros (Ha & Hb & Hc & Hd & _).
  assert (a = 0 \/ a = 1) as [-> | ->] by lia; assert (b = 0 \/ b = 1) as [-> | ->] by lia;
    assert (c = 0 \/ c = 1) as [-> | ->] by lia; assert (d = 0 \/ d = 1) as [-> | ->] by lia; reflexivity.
Qed.

(** What the two sides see. *)
Lemma sides s inp n :
  let s' := state_at next s inp (S n) in
  wishbone s' = wishbone (next (inp n) s) /\ wb_if s' = wb_if (next (inp n) s).
Proof. cbn zeta. rewrite state_at_S. by destruct (inp n). Qed.

Definition asks (r : Req) : bool := cyc r && stb r.

Section bus.
(** A master and a bus connected through the module: [inp n] is what they drive
    in cycle [n]. *)
Variable (s0 : WishboneEndianSwap) (inp : nat -> Req * Rsp).

Definition master (n : nat) : Req := fst (inp n).
Definition bus (n : nat) : Rsp := snd (inp n).
Definition at_bus (n : nat) : Req := wishbone (state_at next s0 inp n).
Definition at_master (n : nat) : Rsp := wb_if (state_at next s0 inp n).

(** The master keeps a request as it is until the cycle it sees the
    acknowledgement in, included. *)
Definition holds_request : Prop :=
  forall n, asks (master n) = true -> ack (at_master n) = false -> master (S n) = master n.

(** A bus slave that takes one cycle: it acknowledges in the cycle after it
    sees a request, for one cycle. *)
Definition one_cycle_slave : Prop :=
  forall n, ack (bus (S n)) = asks (at_bus n) && negb (ack (bus n)).
End bus.

(** Claim C24: the bus behind the byte swapper. With any master that holds its
    request until it sees the acknowledgement, and a slave that acknowledges a
    request in the cycle after it sees it: a request made in an idle system in
    cycle [n] reaches the slave one cycle later with the byte order reversed,
    and is acknowledged in cycle [n + 2], which the master sees in cycle
    [n + 3]. By then the slave has been shown the same request two more times
    and acknowledges it once more in cycle [n + 4]: every access is made twice. *)
Theorem swap_repeats_access (s0 : WishboneEndianSwap) (inp : nat -> Req * Rsp) (n : nat)
    (Hm : holds_request s0 inp) (Hs : one_cycle_slave s0 inp)
    (Hreq : asks (master inp n) = true)
    (Hidle : asks (at_bus s0 inp n) = false /\ ack (bus inp n) = false /\ ack (at_master s0 inp n) = false) :
  let seen := wishbone (next (master inp n, bus inp n) s0) in
  at_bus s0 inp (n + 1) = seen /\ dat_w seen = swap32 (dat_w (master inp n)) /\
  ack (bus inp (n + 2)) = true /\ ack (at_master s0 inp (n + 3)) = true /\
  at_bus s0 inp (n + 3) = seen /\ at_bus s0 inp (n + 4) = seen /\
  ack (bus inp (n + 3)) = false /\ ack (bus inp (n + 4)) = true /\ ack (at_master s0 inp (n + 5)) = true.
Proof.
  destruct Hidle as (Hb0 & Ha0 & Hma0). cbn zeta.
  replace (n + 1)%nat with (S n) by lia. replace (n + 2)%nat with (S (S n)) by lia.
  replace (n + 3)%nat with (S (S (S n))) by lia. replace (n + 4)%nat with (S (S (S (S n)))) by lia.
  replace (n + 5)%nat with (S (S (S (S (S n))))) by lia.
  assert (Hbus : forall k, at_bus s0 inp (S k) = wishbone (next (master inp k, bus inp k) s0)).
  { intros k. unfold at_bus, master, bus. by rewrite (proj1 (sides s0 inp k)), <- surjective_pairing. }
  assert (Hmas : forall k, ack (at_master s0 inp (S k)) = ack (bus inp k)).
  { intros k. unfold at_master, bus. rewrite (proj2 (sides s0 inp k)). by destruct (inp k). }
  assert (Hasks : forall k, asks (at_bus s0 inp (S k)) = asks (master inp k)) by (intros k; by rewrite Hbus).
  pose proof (Hm n Hreq Hma0) as M1.
  assert (A1 : ack (bus inp (S n)) = false) by (by rewrite Hs, Hb0).
  assert (M2 : master inp (S (S n)) = master inp n).
  { rewrite (Hm (S n)); [done | by rewrite M1 | by rewrite Hmas]. }
  assert (A2 : ack (bus inp (S (S n))) = true) by (by rewrite Hs, Hasks, Hreq, A1).
  assert (M3 : master inp (S (S (S n))) = master inp n).
  { rewrite (Hm (S (S n))); [done | by rewrite M2 | by rewrite Hmas]. }
  assert (A3 : ack (bus inp (S (S (S n)))) = false) by (by rewrite Hs, A2, andb_false_r).
  assert (A4 : ack (bus inp (S (S (S (S n))))) = true) by (by rewrite Hs, Hasks, M2, Hreq, A3).
  rewrite !Hmas, !Hbus, M2, M3. done.
Qed.

(** A master with one read, and the slave as LiteX's SRAM does it. *)
Definition example_inp (n : nat) : Req * Rsp :=
  ({| adr := 16; dat_w := 0x01020304; sel := 15; cyc := (n <? 4)%nat; stb := (n <? 4)%nat; we := true; cti := 0; bte := 0 |},
   {| dat_r := 0; ack := (n =? 2)%nat || (n =? 4)%nat; err := false |}).

Lemma swap_repeats_access_witness :
  ack (bus example_inp 2) = true /\ ack (bus example_inp 4) = true /\
  dat_w (at_bus reset example_inp 4) = 0x04030201.
Proof.
  destruct (swap_repeats_access reset example_inp 0) as (_ & _ & A2 & _ & _ & S4 & _ & A4 & _).
  - intros n _ Ha. destruct n as [|[|[|[|n]]]]; try reflexivity. discriminate Ha.
  - intros n. destruct n as [|[|[|[|[|n]]]]]; reflexivity.
  - reflexivity.
  - by split_and!.
  - split; [exact A2|]. split; [exact A4|]. exact (f_equal dat_w S4).
Defined.
