(* ===== verification/Peripherals.v ===== *)
(** * Small modules: firmware ROM, shared UART, BIST scope

    [gateware/firmware.py]: a ROM with the words of a firmware file.
    [gateware/shared_uart.py]: one UART on several sets of pins (the library's
    UART and its PHY are not modelled). [gateware/memtest.py]: the signals a
    logic analyser sees of LiteDRAM's checker. *)
From S2P Require Import Prelude PyStr.

(** ** [FirmwareROM] *)

(** [firmware_file.read(4)] until it is empty, each chunk through
    [struct.unpack(">I", w)], which wants exactly four bytes. *)
Fixpoint words (bytes : list Z) : result (list Z) :=
  match bytes with
  | [] => Ok []
  | a :: b :: c :: d :: rest => ws ← words rest; Ok (digits 8 [a; b; c; d] :: ws)
  | _ => Raise StructError
  end.

Record Rom := { rom_size : Z; init : option (list Z) }.

(** [file]: the contents of the file, [None] if it does not exist. *)
Definition FirmwareROM (size : Z) (file : option (list Z)) : result Rom :=
  match file with
  | Some bytes =>
      data ← words bytes;
      let data_size := Z.of_nat (length data) * 4 in
      py_assert (0 <? data_size);;
      py_assert (data_size <? size);;
      Ok {| rom_size := size; init := Some data |}
  | None => Ok {| rom_size := size; init := None |}
  end.

(** The assertion of [MemoryMustHaveContents.emit_verilog]. *)
Definition emit_verilog (r : Rom) : result () :=
  py_assert (match init r with Some (_ :: _) => true | _ => false end).

(** ** [SharedUART] *)

(** The pads that were added, as their RX levels in a cycle. *)
Definition shared_rx (rx_signals : list bool) : option bool :=
  match rx_signals with
  | [] => None
  | r :: rs => Some (fold_left andb rs r)
  end.

Definition shared_tx (tx : bool) (n : nat) : list bool := replicate n tx.

(** ** [LiteDRAMBISTCheckerScope] *)

(** The checker's signals: base and counter, the DMA's source, the generator's
    output. *)
Record Core := { base : Z; data_counter : Z; source_valid : bool; source_data : Z; gen_o : Z }.

Record Scope := { data_error : bool; data_address : Z; data_expected : Z; data_actual : Z }.

(** [counter_bits], [data_bits]: the widths of the counter and the data. *)
Definition scope (counter_bits data_bits : Z) (c : Core) : Scope :=
  let actual := wrap data_bits (source_data c) in
  let expected := wrap data_bits (gen_o c) in
  {| data_error := source_valid c && negb (actual =? expected);
     data_address := wrap counter_bits (base c + data_counter c);
     data_expected := expected; data_actual := actual |}.

(** ** Theorems *)

Lemma list_ind4 {A} (P : list A -> Prop) :
  P [] -> (forall a, P [a]) -> (forall a b, P [a; b]) -> (forall a b c, P [a; b; c]) ->
  (forall a b c d l, P l -> P (a :: b :: c :: d :: l)) -> forall l, P l.
Proof.
  intros H0 H1 H2 H3 H4. fix IH 1.
  intros [|a [|b [|c [|d l]]]]; [apply H0 | apply H1 | apply H2 | apply H3 | apply H4, IH].
Qed.

(** The bytes of the words, and when there are words at all. *)
Lemma words_ok bytes :
  (forall ws, words bytes = Ok ws -> Forall (in_width 8) bytes ->
     length bytes = (4 * length ws)%nat /\ Forall (in_width 32) ws /\ flat_map (to_digits 8 4) ws = bytes) /\
  ((exists ws, words bytes = Ok ws) <-> Z.of_nat (length bytes) mod 4 = 0) /\
  (forall ws, words bytes = Ok ws -> length bytes = (4 * length ws)%nat).
Proof.
  induction bytes as [|a|a b|a b c|a b c d l (IH1 & IH2 & IH3)] using list_ind4.
  - split_and!; [intros ws [= <-] _ | split; [done | by eexists] | intros ws [= <-]]; done.
  - split_and!; [done | split; [by intros [? ?] | done] | done].
  - split_and!; [done | split; [by intros [? ?] | done] | done].
  - split_and!; [done | split; [by intros [? ?] | done] | done].
  - cbn [words length]. replace (Z.of_nat (S (S (S (S (length l)))))) with (Z.of_nat (length l) + 1 * 4) by lia.
    rewrite Z.mod_add by done. rewrite <- IH2.
    destruct (words l) as [ws|e]; cbn [mbind result_bind].
    + split_and!.
      * intros ws' [= <-] Hb. rewrite !Forall_cons in Hb. destruct Hb as (Ha & Hb & Hc & Hd & Hl).
        destruct (IH1 ws eq_refl Hl) as (E1 & E2 & E3).
        assert (Forall (in_width 8) [a; b; c; d]) as Hf
          by (rewrite !Forall_cons; split_and!; done || constructor).
        split_and!; [cbn; lia | apply Forall_cons; split; [exact (digits_range 8 _ ltac:(lia) Hf) | done] |].
        change (flat_map (to_digits 8 4) (digits 8 [a; b; c; d] :: ws))
          with (to_digits 8 4 (digits 8 [a; b; c; d]) ++ flat_map (to_digits 8 4) ws).
        pose proof (to_digits_digits 8 [a; b; c; d] ltac:(lia) Hf) as E4. cbn [length] in E4.
        by rewrite E3, E4.
      * split; intros _; by eexists.
      * intros ws' [= <-]. cbn. rewrite (IH3 ws eq_refl). lia.
    + split_and!; [done | split; intros [? ?]; done | done].
Qed.

(** A ROM from a firmware file. It can be made exactly from a file
    of a positive number of whole words that is smaller than the ROM (one that
    fills it is refused); its words then print, byte by byte from the top, the
    file, and Verilog can be emitted. Without a file there is a ROM, but
    emitting it fails. *)
Theorem firmware_rom_roundtrip (size : Z) (bytes : list Z) (Hb : Forall (in_width 8) bytes) :
  let len := Z.of_nat (length bytes) in
  ((exists r, FirmwareROM size (Some bytes) = Ok r) <-> len mod 4 = 0 /\ 0 < len < size) /\
  (forall r, FirmwareROM size (Some bytes) = Ok r ->
     exists ws, init r = Some ws /\ Forall (in_width 32) ws /\ flat_map (to_digits 8 4) ws = bytes /\
                emit_verilog r = Ok ()) /\
  exists r, FirmwareROM size None = Ok r /\ emit_verilog r = Raise AssertionError.
Proof.
  cbn zeta. destruct (words_ok bytes) as (H1 & H2 & H3). unfold FirmwareROM. split_and!.
  - destruct (words bytes) as [ws|e] eqn:E; cbn [mbind result_bind].
    + pose proof (H3 ws eq_refl) as Hlen.
      replace (Z.of_nat (length ws) * 4) with (Z.of_nat (length bytes)) by lia.
      assert (Z.of_nat (length bytes) mod 4 = 0) as Hm by (apply H2; by eexists).
      destruct (Z.ltb_spec 0 (Z.of_nat (length bytes))) as [L1|L1]; cbn [py_assert mbind result_bind];
        [destruct (Z.ltb_spec (Z.of_nat (length bytes)) size) as [L2|L2]; cbn [py_assert mbind result_bind]|].
      * split; intros _; [done | by eexists].
      * split; [by intros [? ?] | lia].
      * split; [by intros [? ?] | lia].
    + split; [by intros [? ?]|]. intros [Hm _]. apply H2 in Hm as [? ?]. done.
  - intros r. destruct (words bytes) as [ws|e] eqn:E; cbn [mbind result_bind]; [|done].
    destruct (Z.ltb_spec 0 (Z.of_nat (length ws) * 4)) as [L1|L1]; cbn [py_assert mbind result_bind]; [|done].
    destruct (_ <? size); cbn [py_assert mbind result_bind]; [|done]. intros [= <-].
    destruct (H1 ws eq_refl Hb) as (_ & H4 & H5). exists ws. split_and!; [done..|].
    unfold emit_verilog. cbn [init]. destruct ws; [cbn in L1; lia | done].
  - by eexists.
Qed.

Lemma firmware_rom_roundtrip_witness :
  exists r ws, FirmwareROM 16 (Some [1; 2; 3; 4; 5; 6; 7; 8]) = Ok r /\ init r = Some ws /\
    flat_map (to_digits 8 4) ws = [1; 2; 3; 4; 5; 6; 7; 8].
Proof.
  destruct (firmware_rom_roundtrip 16 [1; 2; 3; 4; 5; 6; 7; 8]) as (_ & H & _).
  - rewrite !Forall_cons. split_and!; done || constructor.
  - destruct (H _ eq_refl) as (ws & E & _ & R & _). exists {| rom_size := 16; init := Some ws |}, ws.
    split; [|split; [reflexivity | exact R]]. injection E as <-. reflexivity.
Defined.

(** An idle line is high: what one set of pins receives while the others are
    idle is what the UART receives. *)
Lemma shared_rx_one (a b : list bool) (x : bool) :
  Forall (fun r => r = true) a -> Forall (fun r => r = true) b ->
  shared_rx (a ++ x :: b) = Some x.
Proof.
  intros Ha Hb.
  assert (forall l y, Forall (fun r => r = true) l -> fold_left andb l y = y) as Hid.
  { intros l. induction l as [|z l IH]; intros y Hl; [done|].
    apply Forall_cons in Hl as [-> Hl]. cbn. by rewrite andb_true_r, IH. }
  destruct a as [|y a]; cbn; f_equal; [by apply Hid|].
  apply Forall_cons in Ha as [-> Ha]. rewrite fold_left_app, (Hid a) by done. cbn.
  by apply Hid.
Qed.

(** With matching data of the right width nothing is reported. *)
Lemma scope_no_error cb db c :
  data_error (scope cb db c) = true <->
  source_valid c = true /\ wrap db (source_data c) <> wrap db (gen_o c).
Proof.
  unfold scope. cbn [data_error]. rewrite andb_true_iff, negb_true_iff, Z.eqb_neq. reflexivity.
Qed.
