(* ===== verification/LogFilter.v ===== *)
(** * The filter of the build log ([.travis/run-make-gateware-filter.py])

    The continuous build pipes the log of the vendor tools through a Python 2
    script that shows a digest: one handler per kind of line, over a buffer of
    the last 200 lines. Modelled are the main loop with all its handlers, the
    copy of the remaining input after an error, and what the spinner thread
    writes when it runs between two lines. *)
From S2P Require Import Prelude PyStr Paths.
#[local] Open Scope nat_scope.
#[local] Open Scope string_scope.

(** ** Strings *)

Definition nl : string -> string := fun s => s +++ newline.
Definition backspaces : string := let b := ascii_of_nat 8 in String b (String b (String b EmptyString)).

Fixpoint repeat_str (n : nat) (s : string) : string := match n with O => "" | S n => s +++ repeat_str n s end.

(** [s.strip('\n\r')]. *)
Definition line_end (c : ascii) : bool := let n := nat_of_ascii c in (n =? 10)%nat || (n =? 13)%nat.

Fixpoint lstrip_ends (s : string) : string :=
  match s with String c s' => if line_end c then lstrip_ends s' else s | EmptyString => s end.

Fixpoint rstrip_ends (s : string) : string :=
  match s with
  | EmptyString => EmptyString
  | String c s' =>
      let r := rstrip_ends s' in
      if String.eqb r "" && line_end c then EmptyString else String c r
  end.

Definition strip_ends (s : string) : string := lstrip_ends (rstrip_ends s).

(** [%-ns] and [%ns]. *)
Definition ljust (n : nat) (s : string) : string := s +++ repeat_str (n - String.length s) " ".
Definition rjust (n : nat) (s : string) : string := repeat_str (n - String.length s) " " +++ s.

(** [s[2:-2]], [s[1:-1]]. *)
Definition inner (n : nat) (s : string) : string := cut_end n (sdrop n s).

Definition is_ascii (s : string) : bool := forallb (fun c => (nat_of_ascii c <? 128)%nat) (String.list_ascii_of_string s).

(** ** The state *)

Definition BUFFER_SIZE : nat := 200.
Definition DELIM_MAJOR : string := repeat_str 73 "=".
Definition ERROR : string := repeat_str 35 "*~" +++ "*".
Definition ROTATE : list string := [" - "; " \ "; " | "; " / "].

(** [linesbuffer] has the newest line first; [keepalive_output] is the flag
    that something was written for this line; [log_file] and [stdout] are what
    was written, in order. *)
Record Filter := {
  linesbuffer : list string;
  fsm_triggered : bool;
  found_specials : list string;
  keepalive_output : bool;
  before_next_output : string;
  last_output : string;
  pos : nat;
  log_file : list string;
  stdout : list string
}.

Definition initial : Filter := {|
  linesbuffer := replicate BUFFER_SIZE ""; fsm_triggered := false; found_specials := [];
  keepalive_output := false; before_next_output := ""; last_output := ""; pos := 0; log_file := []; stdout := [] |}.

Definition set_buffer (b : list string) (f : Filter) : Filter := {|
  linesbuffer := b; fsm_triggered := fsm_triggered f; found_specials := found_specials f;
  keepalive_output := keepalive_output f; before_next_output := before_next_output f;
  last_output := last_output f; pos := pos f; log_file := log_file f; stdout := stdout f |}.

Definition set_fsm (f : Filter) : Filter := {|
  linesbuffer := linesbuffer f; fsm_triggered := true; found_specials := found_specials f;
  keepalive_output := keepalive_output f; before_next_output := before_next_output f;
  last_output := last_output f; pos := pos f; log_file := log_file f; stdout := stdout f |}.

Definition set_specials (l : list string) (f : Filter) : Filter := {|
  linesbuffer := linesbuffer f; fsm_triggered := fsm_triggered f; found_specials := l;
  keepalive_output := keepalive_output f; before_next_output := before_next_output f;
  last_output := last_output f; pos := pos f; log_file := log_file f; stdout := stdout f |}.

Definition set_flag (b : bool) (f : Filter) : Filter := {|
  linesbuffer := linesbuffer f; fsm_triggered := fsm_triggered f; found_specials := found_specials f;
  keepalive_output := b; before_next_output := before_next_output f;
  last_output := last_output f; pos := pos f; log_file := log_file f; stdout := stdout f |}.

Definition write_log (s : string) (f : Filter) : Filter := {|
  linesbuffer := linesbuffer f; fsm_triggered := fsm_triggered f; found_specials := found_specials f;
  keepalive_output := keepalive_output f; before_next_output := before_next_output f;
  last_output := last_output f; pos := pos f; log_file := (log_file f ++ [s])%list; stdout := stdout f |}.

(** [output]: the text is a byte string, and its [.encode('utf-8')] first
    decodes it as ASCII. [before] is the keyword argument of the spinner. *)
Definition output_before (before s : string) (f : Filter) : result Filter :=
  if negb (is_ascii s) then Raise UnicodeError
  else if negb (truthy s) then Ok (set_flag true f)
  else Ok {|
    linesbuffer := linesbuffer f; fsm_triggered := fsm_triggered f; found_specials := found_specials f;
    keepalive_output := true; before_next_output := before; last_output := s; pos := pos f;
    log_file := log_file f; stdout := (stdout f ++ [before_next_output f; s])%list |}.

Definition output (s : string) : Filter -> result Filter := output_before "" s.

Fixpoint outputs (l : list string) (f : Filter) : result Filter :=
  match l with [] => Ok f | s :: l => f ← output s f; outputs l f end.

(** An iteration of the spinner thread that finds the last output more than a
    second ago. *)
Definition spin (f : Filter) : result Filter :=
  f ← output_before backspaces (default "" (ROTATE !! pos f)) f;
  Ok {| linesbuffer := linesbuffer f; fsm_triggered := fsm_triggered f; found_specials := found_specials f;
        keepalive_output := keepalive_output f; before_next_output := before_next_output f;
        last_output := last_output f; pos := (pos f + 1) mod length ROTATE;
        log_file := log_file f; stdout := stdout f |}.

(** ** Handlers *)

(** What a handler does: go on to the next one, with a possibly shortened
    [sline]; [continue]; [break]. *)
Inductive outcome := Fall (sline : string) (f : Filter) | Continue (f : Filter) | Break (f : Filter).

Definition handler := string -> string -> Filter -> result outcome.

Fixpoint run_handlers (l : list handler) (line sline : string) (f : Filter) : result outcome :=
  match l with
  | [] => Ok (Fall sline f)
  | h :: l =>
      o ← h line sline f;
      match o with Fall sline f => run_handlers l line sline f | _ => Ok o end
  end.

(** [if cond: output(...)], the handler that shows a line and goes on. *)
Definition show (cond : string -> bool) (cut : string -> string) (text : string -> string) : handler :=
  fun _ sline f =>
    if cond sline then
      let sline := cut sline in
      f ← output (text sline) f; Ok (Fall sline f)
    else Ok (Fall sline f).

Definition cut_dot (s : string) : string := if endswith s "." then cut_end 1 s else s.

Definition nth_line (f : Filter) (i : nat) : result string :=
  match linesbuffer f !! i with Some s => Ok s | None => Raise IndexError end.

(** The first line of the buffer, from index [i], that satisfies [p]. *)
Fixpoint find_line (p : string -> bool) (i : nat) (l : list string) : option nat :=
  match l with [] => None | s :: l => if p s then Some i else find_line p (S i) l end.

(** [for bufferno in range(k, 0, -1): output(text(linesbuffer[bufferno]))]. *)
Fixpoint show_lines (text : string -> result string) (k : nat) (f : Filter) : result Filter :=
  match k with
  | O => Ok f
  | S k' => l ← nth_line f k; t ← text l; f ← output t f; show_lines text k' f
  end.

Definition box (c : string) (text : string) : string :=
  nl (repeat_str 70 c) +++ nl (c +++ " " +++ ljust 66 text +++ " " +++ c) +++ nl (repeat_str 70 c).

Definition on_warning : handler := fun line sline f =>
  if startswith line "WARNING:" then f ← output "w" f; Ok (Continue f)
  else if startswith line "INFO:" then f ← output "i" f; Ok (Continue f)
  else Ok (Fall sline f).

Definition on_copyright : handler := fun line sline f =>
  if startswith sline "Copyright (c)" then
    l ← nth_line f 1;
    f ← output (repeat_str 3 newline +++ box "#" l) f; Ok (Continue f)
  else Ok (Fall sline f).

(** A header between two delimiters, unless it announces a summary. *)
Definition on_header : handler := fun line sline f =>
  l0 ← nth_line f 0; l1 ← nth_line f 1; l2 ← nth_line f 2;
  if String.eqb l0 DELIM_MAJOR && startswith l1 "*" && String.eqb l2 DELIM_MAJOR then
    if contains l1 "Summary" then Ok (Continue f)
    else f ← output (repeat_str 2 newline +++ box "*" (strip (inner 2 l1))) f; Ok (Continue f)
  else Ok (Fall sline f).

(** The text of a line of a summary table. *)
Definition summary_text (l : string) : result string :=
  let s := strip l in
  Ok (if String.eqb s DELIM_MAJOR then nl (repeat_str 70 "*")
      else if startswith s "*" then nl ("* " +++ ljust 66 (strip (inner 2 s)) +++ " *")
      else if startswith l "#" then nl (sdrop 1 l)
      else nl l).

(** The index of the delimiter before the summary's header, if the last block
    is a summary; the first and the last line of the buffer do not count. *)
Definition summary_start (b : list string) : option nat :=
  match find_line (fun l => String.eqb (strip l) DELIM_MAJOR) 1 (drop 1 (take (length b - 1) b)) with
  | Some i =>
      let s := strip (default "" (b !! (i + 1))) in
      if startswith s "*" && contains s "Summary" then Some (i + 2) else None
  | None => None
  end.

Definition on_summary_end : handler := fun line sline f =>
  if String.eqb line DELIM_MAJOR then
    match summary_start (linesbuffer f) with
    | Some k => f ← output (repeat_str 2 newline) f; f ← show_lines summary_text k f; Ok (Fall sline f)
    | None => Ok (Fall sline f)
    end
  else Ok (Fall sline f).

Definition on_found : handler := fun line sline f =>
  if startswith sline "Found" && contains sline "RAM"
  then Ok (Fall sline (set_specials (found_specials f ++ [sline])%list f))
  else Ok (Fall sline f).

(** A line of a unit's summary: capitalised, without its last character. *)
Definition unit_text (l : string) : result string :=
  let s := strip l in
  match s with
  | EmptyString => Raise IndexError
  | String c _ => Ok (nl ("    " +++ String (upper_ascii c) (inner 1 s)))
  end.

Definition on_synthesized : handler := fun line sline f =>
  if endswith sline "synthesized." then
    match find_line (fun l => endswith (strip l) "Summary:") 0 (linesbuffer f) with
    | Some (S k) =>
        f ← output (newline +++ nl "  Summary:") f;
        f ← outputs ((fun s => nl ("    " +++ s)) <$> sort_strings (found_specials f)) f;
        f ← (match found_specials f with [] => Ok f | _ => output (nl "    --") f end);
        f ← show_lines unit_text k (set_specials [] f);
        Ok (Fall sline f)
    | _ => Ok (Fall sline f)
    end
  else Ok (Fall sline f).

Definition on_fsm : handler := fun line sline f =>
  if startswith sline "Analyzing FSM" || startswith sline "Optimizing FSM" then
    f ← (if fsm_triggered f then output "." f
         else f ← output (newline +++ "Analyzing and optimizing FSMs ") f; Ok (set_fsm f));
    Ok (Continue f)
  else Ok (Fall sline f).

(** The lines behind the last one that starts with [mark], in a box. *)
Definition on_block (start mark title : string) : handler := fun line sline f =>
  if startswith sline start then
    match find_line (fun l => startswith (strip l) mark) 0 (linesbuffer f) with
    | Some (S k) =>
        f ← output (repeat_str 2 newline +++ box "*" title) f;
        f ← show_lines (fun l => Ok (nl l)) k f;
        f ← output (nl (repeat_str 70 "*")) f;
        Ok (Fall sline f)
    | _ => Ok (Fall sline f)
    end
  else Ok (Fall sline f).

Definition last_char (s : string) : result string :=
  match String.length s with O => Raise IndexError | S n => Ok (sdrop n s) end.

Definition on_phase : handler := fun line sline f =>
  if startswith sline "Phase" then
    if contains sline "REAL time:" && negb (contains sline "unrouted") then
      match split_on "REAL time:" sline with
      | [phase; rtime] => f ← output (nl (" (completed in " +++ strip rtime +++ ")")) f; Ok (Fall sline f)
      | _ => Raise ValueError
      end
    else
      c ← last_char (last_output f);
      f ← (if String.eqb c newline then Ok f else output newline f);
      match fields sline with
      | b0 :: b1 :: bits =>
          f ← output (rjust 5 b0 +++ " " +++ ljust 5 b1 +++ " - " +++ join_with " " bits +++ " ") f; Ok (Fall sline f)
      | _ => Raise IndexError
      end
  else Ok (Fall sline f).

(** ** File names *)

Section paths.
(** The working directory, and [os.path.exists(p) and os.path.isfile(p)]. *)
Variables (top_path : string) (isfile : string -> bool).

(** The matches of the regular expression for a quoted text that is not empty,
    on the pieces between quotes: a piece that has a quote behind it and is not
    empty is a match, and then the next piece is not. *)
Fixpoint quoted_pieces (inside : bool) (l : list string) : list string :=
  match l with
  | [] | [_] => []
  | p :: rest =>
      if inside && truthy p then p :: quoted_pieces false rest else quoted_pieces true rest
  end.

Definition quote : ascii := ascii_of_nat 34.
Definition quoted (line : string) : list string := quoted_pieces false (split_at quote line).

(** [os.path.normpath]; two leading slashes, and only two, are kept. *)
Definition slashes (p : string) : nat :=
  if startswith p "///" then 1 else if startswith p "//" then 2 else if startswith p "/" then 1 else 0.

Definition norm_component (absolute : bool) (new : list string) (comp : string) : list string :=
  if String.eqb comp "" || String.eqb comp "." then new
  else if negb (String.eqb comp "..") then (new ++ [comp])%list
  else match last new with
       | None => if absolute then new else (new ++ [comp])%list
       | Some l => if String.eqb l ".." then (new ++ [comp])%list else take (length new - 1) new
       end.

Definition normpath (p : string) : string :=
  if negb (truthy p) then "."
  else
    let n := slashes p in
    let r := repeat_str n "/" +++ join_with "/" (fold_left (norm_component (0 <? n)%nat) (split_at "/" p) []) in
    if truthy r then r else ".".

(** [os.path.commonprefix] of two strings, its length. *)
Fixpoint common (a b : string) : nat :=
  match a, b with
  | String x a, String y b => if Ascii.eqb x y then S (common a b) else 0
  | _, _ => 0
  end.

Definition shorten_path (line : string) : string :=
  fold_left (fun out path =>
    let pathname := normpath path in
    if isfile pathname then replace out path (sdrop (common top_path pathname + 1) pathname) else out)
    (quoted line) line.

Definition on_parsing : handler := fun line sline f =>
  if startswith sline "Parsing " then
    if startswith sline "Parsing VHDL" then
      f ← output (newline +++ shorten_path sline +++ " ") f; Ok (Fall sline f)
    else
      let sline := cut_dot sline in
      f ← output (newline +++ "  " +++ shorten_path sline +++ " ") f; Ok (Fall sline f)
  else Ok (Fall sline f).

Definition starts (p : string) : string -> bool := fun s => startswith s p.

(** The handlers that show the line they are about, one per message of the
    tools. *)
Definition on_analyzing : handler :=
  show (starts "Analyzing Verilog") id (fun s => newline +++ shorten_path s +++ " ").

Definition on_elaborating : handler := show (starts "Elaborating ") cut_dot (fun s => newline +++ s +++ " ").

Definition on_initialization : handler :=
  show (starts "Reading initialization file") cut_dot
    (fun s => newline +++ "  " +++ replace s (String "\" (String quote "")) (String quote "") +++ " ").

Definition on_synthesizing : handler := show (starts "Synthesizing Unit") cut_dot (fun s => newline +++ s +++ " ").

Definition on_related_source : handler :=
  show (starts "Related source file is") cut_dot (fun s => newline +++ "  " +++ shorten_path s +++ " ").

Definition on_advanced : handler := show (starts "Synthesizing (advanced) Unit") cut_dot (fun s => newline +++ s +++ " ").

Definition on_optimizing : handler := show (starts "Optimizing unit") cut_dot (fun s => newline +++ s +++ " ").

Definition on_processing : handler :=
  show (starts "Processing Unit ") (fun s => if endswith s " :" then cut_end 2 s else s) (fun s => newline +++ s +++ " ").

Definition on_final_macro : handler := show (fun s => String.eqb s "Final Macro Processing ...") id (fun s => newline +++ s).

Definition on_bit_stream : handler := show (starts "Saving bit stream in") id (fun s => newline +++ s).

(** The handlers, in the order of the loop body. *)
Definition handlers : list handler := [
  on_warning; on_copyright; on_header; on_summary_end; on_analyzing; on_parsing; on_elaborating; on_initialization;
  on_synthesizing; on_related_source; on_found; on_synthesized; on_advanced; on_fsm; on_optimizing; on_processing;
  on_final_macro;
  on_block "Peak Memory Usage" "Design Summary:" "Design Summary";
  on_block "Starting initial Timing Analysis" "Device Utilization Summary:" "Device Utilization Summary";
  on_phase; on_bit_stream
].

(** ** The loops *)

(** One iteration of the main loop. *)
Definition step (rawline : string) (f : Filter) : result outcome :=
  let line := strip_ends rawline in
  let sline := strip line in
  let f := write_log rawline f in
  let f := set_buffer (take BUFFER_SIZE (line :: linesbuffer f)) f in
  if startswith line "make" then f ← output (newline +++ line +++ " ") f; Ok (Continue f)
  else if negb (truthy sline) then Ok (Continue f)
  else if startswith line "ERROR:" then
    let f := set_buffer (tl (linesbuffer f)) f in
    f ← output (newline +++ newline +++ nl ("Error detected! - " +++ line) +++ nl ERROR +++
                nl (join_with newline (rev (linesbuffer f))) +++ nl ERROR +++ rawline) f;
    Ok (Break f)
  else
    o ← run_handlers handlers line sline (set_flag false f);
    match o with
    | Fall sline f =>
        if keepalive_output f then Ok (Continue f) else f ← output "." f; Ok (Continue f)
    | o => Ok o
    end.

Inductive event := Line (rawline : string) | Spin.

(** The second loop. *)
Fixpoint copy (l : list event) (f : Filter) : result Filter :=
  match l with
  | [] => Ok f
  | Line s :: l => f ← output s f; copy l f
  | Spin :: l => f ← spin f; copy l f
  end.

Fixpoint run (l : list event) (f : Filter) : result Filter :=
  match l with
  | [] => Ok f
  | Line s :: l =>
      o ← step s f;
      match o with Fall _ f | Continue f => run l f | Break f => copy l f end
  | Spin :: l => f ← spin f; run l f
  end.

(** The script; [log_name] is [repr] of its argument. *)
Definition main (log_name : string) (l : list event) : result Filter :=
  f ← run l initial;
  f ← output (newline +++ newline) f;
  output (nl ("Raw output saved in " +++ log_name)) f.
End paths.

(** ** Theorems *)

(** Everything but the buffer and the log may change, and what was written
    stays written. *)
Definition keeps (f g : Filter) : Prop :=
  linesbuffer g = linesbuffer f /\ log_file g = log_file f /\ exists l, stdout g = (stdout f ++ l)%list.

#[export] Instance keeps_po : PreOrder keeps.
Proof.
  split.
  - intros f. split_and!; [done..|]. exists []. by rewrite app_nil_r.
  - intros f g h (B1 & L1 & l1 & S1) (B2 & L2 & l2 & S2). split_and!; [congruence..|].
    exists (l1 ++ l2)%list. by rewrite S2, S1, app_assoc.
Qed.

Definition wrote (f g : Filter) : Prop := (length (stdout f) < length (stdout g))%nat.

(** An action that keeps, and one that also shows something. *)
Definition tame (a : Filter -> result Filter) : Prop := forall f g, a f = Ok g -> keeps f g.
Definition loud (a : Filter -> result Filter) : Prop := forall f g, a f = Ok g -> keeps f g /\ wrote f g.

Lemma keeps_wrote f g h : keeps f g -> wrote g h -> wrote f h.
Proof. intros (_ & _ & l & S). unfold wrote. rewrite S, length_app. lia. Qed.

Lemma wrote_keeps f g h : wrote f g -> keeps g h -> wrote f h.
Proof. intros W (_ & _ & l & S). unfold wrote in *. rewrite S, length_app. lia. Qed.

Lemma bind_inv {A B} (r : result A) (k : A -> result B) b :
  (a ← r; k a) = Ok b -> exists a, r = Ok a /\ k a = Ok b.
Proof. destruct r as [a|]; [by exists a | discriminate]. Qed.

Lemma output_inv s f g :
  output s f = Ok g -> truthy s = true ->
  is_ascii s = true /\ keepalive_output g = true /\ linesbuffer g = linesbuffer f /\ log_file g = log_file f /\
  before_next_output g = "" /\ stdout g = (stdout f ++ [before_next_output f; s])%list.
Proof.
  unfold output, output_before. destruct (is_ascii s); [|discriminate]. by destruct (truthy s); intros [= <-].
Qed.

Lemma output_loud s : truthy s = true -> loud (output s).
Proof.
  intros Hs f g (_ & _ & B & L & _ & S)%output_inv; [|done]. split.
  - split_and!; [done..|]. by eexists.
  - unfold wrote. rewrite S, length_app. cbn. lia.
Qed.

Lemma output_tame s : tame (output s).
Proof.
  intros f g H. destruct (truthy s) eqn:Hs; [by apply output_loud in H as [K _]|].
  unfold output, output_before in H. destruct (is_ascii s); [|discriminate]. rewrite Hs in H. injection H as <-.
  split_and!; [done..|]. exists []. by rewrite app_nil_r.
Qed.

Lemma outputs_tame l : tame (outputs l).
Proof.
  induction l as [|s l IH]; intros f g; cbn [outputs]; [by intros [= <-]|].
  intros (h & H1 & H2)%bind_inv. apply output_tame in H1. apply IH in H2. by transitivity h.
Qed.

Lemma show_lines_tame text k : tame (show_lines text k).
Proof.
  induction k as [|k IH]; intros f g; cbn [show_lines]; [by intros [= <-]|].
  intros (l & _ & (t & _ & (h & H1 & H2)%bind_inv)%bind_inv)%bind_inv.
  apply output_tame in H1. apply IH in H2. by transitivity h.
Qed.

Lemma spin_tame : tame spin.
Proof.
  intros f g. unfold spin, output_before. intros (h & H & [= <-])%bind_inv.
  destruct (is_ascii _); [|discriminate]. destruct (truthy _); injection H as <-.
  - split_and!; [done..|]. by eexists.
  - split_and!; [done..|]. exists []. by rewrite app_nil_r.
Qed.

(** The newest three lines are a header that announces a summary. *)
Definition announces (b : list string) : bool :=
  match b with
  | l0 :: l1 :: l2 :: _ =>
      String.eqb l0 DELIM_MAJOR && startswith l1 "*" && String.eqb l2 DELIM_MAJOR && contains l1 "Summary"
  | _ => false
  end.

Definition after (o : outcome) : Filter := match o with Fall _ f | Continue f | Break f => f end.

(** What every handler promises: nothing is lost; it does not stop the loop; it
    only takes the line, or sets the flag, if it shows something, or silences
    the header of a summary. *)
Definition good (h : handler) : Prop :=
  forall line sline f o, h line sline f = Ok o ->
    keeps f (after o) /\
    match o with
    | Fall _ g => keepalive_output g = true -> keepalive_output f = true \/ wrote f g
    | Continue g => wrote f g \/ announces (linesbuffer f) = true
    | Break _ => False
    end.

Lemma truthy_cons c s : truthy (String c s) = true.
Proof. done. Qed.

Lemma truthy_append_l a b : truthy a = true -> truthy (a +++ b) = true.
Proof. by destruct a. Qed.

Lemma truthy_append_r a b : truthy b = true -> truthy (a +++ b) = true.
Proof. by destruct a. Qed.

Ltac solve_truthy :=
  solve [reflexivity | apply truthy_append_l; solve_truthy | apply truthy_append_r; solve_truthy | auto].

(** Runs a handler that is known to succeed, and collects what its outputs keep
    and show. *)
Ltac run_handler :=
  repeat match goal with
  | H : Ok _ = Ok _ |- _ => injection H as <-
  | H : Raise _ = Ok _ |- _ => discriminate H
  | H : output ?s ?f = Ok ?g |- _ =>
      let K := fresh "K" in let W := fresh "W" in
      destruct (output_loud s ltac:(solve_truthy) f g H) as [K W]; clear H
  | H : show_lines _ _ ?f = Ok ?g |- _ => apply show_lines_tame in H; change (keeps f g) in H
  | H : outputs _ ?f = Ok ?g |- _ => apply outputs_tame in H; change (keeps f g) in H
  | H : mbind _ _ = Ok _ |- _ => apply bind_inv in H; destruct H as (? & ? & H); cbv beta in H
  | H : (if ?b then _ else _) = Ok _ |- _ => destruct b eqn:?
  | H : match ?x with _ => _ end = Ok _ |- _ => destruct x eqn:?
  end.

Ltac keeps_chain := solve [reflexivity | eassumption | etransitivity; [eassumption|]; keeps_chain].
Ltac wrote_chain :=
  match goal with
  | W : wrote ?a ?b |- wrote ?a ?c => solve [exact W | apply (wrote_keeps a b c W); keeps_chain]
  | K : keeps ?a ?b, W : wrote ?b ?c |- wrote ?a ?d => apply (keeps_wrote a b d K); wrote_chain
  end.

Ltac good_handler :=
  intros line sline f o H; run_handler; cbn [after];
  (split; [keeps_chain | try intros ?; first [left; wrote_chain | right; wrote_chain | by auto | idtac]]).

Lemma show_good cond cut text : (forall s, truthy (text s) = true) -> good (show cond cut text).
Proof. intros Ht. unfold show. good_handler. Qed.

Lemma on_warning_good : good on_warning.
Proof. unfold on_warning. good_handler. Qed.

Lemma on_copyright_good : good on_copyright.
Proof. unfold on_copyright. good_handler. Qed.

Lemma nth_line_inv f i l : nth_line f i = Ok l -> linesbuffer f !! i = Some l.
Proof. unfold nth_line. destruct (_ !! i); [by intros [= <-] | discriminate]. Qed.

Lemma on_header_good : good on_header.
Proof.
  intros line sline f o H. unfold on_header in H.
  apply bind_inv in H as (l0 & H0%nth_line_inv & H). apply bind_inv in H as (l1 & H1%nth_line_inv & H).
  apply bind_inv in H as (l2 & H2%nth_line_inv & H).
  assert (Ha : String.eqb l0 DELIM_MAJOR && startswith l1 "*" && String.eqb l2 DELIM_MAJOR && contains l1 "Summary"
               = announces (linesbuffer f)) by (destruct (linesbuffer f) as [|a [|b [|c r]]]; simplify_eq/=; done).
  destruct (_ && _ && _) eqn:Hd; [destruct (contains l1 "Summary") eqn:Hc|]; run_handler; cbn [after];
    (split; [keeps_chain|]).
  - by right.
  - left. wrote_chain.
  - auto.
Qed.

Lemma on_summary_end_good : good on_summary_end.
Proof. unfold on_summary_end. good_handler. Qed.

Lemma keeps_specials l f : keeps f (set_specials l f).
Proof. split_and!; [done..|]. exists []. by rewrite app_nil_r. Qed.

Lemma keeps_fsm f : keeps f (set_fsm f).
Proof. split_and!; [done..|]. exists []. by rewrite app_nil_r. Qed.

Lemma on_found_good : good on_found.
Proof.
  unfold on_found. intros line sline f o H. run_handler; cbn [after]; (split; [|auto]); [apply keeps_specials | reflexivity].
Qed.

Lemma on_synthesized_good : good on_synthesized.
Proof. unfold on_synthesized. good_handler. Qed.

Lemma on_fsm_good : good on_fsm.
Proof. unfold on_fsm. good_handler. Qed.

Lemma on_block_good start mark title : good (on_block start mark title).
Proof. unfold on_block. good_handler. Qed.

Lemma on_phase_good : good on_phase.
Proof. unfold on_phase. good_handler. Qed.

Lemma on_parsing_good top_path isfile : good (on_parsing top_path isfile).
Proof. unfold on_parsing. good_handler. Qed.

Lemma handlers_good top_path isfile : Forall good (handlers top_path isfile).
Proof.
  unfold handlers. repeat (apply Forall_cons; split); try apply Forall_nil_2.
  all: first [apply show_good; intros s; solve_truthy | auto using on_warning_good, on_copyright_good, on_header_good,
    on_summary_end_good, on_parsing_good, on_found_good, on_synthesized_good, on_fsm_good, on_block_good, on_phase_good].
Qed.

Lemma run_handlers_good l line sline f o :
  Forall good l -> run_handlers l line sline f = Ok o ->
  keeps f (after o) /\
  match o with
  | Fall _ g => keepalive_output g = true -> keepalive_output f = true \/ wrote f g
  | Continue g => wrote f g \/ announces (linesbuffer f) = true
  | Break _ => False
  end.
Proof.
  intros Hl. revert sline f. induction Hl as [|h l Hh Hl IH]; intros sline f H; cbn [run_handlers] in H.
  - injection H as <-. by split; [|auto].
  - apply bind_inv in H as (o1 & H1 & H). apply Hh in H1 as [K1 P1]. destruct o1 as [s1 g|g|g]; [|by injection H as <-|done].
    apply IH in H as [K2 P2]. cbn [after] in K1. split; [by transitivity g|].
    destruct o as [s2 g'|g'|g']; cbn [after] in *.
    + intros Hk. destruct (P2 Hk) as [Hg|W]; [|right; by apply (keeps_wrote f g)].
      destruct (P1 Hg) as [|W]; [by left | right; by apply (wrote_keeps f g)].
    + destruct P2 as [W|A]; [left; by apply (keeps_wrote f g)|]. right. destruct K1 as (B & _). by rewrite <- B.
    + done.
Qed.

Section loop.
Context (top_path : string) (isfile : string -> bool).

(** The buffer after a line. *)
Definition push (raw : string) (b : list string) : list string := take BUFFER_SIZE (strip_ends raw :: b).

(** An iteration that does not fail or stop. *)
Lemma step_continues raw f o :
  step top_path isfile raw f = Ok o -> (forall g, o <> Break g) ->
  exists g, o = Continue g /\ linesbuffer g = push raw (linesbuffer f) /\ log_file g = (log_file f ++ [raw])%list /\
    (exists l, stdout g = (stdout f ++ l)%list) /\
    (truthy (strip (strip_ends raw)) = true -> announces (linesbuffer g) = false -> wrote f g).
Proof.
  unfold step. set (f1 := set_buffer _ (write_log raw f)).
  assert (K : forall g, keeps f1 g -> linesbuffer g = push raw (linesbuffer f) /\
    log_file g = (log_file f ++ [raw])%list /\ exists l, stdout g = (stdout f ++ l)%list) by (by intros g (-> & -> & ?)).
  assert (W : forall g, wrote f1 g -> wrote f g) by done.
  destruct (startswith _ "make").
  { intros (g & H & [= <-])%bind_inv _. apply output_loud in H as [Kg Wg]; [|done].
    exists g. destruct (K g Kg) as (? & ? & ?). split_and!; auto. }
  destruct (truthy (strip _)) eqn:Ht; cbn [negb].
  2: { intros [= <-] _. exists f1. destruct (K f1 ltac:(done)) as (? & ? & ?). by split_and!. }
  destruct (startswith _ "ERROR:").
  { intros (g & _ & [= <-])%bind_inv Hb. by destruct (Hb g). }
  intros (o1 & H & Ho)%bind_inv Hb. apply run_handlers_good in H as [K1 P1]; [|apply handlers_good].
  change (keeps f1 (after o1)) in K1. change (wrote (set_flag false f1)) with (wrote f1) in P1.
  change (linesbuffer (set_flag false f1)) with (linesbuffer f1) in P1.
  destruct o1 as [s g|g|g]; cbn [after] in K1; [| |done].
  - destruct (keepalive_output g) eqn:Hk.
    + injection Ho as <-. exists g. destruct (K g K1) as (? & ? & ?). split_and!; auto.
      intros _ _. destruct (P1 eq_refl) as [?|?]; [done | auto].
    + apply bind_inv in Ho as (g' & H & [= <-]). apply output_loud in H as [K2 W2]; [|done].
      exists g'. destruct (K g') as (? & ? & ?); [by transitivity g|]. split_and!; auto.
      intros _ _. apply W. by apply (keeps_wrote f1 g).
  - injection Ho as <-. exists g. destruct (K g K1) as (HB & ? & ?). split_and!; auto.
    intros _ Ha. destruct P1 as [?|Ha']; [auto|]. destruct K1 as (B & _). rewrite <- B in Ha'. congruence.
Qed.

(** What the buffer holds once the lines [ls] are read. *)
Definition recent (ls : list string) : list string :=
  take BUFFER_SIZE (rev (strip_ends <$> ls) ++ replicate BUFFER_SIZE "")%list.

Lemma push_recent ls raw : push raw (recent ls) = recent (ls ++ [raw])%list.
Proof.
  unfold push, recent. rewrite fmap_app, rev_app_distr. cbn [rev app fmap list_fmap]. unfold BUFFER_SIZE.
  cbn [take]. f_equal. by rewrite take_take.
Qed.

(** The states between the iterations of the main loop, with the events so far:
    lines that were handled, and runs of the spinner. *)
Inductive reaches : list event -> Filter -> Prop :=
| reaches_initial : reaches [] initial
| reaches_line l f raw g : reaches l f -> step top_path isfile raw f = Ok (Continue g) -> reaches (l ++ [Line raw])%list g
| reaches_spin l f g : reaches l f -> spin f = Ok g -> reaches (l ++ [Spin])%list g.

Definition lines_of (l : list event) : list string :=
  omap (fun e => match e with Line s => Some s | Spin => None end) l.

Lemma lines_of_app a b : lines_of (a ++ b)%list = (lines_of a ++ lines_of b)%list.
Proof. apply omap_app. Qed.

Lemma reaches_run l f k : reaches l f -> run top_path isfile (l ++ k)%list initial = run top_path isfile k f.
Proof.
  intros H. revert k. induction H as [|l f raw g H IH Hs|l f g H IH Hs]; intros k; [done| |];
    rewrite <- app_assoc, IH; cbn [run app]; by rewrite Hs.
Qed.

Lemma reaches_buffer l f : reaches l f -> linesbuffer f = recent (lines_of l) /\ log_file f = lines_of l.
Proof.
  induction 1 as [|l f raw g H [IHb IHl] Hs|l f g H [IHb IHl] Hs]; [done| |].
  - destruct (step_continues raw f _ Hs) as (g' & E & B & L & _); [done|]. injection E as <-.
    rewrite B, L, IHb, IHl, push_recent, lines_of_app. done.
  - apply spin_tame in Hs as (B & L & _). rewrite B, L, lines_of_app. cbn. by rewrite app_nil_r.
Qed.

(** The buffer and the log file, at every point of the main loop. As
    long as no line stops it, whatever the lines, the order of the spinner's
    turns and the files on disk are: the buffer has exactly 200 entries, the
    latest lines without their line ends, newest first, padded with empty ones;
    and the log file holds exactly the lines read, unchanged and in order. *)
Theorem buffer_and_log (l : list event) (f : Filter) (H : reaches l f) :
  linesbuffer f = recent (lines_of l) /\ length (linesbuffer f) = BUFFER_SIZE /\ log_file f = lines_of l.
Proof.
  destruct (reaches_buffer l f H) as [B L]. split_and!; [done| |done].
  rewrite B. unfold recent. rewrite length_take, length_app, length_replicate. lia.
Qed.

(** The digest never falls silent. Every line with text on it that
    does not make the script fail shows something: in any state, for any line
    but one that completes the header of a summary, the iteration appends to the
    terminal, and what was there stays. *)
Theorem every_line_shows (raw : string) (f : Filter) (o : outcome)
    (H : step top_path isfile raw f = Ok o) (Ht : truthy (strip (strip_ends raw)) = true)
    (Ha : announces (push raw (linesbuffer f)) = false) :
  (exists l, stdout (after o) = (stdout f ++ l)%list) /\ (length (stdout f) < length (stdout (after o)))%nat.
Proof.
  destruct o as [s g|g|g].
  - destruct (step_continues raw f _ H) as (g' & E & _); [done|]. discriminate.
  - destruct (step_continues raw f _ H) as (g' & E & B & _ & S & W); [done|]. injection E as <-.
    split; [done|]. apply W; [done|]. by rewrite B.
  - unfold step in H. destruct (startswith _ "make"); [by apply bind_inv in H as (? & _ & ?)|].
    rewrite Ht in H. cbn [negb] in H. destruct (startswith _ "ERROR:").
    + apply bind_inv in H as (g' & H & [= <-]). apply output_loud in H as [(_ & _ & S) W]; [|done]. by split.
    + apply bind_inv in H as (o & H & Ho). apply run_handlers_good in H as [_ P]; [|apply handlers_good].
      destruct o as [s h|h|h]; [|discriminate|done].
      destruct (keepalive_output h); [discriminate|]. by apply bind_inv in Ho as (? & _ & ?).
Qed.

(** ** The report of an error *)

Lemma is_ascii_cons c s : is_ascii (String c s) = (nat_of_ascii c <? 128)%nat && is_ascii s.
Proof. done. Qed.

Lemma is_ascii_append a b : is_ascii (a +++ b) = is_ascii a && is_ascii b.
Proof.
  induction a as [|c a IH]; [done|]. rewrite append_cons, !is_ascii_cons, IH. by rewrite andb_assoc.
Qed.

Lemma is_ascii_strip_ends s : is_ascii s = true -> is_ascii (strip_ends s) = true.
Proof.
  intros H. unfold strip_ends. assert (Hr : is_ascii (rstrip_ends s) = true).
  { induction s as [|c s IH]; [done|]. rewrite is_ascii_cons in H. apply andb_true_iff in H as [Hc H].
    cbn [rstrip_ends]. destruct (_ && _); [done|]. by rewrite is_ascii_cons, Hc, IH. }
  revert Hr. generalize (rstrip_ends s). clear. intros s. induction s as [|c s IH]; [done|].
  rewrite is_ascii_cons. intros [Hc H]%andb_true_iff. cbn [lstrip_ends].
  destruct (line_end c); [by apply IH|]. by rewrite is_ascii_cons, Hc.
Qed.

Lemma is_ascii_join sep l :
  is_ascii sep = true -> Forall (fun s => is_ascii s = true) l -> is_ascii (join_with sep l) = true.
Proof.
  intros Hs. induction 1 as [|s l H Hl IH]; [done|]. unfold join_with in *. cbn [String.concat].
  destruct l as [|s' l]; [done|]. by rewrite !is_ascii_append, H, Hs, IH.
Qed.

Lemma recent_ascii ls :
  Forall (fun s => is_ascii s = true) ls -> Forall (fun s => is_ascii s = true) (recent ls).
Proof.
  intros H. apply Forall_take, Forall_app; split; [|by apply Forall_replicate].
  apply Forall_rev, Forall_fmap. eapply Forall_impl; [exact H|]. apply is_ascii_strip_ends.
Qed.

(** What is shown of the lines [ls] when [raw] reports an error. *)
Definition report (ls : list string) (raw : string) : string :=
  newline +++ newline +++ nl ("Error detected! - " +++ strip_ends raw) +++ nl ERROR +++
  nl (join_with newline (rev (take 199 (recent ls)))) +++ nl ERROR +++ raw.

Lemma error_line raw :
  startswith (strip_ends raw) "ERROR:" = true ->
  startswith (strip_ends raw) "make" = false /\ truthy (strip (strip_ends raw)) = true.
Proof.
  generalize (strip_ends raw). intros s H. destruct s as [|c s]; [done|].
  unfold startswith in *. cbn [String.prefix] in *. destruct (ascii_dec "E" c) as [<-|]; [|done].
  split; [done|]. unfold strip. cbn [rstrip]. by destruct (rstrip s).
Qed.

Lemma copy_lines ls f :
  Forall (fun s => is_ascii s = true /\ truthy s = true) ls ->
  exists g, copy (Line <$> ls) f = Ok g /\ log_file g = log_file f /\
    (ls = [] -> g = f) /\
    (before_next_output f = "" -> stdout g = (stdout f ++ flat_map (fun s => [""; s]) ls)%list).
Proof.
  intros H. revert f. induction H as [|s ls [Ha Ht] H IH]; intros f.
  - exists f. split_and!; try done. intros _. by rewrite app_nil_r.
  - cbn [fmap list_fmap copy]. destruct (output s f) as [g1|e] eqn:E.
    2: { unfold output, output_before in E. by rewrite Ha, Ht in E. }
    apply output_inv in E as (_ & _ & _ & L1 & B1 & S1); [|done].
    destruct (IH g1) as (g & Hg & L & _ & S). exists g. split_and!; [exact Hg | congruence | done |].
    intros Hb. rewrite (S B1), S1, Hb, <- app_assoc. done.
Qed.

(** Claim C39: what an error in the log leads to. After any run of the main
    loop, when the next line reports an error and everything is ASCII, the
    script shows the error with the 199 lines before it in their order, and then
    the rest of the input word for word. The log file ends with the line of the
    error: nothing of the rest is saved, although the script ends by saying that
    the raw output is. *)
Theorem error_report (l : list event) (f : Filter) (raw : string) (rest : list string)
    (H : reaches l f)
    (He : startswith (strip_ends raw) "ERROR:" = true)
    (Hls : Forall (fun s => is_ascii s = true) (raw :: lines_of l))
    (Hrest : Forall (fun s => is_ascii s = true /\ truthy s = true) rest) :
  exists g, run top_path isfile (l ++ Line raw :: (Line <$> rest))%list initial = Ok g /\
    log_file g = (lines_of l ++ [raw])%list /\
    stdout g = (stdout f ++ [before_next_output f; report (lines_of l) raw] ++ flat_map (fun s => [""; s]) rest)%list.
Proof.
  destruct (reaches_buffer l f H) as [Hb Hl]. rewrite (reaches_run l f _ H). cbn [run]. unfold step.
  destruct (error_line raw He) as [Hm Ht]. rewrite Hm, Ht, He. cbn [negb].
  set (f1 := set_buffer (tl _) _).
  assert (Hf1 : linesbuffer f1 = take 199 (recent (lines_of l))) by (cbn; by rewrite Hb).
  rewrite Hf1. fold (report (lines_of l) raw).
  apply Forall_cons in Hls as [Hra Hla].
  assert (Hasc : is_ascii (report (lines_of l) raw) = true).
  { unfold report, nl. rewrite !is_ascii_append, Hra, (is_ascii_strip_ends raw Hra).
    rewrite is_ascii_join; [done | done |]. by apply Forall_rev, Forall_take, recent_ascii. }
  destruct (output (report (lines_of l) raw) f1) as [g1|e] eqn:E.
  2: { unfold output, output_before in E. by rewrite Hasc in E. }
  apply output_inv in E as (_ & _ & _ & L1 & B1 & S1); [|done].
  destruct (copy_lines rest g1 Hrest) as (g & Hg & L & _ & S).
  exists g. split; [exact Hg|]. split; [rewrite L, L1; cbn; by rewrite Hl|].
  by rewrite (S B1), S1, <- app_assoc.
Qed.
End loop.

(** ** Instances *)

Definition no_file (p : string) : bool := false.

(** The state after some lines, as the script leaves it. *)
Definition state_after (l : list event) : Filter :=
  match run "/" no_file l initial with Ok f => f | Raise _ => initial end.

Definition example_log : list event := [Line (nl "make gateware"); Spin; Line (nl "Elaborating module <top>.")].

Lemma example_reaches : reaches "/" no_file example_log (state_after example_log).
Proof.
  apply (reaches_line _ _ [Line (nl "make gateware"); Spin] (state_after [Line (nl "make gateware"); Spin]));
    [|vm_compute; reflexivity].
  apply (reaches_spin _ _ [Line (nl "make gateware")] (state_after [Line (nl "make gateware")]));
    [|vm_compute; reflexivity].
  apply (reaches_line _ _ [] initial); [apply reaches_initial | vm_compute; reflexivity].
Qed.

Lemma buffer_and_log_witness :
  linesbuffer (state_after example_log) = recent [nl "make gateware"; nl "Elaborating module <top>."] /\
  length (linesbuffer (state_after example_log)) = BUFFER_SIZE /\
  log_file (state_after example_log) = [nl "make gateware"; nl "Elaborating module <top>."].
Proof. exact (buffer_and_log "/" no_file example_log (state_after example_log) example_reaches). Defined.

Lemma every_line_shows_witness :
  let o := Continue (state_after [Line "hello"]) in
  step "/" no_file "hello" initial = Ok o /\ (0 < length (stdout (after o)))%nat.
Proof.
  intros o. assert (H : step "/" no_file "hello" initial = Ok o) by (vm_compute; reflexivity).
  split; [exact H|].
  exact (proj2 (every_line_shows "/" no_file "hello" initial o H ltac:(reflexivity) ltac:(vm_compute; reflexivity))).
Defined.

Lemma error_report_witness :
  exists g, run "/" no_file (example_log ++ [Line (nl "ERROR:Xst"); Line (nl "more")])%list initial = Ok g /\
    log_file g = [nl "make gateware"; nl "Elaborating module <top>."; nl "ERROR:Xst"] /\
    stdout g = (stdout (state_after example_log) ++
      [before_next_output (state_after example_log);
       report [nl "make gateware"; nl "Elaborating module <top>."] (nl "ERROR:Xst")] ++ [""; nl "more"])%list.
Proof.
  exact (error_report "/" no_file example_log (state_after example_log) (nl "ERROR:Xst") [nl "more"] example_reaches
    ltac:(reflexivity) ltac:(repeat constructor) ltac:(repeat constructor)).
Defined.

(** Lines that stop the script with an exception. *)
Example phase_alone_fails : run "/" no_file [Line (nl "hello"); Line (nl "Phase")] initial = Raise IndexError.
Proof. vm_compute. reflexivity. Qed.

Example blank_in_summary_fails :
  run "/" no_file [Line (nl "  Summary:"); Line newline; Line (nl "Unit <top> synthesized.")] initial = Raise IndexError.
Proof. vm_compute. reflexivity. Qed.
