(* ===== verification/HostTools.v ===== *)
(** * test/: the tools on the host

    [test/common.py] names the board it talks to, dumps memory and compares a
    flash file with memory; [check_csrs.py] checks the register map the build
    wrote; [load_pattern.py] writes a picture into the frame buffer;
    [test_dump.py] saves the ROM. The connection to the board (RemoteClient) is
    third-party: a class states what reading words means. *)
From S2P Require Import Prelude PyStr.
From S2P Require Info.
From Stdlib Require Import Sorted.
#[local] Open Scope string_scope.

Definition chr (z : Z) : ascii := ascii_of_nat (Z.to_nat z).
Definition string_of (l : list ascii) : string := String.string_of_list_ascii l.

(** ** Who is there *)

(** [stringify(reg)]: [reg.length] bytes from the bottom, zeros left out,
    reversed. *)
Definition stringify (len : nat) (d : Z) : string :=
  string_of (rev (chr <$> base.filter (fun b => 0 < b)%Z ((fun i => slice d (8 * Z.of_nat i) 8) <$> seq 0 len))).

(** A register of the device, [None] when the design has no such register (an
    AttributeError, which all of these catch). *)
Definition get_dna (info_dna_id : option Z) : string :=
  match info_dna_id with Some dna => hex dna | None => "Unknown" end.

Definition get_git (info_git_commit : option Z) : string :=
  match info_git_commit with Some commit => sdrop 2 (hex commit) | None => "Unknown" end.

(** The registers with their lengths in bytes. *)
Definition get_platform (info_platform_target info_platform_platform : option (nat * Z)) : string :=
  match info_platform_target, info_platform_platform with
  | Some (n, t), Some (m, p) => stringify n t +++ " on " +++ stringify m p
  | _, _ => "Unknown on Unknown"
  end.

(** [connect]: a serial port goes through a local proxy, otherwise the given
    address or host 50 of the range. *)
Definition connect_address (port ipaddress : option string) (iprange : string) : string :=
  if otruthy port then "127.0.0.1"
  else if otruthy ipaddress then default "" ipaddress
  else iprange +++ ".50".

(** ** Memory of the board *)

(** [wb.read(start, length)]: [length] 32-bit words from a byte address. *)
Class Remote := {
  read : Z -> nat -> list Z;
  word_at : Z -> Z;
  word_width a : in_width 32 (word_at a);
  read_words start n : read start n = (fun k => word_at (start + 4 * Z.of_nat k)) <$> seq 0 n
}.

Section remote.
Context {RC : Remote}.

(** [struct.pack('>I', d)]. *)
Definition pack_be (d : Z) : list Z := to_digits 8 4 d.

(** What [cmpflash] prints: the address at every eighth byte, a dot for a byte
    that agrees, both values for one that does not. *)
Inductive item := Head (addr : Z) | Same | Differ (addr expected actual : Z).

Definition hex2 (b : Z) : string := string_of [digit_char (b / 16); digit_char (b mod 16)].

Definition show_item (i : item) : string :=
  match i with
  | Head a => newline +++ "0x" +++ hex8 a +++ " "
  | Same => "."
  | Differ a e m => newline +++ hex8 a +++ " " +++ hex2 e +++ " != " +++ hex2 m +++ newline
  end.

Definition compare_byte (start : Z) (local_data mem_data : list Z) (j i : nat) : list item :=
  let addr := (Z.of_nat j + Z.of_nat i + start)%Z in
  let expected := nth (j + i) local_data 0%Z in
  let actual := nth i mem_data 0%Z in
  app (if addr mod 8 =? 0 then [Head addr] else [])%Z
      (if expected =? actual then [Same] else [Differ addr expected actual])%Z.

Definition BLOCK_SIZE : nat := 64.

(** The [while] loop. [mem_data_len] words are read for as many bytes. *)
Fixpoint cmp_loop (fuel : nat) (start : Z) (local_data : list Z) (j : nat) : option (list item) :=
  if (j <? length local_data)%nat then
    match fuel with
    | O => None
    | S fuel =>
        let mem_data_len := Nat.min BLOCK_SIZE (length local_data - j) in
        let mem_data := mbind pack_be (read (start + Z.of_nat j) mem_data_len) in
        rest ← cmp_loop fuel start local_data (j + BLOCK_SIZE);
        Some (app (mbind (compare_byte start local_data mem_data j) (seq 0 mem_data_len)) rest)
    end
  else Some [].

Definition cmpflash (start : Z) (file : list Z) (skip max : nat) : result (option (list item)) :=
  py_assert (skip mod 4 =? 0)%nat;;
  let local_data := take (skip + max) file in
  Ok (cmp_loop (length local_data) start local_data skip).

(** [memdump]: an address at every multiple of 32, four bytes for a word. *)
Definition memdump_word (start : Z) (i : nat) (d : Z) : string :=
  let address := (Z.of_nat i * 4 + start)%Z in
  (if address mod 32 =? 0 then newline +++ "0x" +++ (let h := to_base 16 address in zeros (4 - String.length h) +++ h) +++ " " else "")%Z
  +++ foldr (fun b s => hex2 b +++ " " +++ s) "" (pack_be d).

Definition memdump (start : Z) (length : nat) : string :=
  foldr String.append "" (imap (memdump_word start) (read start length)).

(** [test_dump.py]: the ROM, packet by packet. *)
Definition rom_base : Z := 0.
Definition dump_size : nat := Z.to_nat 0x8000.
Definition words_per_packet : nat := 128.

Definition dump : list Z :=
  mbind (fun n => read (rom_base + Z.of_nat (n * words_per_packet * 4)) words_per_packet)
        (seq 0 (dump_size / (words_per_packet * 4))).

Definition dump_file : list Z := mbind pack_be dump.
End remote.

(** [send_int32_data] of load_pattern.py: the writes [(address, words)]. *)
Fixpoint batches (fuel b pos : nat) (base : Z) (data : list Z) : list (Z * list Z) :=
  match fuel with
  | O => []
  | S fuel =>
      if (pos <? length data)%nat
      then (base + Z.of_nat pos * 4, take b (drop pos data))%Z :: batches fuel b (pos + b) base data
      else []
  end.

Definition send_int32_data (base : Z) (data : list Z) (b : nat) : list (Z * list Z) :=
  batches (length data) b 0 base data.

(** ** [check_csrs.py]: the register map of a build *)

(** [int(s, 16)]: an optional sign and prefix, digits with single underscores
    between them. *)
Fixpoint hex_digits (acc : Z) (after_digit : bool) (s : string) : option Z :=
  match s with
  | EmptyString => if after_digit then Some acc else None
  | String c s =>
      match Info.hex_value c with
      | Some d => hex_digits (16 * acc + d) true s
      | None => if Ascii.eqb c "_" && after_digit then hex_digits acc false s else None
      end
  end.

Definition hex_body (s : string) : option Z :=
  match s with
  | String "0" (String "x" (String "_" s)) | String "0" (String "X" (String "_" s)) => hex_digits 0 false s
  | String "0" (String "x" s) | String "0" (String "X" s) => hex_digits 0 false s
  | _ => hex_digits 0 false s
  end.

Definition py_int16 (s : string) : result Z :=
  let o := match strip s with
           | String "-" s' => Z.opp <$> hex_body s'
           | String "+" s' => hex_body s'
           | s' => hex_body s'
           end in
  match o with Some z => Ok z | None => Raise ValueError end.

(** [{:x}]. *)
Definition fmt_x (z : Z) : string := (if z <? 0 then "-" +++ to_base 16 (- z) else to_base 16 z)%Z.

(** A row of the file, as the CSV reader splits it. *)
Definition row := list string.

(** [[x for x in data if x[0] == tag]]. *)
Fixpoint select (tag : string) (data : list row) : result (list row) :=
  match data with
  | [] => Ok []
  | [] :: _ => Raise IndexError
  | (t :: _) as x :: data =>
      rest ← select tag data;
      Ok (if String.eqb t tag then x :: rest else rest)
  end.

Fixpoint try_map {A B} (f : A -> result B) (l : list A) : result (list B) :=
  match l with
  | [] => Ok []
  | x :: l => y ← f x; ys ← try_map f l; Ok (y :: ys)
  end.

(** [(int(loc, 16), int(size), name)]; a row has five fields. *)
Record entry := Entry { loc : Z; size : Z; name : string }.

Definition mem_entry (x : row) : result entry :=
  match x with
  | [_; name; loc; size; _] => l ← py_int16 loc; n ← py_int size; Ok (Entry l n name)
  | _ => Raise ValueError
  end.

(** Tuples are ordered component by component. *)
Definition entry_leb (a b : entry) : bool :=
  ((loc a <? loc b) ||
   ((loc a =? loc b) && ((size a <? size b) || ((size a =? size b) && str_leb (name a) (name b)))))%Z.

Fixpoint entry_insert (a : entry) (l : list entry) : list entry :=
  match l with
  | [] => [a]
  | b :: l' => if entry_leb a b then a :: l else b :: entry_insert a l'
  end.

(** [mem_map.sort()]. *)
Definition sort_map (l : list entry) : list entry := foldr entry_insert [] l.

Definition csr_limit : Z := 0xe0000000 + 2 ^ 14 * 4.

(** The loop over [mem_map[:-1]], with what it prints. *)
Fixpoint check_map (m : list entry) : result (list string) :=
  match m with
  | a :: ((b :: _) as m') =>
      py_assert (loc a + size a * 4 <=? loc b)%Z;;
      py_assert (loc a <? csr_limit)%Z;;
      rest ← check_map m';
      Ok ((fmt_x (loc a) +++ " " +++ str_Z (size a) +++ " " +++ name a) :: rest)
  | _ => Ok []
  end.

(** The registers of each base: those whose names begin with its name. *)
Definition base_name (x : row) : result string := match x with [_; b; _; _; _] => Ok b | _ => Raise ValueError end.

Definition attributed (bases : list string) (regs : list entry) : list (string * Z) :=
  r ← regs; b ← bases; if startswith (name r) b then [(b, size r)] else [].

(** [regs_in_base[bname].append(...)]. *)
Fixpoint append_at {V} (k : string) (v : V) (d : list (string * list V)) : list (string * list V) :=
  match d with
  | [] => [(k, [v])]
  | (k', l) :: d => if String.eqb k k' then (k', app l [v]) :: d else (k', l) :: append_at k v d
  end.

Definition group {V} (l : list (string * V)) : list (string * list V) :=
  fold_left (fun d kv => append_at (fst kv) (snd kv) d) l [].

Definition total (l : list Z) : Z := foldr Z.add 0%Z l.

Definition check_base (kv : string * list Z) : result string :=
  py_assert (total (snd kv) <? 200)%Z;;
  Ok (fst kv +++ " " +++ str_Z (total (snd kv))).

Definition check_csrs (data : list row) : result (list string) :=
  base_rows ← select "csr_base" data;
  reg_rows ← select "csr_register" data;
  mem_map ← try_map mem_entry reg_rows;
  printed ← check_map (sort_map mem_map);
  bases ← (match mem_map with [] => Ok [] | _ => try_map base_name base_rows end);
  sums ← try_map check_base (sorted_items (group (attributed bases mem_map)));
  Ok (app printed sums).

(** ** Theorems *)

(** *** Names and commit *)

Lemma filter_all {A} (P : A -> Prop) `{forall x, Decision (P x)} (l : list A) :
  Forall P l -> base.filter P l = l.
Proof. intros Hl. induction Hl as [|x l Hx _ IH]; [done|]. rewrite filter_cons_True by done. by rewrite IH. Qed.

Lemma filter_none {A} (P : A -> Prop) `{forall x, Decision (P x)} (l : list A) :
  Forall (fun x => ~ P x) l -> base.filter P l = [].
Proof. intros Hl. induction Hl as [|x l Hx _ IH]; [done|]. by rewrite filter_cons_False. Qed.

Lemma rev_reverse {A} (l : list A) : rev l = reverse l.
Proof. apply rev_alt. Qed.

Lemma rev_slices (v : Z) (k : nat) : rev ((fun i => slice v (8 * Z.of_nat i) 8) <$> seq 0 k) = to_digits 8 k v.
Proof.
  apply list_eq. intros i. unfold to_digits. rewrite rev_reverse.
  destruct (decide (i < k)%nat) as [Hi|Hi].
  - rewrite list_lookup_fmap, lookup_seq_lt by done.
    rewrite reverse_lookup by (by rewrite length_fmap, length_seq).
    rewrite list_lookup_fmap, length_fmap, length_seq, lookup_seq_lt by lia. cbn [fmap option_fmap option_map].
    unfold digit. do 2 f_equal. lia.
  - rewrite !lookup_ge_None_2; [done|..]; rewrite ?length_reverse, length_fmap, length_seq; lia.
Qed.

Lemma chr_ord c : chr (ord c) = c.
Proof. unfold chr, ord. by rewrite Nat2Z.id, ascii_nat_embedding. Qed.

Lemma string_of_ords s : string_of (chr <$> ords s) = s.
Proof.
  unfold string_of, ords. rewrite <- list_fmap_compose. induction s as [|c s IH]; [done|].
  cbn. rewrite chr_ord. by f_equal.
Qed.

(** A register that holds a name padded with NUL bytes reads as the name. *)
Lemma stringify_name s k v :
  Info.no_nul s -> to_digits 8 k v = (ords s ++ replicate (k - String.length s) 0%Z)%list -> stringify k v = s.
Proof.
  intros Hs Hd. unfold stringify. rewrite <- map_rev. fold (fmap (M := list) chr).
  rewrite rev_reverse, <- filter_reverse, <- rev_reverse, rev_slices, Hd, filter_app, (filter_all _ (ords s)), filter_none, app_nil_r.
  - apply string_of_ords.
  - apply Forall_replicate. lia.
  - unfold Info.no_nul in Hs. pose proof (ords_range s) as Hr. rewrite Forall_forall in Hs, Hr |- *.
    intros x Hx. specialize (Hs x Hx). specialize (Hr x Hx). unfold in_width in Hr. lia.
Qed.

(** Claim C30: what the build writes is what the tools show. For names without
    NUL characters, the register values of [PlatformInfo] make the tools print
    the first eight characters of the target's name and of the platform's. *)
Theorem platform_shown (platform target : string) (Hp : Info.no_nul platform) (Ht : Info.no_nul target) :
  exists p t, Info.PlatformInfo platform target = Ok (p, t) /\
    get_platform (Some (8%nat, t)) (Some (8%nat, p)) =
      String.substring 0 8 target +++ " on " +++ String.substring 0 8 platform.
Proof.
  assert (H : forall s, Info.no_nul s -> exists v,
              Info.binify (String.substring 0 8 s) 64 = Ok v /\ stringify 8 v = String.substring 0 8 s).
  { intros s Hs. destruct (Info.binify_ok (String.substring 0 8 s) 8) as (v & Hv & _ & Hd).
    - rewrite Info.substring_length. lia.
    - exists v. split; [exact Hv|]. apply stringify_name; [|exact Hd].
      unfold Info.no_nul. rewrite Info.substring_take. by apply Forall_take. }
  destruct (H _ Hp) as (p & Ep & Rp), (H _ Ht) as (t & Et & Rt).
  exists p, t. unfold Info.PlatformInfo, get_platform. rewrite Ep, Et, Rp, Rt. done.
Qed.

Lemma platform_shown_witness :
  exists p t, Info.PlatformInfo "opsis" (Info.info_target "HDMI2USBSoC") = Ok (p, t) /\
    get_platform (Some (8%nat, t)) (Some (8%nat, p)) = "hdmi2usb on opsis".
Proof.
  destruct (platform_shown "opsis" (Info.info_target "HDMI2USBSoC")) as (p & t & E & R); [by repeat constructor..|].
  exists p, t. split; [exact E | exact R].
Defined.

(** Leading zeros, down to one digit. *)
Fixpoint drop_zeros (s : string) : string :=
  match s with
  | String c (String _ _ as r) => if Ascii.eqb c "0" then drop_zeros r else s
  | _ => s
  end.

(** [n] hexadecimal digits. *)
Fixpoint hex_n (n : nat) (z : Z) : string :=
  match n with O => "" | S n => hex_n n (z / 16) +++ String (digit_char (z mod 16)) "" end.

Definition nonzero (s : string) : Prop := exists c, In c (String.list_ascii_of_string s) /\ c <> "0"%char.

Lemma drop_zeros_cons c s : s <> "" -> drop_zeros (String c s) = if Ascii.eqb c "0" then drop_zeros s else String c s.
Proof. by destruct s. Qed.

Lemma drop_zeros_app a b : nonzero a -> drop_zeros (a +++ b) = drop_zeros a +++ b.
Proof.
  induction a as [|c a IH]; intros (x & Hx & Hn); [done|]. rewrite append_cons.
  destruct a as [|d a].
  - destruct Hx as [->|[]]. destruct (Ascii.eqb_spec x "0"); [done|].
    destruct b as [|e b]; [done|]. cbn [String.append]. rewrite drop_zeros_cons by done.
    by destruct (Ascii.eqb_spec x "0").
  - rewrite !drop_zeros_cons by done. destruct (Ascii.eqb_spec c "0") as [->|]; [|done].
    apply IH. destruct Hx as [<-|Hx]; [done|]. by exists x.
Qed.

Lemma digit_char_zero d : 0 <= d < 16 -> digit_char d = "0"%char -> d = 0%Z.
Proof.
  intros Hd H. assert (Hf : forall k, (k < 16)%nat -> digit_char (Z.of_nat k) = "0"%char -> k = 0%nat).
  { intros k Hk. do 16 (destruct k as [|k]; [vm_compute; congruence|]). lia. }
  specialize (Hf (Z.to_nat d)). rewrite Z2Nat.id in Hf by lia. specialize (Hf ltac:(lia) H). lia.
Qed.

Lemma hex_n_nonzero n z : (0 < z < 16 ^ Z.of_nat n)%Z -> nonzero (hex_n n z).
Proof.
  revert z. induction n as [|n IH]; intros z Hz; [cbn in Hz; lia|]. cbn [hex_n].
  rewrite Nat2Z.inj_succ, Z.pow_succ_r in Hz by lia. unfold nonzero.
  pose proof (Z.div_mod z 16 ltac:(lia)). pose proof (Z.mod_pos_bound z 16 ltac:(lia)).
  destruct (decide (z / 16 = 0)%Z) as [E|E].
  - exists (digit_char (z mod 16)). rewrite list_ascii_append. split; [apply in_or_app; right; by left|].
    intros Hc%digit_char_zero; lia.
  - destruct (IH (z / 16)%Z) as (c & Hc & Hn); [split; [lia|apply Z.div_lt_upper_bound; lia]|].
    exists c. split; [|done]. rewrite list_ascii_append. apply in_or_app. by left.
Qed.

Lemma hex_n_small n z : (0 <= z < 16)%Z -> drop_zeros (hex_n (S n) z) = String (digit_char z) "".
Proof.
  intros Hz. cbn [hex_n]. rewrite Z.div_small, Z.mod_small by lia.
  assert (hex_n n 0 = zeros n) as ->.
  { induction n as [|n IH]; [done|]. cbn [hex_n]. change (0 / 16)%Z with 0%Z. rewrite IH. clear.
    induction n as [|n IH]; [done|]. cbn [zeros]. by rewrite append_cons, IH. }
  induction n as [|n IH]; [done|]. cbn [zeros]. rewrite append_cons, drop_zeros_cons; [done|]. by destruct n.
Qed.

(** The digits of a number are its [n] digits without leading zeros. *)
Lemma digits_base_hex n fuel z acc :
  (0 <= z < 16 ^ Z.of_nat (S n))%Z -> ((n < fuel)%nat \/ (z < 16 ^ Z.of_nat fuel)%Z) -> (0 < fuel)%nat ->
  digits_base fuel 16 z acc = drop_zeros (hex_n (S n) z) +++ acc.
Proof.
  revert fuel z acc. induction n as [|n IH]; intros fuel z acc Hz Hf Hp; (destruct fuel as [|fuel]; [lia|]); cbn [digits_base].
  - change (16 ^ Z.of_nat 1)%Z with 16%Z in Hz. rewrite hex_n_small, (Z.mod_small z) by lia.
    by rewrite (proj2 (Z.ltb_lt z 16)) by lia.
  - destruct (Z.ltb_spec z 16) as [Hs|Hs]; [by rewrite hex_n_small, Z.mod_small by lia|].
    rewrite (Nat2Z.inj_succ (S n)), Z.pow_succ_r in Hz by lia.
    rewrite (Nat2Z.inj_succ fuel), Z.pow_succ_r in Hf by lia.
    assert (0 < z / 16)%Z by (apply Z.div_str_pos; lia).
    assert (z / 16 < 16 ^ Z.of_nat (S n))%Z by (apply Z.div_lt_upper_bound; lia).
    assert (Hfu : (0 < fuel)%nat). { destruct fuel; [|lia]. cbn in Hf. lia. }
    rewrite IH; [|lia| |exact Hfu].
    + change (hex_n (S (S n)) z) with (hex_n (S n) (z / 16) +++ String (digit_char (z mod 16)) "").
      rewrite drop_zeros_app by (apply hex_n_nonzero; lia). by rewrite append_assoc.
    + destruct Hf as [Hf|Hf]; [left; lia|right; apply Z.div_lt_upper_bound; lia].
Qed.

Lemma hexlify_hex_n l : Forall (in_width 8) l -> Info.hexlify l = hex_n (2 * length l) (digits 8 l).
Proof.
  intros Hl. induction l as [|d l IH] using rev_ind; [done|].
  apply Forall_app in Hl as [Hl [Hd _]%Forall_cons]. unfold in_width in Hd. change (2 ^ 8)%Z with 256%Z in Hd.
  rewrite length_app, digits_snoc. cbn [length]. replace (2 * (length l + 1))%nat with (S (S (2 * length l))) by lia.
  cbn [hex_n]. change (2 ^ 8)%Z with 256%Z.
  assert (E : ((digits 8 l * 256 + d) / 16 = digits 8 l * 16 + d / 16)%Z).
  { replace (digits 8 l * 256 + d)%Z with ((digits 8 l * 16) * 16 + d)%Z by lia. by rewrite Z.div_add_l by lia. }
  assert (0 <= d / 16 < 16)%Z by (split; [apply Z.div_pos; lia|apply Z.div_lt_upper_bound; lia]).
  rewrite E, Z.div_add_l, (Z.div_small (d / 16)), Z.add_0_r by lia.
  replace ((digits 8 l * 16 + d / 16) mod 16)%Z with (d / 16)%Z by (rewrite Z.add_comm, Z.mod_add, Z.mod_small by lia; lia).
  replace ((digits 8 l * 256 + d) mod 16)%Z with (d mod 16)%Z
    by (replace (digits 8 l * 256 + d)%Z with (d + (digits 8 l * 16) * 16)%Z by lia; by rewrite Z.mod_add by lia).
  rewrite <- IH by done. unfold Info.hexlify. rewrite foldr_app. cbn [foldr]. clear.
  induction l as [|e l IH]; [done|]. cbn [foldr]. rewrite IH, !append_cons. done.
Qed.

(** Of the commit in the register the tools show the digits without
    leading zeros: a commit whose name begins with zeros is shown shorter than
    it is. *)
Theorem commit_shown (h : string) (Hl : String.length h = 40%nat)
    (Hh : Forall Info.lower_hex (String.list_ascii_of_string h)) :
  exists v, Info.GitInfo (h +++ newline) = Ok v /\ get_git (Some v) = drop_zeros h.
Proof.
  destruct (Info.git_commit_digits h Hl Hh) as (l & E & Hm & Hf & <-). eexists. split; [exact E|].
  pose proof (digits_range 8 l ltac:(lia) Hf) as [Hr0 Hr].
  unfold get_git, hex. rewrite (proj2 (Z.ltb_ge _ 0)) by lia. cbn [sdrop String.append]. unfold to_base.
  rewrite hexlify_hex_n, Hm by done. rewrite (digits_base_hex 39); [by rewrite append_nil_r| | |lia].
  - split; [lia|]. rewrite Hm in Hr. exact Hr.
  - right. set (v := digits 8 l) in *. rewrite Nat2Z.inj_succ, Z2Nat.id by apply Z.log2_nonneg.
    destruct (Z.eq_dec v 0) as [->|]; [done|]. pose proof (Z.log2_spec v ltac:(lia)) as [_ H].
    eapply Z.lt_le_trans; [exact H|]. apply Z.pow_le_mono_l. lia.
Qed.

Lemma commit_shown_witness :
  exists v, Info.GitInfo ("00112233445566778899aabbccddeeff01234567" +++ newline) = Ok v /\
    get_git (Some v) = "112233445566778899aabbccddeeff01234567".
Proof.
  destruct (commit_shown "00112233445566778899aabbccddeeff01234567" eq_refl) as (v & E & R).
  - repeat (apply Forall_cons; split; [eexists; split_and!; [reflexivity | reflexivity | done | done]|]). constructor.
  - exists v. split; [exact E | exact R].
Defined.

(** *** Comparing the flash *)

Section compare.
Context {RC : Remote}.

(** The byte at an address: words are big-endian. *)
Definition byte_at (a : Z) : Z := nth (Z.to_nat (a mod 4)) (pack_be (word_at (a - a mod 4))) 0%Z.

(** The whole report, byte by byte. *)
Definition byte_report (start : Z) (file : list Z) (j : nat) : list item :=
  let a := (start + Z.of_nat j)%Z in
  let e := nth j file 0%Z in
  app (if a mod 8 =? 0 then [Head a] else [])%Z
      (if e =? byte_at a then [Same] else [Differ a e (byte_at a)])%Z.

Lemma length_pack_be d : length (pack_be d) = 4%nat.
Proof using. unfold pack_be, to_digits. by rewrite length_fmap, length_seq. Qed.

(** Reading words and packing them gives the bytes. *)
Lemma nth_packed (f : nat -> Z) n i :
  (i < 4 * n)%nat -> nth i (mbind pack_be (f <$> seq 0 n)) 0%Z = nth (i mod 4) (pack_be (f (i / 4)%nat)) 0%Z.
Proof using.
  assert (H : forall m k, (i < 4 * m)%nat ->
            nth i (mbind pack_be (f <$> seq k m)) 0%Z = nth (i mod 4) (pack_be (f (k + i / 4)%nat)) 0%Z).
  2: { intros Hi. by rewrite (H n 0%nat Hi). }
  clear n. intros m. revert i. induction m as [|m IH]; intros i k Hi; [lia|]. cbn [seq fmap list_fmap mbind list_bind].
  destruct (decide (i < 4)%nat) as [Hs|Hs].
  - rewrite app_nth1 by (by rewrite length_pack_be). rewrite Nat.mod_small, Nat.div_small, Nat.add_0_r by done. done.
  - rewrite app_nth2, length_pack_be by (rewrite length_pack_be; lia). fold (mbind (M := list) pack_be).
    replace i with (i - 4 + 1 * 4)%nat at 2 3 by lia. rewrite Nat.Div0.mod_add, Nat.div_add by lia.
    replace (k + ((i - 4) / 4 + 1))%nat with (S k + (i - 4) / 4)%nat by lia. apply IH. lia.
Qed.

Lemma read_byte start n i :
  (start mod 4 = 0)%Z -> (i < 4 * n)%nat ->
  nth i (mbind pack_be (read start n)) 0%Z = byte_at (start + Z.of_nat i).
Proof using.
  intros Hs Hi. rewrite read_words, nth_packed by done. unfold byte_at.
  pose proof (Nat.div_mod_eq i 4). pose proof (Nat.mod_upper_bound i 4 ltac:(lia)).
  assert (E : ((start + Z.of_nat i) mod 4 = Z.of_nat (i mod 4))%Z).
  { rewrite <- Z.add_mod_idemp_l, Hs, Z.add_0_l by lia. by rewrite Nat2Z.inj_mod. }
  rewrite E, Nat2Z.id. do 3 f_equal. lia.
Qed.

Lemma compare_block start data j n i :
  (start mod 4 = 0)%Z -> (j mod 4 = 0)%nat -> (i < n)%nat ->
  compare_byte start data (mbind pack_be (read (start + Z.of_nat j) n)) j i = byte_report start data (j + i).
Proof using.
  intros Hs Hj Hi. unfold compare_byte, byte_report. rewrite read_byte; [|..|lia].
  - replace (Z.of_nat j + Z.of_nat i + start)%Z with (start + Z.of_nat (j + i))%Z by lia.
    by replace (start + Z.of_nat j + Z.of_nat i)%Z with (start + Z.of_nat (j + i))%Z by lia.
  - apply (f_equal Z.of_nat) in Hj. rewrite Nat2Z.inj_mod in Hj. rewrite <- Z.add_mod_idemp_l, Hs, Z.add_0_l by lia. exact Hj.
Qed.

Lemma mbind_seq_ext {A} (f g : nat -> list A) k n :
  (forall i, (k <= i < k + n)%nat -> f i = g i) -> mbind f (seq k n) = mbind g (seq k n).
Proof using.
  revert k. induction n as [|n IH]; intros k H; [done|]. cbn [seq mbind list_bind]. rewrite H by lia.
  f_equal. apply IH. intros i Hi. apply H. lia.
Qed.

Lemma mbind_seq_shift {A} (f : nat -> list A) j n : mbind (fun i => f (j + i)%nat) (seq 0 n) = mbind f (seq j n).
Proof using.
  revert j. enough (H : forall k j, mbind (fun i => f (j + i)%nat) (seq k n) = mbind f (seq (j + k) n)).
  { intros j. by rewrite H, Nat.add_0_r. }
  induction n as [|n IH]; intros k j; [done|]. cbn [seq mbind list_bind]. f_equal.
  rewrite <- Nat.add_succ_r. apply IH.
Qed.

Lemma cmp_loop_report start data fuel j :
  (start mod 4 = 0)%Z -> (j mod 4 = 0)%nat -> (length data <= j + 64 * fuel)%nat ->
  cmp_loop fuel start data j = Some (mbind (byte_report start data) (seq j (length data - j))).
Proof using.
  intros Hs. revert j. induction fuel as [|fuel IH]; intros j Hj Hf; cbn [cmp_loop].
  - destruct (Nat.ltb_spec j (length data)); [lia|]. by replace (length data - j)%nat with 0%nat by lia.
  - destruct (Nat.ltb_spec j (length data)) as [Hlt|]; [|by replace (length data - j)%nat with 0%nat by lia].
    unfold BLOCK_SIZE. rewrite IH; [|by rewrite (Nat.Div0.add_mod j 64 4), Hj|lia].
    set (n := Nat.min 64 (length data - j)). cbn [mbind option_bind].
    replace (length data - j)%nat with (n + (length data - (j + 64)))%nat by lia.
    rewrite seq_app, bind_app. f_equal. f_equal.
    + rewrite <- (mbind_seq_shift (byte_report start data) j n). apply mbind_seq_ext. intros i Hi. by apply compare_block; [..|lia].
    + unfold n. destruct (Nat.le_gt_cases 64 (length data - j)) as [Hle|Hgt].
      * by rewrite Nat.min_l by done.
      * by replace (length data - (j + 64))%nat with 0%nat by lia.
Qed.
End compare.

(** Claim C31: [cmpflash] terminates and reports every byte of the file from
    [skip] on, at most [max] of them, exactly once and in order: a dot where
    memory holds the file's byte, both values where it does not, the address at
    every eighth. It refuses a [skip] that is not a multiple of four. *)
Theorem cmpflash_report {RC : Remote} (start : Z) (file : list Z) (skip max : nat) (Hs : (start mod 4 = 0)%Z) :
  cmpflash start file skip max =
  if (skip mod 4 =? 0)%nat
  then Ok (Some (mbind (byte_report start file) (seq skip (Nat.min (skip + max) (length file) - skip))))
  else Raise AssertionError.
Proof.
  unfold cmpflash. destruct (Nat.eqb_spec (skip mod 4) 0) as [Hk|]; [|done]. cbn [py_assert mbind result_bind].
  rewrite cmp_loop_report by (done || lia). rewrite length_take. do 2 f_equal. apply mbind_seq_ext.
  intros j Hj. unfold byte_report. f_equal. rewrite !nth_lookup, lookup_take_lt by lia. done.
Qed.

(** Memory whose word at address [a] is [a]. *)
Lemma address_width a : in_width 32 (wrap 32 a).
Proof. by apply wrap_range. Qed.

Definition address_memory : Remote := {|
  read start n := (fun k => wrap 32 (start + 4 * Z.of_nat k)) <$> seq 0 n; word_at a := wrap 32 a;
  word_width := address_width; read_words _ _ := eq_refl |}.

Lemma cmpflash_report_witness :
  cmpflash (RC := address_memory) 0 [0; 0; 0; 0; 0; 0; 0; 5; 0]%Z 4 1024 =
  Ok (Some [Same; Same; Same; Differ 7 5 4; Head 8; Same])%Z.
Proof. rewrite (@cmpflash_report address_memory) by done. vm_compute. reflexivity. Defined.

(** *** The check of the register map *)

Definition loc_le (a b : entry) : Prop := (loc a <= loc b)%Z.

Lemma entry_leb_loc a b : entry_leb a b = true -> loc_le a b.
Proof. unfold entry_leb, loc_le. destruct (Z.ltb_spec (loc a) (loc b)), (Z.eqb_spec (loc a) (loc b)); try done; lia. Qed.

Lemma entry_leb_not a b : entry_leb a b = false -> loc_le b a.
Proof. unfold entry_leb, loc_le. destruct (Z.ltb_spec (loc a) (loc b)); [done|]. lia. Qed.

Lemma entry_insert_perm a l : entry_insert a l ≡ₚ a :: l.
Proof.
  induction l as [|b l IH]; [done|]. cbn [entry_insert]. destruct (entry_leb a b); [done|].
  rewrite IH. by apply Permutation_swap.
Qed.

Lemma sort_map_perm l : sort_map l ≡ₚ l.
Proof. induction l as [|a l IH]; [done|]. cbn. fold (sort_map l). rewrite entry_insert_perm. by constructor. Qed.

Lemma entry_insert_sorted a l : StronglySorted loc_le l -> StronglySorted loc_le (entry_insert a l).
Proof.
  intros H. induction H as [|b l Hl IH Hb]; [by repeat constructor|]. cbn [entry_insert].
  destruct (entry_leb a b) eqn:E.
  - apply entry_leb_loc in E. constructor; [by constructor|]. constructor; [done|].
    eapply Forall_impl; [exact Hb|]. unfold loc_le in *. lia.
  - apply entry_leb_not in E. constructor; [done|]. rewrite entry_insert_perm. by constructor.
Qed.

Lemma sort_map_sorted l : StronglySorted loc_le (sort_map l).
Proof. induction l as [|a l IH]; [constructor|]. by apply entry_insert_sorted. Qed.

(** No two registers share an address: the check of neighbours is enough. *)
Definition disjoint (a b : entry) : Prop := (loc a + 4 * size a <= loc b)%Z.

Lemma check_map_spec m out :
  StronglySorted loc_le m -> check_map m = Ok out ->
  StronglySorted disjoint m /\ Forall (fun a => loc a < csr_limit)%Z (take (length m - 1) m).
Proof.
  revert out. induction m as [|a [|b m] IH]; intros out Hs H; [split; constructor|by repeat constructor|].
  apply StronglySorted_inv in Hs as [Hs Ha]. change (check_map (a :: b :: m)) with
    (py_assert (loc a + size a * 4 <=? loc b)%Z;; py_assert (loc a <? csr_limit)%Z;; rest ← check_map (b :: m);
     Ok ((fmt_x (loc a) +++ " " +++ str_Z (size a) +++ " " +++ name a) :: rest)) in H.
  apply bind_ok in H as (u & Hd%py_assert_ok%Z.leb_le & H).
  apply bind_ok in H as (u' & Hl%py_assert_ok%Z.ltb_lt & H).
  apply bind_ok in H as (rest & Hr & _). destruct (IH rest Hs Hr) as [Hds Hlim].
  split.
  - constructor; [done|]. constructor; [unfold disjoint; lia|]. apply StronglySorted_inv in Hs as [_ Hb].
    eapply Forall_impl; [exact Hb|]. unfold loc_le, disjoint. lia.
  - cbn [length]. replace (S (S (length m)) - 1)%nat with (S (length m)) by lia. cbn [take]. constructor; [done|].
    cbn [length] in Hlim. by replace (S (length m) - 1)%nat with (length m) in Hlim by lia.
Qed.

(** The dictionary holds, for a base, the sizes attributed to it. *)
Definition values_of {V} (k : string) (l : list (string * V)) : list V :=
  snd <$> base.filter (fun kv => fst kv = k) l.

Definition lookup_list {V} (k : string) (d : list (string * list V)) : list V := default [] (getitem d k).

Lemma lookup_append_at {V} k k' (v : V) d :
  lookup_list k (append_at k' v d) = app (lookup_list k d) (if String.eqb k k' then [v] else []).
Proof.
  unfold lookup_list. induction d as [|[k0 l] d IH]; cbn [append_at getitem].
  - destruct (String.eqb k k'); done.
  - destruct (String.eqb_spec k' k0) as [<-|Hn]; cbn [getitem].
    + destruct (String.eqb k k'); [done|]. by rewrite app_nil_r.
    + destruct (String.eqb_spec k k0) as [->|]; [|exact IH].
      destruct (String.eqb_spec k0 k') as [->|]; [done|]. by rewrite app_nil_r.
Qed.

Lemma lookup_group {V} k (l : list (string * V)) : lookup_list k (group l) = values_of k l.
Proof.
  unfold group. enough (H : forall d, lookup_list k (fold_left (fun d kv => append_at (fst kv) (snd kv) d) l d) =
                           app (lookup_list k d) (values_of k l)) by apply H.
  induction l as [|[k' v] l IH]; intros d; [by rewrite app_nil_r|]. cbn [fold_left fst snd].
  rewrite IH, lookup_append_at, <- app_assoc. f_equal. unfold values_of. rewrite filter_cons. cbn [fst].
  destruct (String.eqb_spec k k') as [->|Hn]; destruct (decide (k' = _)) as [E|]; (done || congruence).
Qed.

Lemma try_map_all {A B} (f : A -> result B) l out x : try_map f l = Ok out -> In x l -> exists y, f x = Ok y.
Proof.
  revert out. induction l as [|a l IH]; intros out H Hx; [done|]. cbn [try_map] in H.
  apply bind_ok in H as (y & Hy & H). apply bind_ok in H as (ys & Hys & _).
  destruct Hx as [->|Hx]; [by exists y|]. by apply (IH ys).
Qed.

(** Claim C32: a register map that passes the check: no two registers share an
    address, although only neighbours in the sorted list are compared; every
    register but the one with the highest address starts below the end of the
    CSR space, 0xe0010000 (where it ends, and whether it starts below
    the CSR space, is not checked: [low_unchecked]); and no base has 200 words or
    more attributed to it. *)
Theorem csrs_checked (data : list row) (out : list string) (H : check_csrs data = Ok out) :
  exists bases reg_rows mem_map,
    select "csr_register" data = Ok reg_rows /\ try_map mem_entry reg_rows = Ok mem_map /\
    exists m, m ≡ₚ mem_map /\ StronglySorted disjoint m /\
      Forall (fun a => loc a < csr_limit)%Z (take (length m - 1) m) /\
      (mem_map <> [] -> exists base_rows, select "csr_base" data = Ok base_rows /\ try_map base_name base_rows = Ok bases) /\
      forall b, (total (values_of b (attributed bases mem_map)) < 200)%Z.
Proof.
  unfold check_csrs in H. apply bind_ok in H as (base_rows & Hb & H). apply bind_ok in H as (reg_rows & Hr & H).
  apply bind_ok in H as (mem_map & Hm & H). apply bind_ok in H as (printed & Hp & H).
  apply bind_ok in H as (bases & Hn & H). apply bind_ok in H as (sums & Hs & _).
  exists bases, reg_rows, mem_map. split; [done|]. split; [done|]. exists (sort_map mem_map).
  destruct (check_map_spec _ _ (sort_map_sorted mem_map) Hp) as [Hd Hl].
  split; [apply sort_map_perm|]. split; [done|]. split; [done|]. split.
  - intros Hne. exists base_rows. split; [done|]. by destruct mem_map.
  - intros b. rewrite <- lookup_group. unfold lookup_list.
    destruct (getitem (group (attributed bases mem_map)) b) as [l|] eqn:E; [|done]. cbn [default].
    apply getitem_in in E. destruct (try_map_all _ _ _ (b, l) Hs) as [y Hy].
    { apply list_elem_of_In. rewrite sorted_items_perm. by apply list_elem_of_In. }
    unfold check_base in Hy. cbn [fst snd] in Hy. by apply bind_ok in Hy as (u & Hu%py_assert_ok%Z.ltb_lt & _).
Qed.

(** Two registers of a UART and one of the LEDs, out of order. *)
Definition demo_rows : list row := [
  ["csr_base"; "leds"; "0xe0001000"; ""; ""]; ["csr_base"; "uart"; "0xe0000800"; ""; ""];
  ["csr_register"; "leds_out"; "0xe0001000"; "4"; "rw"];
  ["csr_register"; "uart_rxtx"; "0xe0000800"; "1"; "rw"];
  ["csr_register"; "uart_txfull"; "0xe0000804"; "1"; "ro"];
  ["constant"; "csr_data_width"; "8"; ""; ""]].

Lemma csrs_checked_witness :
  check_csrs demo_rows = Ok ["e0000800 1 uart_rxtx"; "e0000804 1 uart_txfull"; "leds 4"; "uart 2"] /\
  exists m, m ≡ₚ [Entry 0xe0001000 4 "leds_out"; Entry 0xe0000800 1 "uart_rxtx"; Entry 0xe0000804 1 "uart_txfull"] /\
    StronglySorted disjoint m.
Proof.
  assert (E : check_csrs demo_rows = Ok ["e0000800 1 uart_rxtx"; "e0000804 1 uart_txfull"; "leds 4"; "uart 2"])
    by (vm_compute; reflexivity).
  split; [exact E|].
  destruct (csrs_checked demo_rows _ E) as (bases & regs & mm & Hr & Hm & m & Hp & Hd & _).
  exists m. split; [|exact Hd]. vm_compute in Hr. injection Hr as <-. vm_compute in Hm. injection Hm as <-. exact Hp.
Defined.

(** The register with the highest address is not held against the limit of the
    CSR space. *)
Example last_unchecked :
  is_ok (check_csrs [["csr_register"; "a"; "0xf0000000"; "1"; "rw"]]) = true /\
  is_ok (check_csrs [["csr_register"; "a"; "0xf0000000"; "1"; "rw"]; ["csr_register"; "b"; "0xf0000004"; "1"; "rw"]]) = false.
Proof. vm_compute. done. Qed.

(** Addresses below the CSR space pass, and so does a register that reaches
    beyond its end. *)
Example low_unchecked :
  is_ok (check_csrs [["csr_register"; "a"; "0x0"; "1"; "rw"]; ["csr_register"; "b"; "0xe000fffc"; "2"; "rw"];
                     ["csr_register"; "c"; "0xe0010004"; "1"; "rw"]]) = true.
Proof. vm_compute. done. Qed.

(** *** Writing a picture, saving the ROM *)

(** The single words a write of several stands for. *)
Definition word_writes (w : Z * list Z) : list (Z * Z) := imap (fun k d => (fst w + 4 * Z.of_nat k, d)%Z) (snd w).

(** The picture arrives: whatever the batch size, word [i] of the
    data is written to the [i]-th word of the buffer, each once and in order. *)
Theorem picture_written (base : Z) (data : list Z) (b : nat) (Hb : (0 < b)%nat) :
  mbind word_writes (send_int32_data base data b) = imap (fun i d => (base + 4 * Z.of_nat i, d)%Z) data.
Proof.
  enough (H : forall fuel pos, (length data <= pos + fuel)%nat ->
    mbind word_writes (batches fuel b pos base data) =
    imap (fun i d => (base + 4 * Z.of_nat (pos + i), d)%Z) (drop pos data)) by (unfold send_int32_data; by rewrite (H (length data) 0%nat)).
  induction fuel as [|fuel IH]; intros pos Hf; cbn [batches].
  - by rewrite drop_ge by lia.
  - destruct (Nat.ltb_spec pos (length data)) as [Hlt|Hge]; [|by rewrite drop_ge].
    cbn [mbind list_bind]. rewrite IH by lia. rewrite <- (take_drop b (drop pos data)) at 2. rewrite imap_app, drop_drop.
    f_equal.
    + unfold word_writes. cbn [fst snd]. apply imap_ext. intros k d _. cbn. f_equal. lia.
    + destruct (Nat.le_gt_cases b (length (drop pos data))) as [Hle|Hgt].
      * rewrite length_take, Nat.min_l by done. apply imap_ext. intros k d _. cbn. f_equal. lia.
      * rewrite drop_ge by (rewrite length_drop in Hgt; lia). done.
Qed.

Lemma picture_written_witness : mbind word_writes (send_int32_data 0x100 [7; 8; 9]%Z 2) = [(0x100, 7); (0x104, 8); (0x108, 9)]%Z.
Proof. exact (picture_written 0x100 [7; 8; 9]%Z 2 ltac:(lia)). Defined.

(** The saved ROM is the memory from address 0, byte by byte. *)
Lemma length_packed l : length (mbind pack_be l) = (4 * length l)%nat.
Proof.
  induction l as [|d l IH]; [done|]. cbn [mbind list_bind]. rewrite length_app, length_pack_be.
  fold (mbind (M := list) pack_be). rewrite IH. cbn [length]. lia.
Qed.

Lemma dump_words {RC : Remote} : dump = read 0 (64 * words_per_packet).
Proof.
  unfold dump. assert ((dump_size / (words_per_packet * 4))%nat = 64%nat) as ->
    by (symmetry; apply (Nat.div_unique _ _ _ 0); unfold dump_size, words_per_packet; lia).
  rewrite read_words.
  enough (H : forall m k, mbind (fun n => read (rom_base + Z.of_nat (n * words_per_packet * 4)) words_per_packet) (seq k m) =
    (fun k => word_at (0 + 4 * Z.of_nat k)) <$> seq (k * words_per_packet) (m * words_per_packet)) by exact (H 64%nat 0%nat).
  induction m as [|m IH]; intros k; [done|]. cbn [seq mbind list_bind].
  replace (S m * words_per_packet)%nat with (words_per_packet + m * words_per_packet)%nat by lia.
  rewrite seq_app, fmap_app. f_equal.
  - rewrite read_words. replace (seq (k * words_per_packet) words_per_packet) with (Nat.add (k * words_per_packet) <$> seq 0 words_per_packet)
      by (by rewrite fmap_add_seq, Nat.add_0_r).
    rewrite <- list_fmap_compose.
    apply list_fmap_ext. intros i x _. unfold compose. f_equal. unfold rom_base. lia.
  - replace (k * words_per_packet + words_per_packet)%nat with (S k * words_per_packet)%nat by lia. apply IH.
Qed.

Lemma rom_dumped {RC : Remote} : dump_file = (fun i => byte_at (Z.of_nat i)) <$> seq 0 dump_size.
Proof.
  unfold dump_file. rewrite dump_words. set (n := (64 * words_per_packet)%nat).
  assert (Hn : dump_size = (4 * n)%nat) by (unfold n, dump_size, words_per_packet; lia). rewrite Hn. clearbody n.
  apply (nth_ext _ _ 0%Z 0%Z).
  - by rewrite length_packed, read_words, !length_fmap, !length_seq.
  - intros i Hi. rewrite length_packed, read_words, length_fmap, length_seq in Hi.
    rewrite read_byte by done. rewrite (nth_lookup (_ <$> _)), list_lookup_fmap, lookup_seq_lt by done. done.
Qed.
