(* ===== verification/LoadPattern.v ===== *)
(** * Sending pictures to the pattern buffer ([test/load_pattern.py])

    [HostTools] has the writing of one picture; this file the rest of the script:
    where the buffer is, the conversion with GStreamer, and the frames one after
    the other. The shell, the files it leaves and [eval] are inputs. *)
From S2P Require Import Prelude PyStr.
From S2P Require HostTools.
#[local] Open Scope Z_scope.
#[local] Open Scope string_scope.

(** The arguments that the script reads, after its own defaults. *)
Record Args := { file : string; pattern_offset : option string; pattern : option string }.

Definition default_file : string := "third_party/litevideo/litevideo/csc/test/lena.png".
Definition default_args : Args := {| file := default_file; pattern_offset := None; pattern := None |}.

(** ** Where the pattern buffer is *)

Definition define : string := "#define PATTERN_FRAMEBUFFER_BASE ".

(** The loop over the lines of firmware/pattern.c; [eval] is Python's. *)
Fixpoint find_offset (eval : string -> result Z) (offset : Z) (lines : list string) : result Z :=
  match lines with
  | [] => Ok offset
  | l :: lines =>
      if negb (startswith l define) then find_offset eval offset lines
      else offset ← eval (cut_end 1 (sdrop (String.length define) l)); find_offset eval offset lines
  end.

(** An offset from the command line is a string, which Python does not add to a
    number. *)
Definition pattern_mem (eval : string -> result Z) (main_ram : Z) (args : Args) (pattern_c : list string) : result Z :=
  match pattern_offset args with
  | Some _ => Raise TypeError
  | None =>
      offset ← find_offset eval 0 pattern_c;
      _ ← py_assert (negb (offset =? 0)%Z);
      Ok (main_ram + offset)%Z
  end.

(** ** The conversion *)

Definition dquote : string := String (ascii_of_nat 34) EmptyString.

(** [resolve] is [realpath] of [expanduser]. *)
Definition source (resolve : string -> string) (exists_ : string -> bool) (args : Args) : result string :=
  if otruthy (pattern args) then Ok ("videotestsrc pattern=" +++ default "" (pattern args) +++ " num-buffers=5")
  else
    let infile := resolve (file args) in
    _ ← py_assert (exists_ infile);
    Ok ("filesrc location=" +++ infile +++ " ! decodebin ! videoscale").

Definition pipeline (src : string) (width height : Z) (tempdir : string) : string :=
  newline +++ "gst-launch-1.0 -v     " +++ src +++ " !     videoconvert !     video/x-raw,format=UYVY,height=" +++
  str_Z height +++ ",width=" +++ str_Z width +++ ",colorimetry=1:4:0:0 !     multifilesink location=" +++
  dquote +++ tempdir +++ "/%05d.yuv422.raw" +++ dquote +++ " max-files=" +++ str_Z 1024 +++ newline.

(** ** The frames *)

(** [numpy.fromfile(f, '>4I').flat]: big-endian words, four at a time; what is
    left of the file is dropped. *)
Fixpoint words_of (n : nat) (bytes : list Z) : list Z :=
  match n with
  | O => []
  | S n => digits 8 (take 4 bytes) :: words_of n (drop 4 bytes)
  end.

Definition frame_words (bytes : list Z) : list Z := words_of (4 * (length bytes / 16)) bytes.

Inductive act := Run (command : string) | Write (address : Z) (words : list Z) | Sleep.

Definition send_frame (mem : Z) (bytes : list Z) : list act :=
  (fun aw => Write (fst aw) (snd aw)) <$> HostTools.send_int32_data mem (frame_words bytes) 128.

(** One frame after the other, with a pause between two. *)
Fixpoint send_frames (mem : Z) (frames : list (list Z)) : list act :=
  match frames with
  | [] => []
  | [f] => send_frame mem f
  | f :: frames => (send_frame mem f ++ Sleep :: send_frames mem frames)%list
  end.

(** [frames]: the files that the command leaves in the new directory, in the
    order in which it lists them. *)
Definition main (eval : string -> result Z) (resolve : string -> string) (exists_ : string -> bool)
    (main_ram width height : Z) (args : Args) (pattern_c : list string) (tempdir : string) (frames : list (list Z))
    : result (list act) :=
  mem ← pattern_mem eval main_ram args pattern_c;
  src ← source resolve exists_ args;
  _ ← py_assert (0 <? length frames)%nat;
  Ok (Run (pipeline src width height tempdir) :: send_frames mem frames).

(** ** Theorems *)

(** What a list of actions writes, word by word. *)
Definition act_words (a : act) : list (Z * Z) := match a with Write w ws => HostTools.word_writes (w, ws) | _ => [] end.

Definition frame_at (mem : Z) (bytes : list Z) : list (Z * Z) := imap (fun i d => (mem + 4 * Z.of_nat i, d)%Z) (frame_words bytes).

Lemma length_words_of n bytes : length (words_of n bytes) = n.
Proof. revert bytes. induction n as [|n IH]; intros bytes; [done|]. cbn [words_of length]. by rewrite IH. Qed.

Lemma words_of_bytes n bytes : length bytes = (4 * n)%nat -> Forall (in_width 8) bytes ->
  mbind HostTools.pack_be (words_of n bytes) = bytes.
Proof.
  revert bytes. induction n as [|n IH]; intros bytes Hl Hb; [by destruct bytes|].
  cbn [words_of mbind list_bind]. rewrite IH; [|rewrite length_drop; lia|by apply Forall_drop].
  unfold HostTools.pack_be. replace 4%nat with (length (take 4 bytes)) at 1 by (rewrite length_take; lia).
  rewrite to_digits_digits by (lia || by apply Forall_take). apply take_drop.
Qed.

(** A whole number of groups of four words is sent byte by byte. *)
Lemma frame_bytes bytes k : length bytes = (16 * k)%nat -> Forall (in_width 8) bytes ->
  mbind HostTools.pack_be (frame_words bytes) = bytes.
Proof.
  intros Hl Hb. unfold frame_words. replace (length bytes / 16)%nat with k by (rewrite Hl, (Nat.mul_comm 16), Nat.div_mul; lia).
  apply words_of_bytes; [lia | done].
Qed.

Lemma send_frame_words mem f : send_frame mem f ≫= act_words = frame_at mem f.
Proof.
  unfold send_frame. rewrite list_fmap_bind. unfold frame_at. rewrite <- (HostTools.picture_written mem (frame_words f) 128) by lia.
  apply list_bind_ext; [|done]. by intros [a ws].
Qed.

Lemma send_frames_words mem frames : send_frames mem frames ≫= act_words = frames ≫= frame_at mem.
Proof.
  induction frames as [|f frames IH]; [done|]. destruct frames as [|g frames].
  - cbn [send_frames]. by rewrite send_frame_words, bind_cons, app_nil_r.
  - change (send_frames mem (f :: g :: frames)) with (send_frame mem f ++ Sleep :: send_frames mem (g :: frames))%list.
    rewrite bind_app, send_frame_words, !bind_cons, IH. done.
Qed.

Definition is_sleep (a : act) : bool := match a with Sleep => true | _ => false end.

Lemma send_frames_pauses mem frames : length (List.filter is_sleep (send_frames mem frames)) = (length frames - 1)%nat.
Proof.
  assert (Hs : forall f, List.filter is_sleep (send_frame mem f) = []).
  { intros f. unfold send_frame. by induction (HostTools.send_int32_data mem (frame_words f) 128). }
  induction frames as [|f frames IH]; [done|]. destruct frames as [|g frames]; [cbn [send_frames]; by rewrite Hs|].
  change (send_frames mem (f :: g :: frames)) with (send_frame mem f ++ Sleep :: send_frames mem (g :: frames))%list.
  rewrite List.filter_app, Hs. cbn [app List.filter is_sleep length]. rewrite IH. cbn [length]. lia.
Qed.

Lemma offset_absent eval o lines : Forall (fun l => startswith l define = false) lines -> find_offset eval o lines = Ok o.
Proof. induction 1 as [|l lines Hl _ IH]; [done|]. cbn [find_offset]. by rewrite Hl. Qed.

Section main.
Context (eval : string -> result Z) (resolve : string -> string) (exists_ : string -> bool)
  (main_ram width height : Z) (tempdir : string).

(** Without a definition of the offset in firmware/pattern.c, which has none any
    more, the script stops before it converts anything, whatever its arguments. *)
Theorem needs_definition args pattern_c frames :
  Forall (fun l => startswith l define = false) pattern_c ->
  main eval resolve exists_ main_ram width height args pattern_c tempdir frames =
  Raise (match pattern_offset args with Some _ => TypeError | None => AssertionError end).
Proof using Type.
  intros H. unfold main, pattern_mem. destruct (pattern_offset args); [done|]. by rewrite offset_absent.
Qed.

(** With one, the frames are written to the pattern buffer in the order of the
    directory, word by word and each from its start, with a pause between two;
    the command runs first. *)
Theorem frames_sent args pattern_c frames offset src :
  pattern_offset args = None -> find_offset eval 0 pattern_c = Ok offset -> offset <> 0%Z ->
  source resolve exists_ args = Ok src -> frames <> [] ->
  exists acts, main eval resolve exists_ main_ram width height args pattern_c tempdir frames =
      Ok (Run (pipeline src width height tempdir) :: acts) /\
    acts ≫= act_words = frames ≫= frame_at (main_ram + offset) /\
    length (List.filter is_sleep acts) = (length frames - 1)%nat.
Proof using Type.
  intros Ha Hf Ho Hs Hne. exists (send_frames (main_ram + offset) frames). split; [|split; [apply send_frames_words|apply send_frames_pauses]].
  unfold main, pattern_mem. rewrite Ha, Hf. cbn [mbind result_bind]. rewrite (proj2 (Z.eqb_neq offset 0) Ho). cbn [negb py_assert].
  rewrite Hs. by destruct frames.
Qed.
End main.

(** One frame of four words. *)
Lemma frames_sent_witness :
  exists acts, main (fun _ => Ok 0x800000%Z) (fun f => f) (fun _ => true) 0x40000000 1280 720 default_args
      [define +++ "0x00800000" +++ newline] "/tmp/x" [[0; 0; 0; 1; 0; 0; 0; 2; 0; 0; 0; 3; 0; 0; 0; 4]%Z] = Ok acts /\
    acts ≫= act_words = [(0x40800000, 1); (0x40800004, 2); (0x40800008, 3); (0x4080000c, 4)]%Z.
Proof.
  destruct (frames_sent (fun _ => Ok 0x800000%Z) (fun f => f) (fun _ => true) 0x40000000 1280 720 "/tmp/x" default_args
    [define +++ "0x00800000" +++ newline] [[0; 0; 0; 1; 0; 0; 0; 2; 0; 0; 0; 3; 0; 0; 0; 4]%Z] 0x800000
    ("filesrc location=" +++ default_file +++ " ! decodebin ! videoscale")
    eq_refl ltac:(vm_compute; reflexivity) ltac:(done) ltac:(vm_compute; reflexivity) ltac:(done)) as (acts & E & Hw & _).
  eexists. split; [exact E|]. rewrite bind_cons, Hw. vm_compute. reflexivity.
Defined.

Lemma needs_definition_witness :
  Forall (fun l => startswith l define = false) ["unsigned int pattern_framebuffer_base(void) {" +++ newline] /\
  main (fun _ => Ok 1%Z) (fun f => f) (fun _ => true) 0x40000000 1280 720 default_args
    ["unsigned int pattern_framebuffer_base(void) {" +++ newline] "/tmp/x" [] = Raise AssertionError.
Proof.
  assert (H : Forall (fun l => startswith l define = false) ["unsigned int pattern_framebuffer_base(void) {" +++ newline])
    by (repeat constructor).
  split; [exact H | exact (needs_definition _ _ _ 0x40000000 1280 720 "/tmp/x" default_args _ [] H)].
Defined.
