(* ===== verification/XilinxTrace.v ===== *)
(** * .travis/package-xilinx-filter-strace.py

    Which files of a Xilinx installation a build used, from a log of system
    calls in which the lines of concurrent processes are interleaved and calls
    are cut in two (unfinished, resumed). The file system is a parameter. *)
From S2P Require Import Prelude PyStr Paths.
From S2P Require LogFilter.
From stdpp Require Import gmap strings.
#[local] Open Scope string_scope.
#[local] Open Scope py_scope.
#[local] Set Warnings "-clear-no-such-hyp".

(** ** The system call log *)

(** A line is a process number, a blank and the call, with a mark when the
    kernel switched to another process in the middle. *)
Record line := Line { pid : string; call : string; unfinished : bool }.

Definition mark : string := " <unfinished ...>".

Definition is_digit (c : ascii) : bool := let n := nat_of_ascii c in ((48 <=? n) && (n <=? 57))%nat.

Fixpoint span_digits (s : string) : string * string :=
  match s with
  | String c s' => if is_digit c then let (d, r) := span_digits s' in (String c d, r) else ("", s)
  | EmptyString => ("", "")
  end.

(** The regular expression: digits, a blank, as little as possible, the mark
    or nothing, the end of the line. *)
Definition parse (rawline : string) : option line :=
  let raw := if endswith rawline newline then cut_end 1 rawline else rawline in
  match span_digits raw with
  | (EmptyString, _) => None
  | (p, String " " rest) =>
      Some (if endswith rest mark then Line p (cut_end (String.length mark) rest) true else Line p rest false)
  | _ => None
  end.

Section filter.
Context (prefix : string) (exists_ isdir : string -> bool).

(** [prefix.replace('/', '/+')]: every slash stands for one or more. The prefix
    is taken to have no characters special in regular expressions and no two
    slashes in a row. *)
Fixpoint skip_slashes (s : string) : string :=
  match s with String "/" s' => skip_slashes s' | _ => s end.

Fixpoint match_prefix (p s : string) : bool :=
  match p, s with
  | EmptyString, _ => true
  | String "/" p', String "/" s' => match_prefix p' (skip_slashes s')
  | String a p', String b s' => Ascii.eqb a b && match_prefix p' s'
  | String _ _, EmptyString => false
  end.

(** [re.search] of the prefix and more up to the next quote, behind a quote:
    the first piece between two quotes that begins so. *)
Fixpoint search_pieces (l : list string) : option string :=
  match l with
  | p :: ((_ :: _) as rest) => if match_prefix prefix p then Some p else search_pieces rest
  | _ => None
  end.

Definition search (s : string) : option string := search_pieces (tl (split_at LogFilter.quote s)).

(** [os.path.normpath], and one of two leading slashes off. *)
Definition normalise (p : string) : string :=
  let p := LogFilter.normpath p in if startswith p "//" then sdrop 1 p else p.

Record st := St {
  cmds : gmap string string; finished_cmds : gmap string string; waiting_on : gmap string string;
  files : gset string; last_pid : option string }.

Definition init : st := St ∅ ∅ ∅ ∅ None.

Definition getitem_or (e : exn) {A} (o : option A) : result A := match o with Some a => Ok a | None => Raise e end.

(** A process seen for the first time runs the command of its [execve], or
    that of the process of the line before. *)
Definition track (l : line) (s : st) : result (gmap string string) :=
  if bool_decide (last_pid s = Some (pid l)) then Ok (cmds s)
  else match cmds s !! pid l with
       | Some _ => Ok (cmds s)
       | None =>
           if contains (call l) "execve" then Ok (<[pid l := call l]> (cmds s))
           else
             last_command ← (match last_pid s with
                             | Some p => match cmds s !! p with
                                         | Some c => Ok c
                                         | None => getitem_or KeyError (finished_cmds s !! p)
                                         end
                             | None => Raise KeyError
                             end);
             Ok (<[pid l := last_command]> (cmds s))
       end.

(** The file a complete call uses. *)
Definition look (c : string) (s : st) : result st :=
  match search c with
  | None => Ok s
  | Some p =>
      let path := normalise p in
      py_assert (startswith path prefix);;
      if contains c "-1 ENOENT" then py_assert (negb (exists_ path));; Ok s
      else
        py_assert (exists_ path);;
        if isdir path then Ok s
        else Ok (St (cmds s) (finished_cmds s) (waiting_on s) ({[path]} ∪ files s) (last_pid s))
  end.

(** A call that is complete, with the second half joined to the first. *)
Definition complete (p c : string) (s : st) : result st :=
  if contains c "exited with" then
    py_assert (bool_decide (waiting_on s !! p = None));;
    cmd ← getitem_or KeyError (cmds s !! p);
    Ok (St (delete p (cmds s)) (<[p := cmd]> (finished_cmds s)) (waiting_on s) (files s) (last_pid s))
  else
    cmd ← getitem_or AssertionError (cmds s !! p);
    let cmds' := if contains c "execve" && negb (String.eqb cmd c) then <[p := c]> (cmds s) else cmds s in
    look c (St cmds' (finished_cmds s) (waiting_on s) (files s) (last_pid s)).

Definition step (l : line) (s : st) : result st :=
  cmds' ← track l s;
  let w := waiting_on s in
  let s := St cmds' (finished_cmds s) w (files s) (Some (pid l)) in
  py_assert (negb (contains (call l) "<unfinished ...>"));;
  if unfinished l then
    py_assert (bool_decide (w !! pid l = None));;
    Ok (St cmds' (finished_cmds s) (<[pid l := call l +++ mark]> w) (files s) (last_pid s))
  else if contains (call l) "resumed>" then
    first ← getitem_or AssertionError (w !! pid l);
    complete (pid l) (first +++ " " +++ call l) (St cmds' (finished_cmds s) (delete (pid l) w) (files s) (last_pid s))
  else complete (pid l) (call l) s.

Fixpoint run (raw : list string) (s : st) : result st :=
  match raw with
  | [] => Ok s
  | r :: raw =>
      l ← getitem_or AttributeError (parse r);
      s' ← step l s;
      run raw s'
  end.

(** What is printed. *)
Definition main (raw : list string) : result (list string) :=
  s ← run raw init;
  Ok (sort_strings (elements (files s))).
End filter.

(** ** Theorems *)

Section filter_theorems.
Context (prefix : string) (exists_ isdir : string -> bool).

#[local] Abbreviation run := (run prefix exists_ isdir).

(** The file of a complete call, if it counts. *)
Definition used (c : string) : option string :=
  if contains c "exited with" then None
  else p ← search prefix c;
       let path := normalise p in
       if contains c "-1 ENOENT" || isdir path then None else Some path.

(** The two halves of a call. *)
Definition joined (w : option string) (l : line) : option string * option string :=
  if unfinished l then (Some (call l +++ mark), None)
  else if contains (call l) "resumed>" then (None, Some (default "" w +++ " " +++ call l))
  else (w, Some (call l)).

(** The complete calls of a log, and those of one process. *)
Fixpoint calls (w : gmap string string) (ls : list line) : list string :=
  match ls with
  | [] => []
  | l :: ls =>
      let '(w', c) := joined (w !! pid l) l in
      (option_list c ++ calls (partial_alter (fun _ => w') (pid l) w) ls)%list
  end.

Fixpoint calls_of (w : option string) (ls : list line) : list string :=
  match ls with
  | [] => []
  | l :: ls => let '(w', c) := joined w l in (option_list c ++ calls_of w' ls)%list
  end.

(** A file that may be printed. *)
Definition proper (p : string) : Prop := startswith p prefix = true /\ exists_ p = true /\ isdir p = false.

Definition adds (o : option string) (s s' : st) : Prop :=
  waiting_on s' = waiting_on s /\ files s' = (match o with Some p => {[p]} | None => ∅ end) ∪ files s /\
  (forall p, o = Some p -> proper p).

Lemma look_adds c s s' :
  contains c "exited with" = false -> look prefix exists_ isdir c s = Ok s' -> adds (used c) s s'.
Proof using.
  unfold look, used, adds. intros ->. destruct (search prefix c) as [p|]; cbn [mbind option_bind].
  - set (path := normalise p). intros H. apply bind_ok in H as (u & Hp%py_assert_ok & H).
    destruct (contains c "-1 ENOENT"); cbn [orb].
    + apply bind_ok in H as (v & _ & [= <-]). split; [done|]. split; [set_solver|done].
    + apply bind_ok in H as (v & He%py_assert_ok & H). destruct (isdir path) eqn:Ed; injection H as <-; cbn.
      * split; [done|]. split; [set_solver|done].
      * split; [done|]. split; [done|]. by intros q [= <-].
  - intros [= <-]. split; [done|]. split; [set_solver|done].
Qed.

Lemma complete_adds p c s s' : complete prefix exists_ isdir p c s = Ok s' -> adds (used c) s s'.
Proof using.
  unfold complete. destruct (contains c "exited with") eqn:E; intros H.
  - apply bind_ok in H as (u & _ & H). apply bind_ok in H as (cmd & _ & [= <-]).
    unfold adds, used. rewrite E. split; [done|]. split; [cbn; set_solver|done].
  - apply bind_ok in H as (cmd & _ & H). by apply look_adds in H.
Qed.

Lemma step_adds l s s' :
  step prefix exists_ isdir l s = Ok s' ->
  let '(w, c) := joined (waiting_on s !! pid l) l in
  waiting_on s' = partial_alter (fun _ => w) (pid l) (waiting_on s) /\
  files s' = (match c ≫= used with Some p => {[p]} | None => ∅ end) ∪ files s /\
  (forall p, c ≫= used = Some p -> proper p).
Proof using.
  unfold step, joined. intros H. apply bind_ok in H as (cmds' & _ & H). apply bind_ok in H as (u & _ & H).
  destruct (unfinished l).
  - apply bind_ok in H as (v & _ & [= <-]). cbn. split; [done|]. split; [set_solver|done].
  - destruct (contains (call l) "resumed>").
    + apply bind_ok in H as (first & Hf & H). destruct (waiting_on s !! pid l) as [g|] eqn:Ew; [|done].
      injection Hf as <-. apply complete_adds in H as (Hw & Hfl & Hp). done.
    + apply complete_adds in H as (Hw & Hfl & Hp). cbn [mbind option_bind]. split; [|done].
      rewrite Hw. cbn. by rewrite partial_alter_id.
Qed.

Definition lines (raw : list string) : list line := omap parse raw.

Lemma run_adds raw s s' :
  run raw s = Ok s' ->
  forall x, x ∈ files s' <-> x ∈ files s \/ exists c, c ∈ calls (waiting_on s) (lines raw) /\ used c = Some x.
Proof using.
  revert s. induction raw as [|r raw IH]; intros s H x.
  - injection H as <-. split; [by left|]. intros [|(c & Hc & _)]; [done|]. by apply not_elem_of_nil in Hc.
  - apply bind_ok in H as (l & Hl & H). destruct (parse r) as [l'|] eqn:El; [|done]. injection Hl as <-.
    apply bind_ok in H as (t & Ht & H). apply step_adds in Ht. rewrite (IH _ H x). unfold lines. cbn [omap list_omap].
    rewrite El. cbn [calls]. destruct (joined (waiting_on s !! pid l') l') as [w c]. destruct Ht as (Hw & Hf & _).
    rewrite Hf, Hw. set (cs := calls _ _). destruct c as [c|]; cbn [mbind option_bind option_list app].
    + rewrite elem_of_union. split.
      * intros [[Hx|Hx]|(d & Hd & Hu)]; [|by left|].
        -- right. exists c. split; [by left|]. destruct (used c) as [y|]; set_solver.
        -- right. exists d. split; [by right|done].
      * intros [Hx|(d & [->|Hd]%elem_of_cons & Hu)]; [by left; right| |].
        -- left. left. rewrite Hu. set_solver.
        -- right. by exists d.
    + rewrite elem_of_union. set_solver.
Qed.

(** The lines of one process. *)
Definition of_process (p : string) (ls : list line) : list line := base.filter (fun l => pid l = p) ls.

(** A complete call is one of some process. *)
Lemma calls_by_process w ls c : c ∈ calls w ls <-> exists p, c ∈ calls_of (w !! p) (of_process p ls).
Proof using.
  revert w. induction ls as [|l ls IH]; intros w.
  - cbn. split; [by intros ?%not_elem_of_nil | by intros (p & ?%not_elem_of_nil)].
  - cbn [calls]. destruct (joined (w !! pid l) l) as [w' o] eqn:Ej. rewrite elem_of_app, IH.
    assert (Hp : forall p, calls_of (w !! p) (of_process p (l :: ls)) =
              ((if decide (p = pid l) then option_list o else []) ++
               calls_of (partial_alter (fun _ => w') (pid l) w !! p) (of_process p ls))%list).
    { intros p. unfold of_process. rewrite filter_cons. destruct (decide (p = pid l)) as [->|Hn].
      - rewrite decide_True by done. cbn [calls_of]. by rewrite Ej, lookup_partial_alter_eq.
      - rewrite decide_False by done. by rewrite lookup_partial_alter_ne. }
    split.
    + intros [Ho|(p & Hc)].
      * exists (pid l). rewrite Hp, decide_True by done. apply elem_of_app. by left.
      * exists p. rewrite Hp. apply elem_of_app. by right.
    + intros (p & Hc). rewrite Hp in Hc. apply elem_of_app in Hc as [Hc|Hc]; [|right; by exists p].
      destruct (decide (p = pid l)); [by left|]. by apply not_elem_of_nil in Hc.
Qed.

Lemma run_proper raw s s' :
  run raw s = Ok s' -> (forall p, p ∈ files s -> proper p) -> forall p, p ∈ files s' -> proper p.
Proof using.
  revert s. induction raw as [|r raw IH]; intros s H Hs; [by injection H as <-|].
  apply bind_ok in H as (l & _ & H). apply bind_ok in H as (t & Ht & H). apply (IH _ H).
  intros p Hp. apply step_adds in Ht. destruct (joined _ l) as [w c]. destruct Ht as (_ & Hf & Hpr).
  rewrite Hf in Hp. apply elem_of_union in Hp as [Hp|Hp]; [|by apply Hs]. apply Hpr.
  destruct (c ≫= used) as [q|]; [|set_solver]. apply elem_of_singleton in Hp. by subst.
Qed.
End filter_theorems.

(** Claim C34: the order in which the kernel ran the processes does not matter:
    two logs with the same lines for each process, both understood, give the
    same list of files, although a process's first command and the joining of
    cut calls depend on the lines around them. *)
Theorem interleaving_irrelevant (prefix : string) (exists_ isdir : string -> bool) (log1 log2 : list string)
    (out1 out2 : list string)
    (H1 : main prefix exists_ isdir log1 = Ok out1) (H2 : main prefix exists_ isdir log2 = Ok out2)
    (Hsame : forall p, of_process p (lines log1) = of_process p (lines log2)) :
  out1 = out2.
Proof.
  apply bind_ok in H1 as (s1 & R1 & [= <-]). apply bind_ok in H2 as (s2 & R2 & [= <-]).
  assert (files s1 = files s2) as ->; [|done]. apply set_eq. intros x.
  rewrite (run_adds _ _ _ _ _ _ R1 x), (run_adds _ _ _ _ _ _ R2 x). cbn [files waiting_on init].
  setoid_rewrite calls_by_process. by setoid_rewrite Hsame.
Qed.

(** Every path printed begins with the prefix, exists, is not a
    directory, and is printed once. *)
Theorem printed_files (prefix : string) (exists_ isdir : string -> bool) (log out : list string)
    (H : main prefix exists_ isdir log = Ok out) :
  NoDup out /\ forall p, p ∈ out -> startswith p prefix = true /\ exists_ p = true /\ isdir p = false.
Proof.
  apply bind_ok in H as (s & R & [= <-]). unfold sort_strings.
  assert (P : fst <$> sorted_items ((fun x => (x, ())) <$> elements (files s)) ≡ₚ elements (files s)).
  { rewrite sorted_items_perm, <- list_fmap_compose. apply reflexive_eq. apply list_fmap_id. }
  rewrite P. split; [apply NoDup_elements|]. intros p Hp. rewrite P in Hp. apply elem_of_elements in Hp.
  revert p Hp. exact (run_proper prefix exists_ isdir log init s R (fun p Hp => match not_elem_of_empty p Hp with end)).
Qed.

(** A log with a call cut in two, in two interleavings. *)
Definition quoted_text (s : string) : string := String LogFilter.quote (s +++ String LogFilter.quote "").
Definition demo_lines : list string := [
  "7 execve(" +++ quoted_text "/opt/x/xst" +++ ") = 0";
  "7 open(" +++ quoted_text "/opt/x//lib" +++ " <unfinished ...>";
  "8 execve(" +++ quoted_text "/opt/x/map" +++ ") = 0";
  "7 <... open resumed>) = 3"].
Definition demo_swapped : list string := [
  "7 execve(" +++ quoted_text "/opt/x/xst" +++ ") = 0";
  "8 execve(" +++ quoted_text "/opt/x/map" +++ ") = 0";
  "7 open(" +++ quoted_text "/opt/x//lib" +++ " <unfinished ...>";
  "7 <... open resumed>) = 3"].

Lemma demo_same p : of_process p (lines demo_lines) = of_process p (lines demo_swapped).
Proof.
  destruct (decide (p = "7")) as [->|]; [vm_compute; done|]. destruct (decide (p = "8")) as [->|]; [vm_compute; done|].
  unfold of_process. let l := eval vm_compute in (lines demo_lines) in change (lines demo_lines) with l.
  let l := eval vm_compute in (lines demo_swapped) in change (lines demo_swapped) with l.
  rewrite !filter_cons. cbn [pid]. by rewrite !decide_False by congruence.
Qed.

Lemma interleaving_irrelevant_witness :
  main "/opt/x/" (fun _ => true) (fun _ => false) demo_swapped = Ok ["/opt/x/lib"; "/opt/x/map"; "/opt/x/xst"].
Proof.
  assert (E : is_ok (main "/opt/x/" (fun _ => true) (fun _ => false) demo_swapped) = true) by (vm_compute; reflexivity).
  destruct (main "/opt/x/" (fun _ => true) (fun _ => false) demo_swapped) as [out|] eqn:H; [|done].
  f_equal. symmetry. refine (interleaving_irrelevant "/opt/x/" (fun _ => true) (fun _ => false) demo_lines demo_swapped _ _ _ H demo_same).
  vm_compute. reflexivity.
Defined.

Lemma printed_files_witness : NoDup ["/opt/x/lib"; "/opt/x/map"; "/opt/x/xst"].
Proof.
  exact (proj1 (printed_files "/opt/x/" (fun _ => true) (fun _ => false) demo_swapped
           ["/opt/x/lib"; "/opt/x/map"; "/opt/x/xst"] ltac:(vm_compute; reflexivity))).
Defined.

(** A prefix that ends in a slash: the filter stops when a process opens the
    directory of that name itself, which loses the slash. *)
Example prefix_itself :
  main "/opt/x/" (fun _ => true) (fun _ => true) ["7 execve(" +++ quoted_text "/opt/x/" +++ ") = 0"] = Raise AssertionError.
Proof. vm_compute. reflexivity. Qed.
