(* ===== verification/XilinxCopy.v ===== *)
(** * .travis/package-xilinx-cluefs-filter.py, copy-files.py

    The installed files a build touched, from the log of a file system mounted
    on [/opt/Xilinx] over [/opt/Xilinx.real], and their copies below a
    directory. What is installed is a parameter ([exists_] through the mount,
    [source] with the files' contents); the directory copied to is a state.
    Symbolic links and the attributes [copystat] copies are not modelled. *)
From S2P Require Import Prelude PyStr Paths.
From stdpp Require Import gmap strings.
From Stdlib Require Import Sorted.
#[local] Open Scope string_scope.
#[local] Open Scope py_scope.
#[local] Set Warnings "-clear-no-such-hyp".

Definition mounted : string := "/opt/Xilinx/".
Definition real : string := "/opt/Xilinx.real/".

(** ** package-xilinx-cluefs-filter.py *)

Section log.
Context (exists_ : string -> bool).

(** A row of the log, [l['path']] the tenth field: a row that is too short has
    [None] there, which has no [startswith]. Empty rows are skipped. *)
Definition row := list string.

Definition row_path (r : row) : result (option string) :=
  match r with
  | [] => Ok None
  | _ => match r !! 9%nat with
         | None => Raise AttributeError
         | Some p => Ok (if startswith p "/opt/Xilinx" && exists_ p then Some (replace p real mounted) else None)
         end
  end.

Fixpoint row_paths (l : list row) (paths : gset string) : result (gset string) :=
  match l with
  | [] => Ok paths
  | r :: l =>
      p ← row_path r;
      row_paths l (match p with Some p => {[p]} ∪ paths | None => paths end)
  end.

Definition cluefs_filter (l : list row) : result (list string) :=
  paths ← row_paths l ∅;
  Ok (sort_strings (elements paths)).
End log.

(** ** copy-files.py *)

(** What a path of the file system copied from is. *)
Inductive entry := Directory | File (contents : string).

(** What is below the directory copied to: directories, and files with their
    contents. *)
Record tree := Tree { dirs : gset string; out_files : gmap string string }.

#[local] Abbreviation files t := (dom (out_files t) : gset string).

Definition there (p : string) (t : tree) : bool := bool_decide (p ∈ dirs t) || bool_decide (p ∈ files t).

Definition mkdir (p : string) (t : tree) : result tree :=
  if there p t then Raise FileExistsError
  else if bool_decide (dirname p ∈ files t) then Raise NotADirectoryError
  else Ok (Tree ({[p]} ∪ dirs t) (out_files t)).

(** [os.makedirs(p)] for a path that does not end in a slash: the directories
    above are made first. *)
Fixpoint makedirs (fuel : nat) (p : string) (t : tree) : result tree :=
  match fuel with
  | O => Raise SystemError
  | S fuel =>
      let head := dirname p in
      t' ← (if truthy head && negb (there head t) then makedirs fuel head t else Ok t);
      mkdir p t'
  end.

Definition make (p : string) (t : tree) : result tree := makedirs (S (String.length p)) p t.

Section copy.
Context (source : string -> option entry) (d : string).

(** [os.path.isdir(src)]. *)
Definition isdir (src : string) : bool := match source src with Some Directory => true | _ => false end.

(** [shutil.copy2(src, out)]: into a directory under the file's own name. The
    source is opened first. *)
Definition copy2 (src out : string) (t : tree) : result tree :=
  let dst := if bool_decide (out ∈ dirs t) then path_join out (snd (split_last_slash src)) else out in
  match source src with
  | None => Raise FileNotFoundError
  | Some Directory => Raise IsADirectoryError
  | Some (File c) =>
      if bool_decide (dst ∈ dirs t) then Raise IsADirectoryError
      else if bool_decide (dirname dst ∈ files t) then Raise NotADirectoryError
      else Ok (Tree (dirs t) (<[dst := c]> (out_files t)))
  end.

Definition out_of (src : string) : string := path_join d (sdrop 1 src).

Definition copy_line (l : string) (t : tree) : result tree :=
  let src := strip l in
  py_assert (truthy src);;
  py_assert (startswith src "/");;
  let out := out_of src in
  let outdir := dirname out in
  let src := replace src mounted real in
  t ← (if there outdir t then Ok t else make outdir t);
  if isdir src then make out t else copy2 src out t.

Fixpoint copy_lines (l : list string) (t : tree) : result tree :=
  match l with
  | [] => Ok t
  | x :: l => t ← copy_line x t; copy_lines l t
  end.

Definition copy_files (l : list string) (t : tree) : result tree :=
  py_assert (truthy d);; copy_lines l t.
End copy.

Lemma isdir_file source p c : source p = Some (File c) -> isdir source p = false.
Proof. unfold isdir. by intros ->. Qed.

Lemma isdir_entry source p : source p <> None ->
  source p = Some Directory /\ isdir source p = true \/ exists c, source p = Some (File c) /\ isdir source p = false.
Proof. unfold isdir. destruct (source p) as [[|c]|]; [by left | right; by exists c | done]. Qed.

(** ** The copies *)

Section copied.
Context (d : string).
Hypothesis Hd : rooted d.

(** The copy of a path. *)
Definition under (cs : list string) : string := d +++ path_of cs.

Lemma out_of_under cs : Forall component cs -> cs <> [] -> out_of d (path_of cs) = under cs.
Proof using Hd.
  intros Hc Hne. destruct cs as [|c cs]; [done|]. apply Forall_cons in Hc as [Hc _].
  unfold out_of, under. cbn [path_of foldr]. fold (path_of cs).
  change (sdrop 1 ("/" +++ c +++ path_of cs)) with (c +++ path_of cs). by apply join_component.
Qed.

Lemma under_longer a b : b <> [] -> under (a ++ b)%list <> under a.
Proof using.
  intros Hb E. unfold under in E. apply append_inj_l in E. rewrite path_of_app in E.
  destruct b as [|c b]; [done|]. apply (f_equal String.length) in E.
  cbn [path_of foldr] in E. rewrite !string_append_length in E. cbn [String.length] in E. lia.
Qed.

(** Making a directory below [d] makes what is missing above it. *)
Lemma makedirs_under fuel cs t :
  Forall component cs -> (length cs < fuel)%nat -> d ∈ dirs t -> under cs ∉ dirs t ->
  (forall a b, cs = (a ++ b)%list -> under a ∉ files t) ->
  exists t', makedirs fuel (under cs) t = Ok t' /\ out_files t' = out_files t /\
    under cs ∈ dirs t' /\ dirs t ⊆ dirs t' /\
    (forall x, x ∈ dirs t' -> x ∈ dirs t \/ exists a b, a <> [] /\ cs = (a ++ b)%list /\ x = under a).
Proof using Hd.
  revert cs. induction fuel as [|fuel IH]; intros cs Hc Hf Hdt Hnew Hno; [lia|].
  destruct cs as [|c cs _] using rev_ind; [by unfold under in Hnew; rewrite append_nil_r in Hnew|].
  rewrite length_app in Hf. cbn [length] in Hf. pose proof Hc as [Hc' _]%Forall_app.
  assert (Hdn : dirname (under (cs ++ [c])) = under cs) by (apply dirname_last; done).
  assert (Htr : truthy (under cs) = true).
  { unfold truthy. destruct (path_rooted d cs Hd Hc') as [Hn _]. unfold under. by destruct (String.eqb_spec (d +++ path_of cs) ""). }
  assert (Hup : forall a b, cs = (a ++ b)%list -> under a ∉ files t).
  { intros a b ->. apply (Hno a (b ++ [c])%list). by rewrite app_assoc. }
  assert (Hthere : there (under cs) t = bool_decide (under cs ∈ dirs t)).
  { unfold there. rewrite (bool_decide_eq_false_2 (under cs ∈ files t)); [by rewrite orb_false_r|].
    apply (Hup cs []). by rewrite app_nil_r. }
  cbn [makedirs]. cbv zeta. rewrite Hdn, Htr, Hthere. cbn [andb].
  assert (H : exists t1, (if negb (bool_decide (under cs ∈ dirs t)) then makedirs fuel (under cs) t else Ok t) = Ok t1 /\
    out_files t1 = out_files t /\ dirs t ⊆ dirs t1 /\
    (forall x, x ∈ dirs t1 -> x ∈ dirs t \/ exists a b, a <> [] /\ cs = (a ++ b)%list /\ x = under a)).
  { destruct (decide (under cs ∈ dirs t)) as [Hin|Hin].
    - rewrite bool_decide_eq_true_2 by done. exists t. split; [done|]. split; [done|]. split; [done|]. by left.
    - rewrite bool_decide_eq_false_2 by done. destruct (IH cs Hc' ltac:(lia) Hdt Hin Hup) as (t1 & E & Ho & _ & Hs & Hx).
      exists t1. done. }
  destruct H as (t1 & -> & Ho & Hs & Hx). cbn [mbind result_bind]. unfold mkdir, there.
  assert (Hn1 : under (cs ++ [c])%list ∉ dirs t1).
  { intros [Hin|(a & b & Ha & -> & E)]%Hx; [done|]. rewrite <- app_assoc in E. revert E. apply under_longer. by destruct b. }
  rewrite Hdn, Ho, (bool_decide_eq_false_2 _ Hn1).
  rewrite (bool_decide_eq_false_2 (_ ∈ files t)) by (apply (Hno _ []); by rewrite app_nil_r).
  rewrite (bool_decide_eq_false_2 (under cs ∈ files t)) by (apply (Hup cs []); by rewrite app_nil_r). cbn [orb].
  eexists. split; [reflexivity|]. cbn [dirs out_files]. split; [done|]. split; [set_solver|]. split; [set_solver|].
  intros x [->%elem_of_singleton|Hin]%elem_of_union.
  - right. exists (cs ++ [c])%list, []. rewrite app_nil_r. split; [by destruct cs|done].
  - apply Hx in Hin as [Hin|(a & b & Ha & -> & ->)]; [by left|]. right. exists a, (b ++ [c])%list. by rewrite app_assoc.
Qed.

Lemma make_under cs t :
  Forall component cs -> d ∈ dirs t -> under cs ∉ dirs t ->
  (forall a b, cs = (a ++ b)%list -> under a ∉ files t) ->
  exists t', make (under cs) t = Ok t' /\ out_files t' = out_files t /\
    under cs ∈ dirs t' /\ dirs t ⊆ dirs t' /\
    (forall x, x ∈ dirs t' -> x ∈ dirs t \/ exists a b, a <> [] /\ cs = (a ++ b)%list /\ x = under a).
Proof using Hd.
  intros Hc. apply makedirs_under; [done|]. unfold under. rewrite string_append_length.
  enough (length cs <= String.length (path_of cs))%nat by lia. clear Hc. induction cs as [|c cs IH]; [done|].
  cbn [length path_of foldr]. fold (path_of cs). rewrite !string_append_length. cbn [String.length]. lia.
Qed.

(** The directory above a new path is there, or is made. *)
Lemma parent_made cs t :
  Forall component cs -> d ∈ dirs t -> (forall a b, cs = (a ++ b)%list -> under a ∉ files t) ->
  exists t1, (if there (under cs) t then Ok t else make (under cs) t) = Ok t1 /\
    out_files t1 = out_files t /\ dirs t ⊆ dirs t1 /\
    (forall x, x ∈ dirs t1 -> x ∈ dirs t \/ exists a b, a <> [] /\ cs = (a ++ b)%list /\ x = under a).
Proof using Hd.
  intros Hc Hr Hup. unfold there at 1.
  rewrite (bool_decide_eq_false_2 (under cs ∈ files t)) by (apply (Hup cs []); by rewrite app_nil_r).
  rewrite orb_false_r. destruct (decide (under cs ∈ dirs t)) as [Hin|Hin].
  - rewrite bool_decide_eq_true_2 by done. exists t. split; [done|]. split; [done|]. split; [done|]. by left.
  - rewrite bool_decide_eq_false_2 by done. destruct (make_under cs t Hc Hr Hin Hup) as (t1 & E & Ho & _ & Hs & Hx).
    by exists t1.
Qed.

Context (source : string -> option entry) (installed : gset string).
#[local] Abbreviation isdir := (isdir source).

(** The name of an installed file behind the mount. *)
Definition behind (cs : list string) : string := replace (path_of cs) mounted real.

(** After the paths [l]: the directories are [d]'s and those of or above a
    path copied; the files are the copies of the paths that are not directories. *)
Record copied (l : list (list string)) (t : tree) : Prop := {
  c_root : d ∈ dirs t;
  c_dirs x : x ∈ dirs t -> x ∈ installed \/ exists a b, a <> [] /\ (a ++ b)%list ∈ l /\ x = under a;
  c_files x c : out_files t !! x = Some c <-> exists cs, cs ∈ l /\ source (behind cs) = Some (File c) /\ x = under cs;
  c_made cs : cs ∈ l -> isdir (behind cs) = true -> under cs ∈ dirs t
}.

(** The line of a path. *)
Definition line_of (cs : list string) : string := path_of cs +++ newline.

Record good_path (cs : list string) : Prop := {
  g_components : Forall component cs;
  g_some : cs <> [];
  g_line : strip (line_of cs) = path_of cs
}.

Lemma path_slash cs : cs <> [] -> truthy (path_of cs) = true /\ startswith (path_of cs) "/" = true.
Proof using.
  destruct cs as [|c cs]; [done|]. intros _. assert (exists r, path_of (c :: cs) = String "/" r) as [r ->] by (by eexists).
  split; [done|]. by destruct r.
Qed.

(** No file is at or above a path that comes later, and it is no directory yet. *)
Lemma new_path l t cs :
  copied l t -> cs <> [] ->
  (forall x, under x ∈ installed -> x = []) ->
  (forall p, p ∈ l -> str_le (path_of p) (path_of cs) /\ path_of p <> path_of cs) ->
  (forall p a, p ∈ l -> path_of cs = path_of p +++ path_of a -> a <> [] -> isdir (behind p) = true) ->
  (forall a b, cs = (a ++ b)%list -> under a ∉ files t) /\ under cs ∉ dirs t.
Proof using.
  intros [_ Hds Hfs _] Hne Hbase Hord Hpar. split.
  - intros a b -> [c (p & Hp & Hi & E)%Hfs]%elem_of_dom. unfold under in E. apply append_inj_l in E.
    destruct b as [|x b]; [rewrite app_nil_r in Hord; by destruct (Hord p Hp)|].
    apply isdir_file in Hi. rewrite (Hpar p (x :: b) Hp) in Hi; [done| |done]. by rewrite <- E, path_of_app.
  - intros [Hin|(a & b & Ha & Hin & E)]%Hds; [by apply Hbase in Hin|]. unfold under in E. apply append_inj_l in E.
    destruct (Hord _ Hin) as [Hle Hn]. rewrite E in Hle, Hn. rewrite path_of_app in Hle, Hn.
    apply str_leb_longer in Hle. by rewrite Hle, append_nil_r in Hn.
Qed.

Lemma copy_line_ok l t cs :
  copied l t -> good_path cs -> Forall good_path l ->
  (forall x, under x ∈ installed -> x = []) ->
  (forall p, p ∈ l -> str_le (path_of p) (path_of cs) /\ path_of p <> path_of cs) ->
  (forall p a, p ∈ l -> path_of cs = path_of p +++ path_of a -> a <> [] -> isdir (behind p) = true) ->
  source (behind cs) <> None ->
  exists t', copy_line source d (line_of cs) t = Ok t' /\ copied (l ++ [cs])%list t'.
Proof using Hd.
  intros Hcp [Hc Hne Hline] Hl Hbase Hord Hpar Hsrc. destruct (new_path l t cs Hcp Hne Hbase Hord Hpar) as [Hno Hnew].
  destruct Hcp as [Hr Hds Hfs Hm].
  unfold copy_line. rewrite Hline. pose proof Hc as Hc0.
  destruct cs as [|c cs _] using rev_ind; [done|]. apply Forall_app in Hc0 as [Hc' _].
  destruct (path_slash _ Hne) as [-> ->]. cbn [py_assert mbind result_bind]. rewrite out_of_under by done.
  pose proof (dirname_last d cs c Hd Hc) as Hdn. fold (under (cs ++ [c])) (under cs) in Hdn. rewrite Hdn.
  fold (behind (cs ++ [c])).
  assert (Hup : forall a b, cs = (a ++ b)%list -> under a ∉ files t).
  { intros a b ->. apply (Hno a (b ++ [c])%list). by rewrite app_assoc. }
  destruct (parent_made cs t Hc' Hr Hup) as (t1 & -> & Ho & Hs & Hx). cbn [mbind result_bind].
  assert (Hn1 : under (cs ++ [c])%list ∉ dirs t1).
  { intros [Hin|(a & b & Ha & -> & E)]%Hx; [done|]. rewrite <- app_assoc in E. revert E. apply under_longer. by destruct b. }
  destruct (isdir_entry source _ Hsrc) as [[Es Ei]|(b & Es & Ei)]; rewrite Ei.
  - destruct (make_under (cs ++ [c]) t1 Hc (Hs _ Hr) Hn1) as (t2 & -> & Ho2 & Hin2 & Hs2 & Hx2); [by rewrite Ho|].
    exists t2. split; [done|]. split; [set_solver| | |].
    + intros x [[Hin|(a & b & Ha & -> & ->)]%Hx|(a & b & Ha & E & ->)]%Hx2.
      * apply Hds in Hin as [|(a & b & Ha & Hl' & ->)]; [by left|]. right. exists a, b. set_solver.
      * right. exists a, (b ++ [c])%list. rewrite app_assoc. set_solver.
      * right. exists a, b. rewrite <- E. set_solver.
    + intros x y. rewrite Ho2, Ho, Hfs. split.
      * intros (p & Hp & H). exists p. set_solver.
      * intros (p & [Hp|Hp%list_elem_of_singleton]%elem_of_app & H & ->); [by exists p|]. subst p. congruence.
    + intros p [Hp|Hp%list_elem_of_singleton]%elem_of_app Hi; [by apply Hs2, Hs, Hm|]. by subst p.
  - unfold copy2. rewrite (bool_decide_eq_false_2 _ Hn1), Es, (bool_decide_eq_false_2 _ Hn1), Hdn, Ho.
    rewrite bool_decide_eq_false_2 by (apply (Hup cs []); by rewrite app_nil_r).
    eexists. split; [reflexivity|]. split; cbn [dirs out_files]; [set_solver| | |].
    + intros x [Hin|(a & b' & Ha & -> & ->)]%Hx.
      * apply Hds in Hin as [|(a & b' & Ha & Hl' & ->)]; [by left|]. right. exists a, b'. set_solver.
      * right. exists a, (b' ++ [c])%list. rewrite app_assoc. set_solver.
    + intros x y. rewrite lookup_insert_Some, Hfs. split.
      * intros [[<- <-]|[_ (p & Hp & H)]]; [exists (cs ++ [c])%list; set_solver|exists p; set_solver].
      * intros (p & [Hp|Hp%list_elem_of_singleton]%elem_of_app & H & ->); [right|left; subst p; split; congruence].
        split; [|by exists p]. intros E. apply (Hno (cs ++ [c])%list []); [by rewrite app_nil_r|].
        apply elem_of_dom. exists y. apply Hfs. exists p. by rewrite E.
    + intros p [Hp|Hp%list_elem_of_singleton]%elem_of_app Hi; [by apply Hs, Hm|]. subst p. congruence.
Qed.

Lemma sorted_before {A} (R : A -> A -> Prop) l1 x l2 y : StronglySorted R (l1 ++ x :: l2) -> y ∈ l1 -> R y x.
Proof using.
  induction l1 as [|z l1 IH]; intros H Hy; [by apply not_elem_of_nil in Hy|].
  apply StronglySorted_inv in H as [H Hz]. apply elem_of_cons in Hy as [->|Hy]; [|by apply IH].
  rewrite Forall_forall in Hz. apply Hz, elem_of_app. right. by left.
Qed.

(** A path below another is below a directory. *)
Definition parents_ok (l : list (list string)) : Prop :=
  forall p a cs, p ∈ l -> cs ∈ l -> path_of cs = path_of p +++ path_of a -> a <> [] -> isdir (behind p) = true.

Lemma copy_lines_ok l css t :
  (forall x, under x ∈ installed -> x = []) ->
  copied l t -> Forall good_path (l ++ css) -> StronglySorted str_le (path_of <$> (l ++ css)%list) ->
  NoDup (path_of <$> (l ++ css)%list) -> parents_ok (l ++ css) -> Forall (fun cs => source (behind cs) <> None) css ->
  exists t', copy_lines source d (line_of <$> css) t = Ok t' /\ copied (l ++ css)%list t'.
Proof using Hd.
  intros Hbase. revert l t. induction css as [|cs css IH]; intros l t Hc Hg Hs Hn Hp Hsrc.
  - exists t. rewrite app_nil_r. done.
  - rewrite fmap_cons. cbn [copy_lines]. apply Forall_cons in Hsrc as [Hsc Hsrc].
    assert (E : (l ++ cs :: css = (l ++ [cs]) ++ css)%list) by (by rewrite <- app_assoc).
    pose proof Hg as [Hgl [Hgc _]%Forall_cons]%Forall_app.
    destruct (copy_line_ok l t cs Hc Hgc Hgl Hbase) as (t1 & -> & Hc1).
    + intros p Hpl. rewrite fmap_app, fmap_cons in Hs, Hn. split.
      * eapply sorted_before; [exact Hs|]. by apply list_elem_of_fmap_2.
      * intros Ep. apply NoDup_app in Hn as (_ & Hd' & _). apply (Hd' (path_of p)); [by apply list_elem_of_fmap_2|].
        rewrite Ep. by left.
    + intros p a Hpl Ep Ha. apply (Hp p a cs); [set_solver..|done|done].
    + exact Hsc.
    + cbn [mbind result_bind]. rewrite E in *. apply IH; done.
Qed.
End copied.

(** Replacing a beginning that does not occur again. *)
Lemma prefix_append p r : String.prefix p (p +++ r) = true.
Proof. induction p as [|c p IH]; [by destruct r|]. rewrite append_cons. cbn [String.prefix]. by destruct (ascii_dec c c). Qed.

Lemma sdrop_append p r : sdrop (String.length p) (p +++ r) = r.
Proof. induction p as [|c p IH]; [done|]. rewrite append_cons. exact IH. Qed.

Lemma index_none p r : contains r p = false -> String.index 0 p r = None.
Proof.
  induction r as [|c r IH]; cbn [contains String.index]; intros [Hp Hc]%orb_false_iff.
  - destruct p; [done|]. done.
  - rewrite Hp. by rewrite IH.
Qed.

Lemma replace_front p q r : p <> "" -> contains r p = false -> replace (p +++ r) p q = q +++ r.
Proof.
  intros Hp Hr. unfold replace, split_on. cbn [split_fuel].
  assert (String.index 0 p (p +++ r) = Some 0%nat) as ->.
  { destruct p as [|c p]; [done|]. rewrite append_cons. cbn [String.index].
    pose proof (prefix_append (String c p) r) as H. rewrite append_cons in H. by rewrite H. }
  rewrite Nat.add_0_l, sdrop_append. assert (split_fuel (String.length (p +++ r)) p r = [r]) as ->.
  { destruct (String.length (p +++ r)); [done|]. cbn [split_fuel]. by rewrite index_none. }
  by destruct (p +++ r).
Qed.

(** The file copied is the file logged. *)
Lemma copies_the_logged_file r :
  contains r mounted = false -> contains r real = false ->
  replace (replace (real +++ r) real mounted) mounted real = real +++ r.
Proof. intros Hm Hr. by rewrite !replace_front. Qed.

(** Every path found was logged and exists. *)
Lemma row_paths_logged exists_ l ps out x : row_paths exists_ l ps = Ok out -> x ∈ out ->
  x ∈ ps \/ exists p, startswith p "/opt/Xilinx" = true /\ exists_ p = true /\ x = replace p real mounted.
Proof.
  revert ps. induction l as [|r l IH]; intros ps H Hx; [injection H as <-; by left|]. cbn [row_paths] in H.
  apply bind_ok in H as (o & Ho & H). apply IH in H as [H|H]; [|by right..|done].
  unfold row_path in Ho. destruct r as [|f r]; [injection Ho as <-; by left|].
  destruct (lookup 9%nat _) as [p|]; [|discriminate Ho]. injection Ho as <-.
  destruct (startswith p "/opt/Xilinx" && exists_ p) eqn:E; [|by left]. apply andb_prop in E as [E1 E2].
  apply elem_of_union in H as [->%elem_of_singleton|H]; [right; by exists p | by left].
Qed.

(** What exists under the mount point is, behind it, a directory or a file. *)
Definition mounts (exists_ : string -> bool) (source : string -> option entry) : Prop :=
  forall p, startswith p "/opt/Xilinx" = true -> exists_ p = true -> source (replace (replace p real mounted) mounted real) <> None.

(** Claim C35: the two steps together. [source] is the file system copied from;
    what the first step found to exist, through the mount or behind it, is behind it a
    directory or a file with its contents ([mounts]). If the paths the first step
    prints are proper absolute paths, and a found path below another lies in a
    directory, the second step copies them all: no exception, in
    particular no source is missing and no directory is made twice, since the sorted
    list has every directory before what lies in it. Every directory of the list is
    there afterwards, every file of the list is at the same path below the
    target with the contents it has behind the mount, and no other file is
    written. *)
Theorem installation_copied (exists_ : string -> bool) (source : string -> option entry) (d : string) (installed : gset string)
    (log : list row) (paths : list (list string))
    (Hd : rooted d) (Hin : d ∈ installed) (Hbelow : forall x, d +++ path_of x ∈ installed -> x = [])
    (Hmount : mounts exists_ source)
    (Hlog : cluefs_filter exists_ log = Ok (path_of <$> paths))
    (Hgood : Forall good_path paths) (Hpar : parents_ok source paths) :
  exists t, copy_files source d (line_of <$> paths) (Tree installed ∅) = Ok t /\
    (forall cs, cs ∈ paths ->
       match source (replace (path_of cs) mounted real) with
       | Some Directory => d +++ path_of cs ∈ dirs t
       | Some (File c) => out_files t !! (d +++ path_of cs) = Some c
       | None => False
       end) /\
    (forall x, is_Some (out_files t !! x) -> exists cs, cs ∈ paths /\ x = d +++ path_of cs).
Proof.
  apply bind_ok in Hlog as (ps & Hrows & [= Hps]).
  assert (Hs : StronglySorted str_le (path_of <$> paths)) by (rewrite <- Hps; apply sort_strings_sorted).
  assert (Hn : NoDup (path_of <$> paths)) by (rewrite <- Hps, sort_strings_perm; apply NoDup_elements).
  assert (Hsrc : Forall (fun cs => source (behind cs) <> None) paths).
  { apply Forall_forall. intros cs Hcs. apply (list_elem_of_fmap_2 path_of) in Hcs. rewrite <- Hps, sort_strings_perm in Hcs.
    apply elem_of_elements in Hcs. destruct (row_paths_logged _ _ _ _ _ Hrows Hcs) as [?%not_elem_of_empty|(p & Hp & He & E)]; [done|].
    unfold behind. rewrite E. by apply Hmount. }
  destruct (copy_lines_ok d Hd source installed [] paths (Tree installed ∅)) as (t & E & [_ _ Hf Hm]); try done.
  { split; cbn [dirs out_files]; [done|by left| |].
    - intros x c. split; [done|]. by intros (cs & ?%not_elem_of_nil & _).
    - by intros cs ?%not_elem_of_nil. }
  exists t. split; [|split].
  - unfold copy_files. destruct Hd as [Hne _]. unfold truthy. by destruct (String.eqb_spec d "").
  - intros cs Hcs. fold (behind cs). rewrite Forall_forall in Hsrc.
    destruct (isdir_entry source _ (Hsrc _ Hcs)) as [[Es Ei]|(c & Es & _)]; rewrite Es; [by apply Hm|].
    apply Hf. by exists cs.
  - intros x [c (cs & Hcs & _ & ->)%Hf]. by exists cs.
Qed.

(** A tool and its directory, a library that is logged behind the mount. *)
Definition demo_row (path : string) : row := ["t0"; "t1"; "1"; "u"; "0"; "g"; "0"; "map"; "1"; path; "file"].
Definition demo_log : list row := [
  demo_row "/opt/Xilinx/ISE/bin/map"; demo_row "/opt/Xilinx.real/ISE/lib/a.so"; demo_row "/etc/passwd";
  demo_row "/opt/Xilinx/ISE/bin"; demo_row "/opt/Xilinx.real/ISE/bin/map"].
Definition demo_paths : list (list string) :=
  [["opt"; "Xilinx"; "ISE"; "bin"]; ["opt"; "Xilinx"; "ISE"; "bin"; "map"]; ["opt"; "Xilinx"; "ISE"; "lib"; "a.so"]].
Definition demo_source (p : string) : option entry :=
  Some (if endswith p "bin" then Directory else File ("contents of " +++ p)).

Lemma demo_parents : parents_ok demo_source demo_paths.
Proof.
  intros p a cs Hp Hcs E Ha.
  repeat (apply elem_of_cons in Hp as [->|Hp]; [|]); [..|by apply not_elem_of_nil in Hp];
    repeat (apply elem_of_cons in Hcs as [->|Hcs]; [|]); try (by apply not_elem_of_nil in Hcs);
    destruct a as [|x a]; try done; vm_compute in E; try discriminate E; vm_compute; done.
Qed.

Lemma installation_copied_witness :
  exists t, copy_files demo_source "/tmp/x" (line_of <$> demo_paths) (Tree {["/tmp/x"; "/tmp"; "/"]} ∅) = Ok t /\
    out_files t !! "/tmp/x/opt/Xilinx/ISE/lib/a.so" = Some "contents of /opt/Xilinx.real/ISE/lib/a.so" /\
    "/tmp/x/opt/Xilinx/ISE/bin" ∈ dirs t.
Proof.
  destruct (installation_copied (fun _ => true) demo_source "/tmp/x" {["/tmp/x"; "/tmp"; "/"]} demo_log demo_paths)
    as (t & E & Hc & _).
  - split; [done|vm_compute; done].
  - set_solver.
  - intros x Hx. destruct x as [|c x]; [done|]. exfalso. rewrite !elem_of_union, !elem_of_singleton in Hx.
    destruct Hx as [[Hx|Hx]|Hx]; apply (f_equal String.length) in Hx; cbn [path_of foldr] in Hx;
      rewrite !string_append_length in Hx; cbn [String.length] in Hx; lia.
  - by intros p _ _.
  - vm_compute. reflexivity.
  - repeat constructor; vm_compute; done.
  - exact demo_parents.
  - exists t. split; [exact E|]. split.
    + assert (Hi : ["opt"; "Xilinx"; "ISE"; "lib"; "a.so"] ∈ demo_paths) by (apply list_elem_of_In; cbn; auto).
      specialize (Hc _ Hi). replace (demo_source _) with (Some (File "contents of /opt/Xilinx.real/ISE/lib/a.so")) in Hc by (vm_compute; reflexivity). exact Hc.
    + assert (Hi : ["opt"; "Xilinx"; "ISE"; "bin"] ∈ demo_paths) by (apply list_elem_of_In; cbn; auto).
      specialize (Hc _ Hi). replace (demo_source _) with (Some Directory) in Hc by (vm_compute; reflexivity). exact Hc.
Defined.
