(* ===== verification/PrebuiltList.v ===== *)
(** * The index of prebuilt firmware ([.travis/generate-prebuilt-list.py])

    After a build, the script lists the revisions of the repository of prebuilt
    firmware, sorts them by version, and decides which revision each release
    channel is at. The answers of [svn] and the rows of the spreadsheet are
    inputs; [PrebuiltSite] has the checking out, the index and the commit. *)
From stdpp Require Import sorting.
From S2P Require Import Prelude PyStr.
#[local] Open Scope Z_scope.
#[local] Open Scope string_scope.

(** ** Versions *)

Definition version : Type := string * Z * string.

(** [git describe]: a tag, or a tag, a number of commits and a hash. *)
Definition parse_version (v : string) : result version :=
  if negb (has_char "-" v) then Ok (v, 0%Z, "")
  else match split_at "-" v with
       | [a; b; c] => n ← py_int b; Ok (a, n, c)
       | _ => Raise ValueError
       end.

(** Python's order on tuples. *)
Definition version_leb (x y : version) : bool :=
  let '(a, m, c) := x in
  let '(b, n, d) := y in
  if String.eqb a b then (if m =? n then str_leb c d else m <? n)%Z else str_leb a b.

(** [l.sort(key=f)]: the keys are computed first; elements with equal keys stay
    in order. *)
Section sort.
Context {A K : Type} (leb : K -> K -> bool).

Fixpoint insert_by (x : K * A) (l : list (K * A)) : list (K * A) :=
  match l with
  | [] => [x]
  | y :: l' => if leb (fst x) (fst y) then x :: l else y :: insert_by x l'
  end.

Fixpoint with_keys (key : A -> result K) (l : list A) : result (list (K * A)) :=
  match l with
  | [] => Ok []
  | x :: l => k ← key x; r ← with_keys key l; Ok ((k, x) :: r)
  end.

Definition sort_by (key : A -> result K) (l : list A) : result (list A) :=
  r ← with_keys key l; Ok (snd <$> foldr insert_by [] r).
End sort.

(** [[v[:-1] for v in ...]], sorted. *)
Definition sorted_revs (svn_list : list string) : result (list string) :=
  sort_by version_leb parse_version (cut_end 1 <$> svn_list).

(** ** Channels *)

Record Prebuilt := {
  owner : string; repo : string; branch : string;
  full_platform : string; target : string; full_cpu : string
}.

Section script.
(** [svn cat] of a path below the archive; [None] if it fails. Its answers are
    cached, so one per path is all the script sees. *)
Variables (a : Prebuilt) (svn_cat : string -> option string).

Definition git_dir_url : string :=
  "https://github.com/" +++ owner a +++ "/" +++ repo a +++ "/blob/master/archive/" +++ branch a.

Definition rev_path (rev : string) : string :=
  rev +++ "/" +++ full_platform a +++ "/" +++ target a +++ "/" +++ full_cpu a +++ "/".

Definition get_sha256sum (rev : string) : option string :=
  data ← svn_cat (rev_path rev +++ "/sha256sum.txt");
  Some (replace data "./" (git_dir_url +++ "/" +++ rev_path rev)).

(** [while True: rev = urevs.pop(-1)], from the last to the first. *)
Fixpoint pop_unstable (urevs : list string) : result string :=
  match urevs with
  | [] => Raise IndexError
  | rev :: urevs => if otruthy (get_sha256sum rev) then Ok rev else pop_unstable urevs
  end.

(** A row of the spreadsheet: the channel and revision it names, if any. *)
Definition channel_row (i : list string) : result (option (string * string)) :=
  match i with
  | [] => Ok None
  | kind :: _ =>
      if negb (String.eqb kind "GitHub") then Ok None
      else match i with
           | _ :: _ :: rev :: name :: _ :: _ => Ok (if truthy name then Some (name, rev) else None)
           | _ => Raise ValueError
           end
  end.

Fixpoint get_channel_spreadsheet (rev_names : gmap string string) (rows : list (list string))
    : result (gmap string string) :=
  match rows with
  | [] => Ok rev_names
  | i :: rows =>
      o ← channel_row i;
      match o with
      | None => get_channel_spreadsheet rev_names rows
      | Some (name, rev) =>
          py_assert (bool_decide (rev_names !! name = None));;
          get_channel_spreadsheet (<[name := rev]> rev_names) rows
      end
  end.

(** ** The files *)

Definition channel_line (cr : string * string) : string :=
  fst cr +++ " " +++ snd cr +++ " " +++ git_dir_url +++ "/" +++ rev_path (snd cr) +++ newline.

Definition out_dir : string := path_join (path_join (full_platform a) (target a)) (full_cpu a).

(** [channels]: the unstable one, unless the spreadsheet has one of that name. *)
Definition channels (svn_list : list string) (rows : list (list string)) : result (list string * gmap string string) :=
  revs ← sorted_revs svn_list;
  unstable ← pop_unstable (rev revs);
  names ← get_channel_spreadsheet ∅ rows;
  Ok (revs, names ∪ {["unstable" := unstable]}).

(** The files written: all revisions, the channels, and the checksums of the
    channels that have some. *)
Definition main (svn_list : list string) (rows : list (list string)) : result (list (string * string)) :=
  '(revs, chans) ← channels svn_list rows;
  let items := sorted_items (map_to_list chans) in
  Ok (("revs.txt", String.concat "" ((fun r => r +++ newline) <$> revs)) ::
      (path_join out_dir "channels.txt", String.concat "" (channel_line <$> items)) ::
      omap (fun cr => match get_sha256sum (snd cr) with
                      | Some lines => if truthy lines then Some (path_join out_dir (fst cr +++ ".sha256sum"), lines) else None
                      | None => None
                      end) items)%list.
End script.

(** ** Theorems *)

(** The order of versions. *)
Lemma version_leb_total x y : version_leb x y = true \/ version_leb y x = true.
Proof.
  destruct x as [[a m] c], y as [[b n] d]. unfold version_leb. rewrite (String.eqb_sym b a), (Z.eqb_sym n m).
  destruct (String.eqb a b); [|apply str_leb_total]. destruct (Z.eqb_spec m n); [apply str_leb_total|].
  rewrite !Z.ltb_lt. lia.
Qed.

Lemma version_leb_trans x y z : version_leb x y = true -> version_leb y z = true -> version_leb x z = true.
Proof.
  destruct x as [[a m] c], y as [[b n] d], z as [[e o] f]. unfold version_leb.
  destruct (String.eqb_spec a b) as [->|Hab], (String.eqb_spec b e) as [->|Hbe]; intros H1 H2.
  - destruct (Z.eqb_spec m n), (Z.eqb_spec n o), (Z.eqb_spec m o); subst; rewrite ?Z.ltb_lt in *; try lia.
    by apply (str_leb_trans c d f).
  - done.
  - by rewrite (proj2 (String.eqb_neq a e) Hab).
  - destruct (String.eqb_spec a e) as [->|]; [|by apply (str_leb_trans a b e)].
    destruct Hab. by apply str_leb_antisym.
Qed.

(** A stable sort on a total order sorts. *)
Section sort_theorems.
Context {A K : Type} (leb : K -> K -> bool).
Hypothesis total : forall x y, leb x y = true \/ leb y x = true.
Hypothesis trans : forall x y z, leb x y = true -> leb y z = true -> leb x z = true.

Definition kle (x y : K * A) : Prop := leb (fst x) (fst y) = true.

Lemma insert_by_perm x (l : list (K * A)) : insert_by leb x l ≡ₚ x :: l.
Proof using Type.
  induction l as [|y l IH]; [done|]. cbn [insert_by]. destruct (leb _ _); [done|]. rewrite IH. apply perm_swap.
Qed.

Lemma insert_by_sorted x (l : list (K * A)) : StronglySorted kle l -> StronglySorted kle (insert_by leb x l).
Proof using total trans.
  induction 1 as [|y l Hl IH Hy]; cbn [insert_by]; [by constructor; constructor|].
  destruct (leb (fst x) (fst y)) eqn:E.
  - constructor; [by constructor|]. constructor; [done|].
    eapply Forall_impl; [exact Hy|]. intros z Hz. by apply (trans _ (fst y)).
  - constructor; [exact IH|]. rewrite insert_by_perm. constructor; [|exact Hy].
    unfold kle. destruct (total (fst x) (fst y)); congruence.
Qed.

Lemma sort_sorted (l : list (K * A)) :
  foldr (insert_by leb) [] l ≡ₚ l /\ StronglySorted kle (foldr (insert_by leb) [] l).
Proof using total trans.
  induction l as [|x l [IH1 IH2]]; [by split; [|constructor]|]. cbn [foldr]. split.
  - by rewrite insert_by_perm, IH1.
  - by apply insert_by_sorted.
Qed.

Lemma with_keys_spec (key : A -> result K) (l : list A) (r : list (K * A)) :
  with_keys key l = Ok r -> snd <$> r = l /\ Forall (fun kx => key (snd kx) = Ok (fst kx)) r.
Proof using Type.
  revert r. induction l as [|x l IH]; intros r; cbn [with_keys]; [by intros [= <-]|].
  destruct (key x) as [k|] eqn:Hk; [|discriminate]. cbn. destruct (with_keys key l) as [r'|]; [|discriminate].
  intros [= <-]. destruct (IH r' eq_refl) as [<- H]. split; [done|]. by constructor.
Qed.

(** The sorted list, with the keys it was sorted by. *)
Lemma sort_by_spec (key : A -> result K) (l l' : list A) :
  sort_by leb key l = Ok l' ->
  l' ≡ₚ l /\ exists r : list (K * A), snd <$> r = l' /\ StronglySorted kle r /\ Forall (fun kx => key (snd kx) = Ok (fst kx)) r.
Proof using total trans.
  unfold sort_by. destruct (with_keys key l) as [r|] eqn:Hr; [|discriminate]. intros [= <-].
  destruct (with_keys_spec key l r Hr) as [<- Hk]. destruct (sort_sorted r) as [Hp Hs].
  split; [by rewrite Hp|]. eexists. split_and!; [done | exact Hs | by rewrite Hp].
Qed.
End sort_theorems.

Definition available (a : Prebuilt) (svn_cat : string -> option string) (rev : string) : bool :=
  otruthy (get_sha256sum a svn_cat rev).

(** The greatest available one, in a list from the greatest down. *)
Lemma pop_unstable_spec a svn_cat l :
  match pop_unstable a svn_cat l with
  | Ok r => exists l1 l2, l = (l1 ++ r :: l2)%list /\ available a svn_cat r = true /\
      Forall (fun x => available a svn_cat x = false) l1
  | Raise e => e = IndexError /\ Forall (fun x => available a svn_cat x = false) l
  end.
Proof.
  induction l as [|r l IH]; [done|]. cbn [pop_unstable]. fold (available a svn_cat r).
  destruct (available a svn_cat r) eqn:E; [by exists [], l|].
  destruct (pop_unstable a svn_cat l) as [x|e].
  - destruct IH as (l1 & l2 & -> & Hx & H1). exists (r :: l1), l2. split; [done|]. split; [done | by constructor].
  - destruct IH as [-> H]. split; [done | by constructor].
Qed.

(** The revision of the unstable channel. If every version parses, it
    is a listed revision that has checksums for the platform, and no listed
    revision with checksums has a later version; the revisions are written in
    the order of their versions. If none has checksums the script fails with an
    IndexError. *)
Theorem unstable_is_latest (a : Prebuilt) (svn_cat : string -> option string) (svn_list revs : list string)
    (H : sorted_revs svn_list = Ok revs) :
  revs ≡ₚ cut_end 1 <$> svn_list /\
  match pop_unstable a svn_cat (rev revs) with
  | Ok r => In r revs /\ available a svn_cat r = true /\
      forall r', In r' revs -> available a svn_cat r' = true ->
        exists v v', parse_version r = Ok v /\ parse_version r' = Ok v' /\ version_leb v' v = true
  | Raise e => e = IndexError /\ forall r', In r' revs -> available a svn_cat r' = false
  end.
Proof.
  apply sort_by_spec in H as (Hp & r & <- & Hs & Hk); [|exact version_leb_total | exact version_leb_trans].
  split; [exact Hp|]. pose proof (pop_unstable_spec a svn_cat (rev (snd <$> r))) as Hpop.
  destruct (pop_unstable a svn_cat _) as [x|e].
  - destruct Hpop as (l1 & l2 & E & Hx & H1).
    assert (E' : snd <$> r = (rev l2 ++ x :: rev l1)%list).
    { rewrite <- (rev_involutive (snd <$> r)), E, rev_app_distr. cbn. by rewrite <- app_assoc. }
    split_and!; [rewrite E'; apply in_or_app; right; by left | exact Hx|].
    intros r' Hin Hav. apply list_elem_of_In, list_elem_of_fmap in Hin as ([k' ?] & -> & Hin). cbn [snd] in *.
    apply fmap_app_inv in E' as (ra & rb & Ea & Eb & ->).
    apply eq_sym, fmap_cons_inv in Eb as ([k y] & rc & -> & Ec & ->). cbn [snd] in *.
    assert (Hkk : forall p, p ∈ (ra ++ (k, y) :: rc)%list -> parse_version p.2 = Ok p.1)
      by (by apply Forall_forall).
    exists k, k'. split; [apply (Hkk (k, y)); set_solver|]. split; [by apply (Hkk (k', _))|].
    apply StronglySorted_app in Hs as (Hab & _ & _).
    apply elem_of_app in Hin as [Hin|[Hin|Hin]%elem_of_cons].
    + apply (Hab (k', s) (k, y)); [done | by left].
    + injection Hin as -> ->. by destruct (version_leb_total k k).
    + exfalso. apply Forall_forall with (x := s) in H1; [congruence|].
      apply list_elem_of_In. rewrite in_rev. apply list_elem_of_In. rewrite Ec. apply list_elem_of_fmap. by exists (k', s).
  - destruct Hpop as [-> Hf]. split; [done|]. intros r' Hin. apply (proj1 (Forall_forall (fun x => available a svn_cat x = false) _) Hf).
    apply list_elem_of_In. by rewrite <- in_rev.
Qed.

Definition example_args : Prebuilt := {|
  owner := "timvideos"; repo := "HDMI2USB-firmware-prebuilt"; branch := "master";
  full_platform := "opsis"; target := "hdmi2usb"; full_cpu := "lm32" |}.

(** Checksums only up to the ninth commit behind the tag. *)
Definition example_svn (p : string) : option string :=
  if startswith p "v0.0.3-10-" then None else Some "0123  ./image.bin".

Lemma unstable_is_latest_witness :
  let l := ["v0.0.3-10-g5/"; "v0.0.3/"; "v0.0.3-9-g1/"] in
  sorted_revs l = Ok ["v0.0.3"; "v0.0.3-9-g1"; "v0.0.3-10-g5"] /\
  pop_unstable example_args example_svn (rev ["v0.0.3"; "v0.0.3-9-g1"; "v0.0.3-10-g5"]) = Ok "v0.0.3-9-g1" /\
  available example_args example_svn "v0.0.3-9-g1" = true.
Proof.
  intros l. assert (H : sorted_revs l = Ok ["v0.0.3"; "v0.0.3-9-g1"; "v0.0.3-10-g5"]) by (vm_compute; reflexivity).
  split; [exact H|].
  assert (E : pop_unstable example_args example_svn (rev ["v0.0.3"; "v0.0.3-9-g1"; "v0.0.3-10-g5"]) = Ok "v0.0.3-9-g1")
    by (vm_compute; reflexivity).
  split; [exact E|].
  pose proof (proj2 (unstable_is_latest example_args example_svn l _ H)) as P. exact (proj1 (proj2 P)).
Defined.

(** Tags are compared as text: the tenth release counts as earlier than the
    ninth. *)
Example tags_as_text : sorted_revs ["v0.0.10/"; "v0.0.9/"] = Ok ["v0.0.10"; "v0.0.9"].
Proof. vm_compute. reflexivity. Qed.

(** A revision that is not a tag or a description of one stops the script. *)
Example odd_revision_fails : sorted_revs ["v0.0.3/"; "v0.0.4-rc1/"] = Raise ValueError.
Proof. vm_compute. reflexivity. Qed.
