(* ===== verification/PrebuiltSite.v ===== *)
(** * Publishing the index of prebuilt firmware ([.travis/generate-prebuilt-list.py])

    What the script does around the versions and channels of [PrebuiltList]:
    its arguments, the [svn] commands, the working copy it writes to, the walk
    over it, and whether it commits. [svn], [sha256sum] and the spreadsheet are
    parameters; the working copy is a tree of directories without links. *)
From stdpp Require Import sorting.
From S2P Require Import Prelude PyStr Paths.
From S2P Require PrebuiltList.
From Stdlib Require Import Sorted.
#[local] Open Scope string_scope.
#[local] Open Scope py_scope.
#[local] Set Warnings "-register-all,-clear-no-such-hyp".

(** ** Arguments *)

Record Environ := {
  TRAVIS_REPO_SLUG : option string; TRAVIS_BRANCH : option string; FULL_PLATFORM : option string;
  TARGET : option string; FULL_CPU : option string; GH_USER : option string; GH_TOKEN : option string;
  OUTDIR : option string
}.

(** Options of the command line, [None] where not given; after [parse_args],
    [None] where there is no default either. *)
Record Args := {
  repo : option string; owner : option string; branch : option string; full_platform : option string;
  target : option string; full_cpu : option string; gh_user : option string; gh_token : option string;
  outdir : option string
}.

Definition prebuilt_repo_name : string := "HDMI2USB-firmware-prebuilt".

(** [slug.split('/', 1)[0]]. *)
Definition prebuilt_repo_owner (slug : option string) : option string :=
  if otruthy slug then head (split_at "/" (default "" slug)) else None.

Definition given (cli dflt : option string) : option string := match cli with Some _ => cli | None => dflt end.

Definition parse_args (e : Environ) (cli : Args) : Args := {|
  repo := given (repo cli) (Some prebuilt_repo_name);
  owner := given (owner cli) (prebuilt_repo_owner (TRAVIS_REPO_SLUG e));
  branch := given (branch cli) (TRAVIS_BRANCH e);
  full_platform := given (full_platform cli) (FULL_PLATFORM e);
  target := given (target cli) (TARGET e);
  full_cpu := given (full_cpu cli) (FULL_CPU e);
  gh_user := given (gh_user cli) (GH_USER e);
  gh_token := given (gh_token cli) (GH_TOKEN e);
  outdir := given (outdir cli) (OUTDIR e)
|}.

(** What is left of the arguments after the assertions. *)
Record Job := { prebuilt : PrebuiltList.Prebuilt; user : string; token : string }.

Definition check_args (a : Args) : result Job :=
  py_assert (otruthy (repo a));;
  py_assert (otruthy (owner a));;
  py_assert (bool_decide (branch a = Some "master"));;
  py_assert (otruthy (gh_user a));;
  py_assert (otruthy (gh_token a));;
  py_assert (otruthy (full_platform a));;
  py_assert (otruthy (target a));;
  py_assert (otruthy (full_cpu a));;
  Ok {| prebuilt := {|
          PrebuiltList.owner := default "" (owner a); PrebuiltList.repo := default "" (repo a);
          PrebuiltList.branch := default "" (branch a); PrebuiltList.full_platform := default "" (full_platform a);
          PrebuiltList.target := default "" (target a); PrebuiltList.full_cpu := default "" (full_cpu a) |};
        user := default "" (gh_user a); token := default "" (gh_token a) |}.

(** ** Commands *)

Section commands.
Context (j : Job).

Definition github : string :=
  "https://github.com/" +++ PrebuiltList.owner (prebuilt j) +++ "/" +++ PrebuiltList.repo (prebuilt j).

Definition svn_base_url : string := github +++ "/trunk/archive/" +++ PrebuiltList.branch (prebuilt j).
Definition pre_base_url : string := github +++ "/branches/gh-pages".
Definition svn_args : string := "--non-interactive --username " +++ user j +++ " --password " +++ token j.

(** Every command is text split at white space. *)
Definition svn_list : list string := fields ("svn list " +++ svn_args +++ " " +++ svn_base_url).

Definition svn_cat (path : string) : list string :=
  fields ("svn cat " +++ svn_args +++ " " +++ svn_base_url +++ "/" +++ path).

Definition svn_checkout : list string := fields ("svn checkout " +++ svn_args +++ " -q " +++ pre_base_url).
Definition svn_commit (file : string) : list string := fields ("svn commit " +++ svn_args +++ " --file " +++ file).
End commands.

Definition svn_add : list string := ["svn"; "add"; "--parents"; "--force"].
Definition svn_status : list string := fields "svn status -u --depth infinity".
Definition svn_diff : list string := fields "svn diff .".

(** [s.splitlines()]: lines end at a line feed, a carriage return, both, or one
    of five other control characters; there is no line after the last end. *)
Definition line_break (c : ascii) : bool :=
  let n := nat_of_ascii c in ((10 <=? n)%nat && (n <=? 13)%nat) || ((28 <=? n)%nat && (n <=? 30)%nat).

Fixpoint splitlines (s : string) : list string :=
  match s with
  | EmptyString => []
  | String c s' =>
      if Ascii.eqb c (ascii_of_nat 13) && startswith s' newline then splitlines s'
      else if line_break c then "" :: splitlines s'
      else match splitlines s' with
           | [] => [String c ""]
           | w :: ws => String c w :: ws
           end
  end.

(** ** The working copy *)

Inductive node := File (content : string) | Dir (entries : list (string * node)).

(** What the file at a path, given by its names, contains. *)
Fixpoint file_at (p : list string) (n : node) : option string :=
  match p, n with
  | [], File c => Some c
  | d :: p, Dir es => match getitem es d with Some n => file_at p n | None => None end
  | _, _ => None
  end.

Fixpoint set_entry (f : string) (n : node) (es : list (string * node)) : list (string * node) :=
  match es with
  | [] => [(f, n)]
  | (g, m) :: es => if String.eqb f g then (f, n) :: es else (g, m) :: set_entry f n es
  end.

(** [open(path, 'w')] and what is written to it. *)
Fixpoint write_file (p : list string) (c : string) (n : node) : result node :=
  match n with
  | File _ => Raise NotADirectoryError
  | Dir es =>
      match p with
      | [] => Raise IsADirectoryError
      | [f] =>
          match getitem es f with
          | Some (Dir _) => Raise IsADirectoryError
          | _ => Ok (Dir (set_entry f (File c) es))
          end
      | d :: p =>
          match getitem es d with
          | None => Raise FileNotFoundError
          | Some m => m ← write_file p c m; Ok (Dir (set_entry d m es))
          end
      end
  end.

(** [os.makedirs(path, exist_ok=True)]. *)
Fixpoint makedirs (p : list string) (n : node) : result node :=
  match p, n with
  | [], Dir _ => Ok n
  | [], File _ => Raise FileExistsError
  | _ :: _, File _ => Raise NotADirectoryError
  | d :: p, Dir es =>
      m ← makedirs p (default (Dir []) (getitem es d));
      Ok (Dir (set_entry d m es))
  end.

Definition names (path : string) : list string := split_at "/" path.

Fixpoint write_files (l : list (string * string)) (n : node) : result node :=
  match l with
  | [] => Ok n
  | (path, c) :: l => n ← write_file (names path) c n; write_files l n
  end.

(** *** [os.walk] *)

Definition dirs_of (es : list (string * node)) : list string :=
  omap (fun e => match snd e with Dir _ => Some (fst e) | File _ => None end) es.

Definition files_of (es : list (string * node)) : list string :=
  omap (fun e => match snd e with File _ => Some (fst e) | Dir _ => None end) es.

(** [os.walk(root)] from the top: the loop may change the list of directories
    ([prune]) before the walk goes into those that are left. *)
Fixpoint walk (prune : list string -> list string) (n : node) : string -> list (string * list string * list string) :=
  match n with
  | File _ => fun _ => []
  | Dir es => fun root =>
      let sub := (fun e => (fst e, walk prune (snd e))) <$> es in
      let dirs := prune (dirs_of es) in
      (root, dirs, files_of es) ::
      (dirs ≫= fun d => match getitem sub d with Some w => w (path_join root d) | None => [] end)
  end.

(** [l.remove(x)] *)
Fixpoint remove_first (x : string) (l : list string) : list string :=
  match l with
  | [] => []
  | y :: l => if String.eqb x y then l else y :: remove_first x l
  end.

Definition hidden (d : string) : bool := startswith d ".".

Definition prune_hidden (dirs : list string) : list string :=
  let skip_dirs := List.filter hidden dirs in
  fold_left (fun ds d => remove_first d ds) skip_dirs dirs.

Definition is_index (f : string) : bool := String.eqb f "index.txt".

Definition walked (t : list (string * list string * list string)) : list string :=
  t ≫= fun x => let '(root, _, files) := x in path_join root <$> List.filter (fun f => negb (is_index f)) files.

Definition all_files (n : node) : list string := sort_strings (walked (walk prune_hidden n ".")).

(** ** The script *)

(** What is outside: the commands that change something, or look at the working
    copy, see it and the commands before; the archive answers the same to the
    same question. [None]: the command fails. *)
Record World := {
  archive : list string -> option string;
  svn : list (list string) -> node -> list string -> option string;
  spreadsheet : list (list string);
  checkout : node;
  sha256sum : list string -> node -> option string
}.

Record State := { commands : list (list string); site : node; message : option string }.

Definition called (o : option string) : result string :=
  match o with Some out => Ok out | None => Raise CalledProcessError end.

Section script.
Context (w : World).

Definition call (cmd : list string) (s : State) : result (string * State) :=
  out ← called (svn w (commands s) (site s) cmd);
  Ok (out, {| commands := (commands s ++ [cmd])%list; site := site s; message := message s |}).

Definition write (path c : string) (s : State) : result State :=
  n ← write_file (names path) c (site s);
  Ok {| commands := commands s; site := n; message := message s |}.

(** The working copy of gh-pages, checked out unless the directory has one. *)
Definition get_site (j : Job) (tmpdir : list (string * node)) : result State :=
  let s commands site := {| commands := commands; site := site; message := None |} in
  match getitem tmpdir "gh-pages" with
  | Some n => Ok (s [] n)
  | None =>
      _ ← called (svn w [] (Dir tmpdir) (svn_checkout j));
      Ok (s [svn_checkout j] (checkout w))
  end.

(** The files of the revisions and channels; the directory for all but the
    first is made on the way. *)
Definition write_channels (j : Job) (files : list (string * string)) (s : State) : result State :=
  match files with
  | [] => Ok s
  | (revs_txt, c) :: files =>
      s ← write revs_txt c s;
      n ← makedirs (names (PrebuiltList.out_dir (prebuilt j))) (site s);
      n ← write_files files n;
      Ok {| commands := commands s; site := n; message := message s |}
  end.

(** The index of all files; opening it empties it before [sha256sum] runs. *)
Definition write_index (s : State) : result State :=
  let fs := all_files (site s) in
  s ← write "index.txt" "" s;
  c ← called (sha256sum w fs (site s));
  write "index.txt" c s.

Definition commit_message (build : option string) : string :=
  "Updating channels (in Travis build " +++ default "None" build +++ ")" +++ newline.

(** Everything is added again, and committed unless the status is one line. *)
Definition commit (j : Job) (build : option string) (tmpfile : string) (fs : list string) (s : State) : result State :=
  '(_, s) ← call (svn_add ++ fs)%list s;
  '(_, s) ← call (svn_add ++ ["index.txt"])%list s;
  '(changes, s) ← call svn_status s;
  '(_, s) ← call svn_diff s;
  if (length (splitlines changes) =? 1)%nat then Ok s
  else
    '(_, s) ← call (svn_commit j tmpfile) s;
    Ok {| commands := commands s; site := site s; message := Some (commit_message build) |}.

(** The script, in a temporary directory or the one given, [build] being the
    Travis build number. *)
Definition publish (e : Environ) (cli : Args) (build : option string) (tmpfile : string)
    (tmpdir : list (string * node)) : result State :=
  j ← check_args (parse_args e cli);
  revs_data ← called (archive w (svn_list j));
  files ← PrebuiltList.main (prebuilt j) (fun path => archive w (svn_cat j path)) (splitlines revs_data) (spreadsheet w);
  s ← get_site j tmpdir;
  s ← write_channels j files s;
  let fs := all_files (site s) in
  s ← write_index s;
  commit j build tmpfile fs s.
End script.

(** ** Theorems *)

(** A tree of directories: the names in each are different and are names. *)
Inductive wf : node -> Prop :=
| wf_file c : wf (File c)
| wf_dir (es : list (string * node)) :
    NoDup (fst <$> es) -> Forall component (fst <$> es) ->
    (forall d n, getitem es d = Some n -> wf n) -> wf (Dir es).

(** Not in a hidden directory, and not an index. *)
Fixpoint visible (p : list string) : bool :=
  match p with
  | [] => false
  | [f] => negb (is_index f)
  | d :: p => negb (hidden d) && visible p
  end.

Lemma remove_skipped (skip : string -> bool) dirs :
  fold_left (fun ds d => remove_first d ds) (List.filter skip dirs) dirs = List.filter (fun d => negb (skip d)) dirs.
Proof.
  induction dirs as [|d ds IH]; [done|]. cbn [List.filter]. destruct (skip d) eqn:Hd; cbn [negb fold_left remove_first].
  - rewrite String.eqb_refl. exact IH.
  - rewrite <- IH. assert (Hs : Forall (fun x => x <> d) (List.filter skip ds)).
    { apply Forall_forall. intros x Hx%list_elem_of_In%filter_In ->. destruct Hx as [_ Hx]. congruence. }
    revert Hs. generalize (List.filter skip ds) as l. intros l Hl. clear IH. revert ds.
    induction Hl as [|x l Hx _ IHl]; intros ds; [done|]. cbn [fold_left remove_first].
    rewrite (proj2 (String.eqb_neq x d) Hx). apply IHl.
Qed.

Lemma getitem_map {A B} (f : A -> B) (l : list (string * A)) k :
  getitem ((fun e => (fst e, f (snd e))) <$> l) k = f <$> getitem l k.
Proof. induction l as [|[k' v] l IH]; [done|]. rewrite fmap_cons. cbn [getitem fst snd]. by destruct (String.eqb k k'). Qed.

Lemma walked_dir es root :
  walked (walk prune_hidden (Dir es) root) =
  ((path_join root <$> List.filter (fun f => negb (is_index f)) (files_of es)) ++
   (List.filter (fun d => negb (hidden d)) (dirs_of es) ≫= fun d =>
      match getitem es d with Some n => walked (walk prune_hidden n (path_join root d)) | None => [] end))%list.
Proof.
  cbn [walk]. rewrite <- (remove_skipped hidden). fold (prune_hidden (dirs_of es)).
  unfold walked at 1. rewrite bind_cons. f_equal.
  generalize (prune_hidden (dirs_of es)) as ds. induction ds as [|d ds IH]; [done|].
  rewrite bind_cons, bind_app, IH. rewrite bind_cons. f_equal.
  rewrite getitem_map. by destruct (getitem es d).
Qed.

Lemma in_files (es : list (string * node)) f : NoDup (fst <$> es) -> f ∈ files_of es <-> exists c, getitem es f = Some (File c).
Proof.
  intros Hn. unfold files_of. rewrite list_elem_of_omap. split.
  - intros ([g n] & Hin & E). cbn [fst snd] in E. destruct n as [c|]; [|done]. injection E as ->.
    exists c. apply getitem_unique; [done|]. by apply list_elem_of_In.
  - intros [c H]. exists (f, File c). split; [|done]. by apply list_elem_of_In, getitem_in.
Qed.

Lemma in_dirs (es : list (string * node)) d : NoDup (fst <$> es) -> d ∈ dirs_of es <-> exists es', getitem es d = Some (Dir es').
Proof.
  intros Hn. unfold dirs_of. rewrite list_elem_of_omap. split.
  - intros ([g n] & Hin & E). cbn [fst snd] in E. destruct n as [|es']; [done|]. injection E as ->.
    exists es'. apply getitem_unique; [done|]. by apply list_elem_of_In.
  - intros [es' H]. exists (d, Dir es'). split; [|done]. by apply list_elem_of_In, getitem_in.
Qed.

Lemma elem_filter (P : string -> bool) x l : x ∈ List.filter P l <-> x ∈ l /\ P x = true.
Proof. by rewrite !list_elem_of_In, filter_In. Qed.

Lemma getitem_component (es : list (string * node)) d n : Forall component (fst <$> es) -> getitem es d = Some n -> component d.
Proof. intros Hc H%getitem_in%key_in. by apply (Forall_forall component (fst <$> es)). Qed.

Lemma file_at_component p n c : wf n -> file_at p n = Some c -> Forall component p.
Proof.
  intros Hw. revert p. induction Hw as [c'|es Hn Hc _ IH]; intros p H; destruct p as [|d p]; try done.
  cbn [file_at] in H. destruct (getitem es d) as [n|] eqn:E; [|done]. constructor; [|by eapply IH].
  by eapply getitem_component.
Qed.

Lemma join_name root d : rooted root -> component d -> path_join root d = root +++ path_of [d].
Proof. intros Hr Hd. pose proof (join_component root d "" Hr Hd) as E. rewrite append_nil_r in E. rewrite E. cbn [path_of foldr]. by rewrite append_nil_r. Qed.

Lemma join_rooted root d : rooted root -> component d -> rooted (root +++ path_of [d]).
Proof. intros Hr Hd. apply path_rooted; [done|]. by constructor. Qed.

(** What the walk from [root] lists. *)
Lemma walked_spec n root s : wf n -> rooted root ->
  s ∈ walked (walk prune_hidden n root) <->
  exists p, visible p = true /\ is_Some (file_at p n) /\ s = root +++ path_of p.
Proof.
  intros Hw. revert root s. induction Hw as [c|es Hn Hc Hw IH]; intros root s Hr.
  - split; [intros H; by apply elem_of_nil in H|]. intros (p & Hv & [c' Hf] & _). by destruct p.
  - rewrite walked_dir, elem_of_app. split.
    + intros [(f & -> & Hf)%list_elem_of_fmap|(d & Hs & Hd)%list_elem_of_bind].
      * apply elem_filter in Hf as [[c Hf]%in_files Hi]; [|done]. exists [f]. cbn [visible file_at]. rewrite Hf.
        split_and!; [done | done | apply join_name; [done | by eapply getitem_component]].
      * apply elem_filter in Hd as [[es' Hd]%in_dirs Hh]; [|done]. rewrite Hd in Hs.
        pose proof (getitem_component es d _ Hc Hd) as Hcd. rewrite (join_name root d Hr Hcd) in Hs.
        apply (IH d _ Hd) in Hs as (p & Hv & Hf & ->); [|by apply join_rooted].
        exists (d :: p). cbn [file_at]. rewrite Hd. split_and!; [|done|].
        -- cbn [visible]. destruct p; [done|]. by rewrite Hh, Hv.
        -- rewrite append_assoc, <- path_of_app. done.
    + intros (p & Hv & [c Hf] & ->). destruct p as [|f p]; [done|]. cbn [file_at] in Hf.
      destruct (getitem es f) as [m|] eqn:Hm; [|done]. pose proof (getitem_component es f _ Hc Hm) as Hcf.
      destruct p as [|g p].
      * left. destruct m as [c'|]; [|done]. apply list_elem_of_fmap. exists f.
        split; [symmetry; by apply join_name|]. apply elem_filter. split; [apply in_files; eauto | done].
      * right. destruct m as [c'|es']; [done|]. cbn [visible] in Hv. apply andb_true_iff in Hv as [Hh Hv].
        apply list_elem_of_bind. exists f. rewrite Hm. split; [|apply elem_filter; split; [apply in_dirs; eauto | done]].
        rewrite (join_name root f Hr Hcf). apply (IH f _ Hm); [by apply join_rooted|].
        exists (g :: p). split_and!; [done | by exists c|]. rewrite append_assoc, <- path_of_app. done.
Qed.

Lemma omap_names_nodup {A} (f : string * A -> option string) (es : list (string * A)) :
  (forall e x, f e = Some x -> x = fst e) -> NoDup (fst <$> es) -> NoDup (omap f es).
Proof.
  intros Hf. induction es as [|e es IH]; [by constructor|]. rewrite fmap_cons. intros [He Hn]%NoDup_cons.
  cbn. destruct (f e) as [x|] eqn:E; [|by apply IH]. constructor; [|by apply IH].
  apply Hf in E as ->. intros (e' & Hin & E%Hf)%list_elem_of_omap. apply He. apply list_elem_of_fmap. by exists e'.
Qed.

Lemma NoDup_filter_list (P : string -> bool) (l : list string) : NoDup l -> NoDup (List.filter P l).
Proof. rewrite !NoDup_ListNoDup. apply List.NoDup_filter. Qed.

Lemma entries_nodup (es : list (string * node)) : NoDup (fst <$> es) -> NoDup (files_of es) /\ NoDup (dirs_of es).
Proof. split; (apply omap_names_nodup; [|done]); intros [d []] x; by intros [= <-]. Qed.

(** Nothing is listed twice. *)
Lemma walked_nodup n root : wf n -> rooted root -> NoDup (walked (walk prune_hidden n root)).
Proof.
  intros Hw. revert root. induction Hw as [c|es Hn Hc Hw IH]; intros root Hr; [constructor|].
  rewrite walked_dir. destruct (entries_nodup es Hn) as [Hf Hd].
  pose proof (fun f => proj1 (in_files es f Hn)) as Hif. pose proof (fun d => proj1 (in_dirs es d Hn)) as Hid.
  assert (Hcomp : forall d es', getitem es d = Some (Dir es') -> component d)
    by (intros d es'; by apply getitem_component).
  assert (Hsub : forall d es', getitem es d = Some (Dir es') ->
    forall s, s ∈ walked (walk prune_hidden (Dir es') (path_join root d)) -> exists p, p <> [] /\ Forall component (d :: p) /\ s = root +++ path_of (d :: p)).
  { intros d es' E s Hs. rewrite (join_name root d Hr (Hcomp d es' E)) in Hs.
    apply walked_spec in Hs as (p & Hv & [c Hf'] & ->); [|by eapply Hw | apply join_rooted; by eauto].
    exists p. split; [by destruct p|]. split; [|by rewrite append_assoc, <- path_of_app].
    constructor; [by eapply Hcomp|]. eapply file_at_component; [by eapply Hw | exact Hf']. }
  apply NoDup_app. split_and!.
  - apply NoDup_fmap_2_strong; [|by apply NoDup_filter_list].
    intros f g [[cf Hf1]%Hif _]%elem_filter [[cg Hg1]%Hif _]%elem_filter E.
    pose proof (getitem_component es f _ Hc Hf1). pose proof (getitem_component es g _ Hc Hg1).
    rewrite !join_name in E by done. apply path_of_inj in E; [by injection E | by apply Forall_singleton..].
  - intros s (f & -> & [[c Hf1]%Hif _]%elem_filter)%list_elem_of_fmap (d & Hs & [[es' E]%Hid _]%elem_filter)%list_elem_of_bind.
    rewrite E in Hs. apply (Hsub d es' E) in Hs as (p & Hp & Hcp & E').
    pose proof (getitem_component es f _ Hc Hf1). rewrite join_name in E' by done.
    apply path_of_inj in E'; [|by apply Forall_singleton|done]. by injection E' as -> <-.
  - apply NoDup_bind; [| |by apply NoDup_filter_list].
    + intros d e s [[es1 E1]%Hid _]%elem_filter [[es2 E2]%Hid _]%elem_filter H1 H2.
      rewrite E1 in H1. rewrite E2 in H2. apply (Hsub d es1 E1) in H1 as (p & _ & Hp & ->).
      apply (Hsub e es2 E2) in H2 as (q & _ & Hq & E). apply path_of_inj in E; [by injection E | done..].
    + intros d [[es' E]%Hid _]%elem_filter. rewrite E, join_name by (done || by eapply Hcomp).
      apply (IH d _ E). apply join_rooted; by eauto.
Qed.

Lemma all_files_spec n : wf n ->
  StronglySorted str_le (all_files n) /\ NoDup (all_files n) /\
  forall s, s ∈ all_files n <-> exists p, visible p = true /\ is_Some (file_at p n) /\ s = "." +++ path_of p.
Proof.
  intros Hw. assert (Hr : rooted ".") by done. unfold all_files. split_and!.
  - apply sort_strings_sorted.
  - rewrite sort_strings_perm. by apply walked_nodup.
  - intros s. rewrite sort_strings_perm. by apply walked_spec.
Qed.

(** Trees with the same files have the same list. *)
Lemma all_files_ext n n' :
  wf n -> wf n' -> (forall p, visible p = true -> is_Some (file_at p n) <-> is_Some (file_at p n')) -> all_files n = all_files n'.
Proof.
  intros H1 H2 He. destruct (all_files_spec n H1) as (S1 & D1 & M1), (all_files_spec n' H2) as (S2 & D2 & M2).
  assert (Ha : AntiSymm (=) str_le) by (intros x y; apply str_leb_antisym).
  apply (StronglySorted_unique str_le); [done..|]. apply NoDup_Permutation; [done..|].
  intros s. rewrite M1, M2. by split; intros (p & Hv & Hf & ->); exists p; rewrite ?He in *; rewrite <- ?He in *.
Qed.

(** *** Writing *)

Lemma getitem_set f n (es : list (string * node)) g :
  getitem (set_entry f n es) g = if String.eqb g f then Some n else getitem es g.
Proof.
  induction es as [|[h m] es IH]; cbn [set_entry getitem]; [done|].
  destruct (String.eqb_spec f h) as [->|Hf]; cbn [getitem].
  - by destruct (String.eqb g h).
  - destruct (String.eqb_spec g h) as [->|Hg]; [|exact IH]. by rewrite (proj2 (String.eqb_neq h f)).
Qed.

Lemma set_names f n (es : list (string * node)) g : g ∈ fst <$> set_entry f n es -> g = f \/ g ∈ fst <$> es.
Proof.
  induction es as [|[h m] es IH]; cbn [set_entry]; [rewrite fmap_cons; cbn; set_solver|].
  destruct (String.eqb_spec f h) as [->|Hf]; rewrite !fmap_cons; cbn [fst]; set_solver.
Qed.

Lemma wf_set f n (es : list (string * node)) : wf (Dir es) -> component f -> wf n -> wf (Dir (set_entry f n es)).
Proof.
  intros H Hf Hn. inversion H as [|? Hd Hc Hw]; subst. constructor.
  - clear -Hd. induction es as [|[h m] es IH]; [repeat constructor; set_solver|]. cbn [set_entry].
    rewrite fmap_cons in Hd. apply NoDup_cons in Hd as [Hh Hd]. cbn [fst] in Hh.
    destruct (String.eqb_spec f h) as [->|Hf]; rewrite fmap_cons; (constructor; [|by auto]); [done|].
    cbn [fst]. intros [->|?]%set_names; [done|]. by apply Hh.
  - apply Forall_forall. intros g [->|Hg]%set_names; [done|]. by apply (Forall_forall component (fst <$> es)).
  - intros d m. rewrite getitem_set. destruct (String.eqb d f); [by intros [= <-]|]. apply Hw.
Qed.

(** Writing a file changes that file and no other. *)
Lemma write_file_spec p c n n' : wf n -> Forall component p -> write_file p c n = Ok n' ->
  wf n' /\ file_at p n' = Some c /\ forall q, q <> p -> file_at q n' = file_at q n.
Proof.
  intros Hw. revert p n'. induction Hw as [c'|es Hn Hc Hw IH]; intros p n' Hp H; [by destruct p|].
  assert (Hes : wf (Dir es)) by by constructor.
  destruct p as [|f p]; [done|]. pose proof Hp as [Hf Hp']%Forall_cons. cbn [write_file] in H. destruct p as [|g p].
  - assert (Hfile : forall q, q <> [] -> match getitem es f with Some n => file_at q n | None => None end = None /\ Ok (Dir (set_entry f (File c) es)) = Ok n').
    { clear -H. revert H. destruct (getitem es f) as [[c0|es0]|]; [|done|]; intros H [|x q] Hq; try done; by split. }
    destruct (Hfile ["."]) as [_ [= <-]]; [done|]. split; [apply wf_set; [done | done | constructor]|]. split.
    + cbn [file_at]. by rewrite getitem_set, String.eqb_refl.
    + intros [|d q] Hq; [done|]. cbn [file_at]. rewrite getitem_set. destruct (String.eqb_spec d f) as [->|]; [|done].
      destruct q as [|x q]; [done|]. cbn [file_at]. symmetry. by apply (Hfile (x :: q)).
  - destruct (getitem es f) as [m|] eqn:Em; [|done]. apply bind_ok in H as (m' & H & [= <-]).
    destruct (IH f m Em (g :: p) m' Hp' H) as (Hm' & Hat & Hother). split; [by apply wf_set|]. split.
    + cbn [file_at]. by rewrite getitem_set, String.eqb_refl.
    + intros [|d q] Hq; [done|]. cbn [file_at]. rewrite getitem_set. destruct (String.eqb_spec d f) as [->|]; [|done].
      rewrite Em. apply Hother. congruence.
Qed.

Lemma empty_dir q : file_at q (Dir []) = None.
Proof. by destruct q. Qed.

(** Making directories changes no file. *)
Lemma makedirs_spec p n n' : wf n -> Forall component p -> makedirs p n = Ok n' ->
  wf n' /\ forall q, file_at q n' = file_at q n.
Proof.
  revert n n'. induction p as [|d p IH]; intros n n' Hw Hp H; destruct n as [c|es]; try done.
  - by injection H as <-.
  - apply Forall_cons in Hp as [Hd Hp]. cbn [makedirs] in H. apply bind_ok in H as (m & H & [= <-]).
    assert (Hm : wf (default (Dir []) (getitem es d))).
    { inversion Hw as [|? _ _ Hs]; subst. destruct (getitem es d) eqn:E; [by eapply Hs|].
      constructor; [constructor | constructor | done]. }
    destruct (IH _ m Hm Hp H) as [Hwm Hsame]. split; [by apply wf_set|].
    intros [|e q]; [done|]. cbn [file_at]. rewrite getitem_set. destruct (String.eqb_spec e d) as [->|]; [|done].
    rewrite Hsame. destruct (getitem es d); [done|]. apply empty_dir.
Qed.

Lemma write_files_spec l n n' : wf n -> Forall (fun f => Forall component (names (fst f))) l ->
  NoDup ((fun f => names (fst f)) <$> l) -> write_files l n = Ok n' ->
  wf n' /\ (forall path c, (path, c) ∈ l -> file_at (names path) n' = Some c) /\
  forall q, q ∉ ((fun f => names (fst f)) <$> l) -> file_at q n' = file_at q n.
Proof.
  revert n. induction l as [|[path c] l IH]; intros n Hw Hc Hd H.
  - injection H as <-. split_and!; [done | intros ? ? H; by apply elem_of_nil in H | done].
  - apply Forall_cons in Hc as [Hp Hc]. rewrite fmap_cons in Hd. apply NoDup_cons in Hd as [Hnew Hd]. cbn [fst] in *.
    cbn [write_files] in H. apply bind_ok in H as (n1 & H1 & H).
    destruct (write_file_spec _ _ _ _ Hw Hp H1) as (Hw1 & Hat & Hother).
    destruct (IH n1 Hw1 Hc Hd H) as (Hw' & Hall & Hrest). split_and!; [done| |].
    + intros path' c' [[= -> ->]|Hin]%elem_of_cons; [|by apply Hall]. by rewrite Hrest.
    + intros q Hq. rewrite fmap_cons in Hq. apply not_elem_of_cons in Hq as [Hq Hq']. cbn [fst] in Hq.
      rewrite Hrest by done. by apply Hother.
Qed.

(** *** The files of the channels *)

Lemma channel_names (rows : list (list string)) m m' (P : string -> Prop) :
  (forall i name, i ∈ rows -> i !! 3%nat = Some name -> P name) ->
  (forall name rev, m !! name = Some rev -> P name) ->
  PrebuiltList.get_channel_spreadsheet m rows = Ok m' ->
  forall name rev, m' !! name = Some rev -> P name.
Proof.
  revert m. induction rows as [|i rows IH]; intros m Hr Hm H; [by injection H as <-|].
  cbn [PrebuiltList.get_channel_spreadsheet] in H. apply bind_ok in H as (o & Ho & H).
  assert (Hr' : forall i name, i ∈ rows -> i !! 3%nat = Some name -> P name)
    by (intros i' name Hi; apply Hr; by right).
  destruct o as [[name rev]|]; [|by apply (IH m)].
  apply bind_ok in H as (u & _ & H). apply (IH (<[name:=rev]> m)); [done| |done].
  intros name' rev' [[-> ->]|[_ E]]%lookup_insert_Some; [|by eapply Hm].
  apply (Hr i); [by left|]. unfold PrebuiltList.channel_row in Ho. destruct i as [|a [|b [|x [|y [|z i]]]]]; try done;
    cbn in *; destruct (String.eqb a "GitHub"); try done; cbn in Ho. by destruct (truthy y); [injection Ho as -> ->|].
Qed.

(** A name that is not hidden. *)
Definition plain (c : string) : Prop := component c /\ hidden c = false.

Definition place (a : PrebuiltList.Prebuilt) : list string :=
  [PrebuiltList.full_platform a; PrebuiltList.target a; PrebuiltList.full_cpu a].

Lemma place_names a x : Forall plain (place a) -> component x ->
  PrebuiltList.out_dir a = PrebuiltList.full_platform a +++ path_of [PrebuiltList.target a; PrebuiltList.full_cpu a] /\
  names (PrebuiltList.out_dir a) = place a /\
  names (path_join (PrebuiltList.out_dir a) x) = (place a ++ [x])%list /\
  path_join (PrebuiltList.out_dir a) x = PrebuiltList.full_platform a +++ path_of [PrebuiltList.target a; PrebuiltList.full_cpu a; x].
Proof.
  intros Hp Hx. apply Forall_cons in Hp as [[Hf _] Hp]. apply Forall_cons in Hp as [[Ht _] Hp].
  apply Forall_singleton in Hp as [Hc _].
  assert (E : PrebuiltList.out_dir a = PrebuiltList.full_platform a +++ path_of [PrebuiltList.target a; PrebuiltList.full_cpu a]).
  { unfold PrebuiltList.out_dir. rewrite (join_name _ _ (component_rooted _ Hf) Ht).
    rewrite join_name; [|by apply path_rooted; [apply component_rooted | apply Forall_singleton] | done].
    by rewrite append_assoc, <- path_of_app. }
  split; [exact E|]. rewrite E. assert (Hn : has_char "/" (PrebuiltList.full_platform a) = false) by apply Hf.
  assert (Htc : Forall component [PrebuiltList.target a; PrebuiltList.full_cpu a]) by (constructor; [done | by apply Forall_singleton]).
  split; [by apply split_path_of|].
  rewrite join_name; [|by apply path_rooted; [apply component_rooted|] | done].
  rewrite append_assoc, <- path_of_app. split; [|done].
  apply split_path_of; [done|]. apply Forall_app. split; [done | by apply Forall_singleton].
Qed.

Lemma main_files a cat l rows files : PrebuiltList.main a cat l rows = Ok files ->
  exists chans c1 c2, files =
    (("revs.txt", c1) :: (path_join (PrebuiltList.out_dir a) "channels.txt", c2) ::
     omap (fun cr => match PrebuiltList.get_sha256sum a cat (snd cr) with
                     | Some lines => if truthy lines then Some (path_join (PrebuiltList.out_dir a) (fst cr +++ ".sha256sum"), lines) else None
                     | None => None
                     end) (sorted_items (map_to_list chans)))%list /\
    forall P : string -> Prop, P "unstable" ->
      (forall i name, i ∈ rows -> i !! 3%nat = Some name -> P name) -> forall name rev, chans !! name = Some rev -> P name.
Proof.
  unfold PrebuiltList.main. intros H. apply bind_ok in H as ([revs chans] & Hc & [= <-]).
  exists chans, (String.concat "" ((fun r => r +++ newline) <$> revs)),
    (String.concat "" (PrebuiltList.channel_line a <$> sorted_items (map_to_list chans))). split; [done|].
  intros P Hu Hr name rev E. unfold PrebuiltList.channels in Hc. apply bind_ok in Hc as (r & _ & Hc).
  apply bind_ok in Hc as (u & _ & Hc). apply bind_ok in Hc as (m & Hm & [= _ <-]).
  apply lookup_union_Some_raw in E as [E|[_ E]].
  - apply (channel_names rows ∅ m P Hr) with (rev := rev); [|done..]. intros ? ? Hx. by rewrite lookup_empty in Hx.
  - by apply lookup_singleton_Some in E as [<- _].
Qed.

(** A place the script writes to: its names, and that the walk will find it. *)
Definition published (q : list string) (path : string) : Prop :=
  names path = q /\ Forall component q /\ visible q = true /\ "./" +++ path = "." +++ path_of q.

Lemma published_in_place a x : Forall plain (place a) -> component x -> is_index x = false ->
  published (place a ++ [x])%list (path_join (PrebuiltList.out_dir a) x).
Proof.
  intros Hp Hx Hi. destruct (place_names a x Hp Hx) as (_ & _ & En & E). unfold published. split; [exact En|].
  apply Forall_cons in Hp as [[Hf Hf'] Hp]. apply Forall_cons in Hp as [[Ht Ht'] Hp].
  apply Forall_singleton in Hp as [Hc Hc']. split; [repeat (constructor; [done|]); constructor|]. split.
  - cbn [place app visible]. by rewrite Hf', Ht', Hc', Hi.
  - rewrite E. done.
Qed.

Lemma sum_name ch : has_char "/" ch = false ->
  component (ch +++ ".sha256sum") /\ is_index (ch +++ ".sha256sum") = false /\ ch +++ ".sha256sum" <> "channels.txt".
Proof.
  intros H. split_and!.
  - split; [by destruct ch|]. by rewrite has_char_append, H.
  - apply String.eqb_neq. intros E. pose proof (endswith_append ch ".sha256sum") as Hw. by rewrite E in Hw.
  - intros E. pose proof (endswith_append ch ".sha256sum") as Hw. by rewrite E in Hw.
Qed.

Lemma published_self q path : published q path -> published (names path) path.
Proof. intros H. pose proof H as [<- _]. exact H. Qed.

(** The sums of the channels. *)
Definition sums_of (a : PrebuiltList.Prebuilt) (cat : string -> option string) (items : list (string * string)) : list (string * string) :=
  omap (fun cr => match PrebuiltList.get_sha256sum a cat (snd cr) with
                  | Some lines => if truthy lines then Some (path_join (PrebuiltList.out_dir a) (fst cr +++ ".sha256sum"), lines) else None
                  | None => None
                  end) items.

Lemma sums_in a cat items path c : (path, c) ∈ sums_of a cat items ->
  exists ch rv, (ch, rv) ∈ items /\ path = path_join (PrebuiltList.out_dir a) (ch +++ ".sha256sum").
Proof.
  intros ([ch rv] & Hin & E)%list_elem_of_omap. cbn [fst snd] in E.
  destruct (PrebuiltList.get_sha256sum a cat rv) as [lines|]; [|done]. destruct (truthy lines); [|done].
  injection E as <- <-. by exists ch, rv.
Qed.

Lemma sums_nodup a cat items : Forall plain (place a) -> NoDup (fst <$> items) ->
  Forall (fun cr => has_char "/" (fst cr) = false) items -> NoDup ((fun f => names (fst f)) <$> sums_of a cat items).
Proof.
  intros Hp. induction items as [|[ch rv] items IH]; intros Hnd Hks; [constructor|].
  rewrite fmap_cons in Hnd. apply NoDup_cons in Hnd as [Hnew Hnd]. pose proof Hks as [Hch Hks']%Forall_cons. cbn [fst] in *.
  unfold sums_of. cbn [omap list_omap fst snd]. fold (sums_of a cat items).
  destruct (PrebuiltList.get_sha256sum a cat rv) as [lines|]; [|by apply IH]. destruct (truthy lines); [|by apply IH].
  rewrite fmap_cons. constructor; [|by apply IH]. cbn [fst].
  intros ([path c] & E & (ch' & rv' & Hin & ->)%sums_in)%list_elem_of_fmap. cbn [fst] in E.
  pose proof (proj1 (Forall_forall _ _) Hks' _ Hin) as Hch'. cbn [fst] in Hch'.
  destruct (sum_name ch Hch) as (Hcc & _ & _), (sum_name ch' Hch') as (Hcc' & _ & _).
  rewrite (proj1 (proj2 (proj2 (place_names a _ Hp Hcc)))), (proj1 (proj2 (proj2 (place_names a _ Hp Hcc')))) in E.
  apply app_inv_head in E. injection E as E%append_inj_r. subst ch'. apply Hnew. apply list_elem_of_fmap. by exists (ch, rv').
Qed.

(** The files of the channels are in different, visible places. *)
Lemma files_published a cat l rows files :
  Forall plain (place a) -> (forall i name, i ∈ rows -> i !! 3%nat = Some name -> has_char "/" name = false) ->
  PrebuiltList.main a cat l rows = Ok files ->
  Forall (fun f => published (names (fst f)) (fst f)) files /\ NoDup ((fun f => names (fst f)) <$> files).
Proof.
  intros Hp Hr H. apply main_files in H as (chans & c1 & c2 & -> & Hkeys).
  pose proof (Hkeys (fun n => has_char "/" n = false) eq_refl Hr) as Hk. clear Hkeys.
  assert (Hchan : published (place a ++ ["channels.txt"])%list (path_join (PrebuiltList.out_dir a) "channels.txt"))
    by (by apply published_in_place).
  change (omap _ _) with (sums_of a cat (sorted_items (map_to_list chans))).
  assert (Hks : Forall (fun cr => has_char "/" (fst cr) = false) (sorted_items (map_to_list chans))).
  { rewrite sorted_items_perm. apply Forall_forall. intros [n r] Hin%elem_of_map_to_list. by apply (Hk n r). }
  assert (Hpub : forall path c, (path, c) ∈ sums_of a cat (sorted_items (map_to_list chans)) ->
    exists x, x <> "channels.txt" /\ published (place a ++ [x])%list path).
  { intros path c (ch & rv & Hin & ->)%sums_in. pose proof (proj1 (Forall_forall _ _) Hks _ Hin) as Hch.
    destruct (sum_name ch Hch) as (Hcc & Hci & Hne). exists (ch +++ ".sha256sum"). split; [done|]. by apply published_in_place. }
  split.
  - constructor; [split_and!; [done | by repeat constructor | done..]|]. constructor; [by eapply published_self|].
    apply Forall_forall. intros [path c] (x & _ & Hx)%Hpub. by eapply published_self.
  - rewrite !fmap_cons. cbn [fst]. rewrite (proj1 Hchan).
    assert (Hout : forall q, q ∈ ((fun f => names (fst f)) <$> sums_of a cat (sorted_items (map_to_list chans))) ->
      exists x, x <> "channels.txt" /\ q = (place a ++ [x])%list).
    { intros q ([path c] & -> & (x & Hne & Hx)%Hpub)%list_elem_of_fmap. exists x. split; [done | apply Hx]. }
    constructor; [|constructor; [|apply sums_nodup; [done| |done]; rewrite sorted_items_perm; apply NoDup_fst_map_to_list]].
    + intros [E'|(x & _ & E')%Hout]%elem_of_cons; [done|]. by apply (f_equal length) in E'.
    + intros (x & Hx & E')%Hout. apply app_inv_head in E'. by injection E' as <-.
Qed.

(** *** The steps of the script *)

Lemma write_ok path c s s' : wf (site s) -> Forall component (names path) -> write path c s = Ok s' ->
  wf (site s') /\ commands s' = commands s /\ message s' = message s /\ file_at (names path) (site s') = Some c /\
  forall q, q <> names path -> file_at q (site s') = file_at q (site s).
Proof.
  intros Hw Hc H. unfold write in H. apply bind_ok in H as (n & H & [= <-]).
  destruct (write_file_spec _ _ _ _ Hw Hc H) as (Hn & Hat & Hother). done.
Qed.

Lemma write_channels_ok j files s s' :
  wf (site s) -> Forall plain (place (prebuilt j)) -> Forall (fun f => published (names (fst f)) (fst f)) files ->
  NoDup ((fun f => names (fst f)) <$> files) -> write_channels j files s = Ok s' ->
  wf (site s') /\ commands s' = commands s /\ message s' = message s /\
  (forall path c, (path, c) ∈ files -> file_at (names path) (site s') = Some c) /\
  forall q, q ∉ ((fun f => names (fst f)) <$> files) -> file_at q (site s') = file_at q (site s).
Proof.
  intros Hw Hp Hf Hd H. destruct files as [|[p c] files].
  { injection H as <-. split_and!; try done. intros ? ? Hx. by apply elem_of_nil in Hx. }
  apply Forall_cons in Hf as [(_ & Hpc & _) Hf]. rewrite fmap_cons in Hd. apply NoDup_cons in Hd as [Hnew Hd]. cbn [fst] in *.
  cbn [write_channels] in H. apply bind_ok in H as (s1 & H1 & H). apply bind_ok in H as (n2 & H2 & H).
  apply bind_ok in H as (n3 & H3 & [= <-]). cbn [site commands message].
  destruct (write_ok _ _ _ _ Hw Hpc H1) as (W1 & C1 & M1 & A1 & O1).
  assert (Hplace : Forall component (names (PrebuiltList.out_dir (prebuilt j)))).
  { rewrite (proj1 (proj2 (place_names (prebuilt j) "channels.txt" Hp ltac:(done)))).
    eapply Forall_impl; [exact Hp|]. by intros x []. }
  destruct (makedirs_spec _ _ _ W1 Hplace H2) as (W2 & S2).
  assert (Hcs : Forall (fun f => Forall component (names (fst f))) files)
    by (eapply Forall_impl; [exact Hf|]; intros f Hx; apply Hx).
  destruct (write_files_spec _ _ _ W2 Hcs Hd H3) as (W3 & A3 & O3).
  split_and!; [done..| |].
  - intros path c' [[= -> ->]|Hin]%elem_of_cons; [|by apply A3]. by rewrite O3, S2.
  - intros q Hq. rewrite fmap_cons in Hq. apply not_elem_of_cons in Hq as [Hq Hq']. rewrite O3, S2 by done. by apply O1.
Qed.

Lemma write_index_ok w s s' : wf (site s) -> write_index w s = Ok s' ->
  wf (site s') /\ commands s' = commands s /\ message s' = message s /\
  (forall q, q <> ["index.txt"] -> file_at q (site s') = file_at q (site s)) /\
  exists n index, sha256sum w (all_files (site s)) n = Some index /\ file_at ["index.txt"] (site s') = Some index /\
    forall q, q <> ["index.txt"] -> file_at q n = file_at q (site s).
Proof.
  intros Hw H. unfold write_index in H. apply bind_ok in H as (s1 & H1 & H). apply bind_ok in H as (c & Hc & H).
  assert (Hn : Forall component (names "index.txt")) by by repeat constructor.
  destruct (write_ok _ _ _ _ Hw Hn H1) as (W1 & C1 & M1 & _ & O1). destruct (write_ok _ _ _ _ W1 Hn H) as (W2 & C2 & M2 & A2 & O2).
  split_and!; [done | by rewrite C2 | by rewrite M2 | intros q Hq; by rewrite O2, O1|].
  exists (site s1), c. split; [by destruct (sha256sum w _ _); [injection Hc as ->|]|]. split; [exact A2 | exact O1].
Qed.

Lemma index_same_files n n' :
  wf n -> wf n' -> (forall q, q <> ["index.txt"] -> file_at q n' = file_at q n) -> all_files n' = all_files n.
Proof. intros H1 H2 H. apply all_files_ext; [done..|]. intros p Hv. rewrite H; [done|]. by intros ->. Qed.

Lemma call_ok w cmd s out s' : call w cmd s = Ok (out, s') ->
  svn w (commands s) (site s) cmd = Some out /\
  s' = {| commands := (commands s ++ [cmd])%list; site := site s; message := message s |}.
Proof. unfold call. intros H. apply bind_ok in H as (o & Ho & [= -> <-]). by destruct (svn w _ _ _); [injection Ho as ->|]. Qed.

Definition adds (fs : list string) : list (list string) := [(svn_add ++ fs)%list; (svn_add ++ ["index.txt"])%list].

Lemma commit_ok w j build tmpfile fs s s' : commit w j build tmpfile fs s = Ok s' ->
  site s' = site s /\ exists changes,
    svn w (commands s ++ adds fs)%list (site s) svn_status = Some changes /\
    if (length (splitlines changes) =? 1)%nat then
      commands s' = (commands s ++ adds fs ++ [svn_status; svn_diff])%list /\ message s' = message s
    else
      commands s' = (commands s ++ adds fs ++ [svn_status; svn_diff; svn_commit j tmpfile])%list /\
      message s' = Some (commit_message build).
Proof.
  unfold commit. intros H. apply bind_ok in H as ([o1 s1] & [_ ->]%call_ok & H). apply bind_ok in H as ([o2 s2] & [_ ->]%call_ok & H).
  apply bind_ok in H as ([changes s3] & [Hst ->]%call_ok & H). apply bind_ok in H as ([o4 s4] & [_ ->]%call_ok & H).
  cbn [commands site message] in *. rewrite <- !app_assoc in *. cbn [app] in *.
  destruct (length (splitlines changes) =? 1)%nat eqn:E.
  - injection H as <-. split; [done|]. exists changes. rewrite E. split; [exact Hst|]. done.
  - apply bind_ok in H as ([o5 s5] & [_ ->]%call_ok & [= <-]). cbn [commands site message]. rewrite <- !app_assoc.
    split; [done|]. exists changes. rewrite E. split; [exact Hst|]. done.
Qed.

(** The working copy the script starts from. *)
Definition start (w : World) (tmpdir : list (string * node)) : node := default (checkout w) (getitem tmpdir "gh-pages").

Definition first_commands (j : Job) (tmpdir : list (string * node)) : list (list string) :=
  match getitem tmpdir "gh-pages" with Some _ => [] | None => [svn_checkout j] end.

Lemma get_site_ok w j tmpdir s : get_site w j tmpdir = Ok s ->
  s = {| commands := first_commands j tmpdir; site := start w tmpdir; message := None |}.
Proof.
  unfold get_site, first_commands, start. destruct (getitem tmpdir "gh-pages") as [n|]; [by intros [= <-]|].
  intros H. apply bind_ok in H as (o & _ & [= <-]). done.
Qed.

(** The list of files to index. For every working copy, removing
    hidden directories from the walk's list while it runs gives exactly the files
    that are in no hidden directory and are not themselves called index.txt, each
    once, in the order of their paths. *)
Theorem index_lists_visible (n : node) (H : wf n) :
  StronglySorted str_le (all_files n) /\ NoDup (all_files n) /\
  forall s, In s (all_files n) <-> exists p, visible p = true /\ is_Some (file_at p n) /\ s = "." +++ path_of p.
Proof.
  destruct (all_files_spec n H) as (Hs & Hd & Hm). split_and!; [done..|]. intros s. by rewrite <- list_elem_of_In, Hm.
Qed.

(** A working copy with files in nested, hidden and empty directories. *)
Definition demo_site : node := Dir [
  (".svn", Dir [("wc.db", File "db")]);
  ("opsis", Dir [("hdmi2usb", Dir [("index.txt", File ""); ("old.txt", File "x")]); ("empty", Dir [])]);
  ("index.txt", File "old"); (".nojekyll", File "")].

Ltac solve_wf :=
  repeat match goal with
  | |- wf (File _) => constructor
  | |- wf (Dir _) =>
      constructor; [by apply (bool_decide_unpack _); vm_compute | repeat (constructor; [done|]); constructor |
        intros ? ? Hget; apply getitem_in in Hget; cbn in Hget;
        repeat (destruct Hget as [[= <- <-]|Hget]); [..|done]]
  end.

Lemma demo_site_wf : wf demo_site.
Proof. unfold demo_site. solve_wf. Qed.

Lemma index_lists_visible_witness :
  all_files demo_site = ["./.nojekyll"; "./opsis/hdmi2usb/old.txt"] /\ NoDup (all_files demo_site).
Proof. split; [vm_compute; reflexivity | exact (proj1 (proj2 (index_lists_visible demo_site demo_site_wf)))]. Defined.

(** Claim C40: what a run leaves behind. If the platform, target and CPU are
    ordinary names and no channel's name has a slash, a run that succeeds has every
    file of the revisions and channels in the working copy with its content, and
    on the list of files; index.txt is the checksums of exactly the listed files;
    every other file is what it was in the working copy; and the commands are the
    checkout (unless there is one), adding the listed files and the index, status
    and difference, and a commit unless the status is one line. *)
Theorem site_published (w : World) (e : Environ) (cli : Args) (build : option string) (tmpfile : string)
    (tmpdir : list (string * node)) (j : Job) (s : State)
    (Hj : check_args (parse_args e cli) = Ok j) (Hw : wf (start w tmpdir)) (Hp : Forall plain (place (prebuilt j)))
    (Hr : forall row name, row ∈ spreadsheet w -> row !! 3%nat = Some name -> has_char "/" name = false)
    (H : publish w e cli build tmpfile tmpdir = Ok s) :
  exists revs files,
    archive w (svn_list j) = Some revs /\
    PrebuiltList.main (prebuilt j) (fun path => archive w (svn_cat j path)) (splitlines revs) (spreadsheet w) = Ok files /\
    (forall path c, (path, c) ∈ files -> file_at (names path) (site s) = Some c /\ ("./" +++ path) ∈ all_files (site s)) /\
    (forall q, q <> ["index.txt"] -> q ∉ ((fun f => names (fst f)) <$> files) ->
      file_at q (site s) = file_at q (start w tmpdir)) /\
    (exists n index, sha256sum w (all_files (site s)) n = Some index /\ file_at ["index.txt"] (site s) = Some index /\
      forall q, q <> ["index.txt"] -> file_at q n = file_at q (site s)) /\
    exists changes,
      svn w (first_commands j tmpdir ++ adds (all_files (site s)))%list (site s) svn_status = Some changes /\
      let quiet := (length (splitlines changes) =? 1)%nat in
      commands s = (first_commands j tmpdir ++ adds (all_files (site s)) ++ [svn_status; svn_diff] ++
                    (if quiet then [] else [svn_commit j tmpfile]))%list /\
      message s = if quiet then None else Some (commit_message build).
Proof.
  unfold publish in H. rewrite Hj in H. cbn [mbind result_bind] in H.
  apply bind_ok in H as (revs & Hrevs & H). apply bind_ok in H as (files & Hfiles & H).
  apply bind_ok in H as (s0 & ->%get_site_ok & H). apply bind_ok in H as (s1 & H1 & H). apply bind_ok in H as (s2 & H2 & H).
  destruct (files_published _ _ _ _ _ Hp Hr Hfiles) as [Hf Hd].
  destruct (write_channels_ok j files {| commands := first_commands j tmpdir; site := start w tmpdir; message := None |} s1 Hw Hp Hf Hd H1) as (W1 & C1 & M1 & A1 & O1).
  destruct (write_index_ok w s1 s2 W1 H2) as (W2 & C2 & M2 & O2 & n & index & Hsha & Hindex & Hn).
  apply commit_ok in H as (Hsite & changes & Hst & Hc).
  assert (Hsame : all_files (site s) = all_files (site s1)) by (rewrite Hsite; by apply index_same_files).
  cbn [site commands message] in *. rewrite C2, C1 in *. rewrite M2, M1 in Hc. rewrite !Hsame, !Hsite.
  exists revs, files. split; [by destruct (archive w _); [injection Hrevs as ->|]|]. split; [done|]. split_and!.
  - intros path c Hin. pose proof (proj1 (Forall_forall _ _) Hf _ Hin) as (_ & _ & Hv & E). cbn [fst] in *.
    rewrite <- (A1 path c Hin). split; [apply O2; by intros Ei; rewrite Ei in Hv|].
    apply (all_files_spec _ W1). exists (names path). rewrite (A1 path c Hin). split_and!; [done | by eexists | done].
  - intros q Hi Hq. rewrite O2 by done. by apply O1.
  - exists n, index. split_and!; [done..|]. intros q Hq. by rewrite Hn, O2.
  - exists changes. split; [done|]. cbv zeta. by destruct (length (splitlines changes) =? 1)%nat.
Qed.

Definition demo_env : Environ := {|
  TRAVIS_REPO_SLUG := Some "timvideos/HDMI2USB-litex-firmware"; TRAVIS_BRANCH := Some "master";
  FULL_PLATFORM := Some "opsis"; TARGET := Some "hdmi2usb"; FULL_CPU := Some "lm32";
  GH_USER := Some "bot"; GH_TOKEN := Some "secret"; OUTDIR := None |}.

Definition no_options : Args := {|
  repo := None; owner := None; branch := None; full_platform := None; target := None; full_cpu := None;
  gh_user := None; gh_token := None; outdir := None |}.

Definition demo_job : Job := {|
  prebuilt := {| PrebuiltList.owner := "timvideos"; PrebuiltList.repo := "HDMI2USB-firmware-prebuilt";
                 PrebuiltList.branch := "master"; PrebuiltList.full_platform := "opsis";
                 PrebuiltList.target := "hdmi2usb"; PrebuiltList.full_cpu := "lm32" |};
  user := "bot"; token := "secret" |}.

Definition demo_world : World := {|
  archive := fun cmd => if bool_decide (cmd = svn_list demo_job) then Some ("v0.0.3/" +++ newline) else Some "0123  ./image.bin";
  svn := fun _ _ cmd => if bool_decide (cmd = svn_status) then Some ("M revs.txt" +++ newline +++ "Status") else Some "";
  spreadsheet := [["GitHub"; ""; "v0.0.3"; "stable"; "100"; ""]];
  checkout := demo_site;
  sha256sum := fun fs _ => Some (String.concat newline fs) |}.

Definition demo_state : State :=
  match publish demo_world demo_env no_options None "/tmp/log" [] with
  | Ok s => s
  | Raise _ => {| commands := []; site := File ""; message := None |}
  end.

Lemma site_published_witness :
  file_at ["opsis"; "hdmi2usb"; "lm32"; "stable.sha256sum"] (site demo_state) =
    Some "0123  https://github.com/timvideos/HDMI2USB-firmware-prebuilt/blob/master/archive/master/v0.0.3/opsis/hdmi2usb/lm32/image.bin" /\
  message demo_state = Some ("Updating channels (in Travis build None)" +++ newline) /\
  exists revs, archive demo_world (svn_list demo_job) = Some revs.
Proof.
  split; [vm_compute; reflexivity|]. split; [vm_compute; reflexivity|].
  destruct (site_published demo_world demo_env no_options None "/tmp/log" [] demo_job demo_state) as (revs & files & E & _).
  - reflexivity.
  - exact demo_site_wf.
  - repeat (constructor; [done|]). constructor.
  - intros row name [->|Hrow]%elem_of_cons; [by intros [= <-] | by apply elem_of_nil in Hrow].
  - vm_compute. reflexivity.
  - exists revs. exact E.
Defined.

(** Without a token nothing happens. *)
Example no_token : publish demo_world demo_env no_options None "/tmp/log" [] <> Raise AssertionError /\
  publish demo_world {| TRAVIS_REPO_SLUG := Some "timvideos/x"; TRAVIS_BRANCH := Some "master"; FULL_PLATFORM := Some "opsis";
    TARGET := Some "hdmi2usb"; FULL_CPU := Some "lm32"; GH_USER := Some "bot"; GH_TOKEN := None; OUTDIR := None |}
    no_options None "/tmp/log" [] = Raise AssertionError.
Proof. split; [vm_compute; discriminate | vm_compute; reflexivity]. Qed.

(** The checksums of a channel that no longer exists stay published: the script
    removes nothing. *)
Example old_channel_stays :
  match publish {| archive := archive demo_world; svn := svn demo_world; spreadsheet := []; checkout := checkout demo_world;
                   sha256sum := sha256sum demo_world |} demo_env no_options None "/tmp/log" [("gh-pages", site demo_state)] with
  | Ok s => file_at ["opsis"; "hdmi2usb"; "lm32"; "stable.sha256sum"] (site s) =
            file_at ["opsis"; "hdmi2usb"; "lm32"; "stable.sha256sum"] (site demo_state)
  | Raise _ => False
  end.
Proof. vm_compute. reflexivity. Qed.
