(* ===== verification/BoardTests.v ===== *)
(** * Tests that drive a board ([test/test_sdram.py], [test_ddr3.py])

    The board behind LiteX's [RemoteClient] is a class: registers that are
    written by name and a memory. Printing and [time.sleep] are left out. *)
From S2P Require Import Prelude.
#[local] Open Scope Z_scope.

Class Board (D : Type) := {
  write_reg : string -> Z -> D -> D;
  write_mem : Z -> Z -> D -> D;
  read_mem : Z -> D -> Z * D;
  main_ram : Z
}.

(** Registers that are read, by the scripts that do. *)
Class Readable (D : Type) := read_reg : string -> D -> Z * D.

(** [for i in range(n)] *)
Definition range (n : nat) : list Z := Z.of_nat <$> seq 0 n.

(** ** Initialising the memory *)

#[local] Open Scope string_scope.

Definition dfii_control_sel : Z := 0x01.
Definition dfii_control_cke : Z := 0x02.
Definition dfii_control_odt : Z := 0x04.
Definition dfii_control_reset_n : Z := 0x08.
Definition dfii_command_cs : Z := 0x01.
Definition dfii_command_we : Z := 0x02.
Definition dfii_command_cas : Z := 0x04.
Definition dfii_command_ras : Z := 0x08.

Definition ors (l : list Z) : Z := fold_left Z.lor l 0.

Definition dfii_target (address baddress : Z) : list (string * Z) :=
  [("sdram_dfii_pi0_address", address); ("sdram_dfii_pi0_baddress", baddress)].

Definition dfii_command (address baddress command : Z) : list (string * Z) :=
  (dfii_target address baddress ++ [("sdram_dfii_pi0_command", command); ("sdram_dfii_pi0_command_issue", 1)])%list.

Definition load_mode (register value : Z) : list (string * Z) :=
  dfii_command value register (ors [dfii_command_ras; dfii_command_cas; dfii_command_we; dfii_command_cs]).

(** The register writes up to hardware control, in order. *)
Definition init_sequence : list (string * Z) :=
  ([("sdram_dfii_control", 0)] ++
   dfii_target 0x0 0 ++ [("sdram_dfii_control", ors [dfii_control_odt; dfii_control_reset_n])] ++
   dfii_target 0x0 0 ++ [("sdram_dfii_control", ors [dfii_control_cke; dfii_control_odt; dfii_control_reset_n])] ++
   load_mode 2 0x408 ++ load_mode 3 0x0 ++ load_mode 1 0x6 ++ load_mode 0 0x930 ++
   dfii_command 0x400 0 (ors [dfii_command_we; dfii_command_cs]) ++
   [("sdram_dfii_control", dfii_control_sel)])%list.

(** ** The pattern *)

Definition seed_to_data (random : bool) (seed : Z) : Z :=
  if random then Z.land (1664525 * seed + 1013904223)%Z 0xffffffff else seed.

(** ** Bitslip and delay *)

(** The delay of one byte lane: selected, reset, three pulses for each bitslip,
    one for each step of delay. *)
Definition lane_setup (bitslip delay : nat) (k : Z) : list (string * Z) :=
  ([("ddrphy_dly_sel", Z.shiftl 1 k); ("ddrphy_rdly_dq_rst", 1)] ++
   (range bitslip ≫= fun _ => (fun _ => ("ddrphy_rdly_dq_bitslip", 1)) <$> range 3) ++
   ((fun _ => ("ddrphy_rdly_dq_inc", 1)) <$> range delay))%list.

Definition setup (bitslip delay : nat) : list (string * Z) := range 2 ≫= lane_setup bitslip delay.

(** [for bitslip in range(4): for delay in range(32)] *)
Definition settings : list (nat * nat) := seq 0 4 ≫= fun bitslip => (fun delay => (bitslip, delay)) <$> seq 0 32.

Section scripts.
Context {D : Type} `{Board D} (random : bool).

Definition writes (l : list (string * Z)) (d : D) : D := fold_left (fun d w => write_reg (fst w) (snd w) d) l d.

Definition address (i : Z) : Z := (main_ram + 4 * i)%Z.

Definition write_pattern (length : nat) (d : D) : D :=
  fold_left (fun d i => write_mem (address i) (seed_to_data random i) d) (range length) d.

(** Each word is read once to compare it and once more to print it. *)
Definition check_word (i : Z) (d : D) : Z * D :=
  let '(v, d) := read_mem (address i) d in
  let '(_, d) := read_mem (address i) d in
  ((if v =? seed_to_data random i then 0 else 1)%Z, d).

Definition check_pattern (length : nat) (d : D) : Z * D :=
  fold_left (fun acc i => let '(errors, d) := acc in
                          let '(error, d) := check_word i d in ((errors + error)%Z, d)) (range length) (0, d).

(** One setting: on 32 words and, if they are right, on 1024. *)
Definition trial (s : nat * nat) (d : D) : option Z * D :=
  let d := writes (setup (fst s) (snd s)) d in
  let '(e, d) := check_pattern 32 (write_pattern 32 d) in
  if (e =? 0)%Z then let '(e, d) := check_pattern 1024 (write_pattern 1024 d) in (Some e, d) else (None, d).

(** The loop over the settings: those that are reported, with the errors on 1024
    words; [test_sdram.py] exits at the first ([stop]). *)
Fixpoint search (stop : bool) (l : list (nat * nat)) (d : D) : list (nat * nat * Z) * D :=
  match l with
  | [] => ([], d)
  | s :: l =>
      let '(r, d) := trial s d in
      match r with
      | None => search stop l d
      | Some e => if stop then ([(s, e)], d) else let '(rs, d) := search stop l d in ((s, e) :: rs, d)
      end
  end.

Definition test_sdram (d : D) : list (nat * nat * Z) * D := search true settings (writes init_sequence d).
Definition test_ddr3 (d : D) : list (nat * nat * Z) * D := search false settings (writes init_sequence d).
End scripts.

(** ** A board with a fault

    [cell a] is the memory cell that address [a] leads to; the interface has a
    state that register writes change, and what is read depends on it. *)
Section board.
Context {P : Type} (phy_write : string -> Z -> P -> P) (sees : P -> Z -> Z) (cell : Z -> Z) (base : Z).

Definition faulty_board : Board (P * (Z -> Z)) := {|
  write_reg := fun r v d => (phy_write r v (fst d), snd d);
  write_mem := fun a v d => (fst d, fun c => if (c =? cell a)%Z then v else snd d c);
  read_mem := fun a d => (sees (fst d) (snd d (cell a)), d);
  main_ram := base |}.
#[local] Existing Instance faulty_board.

(** Word [i] of [n] shares its cell with a later one. *)
Definition overwritten (n : nat) (i : Z) : bool :=
  existsb (fun j => (i <? j) && (cell (base + 4 * i) =? cell (base + 4 * j)))%Z (range n).

Definition count (Q : Z -> bool) (l : list Z) : Z := Z.of_nat (length (List.filter Q l)).

Lemma range_S n : range (S n) = (range n ++ [Z.of_nat n])%list.
Proof. unfold range. by rewrite seq_S, fmap_app. Qed.

Lemma in_range n i : In i (range n) <-> (0 <= i < Z.of_nat n)%Z.
Proof.
  unfold range. rewrite <- list_elem_of_In, list_elem_of_fmap. setoid_rewrite elem_of_seq. split.
  - intros (k & -> & Hk). lia.
  - intros Hi. exists (Z.to_nat i). lia.
Qed.

(** Of the words in one cell the last stays. *)
Lemma last_writer random n p m i : (0 <= i < Z.of_nat n)%Z ->
  exists j, (i <= j < Z.of_nat n)%Z /\ cell (address j) = cell (address i) /\
    snd (write_pattern random n (p, m)) (cell (address i)) = seed_to_data random j /\
    forall k, (j < k < Z.of_nat n)%Z -> cell (address k) <> cell (address i).
Proof using Type.
  induction n as [|n IH]; intros Hi; [lia|].
  unfold write_pattern. rewrite range_S, fold_left_app. fold (write_pattern random n (p, m)). cbn [fold_left write_mem faulty_board snd].
  destruct (Z.eqb_spec (cell (address i)) (cell (address (Z.of_nat n)))) as [E|Hne].
  - exists (Z.of_nat n). split_and!; [lia | lia | done | done | intros k; lia].
  - destruct (Z.eq_dec i (Z.of_nat n)) as [->|Hin]; [done|].
    destruct IH as (j & Hj & Hc & Hv & Hl); [lia|]. exists j. split_and!; [lia | lia | done | exact Hv|].
    intros k Hk. destruct (Z.eq_dec k (Z.of_nat n)) as [->|]; [congruence | apply Hl; lia].
Qed.

Lemma pattern_phy random n d : fst (write_pattern random n d) = fst d.
Proof using Type.
  unfold write_pattern. generalize (range n) as l. intros l. revert d. induction l as [|i l IH]; intros d; [done|].
  cbn [fold_left]. by rewrite IH.
Qed.

Lemma check_pattern_count random n d :
  check_pattern random n d = (count (fun i => negb (sees (fst d) (snd d (cell (address i))) =? seed_to_data random i)%Z) (range n), d).
Proof using Type.
  unfold check_pattern, count. generalize (range n) as l.
  enough (G : forall l e, fold_left (fun acc i => let '(errors, d) := acc in let '(error, d) := check_word random i d in ((errors + error)%Z, d)) l (e, d)
    = ((e + Z.of_nat (length (List.filter (fun i => negb (sees (fst d) (snd d (cell (address i))) =? seed_to_data random i)%Z) l)))%Z, d))
    by (intros l; by rewrite G).
  induction l as [|i l IH]; intros e; cbn [fold_left]; [f_equal; cbn; lia|].
  unfold check_word at 2. cbn [read_mem faulty_board]. rewrite IH. cbn [List.filter].
  destruct (_ =? _)%Z; cbn [negb length]; f_equal; lia.
Qed.
End board.

(** ** Theorems *)

(** The random pattern is a permutation of the 32-bit numbers. *)
Lemma seed_to_data_inj random i j : in_width 32 i -> in_width 32 j ->
  seed_to_data random i = seed_to_data random j -> i = j.
Proof.
  destruct random; [|done]. unfold seed_to_data, in_width. change 0xffffffff%Z with (Z.ones 32). rewrite !Z.land_ones by lia.
  intros Hi Hj E.
  assert (Hinv : forall x, (0 <= x < 2 ^ 32)%Z -> (4276115653 * ((1664525 * x + 1013904223) mod 2 ^ 32 - 1013904223)) mod 2 ^ 32 = x).
  { intros x Hx. rewrite Zmult_mod, Zminus_mod_idemp_l.
    replace (1664525 * x + 1013904223 - 1013904223)%Z with (1664525 * x)%Z by lia. rewrite <- Zmult_mod, Z.mul_assoc.
    rewrite Zmult_mod. change ((4276115653 * 1664525) mod 2 ^ 32)%Z with 1%Z. rewrite Z.mul_1_l, Zmod_mod. by apply Z.mod_small. }
  rewrite <- (Hinv i Hi), <- (Hinv j Hj). by rewrite E.
Qed.

Lemma count_ext Q R l : (forall i, In i l -> Q i = R i) -> count Q l = count R l.
Proof.
  intros H. unfold count. do 2 f_equal. induction l as [|i l IH]; [done|]. cbn [List.filter].
  rewrite (H i) by by left. rewrite IH by (intros k Hk; apply H; by right). done.
Qed.

Lemma count_zero Q l : count Q l = 0%Z <-> forall i, In i l -> Q i = false.
Proof.
  unfold count. split.
  - intros H i Hi. destruct (Q i) eqn:E; [|done]. assert (In i (List.filter Q l)) as Hf by by apply filter_In.
    destruct (List.filter Q l); [done | cbn in H; lia].
  - intros H. induction l as [|i l IH]; [done|]. cbn [List.filter]. rewrite (H i) by by left. apply IH.
    intros k Hk. apply H. by right.
Qed.

Section faults.
Context {P : Type} (phy_write : string -> Z -> P -> P) (sees : P -> Z -> Z) (cell : Z -> Z) (base : Z).
#[local] Existing Instance faulty_board.
#[local] Abbreviation board := (faulty_board phy_write sees cell base).

(** A word reads back unless a later one took its cell, where the interface
    shows what is stored. *)
Lemma word_reads_back random n p m i : (forall v, sees p v = v) -> (Z.of_nat n <= 2 ^ 32)%Z -> In i (range n) ->
  negb (sees p (snd (@write_pattern _ board random n (p, m)) (cell (base + 4 * i))) =? seed_to_data random i)%Z =
  overwritten cell base n i.
Proof using Type.
  intros Hs Hn Hi. pose proof Hi as Hi'%in_range. rewrite Hs.
  destruct (last_writer phy_write sees cell base random n p m i Hi') as (j & Hj & Hc & Hv & Hl).
  change (@address _ board) with (fun i => (base + 4 * i)%Z) in *. cbv beta in *. rewrite Hv.
  destruct (Z.eq_dec i j) as [<-|Hne].
  - rewrite Z.eqb_refl. symmetry. apply not_true_is_false. intros (k & Hk%in_range & [Hlt E]%andb_true_iff)%existsb_exists.
    apply (Hl k); [lia|]. symmetry. lia.
  - destruct (Z.eqb_spec (seed_to_data random j) (seed_to_data random i)) as [E|_].
    + apply seed_to_data_inj in E; [lia | unfold in_width; lia..].
    + symmetry. apply existsb_exists. exists j. split; [apply in_range; lia|]. rewrite Hc, Z.eqb_refl. lia.
Qed.

Lemma errors_are_overwritten random n p m : (forall v, sees p v = v) -> (Z.of_nat n <= 2 ^ 32)%Z ->
  fst (@check_pattern _ board random n (@write_pattern _ board random n (p, m))) = count (overwritten cell base n) (range n).
Proof using Type.
  intros Hs Hn. rewrite check_pattern_count. cbn [fst]. apply count_ext. intros i Hi.
  rewrite pattern_phy. cbn [fst]. by apply word_reads_back.
Qed.
End faults.

(** The memory test finds aliases. On a memory that stores what it is
    given, but in which several addresses may lead to the same cell, checking a
    pattern just written counts exactly the words that share a cell with a later
    word; so it reports no error exactly when all addresses tested lead to
    different cells. This holds for both patterns, up to 2^32 words. *)
Theorem pattern_finds_aliases (cell : Z -> Z) (base : Z) (random : bool) (n : nat) (m : Z -> Z) (Hn : (Z.of_nat n <= 2 ^ 32)%Z) :
  let board := faulty_board (fun _ _ p => p) (fun (_ : unit) v => v) cell base in
  let errors := fst (@check_pattern _ board random n (@write_pattern _ board random n (tt, m))) in
  errors = count (overwritten cell base n) (range n) /\
  (errors = 0%Z <-> forall i j, (0 <= i < Z.of_nat n)%Z -> (0 <= j < Z.of_nat n)%Z ->
    cell (base + 4 * i)%Z = cell (base + 4 * j)%Z -> i = j).
Proof.
  cbv zeta. rewrite errors_are_overwritten by done. split; [done|]. rewrite count_zero. split.
  - intros H. enough (G : forall i j, (i < j)%Z -> (0 <= i < Z.of_nat n)%Z -> (0 <= j < Z.of_nat n)%Z ->
      cell (base + 4 * i)%Z <> cell (base + 4 * j)%Z).
    { intros i j Hi Hj E. destruct (Z.lt_total i j) as [L|[->|L]]; [by destruct (G i j)|done|by destruct (G j i)]. }
    intros i j L Hi Hj E. specialize (H i (proj2 (in_range n i) Hi)). apply not_true_iff_false in H. apply H.
    apply existsb_exists. exists j. split; [by apply in_range|]. rewrite E, Z.eqb_refl. lia.
  - intros H i Hi%in_range. apply not_true_is_false. intros (j & Hj%in_range & [L E]%andb_true_iff)%existsb_exists.
    specialize (H i j Hi Hj ltac:(lia)). lia.
Qed.

(** A memory without its sixth address line: of 32 words, 16 are overwritten. *)
Lemma pattern_finds_aliases_witness :
  let cell := fun a => Z.land a (Z.lnot 0x40) in
  (Z.of_nat 32 <= 2 ^ 32)%Z /\ count (overwritten cell 0x40000000 32) (range 32) = 16%Z /\
  fst (@check_pattern _ (faulty_board (fun _ _ p => p) (fun (_ : unit) v => v) cell 0x40000000) true 32
    (@write_pattern _ (faulty_board (fun _ _ p => p) (fun (_ : unit) v => v) cell 0x40000000) true 32 (tt, fun _ => 0%Z))) = 16%Z.
Proof.
  intros cell. split; [done|]. assert (E : count (overwritten cell 0x40000000 32) (range 32) = 16%Z) by (vm_compute; reflexivity).
  split; [exact E|]. rewrite <- E. exact (proj1 (pattern_finds_aliases cell 0x40000000 true 32 (fun _ => 0%Z) ltac:(done))).
Defined.

(** ** Calibration *)

Lemma take_one_filter {A} (f : A -> bool) (x : A) (l : list A) :
  take 1 (List.filter f (x :: l)) = if f x then [x] else take 1 (List.filter f l).
Proof. cbn [List.filter]. by destruct (f x). Qed.

Section calibration.
Context {P : Type} (phy_write : string -> Z -> P -> P) (sees : P -> Z -> Z) (base : Z) (random : bool).
#[local] Abbreviation board := (faulty_board phy_write sees (fun a => a) base).

(** The interface after the register writes of a setting. *)
Definition phy_after (s : nat * nat) (p : P) : P :=
  fold_left (fun p w => phy_write (fst w) (snd w) p) (setup (fst s) (snd s)) p.

(** Words read right, or one of the first 32 words of the pattern wrong. *)
Definition right (p : P) : Prop := forall v, sees p v = v.
Definition wrong (p : P) : Prop :=
  exists i, In i (range 32) /\ sees p (seed_to_data random i) <> seed_to_data random i.

Context (good : nat * nat -> bool)
  (Hgood : forall s p, if good s then right (phy_after s p) else wrong (phy_after s p)).

Lemma writes_phy l d : fst (@writes _ board l d) = fold_left (fun p w => phy_write (fst w) (snd w) p) l (fst d).
Proof using Type. revert d. induction l as [|w l IH]; intros d; [done|]. cbn [writes fold_left]. apply IH. Qed.

Lemma distinct_words n i : overwritten (fun a => a) base n i = false.
Proof using Type.
  apply not_true_is_false. intros (j & _ & [L E]%andb_true_iff)%existsb_exists. lia.
Qed.

Lemma check_right n d : right (fst d) -> (Z.of_nat n <= 2 ^ 32)%Z ->
  fst (@check_pattern _ board random n (@write_pattern _ board random n d)) = 0%Z.
Proof using Type.
  intros Hr Hn. destruct d as [p m]. rewrite errors_are_overwritten by done.
  apply count_zero. intros i _. apply distinct_words.
Qed.

Lemma check_wrong d : wrong (fst d) ->
  fst (@check_pattern _ board random 32 (@write_pattern _ board random 32 d)) <> 0%Z.
Proof using Type.
  intros (i & Hi & Hw). destruct d as [p m]. rewrite check_pattern_count. cbn [fst]. rewrite count_zero.
  intros H. specialize (H i Hi). rewrite pattern_phy in H. cbn [fst] in *. apply negb_false_iff, Z.eqb_eq in H.
  apply Hw. pose proof Hi as Hi'%in_range.
  destruct (last_writer phy_write sees (fun a => a) base random 32 p m i Hi') as (j & Hj & Hc & Hv & _).
  change (@address _ board) with (fun i => (base + 4 * i)%Z) in *. cbv beta in *. rewrite Hv in H.
  assert (j = i) as -> by lia. exact H.
Qed.

(** A setting is reported, without errors, exactly when it is good. *)
Lemma trial_good s d : fst (@trial _ board random s d) = if good s then Some 0%Z else None.
Proof using Hgood.
  unfold trial. set (d1 := @writes _ board _ d).
  assert (Hd : fst d1 = phy_after s (fst d)) by apply writes_phy.
  specialize (Hgood s (fst d)). rewrite <- Hd in Hgood.
  pose proof (check_pattern_count phy_write sees (fun a => a) base random 32 (@write_pattern _ board random 32 d1)) as E.
  destruct (@check_pattern _ board random 32 (@write_pattern _ board random 32 d1)) as [e d2] eqn:Ec.
  injection E as _ ->. destruct (good s).
  - pose proof (check_right 32 d1 Hgood ltac:(done)) as H0. rewrite Ec in H0. cbn [fst] in H0. subst e. cbn [Z.eqb].
    assert (Hr : right (fst (@write_pattern _ board random 32 d1))) by by rewrite pattern_phy.
    pose proof (check_right 1024 _ Hr ltac:(done)) as H1. destruct (@check_pattern _ board random 1024 _) as [e1 d3].
    cbn [fst] in *. by subst.
  - pose proof (check_wrong d1 Hgood) as H0. rewrite Ec in H0. cbn [fst] in H0. destruct (Z.eqb_spec e 0); done.
Qed.

Lemma search_good stop l d :
  fst (@search _ board random stop l d) =
  (fun s => (s, 0%Z)) <$> (if stop then take 1 (List.filter good l) else List.filter good l).
Proof using Hgood.
  revert d. induction l as [|s l IH]; intros d; [by destruct stop|]. cbn [search].
  pose proof (trial_good s d) as E. destruct (@trial _ board random s d) as [r d1]. cbn [fst] in E. subst r.
  rewrite take_one_filter. cbn [List.filter]. destruct (good s); [|apply IH]. destruct stop; [done|].
  specialize (IH d1). destruct (@search _ board random false l d1) as [rs d2]. cbn [fst] in *. by rewrite IH.
Qed.
End calibration.

(** Claim C36: the search for a working bitslip and delay. On a board that reads
    memory right after the register writes of some settings, and after those of
    the others gets one of the first 32 words of the pattern wrong, test_ddr3.py
    reports exactly the working settings, by bitslip and then delay, with no error
    on 1024 words, and test_sdram.py stops at the first of them. *)
Theorem calibration_reports {P : Type} (phy_write : string -> Z -> P -> P) (sees : P -> Z -> Z) (base : Z)
    (good : nat * nat -> bool) (d : P * (Z -> Z))
    (H : forall random s p, if good s then right sees (phy_after phy_write s p) else wrong sees random (phy_after phy_write s p)) :
  let board := faulty_board phy_write sees (fun a => a) base in
  fst (@test_ddr3 _ board false d) = (fun s => (s, 0%Z)) <$> List.filter good settings /\
  fst (@test_sdram _ board true d) = (fun s => (s, 0%Z)) <$> take 1 (List.filter good settings).
Proof.
  cbv zeta. unfold test_ddr3, test_sdram.
  rewrite (search_good phy_write sees base false good (H false)), (search_good phy_write sees base true good (H true)). done.
Qed.

(** An interface that counts the pulses since the last reset, and reads right
    with two bitslips and a delay from 6 to 9. *)
Definition counting_write (r : string) (v : Z) (p : nat * nat) : nat * nat :=
  if String.eqb r "ddrphy_rdly_dq_rst" then (0, 0)%nat
  else if String.eqb r "ddrphy_rdly_dq_bitslip" then (S (fst p), snd p)
  else if String.eqb r "ddrphy_rdly_dq_inc" then (fst p, S (snd p)) else p.

Definition demo_good (s : nat * nat) : bool := (fst s =? 2)%nat && (6 <=? snd s)%nat && (snd s <=? 9)%nat.

Definition demo_sees (p : nat * nat) (v : Z) : Z :=
  if (fst p =? 6)%nat && (6 <=? snd p)%nat && (snd p <=? 9)%nat then v else (v + 1)%Z.

Lemma counting_pulses r (f : nat * nat -> nat * nat) l p :
  (forall p, counting_write r 1 p = f p) ->
  fold_left (fun p w => counting_write (fst w) (snd w) p) ((fun _ : Z => (r, 1%Z)) <$> l) p = Nat.iter (length l) f p.
Proof.
  intros Hf. revert p. induction l as [|x l IH]; intros p; [done|]. rewrite fmap_cons. cbn [fold_left fst snd length].
  rewrite IH, Hf, <- Nat.iter_succ_r. done.
Qed.

Lemma length_range n : length (range n) = n.
Proof. unfold range. by rewrite length_fmap, length_seq. Qed.

Lemma counting_lane b dl k p : fold_left (fun p w => counting_write (fst w) (snd w) p) (lane_setup b dl k) p = ((3 * b)%nat, dl).
Proof.
  unfold lane_setup. rewrite !fold_left_app. cbn [fold_left fst snd]. change (counting_write "ddrphy_rdly_dq_rst" 1 _) with (0, 0)%nat.
  rewrite (counting_pulses _ (fun p => (fst p, S (snd p)))) by done.
  assert (E : fold_left (fun p w => counting_write (fst w) (snd w) p)
    (range b ≫= fun _ => (fun _ => ("ddrphy_rdly_dq_bitslip", 1%Z)) <$> range 3) (0, 0)%nat = ((3 * b)%nat, 0%nat)).
  { rewrite <- (length_range b) at 2. generalize (range b) as l. intros l.
    enough (G : forall l n, fold_left (fun p w => counting_write (fst w) (snd w) p)
      (l ≫= fun _ : Z => (fun _ => ("ddrphy_rdly_dq_bitslip", 1%Z)) <$> range 3) (n, 0%nat) = ((n + 3 * length l)%nat, 0%nat)) by apply (G l 0%nat).
    clear l. induction l as [|x l IH]; intros n; [cbn; f_equal; lia|].
    rewrite bind_cons, fold_left_app, (counting_pulses _ (fun p => (S (fst p), snd p))) by done.
    change (Nat.iter (length (range 3)) _ (n, 0%nat)) with (S (S (S n)), 0%nat). rewrite IH. cbn [length]. f_equal. lia. }
  rewrite E, length_range. clear E. induction dl as [|dl IH]; [done|]. by rewrite Nat.iter_succ, IH.
Qed.

Lemma counting_setup s p : phy_after counting_write s p = ((3 * fst s)%nat, snd s).
Proof.
  unfold phy_after, setup. change (range 2) with [0; 1]%Z. cbn [mbind list_bind]. rewrite !fold_left_app. cbn [fold_left].
  by rewrite !counting_lane.
Qed.

Lemma calibration_reports_witness :
  List.filter demo_good settings = [(2, 6); (2, 7); (2, 8); (2, 9)]%nat /\
  fst (@test_sdram _ (faulty_board counting_write demo_sees (fun a => a) 0x40000000) true ((0, 0)%nat, fun _ => 0%Z)) = [((2, 6)%nat, 0%Z)].
Proof.
  assert (E : List.filter demo_good settings = [(2, 6); (2, 7); (2, 8); (2, 9)]%nat) by (vm_compute; reflexivity).
  split; [exact E|].
  assert (H : forall random s p, if demo_good s then right demo_sees (phy_after counting_write s p)
    else wrong demo_sees random (phy_after counting_write s p)).
  { intros random [b dl] p. rewrite counting_setup. cbn [fst snd].
    assert (Hd : demo_sees ((3 * b)%nat, dl) = if demo_good (b, dl) then (fun v => v) else (fun v => (v + 1)%Z)).
    { unfold demo_sees, demo_good. cbn [fst snd].
      replace (3 * b =? 6)%nat with (b =? 2)%nat by (destruct (Nat.eqb_spec b 2), (Nat.eqb_spec (3 * b) 6); lia).
      by destruct (b =? 2)%nat, (6 <=? dl)%nat, (dl <=? 9)%nat. }
    unfold right, wrong. rewrite Hd. destruct (demo_good (b, dl)); [done|]. exists 0%Z. split; [by left|]. lia. }
  pose proof (proj2 (calibration_reports counting_write demo_sees 0x40000000 demo_good ((0, 0)%nat, fun _ => 0%Z) H)) as R.
  rewrite E in R. exact R.
Defined.
