(* ===== verification/Capture.v ===== *)
(** * Streaming pictures over Ethernet ([test/hdmi2ethernet/test_capture.py],
    [test_sdram.py])

    The scripts that receive the board's JPEG pictures as datagrams and cut the
    capture into files, and that compare the memory with a pattern in packets.
    Bytes and words are numbers; the socket's datagrams are a list. *)
From S2P Require Import Prelude.
#[local] Open Scope Z_scope.

(** ** test_capture.py *)

Definition capture_size : Z := 10 * 1024 * 1024.

(** The loop that writes datagrams to a file until it is larger than
    [capture_size]: the file and the last datagram; [None] if it waits for more. *)
Fixpoint receive (data_size : Z) (file : list Z) (datagrams : list (list Z)) : option (list Z * list Z) :=
  match datagrams with
  | [] => None
  | data :: datagrams =>
      let data_size := data_size + Z.of_nat (length data) in
      let file := (file ++ data)%list in
      if data_size <=? capture_size then receive data_size file datagrams else Some (file, data)
  end.

(** The end of a JPEG picture, and [c.find] of it. *)
Definition eoi : list Z := [0xff; 0xd9].

Fixpoint find_eoi (c : list Z) : option nat :=
  match c with
  | x :: (y :: _) as c' => if (x =? 0xff) && (y =? 0xd9) then Some 0%nat else S <$> find_eoi c'
  | _ => None
  end.

(** The inner loop: what it yields, and what is left of [c]. *)
Fixpoint yield_pictures (fuel : nat) (c : list Z) : list (list Z) * list Z :=
  match fuel with
  | O => ([], c)
  | S fuel =>
      match find_eoi c with
      | None => ([], c)
      | Some pos => let '(ps, c') := yield_pictures fuel (drop (pos + 2) c) in (take pos c :: ps, c')
      end
  end.

(** The generator, with [n] bytes a read: [data] is the module's, the last
    datagram. *)
Fixpoint split_loop (fuel n : nat) (data c file : list Z) : list (list Z) :=
  match fuel with
  | O => []
  | S fuel =>
      match take n file with
      | [] => [data]
      | b => let '(ps, c) := yield_pictures (length (c ++ b)%list) (c ++ b)%list in
             (ps ++ split_loop fuel n data c (drop n file))%list
      end
  end.

Definition split_capture (data file : list Z) : list (list Z) := split_loop (S (length file)) 1048 data [] file.

(** The pictures written. *)
Definition test_capture (datagrams : list (list Z)) : option (list (list Z)) :=
  '(file, data) ← receive 0 [] datagrams;
  Some (split_capture data file).

(** ** test_sdram.py *)

Definition seed_to_data (seed : Z) (random : bool) : Z :=
  if random then Z.land (seed * 0x31415979 + 1) 0xffffffff else seed.

(** [generate_packet]: the words, and the seed behind them. *)
Fixpoint generate_packet (seed : Z) (length : nat) : list Z * Z :=
  match length with
  | O => ([], seed)
  | S n => let '(r, s) := generate_packet (seed + 1) n in (seed_to_data seed false :: r, s)
  end.

(** Words of the shorter packet are dropped until its first is the first of the
    longer one, or one word is left. *)
Fixpoint resync (ref0 : Z) (res : list Z) : nat * list Z :=
  match res with
  | x :: (_ :: _) as res' => if x =? ref0 then (0%nat, res) else let '(k, r) := resync ref0 res' in (S k, r)
  | _ => (0%nat, res)
  end.

Definition differences (ref res : list Z) : nat :=
  length (List.filter (fun p => negb (fst p =? snd p)) (combine ref res)).

(** [check] of two packets: shift, words compared, differences. *)
Definition check (p1 p2 : list Z) : result (nat * nat * nat) :=
  let '(ref, res) := if (length p2 <=? length p1)%nat then (p1, p2) else (p2, p1) in
  match ref, res with
  | r0 :: _, _ :: _ =>
      let '(shift, res) := resync r0 res in
      let len := Nat.min (length ref) (length res) in
      Ok (shift, len, differences (take len ref) (take len res))
  | _, _ => Raise IndexError
  end.

Definition WORDS_PER_PACKET : nat := 128.
Definition TEST_SIZE : Z := 1024 * 1024.
Definition SDRAM_BASE : Z := 0x40000000.

(** The memory is read in packets: [read a k] are [k] words from address [a]. *)
Fixpoint read_back (read : Z -> nat -> list Z) (packets : nat) (n : Z) (seed : Z) (errors : Z) : result Z :=
  match packets with
  | O => Ok errors
  | S packets =>
      let '(ref, seed) := generate_packet seed WORDS_PER_PACKET in
      let data := read (SDRAM_BASE + n * Z.of_nat WORDS_PER_PACKET * 4) WORDS_PER_PACKET in
      '(_, _, e) ← check ref data;
      read_back read packets (n + 1) seed (errors + Z.of_nat e)
  end.

Definition test_sdram (read : Z -> nat -> list Z) : result Z :=
  read_back read (Z.to_nat (TEST_SIZE / (Z.of_nat WORDS_PER_PACKET * 4))) 0 0 0.

(** ** Theorems *)

Definition no_eoi (l : list Z) : Prop := find_eoi l = None.

Lemma find_eoi_some c pos : find_eoi c = Some pos -> c = (take pos c ++ eoi ++ drop (pos + 2) c)%list /\ no_eoi (take pos c).
Proof.
  revert pos. induction c as [|x [|y c] IH]; intros pos H; [done..|].
  cbn [find_eoi] in H. destruct ((x =? 0xff) && (y =? 0xd9)) eqn:E.
  - injection H as <-. apply andb_true_iff in E as [->%Z.eqb_eq ->%Z.eqb_eq]. done.
  - change (S <$> find_eoi (y :: c) = Some pos) in H. destruct (find_eoi (y :: c)) as [k|] eqn:Ek; [|done].
    injection H as <-. destruct (IH k eq_refl) as [E1 E2]. split.
    + change (S k + 2)%nat with (S (k + 2)). rewrite !firstn_cons, skipn_cons. cbn [app]. f_equal. exact E1.
    + destruct k as [|k]; [done|]. unfold no_eoi in *. rewrite !firstn_cons in *. cbn [find_eoi]. rewrite E.
      change (S <$> find_eoi (y :: take k c) = None). by rewrite E2.
Qed.

(** Pictures with their end marks. *)
Definition marked (ps : list (list Z)) : list Z := ps ≫= fun p => (p ++ eoi)%list.

Lemma yield_pictures_spec fuel c : (length c <= fuel)%nat ->
  let '(ps, r) := yield_pictures fuel c in c = (marked ps ++ r)%list /\ Forall no_eoi ps /\ no_eoi r.
Proof.
  revert c. induction fuel as [|fuel IH]; intros c Hf.
  - destruct c; [|cbn in Hf; lia]. by split_and!; [|constructor|].
  - cbn [yield_pictures]. destruct (find_eoi c) as [pos|] eqn:E; [|by split_and!; [|constructor|]].
    destruct (find_eoi_some c pos E) as [Ec Hp]. specialize (IH (drop (pos + 2) c)).
    destruct (yield_pictures fuel (drop (pos + 2) c)) as [ps r]. destruct IH as (E1 & E2 & E3).
    { rewrite length_drop. apply (f_equal length) in Ec. rewrite !length_app in Ec. cbn [eoi length] in Ec. lia. }
    split_and!; [|by constructor | done]. unfold marked. rewrite bind_cons, <- !app_assoc. fold (marked ps).
    by rewrite <- E1.
Qed.

Lemma split_loop_spec fuel n data c file : (0 < n)%nat -> (length file < fuel)%nat -> no_eoi c ->
  exists ps r, split_loop fuel n data c file = (ps ++ [data])%list /\ (c ++ file = marked ps ++ r)%list /\
    Forall no_eoi ps /\ no_eoi r.
Proof.
  intros Hn. revert c file. induction fuel as [|fuel IH]; intros c file Hf Hc; [lia|]. cbn [split_loop].
  destruct (take n file) as [|x b] eqn:Et.
  - destruct file as [|y file]; [|by destruct n; [lia|]]. exists [], c. by rewrite app_nil_r; split_and!; [| |constructor|].
  - pose proof (yield_pictures_spec (length (c ++ x :: b)) (c ++ x :: b) (Nat.le_refl _)) as Y.
    destruct (yield_pictures _ _) as [ps r]. destruct Y as (E1 & E2 & E3).
    destruct (IH r (drop n file)) as (qs & r' & F1 & F2 & F3 & F4).
    { rewrite length_drop. destruct file; [by rewrite take_nil in Et | cbn in *; lia]. }
    { exact E3. }
    exists (ps ++ qs)%list, r'. split_and!.
    + by rewrite F1, app_assoc.
    + unfold marked. rewrite bind_app. fold (marked ps) (marked qs). rewrite <- app_assoc, <- F2, app_assoc, <- E1, <- app_assoc.
      by rewrite <- Et, take_drop.
    + by apply Forall_app.
    + exact F4.
Qed.

Definition total (ds : list (list Z)) : Z := Z.of_nat (length (concat ds)).

Lemma total_cons d ds : total (d :: ds) = Z.of_nat (length d) + total ds.
Proof. unfold total. cbn [concat]. rewrite length_app. lia. Qed.

Lemma receive_spec ds size file : size <= capture_size ->
  match receive size file ds with
  | None => size + total ds <= capture_size
  | Some (f, lst) => exists before after, ds = (before ++ lst :: after)%list /\ f = (file ++ concat before ++ lst)%list /\
      size + total before <= capture_size < size + total before + Z.of_nat (length lst)
  end.
Proof.
  revert size file. induction ds as [|d ds IH]; intros size file Hs; cbn [receive]; [unfold total; cbn; lia|].
  destruct (Z.leb_spec (size + Z.of_nat (length d)) capture_size) as [L|L].
  - specialize (IH _ (file ++ d)%list L). destruct (receive _ _ ds) as [[f lst]|].
    + destruct IH as (before & after & -> & -> & Hb). exists (d :: before), after. rewrite total_cons. cbn [concat].
      rewrite <- !app_assoc. split_and!; [done | done | lia..].
    + rewrite total_cons. lia.
  - exists [], ds. split_and!; [done | done | unfold total; cbn; lia..].
Qed.

(** Claim C38: cutting a capture into pictures. The script takes datagrams until
    they are more than 10 MiB together, and waits while there are fewer. Wherever
    the reads of 1048 bytes cut the file, the end marks of the pictures are found:
    the pieces written, each with its end mark, are the file up to the last mark,
    and no mark is inside a piece or in the rest. After them it writes the last
    datagram in place of the rest. *)
Theorem capture_cut_at_marks (datagrams : list (list Z)) :
  match test_capture datagrams with
  | None => total datagrams <= capture_size
  | Some pictures =>
      exists before lst after ps rest,
        datagrams = (before ++ lst :: after)%list /\
        total before <= capture_size < total before + Z.of_nat (length lst) /\
        pictures = (ps ++ [lst])%list /\ (concat before ++ lst = marked ps ++ rest)%list /\
        Forall no_eoi ps /\ no_eoi rest
  end.
Proof.
  unfold test_capture. pose proof (receive_spec datagrams 0 []) as R.
  specialize (R ltac:(vm_compute; discriminate)). destruct (receive 0 [] datagrams) as [[f lst]|]; [|exact R].
  cbn [mbind option_bind]. destruct R as (before & after & -> & -> & Hb).
  unfold split_capture.
  destruct (split_loop_spec (S (length ([] ++ concat before ++ lst)%list)) 1048 lst [] ([] ++ concat before ++ lst)%list)
    as (ps & rest & E1 & E2 & E3 & E4); [lia | lia | done|].
  exists before, lst, after, ps, rest. split_and!; [done | lia | lia | exact E1 | exact E2 | done | done].
Qed.

(** The rest is lost, the last datagram, which is mostly in the pieces already,
    is written once more; here with reads of two bytes, which cut the mark. *)
Example rest_is_lost : split_loop 9 2 [7; 8] [] [1; 2; 0xff; 0xff; 0xd9; 3; 7; 8] = [[1; 2; 0xff]; [7; 8]].
Proof. vm_compute. reflexivity. Qed.

Lemma resync_spec r0 res k r : resync r0 res = (k, r) -> r = drop k res.
Proof.
  revert k r. induction res as [|x [|y res] IH]; intros k r H; [by injection H as <- <-..|].
  cbn [resync] in H. destruct (x =? r0); [by injection H as <- <-|].
  change (match res with [] => (0%nat, y :: res) | _ :: _ => _ end) with (resync r0 (y :: res)) in H.
  destruct (resync r0 (y :: res)) as [k' r']. injection H as <- <-. by apply IH.
Qed.

Lemma differences_zero a b : length a = length b -> differences a b = 0%nat -> a = b.
Proof.
  revert b. induction a as [|x a IH]; intros [|y b] Hl H; [done..|]. unfold differences in *. cbn [combine List.filter fst snd] in H.
  destruct (Z.eqb_spec x y) as [->|]; cbn [negb length] in H; [|done]. f_equal. apply IH; [by injection Hl | exact H].
Qed.

(** What a comparison without differences means: behind the shift, the packet is
    the beginning of the reference. *)
Lemma check_without_errors p1 p2 shift len : length p1 = length p2 -> check p1 p2 = Ok (shift, len, 0%nat) ->
  len = (length p2 - shift)%nat /\ take len p1 = drop shift p2.
Proof.
  intros Hl H. unfold check in H. rewrite Hl, Nat.leb_refl in H. destruct p1 as [|r0 p1]; [done|]. destruct p2 as [|x p2]; [done|].
  destruct (resync r0 (x :: p2)) as [k r] eqn:E. apply resync_spec in E.
  assert (Hr : length r = (length (x :: p2) - k)%nat) by by rewrite E, length_drop. assert (Hlen : Nat.min (length (r0 :: p1)) (length r) = (length (x :: p2) - k)%nat) by lia.
  apply (f_equal (fun o => match o with Ok t => t | Raise _ => (0, 0, 1)%nat end)) in H. cbv beta iota zeta in H.
  rewrite Hlen in H. injection H as <- <- H. split; [done|]. apply differences_zero in H; [|rewrite !length_take; cbn [length] in *; lia].
  rewrite <- E. etransitivity; [exact H|]. apply take_ge. cbn [length] in *. lia.
Qed.

(** A memory that is one word late passes, and so does one that is wrong
    everywhere count one error for each packet, not 128. *)
Example late_packet_passes : check [0; 1; 2; 3] [9; 0; 1; 2] = Ok (1, 3, 0)%nat.
Proof. reflexivity. Qed.

Example wrong_packet_counts_once : check [0; 1; 2; 3] [9; 9; 9; 9] = Ok (3, 1, 1)%nat.
Proof. reflexivity. Qed.
