(* ===== verification/AxiomTest.v ===== *)
(** * test/test_axiom.py: the pins of the Axiom adapter, one by one

    The script addresses a pin of the adapter's connectors by the name it has
    there, and drives it through a bit of a register of the [gpio] module of
    [targets/opsis/axiom.py]. Three parts have to agree on names and order for
    that to reach the pin: the adapter's table ([platforms/tofe_axiom.py]), the
    grouping of the nets into a resource ([platforms/opsis.py], whose groups are
    the registers), and the script's reading of a net's name. *)
From S2P Require Import Prelude PyStr Platform PlatformOpsis.
#[local] Open Scope Z_scope.
#[local] Open Scope string_scope.

(** ** [GPIO2TOFE] *)

(** [tofe.layout]: the subsignals of the resource and the FPGA pins of each. *)
Definition subsignal_pins (c : constraint) : option (string * list string) :=
  match c with
  | Subsignal n cs => Some (n, flat_map fields (flat_map identifiers cs))
  | _ => None
  end.

Definition layout : list (string * list string) := omap subsignal_pins (res_constraints (the tofe_resource I)).

(** [get_csrs]: an output register for each, under the name of the subsignal;
    the SoC prefixes the name of the module. *)
Definition get_csrs : list (string * list string) := prod_map (String.append "gpio_") id <$> layout.

(** The register and the bit that drive a pin of the FPGA. *)
Definition drives (reg : string) (bit : nat) (pad : string) : Prop :=
  exists pads, In (reg, pads) get_csrs /\ pads !! bit = Some pad.

(** What the script relies on: an output register of the device keeps what is
    written to it, as wide as its pins, and no other register changes. The
    level of a pin is its bit of the register. *)
Class Gpio := {
  device : Type;
  read : string -> device -> Z;
  write : string -> Z -> device -> device;
  read_write r pads v d : In (r, pads) get_csrs -> in_width (Z.of_nat (length pads)) v -> read r (write r v d) = v;
  read_write_other r r' v d : r' <> r -> read r' (write r v d) = read r' d;
  read_width r pads d : In (r, pads) get_csrs -> in_width (Z.of_nat (length pads)) (read r d)
}.

(** ** [Pin] and [AxiomIO] *)

(** The attributes of a [Pin]; its mask is [2**pos]. *)
Record Pin := { pin_name : string; pin_reg : string; pin_pos : Z }.
Definition _mask (p : Pin) : Z := (2 ^ pin_pos p)%Z.

Section access.
Context {G : Gpio}.

Definition pin_set (d : device) (p : Pin) : device := write (pin_reg p) (Z.lor (read (pin_reg p) d) (_mask p)) d.
Definition pin_clear (d : device) (p : Pin) : device :=
  write (pin_reg p) (Z.land (read (pin_reg p) d) (Z.lnot (_mask p))) d.

(** [PinList.set], [PinList.clear]. *)
Definition pins_set (ps : list Pin) (d : device) : device := foldl pin_set d ps.
Definition pins_clear (ps : list Pin) (d : device) : device := foldl pin_clear d ps.
End access.

(** [p[-1]], [p[1:-1]]. *)
Definition last_char (s : string) : string := sdrop (String.length s - 1) s.
Definition middle (s : string) : string := cut_end 1 (sdrop 1 s).

(** The register's name and the bit of a net like diff_clk_a1n. *)
Definition net_location (net : string) : result (string * Z) :=
  match split_at "_" net with
  | [_; t; p] =>
      if String.eqb p "" then Raise IndexError
      else
        n ← py_int ("0" +++ middle p);
        let l := first_char p in
        let '(l, n) := if String.eqb l "y" then ("x", 1)
                       else if String.eqb l "z" then ("x", 2) else (l, n) in
        Ok ("gpio_" +++ t +++ "_" +++ l +++ "_" +++ last_char p, n)
  | _ => Raise ValueError
  end.

(** [getattr(wb.regs, reg_name)]. *)
Definition open_pin (desc net : string) : result Pin :=
  '(reg, n) ← net_location net;
  if existsb (String.eqb reg) (fst <$> get_csrs)
  then Ok {| pin_name := desc; pin_reg := reg; pin_pos := n |} else Raise AttributeError.

(** [d[k] = v] on a dict with numbers as keys, of which the code uses only the
    values in the order of the keys. *)
Fixpoint put {V} (k : Z) (v : V) (d : list (Z * V)) : list (Z * V) :=
  match d with
  | [] => [(k, v)]
  | (k', v') :: rest =>
      if (k <? k')%Z then (k, v) :: d else if (k =? k')%Z then (k, v) :: rest else (k', v') :: put k v rest
  end.

Record Groups := { pins : list Pin; io_d : list (Z * Pin); lvds_p_d : list (Z * Pin); lvds_n_d : list (Z * Pin) }.
Definition no_groups : Groups := {| pins := []; io_d := []; lvds_p_d := []; lvds_n_d := [] |}.

(** The loop's body. A last letter other than p and n would ask for an
    attribute that does not exist. *)
Definition add_pin (g : Groups) (dn : string * string) : result Groups :=
  let '(desc, net) := dn in
  p ← open_pin desc net;
  let pins := (pins g ++ [p])%list in
  io_d ← (if startswith desc "io" then n ← py_int (sdrop 2 desc); Ok (put n p (io_d g)) else Ok (io_d g));
  if startswith desc "lvds_" then
    n ← py_int (cut_end 1 (sdrop 5 desc));
    if String.eqb (last_char desc) "p"
    then Ok {| pins := pins; io_d := io_d; lvds_p_d := put n p (lvds_p_d g); lvds_n_d := lvds_n_d g |}
    else if String.eqb (last_char desc) "n"
    then Ok {| pins := pins; io_d := io_d; lvds_p_d := lvds_p_d g; lvds_n_d := put n p (lvds_n_d g) |}
    else Raise AttributeError
  else Ok {| pins := pins; io_d := io_d; lvds_p_d := lvds_p_d g; lvds_n_d := lvds_n_d g |}.

Fixpoint add_pins (g : Groups) (table : list (string * string)) : result Groups :=
  match table with [] => Ok g | dn :: table => g ← add_pin g dn; add_pins g table end.

Definition AxiomIO (name : string) : result Groups :=
  match getitem _tofe_axiom name with Some table => add_pins no_groups table | None => Raise KeyError end.

(** The [PinList]s the constructor leaves, and the pairs. *)
Definition io (g : Groups) : list Pin := snd <$> io_d g.
Definition lvds_p (g : Groups) : list Pin := snd <$> lvds_p_d g.
Definition lvds_n (g : Groups) : list Pin := snd <$> lvds_n_d g.
Definition lvds (g : Groups) : list (Pin * Pin) := combine (lvds_p g) (lvds_n g).

(** A pin's own attribute. *)
Definition pin_attr (g : Groups) (name : string) : result Pin :=
  match find (fun p => String.eqb (pin_name p) name) (pins g) with Some p => Ok p | None => Raise AttributeError end.

(** The pins that [set(name)] and [clear(name)] visit, in order. What is no
    pin, list or pair has no attribute [set]. *)
Definition selected (g : Groups) (name : string) : result (list Pin) :=
  if String.eqb name "all" || String.eqb name "pins" then Ok (pins g)
  else if String.eqb name "io" then Ok (io g)
  else if String.eqb name "lvds_p" then Ok (lvds_p g)
  else if String.eqb name "lvds_n" then Ok (lvds_n g)
  else if String.eqb name "lvds" then Ok (flat_map (fun pn => [fst pn; snd pn]) (lvds g))
  else p ← pin_attr g name; Ok [p].

Definition axiom_set {G : Gpio} (g : Groups) (name : string) (d : device) : result device :=
  ps ← selected g name; Ok (pins_set ps d).
Definition axiom_clear {G : Gpio} (g : Groups) (name : string) (d : device) : result device :=
  ps ← selected g name; Ok (pins_clear ps d).

(** ** [Pmod3] *)

Fixpoint pmod_pins (l : list (string * (string * string))) (anorth asouth : Groups) : result (list Pin) :=
  match l with
  | [] => Ok []
  | (_, (a, b)) :: l =>
      p ← (if String.eqb a "north" then pin_attr anorth b
           else if String.eqb a "south" then pin_attr asouth b else Raise AssertionError);
      ps ← pmod_pins l anorth asouth;
      Ok (p :: ps)
  end.

(** [_axiom_3pmod[name]]. *)
Fixpoint pmod_table (name : string) (l : list (axiom_key * axiom_value)) : result (list (string * (string * string))) :=
  match l with
  | [] => Raise KeyError
  | (AxPmod n, AxPins ps) :: l => if String.eqb n name then Ok ps else pmod_table name l
  | _ :: l => pmod_table name l
  end.

Definition _setup (name : string) (anorth asouth : Groups) : result (list Pin) :=
  t ← pmod_table name _axiom_3pmod; pmod_pins (sorted_items t) anorth asouth.

Record Pmod3 := { nled : list Pin; sled : list Pin; north : list Pin; middle_pmod : list Pin; south : list Pin }.

Definition make_pmod3 (anorth asouth : Groups) : result Pmod3 :=
  n ← _setup "pnorth" anorth asouth;
  m ← _setup "pmiddle" anorth asouth;
  s ← _setup "psouth" anorth asouth;
  Ok {| nled := io anorth; sled := io asouth; north := n; middle_pmod := m; south := s |}.

(** ** What the registers drive *)

(** Every bit of the registers with the pin of the FPGA on it. *)
Definition bits_of (rp : string * list string) : list (string * nat * string) :=
  imap (fun k pad => (fst rp, k, pad)) (snd rp).
Definition gpio_bits : list (string * nat * string) := flat_map bits_of get_csrs.

#[local] Opaque get_csrs.

Lemma drives_bits reg bit pad : drives reg bit pad <-> In (reg, bit, pad) gpio_bits.
Proof.
  unfold gpio_bits. rewrite in_flat_map. split.
  - intros (pads & Hin & Hb). exists (reg, pads). split; [exact Hin|].
    apply list_elem_of_In, elem_of_lookup_imap. exists bit, pad. split; [reflexivity | exact Hb].
  - intros ([r pads] & Hin & Hb). apply list_elem_of_In, elem_of_lookup_imap in Hb as (k & x & [= -> -> ->] & Hk).
    exists pads. split; [exact Hin | exact Hk].
Qed.

#[export] Instance drives_dec reg bit pad : Decision (drives reg bit pad).
Proof.
  refine (cast_if (decide ((reg, bit, pad) ∈ gpio_bits))); rewrite drives_bits, <- list_elem_of_In; done.
Defined.

#[local] Opaque gpio_bits.

(** No pin of the FPGA is on two of them. *)
Lemma pad_driven_once reg bit reg' bit' pad : drives reg bit pad -> drives reg' bit' pad -> reg' = reg /\ bit' = bit.
Proof.
  rewrite !drives_bits. intros H H'.
  assert (Hall : Forall (fun x => Forall (fun y => snd x = snd y -> fst x = fst y) gpio_bits) gpio_bits)
    by (refine (bool_decide_unpack _ _); vm_compute; exact I).
  rewrite List.Forall_forall in Hall. specialize (Hall _ H'). rewrite List.Forall_forall in Hall.
  assert (E : (reg', bit') = (reg, bit)) by exact (Hall _ H eq_refl). injection E as -> ->. by split.
Qed.

(** ** One pin *)

Lemma in_width_bits w z : 0 <= w -> in_width w z <-> 0 <= z /\ forall l, w <= l -> Z.testbit z l = false.
Proof.
  intros Hw. unfold in_width. split.
  - intros [H0 H]. split; [done|]. by apply Z.bounded_iff_bits_nonneg.
  - intros [H0 H]. split; [done|]. by apply Z.bounded_iff_bits_nonneg.
Qed.

Section levels.
Context {G : Gpio}.

(** [on]: the script's bit of a pin is a bit of a register. *)
Definition placed (p : Pin) : Prop := 0 <= pin_pos p /\ exists pad, drives (pin_reg p) (Z.to_nat (pin_pos p)) pad.
Definition hits (reg : string) (bit : Z) (p : Pin) : bool := String.eqb reg (pin_reg p) && (bit =? pin_pos p)%Z.

(** A bit of the device: of a register that exists. *)
Definition level (reg : string) (bit : Z) (d : device) : bool := Z.testbit (read reg d) bit.

Lemma level_write p v d reg bit :
  placed p -> 0 <= bit -> 0 <= v ->
  (forall l, 0 <= l -> Z.testbit v l = true -> l = pin_pos p \/ level (pin_reg p) l d = true) ->
  level reg bit (write (pin_reg p) v d) = if String.eqb reg (pin_reg p) then Z.testbit v bit else level reg bit d.
Proof.
  intros [Hp (pad & pads & Hin & Hpad)] Hb H0 Hv. unfold level in *.
  destruct (String.eqb_spec reg (pin_reg p)) as [->|Hne]; [|by rewrite read_write_other].
  rewrite (read_write _ _ _ _ Hin); [done|]. apply in_width_bits; [lia|]. split; [done|].
  intros l Hl. apply lookup_lt_Some in Hpad. apply not_true_iff_false. intros Ht.
  destruct (Hv l ltac:(lia) Ht) as [->|Hr]; [lia|].
  pose proof (read_width _ _ d Hin) as Hw. apply in_width_bits in Hw; [|lia]. rewrite (proj2 Hw l Hl) in Hr. done.
Qed.

Lemma level_nonneg p d : placed p -> 0 <= read (pin_reg p) d.
Proof. intros [_ (pad & pads & Hin & _)]. apply (read_width _ _ d Hin). Qed.

Lemma level_set p d reg bit :
  placed p -> 0 <= bit -> level reg bit (pin_set d p) = hits reg bit p || level reg bit d.
Proof.
  intros Hp Hb. pose proof (level_nonneg p d Hp) as H0. unfold pin_set, _mask.
  rewrite level_write; [|done..| |].
  - unfold hits, level. destruct (String.eqb_spec reg (pin_reg p)) as [->|]; [|done].
    rewrite Z.lor_spec, Z.pow2_bits_eqb, (Z.eqb_sym bit) by apply Hp. apply orb_comm.
  - apply Z.lor_nonneg. split; [done|]. apply Z.pow_nonneg. lia.
  - intros l Hl. rewrite Z.lor_spec, Z.pow2_bits_eqb by apply Hp. unfold level.
    rewrite orb_true_iff, Z.eqb_eq. intuition.
Qed.

Lemma level_clear p d reg bit :
  placed p -> 0 <= bit -> level reg bit (pin_clear d p) = negb (hits reg bit p) && level reg bit d.
Proof.
  intros Hp Hb. pose proof (level_nonneg p d Hp) as H0. unfold pin_clear, _mask.
  rewrite level_write; [|done..| |].
  - unfold hits, level. destruct (String.eqb_spec reg (pin_reg p)) as [->|]; [|done].
    rewrite Z.land_spec, Z.lnot_spec, Z.pow2_bits_eqb, (Z.eqb_sym bit) by (done || apply Hp). apply andb_comm.
  - apply Z.land_nonneg. by left.
  - intros l Hl. rewrite Z.land_spec, andb_true_iff. unfold level. tauto.
Qed.

Lemma levels_set ps d reg bit :
  Forall placed ps -> 0 <= bit -> level reg bit (pins_set ps d) = existsb (hits reg bit) ps || level reg bit d.
Proof.
  intros Hps Hb. revert d. induction Hps as [|p ps Hp Hps IH]; intros d; [done|]. unfold pins_set in *. cbn [foldl existsb].
  rewrite IH, level_set by done. by destruct (hits reg bit p), (existsb (hits reg bit) ps).
Qed.

Lemma levels_clear ps d reg bit :
  Forall placed ps -> 0 <= bit ->
  level reg bit (pins_clear ps d) = negb (existsb (hits reg bit) ps) && level reg bit d.
Proof.
  intros Hps Hb. revert d. induction Hps as [|p ps Hp Hps IH]; intros d; [done|]. unfold pins_clear in *. cbn [foldl existsb].
  rewrite IH, level_clear by done. by destruct (hits reg bit p), (existsb (hits reg bit) ps).
Qed.
End levels.

(** ** The names *)

(** The pin of the FPGA that a name of the adapter's connector is wired to,
    by the adapter's table and the Opsis board's. *)
Definition fpga_pin (side name : string) : option string :=
  table ← getitem _tofe_axiom side; net ← getitem table name; tofe_pin net.

Definition reaches (side : string) (p : Pin) : Prop :=
  0 <= pin_pos p /\ exists pad, fpga_pin side (pin_name p) = Some pad /\ drives (pin_reg p) (Z.to_nat (pin_pos p)) pad.

Definition reachesb (side : string) (p : Pin) : bool :=
  match fpga_pin side (pin_name p) with
  | Some pad => (0 <=? pin_pos p)%Z && bool_decide ((pin_reg p, Z.to_nat (pin_pos p), pad) ∈ gpio_bits)
  | None => false
  end.

Lemma reachesb_reaches side p : reachesb side p = true -> reaches side p.
Proof.
  unfold reachesb, reaches. destruct (fpga_pin side (pin_name p)) as [pad|]; [|done].
  intros [H1%Z.leb_le H2%bool_decide_eq_true]%andb_true_iff. split; [done|]. exists pad. split; [done|].
  rewrite drives_bits, <- list_elem_of_In. exact H2.
Qed.

(** All that [selected] can answer of what the constructor made. *)
Definition every_pin (g : Groups) : list Pin := (pins g ++ io g ++ lvds_p g ++ lvds_n g)%list.

Definition side_checked (side : string) : bool :=
  match AxiomIO side with Ok g => forallb (reachesb side) (every_pin g) | Raise _ => true end.

Lemma axiom_io_reaches side g : AxiomIO side = Ok g -> Forall (reaches side) (every_pin g).
Proof.
  intros H.
  assert (Hs : side = "north" \/ side = "south").
  { destruct (String.eqb_spec side "north") as [->|Hn]; [by left|].
    destruct (String.eqb_spec side "south") as [->|Hm]; [by right|]. exfalso.
    apply String.eqb_neq in Hn, Hm. unfold AxiomIO, _tofe_axiom in H. cbn [getitem fst snd] in H.
    by rewrite Hn, Hm in H. }
  assert (Hc : side_checked side = true) by (destruct Hs as [->| ->]; vm_compute; reflexivity).
  unfold side_checked in Hc. rewrite H in Hc. rewrite forallb_forall in Hc.
  apply List.Forall_forall. intros p Hp. by apply reachesb_reaches, Hc.
Qed.

Lemma selected_every g name ps : selected g name = Ok ps -> forall p, In p ps -> In p (every_pin g).
Proof.
  unfold selected, every_pin. intros H p Hp. rewrite !in_app_iff.
  repeat case_match; simplify_eq; auto.
  - apply in_flat_map in Hp as ([a b] & Hab & Hp). destruct Hp as [<-|[<-|[]]].
    + apply in_combine_l in Hab. auto.
    + apply in_combine_r in Hab. auto.
  - apply bind_ok in H as (q & Hq & [= <-]). destruct Hp as [->|[]]. unfold pin_attr in Hq.
    destruct (find _ (pins g)) as [q'|] eqn:E; [|done]. injection Hq as ->. apply find_some in E as [E _]. auto.
Qed.

Lemma reaches_placed side p : reaches side p -> placed p.
Proof. intros (H & pad & _ & Hd). split; [done|]. eauto. Qed.

Lemma mapM_omap {A B} (f : A -> option B) l : Forall (fun x => is_Some (f x)) l -> mapM f l = Some (omap f l).
Proof. induction 1 as [|x l [y Hy] _ IH]; [done|]. cbn. rewrite Hy. cbn. by rewrite IH. Qed.

(** The pins selected, as pins of the FPGA. *)
Definition fpga_pins (side : string) (ps : list Pin) : list string := omap (fun p => fpga_pin side (pin_name p)) ps.

Lemma hits_pads side ps reg bit pad :
  Forall (reaches side) ps -> drives reg bit pad ->
  existsb (hits reg (Z.of_nat bit)) ps = bool_decide (pad ∈ fpga_pins side ps).
Proof.
  intros Hps Hd. apply eq_iff_eq_true. rewrite existsb_exists, bool_decide_eq_true. unfold fpga_pins.
  rewrite list_elem_of_omap. rewrite List.Forall_forall in Hps. split.
  - intros (p & Hp & [->%String.eqb_eq Hb%Z.eqb_eq]%andb_true_iff). destruct (Hps p Hp) as (H0 & pad' & Hf & Hd').
    exists p. split; [by apply list_elem_of_In|]. rewrite Hf. rewrite <- Hb, Nat2Z.id in Hd'. f_equal.
    destruct Hd as (l & Hl & Hk), Hd' as (l' & Hl' & Hk').
    assert (l' = l) as ->; [|congruence].
    assert (Hn : NoDup (fst <$> get_csrs)) by (refine (bool_decide_unpack _ _); vm_compute; exact I).
    apply (getitem_unique _ _ _ Hn) in Hl, Hl'. congruence.
  - intros (p & Hp%list_elem_of_In & Hf). destruct (Hps p Hp) as (H0 & pad' & Hf' & Hd'). rewrite Hf in Hf'. injection Hf' as <-.
    exists p. split; [done|]. destruct (pad_driven_once _ _ _ _ _ Hd Hd') as [<- Hb].
    unfold hits. rewrite String.eqb_refl. cbn [andb]. lia.
Qed.

(** ** Theorems *)

(** Claim C37: the pins that the script drives. What [set] and [clear] select
    on a connector are pins with names of the adapter's table; [set] raises
    exactly the pins of the FPGA that the two boards' tables give for these
    names, [clear] lowers exactly these, and every other output of the [gpio]
    module keeps its level, on every device whose registers keep what is
    written to them. *)
Theorem axiom_pins_driven {G : Gpio} side g name ps d :
  AxiomIO side = Ok g -> selected g name = Ok ps ->
  exists pads up down,
    mapM (fun p => fpga_pin side (pin_name p)) ps = Some pads /\
    axiom_set g name d = Ok up /\ axiom_clear g name d = Ok down /\
    forall reg bit pad, drives reg bit pad ->
      level reg (Z.of_nat bit) up = (bool_decide (pad ∈ pads) || level reg (Z.of_nat bit) d) /\
      level reg (Z.of_nat bit) down = (negb (bool_decide (pad ∈ pads)) && level reg (Z.of_nat bit) d).
Proof.
  intros Hg Hs. pose proof (axiom_io_reaches side g Hg) as Hall. rewrite List.Forall_forall in Hall.
  assert (Hr : Forall (reaches side) ps) by
    (apply List.Forall_forall; intros p Hp; by apply Hall, (selected_every g name ps)).
  exists (fpga_pins side ps), (pins_set ps d), (pins_clear ps d).
  split; [|split; [by unfold axiom_set; rewrite Hs|split; [by unfold axiom_clear; rewrite Hs|]]].
  - apply mapM_omap. eapply Forall_impl; [exact Hr|]. intros p (_ & pad & Hf & _). by exists pad.
  - intros reg bit pad Hd. assert (Hp : Forall placed ps) by (eapply Forall_impl; [exact Hr|apply reaches_placed]).
    rewrite levels_set, levels_clear by (done || lia). by rewrite (hits_pads side ps reg bit pad Hr Hd).
Qed.

(** A device whose registers are as wide as their pins. *)
Definition reg_width (r : string) : Z := Z.of_nat (length (default [] (getitem get_csrs r))).

Lemma reg_width_pads r pads : In (r, pads) get_csrs -> reg_width r = Z.of_nat (length pads).
Proof.
  intros H. unfold reg_width. rewrite (getitem_unique _ _ pads); [done| |done].
  refine (bool_decide_unpack _ _); vm_compute; exact I.
Qed.

Program Definition plain_gpio : Gpio := {|
  device := string -> Z;
  read r d := wrap (reg_width r) (d r);
  write r v d := fun r' => if String.eqb r' r then v else d r'
|}.
Next Obligation. intros r pads v d H Hv. cbn. rewrite String.eqb_refl, (reg_width_pads _ _ H). by apply wrap_id. Qed.
Next Obligation. intros r r' v d H. cbn. by destruct (String.eqb_spec r' r). Qed.
Next Obligation. intros r pads d H. cbn. rewrite (reg_width_pads _ _ H). apply wrap_range. lia. Qed.

(** The north connector, its first differential pair's p side. *)
Lemma axiom_pins_driven_witness :
  let G := plain_gpio in
  exists g ps pads up down,
    AxiomIO "north" = Ok g /\ selected g "lvds_0p" = Ok ps /\
    mapM (fun p => fpga_pin "north" (pin_name p)) ps = Some pads /\ pads = ["G16"] /\
    axiom_set g "lvds_0p" (fun _ => 0) = Ok up /\ axiom_clear g "lvds_0p" (fun _ => 0) = Ok down /\
    forall reg bit pad, drives reg bit pad ->
      level reg (Z.of_nat bit) up = (bool_decide (pad ∈ pads) || level reg (Z.of_nat bit) (fun _ => 0)) /\
      level reg (Z.of_nat bit) down = (negb (bool_decide (pad ∈ pads)) && level reg (Z.of_nat bit) (fun _ => 0)).
Proof.
  intros G. do 2 eexists.
  destruct (axiom_pins_driven (G := G) "north" _ "lvds_0p" _ (fun _ => 0) ltac:(vm_compute; reflexivity) ltac:(vm_compute; reflexivity))
    as (pads & up & down & H & Hrest).
  exists pads, up, down. split; [vm_compute; reflexivity|]. split; [vm_compute; reflexivity|].
  split; [exact H|]. split; [vm_compute in H; congruence | exact Hrest].
Defined.

#[export] Instance Pin_eq_dec : EqDecision Pin.
Proof. solve_decision. Defined.

(** The adapter's rows of LEDs and its three PMODs use every pin of the two
    connectors but those of the I2C buses, none twice, and each of these pins
    is a different one of the FPGA; a connector has
    six pairs, each the two sides of one number. *)
Lemma pmod3_partition :
  exists n s m pn ps, AxiomIO "north" = Ok n /\ AxiomIO "south" = Ok s /\ make_pmod3 n s = Ok m /\
    nled m ++ sled m ++ north m ++ middle_pmod m ++ south m ++
      base.filter (fun p => pin_name p ∈ ["sda"; "scl"]) (pins n ++ pins s)%list ≡ₚ pins n ++ pins s /\
    mapM (fun p => fpga_pin "north" (pin_name p)) (pins n) = Some pn /\
    mapM (fun p => fpga_pin "south" (pin_name p)) (pins s) = Some ps /\ NoDup (pn ++ ps)%list /\
    Forall (fun g => length (lvds g) = 6%nat /\ forall ab, In ab (lvds g) ->
              exists k, pin_name (fst ab) = "lvds_" +++ str_Z k +++ "p" /\
                        pin_name (snd ab) = "lvds_" +++ str_Z k +++ "n") [n; s].
Proof.
  do 5 eexists. do 3 (split; [vm_compute; reflexivity|]).
  split; [refine (bool_decide_unpack _ _); vm_compute; exact I|].
  do 2 (split; [vm_compute; reflexivity|]).
  split; [refine (bool_decide_unpack _ _); vm_compute; exact I|].
  repeat constructor; try reflexivity; intros ab Hab; vm_compute in Hab;
    repeat (destruct Hab as [<-|Hab]; [first [by exists 0%Z | by exists 1%Z | by exists 2%Z | by exists 3%Z | by exists 4%Z | by exists 5%Z]|]);
    destruct Hab.
Qed.
