(* ===== verification/VideoTests.v ===== *)
(** * Tests of the video ports ([test/test_hdmi_out.py], [test_alignment.py],
    [test_delays.py], [hdmi2ethernet/test_dump.py])

    Scripts that set the timing of the HDMI output and draw colour bars into the
    frame buffer, that try the delays of an HDMI input, and that save the frame
    buffer as a picture. The board is [BoardTests]' class, with registers that
    can be read. *)
From S2P Require Import Prelude BoardTests.
From S2P Require Pattern.
#[local] Open Scope Z_scope.
#[local] Open Scope string_scope.

(** ** test_hdmi_out.py *)

Definition RGB_WHITE : Z := 0x00ffffff.
Definition RGB_YELLOW : Z := 0x0000ffff.
Definition RGB_CYAN : Z := 0x00ffff00.
Definition RGB_GREEN : Z := 0x0000ff00.
Definition RGB_PURPLE : Z := 0x00ff00ff.
Definition RGB_RED : Z := 0x000000ff.
Definition RGB_BLUE : Z := 0x00ff0000.
Definition RGB_BLACK : Z := 0x00000000.
Definition color_bar_rgb : list Z :=
  [RGB_WHITE; RGB_YELLOW; RGB_CYAN; RGB_GREEN; RGB_PURPLE; RGB_RED; RGB_BLUE; RGB_BLACK].

Definition YCBCR422_WHITE : Z := 0x80ff80ff.
Definition YCBCR422_YELLOW : Z := 0x00e194e1.
Definition YCBCR422_CYAN : Z := 0xabb200b2.
Definition YCBCR422_GREEN : Z := 0x2b951595.
Definition YCBCR422_PURPLE : Z := 0xd469e969.
Definition YCBCR422_RED : Z := 0x544cff4c.
Definition YCBCR422_BLUE : Z := 0xff1d6f1d.
Definition YCBCR422_BLACK : Z := 0x80108010.
Definition color_bar_ycbcr422 : list Z :=
  [YCBCR422_WHITE; YCBCR422_YELLOW; YCBCR422_CYAN; YCBCR422_GREEN;
   YCBCR422_PURPLE; YCBCR422_RED; YCBCR422_BLUE; YCBCR422_BLACK].

(** The writes of a configuration, in order. *)
Definition clocking (r : string) (v : Z) : string * Z := (String.append "hdmi_out0_driver_clocking_drp_" r, v).
Definition initiator (r : string) (v : Z) : string * Z := (String.append "hdmi_out0_core_initiator_" r, v).

Definition write_mmcm_reg (address data : Z) : list (string * Z) :=
  [clocking "addr" address; clocking "di" data; clocking "dwe" 1; clocking "den" 1].

Definition config_1080p60 (bpp : Z) : list (string * Z) :=
  (write_mmcm_reg 0x8 (0x1000 + Z.shiftl 2 6 + 3)%Z ++ write_mmcm_reg 0xa (0x1000 + Z.shiftl 1 6 + 1)%Z ++
   [initiator "hres" 1920; initiator "hsync_start" (1920 + 88)%Z; initiator "hsync_end" (1920 + 88 + 44)%Z;
    initiator "hscan" 2200;
    initiator "vres" 1080; initiator "vsync_start" (1080 + 4)%Z; initiator "vsync_end" (1080 + 4 + 5)%Z;
    initiator "vscan" 1125;
    initiator "enable" 0; initiator "base" 0; initiator "length" (1920 * 1080 * bpp)%Z; initiator "enable" 1])%list.

Definition config_720p60 (bpp : Z) : list (string * Z) :=
  (write_mmcm_reg 0x8 (0x1000 + Z.shiftl 4 6 + 6)%Z ++ write_mmcm_reg 0xa (0x1000 + Z.shiftl 2 6 + 2)%Z ++
   [initiator "hres" 1280; initiator "hsync_start" 1390; initiator "hsync_end" 1430; initiator "hscan" 1650;
    initiator "vres" 720; initiator "vsync_start" 725; initiator "vsync_end" 730; initiator "vscan" 750;
    initiator "enable" 0; initiator "base" 0; initiator "length" (1280 * 720 * bpp)%Z; initiator "enable" 1])%list.

Section hdmi_out.
Context {D : Type} `{Board D} `{Readable D}.

Definition read_mmcm_reg (address : Z) (d : D) : Z * D :=
  read_reg "hdmi_out0_driver_clocking_drp_do"
    (writes [clocking "addr" address; clocking "dwe" 0; clocking "den" 1] d).

(** [l[i]] of a list of eight. *)
Definition bar (l : list Z) (i : Z) : Z := nth (Z.to_nat i) l 0.

Definition draw_color_bar_rgb (d : D) : D :=
  fold_left (fun d y => fold_left (fun d x =>
    write_mem (main_ram + 4 * (1280 * y + x))%Z (bar color_bar_rgb (x * 8 / 1280)%Z) d)
    (range 1280) d) (range 720) d.

Definition draw_color_bar_ycbcr422 (d : D) : D :=
  fold_left (fun d y => fold_left (fun d x =>
    if (x mod 2 =? 0)%Z
    then write_mem (main_ram + 4 * (1280 / 2 * y + x / 2))%Z (bar color_bar_ycbcr422 (x * 8 / 1280)%Z) d
    else d) (range 1280) d) (range 720) d.

(** The module's statements. *)
Definition test_hdmi_out (d : D) : D := draw_color_bar_ycbcr422 (writes (config_720p60 2) d).
End hdmi_out.

(** ** test_alignment.py, test_delays.py *)

Definition DVISAMPLER_DELAY_RST : Z := 0x1.
Definition DVISAMPLER_DELAY_INC : Z := 0x2.
Definition DVISAMPLER_DELAY_DEC : Z := 0x4.
Definition DVISAMPLER_TOO_LATE : Z := 0x1.
Definition DVISAMPLER_TOO_EARLY : Z := 0x2.

(** The register of a data channel; for another channel the code names an
    exception but does not raise it. *)
Definition dly_ctl (channel : Z) : option string :=
  if (channel =? 0)%Z then Some "hdmi_in0_data0_cap_dly_ctl"
  else if (channel =? 1)%Z then Some "hdmi_in0_data1_cap_dly_ctl"
  else if (channel =? 2)%Z then Some "hdmi_in0_data2_cap_dly_ctl" else None.

Definition cap_phase (channel : Z) : option (string * string) :=
  if (channel =? 0)%Z then Some ("hdmi_in0_data0_cap_phase_reset", "hdmi_in0_data0_cap_phase")
  else if (channel =? 1)%Z then Some ("hdmi_in0_data1_cap_phase_reset", "hdmi_in0_data1_cap_phase")
  else if (channel =? 2)%Z then Some ("hdmi_in0_data2_cap_phase_reset", "hdmi_in0_data2_cap_phase") else None.

(** Reset, then one pulse for each step. *)
Definition delay_pulses (ctl : string) (delay : nat) : list (string * Z) :=
  (ctl, DVISAMPLER_DELAY_RST) :: ((fun _ => (ctl, DVISAMPLER_DELAY_INC)) <$> range delay).

Definition delay_writes (channel : Z) (delay : nat) : list (string * Z) :=
  match dly_ctl channel with Some ctl => delay_pulses ctl delay | None => [] end.

Section alignment.
Context {D : Type} `{Board D} `{Readable D}.

Definition configure_delay (channel : Z) (delay : nat) (d : D) : D := writes (delay_writes channel delay) d.

Definition get_phase_status (channel : Z) (d : D) : (bool * bool) * D :=
  let '(phase_status, d) :=
    match cap_phase channel with
    | Some (reset, phase) => let '(v, d) := read_reg phase (write_reg reset 1 d) in (Z.land v 0x3, d)
    | None => (0%Z, d)
    end in
  (((phase_status =? DVISAMPLER_TOO_LATE)%Z, (phase_status =? DVISAMPLER_TOO_EARLY)%Z), d).

(** A line of the report. *)
Definition scan_one (cd : Z * nat) (d : D) : (Z * nat * bool * bool) * D :=
  let '(channel, delay) := cd in
  let '((too_late, too_early), d) := get_phase_status channel (configure_delay channel delay d) in
  ((channel, delay, too_late, too_early), d).

Fixpoint scan (l : list (Z * nat)) (d : D) : list (Z * nat * bool * bool) * D :=
  match l with
  | [] => ([], d)
  | cd :: l => let '(r, d) := scan_one cd d in let '(rs, d) := scan l d in (r :: rs, d)
  end.

Definition all_delays : list (Z * nat) := range 3 ≫= fun channel => (fun delay => (channel, delay)) <$> seq 0 32.

Definition test_alignment (d : D) : list (Z * nat * bool * bool) * D := scan all_delays d.
End alignment.

Definition data0_delay : nat := 0.
Definition data1_delay : nat := 0.
Definition data2_delay : nat := 1.

Definition test_delays : list (string * Z) :=
  (delay_pulses "hdmi_in0_data0_cap_dly_ctl" data0_delay ++
   delay_pulses "hdmi_in0_data1_cap_dly_ctl" data1_delay ++
   delay_pulses "hdmi_in0_data2_cap_dly_ctl" data2_delay)%list.

(** ** hdmi2ethernet/test_dump.py *)

Definition SDRAM_BASE : Z := 0x40000000.
Definition LINE_SIZE : nat := 1280 * 3.
Definition DUMP_SIZE : Z := 1280 * 720 * 4.
Definition WORDS_PER_PACKET : nat := 128.

(** [quarter v] is [v / 4]: whole in Python 2, the only one to have the [xrange]
    of the file, with a fraction in Python 3. *)
Section dump.
Context {T : Type} (quarter : Z -> T).

(** Blue is in the lowest ten bits. *)
Definition extract_rgb (pixel : Z) : list T :=
  let b := quarter (Z.land pixel 0x3ff) in
  let pixel := Z.shiftr pixel 10 in
  let g := quarter (Z.land pixel 0x3ff) in
  let pixel := Z.shiftr pixel 10 in
  let r := quarter (Z.land pixel 0x3ff) in
  [r; g; b].

(** [dump[x:x+n] for x in range(0, len(dump), n)] *)
Fixpoint lines_of (fuel n : nat) (l : list T) : list (list T) :=
  match fuel with
  | O => []
  | S fuel => match l with [] => [] | _ => take n l :: lines_of fuel n (drop n l) end
  end.

(** [read start n]: [n] words from an address. The rows of the picture. *)
Definition test_dump (read : Z -> nat -> list Z) : list (list T) :=
  let dump := mbind (fun n => mbind extract_rgb (read (SDRAM_BASE + n * Z.of_nat WORDS_PER_PACKET * 4)%Z WORDS_PER_PACKET))
                (range (Z.to_nat (DUMP_SIZE / (Z.of_nat WORDS_PER_PACKET * 4)))) in
  lines_of (length dump) LINE_SIZE dump.
End dump.

(** ** The colour bars *)

Lemma fold_range_S {A} (f : A -> Z -> A) n a : fold_left f (range (S n)) a = f (fold_left f (range n) a) (Z.of_nat n).
Proof. by rewrite range_S, fold_left_app. Qed.

Lemma mod_in_row W n k : W * Z.of_nat n <= k -> k < W * Z.of_nat (S n) -> k mod W = (k - W * Z.of_nat n)%Z.
Proof. intros H0 H. symmetry. apply (Z.mod_unique _ _ (Z.of_nat n)); lia. Qed.

Ltac Zify.zify_post_hook ::= Z.to_euclidean_division_equations.

Section filled.
Context (base : Z).

(** Word [k] of the frame buffer, if an address is one. *)
Definition word_of (a : Z) : option Z := if ((a - base) mod 4 =? 0)%Z then Some ((a - base) / 4)%Z else None.

(** [lo <= k < hi] words are [f k], the others as before. *)
Definition filled (f : Z -> Z) (lo hi : Z) (m m' : Z -> Z) : Prop :=
  forall a, m' a = match word_of a with
                   | Some k => if ((lo <=? k) && (k <? hi))%Z then f k else m a
                   | None => m a
                   end.

Lemma filled_nothing f lo hi m : hi <= lo -> filled f lo hi m m.
Proof using Type. intros H a. destruct (word_of a) as [k|]; [|done]. by destruct (Z.leb_spec lo k), (Z.ltb_spec k hi); try lia. Qed.

Lemma filled_more f lo hi m m' m'' v :
  lo <= hi -> filled f lo hi m m' -> (forall a, m'' a = if (a =? base + 4 * hi)%Z then v else m' a) -> v = f hi ->
  filled f lo (hi + 1) m m''.
Proof using Type.
  intros Hlo H Hm Hv a. rewrite Hm, H. unfold word_of.
  destruct (Z.eqb_spec a (base + 4 * hi)) as [->|Hne].
  - replace (base + 4 * hi - base) with (hi * 4)%Z by lia. rewrite Z.mod_mul, Z.div_mul by lia. cbn [Z.eqb].
    by destruct (Z.leb_spec lo hi), (Z.ltb_spec hi (hi + 1)); try lia.
  - destruct (Z.eqb_spec ((a - base) mod 4) 0) as [E|]; [|done]. set (k := (a - base) / 4) in *.
    assert (k <> hi) by (unfold k; lia).
    destruct (Z.leb_spec lo k), (Z.ltb_spec k hi), (Z.ltb_spec k (hi + 1)); cbn [andb]; try done; lia.
Qed.

Lemma filled_trans f lo mid hi m m' m'' :
  lo <= mid <= hi -> filled f lo mid m m' -> filled f mid hi m' m'' -> filled f lo hi m m''.
Proof using Type.
  intros Hm H1 H2 a. rewrite H2. destruct (word_of a) as [k|] eqn:E; rewrite H1, E; [|done].
  destruct (Z.leb_spec mid k), (Z.ltb_spec k hi), (Z.leb_spec lo k), (Z.ltb_spec k mid); cbn [andb]; try done; lia.
Qed.

End filled.

Section bars.
Context {P : Type} (phy_write : string -> Z -> P -> P) (sees : P -> Z -> Z) (base : Z).
#[local] Abbreviation board := (faulty_board phy_write sees (fun a => a) base).

(** One row, every word or every other pixel. *)
Lemma ycbcr_row y n m p :
  let d := fold_left (fun d x =>
    if (x mod 2 =? 0)%Z
    then @write_mem _ board (base + 4 * (1280 / 2 * y + x / 2))%Z (bar color_bar_ycbcr422 (x * 8 / 1280)%Z) d
    else d) (range n) (p, m) in
  fst d = p /\ filled base (fun k => bar color_bar_ycbcr422 ((k - 640 * y) / 80)) (640 * y) (640 * y + (Z.of_nat n + 1) / 2) m (snd d).
Proof using Type.
  induction n as [|n IH]; [split; [done|]; apply filled_nothing; lia|].
  cbv zeta in *. rewrite fold_range_S. destruct IH as [Hp IH].
  destruct (Z.eqb_spec (Z.of_nat n mod 2) 0) as [E|E].
  - split; [exact Hp|]. cbn [write_mem faulty_board snd].
    replace (640 * y + (Z.of_nat (S n) + 1) / 2)%Z with (640 * y + (Z.of_nat n + 1) / 2 + 1)%Z by lia.
    eapply filled_more; [|exact IH| |].
    + lia.
    + intros a. change (1280 / 2)%Z with 640%Z.
      replace (Z.of_nat n / 2)%Z with ((Z.of_nat n + 1) / 2)%Z by lia. reflexivity.
    + cbv beta. f_equal. lia.
  - split; [exact Hp|]. replace ((Z.of_nat (S n) + 1) / 2)%Z with ((Z.of_nat n + 1) / 2)%Z by lia. exact IH.
Qed.

Lemma ycbcr_rows n m p :
  let d := fold_left (fun d y => fold_left (fun d x =>
    if (x mod 2 =? 0)%Z
    then @write_mem _ board (base + 4 * (1280 / 2 * y + x / 2))%Z (bar color_bar_ycbcr422 (x * 8 / 1280)%Z) d
    else d) (range 1280) d) (range n) (p, m) in
  fst d = p /\ filled base (fun k => bar color_bar_ycbcr422 (k mod 640 / 80)) 0 (640 * Z.of_nat n) m (snd d).
Proof using Type.
  induction n as [|n IH]; [split; [done|]; by apply filled_nothing|].
  cbv zeta in *. rewrite fold_range_S. destruct (fold_left _ (range n) (p, m)) as [p' m'] eqn:E. destruct IH as [Hp IH].
  cbn [fst snd] in *. subst p'. destruct (ycbcr_row (Z.of_nat n) 1280 m' p) as [Hp Hr]. split; [exact Hp|].
  eapply (filled_trans base _ _ (640 * Z.of_nat n)); [clear; lia | exact IH|]. intros a. specialize (Hr a). rewrite Hr. clear IH Hr E.
  destruct (word_of base a) as [k|]; [|done].
  change ((Z.of_nat 1280 + 1) / 2)%Z with 640%Z.
  replace (640 * Z.of_nat n + 640)%Z with (640 * Z.of_nat (S n))%Z by (clear; lia).
  destruct (Z.leb_spec (640 * Z.of_nat n) k), (Z.ltb_spec k (640 * Z.of_nat (S n))); cbn [andb]; [|done..].
  by rewrite (mod_in_row 640 n k).
Qed.

(** The colour bars in RGB, which the script defines and does not draw: a word
    for a pixel. *)
Lemma rgb_row y n m p :
  let d := fold_left (fun d x =>
    @write_mem _ board (base + 4 * (1280 * y + x))%Z (bar color_bar_rgb (x * 8 / 1280)%Z) d) (range n) (p, m) in
  fst d = p /\ filled base (fun k => bar color_bar_rgb ((k - 1280 * y) / 160)) (1280 * y) (1280 * y + Z.of_nat n) m (snd d).
Proof using Type.
  induction n as [|n IH]; [split; [done|]; apply filled_nothing; lia|].
  cbv zeta in *. rewrite fold_range_S. destruct IH as [Hp IH]. split; [exact Hp|]. cbn [write_mem faulty_board snd].
  replace (1280 * y + Z.of_nat (S n))%Z with (1280 * y + Z.of_nat n + 1)%Z by lia.
  eapply filled_more; [|exact IH| |].
  - lia.
  - intros a. reflexivity.
  - cbv beta. f_equal. lia.
Qed.

Lemma rgb_rows n m p :
  let d := fold_left (fun d y => fold_left (fun d x =>
    @write_mem _ board (base + 4 * (1280 * y + x))%Z (bar color_bar_rgb (x * 8 / 1280)%Z) d) (range 1280) d) (range n) (p, m) in
  fst d = p /\ filled base (fun k => bar color_bar_rgb (k mod 1280 / 160)) 0 (1280 * Z.of_nat n) m (snd d).
Proof using Type.
  induction n as [|n IH]; [split; [done|]; by apply filled_nothing|].
  cbv zeta in *. rewrite fold_range_S. destruct (fold_left _ (range n) (p, m)) as [p' m'] eqn:E. destruct IH as [Hp IH].
  cbn [fst snd] in *. subst p'. destruct (rgb_row (Z.of_nat n) 1280 m' p) as [Hp Hr]. split; [exact Hp|].
  eapply (filled_trans base _ _ (1280 * Z.of_nat n)); [clear; lia | exact IH|]. intros a. specialize (Hr a). rewrite Hr. clear IH Hr E.
  destruct (word_of base a) as [k|]; [|done].
  replace (1280 * Z.of_nat n + Z.of_nat 1280)%Z with (1280 * Z.of_nat (S n))%Z by (clear; lia).
  destruct (Z.leb_spec (1280 * Z.of_nat n) k), (Z.ltb_spec k (1280 * Z.of_nat (S n))); cbn [andb]; [|done..].
  by rewrite (mod_in_row 1280 n k).
Qed.

Lemma rgb_drawn p m :
  let d := @draw_color_bar_rgb _ board (p, m) in
  fst d = p /\ filled base (fun k => bar color_bar_rgb (k mod 1280 / 160)) 0 (1280 * 720) m (snd d).
Proof using Type. exact (rgb_rows 720 m p). Qed.
End bars.

(** The last value written to a register of the output. *)
Definition value_of (r : string) (l : list (string * Z)) : option Z :=
  fold_left (fun acc w => if String.eqb (fst w) (String.append "hdmi_out0_core_initiator_" r) then Some (snd w) else acc) l None.

(** What the clock generator's port is given: at each [den] the address, and
    the data if [dwe] is set. *)
Definition drp_step (st : (Z * Z * Z) * list (Z * Z)) (w : string * Z) : (Z * Z * Z) * list (Z * Z) :=
  let '((addr, di, dwe), log) := st in
  let '(r, v) := w in
  if String.eqb r "hdmi_out0_driver_clocking_drp_addr" then ((v, di, dwe), log)
  else if String.eqb r "hdmi_out0_driver_clocking_drp_di" then ((addr, v, dwe), log)
  else if String.eqb r "hdmi_out0_driver_clocking_drp_dwe" then ((addr, di, v), log)
  else if String.eqb r "hdmi_out0_driver_clocking_drp_den"
  then ((addr, di, dwe), if ((v =? 1) && (dwe =? 1))%Z then (log ++ [(addr, di)])%list else log)
  else st.

Definition drp_writes (l : list (string * Z)) : list (Z * Z) := snd (fold_left drp_step l ((0, 0, 0)%Z, [])).

(** A counter's divider: its high and low times. *)
Definition divider (data : Z) : Z := (slice data 6 6 + slice data 0 6)%Z.

Definition dividers (l : list (string * Z)) : list (Z * Z) := prod_map id divider <$> drp_writes l.

Definition scan_area (l : list (string * Z)) : option Z :=
  h ← value_of "hscan" l; v ← value_of "vscan" l; Some (h * v)%Z.

(** Both video modes, at the same 60 pictures a second: the sync pulses lie in
    the blanking, and the dividers are in the inverse ratio of the pixels. *)
Lemma timings_consistent bpp :
  Forall (fun l => exists hres hs he h vres vs ve v,
    (value_of "hres" l, value_of "hsync_start" l, value_of "hsync_end" l, value_of "hscan" l) = (Some hres, Some hs, Some he, Some h) /\
    (value_of "vres" l, value_of "vsync_start" l, value_of "vsync_end" l, value_of "vscan" l) = (Some vres, Some vs, Some ve, Some v) /\
    hres < hs < he /\ he < h /\ vres < vs < ve /\ ve < v /\
    value_of "length" l = Some (hres * vres * bpp)%Z) [config_1080p60 bpp; config_720p60 bpp] /\
  dividers (config_1080p60 bpp) = [(0x8, 5); (0xa, 2)]%Z /\ dividers (config_720p60 bpp) = [(0x8, 10); (0xa, 4)]%Z /\
  scan_area (config_1080p60 bpp) = Some (2 * (1650 * 750))%Z /\ scan_area (config_720p60 bpp) = Some (1650 * 750)%Z.
Proof.
  split; [|by split_and!]. repeat constructor; do 8 eexists; (split; [reflexivity|]); (split; [reflexivity|]); by split_and!.
Qed.

(** The HDMI output test. On a board whose memory stores what it
    is given, the script leaves in memory the eight colour bars of the firmware,
    each 80 words wide (two pixels in a word), in 720 lines of 640 words from the
    memory's start, and changes no other word; the output is given the length of
    exactly this picture, and is enabled last. *)
Theorem color_bars_drawn {P : Type} (phy_write : string -> Z -> P -> P) (sees : P -> Z -> Z) (base : Z) (p : P) (m : Z -> Z) :
  let d := @test_hdmi_out _ (faulty_board phy_write sees (fun a => a) base) (p, m) in
  fst d = fold_left (fun p w => phy_write (fst w) (snd w) p) (config_720p60 2) p /\
  value_of "base" (config_720p60 2) = Some 0%Z /\ value_of "length" (config_720p60 2) = Some (4 * (640 * 720))%Z /\
  last (config_720p60 2) = Some (initiator "enable" 1) /\
  color_bar_ycbcr422 = Pattern.pattern_h /\
  forall a, snd d a = match word_of base a with
                      | Some k => if ((0 <=? k) && (k <? 640 * 720))%Z then bar color_bar_ycbcr422 (k mod 640 / 80) else m a
                      | None => m a
                      end.
Proof.
  cbv zeta. unfold test_hdmi_out. set (d1 := writes (config_720p60 2) (p, m)).
  assert (Hd : d1 = (fold_left (fun p w => phy_write (fst w) (snd w) p) (config_720p60 2) p, m)) by reflexivity.
  rewrite Hd. clear d1 Hd. destruct (ycbcr_rows phy_write sees base 720 m
    (fold_left (fun p w => phy_write (fst w) (snd w) p) (config_720p60 2) p)) as [Hp Hm].
  split; [exact Hp|]. do 3 (split; [reflexivity|]). split; [reflexivity|]. exact Hm.
Qed.

(** ** The delays *)

(** A sampler: every delay control counts its pulses since the last reset. *)
Section sampler.
Context (base : Z).

Definition pulse (v tap : Z) : Z :=
  if (v =? DVISAMPLER_DELAY_RST)%Z then 0%Z
  else if (v =? DVISAMPLER_DELAY_INC)%Z then (tap + 1)%Z
  else if (v =? DVISAMPLER_DELAY_DEC)%Z then (tap - 1)%Z else tap.

Definition sampler_write (r : string) (v : Z) (taps : string -> Z) : string -> Z :=
  fun r' => if String.eqb r' r then pulse v (taps r) else taps r'.

Definition sampler_board : Board ((string -> Z) * (Z -> Z)) := faulty_board sampler_write (fun _ v => v) (fun a => a) base.

#[local] Existing Instance sampler_board.

Lemma increments ctl l d :
  fst (writes ((fun _ : Z => (ctl, DVISAMPLER_DELAY_INC)) <$> l) d) ctl = (fst d ctl + Z.of_nat (length l))%Z.
Proof using Type.
  revert d. induction l as [|x l IH]; intros d; cbn [fmap list_fmap writes fold_left length]; [lia|].
  unfold writes in IH. rewrite IH. cbn [write_reg faulty_board sampler_board fst snd]. unfold sampler_write.
  rewrite String.eqb_refl. cbn [pulse Z.eqb DVISAMPLER_DELAY_INC DVISAMPLER_DELAY_RST Pos.eqb]. lia.
Qed.

(** Whatever the tap was. *)
Lemma delay_set ctl delay d : fst (writes (delay_pulses ctl delay) d) ctl = Z.of_nat delay.
Proof using Type.
  unfold delay_pulses. cbn [writes fold_left]. pose proof (increments ctl (range delay)) as H. unfold writes in H.
  rewrite H, length_range. cbn [write_reg faulty_board sampler_board fst snd]. unfold sampler_write. by rewrite String.eqb_refl.
Qed.

(** What channel [ch] measures at tap [tap] is [phase ch tap]. *)
Context (phase : Z -> Z -> Z).

Definition sampler_read : Readable ((string -> Z) * (Z -> Z)) := fun r d =>
  ((if String.eqb r "hdmi_in0_data0_cap_phase" then phase 0 (fst d "hdmi_in0_data0_cap_dly_ctl")
    else if String.eqb r "hdmi_in0_data1_cap_phase" then phase 1 (fst d "hdmi_in0_data1_cap_dly_ctl")
    else if String.eqb r "hdmi_in0_data2_cap_phase" then phase 2 (fst d "hdmi_in0_data2_cap_dly_ctl") else 0%Z), d).
#[local] Existing Instance sampler_read.

Lemma scan_one_reports ch delay d : In ch (range 3) ->
  fst (scan_one (ch, delay) d) =
  (ch, delay, (Z.land (phase ch (Z.of_nat delay)) 3 =? 1)%Z, (Z.land (phase ch (Z.of_nat delay)) 3 =? 2)%Z).
Proof using Type.
  intros Hch%in_range. assert (Hc : exists ctl, dly_ctl ch = Some ctl /\ forall d1, fst d1 ctl = Z.of_nat delay ->
    fst (get_phase_status ch d1) =
      ((Z.land (phase ch (Z.of_nat delay)) 3 =? 1)%Z, (Z.land (phase ch (Z.of_nat delay)) 3 =? 2)%Z)).
  { assert (ch = 0 \/ ch = 1 \/ ch = 2)%Z as [->|[->| ->]] by lia; eexists; (split; [reflexivity|]);
      intros [taps mem] H; cbn [fst] in H; rewrite <- H; reflexivity. }
  destruct Hc as (ctl & E & Hs). unfold scan_one, configure_delay, delay_writes. rewrite E.
  specialize (Hs _ (delay_set ctl delay d)). destruct (get_phase_status ch _) as [[l e] d2]. cbn [fst] in *. by injection Hs as -> ->.
Qed.

Lemma scan_reports l d : Forall (fun cd => In (fst cd) (range 3)) l ->
  fst (scan l d) = (fun cd => (fst cd, snd cd, (Z.land (phase (fst cd) (Z.of_nat (snd cd))) 3 =? 1)%Z,
                                (Z.land (phase (fst cd) (Z.of_nat (snd cd))) 3 =? 2)%Z)) <$> l.
Proof using Type.
  intros Hl. revert d. induction Hl as [|[ch delay] l Hch _ IH]; intros d; [done|]. cbn [scan].
  pose proof (scan_one_reports ch delay d Hch) as E. destruct (scan_one (ch, delay) d) as [r d1]. cbn [fst] in E. subst r.
  specialize (IH d1). destruct (scan l d1) as [rs d2]. cbn [fst] in *. by rewrite IH.
Qed.

(** The scan reports for each channel and each of 32 delays what the sampler
    measures at that delay, whatever the delays were before. *)
Lemma alignment_reported d :
  fst (test_alignment d) =
  (fun cd => (fst cd, snd cd, (Z.land (phase (fst cd) (Z.of_nat (snd cd))) 3 =? 1)%Z,
                (Z.land (phase (fst cd) (Z.of_nat (snd cd))) 3 =? 2)%Z)) <$> all_delays.
Proof using Type.
  apply scan_reports, List.Forall_forall. intros cd H%list_elem_of_In. unfold all_delays in H.
  apply list_elem_of_bind in H as (ch & (x & -> & _)%list_elem_of_fmap & H%list_elem_of_In). exact H.
Qed.

(** test_delays.py sets the delays it names. *)
Lemma delays_set d :
  let taps := fst (writes test_delays d) in
  taps "hdmi_in0_data0_cap_dly_ctl" = Z.of_nat data0_delay /\ taps "hdmi_in0_data1_cap_dly_ctl" = Z.of_nat data1_delay /\
  taps "hdmi_in0_data2_cap_dly_ctl" = Z.of_nat data2_delay.
Proof using Type. by vm_compute. Qed.
End sampler.

(** ** The picture saved *)

Lemma range_mul a b : range (a * b) = range a ≫= fun y => (fun x => (Z.of_nat b * y + x)%Z) <$> range b.
Proof.
  induction a as [|a IH]; [done|]. rewrite range_S, bind_app, <- IH. cbn [mbind list_bind]. rewrite app_nil_r.
  unfold range. replace (S a * b)%nat with (a * b + b)%nat by lia. rewrite seq_app, fmap_app. f_equal.
  rewrite Nat.add_0_l, <- (Nat.add_0_r (a * b)), <- fmap_add_seq, <- !list_fmap_compose. apply list_fmap_ext.
  intros i x _. unfold compose. rewrite Nat2Z.inj_add, Nat2Z.inj_mul. lia.
Qed.

Lemma bind_range_mul {T} (g : Z -> list T) a b :
  range (a * b) ≫= g = range a ≫= fun y => range b ≫= fun x => g (Z.of_nat b * y + x)%Z.
Proof.
  rewrite range_mul. generalize (range a) as l. induction l as [|y l IH]; [done|].
  rewrite !bind_cons, bind_app, IH, list_fmap_bind. done.
Qed.

Lemma lines_of_concat {T} n (rows : list (list T)) fuel :
  (0 < n)%nat -> Forall (fun r => length r = n) rows -> (length (mjoin rows) <= fuel)%nat ->
  lines_of fuel n (mjoin rows) = rows.
Proof.
  intros Hn Hr. revert fuel. induction Hr as [|r rows Hr _ IH]; intros fuel Hf; [by destruct fuel|].
  change (mjoin (r :: rows)) with (r ++ mjoin rows)%list in *. rewrite length_app in Hf. destruct fuel as [|fuel]; [lia|]. cbn [lines_of].
  destruct (r ++ mjoin rows)%list as [|x l] eqn:E; [destruct r; [cbn in Hr; lia | done]|]. rewrite <- E. clear E.
  rewrite take_app_length', drop_app_length' by done. f_equal. apply IH. lia.
Qed.

(** The rows of the saved picture are the lines of the frame buffer: 720 of
    1280 words, from left to right. *)
Lemma dump_rows {T} (quarter : Z -> T) (word_at : Z -> Z) :
  test_dump quarter (fun start n => (fun k => word_at (start + 4 * k)%Z) <$> range n) =
  (fun y => range 1280 ≫= fun x => extract_rgb quarter (word_at (SDRAM_BASE + 4 * (1280 * y + x))%Z)) <$> range 720.
Proof.
  unfold test_dump. set (g := fun k => extract_rgb quarter (word_at (SDRAM_BASE + 4 * k)%Z)).
  assert (E : mbind (fun n => mbind (extract_rgb quarter) ((fun k => word_at (SDRAM_BASE + n * Z.of_nat WORDS_PER_PACKET * 4 + 4 * k)%Z)
      <$> range WORDS_PER_PACKET)) (range (Z.to_nat (DUMP_SIZE / (Z.of_nat WORDS_PER_PACKET * 4)))) =
    mjoin ((fun y => range 1280 ≫= fun x => g (1280 * y + x)%Z) <$> range 720)).
  { rewrite list_join_bind, list_fmap_bind. change (id ∘ ?f) with f.
    transitivity (range (Z.to_nat 7200 * WORDS_PER_PACKET) ≫= g).
    - rewrite bind_range_mul. change (DUMP_SIZE / _)%Z with 7200%Z. apply list_bind_ext; [|done]. intros n.
      rewrite list_fmap_bind. apply list_bind_ext; [|done]. intros x. unfold g, compose. do 2 f_equal. lia.
    - replace (Z.to_nat 7200 * WORDS_PER_PACKET)%nat with (720 * 1280)%nat by (unfold WORDS_PER_PACKET; lia).
      apply bind_range_mul. }
  rewrite E. apply lines_of_concat; [unfold LINE_SIZE; lia| |done].
  apply Forall_fmap, Forall_forall. intros y _. unfold compose, LINE_SIZE. rewrite <- (length_range 1280) at 2.
  generalize (range 1280) as l. induction l as [|x l IH]; [done|]. rewrite bind_cons, length_app, IH. cbn [length extract_rgb g]. lia.
Qed.
