(* ===== verification/BistTests.v ===== *)
(** * Memory tests that run on the board ([test/test_sdram_bist.py],
    [test_memtest.py]) and lights ([test_leds.py])

    The generator writes a pattern to memory and the checker reads it back, both
    in hardware; the scripts start them, wait, and show the errors that the
    checker counted and, of the memory test, those that the logic analyser
    recorded. LiteScope's analyser is a class. *)
From stdpp Require Import gmap.
From S2P Require Import Prelude PyStr BoardTests.
#[local] Open Scope Z_scope.
#[local] Open Scope string_scope.

(** The signals of a clock cycle that the script looks at. *)
Record Sample := { data_address : Z; data_error : Z; data_expected : Z; data_actual : Z }.

Class Analyzer (D : Type) := {
  analyzer_run : D -> D;
  analyzer_done : D -> bool * D;
  analyzer_samples : D -> list Sample
}.

(** ** Scripts

    A script on a board [D] returns, raises, or is still waiting ([None]). *)
Section scripts.
Context {D : Type} `{Board D} `{Readable D} `{Analyzer D}.

Definition script (A : Type) : Type := D -> option (result (A * D)).
#[export] Instance script_ret : MRet script := fun A a d => Some (Ok (a, d)).
#[export] Instance script_bind : MBind script := fun A B f m d =>
  match m d with
  | Some (Ok (a, d)) => f a d
  | Some (Raise e) => Some (Raise e)
  | None => None
  end.

Definition lift {A} (r : result A) : script A := fun d => Some (a ← r; Ok (a, d)).
Definition wr (r : string) (v : Z) : script () := fun d => Some (Ok (tt, write_reg r v d)).
Definition wrs (l : list (string * Z)) : script () := fun d => Some (Ok (tt, writes l d)).
Definition rd (r : string) : script Z := fun d => Some (Ok (read_reg r d)).
Definition check (b : bool) : script () := lift (py_assert b).
Definition run_analyzer : script () := fun d => Some (Ok (tt, analyzer_run d)).
Definition done_analyzer : script bool := fun d => Some (Ok (analyzer_done d)).
Definition samples : script (list Sample) := fun d => Some (Ok (analyzer_samples d, d)).

(** [write_and_check] of common.py. *)
Definition write_and_check (r : string) (v : Z) : script () := wr r v ;; x ← rd r ; check (x =? v)%Z.

(** [while not reg.read(): body] *)
Fixpoint wait (fuel : nat) (r : string) (body : script ()) : script () :=
  match fuel with
  | O => fun _ => None
  | S fuel => v ← rd r ; if (v =? 0)%Z then body ;; wait fuel r body else mret tt
  end.

(** ** test_sdram_bist.py *)

Definition bitslip : nat := 2.
Definition delay : nat := 6.
Definition test_size : Z := 1024 * 1024.

(** A module's run: reset, base and length, start, done. *)
Definition bist_writes (m : string) : list (string * Z) :=
  [(m +++ "_reset", 1); (m +++ "_reset", 0); (m +++ "_base", 0); (m +++ "_length", test_size * 8 / 128)%Z;
   (m +++ "_start", 1)].

Definition bist (fuel : nat) (m : string) : script () := wrs (bist_writes m) ;; wait fuel (m +++ "_done") (mret tt).

Fixpoint wait_analyzer (fuel : nat) : script () :=
  match fuel with
  | O => fun _ => None
  | S fuel => b ← done_analyzer ; if (b : bool) then mret tt else wait_analyzer fuel
  end.

(** The errors printed. *)
Definition test_sdram_bist (fuel : nat) : script Z :=
  wrs (init_sequence ++ setup bitslip delay)%list ;;
  run_analyzer ;;
  bist fuel "generator" ;;
  bist fuel "checker" ;;
  e ← rd "checker_err_count" ;
  wait_analyzer fuel ;;
  mret e.

(** ** test_memtest.py *)

Record MemError := { address : string; expected : string; actual : string }.

#[export] Instance MemError_eq_dec : EqDecision MemError.
Proof. solve_decision. Defined.

(** The loop over the recorded cycles. *)
Definition collect_sample (acc : gset string * gmap string MemError) (s : Sample)
    : result (gset string * gmap string MemError) :=
  let '(okay, errors) := acc in
  let address := hex (data_address s) in
  if negb (data_error s =? 1)%Z then Ok ({[address]} ∪ okay, errors)
  else
    let r := {| address := address; expected := hex (data_expected s); actual := hex (data_actual s) |} in
    match errors !! address with
    | Some r' => _ ← py_assert (bool_decide (r' = r)); Ok (okay, errors)
    | None => Ok (okay, <[address := r]> errors)
    end.

Fixpoint collect (acc : gset string * gmap string MemError) (l : list Sample)
    : result (gset string * gmap string MemError) :=
  match l with [] => Ok acc | s :: l => acc ← collect_sample acc s; collect acc l end.

Definition base : Z := 512000.
Definition length : Z := 1.

(** The registers of a module are set and read back, it is started, and the
    script waits for it. *)
Definition configure (m : string) : script () :=
  write_and_check (m +++ "_base") base ;; write_and_check (m +++ "_length") length.

(** What is printed at the end: the number of errors and, if there are any, the
    errors recorded by address. *)
Definition test_memtest (fuel : nat) : script (Z * option (gmap string MemError)) :=
  wrs [("generator_reset", 1); ("checker_reset", 1); ("generator_reset", 0); ("checker_reset", 0)]%Z ;;
  scope ← rd "checker_scope_error" ; check (scope =? 0)%Z ;;
  run_analyzer ;;
  b ← done_analyzer ; check (negb b) ;;
  configure "generator" ;;
  v ← rd "generator_done" ; check (v =? 0)%Z ;;
  wr "generator_start" 1 ;;
  wait fuel "generator_done" (mret tt) ;;
  v ← rd "generator_done" ; check (v =? 1)%Z ;;
  v ← rd "checker_err_count" ; check (v =? 0)%Z ;;
  configure "checker" ;;
  v ← rd "checker_done" ; check (v =? 0)%Z ;;
  b ← done_analyzer ; check (negb b) ;;
  wr "checker_start" 1 ;;
  wait fuel "checker_done" (rd "checker_err_count" ;; mret tt) ;;
  v ← rd "checker_done" ; check (v =? 1)%Z ;;
  _ ← rd "checker_err_count" ;
  errors ← rd "checker_err_count" ;
  if (errors =? 0)%Z then mret (errors, None)
  else
    b ← done_analyzer ; check b ;;
    l ← samples ;
    acc ← lift (collect (∅, ∅) l) ;
    mret (errors, Some (snd acc)).
End scripts.

(** ** test_leds.py *)

(** A [PWM]'s registers, [name] with an underscore. *)
Definition pwm_reg (name reg : string) : string := name +++ "_" +++ reg.

(** [PWM.__init__] and its methods. *)
Definition pwm_enable (name : string) : string * Z := (pwm_reg name "enable", 1).
Definition pwm_disable (name : string) : string * Z := (pwm_reg name "enable", 0).
Definition set_period (name : string) (period : Z) : string * Z := (pwm_reg name "period", period).
Definition set_width (name : string) (width : Z) : string * Z := (pwm_reg name "width", width).
Definition pwm_init (name : string) : list (string * Z) := [set_period name 128; set_width name 0; pwm_enable name].

(** The PWM of a colour; [RGBLed] makes each three times. *)
Definition led_name (c : string) (n : Z) : string := "rgb_leds_" +++ c +++ str_Z n.
Definition colors : list string := ["r"; "g"; "b"].
Definition rgb_led (n : Z) : list (string * Z) :=
  colors ≫= fun _ => (pwm_init (led_name "r" n) ++ pwm_init (led_name "g" n) ++ pwm_init (led_name "b" n))%list.

Definition rgb_leds : list Z := range 4.

Definition knight_rider (color : string) (value : Z) : list (string * Z) :=
  [0; 1; 2; 3; 2; 1; 0; 1; 2; 3]%Z ≫= fun led => [set_width (led_name color led) value; set_width (led_name color led) 0].

Definition disco : list (string * Z) :=
  rgb_leds ≫= fun led => colors ≫= fun c =>
    (((fun i => set_width (led_name c led) i) <$> range 64) ++ [set_width (led_name c led) 0])%list.

(** All register writes of the script. *)
Definition test_leds : list (string * Z) :=
  (((fun i => ("leds_out", i)) <$> range 16) ++ (rgb_leds ≫= rgb_led) ++
   knight_rider "r" 64 ++ knight_rider "r" 64 ++ disco)%list.

(** ** The errors by address *)

Definition mem_error (s : Sample) : MemError :=
  {| address := hex (data_address s); expected := hex (data_expected s); actual := hex (data_actual s) |}.
Definition erroneous (s : Sample) : Prop := data_error s = 1%Z.

Lemma collect_one okay errors s :
  collect_sample (okay, errors) s =
  if (data_error s =? 1)%Z
  then match errors !! address (mem_error s) with
       | Some r' => if bool_decide (r' = mem_error s) then Ok (okay, errors) else Raise AssertionError
       | None => Ok (okay, <[address (mem_error s) := mem_error s]> errors)
       end
  else Ok ({[address (mem_error s)]} ∪ okay, errors).
Proof.
  unfold collect_sample. destruct (data_error s =? 1)%Z; [|done]. cbn [negb].
  change {| address := hex (data_address s); expected := hex (data_expected s); actual := hex (data_actual s) |} with (mem_error s).
  change (hex (data_address s)) with (address (mem_error s)).
  destruct (errors !! address (mem_error s)) as [r'|]; [|done]. by destruct (bool_decide (r' = mem_error s)).
Qed.

(** One more sample. *)
Lemma collect_step okay errors s okay1 errors1 :
  collect_sample (okay, errors) s = Ok (okay1, errors1) ->
  (forall k, k ∈ okay1 <-> k ∈ okay \/ (~ erroneous s /\ address (mem_error s) = k)) /\ errors ⊆ errors1 /\
  (erroneous s -> errors1 !! address (mem_error s) = Some (mem_error s)) /\
  (forall k r, errors1 !! k = Some r -> errors !! k = Some r \/ (erroneous s /\ address (mem_error s) = k /\ mem_error s = r)).
Proof.
  rewrite collect_one. unfold erroneous. intros E. destruct (Z.eqb_spec (data_error s) 1) as [Hs|Hs].
  - destruct (errors !! address (mem_error s)) as [r'|] eqn:El.
    + destruct (bool_decide_reflect (r' = mem_error s)) as [->|]; [|done]. injection E as <- <-.
      split; [|by split_and!; auto]. intros k. tauto.
    + injection E as <- <-. split; [tauto|]. split; [by apply insert_subseteq|]. split; [by rewrite lookup_insert_eq|].
      intros k r. rewrite lookup_insert. destruct (decide _) as [<-|]; [intros [= <-]; by right | by left].
  - injection E as <- <-. split; [intros k; rewrite elem_of_union, elem_of_singleton|].
    { split; [intros [->|?]; [by right|by left] | intros [?|[_ <-]]; [by right|by left]]. }
    by split_and!; auto.
Qed.

Lemma collect_cons acc s l acc' :
  collect acc (s :: l) = Ok acc' -> exists acc1, collect_sample acc s = Ok acc1 /\ collect acc1 l = Ok acc'.
Proof. apply bind_ok. Qed.

Lemma collect_keeps l acc acc' : collect acc l = Ok acc' -> snd acc ⊆ snd acc'.
Proof.
  revert acc. induction l as [|s l IH]; intros [okay errors] H; [by injection H as <-|].
  apply collect_cons in H as ([okay1 errors1] & E & H). apply IH in H. apply collect_step in E as (_ & E & _).
  cbn [snd] in *. by etransitivity.
Qed.

Lemma collect_okay l okay errors okay' errors' : collect (okay, errors) l = Ok (okay', errors') ->
  forall k, k ∈ okay' <-> k ∈ okay \/ exists s, In s l /\ ~ erroneous s /\ address (mem_error s) = k.
Proof.
  revert okay errors. induction l as [|s l IH]; intros okay errors H k.
  - injection H as <- _. split; [by left|]. by intros [?|(s & [] & _)].
  - apply collect_cons in H as ([okay1 errors1] & E & H). rewrite (IH _ _ H). apply collect_step in E as (E & _). rewrite E. split.
    + intros [[?|?]|(s' & ? & ?)]; [by left|right; exists s; split; [by left|done]|right; exists s'; split; [by right|done]].
    + intros [?|(s' & [->|?] & ?)]; [by left; left|left; by right|right; by exists s'].
Qed.

Lemma collect_errors l okay errors okay' errors' : collect (okay, errors) l = Ok (okay', errors') ->
  (forall s, In s l -> erroneous s -> errors' !! address (mem_error s) = Some (mem_error s)) /\
  (forall k r, errors' !! k = Some r ->
     errors !! k = Some r \/ exists s, In s l /\ erroneous s /\ address (mem_error s) = k /\ mem_error s = r).
Proof.
  revert okay errors. induction l as [|s l IH]; intros okay errors H.
  - injection H as _ <-. split; [by intros s []|by left].
  - apply collect_cons in H as ([okay1 errors1] & E & H). pose proof (collect_keeps _ _ _ H) as Hk.
    apply collect_step in E as (_ & _ & Hs & Hr). apply IH in H as [H1 H2]. split.
    + intros s' [<-|Hin] He; [|by apply H1]. eapply lookup_weaken; [by apply Hs | exact Hk].
    + intros k r Hkr. destruct (H2 k r Hkr) as [Ho|(s' & Hin & Hrest)]; [|right; exists s'; split; [by right|done]].
      destruct (Hr k r Ho) as [|Hn]; [by left|]. right. exists s. split; [by left|done].
Qed.

(** Two recorded errors at one address are the same error. *)
Definition consistent (l : list Sample) : Prop :=
  forall s s', In s l -> In s' l -> erroneous s -> erroneous s' ->
    address (mem_error s) = address (mem_error s') -> mem_error s = mem_error s'.

Lemma collect_succeeds l okay errors :
  consistent l ->
  (forall s r, In s l -> erroneous s -> errors !! address (mem_error s) = Some r -> r = mem_error s) ->
  exists acc, collect (okay, errors) l = Ok acc.
Proof.
  revert okay errors. induction l as [|s l IH]; intros okay errors Hc He; [by eexists|].
  assert (Hs : exists acc1, collect_sample (okay, errors) s = Ok acc1).
  { rewrite collect_one. destruct (Z.eqb_spec (data_error s) 1) as [Hs|]; [|by eexists].
    destruct (errors !! address (mem_error s)) as [r|] eqn:E; [|by eexists].
    rewrite bool_decide_true; [by eexists|]. apply He; [by left | done..]. }
  destruct Hs as [[okay1 errors1] Hs]. cbn [collect]. rewrite Hs. cbn [mbind result_bind]. apply IH.
  - intros a b Ha Hb. apply Hc; by right.
  - intros a r Ha Hae Hr. apply collect_step in Hs as (_ & _ & _ & Hs).
    destruct (Hs _ _ Hr) as [Ho|(Hse & Hk & <-)]; [apply He; [by right|done..]|].
    apply Hc; [by left | by right | done..].
Qed.

Lemma collect_raises l acc : collect acc l = Raise AssertionError \/ exists acc', collect acc l = Ok acc'.
Proof.
  revert acc. induction l as [|s l IH]; intros [okay errors]; [right; by eexists|]. cbn [collect]. rewrite collect_one.
  destruct (data_error s =? 1)%Z; [|apply IH]. destruct (errors !! address (mem_error s)) as [r|]; [|apply IH].
  destruct (bool_decide _); [apply IH|by left].
Qed.

(** The recorded errors by address: if no address has two different
    ones the tables hold exactly the addresses read without error and, for each
    address with one, that error; otherwise the script's assertion fails. *)
Theorem errors_collected (l : list Sample) :
  if (match collect (∅, ∅) l with Ok _ => true | Raise _ => false end)
  then consistent l /\ exists okay errors, collect (∅, ∅) l = Ok (okay, errors) /\
    (forall k, k ∈ okay <-> exists s, In s l /\ ~ erroneous s /\ address (mem_error s) = k) /\
    (forall k r, errors !! k = Some r <-> exists s, In s l /\ erroneous s /\ address (mem_error s) = k /\ mem_error s = r)
  else ~ consistent l /\ collect (∅, ∅) l = Raise AssertionError.
Proof.
  destruct (collect_raises l (∅, ∅)) as [E|[[okay errors] E]]; rewrite E.
  - split; [|done]. intros Hc. destruct (collect_succeeds l ∅ ∅ Hc) as [acc E']; [done|]. by rewrite E in E'.
  - pose proof (collect_errors _ _ _ _ _ E) as [H1 H2]. split.
    + intros s s' Hs Hs' He He' Ha. pose proof (H1 s Hs He) as X. rewrite Ha, (H1 s' Hs' He') in X. congruence.
    + exists okay, errors. split; [done|]. split.
      * intros k. rewrite (collect_okay _ _ _ _ _ E). split; [by intros [?%elem_of_empty|]|by right].
      * intros k r. split; [by intros [?%lookup_empty_Some|]%H2|]. intros (s & Hs & He & <- & <-). by apply H1.
Qed.

(** ** A board with the two modules

    The generator takes [gen_time] polls and the checker [chk_time]; the checker
    counts errors; the analyser triggers when the checker has run, or only if it
    has counted an error ([on_error]). *)
Section device.
Context (gen_time chk_time : nat) (errors_counted : Z) (on_error : bool) (recorded : list Sample).

Record Engine := { e_base : Z; e_length : Z; running : option nat }.
Definition idle : Engine := {| e_base := 0; e_length := 0; running := None |}.

Definition engine_write (time : nat) (r : string) (v : Z) (e : Engine) : Engine :=
  if String.eqb r "base" then {| e_base := v; e_length := e_length e; running := running e |}
  else if String.eqb r "length" then {| e_base := e_base e; e_length := v; running := running e |}
  else if String.eqb r "start" then {| e_base := e_base e; e_length := e_length e; running := Some time |}
  else if (String.eqb r "reset" && (v =? 1)%Z)%bool then idle else e.

(** Each read of [done] is a poll. *)
Definition engine_done (e : Engine) : Z * Engine :=
  match running e with
  | Some O => (1, e)
  | Some (S k) => (0, {| e_base := e_base e; e_length := e_length e; running := Some k |})
  | None => (0, e)
  end%Z.

Definition finished (e : Engine) : bool := match running e with Some O => true | _ => false end.

Record Dev := { gen : Engine; chk : Engine; armed : bool }.

Definition with_prefix (p r : string) : option string :=
  if startswith r p then Some (sdrop (String.length p) r) else None.

Definition dev_write (r : string) (v : Z) (d : Dev) : Dev :=
  match with_prefix "generator_" r, with_prefix "checker_" r with
  | Some f, _ => {| gen := engine_write gen_time f v (gen d); chk := chk d; armed := armed d |}
  | None, Some f => {| gen := gen d; chk := engine_write chk_time f v (chk d); armed := armed d |}
  | None, None => d
  end.

Definition err_count (d : Dev) : Z := if finished (chk d) then errors_counted else 0%Z.

Definition dev_read (r : string) (d : Dev) : Z * Dev :=
  if String.eqb r "generator_done" then let '(v, e) := engine_done (gen d) in (v, {| gen := e; chk := chk d; armed := armed d |})
  else if String.eqb r "checker_done" then let '(v, e) := engine_done (chk d) in (v, {| gen := gen d; chk := e; armed := armed d |})
  else if String.eqb r "generator_base" then (e_base (gen d), d)
  else if String.eqb r "generator_length" then (e_length (gen d), d)
  else if String.eqb r "checker_base" then (e_base (chk d), d)
  else if String.eqb r "checker_length" then (e_length (chk d), d)
  else if String.eqb r "checker_err_count" then (err_count d, d)
  else (0%Z, d).

Definition dev_board : Board Dev := {|
  write_reg := dev_write; write_mem := fun _ _ d => d; read_mem := fun _ d => (0%Z, d); main_ram := 0 |}.
Definition dev_readable : Readable Dev := dev_read.
Definition dev_analyzer : Analyzer Dev := {|
  analyzer_run := fun d => {| gen := gen d; chk := chk d; armed := true |};
  analyzer_done := fun d => (armed d && finished (chk d) && (negb on_error || negb (errors_counted =? 0)%Z), d);
  analyzer_samples := fun _ => recorded |}.
#[local] Existing Instance dev_board.
#[local] Existing Instance dev_readable.
#[local] Existing Instance dev_analyzer.

Lemma wait_generator fuel n b len c a : (n < fuel)%nat ->
  wait fuel "generator_done" (mret tt) {| gen := {| e_base := b; e_length := len; running := Some n |}; chk := c; armed := a |} =
  Some (Ok (tt, {| gen := {| e_base := b; e_length := len; running := Some 0%nat |}; chk := c; armed := a |})).
Proof using Type.
  revert n. induction fuel as [|fuel IH]; intros n Hn; [lia|]. destruct n as [|n]; [reflexivity|].
  transitivity (wait fuel "generator_done" (mret tt)
    {| gen := {| e_base := b; e_length := len; running := Some n |}; chk := c; armed := a |}); [reflexivity|]. apply IH. lia.
Qed.

Lemma wait_checker fuel n b len g a body : (n < fuel)%nat -> (forall d, body d = Some (Ok (tt, d))) ->
  wait fuel "checker_done" body {| gen := g; chk := {| e_base := b; e_length := len; running := Some n |}; armed := a |} =
  Some (Ok (tt, {| gen := g; chk := {| e_base := b; e_length := len; running := Some 0%nat |}; armed := a |})).
Proof using Type.
  intros Hn Hb. revert n Hn. induction fuel as [|fuel IH]; intros n Hn; [lia|]. destruct n as [|n]; [reflexivity|].
  transitivity ((body ;; wait fuel "checker_done" body)
    {| gen := g; chk := {| e_base := b; e_length := len; running := Some n |}; armed := a |}); [reflexivity|].
  unfold mbind at 1, script_bind at 1. rewrite Hb. apply IH. lia.
Qed.

(** The memory test ends, whatever state the modules were in, once
    generator and checker have: it reports the errors the checker counted and,
    if there are any, the recorded ones by address, or its assertion fails if an
    address has two different ones. *)
Lemma memtest_reports (fuel : nat) (d : Dev) (Hg : (gen_time < fuel)%nat) (Hc : (chk_time < fuel)%nat) (Ho : on_error = true) :
  exists d', test_memtest fuel d =
    if (errors_counted =? 0)%Z then Some (Ok ((0%Z, None), d'))
    else match collect (∅, ∅) recorded with
         | Ok acc => Some (Ok ((errors_counted, Some (snd acc)), d'))
         | Raise e => Some (Raise e)
         end.
Proof using Type.
  unfold test_memtest.
  pose proof (wait_generator fuel gen_time 512000 1 idle true Hg) as W1.
  pose proof (fun g body => wait_checker fuel chk_time 512000 1 g true body Hc) as W2.
  remember (wait fuel) as w eqn:Ew. clear Ew. remember (collect (∅, ∅)) as coll eqn:Ec. clear Ec.
  lazy in W1. lazy in W2.
  eexists. lazy. rewrite W1. rewrite W2 by reflexivity. clear W1 W2.
  rewrite Ho. destruct errors_counted as [|p|p]; [reflexivity|..]; by destruct (coll recorded).
Qed.

(** The test of test_sdram_bist.py ends and prints the errors the checker
    counted. *)
Lemma bist_reports (fuel : nat) (d : Dev) (Hg : (gen_time < fuel)%nat) (Hc : (chk_time < fuel)%nat) (Ho : on_error = false) :
  exists d', test_sdram_bist fuel d = Some (Ok (errors_counted, d')).
Proof using Type.
  unfold test_sdram_bist, bist. destruct d as [g0 c0 a0].
  pose proof (wait_generator fuel gen_time 0 65536 c0 true Hg) as W1.
  pose proof (fun g => wait_checker fuel chk_time 0 65536 g true (mret tt : script ()) Hc) as W2.
  destruct fuel as [|fuel]; [lia|]. cbn [wait_analyzer].
  remember (wait (S fuel)) as w eqn:Ew. clear Ew. lazy in W1. lazy in W2.
  eexists. lazy. rewrite W1. rewrite W2 by reflexivity. rewrite Ho. reflexivity.
Qed.
End device.

(** ** The lights *)

Definition last_value (r : string) (l : list (string * Z)) : option Z :=
  fold_left (fun acc w => if String.eqb (fst w) r then Some (snd w) else acc) l None.

Definition pwm_names : list string := rgb_leds ≫= fun n => (fun c => led_name c n) <$> colors.

(** When the script ends every light is enabled with width 0; until then no
    width reaches the period. *)
Lemma leds_dark :
  Forall (fun n => last_value (pwm_reg n "enable") test_leds = Some 1%Z /\ last_value (pwm_reg n "period") test_leds = Some 128%Z /\
            last_value (pwm_reg n "width") test_leds = Some 0%Z) pwm_names /\
  Forall (fun w => exists n, In n pwm_names /\ ((fst w = pwm_reg n "enable" /\ snd w = 1%Z) \/ (fst w = pwm_reg n "period" /\ snd w = 128%Z) \/
            (fst w = pwm_reg n "width" /\ (0 <= snd w <= 64)%Z)))
    (List.filter (fun w => negb (String.eqb (fst w) "leds_out")) test_leds).
Proof.
  assert (Hb : forallb (fun w => existsb (fun n => (String.eqb (fst w) (pwm_reg n "enable") && (snd w =? 1)%Z) ||
      ((String.eqb (fst w) (pwm_reg n "period") && (snd w =? 128)%Z) ||
       (String.eqb (fst w) (pwm_reg n "width") && ((0 <=? snd w) && (snd w <=? 64))%Z))) pwm_names)
    (List.filter (fun w => negb (String.eqb (fst w) "leds_out")) test_leds) = true) by (vm_compute; reflexivity).
  split; [refine (bool_decide_unpack _ _); vm_compute; exact I|]. apply List.Forall_forall. intros w Hw.
  rewrite forallb_forall in Hb. specialize (Hb w Hw). apply existsb_exists in Hb as (n & Hn & Hb). exists n. split; [exact Hn|].
  rewrite !orb_true_iff, !andb_true_iff, !String.eqb_eq, !Z.leb_le, !Z.eqb_eq in Hb. tauto.
Qed.
